(* ===== verification/_CoqProject ===== *)
-Q . S2P
Prelude.v
Core.v
H2.v
H2Connection.v
Crypto.v
KeyLog.v
Tickets.v
AwsTickets.v
AntiReplay.v
Verifier.v
Sct.v
Ocsp.v
OcspTests.v
FuzzTargets.v
Hpke.v
HpkeSession.v
Standards.v
HpkeVectors.v
HpkeTests.v
CtLogs.v
EchConfig.v
RootStore.v
NativeCerts.v
ClientBuilder.v
KeyExchange.v
Provider.v
FacadeClient.v
FacadeServer.v
Streams.v
ClientAuth.v
AwsProvider.v
RcgenEncode.v
RcgenKeys.v
Rcgen.v
Unused.v
Records.v
Quic.v
QuicVectors.v
SessionPool.v
Signer.v
SniResolver.v
Pkcs11Provider.v
UnitTests.v
