(* ===== verification/Prelude.v ===== *)
(** * OxiTLS: a verification development

    OxiTLS (src/crates) is a family of Rust crates around rustls: core types, session
    tickets, certificate verifiers, HPKE, trust anchors, a cryptographic provider
    over RustCrypto, builders of client and server configurations, streams over
    tokio-rustls, HTTP/2, hardware tokens, and certificate generation.  This library
    models the crates' own logic as executable functions and proves what makes it
    correct.  The libraries the code calls (rustls, tokio-rustls, h2, RustCrypto, x509
    and DER parsers, lru, the operating system) are classes of operations, with a
    class of documented laws where a theorem needs one; every such class has a small
    concrete instance, and the theorems that use it are applied to that instance.
    The unit tests and the fuzz targets of the repository are definitions too: the
    tests run on the models, and the fuzz targets are proved for every input.

    ** Parts and files

    - Prelude (this file): bytes, results that may panic, slices, big-endian
      numbers, the tactics [inv_ok], [no_panic], [reflect_tests], [len], and
      [read_byte] and [read_bytes] to run a parser on a known layout.
    - Core: crates/oxitls-core (lib.rs, alert.rs, stream_info.rs): alerts, cipher
      suites, errors with their conversions and messages, connection information.
    - H2, H2Connection: crates/oxitls-h2/src: settings, errors, handshakes and
      builders over the classes [H2Builder] and [H2Handshake]; connection.rs as a
      step relation of the driver, the keepalive task, calls of ping that may be
      dropped, and the cancellation of aborted tasks by the runtime.
    - Crypto: the classes [Sha256], [Digests], [Aead], the record [World] of what
      the OS answers, and their instances in Module Toy.
    - KeyLog: crates/oxitls-core/src/keylog.rs and the bridges to it in the adapter
      (keylog_bridge.rs) and the facade (tls13/client.rs, tls13/server.rs), over a
      file system that may refuse to open a file or stop a write.
    - Tickets: crates/oxitls/src/ticketer.rs.  [ProducesTickets] is the interface
      of a ticketer; [OxiTicketer] implements it with a current and a previous key.
    - AwsTickets: crates/oxitls-adapter-aws-lc/src/ticketer.rs, a second
      [ProducesTickets] whose keys a background task rotates.
    - AntiReplay: crates/oxitls/src/anti_replay.rs.  [AntiReplayTicketer] wraps any
      [ProducesTickets]; [serve] is the step relation of a server that decrypts
      tickets while time passes and keys rotate.  The clocks are instances of
      [Clock].
    - Verifier: the [ServerCertVerifier] record the certificate verifiers wrap
      (over the state they share), and the classes [X509] and [SigPrims] they call.
    - Sct: crates/oxitls-adapter-rustls-rustcrypto/src/verifier/sct.rs.
    - Ocsp: verifier/ocsp_client.rs and verifier/ocsp_crypto.rs; OcspTests: the unit
      tests of the former, over the constructors [OcspBuild] they call.
    - FuzzTargets: the fuzz targets of that adapter (fuzz/fuzz_targets) over Sct and
      Ocsp.
    - Hpke, HpkeSession: src/hpke (kdf.rs, kem.rs, aead.rs, mod.rs).  [DhKem] and
      [AeadSuite] are the Rust traits as records, [KemLaws] and [AeadSuiteLaws]
      what they promise; HpkeSession proves its theorems against the promises.
    - Standards: SHA-256, HMAC, HKDF, X25519, P-256, ECDSA with the nonces of RFC 6979,
      AES, AES-128-GCM and ChaCha20-Poly1305 as their standards define them.  They
      are the published functions the crates implement, and are used only to run the
      repository's own tests and to check its table of CT logs.
    - HpkeVectors, HpkeTests: the vectors of hpke/vectors.rs with the known-answer
      tests of hpke/mod.rs, and the other unit tests of src/hpke, run on Standards.
    - CtLogs: verifier/ct_logs.rs, the table of known logs.
    - EchConfig: src/hpke/ech_config.rs, with a reader of the draft's layout, and a
      client and a server that use a generated configuration.
    - RootStore: crates/oxitls-webpki-roots (lib.rs, intermediate_cache.rs,
      expiring.rs); [LruLaws] states the lru crate's behaviour by recency order.
    - NativeCerts: crates/oxitls-native-certs, over the system's files and trust
      settings.
    - ClientBuilder: verifier/pin.rs, custom.rs, crl.rs, raw_public_key.rs and
      client_builder.rs of the same adapter, which stacks them with Ocsp and Sct
      over the WebPKI verifier ([WebPki]) and the cache of RootStore.
    - KeyExchange: crates/oxitls-core/src/os_rng.rs, kx.rs of the provider (X25519 and
      the macro for P-256 and P-384) and kx.rs of the adapter (the X25519 and ML-KEM
      hybrid, class [MlKem768]).
    - Provider: crates/oxitls-rustcrypto-provider (lib.rs, misc.rs, sign, verify,
      hash.rs, hmac.rs) and the functions of the adapter's lib.rs on the provider;
      connection information of crates/oxitls/src/lib.rs.
    - FacadeClient: crates/oxitls/src/tls13/client.rs and danger.rs.  rustls is the
      record [RustlsClient] of the checks it makes for a provider; pins, CRLs and
      CT logs go through ClientBuilder.
    - FacadeServer: crates/oxitls/src/tls13/server.rs, server_builder.rs and
      cert_compression.rs of the adapter.  Ticketers live in a [Heap], as clones of a
      builder share them; [rotation_task] is the background task, and [run_turns]
      interleaves the tasks of several builds of one builder.
    - Streams: the connector and acceptor of the adapter's lib.rs, stream.rs and the
      generic connector and acceptor of crates/oxitls/src/lib.rs, and the traits of
      oxitls-core they implement.  tokio-rustls is the class [TokioRustls], a future
      is when it completes and with what, and [TokioRustlsLaws] ties a handshake to
      the verifier of its configuration.
    - ClientAuth: the client half of raw_public_key.rs, and whom a server admits;
      [AcceptLaws] is the counterpart for servers, and [history] the handshakes of
      a deployment, in which sessions are resumed.
    - AwsProvider: the rest of crates/oxitls-adapter-aws-lc/src: providers,
      configurations, errors.
    - RcgenEncode, RcgenKeys, Rcgen: crates/oxitls-rcgen/src (cert.rs, keypair.rs,
      csr.rs): DER and PEM writers with readers of the formats, signing keys, and
      certificates and requests over the classes [Rcgen] and [X509Requests].
    - Unused: accessors.rs and pkcs12.rs of that crate and error.rs of oxitls-h2, which
      no crate declares as modules, compared with the code in their place.
    - Records: crates/oxitls-rustcrypto-provider/src/aead (gcm.rs, chacha20.rs).
    - Quic: crates/oxitls-rustcrypto-provider/src/quic.rs; QuicVectors: its unit tests,
      run on Standards.
    - SessionPool: crates/oxitls-adapter-pkcs11/src/pool.rs and error.rs; the atomic
      steps of the pool and [pool_step], their interleavings.
    - Signer: signer.rs and session.rs of that crate, on top of the pool.
    - SniResolver: resolver.rs of that crate.
    - Pkcs11Provider: provider.rs of that crate over the objects of a token
      ([TokenObjects]); its laws are the standard's rules for sessions and logins.
    - UnitTests: the unit tests of oxitls-core, oxitls-h2, oxitls-webpki-roots,
      oxitls-adapter-pkcs11 and verifier/sct.rs.

    ** How code is modelled

    A fallible or panicking Rust function returns [R E A]: [Ok], [Err] or [Panic].
    Slicing, indexing, [copy_from_slice], [unwrap] and overflow checks give [Panic]
    where Rust panics.  Machine integers are [Z] with their range written out;
    [usize] lengths are [nat].  A method that changes its object returns the new
    object with its result.  Lock poisoning is a flag of the state.  Logging is
    dropped.

    ** What is proved

    - Tickets and replay: round trip, one cycle of grace after rotation, totality
      on any bytes; in every run a ticket is accepted exactly when its fingerprint
      was not accepted within the lifetime; what a clock that is advanced or set
      back does to a recorded ticket.
      The aws-lc rotator: which tickets open after which rotations, also as a
      function of time.
    - The client: the verifier [client_build] assembles accepts exactly the servers
      that pass every configured check, proved by composing one lemma per layer.
      The facade: which servers a built client accepts, which options each path of
      [build] follows, and how it fails; what a server is built with, when replay
      protection is installed, and how long tickets open while tasks rotate keys.
    - Connections: a stream the facade or the adapter returns belongs to a server
      that passed exactly the configured checks, or to a client that passed those of
      the server, or of the one whose ticket it resumes; the wrapping streams
      behave as the ones inside; both ends export the same keying material; accepting
      with a deadline completes by then.
    - HTTP/2: the handshakes ask for exactly the settings configured; in every
      interleaving at most one ping is pending, and what a dropped ping does to
      later ones; after a shutdown every task has ended or is being cancelled.
    - The provider: suites are made of the parts their names state; which private keys
      load, and that their signatures verify with a listed algorithm; both sides of
      the hybrid key exchange hold the same secret (exactly if ML-KEM decapsulates)
      and malformed shares are refused.
    - Certificates: every chain of CAs the crate makes and every leaf verifies under
      the CA above; requests round trip through signing; the PEM of a key reads
      back; DER lengths hold up to exact bounds; key generation ends with the first
      usable draw.
    - Key logs: every bridge appends one line per secret and the file reads back.
    - SCT: the list parser reads every list of RFC 6962, it and the DER unwrapping
      accept exactly the inputs described, and never panic; the signed bytes bind what is signed; the counting loop counts
      distinct verified logs; the policies; every known log is listed under the hash
      of its key.
    - OCSP: a Good staple has an authorised signer, a bound and current response
      and no revocation; the evaluation is independent of order; the policies.
    - Fuzz targets: no input makes the SCT parser, the precertificate code or the
      OCSP verifier panic, and a revocation is always authentic.
    - HPKE: round trips over one and many messages, equal exports, unique nonces,
      the sequence limit, exact errors of the KDF; ECH configurations decode to what was encoded, and a client that
      reads one is understood by the server that generated it.
    - Root store: exact contents of a built store and of the expiry report; the
      cache is content-addressed, bounded and keeps what was used recently.
    - PKCS#11: in every reachable state of the pool a session has one user, a permit
      finds a session and nothing leaks; signing returns its session on every path;
      raw signatures and their DER form; name matching as two lookups; a server with
      tenants answers with the chain and key its labels denote; on a token that keeps
      to the standard the provider never opens, and direct signers leave no trace.
    - aws-lc and the platform: where errors differ from those of the core, which
      restrictions are lost, and exactly which roots are loaded.
    - Records and QUIC: round trips, announced lengths, absence of panics where the
      code guards, and the places where it does not: short TLS 1.2 records, every
      accepted QUIC packet, and header protection at the end of a key stream.
    - Tests: the unit tests pass on the models.  Those that generate certificates or
      read the root bundle pass for any that satisfy what the test relies on.

    ** Bounds and fuel

    [parse_sct_loop] runs with one step more than the input has bytes; each step
    consumes two bytes, and running out of fuel is [Panic], which is proved not to
    happen.  [p256_rejection_sample] and [generate_loop] take any fuel above the
    number of rejected draws; without enough, [generate_loop] gives [None], still
    running.  [chunks] has as much fuel as elements and takes one at least per step;
    so has [utf8_lossy_loop] of Pkcs11Provider.  [Ecdsa.candidates] tries four draws,
    of which the first is usable except with probability 2^-32.  The arithmetic of
    Standards runs on machine integers and arbitrary-precision numbers with loops of
    fixed length.  No other definition is bounded.

    ** What is not modelled

    The insides of a handshake, of the record layer and of HTTP/2 framing are
    tokio-rustls and h2, which are parameters.  The fuzz target client_config_parser.rs
    only calls rustls-pemfile.  Debug output, imports and the benchmarks are left out;
    so are the unit tests that compare pointers or only start the system's loader.
    Where a lock makes a call atomic, threads are sequences of calls; the session pool
    and the HTTP/2 connection take a call in several steps, and there the steps
    interleave. *)

From stdpp Require Export base gmap list strings.
From coqutil Require Export Byte.
From Stdlib Require Export ZArith Lia.

(** ** Bytes *)

Abbreviation bytes := (list byte).

#[export] Instance byte_eq_decision : EqDecision Init.Byte.byte := Byte.byte_eq_dec.

#[export] Instance byte_countable : Countable Init.Byte.byte.
Proof. apply (inj_countable Byte.to_N Byte.of_N). exact Byte.of_to_N. Defined.

Declare Scope rust_scope.
Delimit Scope rust_scope with rust.

(** [b"..."]: a Rust byte-string literal. *)
Definition bstr (s : string) : bytes := String.list_byte_of_string s.

(** [x as u8] of a non-negative integer, and the value of a [u8]. *)
Abbreviation u8 z := (byte.of_Z z).
Abbreviation val b := (byte.unsigned b).

(** [{b:02x}]: two lower-case hexadecimal digits. *)
Definition hex_digit (z : Z) : string := String.substring (Z.to_nat z) 1 "0123456789abcdef".
Definition hex02 (b : byte) : string := hex_digit (val b / 16) +:+ hex_digit (val b mod 16).

(** ** Machine integers

    A [u8]/[u16]/[u32]/[u64]/[usize] value is a [Z]; the widths are explicit. *)

Definition U8_MAX : Z := 255.
Definition U16_MAX : Z := 65535.
Definition U32_MAX : Z := 4294967295.
Definition U64_MAX : Z := 18446744073709551615.

Definition in_range (max z : Z) : Prop := (0 <= z <= max)%Z.

(** [a.saturating_sub(b)] on an unsigned type. *)
Definition saturating_sub (a b : Z) : Z := Z.max 0 (a - b).

(** [a.checked_add(b)] on a type whose largest value is [max]. *)
Definition checked_add (max a b : Z) : option Z :=
  if (a + b <=? max)%Z then Some (a + b)%Z else None.

(** ** Results of Rust calls

    [Result<A, E>] together with the third outcome a Rust call has: a panic
    (an index out of range, an [unwrap] of [None], an overflow check).
    [Option<A>] is [R unit A] where the function can also panic. *)

Inductive R (E A : Type) : Type :=
  | Ok (a : A)
  | Err (e : E)
  | Panic.
Arguments Ok {E A} _.
Arguments Err {E A} _.
Arguments Panic {E A}.

#[export] Instance R_ret E : MRet (R E) := fun A a => Ok a.
#[export] Instance R_bind E : MBind (R E) := fun A B f m =>
  match m with Ok a => f a | Err e => Err e | Panic => Panic end.
#[export] Instance R_fmap E : FMap (R E) := fun A B f m =>
  match m with Ok a => Ok (f a) | Err e => Err e | Panic => Panic end.

Definition map_err {E F A} (f : E -> F) (m : R E A) : R F A :=
  match m with Ok a => Ok a | Err e => Err (f e) | Panic => Panic end.

Definition ok_or {E A} (e : E) (o : option A) : R E A :=
  match o with Some a => Ok a | None => Err e end.

(** The result of a library call that does not panic. *)
Definition of_sum {E A} (m : E + A) : R E A :=
  match m with inl e => Err e | inr a => Ok a end.

(** [r.ok()]: the error is forgotten. *)
Definition ok {E A} (m : R E A) : option A :=
  match m with Ok a => Some a | _ => None end.

Definition is_panic {E A} (m : R E A) : bool :=
  match m with Panic => true | _ => false end.

Definition is_ok {E A} (m : R E A) : bool :=
  match m with Ok _ => true | _ => false end.

(** A Rust test returns or panics.  [r.expect(..)], [assert!(b)], [assert_eq!(a, b)],
    and [for x in xs { f(x) }] for a body that may panic. *)

Abbreviation Test := (R Empty_set unit).

Definition expect {E F A} (r : R E A) : R F A := match r with Ok a => Ok a | _ => Panic end.
Definition assert {E} (b : bool) : R E unit := if b then Ok tt else Panic.
Definition assert_eq {E} `{EqDecision A} (a b : A) : R E unit := if decide (a = b) then Ok tt else Panic.

Fixpoint for_each {E A} (f : A -> R E unit) (xs : list A) : R E unit :=
  match xs with
  | [] => Ok tt
  | x :: xs => _ ← f x; for_each f xs
  end.

(** [r.is_err()] of a call that does not panic. *)
Definition is_err {E A} (m : R E A) : bool :=
  match m with Err _ => true | _ => false end.

(** [s.contains(needle)] *)
Fixpoint str_contains (needle s : string) : bool :=
  String.prefix needle s || match s with EmptyString => false | String _ s => str_contains needle s end.

(** [expect] of an [Option]. *)
Definition expect_some {E A} (o : option A) : R E A := match o with Some a => Ok a | None => Panic end.

(** Slices: [&l[i..j]], [l[i]], [dst.copy_from_slice(src)]; each panics when
    Rust does. *)

Definition slice {E} (l : bytes) (i j : nat) : R E bytes :=
  if (i <=? j) && (j <=? length l) then Ok (take (j - i) (drop i l)) else Panic.

Definition index {E} (l : bytes) (i : nat) : R E byte :=
  match l !! i with Some b => Ok b | None => Panic end.

Definition copy_from_slice {E} (dst src : bytes) : R E bytes :=
  if length dst =? length src then Ok src else Panic.

(** A text cut at a separator, as the readers of line formats do. *)
Fixpoint split_on (sep : byte) (l : bytes) : list bytes :=
  match l with
  | [] => [[]]
  | b :: l =>
      if decide (b = sep) then [] :: split_on sep l
      else match split_on sep l with [] => [[b]] | f :: fs => (b :: f) :: fs end
  end.

(** ** Big-endian encodings ([to_be_bytes], [from_be_bytes], I2OSP) *)

Fixpoint be_bytes (n : nat) (z : Z) : bytes :=
  match n with
  | O => []
  | S n' => u8 (Z.shiftr z (8 * Z.of_nat n')) :: be_bytes n' z
  end.

Definition from_be (bs : bytes) : Z :=
  foldl (fun acc b => acc * 256 + val b)%Z 0%Z bs.

(** A big-endian number used as a [usize] length. *)
Definition be_usize (bs : bytes) : nat := Z.to_nat (from_be bs).

(** [a ^ b] on [u8]. *)
Definition xor_byte (a b : byte) : byte := u8 (Z.lxor (val a) (val b)).

(** [str::from_utf8] of the standard library: whether the bytes are UTF-8. *)
Definition between (lo hi : Z) (b : byte) : bool := ((lo <=? val b) && (val b <=? hi))%Z.

Fixpoint utf8_valid (l : bytes) : bool :=
  match l with
  | [] => true
  | b0 :: l1 =>
      if (val b0 <? 0x80)%Z then utf8_valid l1 else
      match l1 with
      | [] => false
      | b1 :: l2 =>
          if between 0xC2 0xDF b0 then between 0x80 0xBF b1 && utf8_valid l2 else
          match l2 with
          | [] => false
          | b2 :: l3 =>
              if between 0xE0 0xEF b0 then
                between (if (val b0 =? 0xE0)%Z then 0xA0 else 0x80) (if (val b0 =? 0xED)%Z then 0x9F else 0xBF) b1
                && between 0x80 0xBF b2 && utf8_valid l3
              else
              match l3 with
              | [] => false
              | b3 :: l4 =>
                  between 0xF0 0xF4 b0
                  && between (if (val b0 =? 0xF0)%Z then 0x90 else 0x80) (if (val b0 =? 0xF4)%Z then 0x8F else 0xBF) b1
                  && between 0x80 0xBF b2 && between 0x80 0xBF b3 && utf8_valid l4
              end
          end
      end
  end.

(** ** Lemmas on results *)

Section results.
Context {E : Type}.

Lemma bind_Ok {A B} (m : R E A) (f : A -> R E B) b :
  (m ≫= f) = Ok b <-> exists a, m = Ok a /\ f a = Ok b.
Proof. destruct m; cbn; naive_solver. Qed.

Lemma bind_Err {A B} (m : R E A) (f : A -> R E B) e :
  (m ≫= f) = Err e <-> m = Err e \/ exists a, m = Ok a /\ f a = Err e.
Proof. destruct m; cbn; naive_solver. Qed.

Lemma bind_no_panic {A B} (m : R E A) (f : A -> R E B) :
  m <> Panic -> (forall a, m = Ok a -> f a <> Panic) -> (m ≫= f) <> Panic.
Proof. destruct m; cbn; naive_solver. Qed.

Lemma ok_or_Ok {A} (e : E) (o : option A) a : ok_or e o = Ok a <-> o = Some a.
Proof. destruct o; cbn; naive_solver. Qed.

Lemma of_sum_Ok {A} (m : E + A) a : of_sum m = Ok a <-> m = inr a.
Proof. destruct m; cbn; naive_solver. Qed.

Lemma ok_Some {A} (m : R E A) a : ok m = Some a <-> m = Ok a.
Proof. destruct m; cbn; naive_solver. Qed.

Lemma is_ok_true {A} (m : R E A) : is_ok m = true <-> exists a, m = Ok a.
Proof. destruct m; cbn; naive_solver. Qed.

Lemma map_err_no_panic {F A} (f : E -> F) (m : R E A) : m <> Panic -> map_err f m <> Panic.
Proof. by destruct m. Qed.

Lemma map_err_Ok {F A} (f : E -> F) (m : R E A) a : map_err f m = Ok a <-> m = Ok a.
Proof. destruct m; cbn; naive_solver. Qed.

Lemma slice_ok (l : bytes) i j :
  i <= j -> j <= length l -> slice (E:=E) l i j = Ok (take (j - i) (drop i l)).
Proof.
  intros Hij Hjl. unfold slice.
  rewrite (proj2 (Nat.leb_le _ _) Hij), (proj2 (Nat.leb_le _ _) Hjl). done.
Qed.

Lemma slice_Ok_inv (l : bytes) i j s :
  slice (E:=E) l i j = Ok s -> i <= j <= length l /\ s = take (j - i) (drop i l).
Proof.
  unfold slice. destruct (i <=? j) eqn:H1; destruct (j <=? length l) eqn:H2; cbn; try done.
  apply Nat.leb_le in H1, H2. naive_solver.
Qed.

Lemma slice_length (l : bytes) i j s : slice (E:=E) l i j = Ok s -> length s = j - i.
Proof.
  intros [? ->]%slice_Ok_inv. rewrite length_take, length_drop. lia.
Qed.

Lemma slice_no_panic (l : bytes) i j :
  i <= j -> j <= length l -> slice (E:=E) l i j <> Panic.
Proof. intros. by rewrite slice_ok. Qed.

Lemma slice_full (l : bytes) i j :
  j = length l -> i <= j -> slice (E:=E) l i j = Ok (drop i l).
Proof.
  intros -> Hi. rewrite slice_ok by lia. f_equal.
  apply take_ge. rewrite length_drop. lia.
Qed.

(** A slice that lies inside the second of three concatenated parts. *)
Lemma slice_app_mid (a m c : bytes) i j :
  i = length a -> j = length a + length m ->
  slice (E:=E) (a ++ m ++ c) i j = Ok m.
Proof.
  intros -> ->. rewrite slice_ok; [|lia|rewrite !length_app; lia]. f_equal.
  rewrite drop_app_length. replace (length a + length m - length a) with (length m) by lia.
  by rewrite take_app_length.
Qed.

Lemma index_ok (l : bytes) i : i < length l -> exists b, index (E:=E) l i = Ok b /\ l !! i = Some b.
Proof. intros [b Hb]%lookup_lt_is_Some_2. unfold index. rewrite Hb. eauto. Qed.

Lemma index_no_panic (l : bytes) i : i < length l -> index (E:=E) l i <> Panic.
Proof. intros (b & -> & _)%index_ok. done. Qed.

Lemma index_app_mid (a c : bytes) b i :
  i = length a -> index (E:=E) (a ++ b :: c) i = Ok b.
Proof. intros ->. unfold index. by rewrite list_lookup_middle. Qed.
End results.

(** ** Lemmas on big-endian numbers *)

Lemma length_be_bytes n z : length (be_bytes n z) = n.
Proof. induction n; cbn; auto. Qed.

Lemma from_be_acc acc bs :
  foldl (fun acc b => acc * 256 + val b)%Z acc bs
  = (acc * 256 ^ Z.of_nat (length bs) + from_be bs)%Z.
Proof.
  unfold from_be. revert acc. induction bs as [|b bs IH]; intros acc.
  - cbn. lia.
  - cbn [foldl length]. rewrite IH, (IH (0 * 256 + val b)%Z).
    rewrite Nat2Z.inj_succ, Z.pow_succ_r by lia. ring.
Qed.

Lemma from_be_cons b bs :
  from_be (b :: bs) = (val b * 256 ^ Z.of_nat (length bs) + from_be bs)%Z.
Proof. unfold from_be at 1. cbn [foldl]. rewrite from_be_acc. lia. Qed.

Lemma from_be_range bs : (0 <= from_be bs < 256 ^ Z.of_nat (length bs))%Z.
Proof.
  induction bs as [|b bs IH]; [cbn; lia|].
  rewrite from_be_cons. cbn [length]. rewrite Nat2Z.inj_succ, Z.pow_succ_r by lia.
  pose proof (byte.unsigned_range b). nia.
Qed.

Lemma from_be_be_bytes n z : from_be (be_bytes n z) = (z mod 256 ^ Z.of_nat n)%Z.
Proof.
  induction n as [|n IH]; cbn [be_bytes].
  - cbn. by rewrite Z.mod_1_r.
  - rewrite from_be_cons, IH, length_be_bytes, byte.unsigned_of_Z.
    unfold byte.wrap. rewrite Z.shiftr_div_pow2 by lia.
    replace (2 ^ (8 * Z.of_nat n))%Z with (256 ^ Z.of_nat n)%Z
      by (rewrite Z.pow_mul_r by lia; done).
    rewrite Nat2Z.inj_succ, Z.pow_succ_r, (Z.mul_comm 256) by lia.
    change (2 ^ 8)%Z with 256%Z.
    assert (0 < 256 ^ Z.of_nat n)%Z by (apply Z.pow_pos_nonneg; lia).
    rewrite Z.rem_mul_r by lia. lia.
Qed.

Lemma from_be_be_bytes_small n z :
  (0 <= z < 256 ^ Z.of_nat n)%Z -> from_be (be_bytes n z) = z.
Proof. intros. rewrite from_be_be_bytes. by apply Z.mod_small. Qed.

Lemma from_be_inj a b : length a = length b -> from_be a = from_be b -> a = b.
Proof.
  revert b. induction a as [|x a IH]; intros [|y b] Hl Hv; cbn in Hl; try done.
  injection Hl as Hl. rewrite !from_be_cons, Hl in Hv.
  pose proof (from_be_range a) as Ha. pose proof (from_be_range b) as Hb. rewrite Hl in Ha.
  assert (val x = val y) as Hxy by nia. apply byte.unsigned_inj in Hxy as ->.
  f_equal. apply IH; [done|lia].
Qed.

Lemma be_bytes_from_be bs : be_bytes (length bs) (from_be bs) = bs.
Proof.
  apply from_be_inj; [apply length_be_bytes|].
  apply from_be_be_bytes_small, from_be_range.
Qed.

Lemma be_bytes_inj n a b :
  (0 <= a < 256 ^ Z.of_nat n)%Z -> (0 <= b < 256 ^ Z.of_nat n)%Z ->
  be_bytes n a = be_bytes n b -> a = b.
Proof.
  intros Ha Hb H%(f_equal from_be).
  by rewrite !from_be_be_bytes_small in H.
Qed.

Lemma be_usize_be_bytes n (k : nat) :
  (Z.of_nat k < 256 ^ Z.of_nat n)%Z -> be_usize (be_bytes n (Z.of_nat k)) = k.
Proof. intros. unfold be_usize. rewrite from_be_be_bytes_small by lia. lia. Qed.

Lemma be_usize_2_range bs : length bs = 2 -> (Z.of_nat (be_usize bs) <= 65535)%Z.
Proof.
  intros Hl. unfold be_usize. pose proof (from_be_range bs) as Hr. rewrite Hl in Hr.
  change (256 ^ Z.of_nat 2)%Z with 65536%Z in Hr. lia.
Qed.

(** Prefix-free decoding of a concatenation whose first parts have equal length. *)
Lemma app_inj_length {A} (a b c d : list A) :
  length a = length c -> a ++ b = c ++ d -> a = c /\ b = d.
Proof. intros. by apply app_inj_1. Qed.

(** Reading forward: what is left after a slice or a byte was read, and the
    converse, reading off the front of what is left. *)
Section reading.
Context {E : Type}.

Lemma slice_step (l : bytes) i j s :
  slice (E:=E) l i j = Ok s -> drop i l = s ++ drop j l /\ length s = j - i /\ j <= length l.
Proof.
  intros H. pose proof (slice_length _ _ _ _ H). apply slice_Ok_inv in H as [Hij ->].
  split_and!; [|done|lia].
  replace (drop j l) with (drop (j - i) (drop i l)) by (rewrite drop_drop; f_equal; lia).
  by rewrite take_drop.
Qed.

Lemma index_step (l : bytes) i b :
  index (E:=E) l i = Ok b -> drop i l = b :: drop (S i) l.
Proof.
  unfold index. destruct (l !! i) eqn:Hi; [|done]. intros [= ->]. by apply drop_S.
Qed.

Lemma read_slice (l : bytes) i j s r :
  drop i l = s ++ r -> j = i + length s -> i <= length l ->
  slice (E:=E) l i j = Ok s /\ drop j l = r.
Proof.
  intros Hd -> Hi. assert (length l = i + length s + length r) as Hl.
  { apply (f_equal length) in Hd. rewrite length_drop, length_app in Hd. lia. }
  rewrite slice_ok, Hd by lia. replace (i + length s - i) with (length s) by lia.
  rewrite take_app_length. split; [done|].
  rewrite <- drop_drop, Hd. apply drop_app_length.
Qed.

Lemma read_index (l : bytes) i b r :
  drop i l = b :: r -> index (E:=E) l i = Ok b /\ drop (S i) l = r.
Proof.
  intros Hd. assert (l !! i = Some b) as Hi.
  { rewrite <- (Nat.add_0_r i), <- lookup_drop, Hd. done. }
  unfold index. rewrite Hi. split; [done|].
  apply drop_S in Hi. rewrite Hi in Hd. by injection Hd.
Qed.
End reading.

Lemma be_usize_from_be bs : Z.of_nat (be_usize bs) = from_be bs.
Proof. unfold be_usize. pose proof (from_be_range bs). lia. Qed.

(** A two-byte length field that says how long [s] is. *)
Lemma be_bytes_usize b0 b1 (n : nat) :
  n = be_usize [b0; b1] -> be_bytes 2 (Z.of_nat n) = [b0; b1].
Proof. intros ->. rewrite be_usize_from_be. exact (be_bytes_from_be [b0; b1]). Qed.

Lemma be_bytes_2 z : exists b0 b1, be_bytes 2 z = [b0; b1].
Proof. cbn. eauto. Qed.

(** ** Lemmas on bytes *)

Lemma u8_val b : u8 (val b) = b.
Proof. apply byte.of_Z_unsigned. Qed.

(** Joining an [n]-bit field below shifted bits. *)
Lemma lor_shiftl n a b : (0 <= n)%Z -> (0 <= b < 2 ^ n)%Z -> Z.lor (Z.shiftl a n) b = (a * 2 ^ n + b)%Z.
Proof.
  intros Hn Hb. destruct (Z.eq_dec b 0) as [->|]; [rewrite Z.lor_0_r, Z.shiftl_mul_pow2; lia|].
  rewrite <- Z.add_nocarry_lor; [by rewrite Z.shiftl_mul_pow2 by lia|].
  apply Z.bits_inj'. intros i Hi. rewrite Z.land_spec, Z.bits_0.
  destruct (Z.lt_ge_cases i n); [by rewrite Z.shiftl_spec_low|].
  rewrite (Z.bits_above_log2 b), andb_false_r; [done|lia|]. apply Z.log2_lt_pow2; [lia|].
  assert (2 ^ n <= 2 ^ i)%Z by (apply Z.pow_le_mono_r; lia). lia.
Qed.

Lemma foldl_lor_from_be bs : foldl (fun len b => Z.lor (Z.shiftl len 8) (val b)) 0%Z bs = from_be bs.
Proof.
  unfold from_be. generalize 0%Z as acc. induction bs as [|b bs IH]; intros acc; cbn [foldl]; [done|].
  rewrite IH, lor_shiftl; [done|lia|apply byte.unsigned_range].
Qed.

Lemma xor_byte_zero b : xor_byte b Byte.x00 = b.
Proof. unfold xor_byte. rewrite Z.lxor_0_r. apply byte.of_Z_unsigned. Qed.

Lemma xor_byte_val a b : val (xor_byte a b) = Z.lxor (val a) (val b).
Proof.
  unfold xor_byte. rewrite byte.unsigned_of_Z. unfold byte.wrap. apply Z.mod_small.
  pose proof (byte.unsigned_range a). pose proof (byte.unsigned_range b).
  split; [apply Z.lxor_nonneg; lia|].
  destruct (Z.eq_dec (Z.lxor (val a) (val b)) 0) as [->|Hnz]; [lia|].
  assert (0 < Z.lxor (val a) (val b))%Z by (pose proof (proj2 (Z.lxor_nonneg (val a) (val b))); lia).
  apply Z.log2_lt_pow2; [done|]. eapply Z.le_lt_trans; [apply Z.log2_lxor; lia|].
  assert (forall z, (0 <= z < 256)%Z -> (Z.log2 z < 8)%Z) as Hlog.
  { intros z Hz. destruct (Z.eq_dec z 0) as [->|]; [cbn; lia|]. apply Z.log2_lt_pow2; cbn; lia. }
  pose proof (Hlog (val a)). pose proof (Hlog (val b)). lia.
Qed.

Lemma xor_byte_inj a b c : xor_byte a b = xor_byte a c -> b = c.
Proof.
  intros Hx%(f_equal (fun b => val b)). rewrite !xor_byte_val in Hx.
  apply byte.unsigned_inj. apply (f_equal (Z.lxor (val a))) in Hx.
  by rewrite <- !Z.lxor_assoc, Z.lxor_nilpotent, !Z.lxor_0_l in Hx.
Qed.

Lemma xor_byte_twice a m : xor_byte (xor_byte a m) m = a.
Proof.
  apply byte.unsigned_inj. rewrite !xor_byte_val, Z.lxor_assoc, Z.lxor_nilpotent. apply Z.lxor_0_r.
Qed.

(** ** Lemmas on lists *)

Lemma join_cons {A} (l : list A) ls : mjoin (l :: ls) = l ++ mjoin ls.
Proof. done. Qed.

Lemma str_contains_app needle s : str_contains needle (needle +:+ s) = true.
Proof.
  assert (String.prefix needle (needle +:+ s) = true) as Hp.
  { induction needle as [|c needle IH]; [by destruct s|]. change (String c needle +:+ s) with (String c (needle +:+ s)).
    cbn [String.prefix]. destruct (Ascii.ascii_dec c c) as [_|[]]; [exact IH|done]. }
  destruct (needle +:+ s); cbn [str_contains]; by rewrite Hp.
Qed.

Lemma bstr_app s t : bstr (s +:+ t) = bstr s ++ bstr t.
Proof. induction s as [|a s IH]; [done|]. exact (f_equal (cons (Ascii.byte_of_ascii a)) IH). Qed.

Lemma split_on_none sep l : sep ∉ l -> split_on sep l = [l].
Proof.
  induction l as [|b l IH]; [done|]. rewrite not_elem_of_cons. intros [Hb Hl]. cbn [split_on].
  rewrite decide_False, IH by auto. done.
Qed.

Lemma split_on_app sep f rest : sep ∉ f -> split_on sep (f ++ sep :: rest) = f :: split_on sep rest.
Proof.
  induction f as [|b f IH]; cbn [app split_on].
  - by rewrite decide_True.
  - rewrite not_elem_of_cons. intros [Hb Hf]. by rewrite decide_False, IH by auto.
Qed.

Lemma filter_ext_elem {A} (P Q : A -> Prop) `{!forall x, Decision (P x), !forall x, Decision (Q x)} (l : list A) :
  (forall x, x ∈ l -> P x <-> Q x) -> filter P l = filter Q l.
Proof.
  induction l as [|x l IH]; intros HPQ; [done|]. rewrite !filter_cons.
  rewrite IH by (intros; apply HPQ; by right).
  destruct (HPQ x) as [? ?]; [by left|]. by destruct (decide (P x)), (decide (Q x)); tauto.
Qed.

(** Filtering moves an element that stays towards the front. *)
Lemma filter_lookup_le {A} (P : A -> Prop) `{!forall x, Decision (P x)} (l : list A) i x :
  l !! i = Some x -> P x -> exists j, j <= i /\ filter P l !! j = Some x.
Proof.
  revert i. induction l as [|y l IH]; intros [|i] Hi HP; try done; rewrite filter_cons; cbn in Hi.
  - injection Hi as ->. exists 0. by rewrite decide_True.
  - destruct (IH i Hi HP) as (j & Hj & Hf). case_decide; [exists (S j)|exists j]; (split; [lia|done]).
Qed.

(** ** Automation *)

(** Break a chain of [←] in a hypothesis that it is [Ok]. *)
Ltac inv_ok :=
  repeat match goal with
  | H : (_ ≫= _) = Ok _ |- _ => apply bind_Ok in H as (? & ? & ?)
  | H : ok_or _ _ = Ok _ |- _ => apply ok_or_Ok in H
  | H : map_err _ _ = Ok _ |- _ => apply map_err_Ok in H
  | H : of_sum _ = Ok _ |- _ => apply of_sum_Ok in H
  | H : mret _ = Ok _ |- _ => injection H as H
  | H : Ok _ = Ok _ |- _ => injection H as H
  | H : Err _ = Ok _ |- _ => discriminate H
  | H : Panic = Ok _ |- _ => discriminate H
  end; subst.

(** Case analysis on the tests of a Rust [if]. *)
Ltac case_test :=
  match goal with
  | H : context [if ?b then _ else _] |- _ => destruct b eqn:?
  | |- context [if ?b then _ else _] => destruct b eqn:?
  end.

Ltac reflect_tests :=
  repeat match goal with
  | H : (_ <=? _) = true |- _ => apply Nat.leb_le in H
  | H : (_ <=? _) = false |- _ => apply Nat.leb_gt in H
  | H : (_ <? _) = true |- _ => apply Nat.ltb_lt in H
  | H : (_ <? _) = false |- _ => apply Nat.ltb_ge in H
  | H : (_ =? _) = true |- _ => apply Nat.eqb_eq in H
  | H : (_ =? _) = false |- _ => apply Nat.eqb_neq in H
  | H : (_ <=? _)%Z = true |- _ => apply Z.leb_le in H
  | H : (_ <=? _)%Z = false |- _ => apply Z.leb_gt in H
  | H : (_ <? _)%Z = true |- _ => apply Z.ltb_lt in H
  | H : (_ <? _)%Z = false |- _ => apply Z.ltb_ge in H
  | H : (_ =? _)%Z = true |- _ => apply Z.eqb_eq in H
  | H : (_ =? _)%Z = false |- _ => apply Z.eqb_neq in H
  | H : (_ && _) = true |- _ => apply andb_prop in H as [? ?]
  | H : (_ || _) = false |- _ => apply orb_false_elim in H as [? ?]
  | H : negb _ = true |- _ => apply negb_true_iff in H
  | H : negb _ = false |- _ => apply negb_false_iff in H
  end.

(** Absence of panics: walk the chain of [←], keep the length of every slice
    taken, and leave the arithmetic side conditions. *)
Ltac note_lengths :=
  repeat match goal with
  | H : slice _ _ _ = Ok _ |- _ => apply slice_length in H
  end.

(** Running a parser on bytes whose layout is known: [H : drop i l = rest] says
    what is left at position [i]; the tactics execute the next test, byte or slice
    of the goal and move [H] forward. *)
Ltac past_test := rewrite (proj2 (Nat.ltb_ge _ _)) by lia.

Ltac move_to i H := match type of H with drop ?k _ = _ => replace k with i in H by lia end.

Ltac read_byte H :=
  match goal with
  | |- context [@index ?E _ ?i] =>
      move_to i H;
      let Hi := fresh "Hi" in let Hn := fresh "Hn" in
      destruct (read_index (E:=E) _ _ _ _ H) as [Hi Hn];
      rewrite Hi; clear Hi H; rename Hn into H; cbn [mbind R_bind]
  end.

Ltac read_bytes H :=
  match goal with
  | |- context [@slice ?E _ ?i ?j] =>
      move_to i H;
      let Hi := fresh "Hi" in let Hn := fresh "Hn" in
      destruct (read_slice (E:=E) _ i j _ _ H) as [Hi Hn]; [lia|lia|];
      rewrite Hi; clear Hi H; rename Hn into H; cbn [mbind R_bind]
  end.

Ltac no_panic_step :=
  lazymatch goal with
  | |- Ok _ <> Panic => discriminate
  | |- Err _ <> Panic => discriminate
  | |- mret _ <> Panic => discriminate
  | |- mbind _ _ <> Panic => apply bind_no_panic; [|intros ? ?]
  | |- slice _ _ _ <> Panic => apply slice_no_panic
  | |- index _ _ <> Panic => apply index_no_panic
  | |- ok_or _ ?o <> Panic => destruct o; discriminate
  | |- of_sum ?m <> Panic => destruct m; discriminate
  | |- map_err _ _ <> Panic => apply map_err_no_panic
  | |- match ?b with _ => _ end <> Panic => destruct b eqn:?
  end.
Ltac no_panic := cbv zeta; repeat no_panic_step; note_lengths; reflect_tests.

Create HintDb oxitls discriminated.
Create Rewrite HintDb lens.
#[export] Hint Rewrite length_be_bytes @length_app @length_take @length_drop
  @length_cons @length_nil : lens.
#[export] Hint Resolve slice_no_panic index_no_panic : oxitls.

(** Length goals: normalise every [length] and call [lia]. *)
Ltac len := autorewrite with lens in *; cbn [length] in *; lia.
