(* ===== verification/Core.v ===== *)
(** * Core: the vocabulary of [oxitls-core]

    [crates/oxitls-core/src]: protocol versions, cipher suites, connection
    information, alert descriptions and the error type with its conversions.
    [rustls::Error] and [std::io::Error] appear as the constructors and fields
    the code matches on; [rustls]'s [Display] text is an argument. *)

From stdpp Require Import pretty.
From S2P Require Import Prelude.
Local Open Scope Z_scope.

(** ** [AlertDescription] (alert.rs) *)

Inductive AlertDescription :=
  | CloseNotify | UnexpectedMessage | BadRecordMac | RecordOverflow
  | HandshakeFailure | BadCertificate | UnsupportedCertificate
  | CertificateRevoked | CertificateExpired | CertificateUnknown
  | IllegalParameter | UnknownCa | AccessDenied | DecodeError | DecryptErrorAlert
  | ProtocolVersion | InsufficientSecurity | InternalError
  | InappropriateFallback | UserCanceled | MissingExtension
  | UnsupportedExtension | UnrecognizedName | BadCertificateStatusResponse
  | UnknownPskIdentity | CertificateRequired | NoApplicationProtocol
  | UnknownAlert (code : Z).

#[export] Instance AlertDescription_eq_dec : EqDecision AlertDescription.
Proof. solve_decision. Defined.

Definition to_u8 (d : AlertDescription) : Z :=
  match d with
  | CloseNotify => 0
  | UnexpectedMessage => 10
  | BadRecordMac => 20
  | RecordOverflow => 22
  | HandshakeFailure => 40
  | BadCertificate => 42
  | UnsupportedCertificate => 43
  | CertificateRevoked => 44
  | CertificateExpired => 45
  | CertificateUnknown => 46
  | IllegalParameter => 47
  | UnknownCa => 48
  | AccessDenied => 49
  | DecodeError => 50
  | DecryptErrorAlert => 51
  | ProtocolVersion => 70
  | InsufficientSecurity => 71
  | InternalError => 80
  | InappropriateFallback => 86
  | UserCanceled => 90
  | MissingExtension => 109
  | UnsupportedExtension => 110
  | UnrecognizedName => 112
  | BadCertificateStatusResponse => 113
  | UnknownPskIdentity => 115
  | CertificateRequired => 116
  | NoApplicationProtocol => 120
  | UnknownAlert code => code
  end.

Definition alert_from_u8 (code : Z) : AlertDescription :=
  match code with
  | 0 => CloseNotify
  | 10 => UnexpectedMessage
  | 20 => BadRecordMac
  | 22 => RecordOverflow
  | 40 => HandshakeFailure
  | 42 => BadCertificate
  | 43 => UnsupportedCertificate
  | 44 => CertificateRevoked
  | 45 => CertificateExpired
  | 46 => CertificateUnknown
  | 47 => IllegalParameter
  | 48 => UnknownCa
  | 49 => AccessDenied
  | 50 => DecodeError
  | 51 => DecryptErrorAlert
  | 70 => ProtocolVersion
  | 71 => InsufficientSecurity
  | 80 => InternalError
  | 86 => InappropriateFallback
  | 90 => UserCanceled
  | 109 => MissingExtension
  | 110 => UnsupportedExtension
  | 112 => UnrecognizedName
  | 113 => BadCertificateStatusResponse
  | 115 => UnknownPskIdentity
  | 116 => CertificateRequired
  | 120 => NoApplicationProtocol
  | other => UnknownAlert other
  end.

Definition alert_display (d : AlertDescription) : string :=
  match d with
  | CloseNotify => "close_notify"
  | UnexpectedMessage => "unexpected_message"
  | BadRecordMac => "bad_record_mac"
  | RecordOverflow => "record_overflow"
  | HandshakeFailure => "handshake_failure"
  | BadCertificate => "bad_certificate"
  | UnsupportedCertificate => "unsupported_certificate"
  | CertificateRevoked => "certificate_revoked"
  | CertificateExpired => "certificate_expired"
  | CertificateUnknown => "certificate_unknown"
  | IllegalParameter => "illegal_parameter"
  | UnknownCa => "unknown_ca"
  | AccessDenied => "access_denied"
  | DecodeError => "decode_error"
  | DecryptErrorAlert => "decrypt_error"
  | ProtocolVersion => "protocol_version"
  | InsufficientSecurity => "insufficient_security"
  | InternalError => "internal_error"
  | InappropriateFallback => "inappropriate_fallback"
  | UserCanceled => "user_canceled"
  | MissingExtension => "missing_extension"
  | UnsupportedExtension => "unsupported_extension"
  | UnrecognizedName => "unrecognized_name"
  | BadCertificateStatusResponse => "bad_certificate_status_response"
  | UnknownPskIdentity => "unknown_psk_identity"
  | CertificateRequired => "certificate_required"
  | NoApplicationProtocol => "no_application_protocol"
  | UnknownAlert code => "unknown_alert(" +:+ pretty code +:+ ")"
  end.

(** ** [TlsVersion] and [CipherSuite] (lib.rs) *)

Inductive TlsVersion := Tls12 | Tls13.

Definition ALL_VERSIONS : list TlsVersion := [Tls12; Tls13].

Inductive CipherSuite :=
  | Tls13Aes128GcmSha256
  | Tls13Aes256GcmSha384
  | Tls13Chacha20Poly1305Sha256
  | Tls12EcdheEcdsaAes128GcmSha256
  | Tls12EcdheEcdsaAes256GcmSha384
  | Tls12EcdheRsaAes128GcmSha256
  | Tls12EcdheRsaAes256GcmSha384
  | Tls12EcdheEcdsaChacha20Poly1305Sha256
  | Tls12EcdheRsaChacha20Poly1305Sha256
  | UnknownSuite.

#[export] Instance TlsVersion_eq_dec : EqDecision TlsVersion.
Proof. solve_decision. Defined.
#[export] Instance CipherSuite_eq_dec : EqDecision CipherSuite.
Proof. solve_decision. Defined.

Definition iana_value (s : CipherSuite) : byte * byte :=
  match s with
  | Tls13Aes128GcmSha256 => (u8 0x13, u8 0x01)
  | Tls13Aes256GcmSha384 => (u8 0x13, u8 0x02)
  | Tls13Chacha20Poly1305Sha256 => (u8 0x13, u8 0x03)
  | Tls12EcdheEcdsaAes128GcmSha256 => (u8 0xC0, u8 0x2B)
  | Tls12EcdheEcdsaAes256GcmSha384 => (u8 0xC0, u8 0x2C)
  | Tls12EcdheRsaAes128GcmSha256 => (u8 0xC0, u8 0x2F)
  | Tls12EcdheRsaAes256GcmSha384 => (u8 0xC0, u8 0x30)
  | Tls12EcdheEcdsaChacha20Poly1305Sha256 => (u8 0xCC, u8 0xA9)
  | Tls12EcdheRsaChacha20Poly1305Sha256 => (u8 0xCC, u8 0xA8)
  | UnknownSuite => (u8 0xFF, u8 0xFF)
  end.

Definition from_iana (bs : byte * byte) : option CipherSuite :=
  match val bs.1, val bs.2 with
  | 0x13, 0x01 => Some Tls13Aes128GcmSha256
  | 0x13, 0x02 => Some Tls13Aes256GcmSha384
  | 0x13, 0x03 => Some Tls13Chacha20Poly1305Sha256
  | 0xC0, 0x2B => Some Tls12EcdheEcdsaAes128GcmSha256
  | 0xC0, 0x2C => Some Tls12EcdheEcdsaAes256GcmSha384
  | 0xC0, 0x2F => Some Tls12EcdheRsaAes128GcmSha256
  | 0xC0, 0x30 => Some Tls12EcdheRsaAes256GcmSha384
  | 0xCC, 0xA9 => Some Tls12EcdheEcdsaChacha20Poly1305Sha256
  | 0xCC, 0xA8 => Some Tls12EcdheRsaChacha20Poly1305Sha256
  | _, _ => None
  end.

Definition is_tls13 (s : CipherSuite) : bool :=
  match s with
  | Tls13Aes128GcmSha256 | Tls13Aes256GcmSha384 | Tls13Chacha20Poly1305Sha256 => true
  | _ => false
  end.

Definition is_tls12 (s : CipherSuite) : bool :=
  match s with
  | Tls12EcdheEcdsaAes128GcmSha256 | Tls12EcdheEcdsaAes256GcmSha384
  | Tls12EcdheRsaAes128GcmSha256 | Tls12EcdheRsaAes256GcmSha384
  | Tls12EcdheEcdsaChacha20Poly1305Sha256 | Tls12EcdheRsaChacha20Poly1305Sha256 => true
  | _ => false
  end.

Definition is_unknown (s : CipherSuite) : bool :=
  match s with UnknownSuite => true | _ => false end.

Definition ALL_SUITES : list CipherSuite :=
  [ Tls13Aes128GcmSha256; Tls13Aes256GcmSha384; Tls13Chacha20Poly1305Sha256;
    Tls12EcdheEcdsaAes128GcmSha256; Tls12EcdheEcdsaAes256GcmSha384;
    Tls12EcdheRsaAes128GcmSha256; Tls12EcdheRsaAes256GcmSha384;
    Tls12EcdheEcdsaChacha20Poly1305Sha256; Tls12EcdheRsaChacha20Poly1305Sha256 ].

Definition cipher_suite_display (s : CipherSuite) : string :=
  match s with
  | Tls13Aes128GcmSha256 => "TLS_AES_128_GCM_SHA256"
  | Tls13Aes256GcmSha384 => "TLS_AES_256_GCM_SHA384"
  | Tls13Chacha20Poly1305Sha256 => "TLS_CHACHA20_POLY1305_SHA256"
  | Tls12EcdheEcdsaAes128GcmSha256 => "TLS_ECDHE_ECDSA_WITH_AES_128_GCM_SHA256"
  | Tls12EcdheEcdsaAes256GcmSha384 => "TLS_ECDHE_ECDSA_WITH_AES_256_GCM_SHA384"
  | Tls12EcdheRsaAes128GcmSha256 => "TLS_ECDHE_RSA_WITH_AES_128_GCM_SHA256"
  | Tls12EcdheRsaAes256GcmSha384 => "TLS_ECDHE_RSA_WITH_AES_256_GCM_SHA384"
  | Tls12EcdheEcdsaChacha20Poly1305Sha256 => "TLS_ECDHE_ECDSA_WITH_CHACHA20_POLY1305_SHA256"
  | Tls12EcdheRsaChacha20Poly1305Sha256 => "TLS_ECDHE_RSA_WITH_CHACHA20_POLY1305_SHA256"
  | UnknownSuite => "UNKNOWN"
  end.

(** ** Errors

    [std::io::ErrorKind], as far as it is stable and named. *)

Inductive ErrorKind :=
  | NotFound | PermissionDenied | ConnectionRefused | ConnectionReset
  | ConnectionAborted | NotConnected | AddrInUse | AddrNotAvailable | BrokenPipe
  | AlreadyExists | WouldBlock | InvalidInput | InvalidData | TimedOut | WriteZero
  | Interrupted | Unsupported | UnexpectedEof | OutOfMemory | OtherKind.

Record IoError := { io_kind : ErrorKind; io_message : string }.

Inductive TlsError :=
  | Io (k : ErrorKind)
  | Handshake (s : string)
  | BadCert (s : string)
  | InvalidConfig (s : string)
  | CertRevoked (s : string)
  | CertInvalid (s : string)
  | ProtocolViolation (s : string)
  | AlertReceived (d : AlertDescription)
  | Other (s : string).

Definition is_handshake (e : TlsError) : bool :=
  match e with Handshake _ => true | _ => false end.
Definition is_io (e : TlsError) : bool :=
  match e with Io _ => true | _ => false end.
Definition is_cert (e : TlsError) : bool :=
  match e with BadCert _ | CertRevoked _ | CertInvalid _ => true | _ => false end.
Definition is_config (e : TlsError) : bool :=
  match e with InvalidConfig _ => true | _ => false end.
Definition is_protocol_violation (e : TlsError) : bool :=
  match e with ProtocolViolation _ => true | _ => false end.

Definition tls_version_from_str (s : string) : R TlsError TlsVersion :=
  if bool_decide (s ∈ ["TLS 1.2"; "tls1.2"; "TLSv1.2"; "1.2"]) then Ok Tls12
  else if bool_decide (s ∈ ["TLS 1.3"; "tls1.3"; "TLSv1.3"; "1.3"]) then Ok Tls13
  else Err (Other ("unknown TLS version: " +:+ s)).

Definition tls_version_display (v : TlsVersion) : string :=
  match v with Tls12 => "TLS 1.2" | Tls13 => "TLS 1.3" end.

Definition cipher_suite_from_str (s : string) : R TlsError CipherSuite :=
  if String.eqb s "TLS_AES_128_GCM_SHA256" then Ok Tls13Aes128GcmSha256
  else if String.eqb s "TLS_AES_256_GCM_SHA384" then Ok Tls13Aes256GcmSha384
  else if String.eqb s "TLS_CHACHA20_POLY1305_SHA256" then Ok Tls13Chacha20Poly1305Sha256
  else if String.eqb s "TLS_ECDHE_ECDSA_WITH_AES_128_GCM_SHA256" then Ok Tls12EcdheEcdsaAes128GcmSha256
  else if String.eqb s "TLS_ECDHE_ECDSA_WITH_AES_256_GCM_SHA384" then Ok Tls12EcdheEcdsaAes256GcmSha384
  else if String.eqb s "TLS_ECDHE_RSA_WITH_AES_128_GCM_SHA256" then Ok Tls12EcdheRsaAes128GcmSha256
  else if String.eqb s "TLS_ECDHE_RSA_WITH_AES_256_GCM_SHA384" then Ok Tls12EcdheRsaAes256GcmSha384
  else if String.eqb s "TLS_ECDHE_ECDSA_WITH_CHACHA20_POLY1305_SHA256" then Ok Tls12EcdheEcdsaChacha20Poly1305Sha256
  else if String.eqb s "TLS_ECDHE_RSA_WITH_CHACHA20_POLY1305_SHA256" then Ok Tls12EcdheRsaChacha20Poly1305Sha256
  else if String.eqb s "UNKNOWN" then Ok UnknownSuite
  else Err (Other ("unknown cipher suite: " +:+ s)).

(** [rustls::SignatureScheme]; a scheme the code does not name is its [Debug] text. *)
Inductive SignatureScheme :=
  | ECDSA_NISTP256_SHA256 | ECDSA_NISTP384_SHA384
  | RSA_PKCS1_SHA256 | RSA_PKCS1_SHA384 | RSA_PKCS1_SHA512
  | RSA_PSS_SHA256 | RSA_PSS_SHA384 | RSA_PSS_SHA512
  | ECDSA_NISTP521_SHA512 | ED25519
  | OtherScheme (debug : string).

#[export] Instance scheme_eq_dec : EqDecision SignatureScheme.
Proof. solve_decision. Defined.

Definition scheme_debug (s : SignatureScheme) : string :=
  match s with
  | ECDSA_NISTP256_SHA256 => "ECDSA_NISTP256_SHA256"
  | ECDSA_NISTP384_SHA384 => "ECDSA_NISTP384_SHA384"
  | RSA_PKCS1_SHA256 => "RSA_PKCS1_SHA256"
  | RSA_PKCS1_SHA384 => "RSA_PKCS1_SHA384"
  | RSA_PKCS1_SHA512 => "RSA_PKCS1_SHA512"
  | RSA_PSS_SHA256 => "RSA_PSS_SHA256"
  | RSA_PSS_SHA384 => "RSA_PSS_SHA384"
  | RSA_PSS_SHA512 => "RSA_PSS_SHA512"
  | ECDSA_NISTP521_SHA512 => "ECDSA_NISTP521_SHA512"
  | ED25519 => "ED25519"
  | OtherScheme debug => debug
  end.

Inductive SignatureAlgorithm := ECDSA | RSA | Ed25519Algorithm | OtherAlgorithm.

(** [rustls::CertificateError] and [rustls::Error], by the cases the code
    distinguishes; the remaining variants are named by their [Debug] text, and an
    alert by its wire value as well. *)
Inductive CertificateError :=
  | Revoked
  | UnknownIssuer
  | BadSignature
  | NotValidForName
  | NotValidForNameContext (debug : string)
  | OtherCertificateError (debug : string).

Inductive RustlsError :=
  | NoCertificatesPresented
  | UnsupportedNameType
  | InvalidCertificate (reason : CertificateError)
  | PeerIncompatible (debug : string)
  | PeerMisbehaved (debug : string)
  | RustlsAlertReceived (code : Z) (debug : string)
  | BadMaxFragmentSize
  | General (s : string)
  | EncryptError
  | DecryptError
  | OtherRustlsError (debug : string).

Definition certificate_error_debug (c : CertificateError) : string :=
  match c with
  | Revoked => "Revoked"
  | UnknownIssuer => "UnknownIssuer"
  | BadSignature => "BadSignature"
  | NotValidForName => "NotValidForName"
  | NotValidForNameContext d => d
  | OtherCertificateError d => d
  end.

Definition tls_error_from_io (e : IoError) : TlsError := Io (io_kind e).

Definition io_error_from_tls (e : TlsError) : IoError :=
  match e with
  | Io kind => {| io_kind := kind; io_message := "TLS I/O error" |}
  | Handshake s => {| io_kind := ConnectionAborted; io_message := s |}
  | BadCert s => {| io_kind := InvalidData; io_message := s |}
  | InvalidConfig s => {| io_kind := InvalidInput; io_message := s |}
  | CertRevoked s => {| io_kind := PermissionDenied; io_message := s |}
  | CertInvalid s => {| io_kind := InvalidData; io_message := s |}
  | ProtocolViolation s => {| io_kind := InvalidData; io_message := s |}
  | AlertReceived d =>
      {| io_kind := ConnectionAborted; io_message := "TLS alert: " +:+ alert_display d |}
  | Other s => {| io_kind := OtherKind; io_message := s |}
  end.

(** The [Debug] of an [ErrorKind] is the name of its variant. *)
Definition error_kind_debug (k : ErrorKind) : string :=
  match k with
  | NotFound => "NotFound"
  | PermissionDenied => "PermissionDenied"
  | ConnectionRefused => "ConnectionRefused"
  | ConnectionReset => "ConnectionReset"
  | ConnectionAborted => "ConnectionAborted"
  | NotConnected => "NotConnected"
  | AddrInUse => "AddrInUse"
  | AddrNotAvailable => "AddrNotAvailable"
  | BrokenPipe => "BrokenPipe"
  | AlreadyExists => "AlreadyExists"
  | WouldBlock => "WouldBlock"
  | InvalidInput => "InvalidInput"
  | InvalidData => "InvalidData"
  | TimedOut => "TimedOut"
  | WriteZero => "WriteZero"
  | Interrupted => "Interrupted"
  | Unsupported => "Unsupported"
  | UnexpectedEof => "UnexpectedEof"
  | OutOfMemory => "OutOfMemory"
  | OtherKind => "Other"
  end.

Definition tls_error_display (e : TlsError) : string :=
  match e with
  | Io k => "I/O error: " +:+ error_kind_debug k
  | Handshake s => "handshake error: " +:+ s
  | BadCert s => "bad certificate: " +:+ s
  | InvalidConfig s => "invalid config: " +:+ s
  | CertRevoked s => "certificate revoked: " +:+ s
  | CertInvalid s => "invalid certificate: " +:+ s
  | ProtocolViolation s => "protocol violation: " +:+ s
  | AlertReceived d => "TLS alert received: " +:+ alert_display d
  | Other s => "TLS error: " +:+ s
  end.

(** [rustls_display] is [rustls::Error]'s [Display]. *)
Definition tls_error_from_rustls (rustls_display : RustlsError -> string) (e : RustlsError) : TlsError :=
  match e with
  | NoCertificatesPresented => CertInvalid "no certificates presented"
  | UnsupportedNameType => CertInvalid "unsupported name type"
  | InvalidCertificate reason => CertInvalid (certificate_error_debug reason)
  | PeerIncompatible reason => ProtocolViolation reason
  | PeerMisbehaved reason => ProtocolViolation reason
  | RustlsAlertReceived _ alert => Handshake ("alert: " +:+ alert)
  | BadMaxFragmentSize => InvalidConfig "bad max fragment size"
  | General s => Other s
  | _ => Other (rustls_display e)
  end.

(** ** [ConnectionInfo] and its builder (lib.rs), [stream_info.rs] *)

Record ConnectionInfo := {
  ci_version : option TlsVersion;
  ci_cipher_suite : option CipherSuite;
  ci_alpn_protocol : option bytes;
  ci_sni : option string;
  ci_peer_certificates : list bytes;
}.

Module ConnectionInfoOps.
Definition new : ConnectionInfo :=
  {| ci_version := None; ci_cipher_suite := None; ci_alpn_protocol := None;
     ci_sni := None; ci_peer_certificates := [] |}.

Definition with_version (v : TlsVersion) (self : ConnectionInfo) : ConnectionInfo :=
  {| ci_version := Some v; ci_cipher_suite := ci_cipher_suite self;
     ci_alpn_protocol := ci_alpn_protocol self; ci_sni := ci_sni self;
     ci_peer_certificates := ci_peer_certificates self |}.

Definition with_cipher_suite (s : CipherSuite) (self : ConnectionInfo) : ConnectionInfo :=
  {| ci_version := ci_version self; ci_cipher_suite := Some s;
     ci_alpn_protocol := ci_alpn_protocol self; ci_sni := ci_sni self;
     ci_peer_certificates := ci_peer_certificates self |}.

Definition with_alpn_protocol (p : bytes) (self : ConnectionInfo) : ConnectionInfo :=
  {| ci_version := ci_version self; ci_cipher_suite := ci_cipher_suite self;
     ci_alpn_protocol := Some p; ci_sni := ci_sni self;
     ci_peer_certificates := ci_peer_certificates self |}.

Definition with_sni (n : string) (self : ConnectionInfo) : ConnectionInfo :=
  {| ci_version := ci_version self; ci_cipher_suite := ci_cipher_suite self;
     ci_alpn_protocol := ci_alpn_protocol self; ci_sni := Some n;
     ci_peer_certificates := ci_peer_certificates self |}.

Definition with_peer_certificates (cs : list bytes) (self : ConnectionInfo) : ConnectionInfo :=
  {| ci_version := ci_version self; ci_cipher_suite := ci_cipher_suite self;
     ci_alpn_protocol := ci_alpn_protocol self; ci_sni := ci_sni self;
     ci_peer_certificates := cs |}.

Definition alpn_protocol_str (self : ConnectionInfo) : option bytes :=
  p ← ci_alpn_protocol self; if utf8_valid p then Some p else None.

Definition default : ConnectionInfo := new.
End ConnectionInfoOps.

(** The builder owns a [ConnectionInfo]; each setter assigns one of its fields. *)
Record ConnectionInfoBuilder := { cib_inner : ConnectionInfo }.

Module InfoBuilder.
Definition new : ConnectionInfoBuilder := {| cib_inner := ConnectionInfoOps.default |}.

Definition version (v : TlsVersion) (self : ConnectionInfoBuilder) : ConnectionInfoBuilder :=
  let '{| cib_inner := i |} := self in
  {| cib_inner := {| ci_version := Some v; ci_cipher_suite := ci_cipher_suite i;
       ci_alpn_protocol := ci_alpn_protocol i; ci_sni := ci_sni i;
       ci_peer_certificates := ci_peer_certificates i |} |}.

Definition cipher_suite (s : CipherSuite) (self : ConnectionInfoBuilder) : ConnectionInfoBuilder :=
  let '{| cib_inner := i |} := self in
  {| cib_inner := {| ci_version := ci_version i; ci_cipher_suite := Some s;
       ci_alpn_protocol := ci_alpn_protocol i; ci_sni := ci_sni i;
       ci_peer_certificates := ci_peer_certificates i |} |}.

Definition alpn_protocol (p : bytes) (self : ConnectionInfoBuilder) : ConnectionInfoBuilder :=
  let '{| cib_inner := i |} := self in
  {| cib_inner := {| ci_version := ci_version i; ci_cipher_suite := ci_cipher_suite i;
       ci_alpn_protocol := Some p; ci_sni := ci_sni i;
       ci_peer_certificates := ci_peer_certificates i |} |}.

Definition sni (n : string) (self : ConnectionInfoBuilder) : ConnectionInfoBuilder :=
  let '{| cib_inner := i |} := self in
  {| cib_inner := {| ci_version := ci_version i; ci_cipher_suite := ci_cipher_suite i;
       ci_alpn_protocol := ci_alpn_protocol i; ci_sni := Some n;
       ci_peer_certificates := ci_peer_certificates i |} |}.

Definition peer_certificates (cs : list bytes) (self : ConnectionInfoBuilder) : ConnectionInfoBuilder :=
  let '{| cib_inner := i |} := self in
  {| cib_inner := {| ci_version := ci_version i; ci_cipher_suite := ci_cipher_suite i;
       ci_alpn_protocol := ci_alpn_protocol i; ci_sni := ci_sni i;
       ci_peer_certificates := cs |} |}.

Definition build (self : ConnectionInfoBuilder) : ConnectionInfo := cib_inner self.
End InfoBuilder.

(** What [rustls::CommonState] reports: the protocol version and the cipher
    suite by their wire values, and the ALPN protocol. *)
Record CommonState := {
  cs_protocol_version : option Z;
  cs_negotiated_cipher_suite : option Z;
  cs_alpn_protocol : option bytes;
}.

Definition tls_version_from_rustls (v : Z) : TlsVersion :=
  match v with
  | 0x0304 => Tls13
  | 0x0303 => Tls12
  | _ => Tls12
  end.

Definition cipher_suite_from_rustls (s : Z) : CipherSuite :=
  match s with
  | 0x1302 => Tls13Aes256GcmSha384
  | 0x1301 => Tls13Aes128GcmSha256
  | 0x1303 => Tls13Chacha20Poly1305Sha256
  | 0xC02B => Tls12EcdheEcdsaAes128GcmSha256
  | 0xC02C => Tls12EcdheEcdsaAes256GcmSha384
  | 0xC02F => Tls12EcdheRsaAes128GcmSha256
  | 0xC030 => Tls12EcdheRsaAes256GcmSha384
  | 0xCCA9 => Tls12EcdheEcdsaChacha20Poly1305Sha256
  | 0xCCA8 => Tls12EcdheRsaChacha20Poly1305Sha256
  | _ => UnknownSuite
  end.

Definition connection_info_from (conn : CommonState) : option ConnectionInfo :=
  version ← tls_version_from_rustls <$> cs_protocol_version conn;
  let info := ConnectionInfoOps.with_version version ConnectionInfoOps.new in
  let info := match cipher_suite_from_rustls <$> cs_negotiated_cipher_suite conn with
              | Some c => ConnectionInfoOps.with_cipher_suite c info
              | None => info
              end in
  let info := match cs_alpn_protocol conn with
              | Some a => ConnectionInfoOps.with_alpn_protocol a info
              | None => info
              end in
  Some info.

(** ** Theorems *)

(** Codes RFC 8446 (and the extensions alert.rs lists) assign. *)
Definition assigned_alert_codes : list Z :=
  [0; 10; 20; 22; 40; 42; 43; 44; 45; 46; 47; 48; 49; 50; 51; 70; 71; 80; 86; 90;
   109; 110; 112; 113; 115; 116; 120].

Definition canonical_alert (d : AlertDescription) : Prop :=
  match d with UnknownAlert c => c ∉ assigned_alert_codes | _ => True end.

Lemma alert_from_u8_assigned c :
  c ∈ assigned_alert_codes <-> alert_from_u8 c <> UnknownAlert c.
Proof.
  split.
  - unfold assigned_alert_codes. rewrite !elem_of_cons. intros H.
    repeat destruct H as [->|H]; try discriminate. by apply not_elem_of_nil in H.
  - intros H. unfold assigned_alert_codes. rewrite !elem_of_cons.
    unfold alert_from_u8 in H.
    repeat (match type of H with context [match ?x with _ => _ end] => destruct x end;
            try (by exfalso; apply H); try (clear H; tauto)).
Qed.

Lemma to_u8_alert_from_u8 c : to_u8 (alert_from_u8 c) = c.
Proof.
  unfold alert_from_u8.
  repeat match goal with |- context [match ?x with _ => _ end] => is_var x; destruct x; try done end.
Qed.

(** Alert codes and alert descriptions are in bijection: decoding a code and
    encoding it again gives the code back, and encoding a description and
    decoding it gives the description back exactly when it is not an
    [Unknown(c)] whose code has a name of its own. *)
Theorem alert_codes_bijective :
  (forall c, to_u8 (alert_from_u8 c) = c) /\
  (forall d, alert_from_u8 (to_u8 d) = d <-> canonical_alert d).
Proof.
  split; [exact to_u8_alert_from_u8|]. intros d.
  destruct d; try (split; [done|reflexivity]).
  cbn [to_u8 canonical_alert]. rewrite alert_from_u8_assigned.
  destruct (decide (alert_from_u8 code = UnknownAlert code)) as [H|H]; naive_solver.
Qed.

Lemma from_iana_Some bs s : from_iana bs = Some s -> iana_value s = bs /\ s <> UnknownSuite.
Proof.
  destruct bs as [a b]. unfold from_iana. cbn [fst snd]. intros H.
  assert (u8 (val a) = a /\ u8 (val b) = b) as [Ha Hb] by (split; apply byte.of_Z_unsigned).
  destruct (val a) eqn:Ea; try done; destruct (val b) eqn:Eb; try done;
  repeat (match type of H with context [match ?x with _ => _ end] => destruct x; try done end);
  injection H as <-; split; try done; rewrite <- Ha, <- Hb; reflexivity.
Qed.

(** The cipher-suite identifiers are consistent: the IANA decoder inverts
    the encoder on every named suite and accepts nothing else, the name parser
    inverts [Display] on every suite, every suite is exactly one of TLS 1.3,
    TLS 1.2 and unknown, and the first IANA byte is 0x13 exactly for TLS 1.3. *)
Theorem cipher_suite_identifiers :
  (forall s, from_iana (iana_value s) = if is_unknown s then None else Some s) /\
  (forall bs s, from_iana bs = Some s -> iana_value s = bs /\ s ∈ ALL_SUITES) /\
  (forall s, cipher_suite_from_str (cipher_suite_display s) = Ok s) /\
  (forall s, (Z.b2z (is_tls13 s) + Z.b2z (is_tls12 s) + Z.b2z (is_unknown s) = 1)%Z) /\
  (forall s, (iana_value s).1 = u8 0x13 <-> is_tls13 s = true).
Proof.
  split_and!.
  - by intros [].
  - intros bs s [Hv Hn]%from_iana_Some. split; [done|].
    apply (bool_decide_unpack _). destruct s; try done; vm_compute; exact I.
  - by intros [].
  - by intros [].
  - intros []; cbn; split; intros H; (reflexivity || discriminate H).
Qed.

(** Converting an error to [std::io::Error] and back keeps an I/O
    error as it is, and for every other error the I/O kind tells a revoked
    certificate ([PermissionDenied]) from everything else. *)
Theorem tls_error_io_conversion e :
  (is_io e = true -> tls_error_from_io (io_error_from_tls e) = e) /\
  (is_io e = false -> (io_kind (io_error_from_tls e) = PermissionDenied <->
                       exists s, e = CertRevoked s)).
Proof.
  destruct e; cbn; split; try done; intros _; split; naive_solver.
Qed.

(** Connection information is available exactly once the protocol version
    is known, it never carries an SNI name or peer certificates, and a suite it
    reports as named is the one whose IANA identifier was negotiated. *)
Theorem connection_info_from_spec conn :
  (is_Some (connection_info_from conn) <-> is_Some (cs_protocol_version conn)) /\
  forall info, connection_info_from conn = Some info ->
    ci_sni info = None /\ ci_peer_certificates info = [] /\
    ci_version info = tls_version_from_rustls <$> cs_protocol_version conn /\
    ci_alpn_protocol info = cs_alpn_protocol conn /\
    (forall s, ci_cipher_suite info = Some s -> s <> UnknownSuite ->
       exists z, cs_negotiated_cipher_suite conn = Some z /\
         be_bytes 2 z = [(iana_value s).1; (iana_value s).2]).
Proof.
  destruct conn as [[v|] cs alpn]; cbn [connection_info_from cs_protocol_version]; last first.
  { split; [split; intros [? ?]; discriminate|]. intros info H. discriminate H. }
  split; [split; intros _; eauto|]. intros info [= <-].
  destruct cs as [z|], alpn; cbn; split_and!; try done; intros s [= <-] Hs;
    exists z; (split; [done|]); unfold cipher_suite_from_rustls in *;
    repeat (match type of Hs with context [match ?x with _ => _ end] => destruct x; try done end).
Qed.

Lemma append_cancel_r (s t u : string) : s +:+ u = t +:+ u -> s = t.
Proof.
  intros H. apply (f_equal bstr) in H. rewrite !bstr_app in H. apply app_inv_tail in H.
  apply (f_equal String.string_of_list_byte) in H.
  by rewrite !String.string_of_list_byte_of_string in H.
Qed.

Lemma alert_display_inj d d' : alert_display d = alert_display d' -> d = d'.
Proof.
  destruct d, d'; cbn; intros H; try done.
  apply (inj (String.append _)), append_cancel_r, (inj pretty) in H. by subst.
Qed.

Lemma error_kind_debug_inj k k' : error_kind_debug k = error_kind_debug k' -> k = k'.
Proof. by destruct k, k'. Qed.

(** The message of an error determines the error: no two errors print the
    same, so a log line tells the variant and its contents. *)
Theorem tls_error_display_inj e e' : tls_error_display e = tls_error_display e' -> e = e'.
Proof.
  destruct e, e'; cbn; intros H; try done; apply (inj (String.append _)) in H;
    f_equal; auto using alert_display_inj, error_kind_debug_inj.
Qed.

(** ** [ConnectionInfoBuilder] and the [with_] methods set the same fields *)

Inductive Setter :=
  | SetVersion (v : TlsVersion)
  | SetCipherSuite (s : CipherSuite)
  | SetAlpnProtocol (p : bytes)
  | SetSni (n : string)
  | SetPeerCertificates (cs : list bytes).

Definition run_builder (ss : list Setter) : ConnectionInfo :=
  InfoBuilder.build (foldl (fun b s =>
    match s with
    | SetVersion v => InfoBuilder.version v b
    | SetCipherSuite c => InfoBuilder.cipher_suite c b
    | SetAlpnProtocol p => InfoBuilder.alpn_protocol p b
    | SetSni n => InfoBuilder.sni n b
    | SetPeerCertificates cs => InfoBuilder.peer_certificates cs b
    end) InfoBuilder.new ss).

Definition run_with (ss : list Setter) : ConnectionInfo :=
  foldl (fun i s =>
    match s with
    | SetVersion v => ConnectionInfoOps.with_version v i
    | SetCipherSuite c => ConnectionInfoOps.with_cipher_suite c i
    | SetAlpnProtocol p => ConnectionInfoOps.with_alpn_protocol p i
    | SetSni n => ConnectionInfoOps.with_sni n i
    | SetPeerCertificates cs => ConnectionInfoOps.with_peer_certificates cs i
    end) ConnectionInfoOps.new ss.

(** Every sequence of setter calls gives the same information through the
    builder as through the [with_] methods. *)
Theorem info_builder_agrees ss : run_builder ss = run_with ss.
Proof.
  unfold run_builder, run_with, InfoBuilder.new, ConnectionInfoOps.default.
  generalize ConnectionInfoOps.new. induction ss as [|s ss IH]; intros i; [done|].
  cbn [foldl]. destruct s; apply IH.
Qed.
