(* ===== verification/H2.v ===== *)
(** * H2: the HTTP/2 layer

    crates/oxitls-h2/src: settings, ALPN checks, handshakes and errors (lib.rs), the
    two builders (builder.rs), flow control, priority and push wrappers.  The h2
    crate is the classes [H2Types] (its errors), [H2Builder] (its builders, seen
    by the settings they hold) and [H2Handshake].  H2Connection models the
    connection object. *)

From stdpp Require Import pretty.
From S2P Require Import Prelude Core.

(** ** The h2 crate *)

(** [h2::Error] and [h2::Reason] with the texts they print. *)
Class H2Types := {
  h2_error : Type;
  Reason : Type;
  is_reset : h2_error -> bool;
  error_reason : h2_error -> option Reason;
  h2_error_display : h2_error -> string;
  reason_debug : Reason -> string;
}.

(** The settings a [h2::client::Builder] or [h2::server::Builder] can be given by
    this crate. *)
Inductive Setting :=
  | InitialWindowSize
  | MaxFrameSize
  | MaxConcurrentStreams
  | MaxHeaderListSize
  | HeaderTableSize
  | InitialConnectionWindowSize
  | MaxSendBufferSize.

#[export] Instance Setting_eq_dec : EqDecision Setting.
Proof. solve_decision. Defined.

Abbreviation Settings := (Setting -> option Z).

(** What h2 documents to panic on: a frame size outside of its range, a send
    buffer above [u32::MAX]. *)
Definition setting_legal (s : Setting) (v : Z) : bool :=
  match s with
  | MaxFrameSize => (16384 <=? v)%Z && (v <=? 16777215)%Z
  | MaxSendBufferSize => (v <=? U32_MAX)%Z
  | _ => true
  end.

(** A builder [B]: [b_set] is [builder.<setting>(v)], [None] its panic. *)
Class H2Builder (B : Type) := {
  b_new : B;
  b_set : B -> Setting -> Z -> option B;
  b_get : B -> Settings;
}.

Class H2BuilderLaws (B : Type) `{H2Builder B} := {
  b_new_get : forall s, b_get b_new s = None;
  b_set_legal : forall b s v, is_Some (b_set b s v) <-> setting_legal s v = true;
  b_set_get : forall b s v b' s', b_set b s v = Some b' ->
    b_get b' s' = if decide (s = s') then Some v else b_get b s';
}.

(** [Builder::handshake], and [h2::client::handshake] and [h2::server::handshake],
    which are documented as the handshake of a new builder. *)
Class H2Handshake `{H2Types} (CB SB : Type) := {
  IO : Type;
  SendRequest : Type;
  ClientConnection : Type;
  ServerConnection : Type;
  client_handshake : CB -> IO -> h2_error + SendRequest * ClientConnection;
  server_handshake : SB -> IO -> h2_error + ServerConnection;
  client_handshake_default : IO -> h2_error + SendRequest * ClientConnection;
  server_handshake_default : IO -> h2_error + ServerConnection;
}.

Class H2HandshakeLaws (CB SB : Type) `{!H2Types} `{!H2Builder CB} `{!H2Builder SB} `{!H2Handshake CB SB} := {
  client_default : forall io, client_handshake_default io = client_handshake b_new io;
  server_default : forall io, server_handshake_default io = server_handshake b_new io;
}.

(** ** lib.rs: settings *)

Record H2Settings := {
  initial_window_size : option Z;
  max_frame_size : option Z;
  max_concurrent_streams : option Z;
  max_header_list_size : option Z;
  header_table_size : option Z;
  initial_connection_window_size : option Z;
}.

Definition new : H2Settings :=
  {| initial_window_size := None; max_frame_size := None; max_concurrent_streams := None;
     max_header_list_size := None; header_table_size := None; initial_connection_window_size := None |}.

Definition with_initial_window_size (self : H2Settings) (size : Z) : H2Settings :=
  {| initial_window_size := Some size; max_frame_size := max_frame_size self;
     max_concurrent_streams := max_concurrent_streams self; max_header_list_size := max_header_list_size self;
     header_table_size := header_table_size self;
     initial_connection_window_size := initial_connection_window_size self |}.

Definition with_max_frame_size (self : H2Settings) (size : Z) : H2Settings :=
  {| initial_window_size := initial_window_size self; max_frame_size := Some size;
     max_concurrent_streams := max_concurrent_streams self; max_header_list_size := max_header_list_size self;
     header_table_size := header_table_size self;
     initial_connection_window_size := initial_connection_window_size self |}.

Definition with_max_concurrent_streams (self : H2Settings) (max : Z) : H2Settings :=
  {| initial_window_size := initial_window_size self; max_frame_size := max_frame_size self;
     max_concurrent_streams := Some max; max_header_list_size := max_header_list_size self;
     header_table_size := header_table_size self;
     initial_connection_window_size := initial_connection_window_size self |}.

Definition with_max_header_list_size (self : H2Settings) (size : Z) : H2Settings :=
  {| initial_window_size := initial_window_size self; max_frame_size := max_frame_size self;
     max_concurrent_streams := max_concurrent_streams self; max_header_list_size := Some size;
     header_table_size := header_table_size self;
     initial_connection_window_size := initial_connection_window_size self |}.

Definition with_header_table_size (self : H2Settings) (size : Z) : H2Settings :=
  {| initial_window_size := initial_window_size self; max_frame_size := max_frame_size self;
     max_concurrent_streams := max_concurrent_streams self; max_header_list_size := max_header_list_size self;
     header_table_size := Some size;
     initial_connection_window_size := initial_connection_window_size self |}.

Definition with_initial_connection_window_size (self : H2Settings) (size : Z) : H2Settings :=
  {| initial_window_size := initial_window_size self; max_frame_size := max_frame_size self;
     max_concurrent_streams := max_concurrent_streams self; max_header_list_size := max_header_list_size self;
     header_table_size := header_table_size self; initial_connection_window_size := Some size |}.

(** ** lib.rs: errors *)

(** [{other:?}] of an [Option<&[u8]>]. *)
Definition bytes_debug (bs : bytes) : string := "[" +:+ String.concat ", " (pretty <$> (byte.unsigned <$> bs)) +:+ "]".
Definition alpn_debug (alpn : option bytes) : string :=
  match alpn with None => "None" | Some p => "Some(" +:+ bytes_debug p +:+ ")" end.

Section Errors.
Context `{H2Types}.

Inductive H2Error :=
  | AlpnNotH2 (got : string)
  | H2 (e : h2_error)
  | IoErr (e : IoError)
  | GracefulShutdownTimeout
  | SettingsErr (s : string)
  | StreamReset (r : Reason)
  | Timeout.

Definition is_alpn_not_h2 (self : H2Error) : bool := match self with AlpnNotH2 _ => true | _ => false end.
Definition is_h2 (self : H2Error) : bool := match self with H2 _ => true | _ => false end.
Definition is_io (self : H2Error) : bool := match self with IoErr _ => true | _ => false end.
Definition is_graceful_shutdown_timeout (self : H2Error) : bool :=
  match self with GracefulShutdownTimeout => true | _ => false end.
Definition is_stream_reset (self : H2Error) : bool := match self with StreamReset _ => true | _ => false end.
Definition is_timeout (self : H2Error) : bool :=
  match self with Timeout | GracefulShutdownTimeout => true | _ => false end.

(** A quotation mark, which the text of the first case holds twice. *)
Definition QUOTE : string := String (Ascii.ascii_of_nat 34) EmptyString.

Definition h2_display (self : H2Error) : string :=
  match self with
  | AlpnNotH2 got => "ALPN protocol is not " +:+ QUOTE +:+ "h2" +:+ QUOTE +:+ " (got " +:+ got +:+ ")"
  | H2 e => "h2 error: " +:+ h2_error_display e
  | IoErr e => "I/O error: " +:+ io_message e
  | GracefulShutdownTimeout => "graceful shutdown timed out"
  | SettingsErr s => "settings error: " +:+ s
  | StreamReset r => "H2 stream reset: " +:+ reason_debug r
  | Timeout => "operation timed out"
  end.

(** [Error::source]: the wrapped error, if there is one. *)
Definition source (self : H2Error) : option (h2_error + IoError) :=
  match self with
  | H2 e => Some (inl e)
  | IoErr e => Some (inr e)
  | AlpnNotH2 _ | GracefulShutdownTimeout | SettingsErr _ | StreamReset _ | Timeout => None
  end.

Definition from_h2 (e : h2_error) : H2Error :=
  if is_reset e then match error_reason e with Some reason => StreamReset reason | None => H2 e end
  else H2 e.

Definition from_io (e : IoError) : H2Error := IoErr e.

Definition tls_error_from_h2 (e : H2Error) : TlsError :=
  match e with
  | AlpnNotH2 s => Handshake ("ALPN not h2: " +:+ s)
  | H2 e => Other ("h2: " +:+ h2_error_display e)
  | IoErr e => Io (io_kind e)
  | GracefulShutdownTimeout => Other "graceful shutdown timed out"
  | SettingsErr s => InvalidConfig s
  | StreamReset r => Other ("H2 stream reset: " +:+ reason_debug r)
  | Timeout => Other "h2 operation timed out"
  end.

(** ** lib.rs: ALPN *)

(** Given [session.alpn_protocol()]; the two functions differ in the type of the
    stream. *)
Definition verify_client_alpn (alpn : option bytes) : R H2Error unit :=
  match alpn with
  | Some p => if bool_decide (p = bstr "h2") then Ok tt else Err (AlpnNotH2 (alpn_debug (Some p)))
  | other => Err (AlpnNotH2 (alpn_debug other))
  end.

Definition verify_server_alpn (alpn : option bytes) : R H2Error unit :=
  match alpn with
  | Some p => if bool_decide (p = bstr "h2") then Ok tt else Err (AlpnNotH2 (alpn_debug (Some p)))
  | other => Err (AlpnNotH2 (alpn_debug other))
  end.
End Errors.

(** [if let Some(v) = o { builder.<setting>(v); }] *)
Definition apply_opt {E} `{H2Builder B} (b : B) (s : Setting) (o : option Z) : R E B :=
  match o with
  | Some v => match b_set b s v with Some b => Ok b | None => Panic end
  | None => Ok b
  end.

(** ** lib.rs: handshakes

    A TLS stream is its negotiated protocol and the transport below. *)
Section Handshakes.
Context {CB SB : Type} `{H2Handshake CB SB} `{!H2Builder CB} `{!H2Builder SB}.

Definition h2_client_handshake (alpn : option bytes) (tls : IO) : R H2Error (SendRequest * ClientConnection) :=
  _ ← verify_client_alpn alpn;
  map_err H2 (of_sum (client_handshake_default tls)).

Definition h2_server_handshake (alpn : option bytes) (tls : IO) : R H2Error ServerConnection :=
  _ ← verify_server_alpn alpn;
  map_err H2 (of_sum (server_handshake_default tls)).

Definition h2_client_handshake_with_settings (alpn : option bytes) (tls : IO) (settings : H2Settings)
  : R H2Error (SendRequest * ClientConnection) :=
  _ ← verify_client_alpn alpn;
  let builder := b_new (B:=CB) in
  builder ← apply_opt builder InitialWindowSize (initial_window_size settings);
  builder ← apply_opt builder MaxFrameSize (max_frame_size settings);
  builder ← apply_opt builder MaxHeaderListSize (max_header_list_size settings);
  builder ← apply_opt builder HeaderTableSize (header_table_size settings);
  builder ← apply_opt builder InitialConnectionWindowSize (initial_connection_window_size settings);
  map_err H2 (of_sum (client_handshake builder tls)).

Definition h2_server_handshake_with_settings (alpn : option bytes) (tls : IO) (settings : H2Settings)
  : R H2Error ServerConnection :=
  _ ← verify_server_alpn alpn;
  let builder := b_new (B:=SB) in
  builder ← apply_opt builder InitialWindowSize (initial_window_size settings);
  builder ← apply_opt builder MaxFrameSize (max_frame_size settings);
  builder ← apply_opt builder MaxConcurrentStreams (max_concurrent_streams settings);
  builder ← apply_opt builder MaxHeaderListSize (max_header_list_size settings);
  builder ← apply_opt builder HeaderTableSize (header_table_size settings);
  builder ← apply_opt builder InitialConnectionWindowSize (initial_connection_window_size settings);
  map_err H2 (of_sum (server_handshake builder tls)).
End Handshakes.

(** ** builder.rs *)

Record H2ClientBuilder := {
  cb_max_concurrent_streams : option Z;
  cb_initial_window_size : option Z;
  cb_max_header_list_size : option Z;
  cb_hpack_table_size : option Z;
  cb_max_send_buffer_size : option Z;
  cb_keepalive : option Z;
}.

Definition cb_new : H2ClientBuilder :=
  {| cb_max_concurrent_streams := None; cb_initial_window_size := None; cb_max_header_list_size := None;
     cb_hpack_table_size := None; cb_max_send_buffer_size := None; cb_keepalive := None |}.

Definition cb_with_max_concurrent_streams (self : H2ClientBuilder) (n : Z) : H2ClientBuilder :=
  {| cb_max_concurrent_streams := Some n; cb_initial_window_size := cb_initial_window_size self;
     cb_max_header_list_size := cb_max_header_list_size self; cb_hpack_table_size := cb_hpack_table_size
     self; cb_max_send_buffer_size := cb_max_send_buffer_size self; cb_keepalive := cb_keepalive self |}.

Definition cb_with_initial_window_size (self : H2ClientBuilder) (n : Z) : H2ClientBuilder :=
  {| cb_max_concurrent_streams := cb_max_concurrent_streams self; cb_initial_window_size := Some n;
     cb_max_header_list_size := cb_max_header_list_size self; cb_hpack_table_size := cb_hpack_table_size
     self; cb_max_send_buffer_size := cb_max_send_buffer_size self; cb_keepalive := cb_keepalive self |}.

Definition cb_with_max_header_list_size (self : H2ClientBuilder) (n : Z) : H2ClientBuilder :=
  {| cb_max_concurrent_streams := cb_max_concurrent_streams self; cb_initial_window_size :=
     cb_initial_window_size self; cb_max_header_list_size := Some n; cb_hpack_table_size :=
     cb_hpack_table_size self; cb_max_send_buffer_size := cb_max_send_buffer_size self; cb_keepalive :=
     cb_keepalive self |}.

Definition cb_with_hpack_table_size (self : H2ClientBuilder) (n : Z) : H2ClientBuilder :=
  {| cb_max_concurrent_streams := cb_max_concurrent_streams self; cb_initial_window_size :=
     cb_initial_window_size self; cb_max_header_list_size := cb_max_header_list_size self;
     cb_hpack_table_size := Some n; cb_max_send_buffer_size := cb_max_send_buffer_size self; cb_keepalive
     := cb_keepalive self |}.

Definition cb_with_max_send_buffer_size (self : H2ClientBuilder) (n : Z) : H2ClientBuilder :=
  {| cb_max_concurrent_streams := cb_max_concurrent_streams self; cb_initial_window_size :=
     cb_initial_window_size self; cb_max_header_list_size := cb_max_header_list_size self;
     cb_hpack_table_size := cb_hpack_table_size self; cb_max_send_buffer_size := Some n; cb_keepalive :=
     cb_keepalive self |}.

Definition cb_with_keepalive (self : H2ClientBuilder) (d : Z) : H2ClientBuilder :=
  {| cb_max_concurrent_streams := cb_max_concurrent_streams self; cb_initial_window_size :=
     cb_initial_window_size self; cb_max_header_list_size := cb_max_header_list_size self;
     cb_hpack_table_size := cb_hpack_table_size self; cb_max_send_buffer_size := cb_max_send_buffer_size
     self; cb_keepalive := Some d |}.

(** The h2 builder that [handshake] sets up. *)
Definition cb_configure {E} `{H2Builder B} (self : H2ClientBuilder) : R E B :=
  let builder := b_new (B:=B) in
  builder ← apply_opt builder MaxConcurrentStreams (cb_max_concurrent_streams self);
  builder ← apply_opt builder InitialWindowSize (cb_initial_window_size self);
  builder ← apply_opt builder MaxHeaderListSize (cb_max_header_list_size self);
  builder ← apply_opt builder HeaderTableSize (cb_hpack_table_size self);
  builder ← apply_opt builder MaxSendBufferSize (cb_max_send_buffer_size self);
  Ok builder.

Record H2ServerBuilder := {
  sb_max_concurrent_streams : option Z;
  sb_initial_window_size : option Z;
  sb_max_header_list_size : option Z;
  sb_hpack_table_size : option Z;
  sb_max_send_buffer_size : option Z;
  sb_push_enabled : option bool;
  sb_keepalive : option Z;
}.

Definition sb_new : H2ServerBuilder :=
  {| sb_max_concurrent_streams := None; sb_initial_window_size := None; sb_max_header_list_size := None;
     sb_hpack_table_size := None; sb_max_send_buffer_size := None; sb_push_enabled := None; sb_keepalive
     := None |}.

Definition sb_with_max_concurrent_streams (self : H2ServerBuilder) (n : Z) : H2ServerBuilder :=
  {| sb_max_concurrent_streams := Some n; sb_initial_window_size := sb_initial_window_size self;
     sb_max_header_list_size := sb_max_header_list_size self; sb_hpack_table_size := sb_hpack_table_size
     self; sb_max_send_buffer_size := sb_max_send_buffer_size self; sb_push_enabled := sb_push_enabled
     self; sb_keepalive := sb_keepalive self |}.

Definition sb_with_initial_window_size (self : H2ServerBuilder) (n : Z) : H2ServerBuilder :=
  {| sb_max_concurrent_streams := sb_max_concurrent_streams self; sb_initial_window_size := Some n;
     sb_max_header_list_size := sb_max_header_list_size self; sb_hpack_table_size := sb_hpack_table_size
     self; sb_max_send_buffer_size := sb_max_send_buffer_size self; sb_push_enabled := sb_push_enabled
     self; sb_keepalive := sb_keepalive self |}.

Definition sb_with_max_header_list_size (self : H2ServerBuilder) (n : Z) : H2ServerBuilder :=
  {| sb_max_concurrent_streams := sb_max_concurrent_streams self; sb_initial_window_size :=
     sb_initial_window_size self; sb_max_header_list_size := Some n; sb_hpack_table_size :=
     sb_hpack_table_size self; sb_max_send_buffer_size := sb_max_send_buffer_size self; sb_push_enabled
     := sb_push_enabled self; sb_keepalive := sb_keepalive self |}.

Definition sb_with_hpack_table_size (self : H2ServerBuilder) (n : Z) : H2ServerBuilder :=
  {| sb_max_concurrent_streams := sb_max_concurrent_streams self; sb_initial_window_size :=
     sb_initial_window_size self; sb_max_header_list_size := sb_max_header_list_size self;
     sb_hpack_table_size := Some n; sb_max_send_buffer_size := sb_max_send_buffer_size self;
     sb_push_enabled := sb_push_enabled self; sb_keepalive := sb_keepalive self |}.

Definition sb_with_max_send_buffer_size (self : H2ServerBuilder) (n : Z) : H2ServerBuilder :=
  {| sb_max_concurrent_streams := sb_max_concurrent_streams self; sb_initial_window_size :=
     sb_initial_window_size self; sb_max_header_list_size := sb_max_header_list_size self;
     sb_hpack_table_size := sb_hpack_table_size self; sb_max_send_buffer_size := Some n; sb_push_enabled
     := sb_push_enabled self; sb_keepalive := sb_keepalive self |}.

Definition sb_with_push_enabled (self : H2ServerBuilder) (b : bool) : H2ServerBuilder :=
  {| sb_max_concurrent_streams := sb_max_concurrent_streams self; sb_initial_window_size :=
     sb_initial_window_size self; sb_max_header_list_size := sb_max_header_list_size self;
     sb_hpack_table_size := sb_hpack_table_size self; sb_max_send_buffer_size := sb_max_send_buffer_size
     self; sb_push_enabled := Some b; sb_keepalive := sb_keepalive self |}.

Definition sb_with_keepalive (self : H2ServerBuilder) (d : Z) : H2ServerBuilder :=
  {| sb_max_concurrent_streams := sb_max_concurrent_streams self; sb_initial_window_size :=
     sb_initial_window_size self; sb_max_header_list_size := sb_max_header_list_size self;
     sb_hpack_table_size := sb_hpack_table_size self; sb_max_send_buffer_size := sb_max_send_buffer_size
     self; sb_push_enabled := sb_push_enabled self; sb_keepalive := Some d |}.

(** The h2 builder that [accept] sets up. *)
Definition sb_configure {E} `{H2Builder B} (self : H2ServerBuilder) : R E B :=
  let builder := b_new (B:=B) in
  builder ← apply_opt builder MaxConcurrentStreams (sb_max_concurrent_streams self);
  builder ← apply_opt builder InitialWindowSize (sb_initial_window_size self);
  builder ← apply_opt builder MaxHeaderListSize (sb_max_header_list_size self);
  builder ← apply_opt builder HeaderTableSize (sb_hpack_table_size self);
  builder ← apply_opt builder MaxSendBufferSize (sb_max_send_buffer_size self);
  Ok builder.

(** ** flow_control.rs, priority.rs, server_push.rs *)

(** [h2::FlowControl]: the window that is open, the capacity in use, and
    [release_capacity], which refuses to give back more than is in use. *)
Class H2FlowControl `{H2Types} := {
  FlowControl : Type;
  fc_available : FlowControl -> Z;
  fc_used : FlowControl -> Z;
  fc_release : FlowControl -> Z -> h2_error + FlowControl;
}.

Class H2FlowControlLaws `{H2FlowControl} := {
  fc_used_nonneg : forall f, (0 <= fc_used f)%Z;
  fc_release_ok : forall f n, (0 <= n <= fc_used f)%Z ->
    exists f', fc_release f n = inr f' /\ fc_used f' = (fc_used f - n)%Z;
  fc_release_err : forall f n, (fc_used f < n)%Z -> exists e, fc_release f n = inl e;
}.

Section FlowControl.
Context `{H2FlowControl}.

Record OxiFlowControl := { fc_inner : FlowControl }.

Definition flow_control_new (inner : FlowControl) : OxiFlowControl := {| fc_inner := inner |}.
Definition available_capacity (self : OxiFlowControl) : Z := fc_available (fc_inner self).
Definition used_capacity (self : OxiFlowControl) : Z := fc_used (fc_inner self).

(** On an error the handle stays as it was. *)
Definition release_capacity (self : OxiFlowControl) (n : Z) : OxiFlowControl * R H2Error unit :=
  match fc_release (fc_inner self) n with
  | inr inner => ({| fc_inner := inner |}, Ok tt)
  | inl e => (self, Err (from_h2 e))
  end.

(** A reader that gives back the chunks it has consumed, stopping at an error. *)
Fixpoint release_all (self : OxiFlowControl) (ns : list Z) : OxiFlowControl * R H2Error unit :=
  match ns with
  | [] => (self, Ok tt)
  | n :: ns =>
      match release_capacity self n with
      | (self, Ok _) => release_all self ns
      | r => r
      end
  end.
End FlowControl.

Record StreamPriority := { dependency : Z; exclusive : bool; weight : Z }.

Definition stream_priority_new (dependency : Z) (exclusive : bool) (weight : Z) : StreamPriority :=
  {| dependency := dependency; exclusive := exclusive; weight := weight |}.
Definition stream_priority_default : StreamPriority := {| dependency := 0; exclusive := false; weight := 16 |}.

(** [h2::server::SendResponse] and [SendPushedResponse]. *)
Class H2Push `{H2Types} := {
  Request : Type;
  Response : Type;
  SendResponse : Type;
  SendPushedResponse : Type;
  SendStream : Type;
  push_request : SendResponse -> Request -> SendResponse * (h2_error + SendPushedResponse);
  send_pushed_response : SendPushedResponse -> Response -> bool -> h2_error + SendStream;
}.

Section Push.
Context `{H2Push}.

Record H2ServerPush := { send_response_of : SendResponse }.
Record H2PushedStream := { pushed_inner : SendPushedResponse }.

Definition server_push_new (send_response : SendResponse) : H2ServerPush := {| send_response_of := send_response |}.

Definition push (self : H2ServerPush) (request : Request) : H2ServerPush * R H2Error H2PushedStream :=
  let '(sr, r) := push_request (send_response_of self) request in
  ({| send_response_of := sr |},
   map_err from_h2 ((fun inner => {| pushed_inner := inner |}) <$> of_sum r)).

Definition into_inner (self : H2ServerPush) : SendResponse := send_response_of self.

Definition send_response (self : H2PushedStream) (response : Response) (end_of_stream : bool)
  : R H2Error SendStream :=
  map_err from_h2 (of_sum (send_pushed_response (pushed_inner self) response end_of_stream)).
End Push.

(** ** Settings reach the handshake *)

(** The [if let] statements of the functions above, as a list. *)
Fixpoint apply_list {E} `{H2Builder B} (b : B) (l : list (Setting * option Z)) : R E B :=
  match l with
  | [] => Ok b
  | (s, o) :: l => b ← apply_opt b s o; apply_list b l
  end.

Definition opt_legal (so : Setting * option Z) : bool :=
  match so.2 with Some v => setting_legal so.1 v | None => true end.

Section Apply.
Context `{H2BuilderLaws B}.

Lemma apply_opt_ok {E} b s o :
  opt_legal (s, o) = true ->
  exists b', apply_opt (E:=E) b s o = Ok b' /\
    forall s', b_get b' s' = if decide (s = s') then match o with Some v => Some v | None => b_get b s' end else b_get b s'.
Proof.
  destruct o as [v|]; cbn; intros Hl.
  - apply (b_set_legal b) in Hl as [b' Hb]. rewrite Hb. exists b'. split; [done|].
    intros s'. by apply b_set_get.
  - exists b. split; [done|]. intros s'. by destruct (decide (s = s')).
Qed.

Lemma apply_opt_panic {E} b s o : opt_legal (s, o) = false -> apply_opt (E:=E) b s o = Panic.
Proof.
  destruct o as [v|]; cbn; [|done]. intros Hl. destruct (b_set b s v) eqn:Hb; [|done].
  assert (is_Some (b_set b s v)) as Hs by eauto. apply b_set_legal in Hs. congruence.
Qed.

(** Settings named once each are all applied when they are legal, and an illegal
    one is a panic. *)
Lemma apply_list_spec {E} b (f : Settings) ss :
  NoDup ss ->
  let l := (fun s => (s, f s)) <$> ss in
  if forallb opt_legal l
  then exists b', apply_list (E:=E) b l = Ok b' /\
    forall s, b_get b' s = if decide (s ∈ ss) then match f s with Some v => Some v | None => b_get b s end else b_get b s
  else apply_list (E:=E) b l = Panic.
Proof.
  intros Hn. cbv zeta. revert b. induction Hn as [|s ss Hs Hn IH]; intros b.
  { exists b. split; [done|]. intros s. by rewrite decide_False by apply not_elem_of_nil. }
  rewrite fmap_cons. cbn [forallb apply_list].
  destruct (opt_legal (s, f s)) eqn:Hl; cbn [andb]; [|by rewrite apply_opt_panic].
  destruct (apply_opt_ok (E:=E) b s (f s) Hl) as (b1 & -> & Hb1). cbn [mbind R_bind]. specialize (IH b1).
  destruct (forallb opt_legal _); [|exact IH]. destruct IH as (b' & -> & Hb'). exists b'. split; [done|]. intros s'.
  rewrite Hb', !Hb1. destruct (decide (s = s')) as [<-|Hne].
  - rewrite decide_False by done. by rewrite decide_True by left.
  - destruct (decide (s' ∈ ss)); [rewrite decide_True by by right|rewrite decide_False by set_solver]; done.
Qed.
End Apply.

(** What each function asks h2 for.  The client leaves the number of streams to
    h2, whatever the settings say. *)
Definition client_settings (c : H2Settings) : Settings := fun s =>
  match s with
  | InitialWindowSize => initial_window_size c
  | MaxFrameSize => max_frame_size c
  | MaxHeaderListSize => max_header_list_size c
  | HeaderTableSize => header_table_size c
  | InitialConnectionWindowSize => initial_connection_window_size c
  | MaxConcurrentStreams | MaxSendBufferSize => None
  end.

Definition server_settings (c : H2Settings) : Settings := fun s =>
  match s with
  | MaxConcurrentStreams => max_concurrent_streams c
  | s => client_settings c s
  end.

Definition frame_size_legal (c : H2Settings) : bool := opt_legal (MaxFrameSize, max_frame_size c).

(** Three outcomes: a wrong protocol is refused before h2 is asked, an illegal
    frame size panics, and otherwise [handshake] is called with a builder that
    holds exactly the settings [want]. *)
Definition handshake_outcome `{H2Types} `{H2Builder B} {A C} (handshake : B -> C -> h2_error + A)
    (want : Settings) (alpn : option bytes) (legal : bool) (tls : C) (r : R H2Error A) : Prop :=
  if decide (alpn = Some (bstr "h2")) then
    if legal then exists b, (forall s, b_get b s = want s) /\ r = map_err H2 (of_sum (handshake b tls))
    else r = Panic
  else r = Err (AlpnNotH2 (alpn_debug alpn)).

Lemma verify_alpn_eq `{H2Types} alpn :
  verify_client_alpn alpn = if decide (alpn = Some (bstr "h2")) then Ok tt else Err (AlpnNotH2 (alpn_debug alpn)).
Proof.
  unfold verify_client_alpn. destruct alpn as [p|]; [|by rewrite decide_False].
  case_bool_decide; [subst; by rewrite decide_True|]. rewrite decide_False; [done|congruence].
Qed.

(** A function that applies its settings one by one and goes on with [k]. *)
Lemma apply_list_outcome {E A} `{H2BuilderLaws B} (k : B -> R E A) (f : Settings) ss legal :
  NoDup ss -> forallb opt_legal ((fun s => (s, f s)) <$> ss) = legal -> (forall s, s ∉ ss -> f s = None) ->
  let r := apply_list b_new ((fun s => (s, f s)) <$> ss) ≫= k in
  if legal : bool then exists b, (forall s, b_get b s = f s) /\ r = k b else r = Panic.
Proof.
  intros Hn Hl Hout r. subst r. pose proof (apply_list_spec (E:=E) b_new f ss Hn) as Ha. cbv zeta in Ha.
  rewrite Hl in Ha. destruct legal; [|by rewrite Ha]. destruct Ha as (b & -> & Hb).
  exists b. split; [|done]. intros s. rewrite Hb, b_new_get.
  destruct (decide (s ∈ ss)) as [|Hs]; [by destruct (f s)|]. by rewrite Hout.
Qed.

Definition client_order : list Setting :=
  [InitialWindowSize; MaxFrameSize; MaxHeaderListSize; HeaderTableSize; InitialConnectionWindowSize].
Definition server_order : list Setting :=
  [InitialWindowSize; MaxFrameSize; MaxConcurrentStreams; MaxHeaderListSize; HeaderTableSize;
   InitialConnectionWindowSize].
Definition builder_order : list Setting :=
  [MaxConcurrentStreams; InitialWindowSize; MaxHeaderListSize; HeaderTableSize; MaxSendBufferSize].

Ltac as_apply_list :=
  cbn [fmap list_fmap apply_list client_order server_order builder_order client_settings server_settings];
  repeat match goal with |- context [apply_opt ?b ?s ?o] =>
    destruct (apply_opt b s o); cbn [mbind R_bind]; [|done..] end;
  done.

(** A setting that cannot be illegal, whatever its value. *)
Lemma opt_legal_any s o : s <> MaxFrameSize -> s <> MaxSendBufferSize -> opt_legal (s, o) = true.
Proof. by destruct s, o. Qed.

(** The three conditions on an order of settings. *)
Ltac settle_order :=
  [> apply (bool_decide_unpack _); vm_compute; exact I
   | cbn [forallb fmap list_fmap client_order server_order builder_order client_settings server_settings];
     repeat match goal with |- context [opt_legal (?s, ?o)] => rewrite (opt_legal_any s o) by discriminate end;
     cbn [andb]; by rewrite ?andb_true_r
   | intros s Hs; destruct s; try done; exfalso; apply Hs; unfold client_order, server_order, builder_order; set_solver ].

Section HandshakeProperties.
Context {CB SB : Type} `{H2Handshake CB SB} `{!H2Builder CB} `{!H2Builder SB}
  `{!H2BuilderLaws CB} `{!H2BuilderLaws SB}.

(** With its settings, each side asks h2 for exactly what was configured (the
    client never for a number of streams), refuses any protocol but h2 without
    calling h2, and panics on a frame size outside of [16384, 16777215]. *)
Theorem handshake_with_settings alpn tls c :
  handshake_outcome client_handshake (client_settings c) alpn (frame_size_legal c) tls
    (h2_client_handshake_with_settings alpn tls c) /\
  handshake_outcome server_handshake (server_settings c) alpn (frame_size_legal c) tls
    (h2_server_handshake_with_settings alpn tls c).
Proof.
  split; unfold handshake_outcome, h2_client_handshake_with_settings, h2_server_handshake_with_settings;
    [|change (verify_server_alpn alpn) with (verify_client_alpn alpn)];
    rewrite verify_alpn_eq; (case_decide; [|done]); cbn [mbind R_bind].
  - set (k := fun b => map_err H2 (of_sum (client_handshake b tls))).
    enough (forall r, r = apply_list b_new ((fun s => (s, client_settings c s)) <$> client_order) ≫= k ->
      if frame_size_legal c then exists b, (forall s, b_get b s = client_settings c s) /\ r = k b else r = Panic)
      as Hr by (apply Hr; as_apply_list).
    intros r ->. apply apply_list_outcome. all: settle_order.
  - set (k := fun b => map_err H2 (of_sum (server_handshake b tls))).
    enough (forall r, r = apply_list b_new ((fun s => (s, server_settings c s)) <$> server_order) ≫= k ->
      if frame_size_legal c then exists b, (forall s, b_get b s = server_settings c s) /\ r = k b else r = Panic)
      as Hr by (apply Hr; as_apply_list).
    intros r ->. apply apply_list_outcome. all: settle_order.
Qed.
(** Without settings, the handshake is the one of new settings. *)
Theorem handshake_default_settings `{!H2HandshakeLaws CB SB} alpn tls :
  h2_client_handshake alpn tls = h2_client_handshake_with_settings alpn tls new /\
  h2_server_handshake alpn tls = h2_server_handshake_with_settings alpn tls new.
Proof.
  unfold h2_client_handshake, h2_server_handshake, h2_client_handshake_with_settings, h2_server_handshake_with_settings.
  rewrite client_default, server_default. done.
Qed.
End HandshakeProperties.

(** What a builder of builder.rs asks for: the five settings it has. *)
Definition builder_settings (streams window headers table buffer : option Z) : Settings := fun s =>
  match s with
  | MaxConcurrentStreams => streams
  | InitialWindowSize => window
  | MaxHeaderListSize => headers
  | HeaderTableSize => table
  | MaxSendBufferSize => buffer
  | MaxFrameSize | InitialConnectionWindowSize => None
  end.

Definition cb_settings (c : H2ClientBuilder) : Settings :=
  builder_settings (cb_max_concurrent_streams c) (cb_initial_window_size c) (cb_max_header_list_size c)
    (cb_hpack_table_size c) (cb_max_send_buffer_size c).
Definition sb_settings (c : H2ServerBuilder) : Settings :=
  builder_settings (sb_max_concurrent_streams c) (sb_initial_window_size c) (sb_max_header_list_size c)
    (sb_hpack_table_size c) (sb_max_send_buffer_size c).

Definition configured {E} `{H2Builder B} (want : Settings) (r : R E B) : Prop :=
  if opt_legal (MaxSendBufferSize, want MaxSendBufferSize)
  then exists b, r = Ok b /\ forall s, b_get b s = want s else r = Panic.

(** Both builders configure h2 with exactly the settings they hold; the flag for
    server push reaches nothing.  A send buffer above [u32::MAX] panics. *)
Lemma configure_spec {E} `{H2BuilderLaws B} (c : H2ClientBuilder) (d : H2ServerBuilder) :
  configured (E:=E) (B:=B) (cb_settings c) (cb_configure c) /\
  configured (E:=E) (B:=B) (sb_settings d) (sb_configure d).
Proof.
  assert (forall f r, r = apply_list (E:=E) b_new ((fun s => (s, f s)) <$> builder_order) ≫= Ok ->
    f MaxFrameSize = None -> f InitialConnectionWindowSize = None -> configured (B:=B) f r) as Hr.
  { intros f r -> Hf Hi. unfold configured.
    enough (if opt_legal (MaxSendBufferSize, f MaxSendBufferSize)
      then exists b, (forall s, b_get b s = f s) /\ apply_list (E:=E) b_new ((fun s => (s, f s)) <$> builder_order) ≫= Ok = Ok b
      else apply_list (E:=E) b_new ((fun s => (s, f s)) <$> builder_order) ≫= Ok = Panic) as Ha.
    { destruct (opt_legal _); [|done]. destruct Ha as (b & ? & ?). by exists b. }
    apply apply_list_outcome. all: settle_order. }
  split; apply Hr; try done.
  - unfold cb_configure, cb_settings, builder_settings. as_apply_list.
  - unfold sb_configure, sb_settings, builder_settings. as_apply_list.
Qed.

(** ** Errors keep their class *)

(** Converting an error to the core type keeps what a caller can ask about it:
    ALPN mismatches are handshake errors, I/O errors keep their kind, settings
    errors are configuration errors, and nothing else is any of these. *)
Theorem tls_error_from_h2_class `{H2Types} (e : H2Error) :
  is_handshake (tls_error_from_h2 e) = is_alpn_not_h2 e /\
  Core.is_io (tls_error_from_h2 e) = is_io e /\
  is_config (tls_error_from_h2 e) = (match e with SettingsErr _ => true | _ => false end) /\
  (forall x, e = IoErr x -> tls_error_from_h2 e = Io (io_kind x)) /\
  is_cert (tls_error_from_h2 e) = false.
Proof. by destruct e; split_and!; try done; intros ? [= ->]. Qed.

(** ** Flow control *)

Section FlowControlProperties.
Context `{H2FlowControlLaws}.

Definition sum (ns : list Z) : Z := foldr Z.add 0%Z ns.

Lemma sum_nonneg ns : Forall (Z.le 0) ns -> (0 <= sum ns)%Z.
Proof. unfold sum. induction 1; cbn; lia. Qed.

(** Releasing chunk by chunk succeeds exactly when the chunks fit into the
    capacity in use, and then it gives back their sum. *)
Theorem release_all_spec fc ns :
  Forall (Z.le 0) ns ->
  if (sum ns <=? used_capacity fc)%Z
  then exists fc', release_all fc ns = (fc', Ok tt) /\ used_capacity fc' = (used_capacity fc - sum ns)%Z
  else exists fc' e, release_all fc ns = (fc', Err e).
Proof.
  intros Hn. revert fc. induction Hn as [|n ns Hn Hns IH]; intros fc; cbn [release_all sum foldr].
  - pose proof (fc_used_nonneg (fc_inner fc)) as Hu. rewrite (proj2 (Z.leb_le _ _)) by exact Hu.
    exists fc. split; [done|cbn; lia].
  - pose proof (sum_nonneg ns Hns). fold (sum ns). unfold release_capacity.
    destruct (Z.leb_spec n (used_capacity fc)) as [Hle|Hgt].
    + destruct (fc_release_ok (fc_inner fc) n) as (f' & -> & Hf'); [done|].
      specialize (IH {| fc_inner := f' |}). unfold used_capacity in *. cbn [fc_inner] in *. rewrite Hf' in IH.
      destruct (Z.leb_spec (sum ns) (fc_used (fc_inner fc) - n)); destruct (Z.leb_spec (n + sum ns) (fc_used (fc_inner fc))); try lia; [|done].
      destruct IH as (fc' & -> & Hu'). exists fc'. split; [done|lia].
    + destruct (fc_release_err (fc_inner fc) n) as (e & ->); [done|].
      rewrite (proj2 (Z.leb_gt _ _)) by lia. eauto.
Qed.
End FlowControlProperties.

(** ** A small h2 crate *)

Module H2Toy.
(** Errors are a flag for a reset with its code; a builder is its settings. *)
#[export] Instance types : H2Types := {
  h2_error := bool * Z;
  Reason := Z;
  is_reset e := e.1;
  error_reason e := Some e.2;
  h2_error_display e := "error " +:+ pretty e.2;
  reason_debug r := pretty r;
}.

Abbreviation B := (Setting -> option Z) (only parsing).

#[export] Instance builder : H2Builder (Setting -> option Z) := {
  b_new _ := None;
  b_set b s v := if setting_legal s v then Some (fun s' => if decide (s = s') then Some v else b s') else None;
  b_get b := b;
}.

#[export] Instance builder_laws : H2BuilderLaws (Setting -> option Z).
Proof.
  split; cbn; [done| |].
  - intros b s v. destruct (setting_legal s v); split; naive_solver.
  - intros b s v b' s' Hs. by case_match; simplify_eq.
Qed.

(** A handshake on a transport of [n] bytes fails when there are none. *)
#[export] Instance handshake : H2Handshake (Setting -> option Z) (Setting -> option Z) := {
  IO := nat;
  SendRequest := nat;
  ClientConnection := Setting -> option Z;
  ServerConnection := Setting -> option Z;
  client_handshake b io := if io =? 0 then inl (true, 7%Z) else inr (io, b);
  server_handshake b io := if io =? 0 then inl (true, 7%Z) else inr b;
  client_handshake_default io := if io =? 0 then inl (true, 7%Z) else inr (io, b_new);
  server_handshake_default io := if io =? 0 then inl (true, 7%Z) else inr b_new;
}.

#[export] Instance handshake_laws : H2HandshakeLaws (Setting -> option Z) (Setting -> option Z).
Proof. by split. Qed.

#[export] Instance flow : H2FlowControl := {
  FlowControl := nat;
  fc_available f := (65535 - Z.of_nat f)%Z;
  fc_used := Z.of_nat;
  fc_release f n := if (n <=? Z.of_nat f)%Z then inr (Z.to_nat (Z.of_nat f - n)) else inl (false, 1%Z);
}.

#[export] Instance flow_laws : H2FlowControlLaws.
Proof.
  split; cbn.
  - intros. lia.
  - intros f n Hn. rewrite (proj2 (Z.leb_le _ _)) by lia. eexists. split; [done|]. lia.
  - intros f n Hn. rewrite (proj2 (Z.leb_gt _ _)) by lia. eauto.
Qed.
End H2Toy.

Module H2Witness.
Import H2Toy.

(** A frame size that is legal, and one that is not. *)
Definition small_frames : H2Settings := with_max_concurrent_streams (with_max_frame_size new 16384) 7.
Definition bad_frames : H2Settings := with_max_frame_size new 100.

Definition io : IO (H2Handshake:=handshake) := 5.
Definition connected (b : Setting -> option Z)
  : SendRequest (H2Handshake:=handshake) * ClientConnection (H2Handshake:=handshake) := (5, b).

Lemma handshake_with_settings_witness :
  (exists b : Setting -> option Z, b MaxFrameSize = Some 16384%Z /\ b MaxConcurrentStreams = None /\
    h2_client_handshake_with_settings (Some (bstr "h2")) io small_frames = Ok (connected b)) /\
  h2_server_handshake_with_settings (Some (bstr "h2")) io bad_frames = Panic /\
  h2_server_handshake_with_settings None io bad_frames = Err (AlpnNotH2 "None").
Proof.
  destruct (handshake_with_settings (Some (bstr "h2")) io small_frames) as [(b & Hb & Hr) _].
  split_and!; [|apply (handshake_with_settings (Some (bstr "h2")) io bad_frames)
               |apply (handshake_with_settings None io bad_frames)].
  exists b. split_and!; [apply (Hb MaxFrameSize)|apply (Hb MaxConcurrentStreams)|exact Hr].
Defined.

Definition window : FlowControl (H2FlowControl:=flow) := 100.

Lemma release_all_spec_witness :
  exists fc', release_all (flow_control_new window) [30; 70]%Z = (fc', Ok tt) /\ used_capacity fc' = 0%Z.
Proof. apply (release_all_spec (flow_control_new window) [30; 70]%Z). repeat constructor; lia. Defined.
End H2Witness.
