(* ===== verification/H2Connection.v ===== *)
(** * H2Connection: the lifetime of an HTTP/2 connection

    crates/oxitls-h2/src/connection.rs and the handshakes of builder.rs.  A client
    connection is two tokio tasks (the driver of the h2 connection and the
    optional keepalive loop), a mutex around the ping handle and a handle to send
    requests; [step] has their atomic steps and those of h2, of the peer, of other
    holders of request handles, of callers that drop a [ping] future, and of the
    runtime that cancels aborted tasks.  Methods that take [self] by value
    ([graceful_shutdown], [abort]) end the use of [ping] by their type. *)

From S2P Require Import Prelude Core H2.

(** ** h2 and tokio *)

(** The condition under which the h2 client driver ends: the connection is gone,
    or there is nothing left to drive. *)
Class H2Driver := driver_may_end : bool -> nat -> nat -> bool.

(** As the comments of connection.rs state it: once every [SendRequest] is dropped
    and the streams are complete. *)
Class H2DriverLaws `{H2Driver} := {
  driver_ends : forall closed requests streams,
    driver_may_end closed requests streams = true <-> closed = true \/ (requests = 0 /\ streams = 0);
}.

(** What a finished h2 handshake gives: the ping handle is there the first time it
    is asked for. *)
Class H2PingPong `{H2Handshake CB SB} := take_ping_pong : ClientConnection -> bool.

(** What [PingPong::send_ping] answers, by whether the connection is gone and
    whether a ping is pending; and whether h2 forgets a pending ping by itself when
    its pong arrives and nobody waits for it, which its documentation leaves open. *)
Class H2Ping `{H2Types} := {
  send_ping_error : bool -> bool -> option h2_error;
  forgets_late_pong : bool;
}.

(** As h2 documents [send_ping]: only one ping can be pending at a time, and sending
    another before the pong was received is an error.  On a connection that is
    there, nothing else is. *)
Class H2PingLaws `{H2Ping} := {
  ping_pending_refused : forall gone, send_ping_error gone true <> None;
  ping_sent : send_ping_error false false = None;
}.

(** A tokio task.  [abort] only asks for the cancellation: the runtime cancels the
    task some time later, and until then it may still be polled, or finish. *)
Inductive Task := Running | Aborting | Finished | Aborted.

Definition task_abort (t : Task) : Task := match t with Running => Aborting | t => t end.

(** The task can still be polled. *)
Definition alive (t : Task) : bool := match t with Running | Aborting => true | _ => false end.

(** ** [H2Connection] *)

(** Where the keepalive loop waits: for the ticker, for the lock, for the pong. *)
Inductive KeepalivePos := AtTick | AtLock | AtPong.

(** Who holds the lock of the ping handle. *)
Inductive Actor := KeepaliveTask | Pinger.

Record H2Connection := {
  driver_handle : Task;
  keepalive_handle : option (Task * KeepalivePos);
  ping_pong : option bool;      (** the handle, and whether a ping is pending on it *)
  lock_holder : option Actor;
  send_request : bool;          (** the connection's own [SendRequest] is alive *)
  other_requests : nat;         (** [SendRequest]s held by others *)
  streams : nat;
  closed : bool;                (** the peer closed the connection, or I/O failed *)
}.

#[export] Instance Task_eq_dec : EqDecision Task.
Proof. solve_decision. Defined.
#[export] Instance KeepalivePos_eq_dec : EqDecision KeepalivePos.
Proof. solve_decision. Defined.
#[export] Instance Actor_eq_dec : EqDecision Actor.
Proof. solve_decision. Defined.

Definition set_tasks (c : H2Connection) (d : Task) (k : option (Task * KeepalivePos)) : H2Connection :=
  {| driver_handle := d; keepalive_handle := k; ping_pong := ping_pong c; lock_holder := lock_holder c;
     send_request := send_request c; other_requests := other_requests c; streams := streams c; closed := closed c |}.

Definition set_ping (c : H2Connection) (p : option bool) (l : option Actor) : H2Connection :=
  {| driver_handle := driver_handle c; keepalive_handle := keepalive_handle c; ping_pong := p; lock_holder := l;
     send_request := send_request c; other_requests := other_requests c; streams := streams c; closed := closed c |}.

Definition set_wire (c : H2Connection) (own : bool) (others n : nat) (cl : bool) : H2Connection :=
  {| driver_handle := driver_handle c; keepalive_handle := keepalive_handle c; ping_pong := ping_pong c;
     lock_holder := lock_holder c; send_request := own; other_requests := others; streams := n; closed := cl |}.

(** [H2Connection::new], for a connection whose request handle has one more
    clone.  [tokio::time::interval] panics on a period of zero, which ends the
    spawned task. *)
Definition conn_new (ping_pong_raw : bool) (keepalive : option Z) : H2Connection :=
  {| driver_handle := Running;
     keepalive_handle :=
       match keepalive with
       | Some interval => Some (if (interval =? 0)%Z then Finished else Running, AtTick)
       | None => None
       end;
     ping_pong := if ping_pong_raw then Some false else None;
     lock_holder := None; send_request := true; other_requests := 1; streams := 0; closed := false |}.

Definition stream_count (self : H2Connection) : nat := streams self.
Definition is_idle (self : H2Connection) : bool := stream_count self =? 0.

Section Steps.
Context `{H2Types} `{H2Driver} `{!H2Ping}.

Inductive Event :=
  | Tick                                  (** the ticker of the keepalive loop *)
  | KeepaliveLock                         (** the loop gets the lock and pings *)
  | KeepalivePong (ok : bool)             (** its pong, or the connection is gone *)
  | KeepaliveCancelled                    (** the runtime cancels the aborted loop *)
  | PingLock                              (** a call of [ping] gets the lock *)
  | PingPong (r : h2_error + Z)           (** its pong after some time, or an error *)
  | PingDropped                           (** its future is dropped while it waits *)
  | LatePong                              (** the pong of a ping nobody waits for *)
  | OpenStream | CloseStream | CloneRequest | DropRequest | PeerClose
  | DriverEnd                             (** the driver has nothing left to drive *)
  | DriverCancelled.                      (** the runtime cancels the aborted driver *)

(** The connection is gone for h2: closed, failed, or no longer driven. *)
Definition conn_gone (c : H2Connection) : bool := closed c || negb (alive (driver_handle c)).

(** [send_ping] on the handle: its error, or the handle with a pending ping. *)
Definition send_ping (c : H2Connection) (pending : bool) : h2_error + bool :=
  match send_ping_error (conn_gone c) pending with Some e => inl e | None => inr true end.

(** One iteration of the keepalive loop after the lock is taken, up to the next
    await; the guard is dropped at the end of the iteration and on [break]. *)
Definition keepalive_locked (c : H2Connection) (t : Task) : H2Connection :=
  match ping_pong c with
  | None => set_tasks c (driver_handle c) (Some (Finished, AtTick))
  | Some pending =>
      match send_ping c pending with
      | inl _ => set_tasks c (driver_handle c) (Some (Finished, AtTick))
      | inr pending =>
          set_ping (set_tasks c (driver_handle c) (Some (t, AtPong))) (Some pending) (Some KeepaliveTask)
      end
  end.

Definition keepalive_pong (c : H2Connection) (t : Task) (ok : bool) : H2Connection :=
  set_ping (set_tasks c (driver_handle c) (Some (if ok then t else Finished, AtTick))) (Some false) None.

(** [ping] from the lock to its await, and from there to its result. *)
Definition ping_locked (c : H2Connection) : H2Connection * option (R H2Error Z) :=
  match ping_pong c with
  | None => (c, Some (Err (SettingsErr "PingPong handle already consumed")))
  | Some pending =>
      match send_ping c pending with
      | inl e => (c, Some (Err (from_h2 e)))
      | inr pending => (set_ping c (Some pending) (Some Pinger), None)
      end
  end.

Definition ping_pong_received (c : H2Connection) (r : h2_error + Z) : H2Connection * option (R H2Error Z) :=
  (set_ping c (Some false) None, Some (map_err from_h2 (of_sum r))).

(** Dropping the future of [ping] at its await drops the guard; the handle stays as
    it is, with its ping pending. *)
Definition ping_dropped (c : H2Connection) : H2Connection := set_ping c (ping_pong c) None.

(** Cancelling the keepalive task drops its guard too. *)
Definition keepalive_cancelled (c : H2Connection) (pos : KeepalivePos) : H2Connection :=
  let c' := set_tasks c (driver_handle c) (Some (Aborted, pos)) in
  if decide (lock_holder c = Some KeepaliveTask) then set_ping c' (ping_pong c) None else c'.

(** Live [SendRequest] handles. *)
Definition requests (c : H2Connection) : nat := other_requests c + if send_request c then 1 else 0.

(** A pong fails only on a connection that is gone. *)
Definition pong_possible (c : H2Connection) (ok : bool) : bool := ok || conn_gone c.

(** One step, with the result of [ping] when a call returns; [None] when the event
    is not possible. *)
Definition step (e : Event) (c : H2Connection) : option (H2Connection * option (R H2Error Z)) :=
  match e with
  | Tick =>
      match keepalive_handle c with
      | Some (t, AtTick) => if alive t then Some (set_tasks c (driver_handle c) (Some (t, AtLock)), None) else None
      | _ => None
      end
  | KeepaliveLock =>
      match keepalive_handle c, lock_holder c with
      | Some (t, AtLock), None => if alive t then Some (keepalive_locked c t, None) else None
      | _, _ => None
      end
  | KeepalivePong ok =>
      match keepalive_handle c with
      | Some (t, AtPong) => if alive t && pong_possible c ok then Some (keepalive_pong c t ok, None) else None
      | _ => None
      end
  | KeepaliveCancelled =>
      match keepalive_handle c with
      | Some (Aborting, pos) => Some (keepalive_cancelled c pos, None)
      | _ => None
      end
  | PingLock => match lock_holder c with None => Some (ping_locked c) | Some _ => None end
  | PingPong r =>
      match lock_holder c with
      | Some Pinger =>
          if pong_possible c (match r with inl _ => false | inr _ => true end)
          then Some (ping_pong_received c r) else None
      | _ => None
      end
  | PingDropped => match lock_holder c with Some Pinger => Some (ping_dropped c, None) | _ => None end
  | LatePong =>
      match lock_holder c, ping_pong c with
      | None, Some true => if forgets_late_pong then Some (set_ping c (Some false) None, None) else None
      | _, _ => None
      end
  | OpenStream =>
      if 0 <? requests c then Some (set_wire c (send_request c) (other_requests c) (S (streams c)) (closed c), None)
      else None
  | CloseStream =>
      match streams c with
      | S n => Some (set_wire c (send_request c) (other_requests c) n (closed c), None)
      | O => None
      end
  | CloneRequest =>
      match other_requests c with
      | S n => Some (set_wire c (send_request c) (S (S n)) (streams c) (closed c), None)
      | O => None
      end
  | DropRequest =>
      match other_requests c with
      | S n => Some (set_wire c (send_request c) n (streams c) (closed c), None)
      | O => None
      end
  | PeerClose => Some (set_wire c (send_request c) (other_requests c) (streams c) true, None)
  | DriverEnd =>
      if alive (driver_handle c) && driver_may_end (closed c) (requests c) (streams c)
      then Some (set_tasks c Finished (keepalive_handle c), None) else None
  | DriverCancelled =>
      match driver_handle c with
      | Aborting => Some (set_tasks c Aborted (keepalive_handle c), None)
      | _ => None
      end
  end.

(** Events in sequence. *)
Fixpoint steps (es : list Event) (c : H2Connection) : option H2Connection :=
  match es with
  | [] => Some c
  | e :: es => '(c, _) ← step e c; steps es c
  end.

(** ** Ending a connection *)

(** [keepalive_handle.take()] and [abort]. *)
Definition abort_keepalive (c : H2Connection) : H2Connection :=
  match keepalive_handle c with
  | Some (t, pos) => set_tasks c (driver_handle c) (Some (task_abort t, pos))
  | None => c
  end.

Definition abort_driver (c : H2Connection) : H2Connection :=
  set_tasks c (task_abort (driver_handle c)) (keepalive_handle c).

(** The end of a method that owns the connection: its fields are dropped, among
    them the request handle.  Dropping a [JoinHandle] does not end its task. *)
Definition drop_conn (c : H2Connection) : H2Connection :=
  set_wire c false (other_requests c) (streams c) (closed c).

(** What goes on while a method owns the connection, and after it: everything but
    calls of [ping]. *)
Definition background (e : Event) : bool :=
  match e with PingLock | PingPong _ | PingDropped => false | _ => true end.

(** [tokio::time::timeout(timeout, &mut self.driver_handle)]: the task is looked at
    first; the timer may elapse at any time. *)
Inductive await_driver : H2Connection -> R H2Error unit -> H2Connection -> Prop :=
  | await_done c :
      alive (driver_handle c) = false -> await_driver c (Ok tt) (drop_conn c)
  | await_elapsed c :
      alive (driver_handle c) = true ->
      await_driver c (Err GracefulShutdownTimeout) (drop_conn (abort_driver c))
  | await_step c e c' o r c'' :
      alive (driver_handle c) = true -> background e = true -> step e c = Some (c', o) ->
      await_driver c' r c'' -> await_driver c r c''.

Definition graceful_shutdown (c : H2Connection) (r : R H2Error unit) (c' : H2Connection) : Prop :=
  await_driver (abort_keepalive c) r c'.

Definition abort (self : H2Connection) : H2Connection := drop_conn (abort_keepalive (abort_driver self)).
End Steps.

(** ** builder.rs: the handshakes *)

Section BuilderHandshakes.
Context {CB SB : Type} `{H2Handshake CB SB} `{!H2Builder CB} `{!H2Builder SB} `{!H2PingPong}.

(** [H2ClientBuilder::handshake]: the request handle goes to the caller and, as a
    clone, into the connection. *)
Definition cb_handshake (self : H2ClientBuilder) (io : IO) : R H2Error (SendRequest * H2Connection) :=
  builder ← cb_configure (B:=CB) self;
  '(sr, conn) ← map_err from_h2 (of_sum (client_handshake builder io));
  Ok (sr, conn_new (take_ping_pong conn) (cb_keepalive self)).

(** [H2ServerConn] is the h2 connection. *)
Record H2ServerConn := { inner : ServerConnection }.

Definition server_conn_new (conn : ServerConnection) : H2ServerConn := {| inner := conn |}.

Definition sb_accept (self : H2ServerBuilder) (io : IO) : R H2Error H2ServerConn :=
  builder ← sb_configure (B:=SB) self;
  conn ← map_err from_h2 (of_sum (server_handshake builder io));
  Ok (server_conn_new conn).
End BuilderHandshakes.

(** [H2ServerConn]: [poll_accept], [graceful_shutdown] and [has_streams] of h2. *)
Class H2Server `{H2Handshake CB SB} := {
  Accepted : Type;
  poll_accept : ServerConnection -> ServerConnection * option (h2_error + Accepted);
  h2_graceful_shutdown : ServerConnection -> ServerConnection;
  h2_has_streams : ServerConnection -> bool;
}.

Section ServerConn.
Context `{H2Server}.

Definition accept_request (self : H2ServerConn) : H2ServerConn * option (R H2Error Accepted) :=
  let '(conn, o) := poll_accept (inner self) in
  ({| inner := conn |}, (fun r => map_err from_h2 (of_sum r)) <$> o).

Definition server_graceful_shutdown (self : H2ServerConn) : H2ServerConn :=
  {| inner := h2_graceful_shutdown (inner self) |}.

Definition has_streams (self : H2ServerConn) : bool := h2_has_streams (inner self).
End ServerConn.

(** ** [StreamCounter]

    The shared [AtomicUsize] by its value; [fetch_add] and [fetch_sub] wrap
    around. *)
Definition USIZE : Z := 2 ^ 64.
Definition counter_new : Z := 0.
Definition increment (n : Z) : Z := ((n + 1) mod USIZE)%Z.
Definition decrement (n : Z) : Z := ((n - 1) mod USIZE)%Z.
Definition get (n : Z) : Z := n.

(** Calls of any clones in any order: [true] increments. *)
Definition counter_run (calls : list bool) : Z :=
  foldl (fun n (up : bool) => if up then increment n else decrement n) counter_new calls.

Definition calls_of (b : bool) (calls : list bool) : Z := Z.of_nat (length (filter (fun x => x = b) calls)).

Lemma calls_of_snoc b calls up :
  calls_of b (calls ++ [up]) = (calls_of b calls + if eqb up b then 1 else 0)%Z.
Proof.
  unfold calls_of. rewrite filter_app, length_app, filter_cons, filter_nil.
  destruct up, b; cbn [eqb]; repeat case_decide; try done; cbn [length]; lia.
Qed.

(** In whatever order clones count up and down, the counter holds the difference
    modulo the width of [usize]; it is the difference itself when there were at
    least as many increments. *)
Theorem counter_run_spec calls :
  get (counter_run calls) = ((calls_of true calls - calls_of false calls) mod USIZE)%Z /\
  ((calls_of false calls <= calls_of true calls < USIZE)%Z ->
   get (counter_run calls) = (calls_of true calls - calls_of false calls)%Z).
Proof.
  unfold get. assert (counter_run calls = (calls_of true calls - calls_of false calls) mod USIZE)%Z as Hc.
  { induction calls as [|up calls IH] using rev_ind; [done|].
    unfold counter_run in *. rewrite foldl_app, IH, !calls_of_snoc. cbn [foldl].
    destruct up; unfold increment, decrement; cbn [eqb];
      rewrite ?Zplus_mod_idemp_l, ?Zminus_mod_idemp_l; f_equal; lia. }
  rewrite Hc. split; [done|]. intros Hle. apply Z.mod_small. unfold calls_of in *. lia.
Qed.

(** ** Pings *)

Section Lifetime.
Context `{H2Types} `{H2DriverLaws} `{!H2Ping} `{!H2PingLaws}.

Lemma steps_app es fs c : steps (es ++ fs) c = steps es c ≫= steps fs.
Proof.
  revert c. induction es as [|e es IH]; intros c; [done|]. cbn [steps app].
  destruct (step e c) as [[c' o]|]; cbn; [apply IH|done].
Qed.

Lemma steps_snoc es e c c' :
  steps (es ++ [e]) c = Some c' <-> exists c1 o, steps es c = Some c1 /\ step e c1 = Some (c', o).
Proof.
  rewrite steps_app. destruct (steps es c) as [c1|]; cbn [mbind option_bind steps].
  - destruct (step e c1) as [[c2 o]|] eqn:He; cbn [mbind option_bind steps].
    + split; [intros [= <-]; eauto|]. intros (c3 & o' & [= <-] & He'). congruence.
    + split; [done|]. intros (c3 & o' & [= <-] & He'). congruence.
  - split; [done|]. by intros (? & ? & ? & _).
Qed.

(** What holds after every run holds at the start and is kept by every step. *)
Lemma steps_ind (P : list Event -> H2Connection -> Prop) c0 es c :
  P [] c0 -> (forall es e c c' o, P es c -> step e c = Some (c', o) -> P (es ++ [e]) c') ->
  steps es c0 = Some c -> P es c.
Proof.
  intros Hnil Hs. revert c. induction es as [|e es IH] using rev_ind; intros c; [by intros [= <-]|].
  rewrite steps_snoc. intros (c1 & o & Hes & Hst). eauto.
Qed.

(** The lock is the keepalive task's exactly while it waits for its pong. *)
Definition lock_inv (c : H2Connection) : Prop :=
  lock_holder c = Some KeepaliveTask <-> exists t, alive t = true /\ keepalive_handle c = Some (t, AtPong).

Lemma lock_inv_step e c c' o : lock_inv c -> step e c = Some (c', o) -> lock_inv c'.
Proof.
  unfold lock_inv. intros Hk Hst. destruct c as [d k pp l own n s cl]. cbn in *.
  destruct e; cbn in Hst; unfold keepalive_locked, keepalive_pong, keepalive_cancelled, ping_locked, ping_pong_received,
    ping_dropped in Hst; cbn in Hst; repeat case_match; simplify_eq/=; try (intuition (eauto; congruence); fail);
    (split; [intros Hl; try discriminate Hl; pose proof Hl; apply Hk in Hl as (? & ? & ?); simplify_eq/=; congruence|intros (? & ? & ?); by simplify_eq/=]).
Qed.

(** While the owner keeps the connection, a ping is pending while the lock is held,
    and else only if a [ping] was dropped. *)
Definition ping_inv (p dropped : bool) (c : H2Connection) : Prop :=
  match ping_pong c with
  | None => p = false /\ lock_holder c = None
  | Some pending => p = true /\ (lock_holder c <> None -> pending = true) /\
                    (lock_holder c = None -> pending = true -> dropped = true)
  end.

(** No task was aborted, and the driver only ends on a connection that is gone. *)
Definition task_inv (c : H2Connection) : Prop :=
  send_request c = true /\
  (forall t pos, keepalive_handle c = Some (t, pos) -> t = Running \/ t = Finished) /\
  (driver_handle c = Running \/ (driver_handle c = Finished /\ closed c = true)).

Lemma conn_new_inv p k : lock_inv (conn_new p k) /\ ping_inv p false (conn_new p k) /\ task_inv (conn_new p k).
Proof.
  unfold ping_inv, task_inv, lock_inv, conn_new. cbn. split_and!; try done; [|by destruct p| |by left].
  - destruct k as [d|]; [destruct (d =? 0)%Z|]; naive_solver.
  - intros t pos Hk. destruct k as [d|]; [|done]. injection Hk as <- <-. destruct (d =? 0)%Z; auto.
Qed.

Lemma ping_inv_step p dropped e c c' o :
  lock_inv c -> task_inv c -> ping_inv p dropped c -> step e c = Some (c', o) ->
  ping_inv p (dropped || match e with PingDropped => true | _ => false end) c'.
Proof.
  intros Hl (_ & Hk & _) Hp Hst. unfold lock_inv, ping_inv in *. destruct c as [d k pp l own n s cl]. cbn in *.
  assert (forall pos, k <> Some (Aborting, pos)) as Hna by (by intros pos ->; destruct (Hk Aborting pos eq_refl)).
  assert (forall t, alive t = true -> k = Some (t, AtPong) -> p = true) as Hpong.
  { intros t Ha ->. assert (l = Some KeepaliveTask) as -> by (apply Hl; eauto). destruct pp; [by destruct Hp|]. by destruct Hp. }
  destruct e; cbn in Hst; unfold keepalive_locked, keepalive_pong, keepalive_cancelled, ping_locked, ping_pong_received,
    ping_dropped, send_ping in Hst; cbn in Hst; repeat case_match; simplify_eq/=; rewrite ?orb_false_r, ?orb_true_r;
    repeat match goal with H : _ && _ = true |- _ => apply andb_prop in H as [? ?] end;
    try done; try (destruct Hp as (Hp1 & Hp2 & Hp3)); try (destruct Hp as (Hp1 & Hp2));
    split_and!; eauto; try congruence. by destruct (Hna k0).
Qed.

(** With a live request handle the driver ends only on a connection that is gone. *)
Lemma driver_end_closed c :
  send_request c = true -> driver_may_end (closed c) (requests c) (streams c) = true -> closed c = true.
Proof. intros Hs [?|[Hr _]]%driver_ends; [done|]. unfold requests in Hr. rewrite Hs in Hr. lia. Qed.

Lemma task_inv_step e c c' o : task_inv c -> step e c = Some (c', o) -> task_inv c'.
Proof.
  intros (Hs & Hk & Hd) Hst. pose proof (driver_end_closed c Hs) as Hend.
  assert (forall pos, keepalive_handle c <> Some (Aborting, pos)) as Hna.
  { intros pos Hx. by destruct (Hk _ _ Hx). }
  unfold task_inv. destruct c as [d k pp l own n s cl]. cbn in *. subst own.
  destruct e; cbn in Hst; unfold keepalive_locked, keepalive_pong, keepalive_cancelled, ping_locked, ping_pong_received,
    ping_dropped in Hst; cbn in Hst; repeat case_match; simplify_eq/=;
    try (by destruct (Hna k0)); split_and!; try done; try (intros ?? [=]; subst; by eauto);
    destruct Hd as [?|[? ?]]; auto; try discriminate;
    rename select (_ && _ = true) into Hb; apply andb_prop in Hb as [_ Hb]; auto.
Qed.

Definition is_dropped (e : Event) : bool := match e with PingDropped => true | _ => false end.

Lemma owned_inv p k es c :
  steps es (conn_new p k) = Some c -> lock_inv c /\ task_inv c /\ ping_inv p (existsb is_dropped es) c.
Proof.
  apply (steps_ind (fun es c => lock_inv c /\ task_inv c /\ ping_inv p (existsb is_dropped es) c)).
  - destruct (conn_new_inv p k) as (? & ? & ?). by split_and!.
  - intros es' e c1 c2 o (Hl & Ht & Hp) Hst. split; [by eapply lock_inv_step|]. split; [by eapply task_inv_step|].
    rewrite existsb_app. cbn [existsb]. rewrite orb_false_r. by apply (ping_inv_step p _ e c1 c2 o).
Qed.

Lemma existsb_dropped es : existsb is_dropped es = true -> PingDropped ∈ es.
Proof. intros (e & Hin & He)%existsb_exists. destruct e; try done. by apply list_elem_of_In. Qed.

(** A ping that nobody waits for is pending: from then on the lock stays free. *)
Definition stuck (c : H2Connection) : Prop :=
  lock_inv c /\ lock_holder c = None /\ ping_pong c = Some true.

Lemma stuck_refused c : stuck c ->
  (exists e, step PingLock c = Some (c, Some (Err (from_h2 e)))) /\
  (forall c' o, step KeepaliveLock c = Some (c', o) -> keepalive_handle c' = Some (Finished, AtTick) /\ stuck c').
Proof.
  intros (Hl & Hh & Hp). cbn. unfold ping_locked, keepalive_locked, send_ping. rewrite Hh, Hp.
  destruct (send_ping_error (conn_gone c) true) as [e|] eqn:He; [|by apply ping_pending_refused in He].
  split; [eauto|]. intros c' o Hst. destruct (keepalive_handle c) as [[t []]|]; try done.
  destruct (alive t); [|done]. injection Hst as <- <-. cbn. split; [done|]. unfold stuck, lock_inv. cbn.
  rewrite Hh. split_and!; try done. split; [done|]. by intros (? & ? & [= <-]).
Qed.

Lemma stuck_step e c c' o :
  stuck c -> step e c = Some (c', o) -> e <> LatePong \/ forgets_late_pong = false -> stuck c'.
Proof.
  intros Hstuck Hst Hlate. destruct (stuck_refused c Hstuck) as [(x & Hpl) Hkl]. pose proof Hstuck as (Hl & Hh & Hp).
  split; [by eapply lock_inv_step|].
  destruct e; try (cbn in Hst; rewrite ?Hh in Hst; repeat case_match; by simplify_eq/=).
  - by destruct (Hkl c' o Hst) as (_ & _ & ? & ?).
  - cbn in Hst. destruct (keepalive_handle c) as [[t []]|] eqn:Hk; try done. destruct (alive t) eqn:Ha; [|done].
    assert (lock_holder c = Some KeepaliveTask); [apply Hl; eauto|congruence].
  - cbn in Hst. unfold keepalive_cancelled in Hst. rewrite Hh in Hst. repeat case_match; by simplify_eq/=.
  - rewrite Hpl in Hst. by injection Hst as <- <-.
  - cbn in Hst. rewrite Hh, Hp in Hst. destruct Hlate as [?|Hf]; [done|]. by rewrite Hf in Hst.
Qed.

Lemma stuck_steps es c c' :
  stuck c -> LatePong ∉ es \/ forgets_late_pong = false -> steps es c = Some c' -> stuck c'.
Proof.
  intros Hc Hlate. revert c Hc. induction es as [|e es IH]; intros c Hc; cbn [steps]; [by intros [= <-]|].
  destruct (step e c) as [[c1 o]|] eqn:Hst; [|done]. apply IH; [set_solver|].
  eapply stuck_step; [done..|]. set_solver.
Qed.

(** C28: the ping handle over every run of the connection's tasks and callers.
    Whoever holds the lock has the one pending ping; so at most one is pending, and
    one is pending without a holder only after a [ping] future was dropped.  A call
    of [ping] fails at once only if there is no handle, if a ping was dropped
    before, or if the connection is gone; and only then does the keepalive loop end instead of waiting
    for its pong.  After a [ping] was dropped, every later call fails and the
    keepalive loop ends at its next ping, unless h2 by itself forgets the pending
    one. *)
Theorem ping_outcomes p k es c :
  steps es (conn_new p k) = Some c ->
  (lock_holder c <> None -> ping_pong c = Some true) /\
  (lock_holder c = None -> ping_pong c = Some true -> PingDropped ∈ es) /\
  (forall c' r, step PingLock c = Some (c', Some r) ->
     r = Err (SettingsErr "PingPong handle already consumed") /\ p = false \/
     (exists e, r = Err (from_h2 e)) /\ (PingDropped ∈ es \/ conn_gone c = true)) /\
  (forall c' o, step KeepaliveLock c = Some (c', o) ->
     keepalive_handle c' = Some (Running, AtPong) /\ lock_holder c' = Some KeepaliveTask /\ ping_pong c' = Some true \/
     keepalive_handle c' = Some (Finished, AtTick) /\ (p = false \/ PingDropped ∈ es \/ conn_gone c = true)) /\
  (forall c1 o es' c2, step PingDropped c = Some (c1, o) -> steps es' c1 = Some c2 ->
     LatePong ∉ es' \/ forgets_late_pong = false ->
     (exists e, step PingLock c2 = Some (c2, Some (Err (from_h2 e)))) /\
     (forall c' o', step KeepaliveLock c2 = Some (c', o') -> keepalive_handle c' = Some (Finished, AtTick))).
Proof.
  intros (Hl & (_ & Hk & _) & Hp)%owned_inv.
  assert (forall pending, ping_pong c = Some pending -> lock_holder c = None ->
    forall e, send_ping_error (conn_gone c) pending = Some e -> PingDropped ∈ es \/ conn_gone c = true) as Hwhy.
  { intros pending Hpp Hh e He. unfold ping_inv in Hp. rewrite Hpp in Hp. destruct Hp as (_ & _ & Hd).
    destruct pending; [left; by apply existsb_dropped, Hd|right]. destruct (conn_gone c); [done|].
    by rewrite ping_sent in He. }
  unfold ping_inv in Hp. split_and!.
  - intros Hh. destruct (ping_pong c); [|by destruct Hp]. f_equal. by apply Hp.
  - intros Hh Hpp. rewrite Hpp in Hp. by apply existsb_dropped, Hp.
  - cbn. intros c' r Hst. destruct (lock_holder c) eqn:Hh; [done|]. injection Hst as Hst.
    unfold ping_locked, send_ping in Hst. destruct (ping_pong c) as [pending|] eqn:Hpp; [|left; injection Hst as <- <-; by destruct Hp].
    destruct (send_ping_error (conn_gone c) pending) as [e|] eqn:He; [|done]. injection Hst as <- <-. right. eauto.
  - cbn. intros c' o Hst. destruct (keepalive_handle c) as [[t []]|] eqn:Hkh; try done.
    destruct (lock_holder c) eqn:Hh; [done|]. destruct (alive t) eqn:Ha; [|done]. injection Hst as <- <-.
    assert (t = Running) as -> by (destruct (Hk t AtLock eq_refl) as [?|?]; [done|by subst t]).
    unfold keepalive_locked, send_ping. destruct (ping_pong c) as [pending|] eqn:Hpp; [|right; naive_solver].
    destruct (send_ping_error (conn_gone c) pending) as [e|] eqn:He; [right|left; done]. cbn. eauto.
  - cbn. intros c1 o es' c2 Hst Hes Hlate. destruct (lock_holder c) as [[]|] eqn:Hh; try done. injection Hst as <- <-.
    assert (stuck (ping_dropped c)) as Hs.
    { unfold stuck, ping_dropped, lock_inv in *. cbn. split_and!; [|done|].
      - split; [done|]. intros Hx. apply Hl in Hx. congruence.
      - destruct (ping_pong c); [|by destruct Hp]. f_equal. by apply Hp. }
    eapply stuck_steps in Hs; [|done..]. destruct (stuck_refused c2 Hs) as [Hpl Hkl]. split; [done|].
    intros c' o' Hst. by destruct (Hkl c' o' Hst).
Qed.

(** ** Shutting down *)

(** Every task has ended or was told to. *)
Definition winding_down (c : H2Connection) : Prop :=
  lock_inv c /\ driver_handle c <> Running /\ (forall pos, keepalive_handle c <> Some (Running, pos)).

Definition no_task (c : H2Connection) : Prop :=
  alive (driver_handle c) = false /\ (forall t pos, keepalive_handle c = Some (t, pos) -> alive t = false) /\
  lock_holder c <> Some KeepaliveTask.

(** No step revives a task. *)
Lemma winding_down_step e c c' o : winding_down c -> step e c = Some (c', o) -> winding_down c'.
Proof.
  intros (Hl & Hd & Hk) Hst. split; [by eapply lock_inv_step|]. destruct c as [d k pp l own n s cl]. cbn in *.
  destruct e; cbn in Hst; unfold keepalive_locked, keepalive_pong, keepalive_cancelled, ping_locked, ping_pong_received,
    ping_dropped in Hst; cbn in Hst; repeat case_match; simplify_eq/=;
    (split; [done|intros pos; try done; intros [=]; subst; by eapply Hk]).
Qed.

Lemma winding_down_steps es c c' : winding_down c -> steps es c = Some c' -> winding_down c'.
Proof.
  intros Hc. apply (steps_ind (fun _ => winding_down)); [done|]. intros _ e c1 c2 o. apply winding_down_step.
Qed.

(** The cancellations the runtime still owes. *)
Definition cancellations (c : H2Connection) : list Event :=
  match keepalive_handle c with Some (Aborting, _) => [KeepaliveCancelled] | _ => [] end ++
  match driver_handle c with Aborting => [DriverCancelled] | _ => [] end.

Lemma winding_down_ends c : winding_down c -> exists c', steps (cancellations c) c = Some c' /\ no_task c'.
Proof.
  intros (Hl & Hd & Hk). unfold cancellations, no_task, lock_inv in *. destruct c as [d k pp l own n s cl]. cbn in *.
  assert (match k with Some (Aborting, _) => True | _ => l <> Some KeepaliveTask end) as Hfree.
  { destruct k as [[[] pos]|]; try done; [by destruct (Hk pos)|..]; intros Hh; apply Hl in Hh as (t & Ha & [=]); by subst. }
  destruct k as [[[] pos]|]; try (by destruct (Hk pos)); destruct d; try done; cbn; unfold keepalive_cancelled; cbn;
    try case_decide; cbn; eexists; (split; [reflexivity|]); cbn; split_and!; try done; intros ?? [=]; by subst.
Qed.

(** What goes on while [graceful_shutdown] waits. *)
Lemma background_step e c c' o :
  send_request c = true -> (driver_handle c = Running \/ driver_handle c = Finished /\ closed c = true) ->
  (forall pos, keepalive_handle c <> Some (Running, pos)) -> step e c = Some (c', o) ->
  send_request c' = true /\ (driver_handle c' = Running \/ driver_handle c' = Finished /\ closed c' = true) /\
  (forall pos, keepalive_handle c' <> Some (Running, pos)).
Proof.
  intros Hs Hd Hk Hst. pose proof (driver_end_closed c Hs) as Hend. destruct c as [d k pp l own n s cl]. cbn in *. subst own.
  destruct e; cbn in Hst; unfold keepalive_locked, keepalive_pong, keepalive_cancelled, ping_locked, ping_pong_received,
    ping_dropped in Hst; cbn in Hst; repeat case_match; simplify_eq/=;
    split_and!; try done; try (intros pos [=]; subst; by eapply Hk); destruct Hd as [?|[? ?]]; auto; try discriminate;
    rename select (_ && _ = true) into Hb; apply andb_prop in Hb as [_ Hb]; auto.
Qed.

Lemma await_driver_outcome c r c' :
  await_driver c r c' -> lock_inv c -> send_request c = true ->
  (driver_handle c = Running \/ driver_handle c = Finished /\ closed c = true) ->
  (forall pos, keepalive_handle c <> Some (Running, pos)) ->
  winding_down c' /\ send_request c' = false /\
  (r = Ok tt /\ driver_handle c' = Finished /\ closed c' = true \/
   r = Err GracefulShutdownTimeout /\ driver_handle c' = Aborting).
Proof.
  induction 1 as [c Hn|c Hr|c e c1 o r c2 Hr Hb Hst Ha IH]; intros Hl Hs Hd Hk.
  - destruct Hd as [Hd|[Hd Hc]]; [by rewrite Hd in Hn|]. split; [|naive_solver].
    split; [done|]. cbn. by rewrite Hd.
  - destruct Hd as [Hd|[Hd _]]; [|by rewrite Hd in Hr].
    assert (driver_handle (drop_conn (abort_driver c)) = Aborting) as Hab by (cbn; by rewrite Hd).
    split; [|naive_solver]. split; [done|]. by rewrite Hab.
  - destruct (background_step _ _ _ _ Hs Hd Hk Hst) as (? & ? & ?). apply IH; try done. by eapply lock_inv_step.
Qed.

Lemma abort_keepalive_fields c :
  (lock_inv c -> lock_inv (abort_keepalive c)) /\
  driver_handle (abort_keepalive c) = driver_handle c /\ send_request (abort_keepalive c) = send_request c /\
  closed (abort_keepalive c) = closed c /\ (forall pos, keepalive_handle (abort_keepalive c) <> Some (Running, pos)).
Proof.
  unfold abort_keepalive, lock_inv. destruct (keepalive_handle c) as [[t pos]|] eqn:Hk; [|by rewrite Hk].
  cbn. split_and!; try done; [|by destruct t]. intros Hl. rewrite Hl.
  split; intros (t' & Ha & [= <- ->]); [exists (task_abort t); by destruct t|exists t; by destruct t].
Qed.

(** C29: [graceful_shutdown] succeeds exactly when the driver has ended, which it
    does only if the peer closed the connection or it failed: while it waits, the
    connection's own request handle is alive, so finished streams and dropped
    handles are not enough.  Otherwise it is a timeout, and the driver was told to
    abort.  In both cases no task is left to itself: whatever happens afterwards,
    each task of the connection has ended, or is being cancelled by the runtime, and
    once the runtime has carried that out no task runs and none holds the lock. *)
Theorem graceful_shutdown_outcome p k es c r c' :
  steps es (conn_new p k) = Some c -> graceful_shutdown c r c' ->
  send_request c' = false /\
  (r = Ok tt /\ driver_handle c' = Finished /\ closed c' = true \/
   r = Err GracefulShutdownTimeout /\ driver_handle c' = Aborting) /\
  (forall es' c2, steps es' c' = Some c2 ->
     driver_handle c2 <> Running /\ (forall pos, keepalive_handle c2 <> Some (Running, pos)) /\
     exists c3, steps (cancellations c2) c2 = Some c3 /\ no_task c3).
Proof.
  intros (Hl & (Hs & _ & Hd) & _)%owned_inv Ha.
  destruct (abort_keepalive_fields c) as (Hl' & Hd' & Hs' & Hc' & Hk').
  destruct (await_driver_outcome _ _ _ Ha) as (Hw & Hsr & Hres); [auto|congruence|by rewrite Hd', Hc'|done|].
  split_and!; try done. intros es' c2 Hes. pose proof (winding_down_steps _ _ _ Hw Hes) as Hw2.
  pose proof (winding_down_ends c2 Hw2). by destruct Hw2 as (_ & ? & ?).
Qed.

(** [abort] does not wait for anything, and leaves no task to itself either. *)
Theorem abort_ends p k es c :
  steps es (conn_new p k) = Some c ->
  forall es' c2, steps es' (abort c) = Some c2 -> exists c3, steps (cancellations c2) c2 = Some c3 /\ no_task c3.
Proof.
  intros (Hl & _)%owned_inv es' c2 Hes. eapply winding_down_ends, winding_down_steps, Hes.
  unfold abort. destruct (abort_keepalive_fields (abort_driver c)) as (Hl' & Hd' & _ & _ & Hk').
  split; [exact (Hl' Hl)|]. split; [|exact Hk']. cbn. rewrite Hd'. cbn. by destruct (driver_handle c).
Qed.

Lemma close_streams c :
  steps (replicate (streams c) CloseStream) c
  = Some (set_wire c (send_request c) (other_requests c) 0 (closed c)).
Proof.
  destruct c as [d k pp l own n s cl]. cbn [streams]. induction s as [|s IH]; [done|].
  cbn [replicate steps]. cbn. exact IH.
Qed.

Lemma drop_requests c :
  steps (replicate (other_requests c) DropRequest) c
  = Some (set_wire c (send_request c) 0 (streams c) (closed c)).
Proof.
  destruct c as [d k pp l own n s cl]. cbn [other_requests]. induction n as [|n IH]; [done|].
  cbn [replicate steps]. cbn. exact IH.
Qed.

(** Dropping the connection lets it drain: once the others have finished their
    streams and dropped their handles, the driver can end by itself, without the
    peer closing.  (The same events do not end it before the drop.) *)
Theorem dropped_connection_drains c :
  driver_handle c = Running -> closed c = false ->
  let drain := replicate (streams c) CloseStream ++ replicate (other_requests c) DropRequest ++ [DriverEnd] in
  (exists c', steps drain (drop_conn c) = Some c' /\ driver_handle c' = Finished /\ closed c' = false) /\
  (send_request c = true -> steps drain c = None).
Proof.
  intros Hd Hc drain. subst drain.
  assert (forall c1 : H2Connection, streams c1 = streams c -> other_requests c1 = other_requests c ->
    steps (replicate (streams c) CloseStream ++ replicate (other_requests c) DropRequest ++ [DriverEnd]) c1
    = steps [DriverEnd] (set_wire c1 (send_request c1) 0 0 (closed c1))) as Hrun.
  { intros c1 <- <-. rewrite steps_app, close_streams. cbn [mbind option_bind]. rewrite steps_app.
    set (c2 := set_wire c1 _ _ 0 _). change (other_requests c1) with (other_requests c2) at 1.
    rewrite drop_requests. done. }
  split.
  - rewrite Hrun by done. cbn. rewrite Hd, Hc.
    rewrite (proj2 (driver_ends false 0 0)) by auto. cbn. eauto.
  - intros Hs. rewrite Hrun by done. cbn. rewrite Hd, Hc, Hs. unfold requests. cbn.
    destruct (driver_may_end false 1 0) eqn:Hm; [|done]. apply driver_ends in Hm. naive_solver lia.
Qed.
End Lifetime.

(** ** From a builder to a connection *)

(** Both builders hand h2 exactly their settings and translate its errors, a reset
    to [StreamReset] (the functions of lib.rs keep it as an h2 error); a client
    connection starts with its driver and, if asked for, its keepalive task. *)
Theorem builder_handshakes {CB SB : Type} `{H2Handshake CB SB} `{!H2Builder CB} `{!H2Builder SB}
    `{!H2BuilderLaws CB} `{!H2BuilderLaws SB} `{!H2PingPong} (self : H2ClientBuilder) (srv : H2ServerBuilder) io :
  (if opt_legal (MaxSendBufferSize, cb_max_send_buffer_size self)
   then exists b : CB, (forall s, b_get b s = cb_settings self s) /\
     cb_handshake self io =
       match client_handshake b io with
       | inl e => Err (if is_reset e then match error_reason e with Some r => StreamReset r | None => H2 e end else H2 e)
       | inr (sr, conn) => Ok (sr, conn_new (take_ping_pong conn) (cb_keepalive self))
       end
   else cb_handshake self io = Panic) /\
  (if opt_legal (MaxSendBufferSize, sb_max_send_buffer_size srv)
   then exists b : SB, (forall s, b_get b s = sb_settings srv s) /\
     sb_accept srv io =
       match server_handshake b io with
       | inl e => Err (from_h2 e)
       | inr conn => Ok (server_conn_new conn)
       end
   else sb_accept srv io = Panic).
Proof.
  destruct (configure_spec (E:=H2Error) (B:=CB) self srv) as [Hc _].
  destruct (configure_spec (E:=H2Error) (B:=SB) self srv) as [_ Hs].
  unfold configured in Hc, Hs. change (cb_settings self MaxSendBufferSize) with (cb_max_send_buffer_size self) in Hc.
  change (sb_settings srv MaxSendBufferSize) with (sb_max_send_buffer_size srv) in Hs.
  unfold cb_handshake, sb_accept. split.
  - revert Hc. destruct (opt_legal (_, cb_max_send_buffer_size self)); [intros (b & -> & Hb)|by intros ->]. exists b. split; [done|].
    cbn. by destruct (client_handshake b io) as [e|[sr conn]].
  - revert Hs. destruct (opt_legal (_, sb_max_send_buffer_size srv)); [intros (b & -> & Hb)|by intros ->]. exists b. split; [done|].
    cbn. by destruct (server_handshake b io).
Qed.

(** ** Concrete runs *)

Module H2ConnectionWitness.
Import H2Toy.

#[export] Instance driver : H2Driver := fun closed requests streams =>
  closed || ((requests =? 0) && (streams =? 0)).

#[export] Instance driver_laws : H2DriverLaws.
Proof.
  split. intros [] [] []; cbn; split; try done; try naive_solver lia.
Qed.

#[export] Instance pp : H2PingPong := fun _ => true.

(** h2 that keeps a pending ping until its pong is taken. *)
#[export] Instance ping : H2Ping (H:=types) := {
  send_ping_error gone pending := if pending then Some (false, 1%Z) else if gone then Some (false, 2%Z) else None;
  forgets_late_pong := false;
}.

#[export] Instance ping_laws : H2PingLaws.
Proof. split; [by intros []|done]. Qed.

(** A caller drops its [ping] while it waits, and the ticker fires. *)
Definition dropped_run : list Event := [PingLock; PingDropped; Tick].

(** The keepalive loop waits for its pong while a stream is open. *)
Definition busy_run : list Event := [Tick; KeepaliveLock; OpenStream].

Definition after (es : list Event) : H2Connection := default (conn_new true None) (steps es (conn_new true (Some 30%Z))).

(** The dropped [ping] has cost the connection its pings and its keepalive. *)
Lemma ping_outcomes_witness :
  (exists e, step PingLock (after dropped_run) = Some (after dropped_run, Some (Err (from_h2 e)))) /\
  (exists c o, step KeepaliveLock (after dropped_run) = Some (c, o) /\ keepalive_handle c = Some (Finished, AtTick)).
Proof.
  destruct (ping_outcomes true (Some 30%Z) [PingLock] (after [PingLock])) as (_ & _ & _ & _ & Hdropped);
    [reflexivity|].
  destruct (Hdropped (after [PingLock; PingDropped]) None [Tick] (after dropped_run)) as [Hpl Hkl];
    [reflexivity|reflexivity|right; reflexivity|].
  split; [exact Hpl|]. eexists _, _. split; [reflexivity|]. eapply Hkl. reflexivity.
Defined.

(** Everything drains, nobody closes: only the timeout is left. *)
Lemma drained_times_out :
  exists c', graceful_shutdown (after busy_run) (Err GracefulShutdownTimeout) c' /\ streams c' = 0 /\ other_requests c' = 0.
Proof.
  eexists. split.
  - unfold graceful_shutdown. eapply (await_step _ CloseStream); [done|done|reflexivity|].
    eapply (await_step _ DropRequest); [done|done|reflexivity|]. by apply await_elapsed.
  - done.
Qed.

(** The peer closes; the keepalive loop is still polled once, and cancelled later. *)
Lemma graceful_shutdown_outcome_witness :
  exists c' c3, graceful_shutdown (after busy_run) (Ok tt) c' /\ closed c' = true /\
    steps (cancellations c') c' = Some c3 /\ no_task c3.
Proof.
  assert (exists c', graceful_shutdown (after busy_run) (Ok tt) c') as [c' Hg].
  { eexists. unfold graceful_shutdown. eapply (await_step _ PeerClose); [done|done|reflexivity|].
    eapply (await_step _ (KeepalivePong true)); [done|done|reflexivity|].
    eapply (await_step _ DriverEnd); [done|done|reflexivity|]. by apply await_done. }
  destruct (graceful_shutdown_outcome true (Some 30%Z) busy_run (after busy_run) (Ok tt) c')
    as (_ & [(_ & _ & Hc)|[Hr _]] & Hend); [reflexivity|exact Hg| |discriminate Hr].
  destruct (Hend [] c' eq_refl) as (_ & _ & c3 & Hs & Hn). exists c', c3. repeat split; try assumption; apply Hn.
Defined.

Lemma dropped_connection_drains_witness :
  exists c', steps [CloseStream; DropRequest; DriverEnd] (drop_conn (after busy_run)) = Some c' /\ driver_handle c' = Finished.
Proof.
  destruct (dropped_connection_drains (after busy_run)) as [(c' & Hs & Hd & _) _]; [done|done|].
  exists c'. split; [exact Hs|exact Hd].
Defined.

Lemma builder_handshakes_witness :
  cb_handshake (cb_with_keepalive cb_new 30) H2Witness.io
  = Ok (5 : SendRequest (H2Handshake:=handshake), conn_new true (Some 30%Z)).
Proof.
  destruct (builder_handshakes (cb_with_keepalive cb_new 30) sb_new H2Witness.io) as [(b & _ & Hr) _].
  exact Hr.
Defined.

Lemma counter_run_spec_witness : get (counter_run [true; true; false]) = 1%Z.
Proof. apply (counter_run_spec [true; true; false]). vm_compute. split; congruence. Defined.

(** One decrement too many. *)
Example counter_wraps : get (counter_run [false]) = 18446744073709551615%Z.
Proof. reflexivity. Qed.
End H2ConnectionWitness.
