(* ===== verification/Crypto.v ===== *)
(** * Crypto: the third-party cryptography and OS services the code calls

    RustCrypto's hash and AEAD implementations, the OS random generator and the
    system clock are not part of the repository.  They are interfaces here: a
    class of operations, and a class of the documented laws the code relies on.
    Every interface has a small concrete instance on which theorems are
    evaluated. *)

From S2P Require Import Prelude.

(** SHA-256 of a byte string. *)
Class Sha256 := sha256 : bytes -> bytes.

Class Sha256Laws `{Sha256} := {
  sha256_length : forall m, length (sha256 m) = 32;
}.

(** SHA-1, SHA-384 and SHA-512. *)
Class Digests := {
  sha1 : bytes -> bytes;
  sha384 : bytes -> bytes;
  sha512 : bytes -> bytes;
}.

(** A detached AEAD ([encrypt_inout_detached], [decrypt_inout_detached]): the
    arguments are key, nonce, associated data and message (and tag).  [None] is
    the crate's opaque [aead::Error]. *)
Class Aead := {
  aead_encrypt : bytes -> bytes -> bytes -> bytes -> option (bytes * bytes);
  aead_decrypt : bytes -> bytes -> bytes -> bytes -> bytes -> option bytes;
}.

Class AeadLaws (A : Aead) := {
  aead_correct : forall k n aad pt ct tag,
    aead_encrypt k n aad pt = Some (ct, tag) -> aead_decrypt k n aad ct tag = Some pt;
  aead_ct_length : forall k n aad pt ct tag,
    aead_encrypt k n aad pt = Some (ct, tag) -> length ct = length pt;
  aead_tag_length : forall k n aad pt ct tag,
    aead_encrypt k n aad pt = Some (ct, tag) -> length tag = 16;
  aead_pt_length : forall k n aad ct tag pt,
    aead_decrypt k n aad ct tag = Some pt -> length pt = length ct;
}.

(** [Aead::encrypt] and [Aead::decrypt] of the [aead] crate
    ([seal_in_place_append_tag] and [open_in_place] of [aws_lc_rs]): the tag
    follows the ciphertext, and a message shorter than the tag is an error. *)
Definition attached_encrypt (A : Aead) (key nonce aad msg : bytes) : option bytes :=
  '(ct, tag) ← aead_encrypt key nonce aad msg; Some (ct ++ tag).

Definition attached_decrypt (A : Aead) (key nonce aad msg : bytes) : option bytes :=
  if length msg <? 16 then None
  else aead_decrypt key nonce aad (take (length msg - 16) msg) (drop (length msg - 16) msg).

Lemma attached_roundtrip (A : Aead) `{!AeadLaws A} k n aad pt c :
  attached_encrypt A k n aad pt = Some c ->
  attached_decrypt A k n aad c = Some pt /\ length c = length pt + 16.
Proof.
  unfold attached_encrypt, attached_decrypt. intros H. apply bind_Some in H as ([ct tag] & He & [= <-]).
  pose proof (aead_tag_length _ _ _ _ _ _ He). pose proof (aead_ct_length _ _ _ _ _ _ He).
  rewrite length_app, (proj2 (Nat.ltb_ge _ _)) by lia. split; [|lia].
  rewrite take_app_length', drop_app_length' by lia. by eapply aead_correct.
Qed.

(** What the operating system answers while one call runs: random bytes for a
    buffer of a given size (or the error text), and the clock in seconds. *)
Record World := {
  os_random : nat -> R string bytes;
  unix_seconds : Z;
}.

(** [getrandom::fill] fills the whole buffer or fails. *)
Definition os_random_ok (w : World) : Prop :=
  forall n, match os_random w n with Ok bs => length bs = n | Err _ => True | Panic => False end.

(** ** Concrete instances *)

Module Toy.
Definition pad (n : nat) (bs : bytes) : bytes := take n (bs ++ replicate n Byte.x00).

Lemma length_pad n bs : length (pad n bs) = n.
Proof. unfold pad. rewrite length_take, length_app, length_replicate. lia. Qed.

#[export] Instance sha256 : Sha256 := pad 32.
#[export] Instance sha256_laws : Sha256Laws.
Proof. split. intros. apply length_pad. Qed.

#[export] Instance digests : Digests := {
  sha1 := pad 20; sha384 := pad 48; sha512 := pad 64;
}.

(** The identity cipher whose tag is the start of the key. *)
#[export] Instance aead : Aead := {
  aead_encrypt k n aad pt := Some (pt, pad 16 k);
  aead_decrypt k n aad ct tag := if bool_decide (tag = pad 16 k) then Some ct else None;
}.

#[export] Instance aead_laws : AeadLaws aead.
Proof.
  split; cbn; intros; simplify_eq; try done.
  - by rewrite bool_decide_eq_true_2.
  - apply length_pad.
  - by case_bool_decide; simplify_eq.
Qed.

Definition world (seed : byte) (now : Z) : World :=
  {| os_random n := Ok (replicate n seed); unix_seconds := now |}.

Lemma world_ok seed now : os_random_ok (world seed now).
Proof. intros n. cbn. apply length_replicate. Qed.
End Toy.
