(* ===== verification/KeyLog.v ===== *)
(** * KeyLog: exporting session secrets

    crates/oxitls-core/src/keylog.rs ([KeyLogPolicy]) and the three bridges that
    turn a policy into a [rustls::KeyLog]: keylog_bridge.rs of the adapter, the one
    in crates/oxitls/src/tls13/client.rs and the one in tls13/server.rs.  The file
    system and the custom loggers are a state; opening and writing may fail. *)

From S2P Require Import Prelude Core.

(** ** The policy; a custom logger is its identity *)

Inductive KeyLogPolicy := KeyLogDisabled | KeyLogFile (path : string) | KeyLogCustom (logger : nat).

#[export] Instance KeyLogPolicy_eq_dec : EqDecision KeyLogPolicy.
Proof. solve_decision. Defined.

(** [{path:?}] of a path is the operating system's quoting, an argument. *)
Definition key_log_policy_debug (path_debug : string -> string) (self : KeyLogPolicy) : string :=
  match self with
  | KeyLogDisabled => "KeyLogPolicy::Disabled"
  | KeyLogFile path => "KeyLogPolicy::File(" +:+ path_debug path +:+ ")"
  | KeyLogCustom _ => "KeyLogPolicy::Custom(<KeyLog impl>)"
  end.

(** ** Files and loggers *)

Record LogEntry := { le_label : string; le_client_random : bytes; le_secret : bytes }.

Record LogState := {
  files : gmap string bytes;
  received : list (nat * LogEntry);
}.

(** What the operating system does to one call: whether the file opens, and after
    how many bytes the write stops with an error ([None]: it does not). *)
Record IoAnswer := { opens : bool; write_stops : option nat }.

Definition io_fine : IoAnswer := {| opens := true; write_stops := None |}.

(** [OpenOptions::new().create(true).append(true).open(path)]: a handle is the
    path, and a missing file is created. *)
Definition open_append (io : IoAnswer) (st : LogState) (path : string) : LogState * R unit string :=
  if opens io
  then ({| files := <[path := default [] (files st !! path)]> (files st); received := received st |}, Ok path)
  else (st, Err tt).

(** [file.write_all(line)] on a handle opened for appending. *)
Definition write_all (io : IoAnswer) (st : LogState) (file : string) (line : bytes) : LogState * R unit unit :=
  let old := default [] (files st !! file) in
  match write_stops io with
  | None => ({| files := <[file := old ++ line]> (files st); received := received st |}, Ok tt)
  | Some n => ({| files := <[file := old ++ take n line]> (files st); received := received st |}, Err tt)
  end.

(** [arc.log(..)] of the custom logger. *)
Definition custom_log (st : LogState) (logger : nat) (e : LogEntry) : LogState :=
  {| files := files st; received := received st ++ [(logger, e)] |}.

(** ** The bridges *)

Definition hex_bytes (bs : bytes) : string := foldl (fun acc b => acc +:+ hex02 b) "" bs.

Definition newline : string := String (Ascii.ascii_of_nat 10) "".

(** [format!("{label} {client_random} {secret}\n")] *)
Definition key_log_line (e : LogEntry) : string :=
  le_label e +:+ " " +:+ hex_bytes (le_client_random e) +:+ " " +:+ hex_bytes (le_secret e) +:+ newline.

(** The bridge of the adapter. *)
Definition bridge_log (policy : KeyLogPolicy) (io : IoAnswer) (st : LogState)
  (label : string) (client_random secret : bytes) : LogState :=
  let e := {| le_label := label; le_client_random := client_random; le_secret := secret |} in
  match policy with
  | KeyLogDisabled => st
  | KeyLogFile path =>
      match open_append io st path with
      | (st, Ok file) => let line := key_log_line e in (write_all io st file (bstr line)).1
      | (st, _) => st
      end
  | KeyLogCustom arc => custom_log st arc e
  end.

(** The bridge of the client facade. *)
Definition client_bridge_log (policy : KeyLogPolicy) (io : IoAnswer) (st : LogState)
  (label : string) (client_random secret : bytes) : LogState :=
  match policy with
  | KeyLogDisabled => st
  | KeyLogFile path =>
      match open_append io st path with
      | (st, Ok file) =>
          let line := label +:+ " " +:+ hex_bytes client_random +:+ " " +:+ hex_bytes secret +:+ newline in
          (write_all io st file (bstr line)).1
      | (st, _) => st
      end
  | KeyLogCustom arc =>
      custom_log st arc {| le_label := label; le_client_random := client_random; le_secret := secret |}
  end.

Definition server_hex_bytes (bs : bytes) : string := foldl (fun acc b => acc +:+ hex02 b) "" bs.

(** The bridge of the server facade formats before it opens the file. *)
Definition server_bridge_log (policy : KeyLogPolicy) (io : IoAnswer) (st : LogState)
  (label : string) (client_random secret : bytes) : LogState :=
  match policy with
  | KeyLogDisabled => st
  | KeyLogFile path =>
      let line := label +:+ " " +:+ server_hex_bytes client_random +:+ " " +:+ server_hex_bytes secret +:+ newline in
      match open_append io st path with
      | (st, Ok f) => (write_all io st f (bstr line)).1
      | (st, _) => st
      end
  | KeyLogCustom arc =>
      custom_log st arc {| le_label := label; le_client_random := client_random; le_secret := secret |}
  end.

(** [will_log], the same in the three bridges. *)
Definition will_log (policy : KeyLogPolicy) (_label : string) : bool :=
  match policy with KeyLogDisabled => false | _ => true end.

(** [impl Debug for KeyLogBridge] and [for ServerKeyLogBridge]. *)
Definition bridge_debug (path_debug : string -> string) (policy : KeyLogPolicy) : string :=
  "KeyLogBridge(" +:+ key_log_policy_debug path_debug policy +:+ ")".
Definition server_bridge_debug (path_debug : string -> string) (policy : KeyLogPolicy) : string :=
  "ServerKeyLogBridge(" +:+ key_log_policy_debug path_debug policy +:+ ")".

(** ** Reading a key log

    The NSS format as its readers take it: lines of three fields separated by
    spaces, the last two in hexadecimal. *)

Definition unhex_digit (b : byte) : option Z :=
  let v := val b in
  if (48 <=? v)%Z && (v <=? 57)%Z then Some (v - 48)%Z
  else if (97 <=? v)%Z && (v <=? 102)%Z then Some (v - 87)%Z else None.

Fixpoint unhex (l : bytes) : option bytes :=
  match l with
  | [] => Some []
  | a :: b :: l =>
      match unhex_digit a, unhex_digit b, unhex l with
      | Some x, Some y, Some bs => Some (u8 (x * 16 + y) :: bs)
      | _, _, _ => None
      end
  | _ => None
  end.

Definition parse_line (l : bytes) : option (bytes * bytes * bytes) :=
  match split_on Byte.x20 l with
  | [label; cr; s] =>
      match unhex cr, unhex s with Some cr, Some s => Some (label, cr, s) | _, _ => None end
  | _ => None
  end.

Definition parse_key_log (l : bytes) : option (list (bytes * bytes * bytes)) :=
  mapM parse_line (filter (fun line => line <> []) (split_on Byte.x0a l)).

(** ** Properties *)

Definition hex2 (b : byte) : bytes := bstr (hex02 b).

Lemma hex2_digits b : exists x y,
  hex2 b = [x; y] /\ unhex_digit x = Some (val b / 16)%Z /\ unhex_digit y = Some (val b mod 16)%Z /\
  x <> Byte.x20 /\ y <> Byte.x20 /\ x <> Byte.x0a /\ y <> Byte.x0a.
Proof.
  unfold hex2. destruct b; eexists _, _; (split; [vm_compute; reflexivity|]);
    vm_compute; repeat split; discriminate.
Qed.

Lemma bstr_hex_bytes bs : bstr (hex_bytes bs) = mjoin (hex2 <$> bs).
Proof.
  unfold hex_bytes. assert (forall acc,
    bstr (foldl (fun acc b => acc +:+ hex02 b) acc bs) = bstr acc ++ mjoin (hex2 <$> bs)) as Hacc.
  { induction bs as [|b bs IH]; intros acc; cbn [foldl fmap list_fmap mjoin list_join]; [by rewrite app_nil_r|].
    by rewrite IH, bstr_app, <- app_assoc. }
  apply (Hacc "").
Qed.

Lemma server_hex_bytes_eq bs : server_hex_bytes bs = hex_bytes bs.
Proof. reflexivity. Qed.

Lemma hex_no_separator sep bs : sep = Byte.x20 \/ sep = Byte.x0a -> sep ∉ mjoin (hex2 <$> bs).
Proof.
  intros Hs. induction bs as [|b bs IH]; cbn; [apply not_elem_of_nil|].
  destruct (hex2_digits b) as (x & y & -> & _ & _ & Hx & Hy & Hx' & Hy'). cbn.
  rewrite !not_elem_of_cons. destruct Hs as [->| ->]; auto.
Qed.

Lemma unhex_hex bs : unhex (mjoin (hex2 <$> bs)) = Some bs.
Proof.
  induction bs as [|b bs IH]; [done|]. rewrite fmap_cons, join_cons.
  destruct (hex2_digits b) as (x & y & -> & Hx & Hy & _). cbn [unhex app].
  rewrite Hx, Hy, IH. do 2 f_equal.
  rewrite (Z.mul_comm _ 16), <- Z.div_mod by done. apply byte.of_Z_unsigned.
Qed.

(** A label a reader can take apart. *)
Definition label_ok (e : LogEntry) : Prop :=
  (Byte.x20 ∉ bstr (le_label e)) /\ (Byte.x0a ∉ bstr (le_label e)).

Definition entry_fields (e : LogEntry) : bytes * bytes * bytes := (bstr (le_label e), le_client_random e, le_secret e).

Lemma key_log_line_bytes e :
  bstr (key_log_line e)
  = (bstr (le_label e) ++ (Byte.x20 :: mjoin (hex2 <$> le_client_random e))
     ++ (Byte.x20 :: mjoin (hex2 <$> le_secret e))) ++ [Byte.x0a].
Proof.
  unfold key_log_line. rewrite !bstr_app, !bstr_hex_bytes.
  change (bstr " ") with [Byte.x20]. change (bstr newline) with [Byte.x0a].
  rewrite <- !app_assoc. done.
Qed.

Lemma parse_line_fields e :
  Byte.x20 ∉ bstr (le_label e) ->
  parse_line (bstr (le_label e) ++ Byte.x20 :: mjoin (hex2 <$> le_client_random e)
              ++ Byte.x20 :: mjoin (hex2 <$> le_secret e)) = Some (entry_fields e).
Proof.
  intros Hsp. unfold parse_line.
  rewrite split_on_app, split_on_app, split_on_none by auto using hex_no_separator.
  by rewrite !unhex_hex.
Qed.

Lemma parse_key_log_lines es :
  Forall label_ok es -> parse_key_log (mjoin ((fun e => bstr (key_log_line e)) <$> es)) = Some (entry_fields <$> es).
Proof.
  unfold parse_key_log. induction 1 as [|e es [Hsp Hnl] _ IH]; [done|].
  rewrite fmap_cons, join_cons, key_log_line_bytes, <- app_assoc. cbn [app]. rewrite split_on_app.
  2:{ rewrite !not_elem_of_app, !not_elem_of_cons, not_elem_of_app, not_elem_of_cons.
      split_and!; auto using hex_no_separator. }
  rewrite filter_cons, decide_True by (by destruct (bstr (le_label e))).
  cbn [mapM]. rewrite parse_line_fields by done. cbn. by rewrite IH.
Qed.

(** The three bridges are one function. *)
Lemma bridges_agree : client_bridge_log = bridge_log /\ server_bridge_log = bridge_log.
Proof. done. Qed.

(** What one call adds to its file. *)
Definition written (io : IoAnswer) (line : bytes) : bytes :=
  if opens io then match write_stops io with None => line | Some n => take n line end else [].

Lemma bridge_log_file path io st e :
  let st' := bridge_log (KeyLogFile path) io st (le_label e) (le_client_random e) (le_secret e) in
  default [] (files st' !! path) = default [] (files st !! path) ++ written io (bstr (key_log_line e)) /\
  (forall p, p <> path -> files st' !! p = files st !! p) /\ received st' = received st.
Proof.
  cbv zeta. unfold bridge_log, open_append, written. destruct e as [l cr s], (opens io);
    cbn -[key_log_line bstr]; [|by rewrite app_nil_r].
  unfold write_all. cbn -[key_log_line bstr]. rewrite lookup_insert_eq.
  destruct (write_stops io); cbn -[key_log_line bstr]; rewrite insert_insert_eq, lookup_insert_eq;
    (split_and!; [done| |done]); intros; by rewrite lookup_insert_ne.
Qed.

(** A run of the log: every call with what the system did to it. *)
Definition log_all (policy : KeyLogPolicy) (calls : list (IoAnswer * LogEntry)) (st : LogState) : LogState :=
  foldl (fun st c => bridge_log policy c.1 st (le_label c.2) (le_client_random c.2) (le_secret c.2)) st calls.

Lemma log_all_file path calls st :
  default [] (files (log_all (KeyLogFile path) calls st) !! path)
  = default [] (files st !! path) ++ mjoin ((fun c => written c.1 (bstr (key_log_line c.2))) <$> calls) /\
  (forall p, p <> path -> files (log_all (KeyLogFile path) calls st) !! p = files st !! p) /\
  received (log_all (KeyLogFile path) calls st) = received st.
Proof.
  revert st. induction calls as [|[io e] calls IH]; intros st; [by rewrite app_nil_r|].
  destruct (bridge_log_file path io st e) as (Hf & Hp & Hr).
  set (st1 := bridge_log (KeyLogFile path) io st (le_label e) (le_client_random e) (le_secret e)) in *.
  change (log_all (KeyLogFile path) ((io, e) :: calls) st) with (log_all (KeyLogFile path) calls st1).
  destruct (IH st1) as (IHf & IHp & IHr). split_and!.
  - rewrite IHf, Hf, fmap_cons, join_cons. by rewrite <- app_assoc.
  - intros p Hne. by rewrite IHp, Hp.
  - by rewrite IHr.
Qed.

(** C14: logging to a file appends exactly one line per call (the part of it the
    system took), whatever fails and in all three bridges, and touches nothing
    else; when nothing fails and the file was empty, reading it back gives the
    secrets that were logged, in order. *)
Theorem key_log_file_roundtrip path calls st :
  let st' := log_all (KeyLogFile path) calls st in
  default [] (files st' !! path)
    = default [] (files st !! path) ++ mjoin ((fun c => written c.1 (bstr (key_log_line c.2))) <$> calls) /\
  (forall p, p <> path -> files st' !! p = files st !! p) /\ received st' = received st /\
  (client_bridge_log = bridge_log /\ server_bridge_log = bridge_log) /\
  (Forall (fun c => c.1 = io_fine /\ label_ok c.2) calls -> default [] (files st !! path) = [] ->
   parse_key_log (default [] (files st' !! path)) = Some (entry_fields <$> calls.*2)).
Proof.
  cbv zeta. destruct (log_all_file path calls st) as (Hf & Hp & Hr).
  split_and!; [done..|apply bridges_agree|]. intros Hok Hempty. rewrite Hf, Hempty. cbn [app].
  rewrite <- (parse_key_log_lines calls.*2) by (apply Forall_fmap; eapply Forall_impl; [exact Hok|]; by intros ? []).
  do 2 f_equal. rewrite <- list_fmap_compose. apply list_fmap_ext.
  intros i c Hi. apply (Forall_lookup_1 _ _ _ _ Hok) in Hi as [Hio _]. cbn. by rewrite Hio.
Qed.

(** ** Witness *)

Module KeyLogWitness.
Definition entry (b : byte) : LogEntry :=
  {| le_label := "CLIENT_RANDOM"; le_client_random := [b; Byte.x0f]; le_secret := [Byte.xff] |}.
Definition empty_state : LogState := {| files := ∅; received := [] |}.
Definition calls : list (IoAnswer * LogEntry) := [(io_fine, entry Byte.x01); (io_fine, entry Byte.x02)].

Lemma key_log_file_roundtrip_witness :
  files (log_all (KeyLogFile "k") calls empty_state) !! "k"
    = Some (bstr "CLIENT_RANDOM 010f ff" ++ [Byte.x0a] ++ bstr "CLIENT_RANDOM 020f ff" ++ [Byte.x0a]) /\
  parse_key_log (default [] (files (log_all (KeyLogFile "k") calls empty_state) !! "k"))
    = Some [(bstr "CLIENT_RANDOM", [Byte.x01; Byte.x0f], [Byte.xff]);
            (bstr "CLIENT_RANDOM", [Byte.x02; Byte.x0f], [Byte.xff])].
Proof.
  split; [vm_compute; reflexivity|].
  destruct (key_log_file_roundtrip "k" calls empty_state) as (_ & _ & _ & _ & Hrt).
  apply Hrt; [|reflexivity].
  repeat constructor; cbn; apply (bool_decide_eq_true_1 (_ ∉ _)); vm_compute; reflexivity.
Defined.
End KeyLogWitness.
