(* ===== verification/Tickets.v ===== *)
(** * Tickets: session tickets

    [rustls::server::ProducesTickets] as an interface, and its implementation
    [OxiTicketer] of crates/oxitls/src/ticketer.rs: AES-256-GCM tickets under a
    current and a previous key, with key rotation. *)

From S2P Require Import Prelude Core Crypto.

(** The [ProducesTickets] trait.  Its methods take [&self]; the state an
    implementation changes through a lock is returned, and [World] is what the
    OS answers during the call. *)
Class ProducesTickets (T : Type) := {
  enabled : T -> bool;
  lifetime : T -> Z;
  encrypt : T -> World -> bytes -> R unit bytes;
  decrypt : T -> World -> bytes -> T * R unit bytes;
}.

Definition NONCE_LEN : nat := 12.
Definition TAG_LEN : nat := 16.
Definition KEY_LEN : nat := 32.
Definition VERSION_BYTE : byte := Byte.x01.
Definition AAD : bytes := bstr "oxitls-ticket-v1".

(** The state under the [RwLock], the lock's poison flag, and the lifetime. *)
Record OxiTicketer := {
  current : bytes;
  previous : option bytes;
  poisoned : bool;
  lifetime_secs : Z;
}.

Definition generate (w : World) : R TlsError bytes :=
  map_err Other (os_random w KEY_LEN).

Definition new_with_lifetime (w : World) (lifetime_secs : Z) : R TlsError OxiTicketer :=
  current ← generate w;
  Ok {| current := current; previous := None; poisoned := false;
        lifetime_secs := lifetime_secs |}.

Definition new (w : World) : R TlsError OxiTicketer := new_with_lifetime w (6 * 60 * 60).

Definition rotate (w : World) (self : OxiTicketer) : OxiTicketer * R TlsError unit :=
  match generate w with
  | Err e => (self, Err e)
  | Panic => (self, Panic)
  | Ok new_current =>
      if poisoned self then (self, Err (Other "RwLock poisoned")) else
      ({| current := new_current; previous := Some (current self); poisoned := false;
          lifetime_secs := lifetime_secs self |}, Ok tt)
  end.

Section OxiTicketer.
Context {aes256gcm : Aead}.

(** [Aes256Gcm::new_from_slice], [Nonce::try_from] and [Tag::try_from] fail
    exactly on a wrong length. *)
Definition fixed_len (n : nat) (bs : bytes) : R unit bytes :=
  if length bs =? n then Ok bs else Err tt.

Definition encrypt_with_key (w : World) (key_bytes plain : bytes) : R unit bytes :=
  nonce_bytes ← map_err (fun _ => tt) (os_random w NONCE_LEN);
  let out := VERSION_BYTE :: nonce_bytes ++ plain in
  let cipher_start := 1 + NONCE_LEN in
  let cipher_end := cipher_start + length plain in
  cipher ← fixed_len KEY_LEN key_bytes;
  nonce ← fixed_len NONCE_LEN nonce_bytes;
  msg ← slice out cipher_start cipher_end;
  '(ct, tag) ← ok_or tt (aead_encrypt cipher nonce AAD msg);
  Ok (take cipher_start out ++ ct ++ tag).

Definition decrypt_with_key (key_bytes ticket : bytes) : R unit bytes :=
  let min_len := 1 + NONCE_LEN + TAG_LEN in
  if length ticket <? min_len then Err tt else
  version ← index ticket 0;
  if bool_decide (version <> VERSION_BYTE) then Err tt else
  nonce_bytes ← slice ticket 1 (1 + NONCE_LEN);
  ct_and_tag ← slice ticket (1 + NONCE_LEN) (length ticket);
  if length ct_and_tag <? TAG_LEN then Err tt else
  let pt_len := length ct_and_tag - TAG_LEN in
  cipher ← fixed_len KEY_LEN key_bytes;
  nonce ← fixed_len NONCE_LEN nonce_bytes;
  tag_slice ← slice ct_and_tag pt_len (length ct_and_tag);
  tag ← fixed_len TAG_LEN tag_slice;
  buf ← slice ct_and_tag 0 pt_len;
  ok_or tt (aead_decrypt cipher nonce AAD buf tag).

Definition oxi_encrypt (self : OxiTicketer) (w : World) (plain : bytes) : R unit bytes :=
  if poisoned self then Err tt else encrypt_with_key w (current self) plain.

Definition oxi_decrypt (self : OxiTicketer) (ticket : bytes) : R unit bytes :=
  if poisoned self then Err tt else
  match decrypt_with_key (current self) ticket with
  | Ok pt => Ok pt
  | Panic => Panic
  | Err _ =>
      match previous self with
      | Some prev => decrypt_with_key prev ticket
      | None => Err tt
      end
  end.

#[export] Instance OxiTicketer_ProducesTickets : ProducesTickets OxiTicketer := {
  enabled _ := true;
  lifetime self := lifetime_secs self;
  encrypt := oxi_encrypt;
  decrypt self _ ticket := (self, oxi_decrypt self ticket);
}.

(** The invariant of a ticketer built by [new] and changed by [rotate]. *)
Definition ticketer_ok (t : OxiTicketer) : Prop :=
  length (current t) = KEY_LEN /\
  (forall k, previous t = Some k -> length k = KEY_LEN) /\ poisoned t = false.

Lemma fixed_len_ok n bs : length bs = n -> fixed_len n bs = Ok bs.
Proof. intros <-. unfold fixed_len. by rewrite Nat.eqb_refl. Qed.

Lemma decrypt_with_key_no_panic key ticket : decrypt_with_key key ticket <> Panic.
Proof.
  unfold decrypt_with_key, fixed_len, NONCE_LEN, TAG_LEN. no_panic; lia.
Qed.

(** The wire form of a ticket. *)
Definition ticket_wire (nonce ct tag : bytes) : bytes := VERSION_BYTE :: nonce ++ ct ++ tag.

Lemma decrypt_wire key nonce ct tag :
  length key = KEY_LEN -> length nonce = NONCE_LEN -> length tag = TAG_LEN ->
  decrypt_with_key key (ticket_wire nonce ct tag) = ok_or tt (aead_decrypt key nonce AAD ct tag).
Proof.
  intros Hk Hn Ht. unfold decrypt_with_key, ticket_wire.
  assert (length (VERSION_BYTE :: nonce ++ ct ++ tag) = 1 + NONCE_LEN + length ct + TAG_LEN) as Hl
    by (cbn [length]; rewrite !length_app; lia).
  rewrite (proj2 (Nat.ltb_ge _ _)) by lia. cbn [index lookup list_lookup mbind R_bind].
  rewrite bool_decide_eq_false_2 by naive_solver.
  set (t := VERSION_BYTE :: nonce ++ ct ++ tag) in *.
  assert (slice (E:=unit) t 1 (1 + NONCE_LEN) = Ok nonce) as ->
    by (apply (slice_app_mid [VERSION_BYTE] nonce (ct ++ tag)); cbn [length]; lia).
  assert (slice (E:=unit) t (1 + NONCE_LEN) (length t) = Ok (ct ++ tag)) as ->.
  { rewrite slice_full by lia. f_equal.
    change t with (([VERSION_BYTE] ++ nonce) ++ (ct ++ tag)). rewrite <- Hn. apply drop_app_length. }
  cbn [mbind R_bind].
  rewrite (proj2 (Nat.ltb_ge (length (ct ++ tag)) _)) by (rewrite length_app; lia).
  rewrite (fixed_len_ok _ key), (fixed_len_ok _ nonce) by done. cbn [mbind R_bind].
  replace (length (ct ++ tag) - TAG_LEN) with (length ct) by (rewrite length_app; lia).
  rewrite (slice_full (ct ++ tag) (length ct) _ eq_refl) by (rewrite length_app; lia). cbn [mbind R_bind].
  rewrite drop_app_length, (fixed_len_ok _ tag) by done. cbn [mbind R_bind].
  rewrite (slice_app_mid [] ct tag) by (cbn [length]; lia). done.
Qed.

Lemma encrypt_wire w key plain t :
  encrypt_with_key w key plain = Ok t ->
  exists nonce ct tag,
    os_random w NONCE_LEN = Ok nonce /\ length nonce = NONCE_LEN /\ length key = KEY_LEN /\
    aead_encrypt key nonce AAD plain = Some (ct, tag) /\ t = ticket_wire nonce ct tag.
Proof.
  unfold encrypt_with_key, fixed_len. intros H.
  destruct (os_random w NONCE_LEN) as [nonce| |]; try done. cbn [map_err mbind R_bind] in H.
  destruct (length key =? KEY_LEN) eqn:Hk; [|done]. cbn [mbind R_bind] in H.
  destruct (length nonce =? NONCE_LEN) eqn:Hn; [|done]. cbn [mbind R_bind] in H. reflect_tests.
  assert (slice (E:=unit) (VERSION_BYTE :: nonce ++ plain) (1 + NONCE_LEN)
            (1 + NONCE_LEN + length plain) = Ok plain) as Hs.
  { rewrite <- (app_nil_r plain) at 1.
    apply (slice_app_mid (VERSION_BYTE :: nonce)); cbn [length]; lia. }
  rewrite Hs in H. cbn [mbind R_bind] in H.
  destruct (aead_encrypt key nonce AAD plain) as [[ct tag]|] eqn:He; [|done].
  injection H as <-. exists nonce, ct, tag. split_and!; try done.
  unfold ticket_wire. rewrite (app_comm_cons nonce), take_app_le by (cbn [length]; lia).
  by rewrite take_ge by (cbn [length]; lia).
Qed.

Lemma ticket_split (t : bytes) :
  1 + NONCE_LEN + TAG_LEN <= length t ->
  exists b nonce ct tag, t = b :: nonce ++ ct ++ tag /\
    length nonce = NONCE_LEN /\ length tag = TAG_LEN.
Proof.
  intros Hl. destruct t as [|b t]; cbn [length] in Hl; [lia|].
  set (m := length t - NONCE_LEN - TAG_LEN).
  exists b, (take NONCE_LEN t), (take m (drop NONCE_LEN t)), (drop m (drop NONCE_LEN t)).
  rewrite !take_drop. split; [done|]. rewrite length_take, !length_drop. subst m. lia.
Qed.

Lemma decrypt_with_key_guards key ticket pt :
  decrypt_with_key key ticket = Ok pt ->
  1 + NONCE_LEN + TAG_LEN <= length ticket /\ ticket !! 0 = Some VERSION_BYTE /\
  length key = KEY_LEN.
Proof.
  unfold decrypt_with_key, fixed_len. intros H. case_test; [done|]. inv_ok.
  case_test; [done|]. inv_ok. case_test; [done|]. inv_ok.
  destruct (length key =? KEY_LEN) eqn:Hk; [|done]. reflect_tests.
  rename select (index _ _ = _) into Hi. unfold index in Hi.
  destruct (ticket !! 0) eqn:Ht; [|done]. injection Hi as ->.
  rename select (bool_decide _ = false) into Hv. apply bool_decide_eq_false in Hv.
  by apply dec_stable in Hv as ->.
Qed.

(** A ticket that opens has the wire form. *)
Lemma decrypt_with_key_inv key ticket pt :
  decrypt_with_key key ticket = Ok pt ->
  exists nonce ct tag, ticket = ticket_wire nonce ct tag /\ length nonce = NONCE_LEN /\
    length tag = TAG_LEN /\ aead_decrypt key nonce AAD ct tag = Some pt.
Proof.
  intros H. destruct (decrypt_with_key_guards _ _ _ H) as (Hl & Hv & Hk).
  destruct (ticket_split _ Hl) as (b & nonce & ct & tag & -> & Hn & Ht).
  cbn in Hv. injection Hv as ->. exists nonce, ct, tag. split_and!; try done.
  fold (ticket_wire nonce ct tag) in H. rewrite decrypt_wire in H by done. by apply ok_or_Ok in H.
Qed.
End OxiTicketer.

Section theorems.
Context {aes256gcm : Aead} {aes_laws : AeadLaws aes256gcm}.

Lemma encrypt_decrypt_with_key w key plain t :
  encrypt_with_key w key plain = Ok t ->
  decrypt_with_key key t = Ok plain /\ length t = length plain + 29.
Proof.
  intros (nonce & ct & tag & _ & Hn & Hk & He & ->)%encrypt_wire.
  pose proof (aead_tag_length _ _ _ _ _ _ He) as Ht.
  pose proof (aead_ct_length _ _ _ _ _ _ He) as Hc.
  rewrite decrypt_wire by done. rewrite (aead_correct _ _ _ _ _ _ He).
  split; [done|]. unfold ticket_wire, NONCE_LEN in *. cbn [length]. rewrite !length_app. lia.
Qed.

Lemma rotate_ok w t t' :
  os_random_ok w -> rotate w t = (t', Ok tt) ->
  ticketer_ok t -> ticketer_ok t' /\ previous t' = Some (current t).
Proof.
  intros Hw. unfold rotate, generate. specialize (Hw KEY_LEN).
  destruct (os_random w KEY_LEN) as [k| |]; cbn [map_err]; try done.
  destruct (poisoned t); [done|]. intros [= <-] (Hc & Hp & _).
  split; [|done]. split_and!; [done| |done]. by intros ? [= <-].
Qed.

Lemma oxi_encrypt_decrypt t w plain ticket :
  oxi_encrypt t w plain = Ok ticket ->
  oxi_decrypt t ticket = Ok plain /\ length ticket = length plain + 29.
Proof.
  unfold oxi_encrypt, oxi_decrypt. destruct (poisoned t); [done|].
  intros [Hd Hl]%encrypt_decrypt_with_key. by rewrite Hd.
Qed.

(** A session ticket opens to the state it was sealed from, by the same
    ticketer, and is exactly 29 bytes (version, nonce, tag) longer. *)
Theorem ticket_roundtrip (t : OxiTicketer) w plain ticket
  (Henc : encrypt t w plain = Ok ticket) :
  (decrypt t w ticket).2 = Ok plain /\ length ticket = length plain + 29.
Proof.
  exact (oxi_encrypt_decrypt t w plain ticket Henc).
Qed.

(** One rotation keeps a ticket open, two close it (when the new keys do not
    happen to open it). *)
Lemma rotate_inv w t t' :
  rotate w t = (t', Ok tt) ->
  poisoned t = false /\ poisoned t' = false /\ previous t' = Some (current t) /\ lifetime_secs t' = lifetime_secs t.
Proof.
  unfold rotate. destruct (generate w); try done. destruct (poisoned t) eqn:Hp; [done|]. by intros [= <-].
Qed.

Lemma grace_one t t1 w0 w1 plain ticket :
  oxi_encrypt t w0 plain = Ok ticket -> rotate w1 t = (t1, Ok tt) ->
  decrypt_with_key (current t1) ticket = Err tt -> oxi_decrypt t1 ticket = Ok plain.
Proof.
  intros Henc (Hp & Hp1 & Hprev & _)%rotate_inv Hf. unfold oxi_encrypt in Henc. rewrite Hp in Henc.
  apply encrypt_decrypt_with_key in Henc as [Hd _]. unfold oxi_decrypt. by rewrite Hp1, Hf, Hprev, Hd.
Qed.

Lemma grace_two t1 t2 w2 ticket :
  rotate w2 t1 = (t2, Ok tt) -> decrypt_with_key (current t1) ticket = Err tt ->
  decrypt_with_key (current t2) ticket = Err tt -> oxi_decrypt t2 ticket = Err tt.
Proof. intros (_ & Hp & Hprev & _)%rotate_inv Hf1 Hf2. unfold oxi_decrypt. by rewrite Hp, Hf2, Hprev, Hf1. Qed.

(** C6: key rotation keeps the tickets in flight for one cycle and no longer:
    after one rotation a ticket of the old key still opens, when the new key
    does not open it; after two, it opens no more, when neither new key does. *)
Theorem rotation_grace_period (t t1 t2 : OxiTicketer) w0 w1 w2 plain ticket
  (Henc : encrypt t w0 plain = Ok ticket)
  (Hrot1 : rotate w1 t = (t1, Ok tt)) (Hrot2 : rotate w2 t1 = (t2, Ok tt))
  (Hfresh1 : decrypt_with_key (current t1) ticket = Err tt)
  (Hfresh2 : decrypt_with_key (current t2) ticket = Err tt) :
  (decrypt t1 w1 ticket).2 = Ok plain /\ (decrypt t2 w2 ticket).2 = Err tt.
Proof.
  cbn in *. split; [by eapply grace_one|by eapply grace_two].
Qed.

(** Opening a ticket is total and strict: on any bytes at all [decrypt]
    returns without a panic, and it returns a state only for bytes in the
    ticket wire form, of at least 29 bytes, that the current or the previous
    key authenticates. *)
Theorem decrypt_total_strict (t : OxiTicketer) w ticket :
  (decrypt t w ticket).2 <> Panic /\
  forall pt, (decrypt t w ticket).2 = Ok pt ->
    exists key nonce ct tag,
      (key = current t \/ previous t = Some key) /\
      ticket = ticket_wire nonce ct tag /\ length ticket = length pt + 29 /\
      aead_decrypt key nonce AAD ct tag = Some pt.
Proof.
  cbn. unfold oxi_decrypt. destruct (poisoned t); [done|].
  assert (forall key pt, decrypt_with_key key ticket = Ok pt ->
    exists nonce ct tag, ticket = ticket_wire nonce ct tag /\ length ticket = length pt + 29 /\
      aead_decrypt key nonce AAD ct tag = Some pt) as Hinv.
  { intros key pt (nonce & ct & tag & -> & Hn & Ht & Ha)%decrypt_with_key_inv.
    exists nonce, ct, tag. split_and!; try done. apply aead_pt_length in Ha.
    unfold ticket_wire, NONCE_LEN, TAG_LEN in *. cbn [length]. rewrite !length_app. lia. }
  pose proof (decrypt_with_key_no_panic (current t) ticket).
  destruct (decrypt_with_key (current t) ticket) as [pt| |] eqn:Hc; [|destruct (previous t) as [k|] eqn:Hk|]; try done.
  - split; [done|]. intros ? [= <-]. apply Hinv in Hc. naive_solver.
  - split; [apply decrypt_with_key_no_panic|]. intros pt Hd. apply Hinv in Hd. naive_solver.
Qed.
End theorems.

(** ** Witnesses *)

Module TicketsWitness.
Import Toy.
Definition key (b : byte) : bytes := replicate 32 b.
Definition t0 : OxiTicketer :=
  {| current := key Byte.x07; previous := None; poisoned := false; lifetime_secs := 21600 |}.
Definition ticket0 : bytes :=
  VERSION_BYTE :: replicate 12 Byte.x01 ++ bstr "state" ++ replicate 16 Byte.x07.

Lemma ticket_roundtrip_witness :
  encrypt t0 (world Byte.x01 0) (bstr "state") = Ok ticket0 /\
  (decrypt t0 (world Byte.x01 0) ticket0).2 = Ok (bstr "state") /\
  length ticket0 = length (bstr "state") + 29.
Proof.
  assert (encrypt t0 (world Byte.x01 0) (bstr "state") = Ok ticket0) as H by (vm_compute; reflexivity).
  split; [exact H|]. exact (ticket_roundtrip t0 _ _ _ H).
Defined.

Lemma decrypt_total_strict_witness :
  (decrypt t0 (world Byte.x01 0) ticket0).2 <> Panic /\
  exists key nonce ct tag, (key = current t0 \/ previous t0 = Some key) /\
    ticket0 = ticket_wire nonce ct tag /\ length ticket0 = length (bstr "state") + 29 /\
    aead_decrypt key nonce AAD ct tag = Some (bstr "state").
Proof.
  destruct (decrypt_total_strict t0 (world Byte.x01 0) ticket0) as [H1 H2].
  split; [exact H1|]. apply H2. vm_compute. reflexivity.
Defined.

Lemma rotation_grace_period_witness :
  let t1 := (rotate (world Byte.x02 1) t0).1 in
  let t2 := (rotate (world Byte.x03 2) t1).1 in
  (decrypt t1 (world Byte.x02 1) ticket0).2 = Ok (bstr "state") /\
  (decrypt t2 (world Byte.x03 2) ticket0).2 = Err tt.
Proof.
  intros t1 t2.
  refine (rotation_grace_period t0 t1 t2 (world Byte.x01 0) _ _ (bstr "state") ticket0 _ _ _ _ _);
    vm_compute; reflexivity.
Defined.
End TicketsWitness.
