(* ===== verification/AwsTickets.v ===== *)
(** * AwsTickets: the rotating ticketer of the aws-lc adapter

    [AwsLcTicketRotator] of crates/oxitls-adapter-aws-lc/src/ticketer.rs, a second
    implementation of [ProducesTickets]: AES-256-GCM tickets without a version
    byte, and a background task that rotates the keys once per interval. *)

From S2P Require Import Prelude Core Crypto Tickets.

Definition AWS_NONCE_LEN : nat := 12.
Definition AWS_TAG_LEN : nat := 16.
Definition AWS_KEY_LEN : nat := 32.

Record RotatorState := {
  current_key : bytes;
  previous_key : option bytes;
  generation : Z;
}.

Definition random_key (w : World) : R TlsError bytes :=
  map_err (fun e => Other ("rng error: " +:+ e)) (os_random w AWS_KEY_LEN).

Definition state_generate (w : World) : R TlsError RotatorState :=
  current_key ← random_key w;
  Ok {| current_key := current_key; previous_key := None; generation := 0 |}.

Definition state_rotate (w : World) (self : RotatorState) : RotatorState * R TlsError unit :=
  match random_key w with
  | Err e => (self, Err e)
  | Panic => (self, Panic)
  | Ok new_key =>
      ({| current_key := new_key; previous_key := Some (current_key self);
          generation := Z.min U64_MAX (generation self + 1) |}, Ok tt)
  end.

(** The rotator: the state under its [RwLock], the lock's poison flag, the
    interval in nanoseconds (a [Duration]), the announced lifetime, and whether
    the background task still loops. *)
Record AwsLcTicketRotator := {
  rot_state : RotatorState;
  rot_poisoned : bool;
  rotation_interval : Z;
  rot_lifetime_secs : Z;
  task_running : bool;
}.

(** [Duration::as_secs]. *)
Definition as_secs (ns : Z) : Z := ns / 1000000000.

(** [tokio::time::interval] panics in the task, which then ends, for a period of
    zero. *)
Definition rotator_new (w : World) (interval : Z) : R TlsError AwsLcTicketRotator :=
  state ← state_generate w;
  let interval_secs := Z.max (as_secs interval) 1 in
  let lifetime_secs := Z.min (Z.min U64_MAX (2 * interval_secs)) U32_MAX in
  let lifetime_secs := Z.max lifetime_secs 1 in
  Ok {| rot_state := state; rot_poisoned := false; rotation_interval := interval;
        rot_lifetime_secs := lifetime_secs; task_running := negb (interval =? 0)%Z |}.

(** One iteration of the loop of the background task, after its tick. *)
Definition task_iteration (w : World) (self : AwsLcTicketRotator) : AwsLcTicketRotator :=
  if negb (task_running self) then self else
  if rot_poisoned self then
    {| rot_state := rot_state self; rot_poisoned := true; rotation_interval := rotation_interval self;
       rot_lifetime_secs := rot_lifetime_secs self; task_running := false |}
  else
    {| rot_state := (state_rotate w (rot_state self)).1; rot_poisoned := false;
       rotation_interval := rotation_interval self;
       rot_lifetime_secs := rot_lifetime_secs self; task_running := true |}.

Definition rotator_generation (self : AwsLcTicketRotator) : Z :=
  if rot_poisoned self then 0 else generation (rot_state self).

(** [Drop]: the task is aborted. *)
Definition rotator_drop (self : AwsLcTicketRotator) : AwsLcTicketRotator :=
  {| rot_state := rot_state self; rot_poisoned := rot_poisoned self;
     rotation_interval := rotation_interval self; rot_lifetime_secs := rot_lifetime_secs self;
     task_running := false |}.

Section Rotator.
Context (aes256gcm : Aead).

(** [UnboundKey::new] fails exactly on a key of another length. *)
Definition encrypt_ticket (w : World) (key_bytes plain : bytes) : R unit bytes :=
  nonce_bytes ← map_err (fun _ => tt) (os_random w AWS_NONCE_LEN);
  key ← fixed_len AWS_KEY_LEN key_bytes;
  ct ← ok_or tt (attached_encrypt aes256gcm key nonce_bytes [] plain);
  Ok (nonce_bytes ++ ct).

Definition decrypt_ticket (key_bytes ticket : bytes) : R unit bytes :=
  let min_len := AWS_NONCE_LEN + AWS_TAG_LEN in
  if length ticket <? min_len then Err tt else
  nonce_slice ← slice ticket 0 AWS_NONCE_LEN;
  nonce_bytes ← fixed_len AWS_NONCE_LEN nonce_slice;
  key ← fixed_len AWS_KEY_LEN key_bytes;
  ct ← slice ticket AWS_NONCE_LEN (length ticket);
  ok_or tt (attached_decrypt aes256gcm key nonce_bytes [] ct).

Definition aws_encrypt (self : AwsLcTicketRotator) (w : World) (plain : bytes) : R unit bytes :=
  if rot_poisoned self then Err tt else encrypt_ticket w (current_key (rot_state self)) plain.

Definition aws_decrypt (self : AwsLcTicketRotator) (ticket : bytes) : R unit bytes :=
  if rot_poisoned self then Err tt else
  match decrypt_ticket (current_key (rot_state self)) ticket with
  | Ok pt => Ok pt
  | Panic => Panic
  | Err _ =>
      match previous_key (rot_state self) with
      | Some prev => decrypt_ticket prev ticket
      | None => Err tt
      end
  end.

#[export] Instance AwsLcTicketRotator_ProducesTickets : ProducesTickets AwsLcTicketRotator := {
  enabled _ := true;
  lifetime self := rot_lifetime_secs self;
  encrypt := aws_encrypt;
  decrypt self _ ticket := (self, aws_decrypt self ticket);
}.
End Rotator.

(** ** Properties *)

Section RotatorProperties.
Context (aes256gcm : Aead) {aes_laws : AeadLaws aes256gcm}.
#[local] Existing Instance AwsLcTicketRotator_ProducesTickets.

Lemma decrypt_ticket_total key ticket : decrypt_ticket aes256gcm key ticket <> Panic.
Proof. unfold decrypt_ticket, fixed_len, AWS_NONCE_LEN, AWS_TAG_LEN. no_panic; lia. Qed.

Lemma encrypt_decrypt_ticket w key plain t :
  os_random_ok w -> encrypt_ticket aes256gcm w key plain = Ok t ->
  decrypt_ticket aes256gcm key t = Ok plain /\ length t = length plain + 28.
Proof.
  intros Hw He. specialize (Hw AWS_NONCE_LEN). unfold encrypt_ticket in He.
  apply bind_Ok in He as (nonce & Hn & He). apply map_err_Ok in Hn. rewrite Hn in Hw. cbn iota in Hw.
  apply bind_Ok in He as (key' & Hk & He). apply bind_Ok in He as (ct & Hc & [= <-]). apply ok_or_Ok in Hc.
  assert (key' = key /\ length key = AWS_KEY_LEN) as [-> Hl]
    by (unfold fixed_len in Hk; case_match; inv_ok; reflect_tests; done).
  destruct (attached_roundtrip _ _ _ _ _ _ Hc) as [Hd Hlen].
  unfold decrypt_ticket. rewrite length_app, (proj2 (Nat.ltb_ge _ _)) by (unfold AWS_NONCE_LEN, AWS_TAG_LEN in *; lia).
  rewrite (slice_app_mid [] nonce ct 0) by (cbn [length]; lia). cbn [mbind R_bind].
  rewrite fixed_len_ok by done. cbn [mbind R_bind]. rewrite fixed_len_ok by done. cbn [mbind R_bind].
  rewrite slice_full by (rewrite ?length_app; unfold AWS_NONCE_LEN in *; lia).
  rewrite <- Hw, drop_app_length. cbn [mbind R_bind].
  rewrite Hd. split; [done|]. unfold AWS_NONCE_LEN in Hw. lia.
Qed.

(** How many rotations ago the key [k0] was current, when no other key opens
    the ticket. *)
Definition key_age (ticket k0 : bytes) (n : nat) (st : RotatorState) : Prop :=
  let fresh k := decrypt_ticket aes256gcm k ticket = Err tt in
  match n with
  | 0 => current_key st = k0
  | 1 => fresh (current_key st) /\ previous_key st = Some k0
  | _ => fresh (current_key st) /\ exists p, previous_key st = Some p /\ fresh p
  end.

Lemma key_age_rotate ticket k0 n st w k :
  random_key w = Ok k -> decrypt_ticket aes256gcm k ticket = Err tt ->
  key_age ticket k0 n st -> key_age ticket k0 (S n) (state_rotate w st).1.
Proof. unfold state_rotate. intros -> Hf. destruct n as [|[|n]]; cbn; naive_solver. Qed.

(** The iterations of the task in which the generator answered. *)
Definition rotations (ws : list World) : nat := length (filter (fun w => is_ok (random_key w) = true) ws).

Definition run_task (self : AwsLcTicketRotator) (ws : list World) : AwsLcTicketRotator :=
  foldl (fun r w => task_iteration w r) self ws.

Definition live (r : AwsLcTicketRotator) : Prop := task_running r = true /\ rot_poisoned r = false.

Lemma task_iteration_live w r :
  live r -> live (task_iteration w r) /\ rotation_interval (task_iteration w r) = rotation_interval r /\
            rot_state (task_iteration w r) = (state_rotate w (rot_state r)).1.
Proof. unfold task_iteration, live. intros [-> ->]. done. Qed.

Lemma run_task_age ticket k0 n r ws :
  live r -> (forall w k, w ∈ ws -> random_key w = Ok k -> decrypt_ticket aes256gcm k ticket = Err tt) ->
  key_age ticket k0 n (rot_state r) ->
  live (run_task r ws) /\ key_age ticket k0 (n + rotations ws) (rot_state (run_task r ws)).
Proof.
  unfold run_task, rotations. revert n r. induction ws as [|w ws IH]; intros n r Hl Hf Ha; cbn [foldl].
  { by rewrite Nat.add_0_r. }
  destruct (task_iteration_live w r Hl) as (Hl' & _ & Hs).
  assert (forall w k, w ∈ ws -> random_key w = Ok k -> decrypt_ticket aes256gcm k ticket = Err tt) as Hf'.
  { intros w' k Hw. apply Hf. by right. }
  rewrite filter_cons. case_decide as Hk.
  - apply is_ok_true in Hk as [k Hk]. cbn [length]. rewrite Nat.add_succ_r, <- Nat.add_succ_l.
    apply IH; [done..|]. rewrite Hs. apply (key_age_rotate _ _ _ _ _ k); [done| |done]. apply (Hf w k); [by left|done].
  - apply IH; [done..|]. rewrite Hs. unfold state_rotate. by destruct (random_key w).
Qed.

Lemma key_age_decrypt ticket k0 n r plain :
  live r -> decrypt_ticket aes256gcm k0 ticket = Ok plain -> key_age ticket k0 n (rot_state r) ->
  aws_decrypt aes256gcm r ticket = if n <=? 1 then Ok plain else Err tt.
Proof.
  unfold live, aws_decrypt. intros [_ ->] Hk Ha. destruct n as [|[|n]]; cbn in Ha |- *.
  - by rewrite Ha, Hk.
  - destruct Ha as [-> ->]. done.
  - destruct Ha as [-> (p & -> & ->)]. done.
Qed.

Lemma aws_window r ws w0 plain ticket :
  os_random_ok w0 -> live r -> aws_encrypt aes256gcm r w0 plain = Ok ticket ->
  (forall w k, w ∈ ws -> random_key w = Ok k -> decrypt_ticket aes256gcm k ticket = Err tt) ->
  aws_decrypt aes256gcm (run_task r ws) ticket = if rotations ws <=? 1 then Ok plain else Err tt.
Proof.
  intros Hw Hl He Hf. unfold aws_encrypt in He. rewrite (proj2 Hl) in He.
  apply encrypt_decrypt_ticket in He as [Hd _]; [|done].
  destruct (run_task_age ticket _ 0 r ws Hl Hf eq_refl) as [Hl' Ha].
  by apply (key_age_decrypt _ _ _ _ _ Hl' Hd Ha).
Qed.

(** A ticket survives exactly one rotation of the background task.  After
    any number of its iterations, some of which may have failed for want of
    random bytes and left the keys alone, a ticket opens to the state it was
    sealed from if at most one of them replaced the key, and does not open
    otherwise, when the keys drawn since do not open it by themselves. *)
Theorem aws_rotation_window r ws w0 w plain ticket
  (Hw : os_random_ok w0) (Hlive : live r) (Henc : encrypt r w0 plain = Ok ticket)
  (Hfresh : forall w k, w ∈ ws -> random_key w = Ok k -> decrypt_ticket aes256gcm k ticket = Err tt) :
  (decrypt (run_task r ws) w ticket).2 = (if rotations ws <=? 1 then Ok plain else Err tt) /\
  length ticket = length plain + 28.
Proof.
  split; [by apply (aws_window r ws w0)|]. cbn in Henc. unfold aws_encrypt in Henc.
  rewrite (proj2 Hlive) in Henc. by apply encrypt_decrypt_ticket in Henc as [_ ?].
Qed.

(** *** Time *)

(** The rotator [t] nanoseconds after its creation: the task has run once for
    every interval that has passed, with the answers [ws]. *)
Definition at_time (r0 : AwsLcTicketRotator) (ws : nat -> World) (t : Z) : AwsLcTicketRotator :=
  run_task r0 (ws <$> seq 0 (Z.to_nat (t / rotation_interval r0))).

Lemma at_time_later r0 ws t t' :
  (0 < rotation_interval r0)%Z -> (0 <= t <= t')%Z ->
  at_time r0 ws t' = run_task (at_time r0 ws t)
    (ws <$> seq (Z.to_nat (t / rotation_interval r0))
                (Z.to_nat (t' / rotation_interval r0 - t / rotation_interval r0))).
Proof.
  intros HI [H0 Ht]. unfold at_time, run_task. rewrite <- foldl_app, <- fmap_app, <- seq_app.
  pose proof (Z.div_le_mono t t' _ HI Ht). pose proof (Z.div_pos t _ H0 HI). do 3 f_equal. lia.
Qed.

Lemma rotations_all ws : Forall (fun w => is_ok (random_key w) = true) ws -> rotations ws = length ws.
Proof.
  unfold rotations. induction 1 as [|w ws Hw _ IH]; [done|]. rewrite filter_cons_True by done. cbn. by rewrite IH.
Qed.

Lemma state_generate_inv w st : state_generate w = Ok st -> previous_key st = None /\ generation st = 0%Z.
Proof. unfold state_generate. intros H. inv_ok. done. Qed.

Lemma run_task_live r ws : live r -> live (run_task r ws).
Proof.
  unfold run_task. revert r. induction ws as [|w ws IH]; intros r Hl; cbn [foldl]; [done|].
  by apply IH, task_iteration_live.
Qed.

(** Lifetimes.  A rotator made with an interval of whole seconds announces
    twice that interval.  When the random generator answers, a ticket sealed at
    [t] opens at [t'] exactly if at most one tick lies between them, the keys
    drawn since not opening it by themselves: always within half the announced
    lifetime, and never once it is over. *)
Theorem aws_ticket_lifetime w r0 secs ws w0 w1 t t' plain ticket
  (Hnew : rotator_new w (secs * 1000000000) = Ok r0) (Hsecs : (1 <= secs)%Z /\ (2 * secs <= U32_MAX)%Z)
  (Hw : os_random_ok w0) (Hrng : forall i, is_ok (random_key (ws i)) = true) (Ht : (0 <= t <= t')%Z)
  (Henc : encrypt (at_time r0 ws t) w0 plain = Ok ticket)
  (Hfresh : forall i k, (t / (secs * 1000000000) <= Z.of_nat i)%Z -> random_key (ws i) = Ok k ->
              decrypt_ticket aes256gcm k ticket = Err tt) :
  let ns := (secs * 1000000000)%Z in
  let r := (decrypt (at_time r0 ws t') w1 ticket).2 in
  lifetime r0 = (2 * secs)%Z /\
  r = (if (t' / ns - t / ns <=? 1)%Z then Ok plain else Err tt) /\
  ((2 * (t' - t) <= lifetime r0 * 1000000000)%Z -> r = Ok plain) /\
  ((lifetime r0 * 1000000000 <= t' - t)%Z -> r = Err tt).
Proof.
  intros ns r. assert (0 < ns)%Z as Hns by (unfold ns; lia).
  unfold rotator_new in Hnew. apply bind_Ok in Hnew as (st & _ & [= <-]).
  set (r0 := Build_AwsLcTicketRotator _ _ _ _ _) in *.
  assert (lifetime r0 = (2 * secs)%Z) as Hlt.
  { cbn [lifetime AwsLcTicketRotator_ProducesTickets rot_lifetime_secs r0]. unfold as_secs, ns.
    rewrite Z.div_mul by done. unfold U32_MAX, U64_MAX in *. lia. }
  assert (live r0) as Hlive by (split; cbn; [apply negb_true_iff, Z.eqb_neq; lia|done]).
  assert (r = if (t' / ns - t / ns <=? 1)%Z then Ok plain else Err tt) as Hr.
  { subst r. rewrite (at_time_later r0 ws t t') by done.
    cbn [decrypt AwsLcTicketRotator_ProducesTickets snd].
    erewrite aws_window; [|exact Hw|by apply run_task_live|exact Henc|].
    2: { intros w' k (i & -> & [Hi _]%elem_of_seq)%list_elem_of_fmap. apply Hfresh.
         change (rotation_interval r0) with ns in Hi. fold ns. lia. }
    rewrite rotations_all by (apply Forall_fmap, Forall_true; intros; apply Hrng).
    rewrite length_fmap, length_seq. change (rotation_interval r0) with ns.
    repeat case_match; reflect_tests; try done; lia. }
  split_and!; [done|done|..]; rewrite Hlt, Hr; intros Hd; case_match; reflect_tests; try done; exfalso.
  - pose proof (Z.div_le_mono t' (t + 1 * ns) ns Hns ltac:(unfold ns in *; lia)) as Hm.
    rewrite Z.div_add in Hm by lia. lia.
  - pose proof (Z.div_le_mono (t + 2 * ns) t' ns Hns ltac:(unfold ns in *; lia)) as Hm.
    rewrite Z.div_add in Hm by lia. lia.
Qed.
End RotatorProperties.

(** ** Witnesses *)

Module AwsTicketsWitness.
Import Toy.
#[local] Existing Instance AwsLcTicketRotator_ProducesTickets.

(** The first key is 3, the next 4, the others 5; sealing draws the nonce 1. *)
Definition ws (i : nat) : World := world (match i with 0 => Byte.x04 | _ => Byte.x05 end) 0.
Definition r0 : AwsLcTicketRotator :=
  {| rot_state := {| current_key := replicate 32 Byte.x03; previous_key := None; generation := 0 |};
     rot_poisoned := false; rotation_interval := 3600000000000; rot_lifetime_secs := 7200; task_running := true |}.
Definition ticket : bytes := replicate 12 Byte.x01 ++ bstr "state" ++ replicate 16 Byte.x04.

(** One hour in, the first rotation has happened; the clock then passes one and
    two more. *)
Definition hour : Z := 3600000000000.

Lemma ticket_sealed : encrypt (at_time r0 ws hour) (world Byte.x01 0) (bstr "state") = Ok ticket.
Proof. vm_compute. reflexivity. Qed.

Lemma other_keys b : b <> Byte.x04 -> decrypt_ticket Toy.aead (replicate 32 b) ticket = Err tt.
Proof. intros Hb. by destruct b; try (vm_compute; reflexivity). Qed.

Lemma aws_rotation_window_witness :
  (decrypt (run_task (at_time r0 ws hour) [ws 1; ws 2]) (world Byte.x01 0) ticket).2 = Err tt.
Proof.
  apply (aws_rotation_window Toy.aead (at_time r0 ws hour) [ws 1; ws 2] (world Byte.x01 0) (world Byte.x01 0) (bstr "state")).
  - apply world_ok.
  - split; reflexivity.
  - exact ticket_sealed.
  - intros w k Hw Hk. rewrite !elem_of_cons, elem_of_nil in Hw.
    destruct Hw as [->|[->|[]]]; injection Hk as <-; apply other_keys; discriminate.
Defined.

(** Sealed at one hour: still open at two, no longer at three. *)
Lemma aws_ticket_lifetime_witness :
  lifetime r0 = 7200%Z /\
  (decrypt (at_time r0 ws (2 * hour)) (world Byte.x01 0) ticket).2 = Ok (bstr "state") /\
  (decrypt (at_time r0 ws (3 * hour)) (world Byte.x01 0) ticket).2 = Err tt.
Proof.
  assert (forall i k, (hour / hour <= Z.of_nat i)%Z -> random_key (ws i) = Ok k ->
            decrypt_ticket Toy.aead k ticket = Err tt) as Hf.
  { intros [|i] k Hi Hk; [vm_compute in Hi; congruence|]. injection Hk as <-. by apply other_keys. }
  destruct (aws_ticket_lifetime Toy.aead (world Byte.x03 0) r0 3600 ws (world Byte.x01 0) (world Byte.x01 0)
    hour (2 * hour) (bstr "state") ticket) as (Hl & _ & Hopen & _);
    [reflexivity|done|apply world_ok|by intros []|done|exact ticket_sealed|exact Hf|].
  destruct (aws_ticket_lifetime Toy.aead (world Byte.x03 0) r0 3600 ws (world Byte.x01 0) (world Byte.x01 0)
    hour (3 * hour) (bstr "state") ticket) as (_ & _ & _ & Hclosed);
    [reflexivity|done|apply world_ok|by intros []|done|exact ticket_sealed|exact Hf|].
  split; [exact Hl|]. split; [apply Hopen|apply Hclosed]; by rewrite Hl.
Defined.

(** Just before a tick the next two ticks are closer than two intervals. *)
Example shorter_than_announced :
  (decrypt (at_time r0 ws (2 * hour)) (world Byte.x01 0)
     (replicate 12 Byte.x01 ++ bstr "state" ++ replicate 16 Byte.x03)).2 = Err tt /\
  encrypt (at_time r0 ws (hour - 1)) (world Byte.x01 0) (bstr "state")
    = Ok (replicate 12 Byte.x01 ++ bstr "state" ++ replicate 16 Byte.x03).
Proof. vm_compute. done. Qed.
End AwsTicketsWitness.
