(* ===== verification/AntiReplay.v ===== *)
(** * AntiReplay: single-use tickets for 0-RTT

    crates/oxitls/src/anti_replay.rs: the time-windowed fingerprint table
    [ReplayGuard] and [AntiReplayTicketer], which wraps any [ProducesTickets].
    The theorems are about sequences of [decrypt] calls under a clock that does
    not go backwards, which is what the [Clock] trait asks of an implementation;
    [clock_set_back] and [mock_clock_window] say what other clocks do. *)

From S2P Require Import Prelude Core Crypto Tickets.

Inductive ReplayVerdict := Fresh | Replayed.

Record ReplayGuard := {
  seen : gmap bytes Z;
  window_secs : Z;
}.

(** [ReplayGuard::with_clock]; the clock is read by the caller of
    [check_and_record], as [unix_seconds] of the [World] or by a [Clock]. *)
Definition guard_with_clock (window_secs : Z) : ReplayGuard :=
  {| seen := ∅; window_secs := window_secs |}.

Record AntiReplayTicketer (T : Type) := {
  inner : T;
  guard : ReplayGuard;
}.
Arguments inner {T} _.
Arguments guard {T} _.
Arguments Build_AntiReplayTicketer {T} _ _.

(** [ArcTicketer]: a newtype that forwards every method. *)
Record ArcTicketer (T : Type) := { arc : T }.
Arguments arc {T} _.
Arguments Build_ArcTicketer {T} _.

#[export] Instance ArcTicketer_ProducesTickets {T} `{ProducesTickets T} :
  ProducesTickets (ArcTicketer T) := {
  enabled self := enabled (arc self);
  lifetime self := lifetime (arc self);
  encrypt self := encrypt (arc self);
  decrypt self w ticket :=
    let '(t, r) := decrypt (arc self) w ticket in (Build_ArcTicketer t, r);
}.

Section AntiReplay.
Context `{Sha256}.

Definition check_and_record (g : ReplayGuard) (now : Z) (ticket : bytes) : ReplayGuard * ReplayVerdict :=
  let key := sha256 ticket in
  let kept := filter (fun kv : bytes * Z => (saturating_sub now kv.2 <= window_secs g)%Z) (seen g) in
  match kept !! key with
  | Some _ => ({| seen := kept; window_secs := window_secs g |}, Replayed)
  | None => ({| seen := <[key := now]> kept; window_secs := window_secs g |}, Fresh)
  end.

Context {T : Type} `{ProducesTickets T}.

(** [AntiReplayTicketer::with_clock]: the window is the lifetime. *)
Definition anti_replay_with_clock (t : T) : AntiReplayTicketer T :=
  {| inner := t; guard := guard_with_clock (lifetime t) |}.

Definition anti_replay_decrypt (self : AntiReplayTicketer T) (w : World) (ticket : bytes)
  : AntiReplayTicketer T * R unit bytes :=
  let '(inner', plaintext) := decrypt (inner self) w ticket in
  match plaintext with
  | Ok plaintext =>
      let '(guard', verdict) := check_and_record (guard self) (unix_seconds w) ticket in
      (Build_AntiReplayTicketer inner' guard',
       match verdict with Fresh => Ok plaintext | Replayed => Err tt end)
  | r => (Build_AntiReplayTicketer inner' (guard self), r)
  end.

#[export] Instance AntiReplayTicketer_ProducesTickets : ProducesTickets (AntiReplayTicketer T) := {
  enabled self := enabled (inner self);
  lifetime self := lifetime (inner self);
  encrypt self := encrypt (inner self);
  decrypt := anti_replay_decrypt;
}.

(** ** Runs of a server

    One event is one [decrypt] call: when, which ticket, and the result.
    [serve a tr now b]: from [a], the calls [tr] in this order lead to [b],
    the last at time [now].  Between two calls the inner ticketer may change
    in any way (key rotation, [encrypt]). *)
Record Event := { ev_time : Z; ev_ticket : bytes; ev_result : R unit bytes }.

Definition accepted (e : Event) : Prop := is_ok (ev_result e) = true.

Inductive serve (a : AntiReplayTicketer T) (t0 : Z)
  : list Event -> Z -> AntiReplayTicketer T -> Prop :=
  | serve_start : serve a t0 [] t0 a
  | serve_inner tr now b t :
      serve a t0 tr now b -> serve a t0 tr now (Build_AntiReplayTicketer t (guard b))
  | serve_decrypt tr now b w ticket c r :
      serve a t0 tr now b -> (now <= unix_seconds w)%Z ->
      decrypt b w ticket = (c, r) ->
      serve a t0 (tr ++ [{| ev_time := unix_seconds w; ev_ticket := ticket; ev_result := r |}])
        (unix_seconds w) c.

(** ** Lemmas on the guard *)

Lemma kept_lookup (m : gmap bytes Z) w now k t :
  filter (fun kv : bytes * Z => (saturating_sub now kv.2 <= w)%Z) m !! k = Some t <->
  m !! k = Some t /\ (saturating_sub now t <= w)%Z.
Proof. apply map_lookup_filter_Some. Qed.

Lemma kept_lookup_None (m : gmap bytes Z) w now k t :
  filter (fun kv : bytes * Z => (saturating_sub now kv.2 <= w)%Z) m !! k = None ->
  m !! k = Some t -> (w < saturating_sub now t)%Z.
Proof.
  intros Hn Hm. destruct (Z.lt_ge_cases w (saturating_sub now t)) as [|Hle]; [done|].
  assert (filter (fun kv : bytes * Z => (saturating_sub now kv.2 <= w)%Z) m !! k = Some t)
    by (by apply kept_lookup). congruence.
Qed.

Lemma check_and_record_window g now ticket :
  window_secs (check_and_record g now ticket).1 = window_secs g.
Proof. unfold check_and_record. by destruct (_ !! _). Qed.

(** What a call does to the entry of any fingerprint. *)
Lemma check_and_record_lookup g now ticket k t :
  seen (check_and_record g now ticket).1 !! k = Some t ->
  (seen g !! k = Some t /\ (saturating_sub now t <= window_secs g)%Z) \/
  (k = sha256 ticket /\ t = now /\ (check_and_record g now ticket).2 = Fresh).
Proof.
  unfold check_and_record. destruct (_ !! sha256 ticket) eqn:Hk; cbn [fst snd seen].
  - intros [? ?]%kept_lookup. by left.
  - rewrite lookup_insert. case_decide; [intros [= <-]; by right|].
    intros [? ?]%kept_lookup. by left.
Qed.

Lemma check_and_record_fresh g now ticket :
  (check_and_record g now ticket).2 = Fresh ->
  seen (check_and_record g now ticket).1 !! sha256 ticket = Some now.
Proof.
  unfold check_and_record. destruct (_ !! sha256 ticket); [done|].
  intros _. apply lookup_insert_eq.
Qed.

(** An entry that is not too old survives. *)
Lemma check_and_record_keeps g now ticket k t :
  seen g !! k = Some t -> (saturating_sub now t <= window_secs g)%Z ->
  seen (check_and_record g now ticket).1 !! k = Some t /\
  (k = sha256 ticket -> (check_and_record g now ticket).2 = Replayed).
Proof.
  intros Hk Hw. assert (filter (fun kv : bytes * Z => (saturating_sub now kv.2 <= window_secs g)%Z) (seen g) !! k = Some t)
    as Hf by (by apply kept_lookup).
  unfold check_and_record. destruct (_ !! sha256 ticket) eqn:Hs; cbn [fst snd seen]; [done|].
  rewrite lookup_insert_ne; [|intros <-; congruence]. split; [done|]. intros ->. congruence.
Qed.

(** ** The invariant of a run

    Relative to the accepted events so far: every entry of the table is one of
    them, and every one of them is in the table under its time or is older
    than the window. *)
Definition table_sound (tr : list Event) (g : ReplayGuard) : Prop :=
  forall k t, seen g !! k = Some t ->
    exists e, e ∈ tr /\ accepted e /\ sha256 (ev_ticket e) = k /\ ev_time e = t.

Definition table_complete (tr : list Event) (now : Z) (g : ReplayGuard) : Prop :=
  forall e, e ∈ tr -> accepted e ->
    seen g !! sha256 (ev_ticket e) = Some (ev_time e) \/ (window_secs g < now - ev_time e)%Z.

Record run_inv (window : Z) (tr : list Event) (now : Z) (g : ReplayGuard) : Prop := {
  inv_window : window_secs g = window;
  inv_sound : table_sound tr g;
  inv_complete : table_complete tr now g;
  inv_times : forall e, e ∈ tr -> (ev_time e <= now)%Z;
}.

Lemma decrypt_cases (b c : AntiReplayTicketer T) w ticket r :
  decrypt b w ticket = (c, r) ->
  (is_ok r = false /\ guard c = guard b /\ is_ok (decrypt (inner b) w ticket).2 = false) \/
  (exists pt, (decrypt (inner b) w ticket).2 = Ok pt /\
     guard c = (check_and_record (guard b) (unix_seconds w) ticket).1 /\
     match (check_and_record (guard b) (unix_seconds w) ticket).2 with
     | Fresh => r = Ok pt
     | Replayed => r = Err tt
     end).
Proof.
  cbn [decrypt AntiReplayTicketer_ProducesTickets]. unfold anti_replay_decrypt.
  destruct (decrypt (inner b) w ticket) as [i' [pt|e|]]; cbn [snd is_ok];
    destruct (check_and_record _ _ _) as [g' v]; intros [= <- <-]; cbn [guard fst snd].
  - right. exists pt. by destruct v.
  - by left.
  - by left.
Qed.

Lemma run_inv_reject window tr now g e :
  run_inv window tr now g -> (now <= ev_time e)%Z -> ~ accepted e ->
  run_inv window (tr ++ [e]) (ev_time e) g.
Proof.
  intros [Hw Hs Hc Ht] Hn Hr. split; [done|..].
  - intros k t (e' & He & Hx)%Hs. exists e'. split; [set_solver|done].
  - intros e' [He| ->%list_elem_of_singleton]%elem_of_app Ha; [|done].
    destruct (Hc e' He Ha); [by left|right; lia].
  - intros e' [He| ->%list_elem_of_singleton]%elem_of_app; [apply Ht in He|]; lia.
Qed.

Lemma run_inv_check window tr now g e :
  run_inv window tr now g -> (now <= ev_time e)%Z ->
  (accepted e <-> (check_and_record g (ev_time e) (ev_ticket e)).2 = Fresh) ->
  run_inv window (tr ++ [e]) (ev_time e) (check_and_record g (ev_time e) (ev_ticket e)).1.
Proof.
  intros [Hw Hs Hc Ht] Hn Hr. split; [by rewrite check_and_record_window|..].
  - intros k t [[Hk _]|(-> & -> & Hf)]%check_and_record_lookup.
    + destruct (Hs k t Hk) as (e' & He & Hx). exists e'. split; [set_solver|done].
    + exists e. split; [set_solver|]. split_and!; try done. by apply Hr.
  - intros e' He' Ha. rewrite check_and_record_window.
    apply elem_of_app in He' as [He'| ->%list_elem_of_singleton].
    + pose proof (Ht _ He'). destruct (Hc e' He' Ha) as [Hk|]; [|right; lia].
      destruct (Z.lt_ge_cases (window_secs g) (ev_time e - ev_time e')) as [|Hle]; [by right|left].
      apply check_and_record_keeps; [done|]. unfold saturating_sub. lia.
    + left. by apply check_and_record_fresh, Hr.
  - intros e' [He| ->%list_elem_of_singleton]%elem_of_app; [apply Ht in He|]; lia.
Qed.

Lemma serve_inv (t : T) t0 tr now b :
  serve (anti_replay_with_clock t) t0 tr now b -> run_inv (lifetime t) tr now (guard b).
Proof.
  induction 1 as [|tr now b t' Hs IH|tr now b w ticket c r Hs IH Hn Hd].
  - split; [done|..]; intros ?; set_solver.
  - done.
  - set (e := {| ev_time := unix_seconds w; ev_ticket := ticket; ev_result := r |}).
    change (unix_seconds w) with (ev_time e) in Hn |- *.
    apply decrypt_cases in Hd as [(Hr & -> & _)|(pt & _ & -> & Hv)].
    + apply (run_inv_reject _ _ now); [done|done|]. unfold accepted. cbn. by rewrite Hr.
    + apply (run_inv_check _ _ now _ e); [done|done|]. unfold accepted. cbn [ev_result].
      destruct (check_and_record _ _ _).2; subst r; done.
Qed.

(** The verdict on a reachable table, by the history alone. *)
Lemma verdict_by_history window tr now g time ticket :
  run_inv window tr now g -> (now <= time)%Z ->
  (check_and_record g time ticket).2 = Fresh <->
  forall e, e ∈ tr -> accepted e -> sha256 (ev_ticket e) = sha256 ticket ->
    (window < time - ev_time e)%Z.
Proof.
  intros [Hw Hs Hc Ht] Hn. split.
  - intros Hf e He Ha Hh. pose proof (Ht _ He). destruct (Hc e He Ha) as [Hk|]; [|lia].
    destruct (Z.lt_ge_cases window (time - ev_time e)) as [|Hle]; [done|exfalso].
    destruct (check_and_record_keeps g time ticket _ _ Hk) as [_ Hx];
      [unfold saturating_sub; lia|]. rewrite Hx in Hf; done.
  - intros Hold. unfold check_and_record. destruct (_ !! sha256 ticket) as [t|] eqn:Hk; [|done].
    apply kept_lookup in Hk as [Hk Hle]. destruct (Hs _ _ Hk) as (e & He & Ha & Hh & <-).
    specialize (Hold e He Ha Hh). unfold saturating_sub in Hle. lia.
Qed.

(** C1: the wrapped ticketer decides exactly by the history of the run: a
    ticket the inner ticketer opens at time [now'] is let through if and only
    if no ticket with its fingerprint was let through in the last
    [lifetime] seconds. *)
Theorem anti_replay_exact (t : T) t0 tr now b w ticket pt
  (Hrun : serve (anti_replay_with_clock t) t0 tr now b)
  (Hclock : (now <= unix_seconds w)%Z)
  (Hopen : (decrypt (inner b) w ticket).2 = Ok pt) :
  ((decrypt b w ticket).2 = Ok pt <->
   forall e, e ∈ tr -> accepted e -> sha256 (ev_ticket e) = sha256 ticket ->
     (lifetime t < unix_seconds w - ev_time e)%Z).
Proof.
  rewrite <- (verdict_by_history _ _ _ _ _ _ (serve_inv _ _ _ _ _ Hrun) Hclock).
  destruct (decrypt b w ticket) as [c r] eqn:Hd.
  apply decrypt_cases in Hd as [(_ & _ & Hx)|(pt' & Hx & _ & Hv)].
  - by rewrite Hopen in Hx.
  - rewrite Hopen in Hx. injection Hx as <-. cbn [snd].
    destruct (check_and_record _ _ _).2; subst r; done.
Qed.

(** Single use: in every run, two accepted uses of the same ticket are
    more than the ticket lifetime apart. *)
Theorem anti_replay_single_use (t : T) t0 tr now b
  (Hrun : serve (anti_replay_with_clock t) t0 tr now b) :
  forall i j e1 e2, i < j -> tr !! i = Some e1 -> tr !! j = Some e2 ->
    accepted e1 -> accepted e2 -> ev_ticket e1 = ev_ticket e2 ->
    (lifetime t < ev_time e2 - ev_time e1)%Z.
Proof.
  induction Hrun as [|tr now b t' Hs IH|tr now b w ticket c r Hs IH Hn Hd];
    intros i j e1 e2 Hij H1 H2 Ha1 Ha2 Heq; [done|by eapply IH|].
  assert (j < length tr \/ j = length tr) as [Hj| ->].
  { apply lookup_lt_Some in H2. rewrite length_app in H2. cbn in H2. lia. }
  - rewrite lookup_app_l in H1, H2 by lia. by eapply (IH i j).
  - rewrite lookup_app_l in H1 by lia. rewrite list_lookup_middle in H2 by done.
    injection H2 as <-. cbn [ev_ticket ev_time] in *.
    apply decrypt_cases in Hd as [(Hr & _ & _)|(pt & _ & _ & Hv)].
    + unfold accepted in Ha2. cbn in Ha2. congruence.
    + destruct (check_and_record (guard b) (unix_seconds w) ticket).2 eqn:Hf; subst r; [|done].
      pose proof (proj1 (verdict_by_history _ _ _ _ _ ticket (serve_inv _ _ _ _ _ Hs) Hn) Hf) as Hold.
      apply Hold; [by eapply list_elem_of_lookup_2|done|by rewrite Heq].
Qed.

(** The table cannot be poisoned and stays bounded by the window: a
    ticket the inner ticketer refuses leaves it unchanged, and after any other
    call every entry is at most the window old (up to a clock that is behind). *)
Theorem anti_replay_table (b c : AntiReplayTicketer T) w ticket r
  (Hcall : decrypt b w ticket = (c, r)) :
  if is_ok (decrypt (inner b) w ticket).2
  then (0 <= window_secs (guard b))%Z -> map_Forall (fun _ t => (saturating_sub (unix_seconds w) t <= window_secs (guard b))%Z)
         (seen (guard c))
  else guard c = guard b.
Proof.
  apply decrypt_cases in Hcall as [(_ & -> & ->)|(pt & -> & -> & _)]; [done|].
  intros Hw k t [[_ ?]|(_ & -> & _)]%check_and_record_lookup; [done|]. unfold saturating_sub. lia.
Qed.
End AntiReplay.

(** ** Clocks

    The [Clock] trait, [SystemClock] over [SystemTime::now], which may lie
    before the epoch, and [MockClock], a counter its clones share.  A clock is
    read in an environment that holds the system time (nanoseconds from the
    epoch) and the counters that were allocated. *)
Record ClockEnv := { system_time : Z; counters : gmap nat Z }.

Class Clock (C : Type) := clock_seconds : ClockEnv -> C -> Z.

Definition NANOS_PER_SEC : Z := 1000000000.

(** [SystemTime::duration_since(UNIX_EPOCH)]: the error carries how far the
    time lies before the epoch. *)
Definition duration_since_epoch (t : Z) : R Z Z :=
  if (0 <=? t)%Z then Ok t else Err (- t)%Z.

Inductive SystemClock := System.

#[export] Instance SystemClock_Clock : Clock SystemClock := fun env _ =>
  (match duration_since_epoch (system_time env) with Ok d => d | _ => 0 end / NANOS_PER_SEC)%Z.

Record MockClock := { counter : nat }.

(** [MockClock::new]: a counter of its own, at 0. *)
Definition mock_new (env : ClockEnv) : ClockEnv * MockClock :=
  let id := fresh (dom (counters env)) in
  ({| system_time := system_time env; counters := <[id := 0%Z]> (counters env) |}, {| counter := id |}).

#[export] Instance MockClock_Clock : Clock MockClock := fun env self =>
  default 0%Z (counters env !! counter self).

(** [MockClock::advance_secs]; the addition of u64 panics where overflow is
    checked and wraps around elsewhere. *)
Definition advance_secs (overflow_checks : bool) (env : ClockEnv) (self : MockClock) (secs : Z) : R Empty_set ClockEnv :=
  let sum := (clock_seconds env self + secs)%Z in
  if (sum <=? U64_MAX)%Z || negb overflow_checks then
    Ok {| system_time := system_time env;
          counters := <[counter self := (sum mod (U64_MAX + 1))%Z]> (counters env) |}
  else Panic.

(** [ReplayGuard::new] and [AntiReplayTicketer::new]: the system clock. *)
Definition guard_new (window_secs : Z) : ReplayGuard := guard_with_clock window_secs.

Definition anti_replay_new {T} `{ProducesTickets T} (inner : T) : AntiReplayTicketer T :=
  let window_secs := lifetime inner in
  {| guard := guard_new window_secs; inner := inner |}.

(** [check_and_record] of a guard with clock [c]. *)
Definition check_with_clock `{Sha256} {C} `{Clock C} (env : ClockEnv) (c : C) (g : ReplayGuard) (ticket : bytes) :=
  check_and_record g (clock_seconds env c) ticket.

(** The system clock never goes backwards while the system time does not, and
    stands at 0 before the epoch. *)
Lemma system_clock_monotone e1 e2 :
  (system_time e1 <= system_time e2)%Z ->
  (0 <= clock_seconds e1 System <= clock_seconds e2 System)%Z.
Proof.
  intros Hle. unfold clock_seconds, SystemClock_Clock, duration_since_epoch, NANOS_PER_SEC.
  destruct (Z.leb_spec 0 (system_time e1)), (Z.leb_spec 0 (system_time e2));
    Z.to_euclidean_division_equations; lia.
Qed.

(** The system time may be set back, and the clock with it; a ticket that was
    recorded before is then still refused. *)
Lemma clock_set_back `{Sha256} g now earlier ticket :
  (0 <= window_secs g)%Z -> (earlier <= now)%Z -> (check_and_record g now ticket).2 = Fresh ->
  (check_and_record (check_and_record g now ticket).1 earlier ticket).2 = Replayed.
Proof.
  intros Hw Hle Hf. pose proof (check_and_record_fresh _ _ _ Hf) as Hs.
  apply (check_and_record_keeps _ _ _ _ _ Hs); [|done]. rewrite check_and_record_window. unfold saturating_sub. lia.
Qed.

Lemma advance_secs_spec b env env' c secs :
  (0 <= clock_seconds env c)%Z -> (0 <= secs)%Z -> (clock_seconds env c + secs <= U64_MAX)%Z ->
  advance_secs b env c secs = Ok env' ->
  clock_seconds env' c = (clock_seconds env c + secs)%Z /\
  (forall d, counter d <> counter c -> clock_seconds env' d = clock_seconds env d).
Proof.
  intros H0 H1 H2. unfold advance_secs. rewrite (proj2 (Z.leb_le _ _) H2). cbn [orb].
  intros [= <-]. split.
  - assert (clock_seconds env c + secs = (clock_seconds env c + secs) mod (U64_MAX + 1))%Z as Hm
      by (symmetry; apply Z.mod_small; lia).
    rewrite <- Hm. unfold clock_seconds at 1, MockClock_Clock. cbn [counters]. by rewrite lookup_insert_eq.
  - intros d Hd. unfold clock_seconds, MockClock_Clock. cbn [counters]. by rewrite lookup_insert_ne.
Qed.

(** A guard on a mock clock: a ticket that was just recorded is refused until
    the clock has been advanced by more than the window, and is fresh again
    from then on. *)
Theorem mock_clock_window `{Sha256} b env env' c g ticket secs :
  (0 <= clock_seconds env c)%Z -> (0 <= secs)%Z -> (clock_seconds env c + secs <= U64_MAX)%Z ->
  (check_with_clock env c g ticket).2 = Fresh ->
  advance_secs b env c secs = Ok env' ->
  (check_with_clock env' c (check_with_clock env c g ticket).1 ticket).2 =
    if (secs <=? window_secs g)%Z then Replayed else Fresh.
Proof.
  intros H0 H1 H2 Hf Ha. destruct (advance_secs_spec _ _ _ _ _ H0 H1 H2 Ha) as [Hnow _].
  unfold check_with_clock in *. pose proof (check_and_record_fresh _ _ _ Hf) as Hs.
  pose proof (check_and_record_window g (clock_seconds env c) ticket) as Hw.
  destruct (Z.leb_spec secs (window_secs g)) as [Hle|Hgt].
  - apply (check_and_record_keeps _ _ _ _ _ Hs); [|done]. rewrite Hw, Hnow. unfold saturating_sub. lia.
  - unfold check_and_record at 1. destruct (filter _ _ !! _) as [t|] eqn:Hk; [|done].
    apply kept_lookup in Hk as [Hk Hle]. rewrite Hs in Hk. injection Hk as <-.
    rewrite Hw, Hnow in Hle. unfold saturating_sub in Hle. lia.
Qed.

(** ** The stack the server installs: anti-replay over [OxiTicketer] *)

Section stack.
Context `{Sha256} {aes256gcm : Aead} {aes_laws : AeadLaws aes256gcm}.

(** End to end, a ticket sealed by the wrapped [OxiTicketer] gives its
    state back the first time it is presented to a fresh server, and nothing
    at all when it is presented again within the ticket lifetime. *)
Theorem ticket_accepted_once (t : OxiTicketer) w0 w1 w2 plain ticket
  (Henc : encrypt (anti_replay_with_clock t) w0 plain = Ok ticket)
  (Hwindow : (0 <= unix_seconds w2 - unix_seconds w1 <= lifetime_secs t)%Z) :
  let '(s1, r1) := decrypt (anti_replay_with_clock t) w1 ticket in
  r1 = Ok plain /\ (decrypt s1 w2 ticket).2 = Err tt.
Proof.
  pose proof (oxi_encrypt_decrypt t w0 plain ticket Henc) as [Hd _].
  cbn. unfold anti_replay_decrypt. cbn. rewrite Hd. unfold check_and_record. cbn [seen guard_with_clock].
  rewrite map_filter_empty, lookup_empty. cbn [fst snd inner]. split; [done|].
  rewrite Hd. cbn [seen window_secs guard].
  match goal with |- context [match ?m !! _ with _ => _ end] =>
    assert (m !! sha256 ticket = Some (unix_seconds w1)) as -> end; [|done].
  apply map_lookup_filter_Some. split; [apply lookup_insert_eq|].
  cbn. unfold saturating_sub. lia.
Qed.
End stack.

Module AntiReplayWitness.
Import Toy TicketsWitness.
Definition srv : AntiReplayTicketer OxiTicketer := anti_replay_with_clock t0.
Definition w (now : Z) : World := world Byte.x01 now.
Definition srv1 : AntiReplayTicketer OxiTicketer := (decrypt srv (w 100) ticket0).1.
Definition e1 : Event := {| ev_time := 100; ev_ticket := ticket0; ev_result := Ok (bstr "state") |}.
Definition srv2 : AntiReplayTicketer OxiTicketer := (decrypt srv1 (w 30000) ticket0).1.
Definition e2 : Event := {| ev_time := 30000; ev_ticket := ticket0; ev_result := Ok (bstr "state") |}.

Lemma run1 : serve srv 0 [e1] 100 srv1.
Proof.
  change [e1] with ([] ++ [e1]). refine (serve_decrypt srv 0 [] 0 srv (w 100) ticket0 srv1 _ _ _ _).
  - constructor.
  - cbn. lia.
  - vm_compute. reflexivity.
Defined.

Lemma run2 : serve srv 0 [e1; e2] 30000 srv2.
Proof.
  change [e1; e2] with ([e1] ++ [e2]). refine (serve_decrypt srv 0 [e1] 100 srv1 (w 30000) ticket0 srv2 _ run1 _ _).
  - cbn. lia.
  - vm_compute. reflexivity.
Defined.

Lemma anti_replay_exact_witness :
  (decrypt srv1 (w 200) ticket0).2 = Ok (bstr "state") <->
  (forall e, e ∈ [e1] -> accepted e -> sha256 (ev_ticket e) = sha256 ticket0 ->
     (21600 < 200 - ev_time e)%Z).
Proof.
  refine (anti_replay_exact t0 0 [e1] 100 srv1 (w 200) ticket0 _ run1 _ _).
  - cbn. lia.
  - vm_compute. reflexivity.
Defined.

Lemma anti_replay_single_use_witness : (21600 < 30000 - 100)%Z.
Proof.
  refine (anti_replay_single_use t0 0 [e1; e2] 30000 srv2 run2 0 1 e1 e2 _ _ _ _ _ _);
    (lia || reflexivity).
Defined.

Lemma anti_replay_table_witness :
  map_Forall (fun _ t => (saturating_sub 30000 t <= 21600)%Z) (seen (guard srv2)).
Proof.
  refine (anti_replay_table srv1 srv2 (w 30000) ticket0 (Ok (bstr "state")) _ _).
  - vm_compute. reflexivity.
  - vm_compute. discriminate.
Defined.

Lemma ticket_accepted_once_witness :
  let '(s1, r1) := decrypt srv (w 100) ticket0 in
  r1 = Ok (bstr "state") /\ (decrypt s1 (w 300) ticket0).2 = Err tt.
Proof.
  refine (ticket_accepted_once t0 (w 0) (w 100) (w 300) (bstr "state") ticket0 _ _).
  - vm_compute. reflexivity.
  - cbn. lia.
Defined.
End AntiReplayWitness.
