(* ===== verification/Verifier.v ===== *)
(** * Verifier: the certificate-verification interface

    [rustls::client::danger::ServerCertVerifier] is a trait object in the code
    ([Arc<dyn ServerCertVerifier>]); it is a record of operations here, so that
    the wrappers of crates/oxitls-adapter-rustls-rustcrypto/src/verifier compose
    the way the code stacks them.  The X.509 and signature libraries the
    wrappers call are the classes [X509] and [SigPrims]: arguments, not models. *)

From S2P Require Import Prelude Core Crypto.

(** A certificate or a signed struct is its DER or wire bytes; a server name is
    its text; a time is in seconds; a signature scheme is its code point. *)
Record DigitallySignedStruct := { dss_scheme : Z; dss_sig : bytes }.

(** [S] is the state a verifier changes through a shared pointer (the cache of
    intermediates), threaded through the call. *)
Record ServerCertVerifier (S : Type) := {
  verify_server_cert : S -> bytes -> list bytes -> string -> bytes -> Z -> S * R RustlsError unit;
  verify_tls12_signature : bytes -> bytes -> DigitallySignedStruct -> R RustlsError unit;
  verify_tls13_signature : bytes -> bytes -> DigitallySignedStruct -> R RustlsError unit;
  supported_verify_schemes : list Z;
  requires_raw_public_keys : bool;
}.
Arguments verify_server_cert {S}.
Arguments verify_tls12_signature {S}.
Arguments verify_tls13_signature {S}.
Arguments supported_verify_schemes {S}.
Arguments requires_raw_public_keys {S}.

(** ** Parsed certificates

    [x509_cert::Certificate] by the fields the code reads or changes; a
    distinguished name is an abstract value that can be compared. *)
Record Extension := { extn_id : string; extn_critical : bool; extn_value : bytes }.

Record Spki := { spki_algorithm : string; subject_public_key : bytes }.

Record TbsCertificate := {
  serial_number : bytes;
  tbs_issuer : bytes;
  tbs_subject : bytes;
  subject_public_key_info : Spki;
  tbs_extensions : option (list Extension);
  tbs_rest : bytes;
}.

Record Certificate := {
  tbs_certificate : TbsCertificate;
  signature_algorithm : string;
  cert_signature : bytes;
}.

(** [x509_parser]'s parsed ExtendedKeyUsage, and its view of a certificate: the
    raw SubjectPublicKeyInfo, and per extension its OID, value and (for an
    extKeyUsage that parses) the usages. *)
Record ExtendedKeyUsage := { eku_any : bool; eku_ocsp_signing : bool; eku_other : list string }.

Record XpExtension := {
  xp_oid : string;
  xp_value : bytes;
  xp_parsed_eku : option ExtendedKeyUsage;
}.

Record XpCertificate := {
  xp_spki_raw : bytes;
  xp_subject_raw : bytes;
  xp_not_after : Z;
  xp_extensions : list XpExtension;
}.

(** The parsers and encoders of [x509_cert], [x509_parser] and [der]: they return
    a value or an error with its message. *)
Class X509 := {
  certificate_from_der : bytes -> string + Certificate;
  certificate_to_der : Certificate -> string + bytes;
  tbs_to_der : TbsCertificate -> string + bytes;
  spki_to_der : Spki -> string + bytes;
  name_to_der : bytes -> string + bytes;
  xp_from_der : bytes -> string + XpCertificate;
}.

(** Signature primitives: decode a key, decode a signature, verify.  An error
    carries the library's message. *)
Record SigScheme := {
  key_decode : bytes -> string + bytes;
  sig_decode : bytes -> string + bytes;
  sig_verify : bytes -> bytes -> bytes -> bool;
}.

Class SigPrims := {
  spki_ref_raw : bytes -> string + bytes;
  p256_sha256 : SigScheme;
  p384_sha384 : SigScheme;
  (* [RsaPublicKey::from_der]: modulus and exponent; [RsaPublicKey::new]. *)
  rsa_public_key_from_der : bytes -> string + bytes * bytes;
  rsa_public_key_new : Z -> Z -> string + bytes;
  rsa_pkcs1_sha256 : SigScheme;
  ed25519 : SigScheme;
}.

(** A verifier that accepts everything. *)
Definition accept_all (S : Type) : ServerCertVerifier S := {|
  verify_server_cert s _ _ _ _ _ := (s, Ok tt);
  verify_tls12_signature _ _ _ := Ok tt; verify_tls13_signature _ _ _ := Ok tt;
  supported_verify_schemes := []; requires_raw_public_keys := false;
|}.

(** ** Concrete instances

    A certificate is [0x30], one byte each for issuer, subject, serial number and
    key, and the value of one extension; a signature is the key followed by the
    length of the message. *)
Module ToyX509.
Definition EXT_OID : string := "1.3.6.1.4.1.11129.2.4.2".

#[export] Instance x509 : X509 := {
  certificate_from_der d :=
    match d with
    | Byte.x30 :: i :: s :: n :: k :: v =>
        inr {| tbs_certificate :=
                 {| serial_number := [n]; tbs_issuer := [i]; tbs_subject := [s];
                    subject_public_key_info := {| spki_algorithm := "1.3.101.112"; subject_public_key := [k] |};
                    tbs_extensions := Some [{| extn_id := EXT_OID; extn_critical := false; extn_value := v |}];
                    tbs_rest := [] |};
               signature_algorithm := "1.3.101.112"; cert_signature := [i; u8 5] |}
    | _ => inl "not a certificate"
    end;
  certificate_to_der c := inr (Byte.x30 :: tbs_issuer (tbs_certificate c));
  tbs_to_der t := inr (tbs_issuer t ++ tbs_subject t ++ serial_number t
                       ++ subject_public_key (subject_public_key_info t) ++ [Byte.x00]);
  spki_to_der k := inr (subject_public_key k);
  name_to_der n := inr n;
  xp_from_der d :=
    match d with
    | Byte.x30 :: i :: s :: n :: k :: v =>
        inr {| xp_spki_raw := [k]; xp_subject_raw := [s]; xp_not_after := 1000;
               xp_extensions := [{| xp_oid := EXT_OID; xp_value := v; xp_parsed_eku := None |}] |}
    | _ => inl "not a certificate"
    end;
}.

Definition scheme : SigScheme := {|
  key_decode := inr; sig_decode := inr;
  sig_verify vk m sig := bool_decide (sig = vk ++ [u8 (Z.of_nat (length m))]);
|}.

#[export] Instance prims : SigPrims := {
  spki_ref_raw := inr; p256_sha256 := scheme; p384_sha384 := scheme;
  rsa_public_key_from_der k := inr (k, k); rsa_public_key_new n e := inr [u8 n];
  rsa_pkcs1_sha256 := scheme; ed25519 := scheme;
}.
End ToyX509.
