(* ===== verification/Sct.v ===== *)
(** * Sct: Certificate Transparency

    crates/oxitls-adapter-rustls-rustcrypto/src/verifier/sct.rs: parsing the
    SCT list extension, the bytes a log signs, counting the trusted logs whose
    signature verifies, and the policy of [SctVerifier]. *)

From stdpp Require Import pretty.
From S2P Require Import Prelude Core Crypto Verifier.

Definition SCT_LIST_OID : string := "1.3.6.1.4.1.11129.2.4.2".

Record ParsedSct := {
  sct_version : byte;
  log_id : bytes;
  timestamp_ms : Z;
  extensions : bytes;
  hash_alg : byte;
  sig_alg : byte;
  signature : bytes;
}.

Inductive SctParseError :=
  | ListLenOverflow
  | EntryLenOverflow
  | EntryTooShort
  | UnknownVersion (v : byte).

Inductive SctVerifyError :=
  | UnsupportedKeyAlg
  | SignatureInvalid
  | KeyDecode (msg : string)
  | SigDecode (msg : string)
  | ParseError (msg : string).

Definition sct_verify_error_display (e : SctVerifyError) : string :=
  match e with
  | UnsupportedKeyAlg => "SCT log key algorithm not supported"
  | SignatureInvalid => "SCT signature verification failed"
  | KeyDecode msg => "SCT log key decode error: " +:+ msg
  | SigDecode msg => "SCT signature decode error: " +:+ msg
  | ParseError msg => "SCT precert parse/encode error: " +:+ msg
  end.

(** [hex_id]: the first eight bytes of a log identifier, for the log messages. *)
Definition hex_id (id : bytes) : string := String.concat "" (hex02 <$> take 8 id).

Inductive CtKeyAlg := EcdsaP256Sha256 | Ed25519.

Record CtLog := { ct_id : bytes; public_key_der : bytes; key_alg : CtKeyAlg }.

Inductive SctPolicy :=
  | Disabled
  | Permissive (min_distinct_logs : Z)
  | Strict (min_distinct_logs : Z).

(** ** Parsing *)

(** One pass of the loop body, from [sct_bytes] on. *)
Definition parse_sct_entry (sct_bytes : bytes) : R SctParseError ParsedSct :=
  if length sct_bytes <? 43 then Err EntryTooShort else
  version ← index sct_bytes 0;
  if bool_decide (version <> Byte.x00) then Err (UnknownVersion version) else
  log_id ← slice sct_bytes 1 33;
  ts ← slice sct_bytes 33 41;
  timestamp_ms ← (if length ts =? 8 then Ok (from_be ts) else Err EntryTooShort);
  let inner_pos := 41 in
  if length sct_bytes <? inner_pos + 2 then Err EntryTooShort else
  e0 ← index sct_bytes inner_pos;
  e1 ← index sct_bytes (inner_pos + 1);
  let ext_len := be_usize [e0; e1] in
  let inner_pos := inner_pos + 2 in
  if length sct_bytes <? inner_pos + ext_len then Err EntryTooShort else
  extensions ← slice sct_bytes inner_pos (inner_pos + ext_len);
  let inner_pos := inner_pos + ext_len in
  if length sct_bytes <? inner_pos + 4 then Err EntryTooShort else
  hash_alg ← index sct_bytes inner_pos;
  sig_alg ← index sct_bytes (inner_pos + 1);
  s0 ← index sct_bytes (inner_pos + 2);
  s1 ← index sct_bytes (inner_pos + 3);
  let sig_len := be_usize [s0; s1] in
  let inner_pos := inner_pos + 4 in
  if length sct_bytes <? inner_pos + sig_len then Err EntryTooShort else
  signature ← slice sct_bytes inner_pos (inner_pos + sig_len);
  Ok {| sct_version := version; log_id := log_id; timestamp_ms := timestamp_ms;
        extensions := extensions; hash_alg := hash_alg; sig_alg := sig_alg;
        signature := signature |}.

(** The [while pos + 2 <= end] loop.  Running out of fuel is [Panic], so that a
    result that is not [Panic] is the loop's own. *)
Fixpoint parse_sct_loop (fuel : nat) (bs : bytes) (pos end_ : nat) (out : list ParsedSct)
  : R SctParseError (list ParsedSct) :=
  match fuel with
  | O => Panic
  | S fuel =>
      if pos + 2 <=? end_ then
        l0 ← index bs pos;
        l1 ← index bs (pos + 1);
        let sct_len := be_usize [l0; l1] in
        let pos := pos + 2 in
        if end_ <? pos + sct_len then Err EntryLenOverflow else
        sct_bytes ← slice bs pos (pos + sct_len);
        sct ← parse_sct_entry sct_bytes;
        parse_sct_loop fuel bs (pos + sct_len) end_ (out ++ [sct])
      else Ok out
  end.

Definition parse_sct_list (bs : bytes) : R SctParseError (list ParsedSct) :=
  if length bs <? 2 then Ok [] else
  b0 ← index bs 0;
  b1 ← index bs 1;
  let list_len := be_usize [b0; b1] in
  let pos := 2 in
  let end_ := pos + list_len in
  if length bs <? end_ then Err ListLenOverflow else
  parse_sct_loop (S (length bs)) bs pos end_ [].

(** [strip_sct_octet_string]; the long-form length is read by a loop over one or
    two bytes. *)
Definition strip_sct_octet_string (bs : bytes) : R unit bytes :=
  match bs with
  | [] => Err tt
  | tag :: rest =>
      if bool_decide (tag <> Byte.x04) then Err tt else
      match rest with
      | [] => Err tt
      | len_byte :: rest =>
          '(content_len, rest) ←
            (if (val len_byte <? 0x80)%Z then Ok (Z.to_nat (val len_byte), rest)
             else
               let num_bytes := Z.to_nat (Z.land (val len_byte) 0x7f) in
               if (num_bytes =? 0) || (2 <? num_bytes) || (length rest <? num_bytes)
               then Err tt
               else
                 head ← slice rest 0 num_bytes;
                 let len := foldl (fun len b => Z.lor (Z.shiftl len 8) (val b)) 0%Z head in
                 tail ← slice rest num_bytes (length rest);
                 Ok (Z.to_nat len, tail));
          if length rest <? content_len then Err tt else slice rest 0 content_len
      end
  end.

(** ** The bytes a log signs *)

Definition u24_be (n : Z) : bytes :=
  [u8 (Z.land (Z.shiftr n 16) 0xff); u8 (Z.land (Z.shiftr n 8) 0xff); u8 (Z.land n 0xff)].

Definition u16_be (n : Z) : bytes := [u8 (Z.land (Z.shiftr n 8) 0xff); u8 (Z.land n 0xff)].

Definition build_sct_signed_data (sct : ParsedSct) (cert_der : bytes) : bytes :=
  let cert_len := Z.of_nat (length cert_der) in
  let ext_len := Z.of_nat (length (extensions sct)) in
  [Byte.x00; Byte.x00]
  ++ be_bytes 8 (timestamp_ms sct)
  ++ [Byte.x00; Byte.x00]
  ++ u24_be cert_len ++ cert_der
  ++ u16_be ext_len ++ extensions sct.

Definition build_sct_signed_data_precert (sct : ParsedSct) (tbs_no_sct issuer_key_hash : bytes) : bytes :=
  let tbs_len := Z.of_nat (length tbs_no_sct) in
  let ext_len := Z.of_nat (length (extensions sct)) in
  [sct_version sct; Byte.x00]
  ++ be_bytes 8 (timestamp_ms sct)
  ++ [Byte.x00; Byte.x01]
  ++ issuer_key_hash
  ++ u24_be tbs_len ++ tbs_no_sct
  ++ be_bytes 2 (ext_len mod 65536) ++ extensions sct.

Section Sct.
Context `{Sha256} `{X509} `{SigPrims} {S : Type}.

Definition precert_tbs_and_issuer_hash (leaf_der issuer_der : bytes)
  : R SctVerifyError (bytes * bytes) :=
  issuer_parsed ← map_err (fun e => ParseError ("issuer cert parse: " +:+ e)) (of_sum (xp_from_der issuer_der));
  let issuer_key_hash := sha256 (xp_spki_raw issuer_parsed) in
  leaf_cert ← map_err (fun e => ParseError ("leaf cert parse: " +:+ e)) (of_sum (certificate_from_der leaf_der));
  let tbs := tbs_certificate leaf_cert in
  let tbs := {| serial_number := serial_number tbs; tbs_issuer := tbs_issuer tbs;
                tbs_subject := tbs_subject tbs;
                subject_public_key_info := subject_public_key_info tbs;
                tbs_extensions :=
                  filter (fun ext => extn_id ext <> SCT_LIST_OID) <$> tbs_extensions tbs;
                tbs_rest := tbs_rest tbs |} in
  tbs_bytes ← map_err (fun e => ParseError ("tbs re-encode: " +:+ e)) (of_sum (tbs_to_der tbs));
  Ok (issuer_key_hash, tbs_bytes).

Definition verify_sct_signature (log : CtLog) (signed_data : bytes) (sct : ParsedSct)
  : R SctVerifyError unit :=
  match key_alg log with
  | EcdsaP256Sha256 =>
      raw ← map_err KeyDecode (of_sum (spki_ref_raw (public_key_der log)));
      vk ← map_err KeyDecode (of_sum (key_decode p256_sha256 raw));
      sig ← map_err SigDecode (of_sum (sig_decode p256_sha256 (signature sct)));
      if sig_verify p256_sha256 vk signed_data sig then Ok tt else Err SignatureInvalid
  | Ed25519 =>
      raw ← map_err KeyDecode (of_sum (spki_ref_raw (public_key_der log)));
      key_arr ← (if length raw =? 32 then Ok raw
                 else Err (KeyDecode "Ed25519 key must be 32 bytes"));
      vk ← map_err KeyDecode (of_sum (key_decode ed25519 key_arr));
      sig ← map_err SigDecode (of_sum (sig_decode ed25519 (signature sct)));
      if sig_verify ed25519 vk signed_data sig then Ok tt else Err SignatureInvalid
  end.

Definition find_log (logs : list CtLog) (id : bytes) : option CtLog :=
  List.find (fun l => bool_decide (ct_id l = id)) logs.

(** The bytes one SCT is checked against. *)
Definition sct_signed_data (precert_inputs : option (bytes * bytes)) (leaf_der : bytes)
  (sct : ParsedSct) : bytes :=
  match precert_inputs with
  | Some (issuer_key_hash, tbs_no_sct) =>
      build_sct_signed_data_precert sct tbs_no_sct issuer_key_hash
  | None => build_sct_signed_data sct leaf_der
  end.

(** The [for sct in scts] loop over the set of counted log ids. *)
Fixpoint count_loop (precert_inputs : option (bytes * bytes)) (logs : list CtLog)
  (leaf_der : bytes) (scts : list ParsedSct) (seen : gset bytes) : gset bytes :=
  match scts with
  | [] => seen
  | sct :: scts =>
      count_loop precert_inputs logs leaf_der scts
        (if bool_decide (log_id sct ∈ seen) then seen
         else match find_log logs (log_id sct) with
              | None => seen
              | Some log =>
                  match verify_sct_signature log (sct_signed_data precert_inputs leaf_der sct) sct with
                  | Ok tt => {[log_id sct]} ∪ seen
                  | _ => seen
                  end
              end)
  end.

Definition precert_inputs (leaf_der : bytes) (issuer_der : option bytes) : option (bytes * bytes) :=
  match issuer_der with
  | Some issuer => ok (precert_tbs_and_issuer_hash leaf_der issuer)
  | None => None
  end.

Definition count_trusted_verified (scts : list ParsedSct) (logs : list CtLog)
  (leaf_der : bytes) (issuer_der : option bytes) : Z :=
  let seen := count_loop (precert_inputs leaf_der issuer_der) logs leaf_der scts ∅ in
  Z.min (Z.of_nat (size seen)) U8_MAX.

Definition extract_sct_extension (cert_der : bytes) : R unit bytes :=
  cert ← map_err (fun _ => tt) (of_sum (xp_from_der cert_der));
  ext ← ok_or tt (List.find (fun e => String.eqb (xp_oid e) SCT_LIST_OID) (xp_extensions cert));
  strip_sct_octet_string (xp_value ext).

(** ** [SctVerifier] *)

Record SctVerifier := {
  sct_inner : ServerCertVerifier S;
  sct_policy : SctPolicy;
  sct_logs : list CtLog;
  empty_log_warned : option bool;
}.

Definition sct_verifier_new (inner : ServerCertVerifier S) (policy : SctPolicy) (logs : list CtLog) : SctVerifier :=
  {| sct_inner := inner; sct_policy := policy; sct_logs := logs; empty_log_warned := None |}.

Definition is_strict (p : SctPolicy) : bool :=
  match p with Strict _ => true | _ => false end.

Definition min_distinct (p : SctPolicy) : Z :=
  match p with Permissive m => m | Strict m => m | Disabled => 0 end.

(** The once-only warning about an empty log list ([OnceLock::get_or_init]). *)
Definition warn_empty_logs (self : SctVerifier) : SctVerifier :=
  match sct_logs self with
  | [] => {| sct_inner := sct_inner self; sct_policy := sct_policy self; sct_logs := [];
             empty_log_warned := Some (default true (empty_log_warned self)) |}
  | _ => self
  end.

Definition sct_parse_error_display (e : SctParseError) : string :=
  match e with
  | ListLenOverflow => "SCT list length exceeds available bytes"
  | EntryLenOverflow => "SCT entry length exceeds remaining list bytes"
  | EntryTooShort => "SCT entry is too short"
  | UnknownVersion v => "unknown SCT version 0x" +:+ hex02 v
  end.

(** [verify_server_cert], with the verifier whose warning flag it may set. *)
Definition sct_verify_server_cert (self : SctVerifier) (st : S) (end_entity : bytes)
  (intermediates : list bytes) (server_name : string) (ocsp_response : bytes) (now : Z)
  : SctVerifier * (S * R RustlsError unit) :=
  let inner := verify_server_cert (sct_inner self) st end_entity intermediates server_name ocsp_response now in
  let strict := is_strict (sct_policy self) in
  match sct_policy self with
  | Disabled => (self, inner)
  | _ =>
      let self := warn_empty_logs self in
      match extract_sct_extension end_entity with
      | Panic => (self, (st, Panic))
      | Err _ =>
          if strict
          then (self, (st, Err (General "No SCT extension found in leaf certificate (strict SCT policy)")))
          else (self, inner)
      | Ok value =>
          match parse_sct_list value with
          | Panic => (self, (st, Panic))
          | Err e =>
              if strict
              then (self, (st, Err (General ("failed to parse SCT list: " +:+ sct_parse_error_display e))))
              else (self, inner)
          | Ok scts =>
              let min_logs := min_distinct (sct_policy self) in
              let issuer_der := head intermediates in
              let distinct := count_trusted_verified scts (sct_logs self) end_entity issuer_der in
              if (distinct <? min_logs)%Z && strict
              then (self, (st, Err (General ("SCT policy requires " +:+ pretty min_logs
                +:+ " distinct trusted log(s) with valid signatures, found " +:+ pretty distinct))))
              else (self, inner)
          end
      end
  end.

(** The trait object; the flag is behind [&self]. *)
Definition sct_as_verifier (self : SctVerifier) : ServerCertVerifier S := {|
  verify_server_cert st ee ints name ocsp now := (sct_verify_server_cert self st ee ints name ocsp now).2;
  verify_tls12_signature := verify_tls12_signature (sct_inner self);
  verify_tls13_signature := verify_tls13_signature (sct_inner self);
  supported_verify_schemes := supported_verify_schemes (sct_inner self);
  requires_raw_public_keys := false;
|}.
End Sct.
Arguments SctVerifier : clear implicits.

(** ** The wire format, and the parser against it *)

(** One SCT as RFC 6962 lays it out. *)
Definition sct_wire (s : ParsedSct) : bytes :=
  sct_version s :: log_id s ++ be_bytes 8 (timestamp_ms s)
  ++ be_bytes 2 (Z.of_nat (length (extensions s))) ++ extensions s
  ++ hash_alg s :: sig_alg s
  :: be_bytes 2 (Z.of_nat (length (signature s))) ++ signature s.

(** The type invariant of a parsed SCT. *)
Definition sct_ok (s : ParsedSct) : Prop :=
  sct_version s = Byte.x00 /\ length (log_id s) = 32 /\
  in_range U64_MAX (timestamp_ms s) /\
  (Z.of_nat (length (extensions s)) < 65536)%Z /\ (Z.of_nat (length (signature s)) < 65536)%Z.

(** A list of entries, each an SCT and bytes after its signature that the
    parser skips. *)
Definition sct_entries_wire (es : list (ParsedSct * bytes)) : bytes :=
  concat ((fun e => be_bytes 2 (Z.of_nat (length (sct_wire e.1 ++ e.2))) ++ sct_wire e.1 ++ e.2) <$> es).

Definition sct_entry_ok (e : ParsedSct * bytes) : Prop :=
  sct_ok e.1 /\ (Z.of_nat (length (sct_wire e.1 ++ e.2)) < 65536)%Z.

(** A list of entries behind its length, which counts [tail] too, and bytes after it. *)
Definition sct_list_wire (es : list (ParsedSct * bytes)) (tail rest : bytes) : bytes :=
  be_bytes 2 (Z.of_nat (length (sct_entries_wire es ++ tail))) ++ (sct_entries_wire es ++ tail) ++ rest.

Definition sct_list_ok (es : list (ParsedSct * bytes)) (tail : bytes) : Prop :=
  Forall sct_entry_ok es /\ (Z.of_nat (length (sct_entries_wire es ++ tail)) < 65536)%Z.

(** A SignedCertificateTimestampList of RFC 6962: one SCT or more, and nothing else. *)
Definition rfc6962_list (scts : list ParsedSct) : bytes := sct_list_wire ((fun s => (s, [])) <$> scts) [] [].
Definition rfc6962_valid (scts : list ParsedSct) : Prop := scts <> [] /\ sct_list_ok ((fun s => (s, [])) <$> scts) [].

(** The inputs [parse_sct_list] accepts with the SCTs it returns: inputs too short
    for a length; or a length, that many bytes of entries followed by at most one
    stray byte, and anything. *)
Definition sct_list_layout (bs : bytes) (scts : list ParsedSct) : Prop :=
  (length bs < 2 /\ scts = []) \/
  exists es tail rest,
    scts = es.*1 /\ sct_list_ok es tail /\ length tail <= 1 /\ bs = sct_list_wire es tail rest.

(** What sets an accepted input apart from RFC 6962: no length, no SCT, bytes after
    the signature of an SCT, a stray byte in the list, or bytes after the list. *)
Definition lenient (bs : bytes) (scts : list ParsedSct) : Prop :=
  length bs < 2 \/ scts = [] \/
  exists es tail rest, scts = es.*1 /\ bs = sct_list_wire es tail rest /\
    (Exists (fun e => e.2 <> []) es \/ tail <> [] \/ rest <> []).

Lemma parse_sct_entry_no_panic bs : parse_sct_entry bs <> Panic.
Proof. unfold parse_sct_entry. no_panic; lia. Qed.

Lemma parse_sct_loop_no_panic fuel bs pos end_ out :
  end_ <= length bs -> length bs - pos < fuel -> parse_sct_loop fuel bs pos end_ out <> Panic.
Proof.
  revert pos out. induction fuel as [|fuel IH]; intros pos out He Hf; [lia|].
  cbn [parse_sct_loop]. no_panic; try lia.
  - apply parse_sct_entry_no_panic.
  - apply IH; lia.
Qed.

(** The inversion of a two-byte length followed by that many bytes. *)
Lemma length_field_range b0 b1 (n : nat) :
  n = be_usize [b0; b1] -> (Z.of_nat n < 65536)%Z.
Proof. intros ->. pose proof (be_usize_2_range [b0; b1] eq_refl). lia. Qed.

Lemma parse_sct_entry_sound bs s :
  parse_sct_entry bs = Ok s -> exists junk, bs = sct_wire s ++ junk /\ sct_ok s.
Proof.
  unfold parse_sct_entry. intros H. case_test; [done|]. inv_ok. case_test; [done|]. inv_ok.
  repeat (case_test; try done; inv_ok). reflect_tests.
  repeat match goal with
  | H : index _ _ = Ok _ |- _ => apply index_step in H
  | H : slice _ _ _ = Ok _ |- _ => apply slice_step in H as (? & ? & ?)
  end.
  rename x into v, x0 into id, x1 into ts, x3 into e0, x4 into e1, x5 into ext,
    x8 into s0, x9 into s1, x10 into sig.
  set (n := 41 + 2 + be_usize [e0; e1]) in *.
  replace (S n) with (n + 1) in * by lia. replace (S (n + 1)) with (n + 2) in * by lia.
  replace (S (n + 2)) with (n + 3) in * by lia. replace (S (n + 3)) with (n + 4) in * by lia.
  assert (length ext = be_usize [e0; e1]) as He by lia.
  assert (length sig = be_usize [s0; s1]) as Hs by lia.
  rename select (bool_decide _ = false) into Hv. apply bool_decide_eq_false, dec_stable in Hv.
  exists (drop (n + 4 + be_usize [s0; s1]) bs). split.
  - unfold sct_wire. cbn [sct_version log_id timestamp_ms extensions hash_alg sig_alg signature].
    rewrite (be_bytes_usize _ _ _ He), (be_bytes_usize _ _ _ Hs).
    assert (be_bytes 8 (from_be ts) = ts) as ->
      by (replace 8 with (length ts) by lia; apply be_bytes_from_be).
    cbn [app]. rewrite <- !app_assoc. cbn [app]. rewrite <- !app_assoc. cbn [app].
    etransitivity; [symmetry; apply drop_0|]. cbn [Nat.add] in *. congruence.
  - pose proof (from_be_range ts) as Hts. replace (length ts) with 8 in Hts by lia.
    split_and!; cbn; [done|lia| |by eapply length_field_range|by eapply length_field_range].
    unfold in_range, U64_MAX. change (256 ^ Z.of_nat 8)%Z with 18446744073709551616%Z in Hts. lia.
Qed.

Lemma parse_sct_entry_complete s junk :
  sct_ok s -> parse_sct_entry (sct_wire s ++ junk) = Ok s.
Proof.
  intros (Hv & Hid & Hts & He & Hs). destruct s as [v id ts ext h a sig].
  cbn [sct_version log_id timestamp_ms extensions signature] in *. subst v.
  unfold sct_wire. cbn [sct_version log_id timestamp_ms extensions hash_alg sig_alg signature].
  assert (be_usize (be_bytes 2 (Z.of_nat (length ext))) = length ext) as Hel
    by (apply be_usize_be_bytes; exact He).
  assert (be_usize (be_bytes 2 (Z.of_nat (length sig))) = length sig) as Hsl
    by (apply be_usize_be_bytes; exact Hs).
  assert (from_be (be_bytes 8 ts) = ts) as Htv.
  { apply from_be_be_bytes_small. unfold in_range, U64_MAX in Hts.
    change (256 ^ Z.of_nat 8)%Z with 18446744073709551616%Z. lia. }
  pose proof (length_be_bytes 8 ts) as Htl. set (tsb := be_bytes 8 ts) in *. clearbody tsb.
  destruct (be_bytes_2 (Z.of_nat (length ext))) as (e0 & e1 & Ee). rewrite Ee in *.
  destruct (be_bytes_2 (Z.of_nat (length sig))) as (s0 & s1 & Es). rewrite Es in *.
  cbn [app]. rewrite <- !app_assoc. cbn [app]. rewrite <- !app_assoc. cbn [app].
  set (bs := Byte.x00 :: _). unfold parse_sct_entry.
  assert (length bs = 43 + length ext + 4 + length sig + length junk) as Hl
    by (subst bs; cbn [length]; rewrite !length_app; cbn [length]; rewrite !length_app; cbn [length];
        rewrite !length_app; lia).
  assert (drop 0 bs = bs) as H by apply drop_0. unfold bs at 2 in H. clearbody bs.
  past_test. read_byte H. rewrite bool_decide_eq_false_2 by naive_solver.
  read_bytes H. read_bytes H. rewrite Htl. cbn [Nat.eqb mbind R_bind].
  past_test. read_byte H. read_byte H. rewrite Hel. past_test. read_bytes H.
  past_test. do 4 read_byte H. rewrite Hsl. past_test. read_bytes H. by rewrite Htv.
Qed.

Lemma sct_entries_wire_cons e es :
  sct_entries_wire (e :: es)
  = be_bytes 2 (Z.of_nat (length (sct_wire e.1 ++ e.2))) ++ (sct_wire e.1 ++ e.2) ++ sct_entries_wire es.
Proof. unfold sct_entries_wire. cbn [fmap list_fmap concat]. by rewrite app_assoc. Qed.

(** The loop accepts exactly entries followed by at most one byte. *)
Lemma parse_sct_loop_sound fuel bs pos end_ out r :
  parse_sct_loop fuel bs pos end_ out = Ok r -> pos <= end_ <= length bs ->
  exists es tail, r = out ++ es.*1 /\ Forall sct_entry_ok es /\ length tail <= 1 /\
    drop pos bs = sct_entries_wire es ++ tail ++ drop end_ bs /\
    end_ = pos + length (sct_entries_wire es ++ tail).
Proof.
  revert pos out. induction fuel as [|fuel IH]; intros pos out H He; [done|].
  cbn [parse_sct_loop] in H. case_test; reflect_tests; last first.
  { injection H as <-. exists [], (take (end_ - pos) (drop pos bs)).
    rewrite app_nil_r. cbn [sct_entries_wire fmap list_fmap concat app].
    split_and!; [done|constructor|len| |len].
    rewrite <- (take_drop (end_ - pos) (drop pos bs)) at 1. rewrite drop_drop.
    do 2 f_equal. lia. }
  inv_ok. case_test; [done|]. inv_ok. reflect_tests.
  rename x into l0, x0 into l1, x1 into eb, x2 into s. set (n := be_usize [l0; l1]) in *.
  repeat match goal with
  | H : index _ _ = Ok _ |- _ => apply index_step in H
  | H : slice _ _ _ = Ok _ |- _ => apply slice_step in H as (? & ? & ?)
  end.
  destruct (IH (pos + 2 + n) (out ++ [s]) ltac:(assumption) ltac:(lia))
    as (es & tail & -> & Hes & Ht & Hd & Hend).
  apply parse_sct_entry_sound in H2 as (junk & Heb & Hok).
  assert (length eb = n) as Hn by lia.
  exists ((s, junk) :: es), tail. rewrite sct_entries_wire_cons. cbn [fst snd]. rewrite <- Heb, Hn.
  rewrite (be_bytes_usize l0 l1 n eq_refl). split_and!; [..|done| |].
  - by rewrite <- app_assoc.
  - constructor; [|done]. split; [done|]. cbn [fst snd]. rewrite <- Heb, Hn. by eapply length_field_range.
  - cbn [app]. rewrite <- !app_assoc. replace (S pos) with (pos + 1) in * by lia.
    replace (S (pos + 1)) with (pos + 2) in * by lia. congruence.
  - cbn [app length]. rewrite <- !app_assoc, length_app. lia.
Qed.

Lemma parse_sct_loop_complete es fuel bs pos end_ out tail rest :
  drop pos bs = sct_entries_wire es ++ tail ++ rest -> pos <= length bs ->
  end_ = pos + length (sct_entries_wire es ++ tail) ->
  Forall sct_entry_ok es -> length tail <= 1 -> length es < fuel ->
  parse_sct_loop fuel bs pos end_ out = Ok (out ++ es.*1).
Proof.
  revert fuel pos out. induction es as [|[s junk] es IH]; intros [|fuel] pos out Hd Hp He Hok Ht Hf;
    try (cbn in Hf; lia); cbn [parse_sct_loop].
  { cbn in He. rewrite (proj2 (Nat.leb_gt _ _)) by lia. by rewrite app_nil_r. }
  apply Forall_cons in Hok as [[Hs Hl] Hok]. rewrite sct_entries_wire_cons in Hd, He. cbn [fst snd] in *.
  set (eb := sct_wire s ++ junk) in *.
  assert (be_usize (be_bytes 2 (Z.of_nat (length eb))) = length eb) as Hn
    by (apply be_usize_be_bytes; exact Hl).
  destruct (be_bytes_2 (Z.of_nat (length eb))) as (l0 & l1 & El). rewrite El in *. cbn [app] in *.
  assert (length bs = pos + length (l0 :: l1 :: (eb ++ sct_entries_wire es) ++ tail ++ rest)) as Hlb.
  { rewrite <- Hd, length_drop. lia. }
  cbn [length] in He, Hlb. rewrite !length_app in He, Hlb. cbn in Hf.
  rewrite (proj2 (Nat.leb_le _ _)) by lia.
  do 2 read_byte Hd. rewrite Hn. past_test. rewrite <- !app_assoc in Hd. read_bytes Hd.
  assert (parse_sct_entry eb = Ok s) as -> by (by apply parse_sct_entry_complete).
  cbn [mbind R_bind].
  erewrite IH; [|exact Hd|lia|rewrite length_app; lia|done|done|lia].
  cbn [fmap list_fmap fst]. by rewrite <- app_assoc.
Qed.

Lemma length_entries es : length es <= length (sct_entries_wire es).
Proof.
  induction es as [|e es IH]; [done|]. rewrite sct_entries_wire_cons, !length_app, length_be_bytes.
  cbn [length]. lia.
Qed.

Lemma parse_sct_list_no_panic bs : parse_sct_list bs <> Panic.
Proof.
  unfold parse_sct_list. no_panic; try lia. apply parse_sct_loop_no_panic; lia.
Qed.

Lemma parse_sct_list_layout bs scts : parse_sct_list bs = Ok scts <-> sct_list_layout bs scts.
Proof.
  unfold parse_sct_list, sct_list_layout, sct_list_ok, sct_list_wire. destruct (length bs <? 2) eqn:Hl; reflect_tests.
  { split; [intros [= <-]; by left|]. intros [[_ ->]|(es & tail & rest & _ & _ & _ & ->)]; [done|].
    rewrite length_app, length_be_bytes in Hl. lia. }
  split.
  - intros H. right. inv_ok. case_test; [done|]. reflect_tests.
    apply index_step in H, H0.
    apply parse_sct_loop_sound in H1 as (es & tail & -> & Hes & Ht & Hd & He); [|lia].
    set (n := be_usize [x; x0]) in *.
    assert (n = length (sct_entries_wire es ++ tail)) as Hn by lia.
    exists es, tail, (drop (2 + n) bs). rewrite <- Hn.
    split_and!; try done; [by eapply length_field_range|].
    rewrite (be_bytes_usize x x0 n eq_refl). rewrite drop_0 in H. rewrite <- app_assoc. cbn [app]. congruence.
  - intros [[? _]|(es & tail & rest & -> & [Hes Hlen] & Ht & ->)]; [lia|].
    set (body := sct_entries_wire es ++ tail) in *.
    assert (be_usize (be_bytes 2 (Z.of_nat (length body))) = length body) as Hn
      by (apply be_usize_be_bytes; exact Hlen).
    destruct (be_bytes_2 (Z.of_nat (length body))) as (l0 & l1 & El). rewrite El in *.
    cbn [app index lookup list_lookup mbind R_bind]. rewrite Hn. cbn [length].
    rewrite (proj2 (Nat.ltb_ge _ _)) by (rewrite length_app; lia).
    pose proof (length_entries es). subst body. rewrite length_app in *.
    eapply (parse_sct_loop_complete es _ _ 2 _ [] tail rest); try done; cbn [drop length]; rewrite ?length_app;
      (lia || by rewrite <- app_assoc).
Qed.

Lemma layout_rfc6962 bs scts :
  sct_list_layout bs scts -> (bs = rfc6962_list scts /\ rfc6962_valid scts) \/ lenient bs scts.
Proof.
  intros [[Hl ->]|(es & tail & rest & -> & Hok & _ & ->)]; [right; by left|].
  destruct (decide (Exists (fun e => e.2 <> []) es)) as [?|Hj]; [right; right; right; naive_solver|].
  destruct (decide (tail = [])) as [->|?]; [|right; right; right; naive_solver].
  destruct (decide (rest = [])) as [->|?]; [|right; right; right; naive_solver].
  destruct (decide (es.*1 = [])) as [?|Hne]; [right; right; by left|left].
  assert ((fun s => (s, [])) <$> es.*1 = es) as Hes.
  { clear Hok Hne. induction es as [|[sct junk] es IH]; [done|]. rewrite Exists_cons in Hj. cbn in *. f_equal; [|by apply IH; tauto].
    destruct junk; [done|]. destruct Hj. by left. }
  unfold rfc6962_list, rfc6962_valid. by rewrite Hes.
Qed.

(** C9: the SCT-list parser never panics and always terminates.  Every list of RFC
    6962 is parsed to its SCTs.  Beyond that the parser is lenient, and exactly so:
    it returns [scts] if and only if the input is shorter than a length (no SCTs), or
    is a length and that many bytes holding well-formed encodings of [scts] in
    order, where bytes after each signature, one stray byte at the end of the list,
    and anything after the list are skipped; what it accepts without being a list of
    RFC 6962 has one of these, or no SCT. *)
Theorem parse_sct_list_exact bs :
  parse_sct_list bs <> Panic /\
  (forall scts, rfc6962_valid scts -> parse_sct_list (rfc6962_list scts) = Ok scts) /\
  (forall scts, parse_sct_list bs = Ok scts <-> sct_list_layout bs scts) /\
  (forall scts, parse_sct_list bs = Ok scts -> (bs = rfc6962_list scts /\ rfc6962_valid scts) \/ lenient bs scts).
Proof.
  split; [apply parse_sct_list_no_panic|]. split_and!.
  - intros scts [_ Hok]. apply parse_sct_list_layout. right. eexists _, [], []. split_and!; [|done|cbn; lia|done].
    rewrite <- list_fmap_compose. symmetry. apply list_fmap_id.
  - intros scts. apply parse_sct_list_layout.
  - intros scts Hp. by apply layout_rfc6962, parse_sct_list_layout.
Qed.

(** ** The DER wrapper *)

(** The definite-length DER headers of an [OCTET STRING] of [n] bytes that the
    code reads: the short form and the long forms of one and two bytes. *)
Inductive octet_header (n : nat) : bytes -> Prop :=
  | header_short : (Z.of_nat n < 128)%Z -> octet_header n [u8 (Z.of_nat n)]
  | header_long1 : (Z.of_nat n < 256)%Z -> octet_header n (Byte.x81 :: be_bytes 1 (Z.of_nat n))
  | header_long2 : (Z.of_nat n < 65536)%Z -> octet_header n (Byte.x82 :: be_bytes 2 (Z.of_nat n)).

Lemma long_form_size b : (0x80 <= val b)%Z ->
  Z.to_nat (Z.land (val b) 0x7f) = 1 -> b = Byte.x81.
Proof. destruct b; vm_compute; intros; try done; lia. Qed.

Lemma long_form_size2 b : (0x80 <= val b)%Z ->
  Z.to_nat (Z.land (val b) 0x7f) = 2 -> b = Byte.x82.
Proof. destruct b; vm_compute; intros; try done; lia. Qed.

Lemma strip_sound bs c :
  strip_sct_octet_string bs = Ok c ->
  exists hdr rest, bs = Byte.x04 :: hdr ++ c ++ rest /\ octet_header (length c) hdr.
Proof.
  destruct bs as [|tag [|lb rest]]; cbn [strip_sct_octet_string]; try done; case_bool_decide as Ht; try done.
  subst tag. intros H. inv_ok. destruct x as [n rest'].
  case_test; [done|]. reflect_tests. apply slice_step in H0 as (Hd & Hc & _).
  rewrite drop_0, Nat.sub_0_r in *.
  case_test; [injection H as <- <-|].
  - exists [lb], (drop (Z.to_nat (val lb)) rest). split; [cbn; congruence|]. reflect_tests.
    pose proof (byte.unsigned_range lb).
    replace [lb] with [u8 (Z.of_nat (length c))]; [constructor; lia|].
    by rewrite Hc, Z2Nat.id, u8_val by lia.
  - case_test; [done|]. apply bind_Ok in H as (x & Hh & H). apply bind_Ok in H as (tl & Htl & [= <- ->]).
    reflect_tests. apply slice_step in Hh as (Hd1 & Hl1 & _). apply slice_step in Htl as (Hd2 & _ & _).
    rewrite drop_0 in Hd1. rewrite drop_all, app_nil_r in Hd2.
    rewrite foldl_lor_from_be in *. change (Z.to_nat (from_be x)) with (be_usize x) in *.
    exists (lb :: x), (drop (be_usize x) rest'). split; [cbn [app]; congruence|].
    rewrite Nat.sub_0_r in Hl1. rewrite <- Hl1 in *.
    assert (be_bytes (length x) (Z.of_nat (length c)) = x) as Hx
      by (rewrite Hc, be_usize_from_be; apply be_bytes_from_be).
    pose proof (from_be_range x) as Hr. rewrite <- be_usize_from_be, <- Hc in Hr.
    destruct x as [|x0 [|x1 [|]]]; cbn [length] in *; try lia.
    + rewrite (long_form_size lb) by lia. rewrite <- Hx. apply header_long1. exact (proj2 Hr).
    + rewrite (long_form_size2 lb) by lia. rewrite <- Hx. apply header_long2. exact (proj2 Hr).
Qed.

Lemma strip_long lb x c rest :
  (val lb <? 0x80)%Z = false -> Z.to_nat (Z.land (val lb) 0x7f) = length x ->
  1 <= length x <= 2 -> be_usize x = length c ->
  strip_sct_octet_string (Byte.x04 :: lb :: x ++ c ++ rest) = Ok c.
Proof.
  intros Hlb Hland Hx Hn. unfold strip_sct_octet_string.
  rewrite bool_decide_eq_false_2, Hlb, Hland by naive_solver. cbv zeta.
  assert (length (x ++ c ++ rest) = length x + (length c + length rest)) as Hl by len.
  rewrite (proj2 (Nat.eqb_neq (length x) 0)), (proj2 (Nat.ltb_ge 2 (length x))) by lia.
  rewrite (proj2 (Nat.ltb_ge (length (x ++ c ++ rest)) (length x))) by lia. cbn [orb].
  rewrite (slice_app_mid [] x (c ++ rest) 0 (length x)) by done. cbn [mbind R_bind].
  rewrite (slice_full (x ++ c ++ rest)), drop_app_length by lia. cbn [mbind R_bind].
  rewrite foldl_lor_from_be. change (Z.to_nat (from_be x)) with (be_usize x). rewrite Hn.
  rewrite (proj2 (Nat.ltb_ge _ _)) by len. apply (slice_app_mid [] c rest); cbn; lia.
Qed.

Lemma strip_complete hdr c rest :
  octet_header (length c) hdr -> strip_sct_octet_string (Byte.x04 :: hdr ++ c ++ rest) = Ok c.
Proof.
  intros [Hn|Hn|Hn].
  - cbn [strip_sct_octet_string app]. rewrite byte.unsigned_of_Z. unfold byte.wrap.
    rewrite Z.mod_small by lia. rewrite bool_decide_eq_false_2 by naive_solver.
    rewrite (proj2 (Z.ltb_lt _ _)) by lia. cbn [mbind R_bind].
    rewrite Nat2Z.id, (proj2 (Nat.ltb_ge _ _)) by len. apply (slice_app_mid [] c rest); cbn; lia.
  - cbn [app]. apply strip_long; rewrite ?length_be_bytes; try done; [lia|by apply be_usize_be_bytes].
  - cbn [app]. apply strip_long; rewrite ?length_be_bytes; try done; [lia|by apply be_usize_be_bytes].
Qed.

Lemma strip_no_panic bs : strip_sct_octet_string bs <> Panic.
Proof.
  unfold strip_sct_octet_string. no_panic; try lia.
Qed.

(** [strip_sct_octet_string] never panics and accepts exactly a DER OCTET
    STRING with a definite length of at most two length bytes, returning its
    content: the tag, one of the three length headers, the content, anything. *)
Theorem strip_sct_octet_string_exact bs :
  strip_sct_octet_string bs <> Panic /\
  forall c, strip_sct_octet_string bs = Ok c <->
    exists hdr rest, bs = Byte.x04 :: hdr ++ c ++ rest /\ octet_header (length c) hdr.
Proof.
  split; [apply strip_no_panic|]. intros c. split; [apply strip_sound|].
  intros (hdr & rest & -> & Hh). by apply strip_complete.
Qed.

(** ** Signed data *)

Lemma u8_land z : u8 (Z.land z 0xff) = u8 z.
Proof.
  apply byte.unsigned_inj. rewrite !byte.unsigned_of_Z. unfold byte.wrap.
  change 255%Z with (Z.ones 8). rewrite Z.land_ones by lia. by rewrite Z.mod_mod by lia.
Qed.

Lemma u24_be_be_bytes n : u24_be n = be_bytes 3 n.
Proof. unfold u24_be. by rewrite !u8_land. Qed.

Lemma u16_be_be_bytes n : u16_be n = be_bytes 2 n.
Proof. unfold u16_be. by rewrite !u8_land. Qed.

(** A length-prefixed field followed by anything determines its content. *)
Lemma prefixed_inj n (a b c d : bytes) :
  (Z.of_nat (length a) < 256 ^ Z.of_nat n)%Z -> (Z.of_nat (length b) < 256 ^ Z.of_nat n)%Z ->
  be_bytes n (Z.of_nat (length a)) ++ a ++ c = be_bytes n (Z.of_nat (length b)) ++ b ++ d ->
  a = b /\ c = d.
Proof.
  intros Ha Hb [He H]%app_inj_length; [|by rewrite !length_be_bytes].
  apply be_bytes_inj in He; [|lia..]. apply app_inj_length in H; [done|lia].
Qed.

(** What an SCT is checked against: sizes that fit their length fields. *)
Definition signed_inputs_ok (p : option (bytes * bytes)) (leaf : bytes) : Prop :=
  match p with
  | Some (h, tbs) => length h = 32 /\ (Z.of_nat (length tbs) < 16777216)%Z
  | None => (Z.of_nat (length leaf) < 16777216)%Z
  end.

(** C12: the bytes a log signs determine what was signed.  Two well-formed SCTs
    with equal signed data have the same kind of entry (a certificate is never
    mistaken for a precertificate), the same issuer key hash and TBSCertificate
    or the same certificate, and the same timestamp and extensions. *)
Theorem sct_signed_data_binding p1 p2 leaf1 leaf2 s1 s2 :
  sct_ok s1 -> sct_ok s2 -> signed_inputs_ok p1 leaf1 -> signed_inputs_ok p2 leaf2 ->
  sct_signed_data p1 leaf1 s1 = sct_signed_data p2 leaf2 s2 ->
  p1 = p2 /\ (p1 = None -> leaf1 = leaf2) /\
  timestamp_ms s1 = timestamp_ms s2 /\ extensions s1 = extensions s2.
Proof.
  intros (V1 & _ & T1 & E1 & _) (V2 & _ & T2 & E2 & _) H1 H2.
  assert (forall x y : bytes, be_bytes 8 (timestamp_ms s1) ++ x = be_bytes 8 (timestamp_ms s2) ++ y ->
    timestamp_ms s1 = timestamp_ms s2 /\ x = y) as Hts.
  { intros x y [Ht ->]%app_inj_length; [|by rewrite !length_be_bytes].
    unfold in_range, U64_MAX in *.
    apply be_bytes_inj in Ht; [done|change (256 ^ Z.of_nat 8)%Z with 18446744073709551616%Z; lia..]. }
  assert (be_bytes 2 (Z.of_nat (length (extensions s1))) ++ extensions s1
    = be_bytes 2 (Z.of_nat (length (extensions s2))) ++ extensions s2 -> extensions s1 = extensions s2) as Hext.
  { rewrite <- (app_nil_r (extensions s1)) at 2. rewrite <- (app_nil_r (extensions s2)) at 2.
    intros [? _]%prefixed_inj; done. }
  destruct p1 as [[h1 t1]|], p2 as [[h2 t2]|]; cbn [sct_signed_data signed_inputs_ok] in *;
    unfold build_sct_signed_data, build_sct_signed_data_precert;
    rewrite ?V1, ?V2, ?u24_be_be_bytes, ?u16_be_be_bytes, ?(Z.mod_small _ 65536) by lia;
    intros H; apply (f_equal (drop 2)) in H; cbn [drop app] in H; apply Hts in H as [Ht H];
    apply (f_equal (drop 1)) in H; cbn [drop] in H; try discriminate;
    apply (f_equal (drop 1)) in H; cbn [drop] in H.
  - apply app_inj_length in H as [-> H]; [|lia].
    apply prefixed_inj in H as [-> H]; [|apply H1|apply H2]. split_and!; auto; done.
  - apply prefixed_inj in H as [-> H]; [|apply H1|apply H2]. split_and!; auto.
Qed.

(** ** Counting trusted logs *)

Section counting.
Context `{Sha256} `{X509} `{SigPrims} {S : Type}.

(** The key of the log decodes, for Ed25519 from 32 bytes, and verifies the
    signature of the SCT on [data]. *)
Definition log_signed (log : CtLog) (data : bytes) (sct : ParsedSct) : Prop :=
  let scheme := match key_alg log with EcdsaP256Sha256 => p256_sha256 | Ed25519 => ed25519 end in
  exists raw key sig,
    spki_ref_raw (public_key_der log) = inr raw /\ (key_alg log = Ed25519 -> length raw = 32) /\
    key_decode scheme raw = inr key /\ sig_decode scheme (signature sct) = inr sig /\
    sig_verify scheme key data sig = true.

Lemma verify_sct_signature_spec log data sct :
  is_ok (verify_sct_signature log data sct) = true <-> log_signed log data sct.
Proof.
  rewrite is_ok_true. unfold verify_sct_signature, log_signed. cbv zeta. split.
  - intros [[] Hv]. destruct (key_alg log); inv_ok; repeat (case_match; simplify_eq; inv_ok); reflect_tests;
      eexists _, _, _; split_and!; eassumption || done.
  - intros (raw & key & sig & -> & Hl & Hk & Hs & Hv). destruct (key_alg log); cbn; [|rewrite Hl by done; cbn];
      rewrite Hk; cbn; rewrite Hs; cbn; rewrite Hv; eauto.
Qed.

(** An SCT counts when the first trusted log with its id signed it. *)
Definition sct_counts (p : option (bytes * bytes)) (logs : list CtLog) (leaf : bytes) (sct : ParsedSct) : Prop :=
  exists log, find_log logs (log_id sct) = Some log /\ log_signed log (sct_signed_data p leaf sct) sct.

#[export] Instance sct_counts_dec p logs leaf sct : Decision (sct_counts p logs leaf sct).
Proof.
  unfold sct_counts. destruct (find_log logs (log_id sct)) as [log|]; [|right; naive_solver].
  destruct (is_ok (verify_sct_signature log (sct_signed_data p leaf sct) sct)) eqn:Hv;
    [left; exists log|right; intros (? & [= <-] & Hl)].
  - split; [done|]. by apply verify_sct_signature_spec.
  - apply verify_sct_signature_spec in Hl. congruence.
Defined.

(** The log ids of the SCTs that count. *)
Definition verified_logs (p : option (bytes * bytes)) (logs : list CtLog) (leaf : bytes)
  (scts : list ParsedSct) : gset bytes :=
  list_to_set (log_id <$> filter (sct_counts p logs leaf) scts).

Lemma count_loop_spec p logs leaf scts seen :
  count_loop p logs leaf scts seen = seen ∪ verified_logs p logs leaf scts.
Proof.
  unfold verified_logs. revert seen. induction scts as [|s scts IH]; intros seen; cbn [count_loop].
  { cbn. set_solver. }
  rewrite IH, filter_cons.
  destruct (decide (sct_counts p logs leaf s)) as [(log & Hf & Hv)|Hv].
  - case_bool_decide as Hs; [cbn; set_solver|]. apply verify_sct_signature_spec, is_ok_true in Hv as [[] Hv].
    rewrite Hf, Hv. cbn. set_solver.
  - unfold sct_counts in Hv. case_bool_decide as Hs; [done|].
    destruct (find_log logs (log_id s)) as [log|]; [|done].
    destruct (verify_sct_signature log _ s) as [[]| |] eqn:Hsig; try done.
    destruct Hv. exists log. split; [done|]. apply verify_sct_signature_spec. by rewrite Hsig.
Qed.

Lemma precert_total leaf issuer : precert_tbs_and_issuer_hash leaf issuer <> Panic.
Proof. unfold precert_tbs_and_issuer_hash. no_panic. Qed.

Lemma verify_sct_signature_total log data sct : verify_sct_signature log data sct <> Panic.
Proof. unfold verify_sct_signature. no_panic. Qed.

Lemma verified_logs_perm p logs leaf scts scts' :
  scts ≡ₚ scts' -> verified_logs p logs leaf scts = verified_logs p logs leaf scts'.
Proof. intros Hp. unfold verified_logs. apply list_to_set_perm_L. by rewrite Hp. Qed.

Lemma count_eq scts logs leaf issuer :
  count_trusted_verified scts logs leaf issuer
  = Z.min (Z.of_nat (size (verified_logs (precert_inputs leaf issuer) logs leaf scts))) 255.
Proof. unfold count_trusted_verified. by rewrite count_loop_spec, union_empty_l_L. Qed.

(** C11: [count_trusted_verified] is the number, at most 255, of distinct log ids
    among the SCTs signed by the trusted log they name.  It is at most the number of
    distinct trusted logs, does not depend on the order of the SCTs, and
    repeating an SCT does not change it, while adding SCTs never lowers it. *)
Theorem count_trusted_verified_spec scts logs leaf issuer :
  let n := count_trusted_verified scts logs leaf issuer in
  let p := precert_inputs leaf issuer in
  n = Z.min (Z.of_nat (size (verified_logs p logs leaf scts))) 255 /\
  (n <= Z.of_nat (size (list_to_set (ct_id <$> logs) : gset bytes)))%Z /\
  (forall scts', scts ≡ₚ scts' -> count_trusted_verified scts' logs leaf issuer = n) /\
  (forall s, s ∈ scts -> count_trusted_verified (s :: scts) logs leaf issuer = n) /\
  (forall more, (n <= count_trusted_verified (scts ++ more) logs leaf issuer)%Z).
Proof.
  cbv zeta. rewrite count_eq. split_and!.
  - done.
  - etrans; [apply Z.le_min_l|]. apply Nat2Z.inj_le, subseteq_size.
    intros id. unfold verified_logs. rewrite !elem_of_list_to_set, !list_elem_of_fmap.
    intros (s & -> & [(log & Hf & _) _]%list_elem_of_filter).
    apply find_some in Hf as [Hin Hid%bool_decide_eq_true]. exists log.
    split; [done|]. by apply list_elem_of_In.
  - intros scts' Hp. by rewrite count_eq, (verified_logs_perm _ _ _ _ _ (symmetry Hp)).
  - intros s Hs. rewrite count_eq. do 3 f_equal. unfold verified_logs.
    rewrite filter_cons. case_decide as Hv; [|done]. cbn.
    assert (log_id s ∈ log_id <$> filter (sct_counts (precert_inputs leaf issuer) logs leaf) scts)
      by (apply list_elem_of_fmap_2, list_elem_of_filter; done).
    set_solver.
  - intros more. rewrite count_eq. apply Z.min_le_compat_r, Nat2Z.inj_le, subseteq_size.
    unfold verified_logs. rewrite filter_app. set_solver.
Qed.

(** When the precert entry of an embedded SCT cannot be rebuilt (the
    issuer does not parse, say), the SCTs are not counted as zero: they are
    checked against the [x509_entry] of the leaf, exactly as if no issuer had
    been sent. *)
Theorem precert_failure_checks_x509_entry scts logs leaf issuer e :
  precert_tbs_and_issuer_hash leaf issuer = Err e ->
  count_trusted_verified scts logs leaf (Some issuer) = count_trusted_verified scts logs leaf None.
Proof. intros He. rewrite !count_eq. cbn [precert_inputs]. by rewrite He. Qed.

(** The certificate carries an SCT list in which at least [m] distinct trusted
    logs (counted up to 255) have signed. *)
Definition sct_requirement (logs : list CtLog) (ee : bytes) (ints : list bytes) (m : Z) : Prop :=
  exists value scts, extract_sct_extension ee = Ok value /\ parse_sct_list value = Ok scts /\
    (m <= Z.min (Z.of_nat (size (verified_logs (precert_inputs ee (head ints)) logs ee scts))) 255)%Z.

Lemma extract_sct_extension_total ee : extract_sct_extension ee <> Panic.
Proof. unfold extract_sct_extension. no_panic. apply strip_no_panic. Qed.

Lemma warn_empty_logs_config (self : SctVerifier S) :
  sct_logs (warn_empty_logs self) = sct_logs self /\
  sct_policy (warn_empty_logs self) = sct_policy self /\
  sct_inner (warn_empty_logs self) = sct_inner self.
Proof. unfold warn_empty_logs. destruct (sct_logs self) eqn:Hl; cbn; split_and!; congruence. Qed.

Definition sct_passes (policy : SctPolicy) (logs : list CtLog) (ee : bytes) (ints : list bytes) : Prop :=
  match policy with Strict m => sct_requirement logs ee ints m | _ => True end.

(** The verifier as a layer: it passes the call on unchanged, or refuses and
    leaves the state alone. *)
Lemma sct_layer (self : SctVerifier S) st ee ints name ocsp now :
  let r := verify_server_cert (sct_as_verifier self) st ee ints name ocsp now in
  (sct_passes (sct_policy self) (sct_logs self) ee ints /\
   r = verify_server_cert (sct_inner self) st ee ints name ocsp now) \/
  (~ sct_passes (sct_policy self) (sct_logs self) ee ints /\ exists msg, r = (st, Err (General msg))).
Proof.
  cbv zeta. unfold sct_as_verifier, sct_verify_server_cert, sct_passes, sct_requirement. cbn [verify_server_cert].
  destruct (warn_empty_logs_config self) as (-> & -> & _).
  pose proof (extract_sct_extension_total ee) as He.
  destruct (sct_policy self) as [|m|m]; cbn [is_strict min_distinct]; [by left|..];
    (destruct (extract_sct_extension ee) as [v|[]|]; [|cbn [snd]|done]);
    try pose proof (parse_sct_list_no_panic v) as Hp;
    try (destruct (parse_sct_list v) as [scts|e|] eqn:Hps; [|cbn [snd]|done]);
    rewrite ?andb_false_r, ?andb_true_r; cbn [snd]; try (by left);
    try (right; split; [naive_solver|eauto]; fail).
  2: { right. split; [|eauto]. intros (? & ? & [= <-] & Hq & _). congruence. }
  rewrite count_eq. case_match; reflect_tests; cbn [snd].
  - right. split; [|eauto]. intros (? & ? & [= <-] & Hq & ?). rewrite Hps in Hq. injection Hq as <-. lia.
  - left. split; [|done]. exists v, scts. done.
Qed.

(** C10: the verifier never panics by itself.  Under [Disabled] and
    [Permissive] its verdict is the inner verifier's; under [Strict m] it is the
    inner verifier's verdict when the leaf carries an SCT list that parses and
    in which at least [m] distinct trusted logs verify, and an error otherwise. *)
Theorem sct_policy_enforced (self : SctVerifier S) st ee ints name ocsp now :
  let r := verify_server_cert (sct_as_verifier self) st ee ints name ocsp now in
  let inner := verify_server_cert (sct_inner self) st ee ints name ocsp now in
  match sct_policy self with
  | Strict m => (sct_requirement (sct_logs self) ee ints m /\ r = inner) \/
                (~ sct_requirement (sct_logs self) ee ints m /\ exists msg, r = (st, Err (General msg)))
  | _ => r = inner
  end.
Proof.
  cbv zeta. destruct (sct_layer self st ee ints name ocsp now) as [[Hp ->]|[Hp Hr]];
    unfold sct_passes in Hp; destruct (sct_policy self); auto; by destruct Hp.
Qed.
End counting.

Module SctWitness.
Import Toy ToyX509.

Definition sct (sig : bytes) : ParsedSct :=
  {| sct_version := Byte.x00; log_id := replicate 32 Byte.x07; timestamp_ms := 5;
     extensions := [Byte.x01]; hash_alg := Byte.x04; sig_alg := Byte.x03; signature := sig |}.

Lemma sct_is_ok sig : (Z.of_nat (length sig) < 65536)%Z -> sct_ok (sct sig).
Proof. intros. split_and!; done. Qed.

(** A list of RFC 6962, and the same with a byte after it. *)
Lemma parse_sct_list_exact_witness :
  let scts := [sct [Byte.x09]] in
  parse_sct_list (rfc6962_list scts) = Ok scts /\
  parse_sct_list (rfc6962_list scts ++ [Byte.xff]) = Ok scts /\ lenient (rfc6962_list scts ++ [Byte.xff]) scts.
Proof.
  intros scts.
  assert (parse_sct_list (rfc6962_list scts ++ [Byte.xff]) = Ok scts) as Hl by (vm_compute; reflexivity).
  split.
  - apply (parse_sct_list_exact []). split; [discriminate|]. split; [|vm_compute; reflexivity].
    repeat constructor; try (vm_compute; congruence).
  - split; [exact Hl|].
    destruct (proj2 (proj2 (proj2 (parse_sct_list_exact (rfc6962_list scts ++ [Byte.xff])))) scts Hl) as [[Heq _]|?]; [|assumption].
    apply (f_equal length) in Heq. vm_compute in Heq. discriminate Heq.
Defined.

Lemma sct_signed_data_binding_witness :
  timestamp_ms (sct [Byte.x01]) = timestamp_ms (sct [Byte.x02]).
Proof.
  apply (sct_signed_data_binding (Some (replicate 32 Byte.x01, [Byte.x02]))
    (Some (replicate 32 Byte.x01, [Byte.x02])) [] [] (sct [Byte.x01]) (sct [Byte.x02]));
    [apply sct_is_ok|apply sct_is_ok|..]; done.
Defined.

(** A leaf whose extension holds one SCT, signed over the leaf's x509 entry. *)
Definition log : CtLog :=
  {| ct_id := replicate 32 Byte.x07; public_key_der := [Byte.x09]; key_alg := EcdsaP256Sha256 |}.

Definition leaf (len : byte) : bytes :=
  let w := sct_wire (sct [Byte.x09; len]) in
  let l := be_bytes 2 (Z.of_nat (length w)) ++ w in
  let l := be_bytes 2 (Z.of_nat (length l)) ++ l in
  [Byte.x30; Byte.x01; Byte.x02; Byte.x03; Byte.x04; Byte.x04; u8 (Z.of_nat (length l))] ++ l.

Definition verifier : SctVerifier unit := sct_verifier_new (accept_all unit) (Strict 1) [log].

(** The same leaf under a strict policy: with an issuer that does not parse the
    [x509_entry] signature is accepted, with one that parses it is not. *)
Example strict_runs :
  (sct_verify_server_cert verifier tt (leaf (u8 79)) [[Byte.x00]] "h" [] 0).2.2 = Ok tt /\
  is_ok (sct_verify_server_cert verifier tt (leaf (u8 79)) [leaf Byte.x00] "h" [] 0).2.2 = false.
Proof. split; vm_compute; reflexivity. Qed.

Lemma precert_failure_checks_x509_entry_witness :
  count_trusted_verified [sct [Byte.x09; u8 79]] [log] (leaf (u8 79)) (Some [Byte.x00]) = 1%Z.
Proof.
  rewrite (precert_failure_checks_x509_entry _ _ _ _ (ParseError "issuer cert parse: not a certificate"));
    vm_compute; reflexivity.
Defined.
End SctWitness.
