(* ===== verification/Ocsp.v ===== *)
(** * Ocsp: stapled OCSP responses

    crates/oxitls-adapter-rustls-rustcrypto/src/verifier/ocsp_client.rs and
    ocsp_crypto.rs: resolving and checking the signer of a response, binding a
    response to the certificate, freshness, and the policy of
    [OcspClientVerifier]. *)

From S2P Require Import Prelude Core Crypto Verifier.

Definition OID_SHA1 : string := "1.3.14.3.2.26".
Definition OID_SHA256 : string := "2.16.840.1.101.3.4.2.1".
Definition OID_SHA384 : string := "2.16.840.1.101.3.4.2.2".
Definition OID_SHA512 : string := "2.16.840.1.101.3.4.2.3".

Definition OID_SHA256_WITH_RSA : string := "1.2.840.113549.1.1.11".
Definition OID_ECDSA_WITH_SHA256 : string := "1.2.840.10045.4.3.2".
Definition OID_ECDSA_WITH_SHA384 : string := "1.2.840.10045.4.3.3".
Definition OID_ED25519 : string := "1.3.101.112".
Definition EKU_OID : string := "2.5.29.37".
Definition OCSP_SIGNING_OID : string := "1.3.6.1.5.5.7.3.9".

(** ** The response, by the fields the code reads ([x509_ocsp]) *)

Inductive CertStatus := StatusGood | StatusRevoked | StatusUnknown.

#[export] Instance cert_status_eq_dec : EqDecision CertStatus.
Proof. solve_decision. Defined.

Record CertId := {
  hash_algorithm : string;
  issuer_name_hash : bytes;
  issuer_key_hash : bytes;
  cid_serial_number : bytes;
}.

(** Times are whole seconds since the epoch. *)
Record SingleResponse := {
  cert_id : CertId;
  cert_status : CertStatus;
  this_update : Z;
  next_update : option Z;
}.

Inductive ResponderId := ByName (name : bytes) | ByKey (key_hash : bytes).

Record ResponseData := { responder_id : ResponderId; responses : list SingleResponse; rd_rest : bytes }.

Record BasicOcspResponse := {
  tbs_response_data : ResponseData;
  basic_signature_algorithm : string;
  basic_signature : bytes;
  basic_certs : option (list Certificate);
}.

Inductive OcspResponseStatus :=
  | Successful | MalformedRequest | InternalError | TryLater | SigRequired | Unauthorized.

#[export] Instance status_eq_dec : EqDecision OcspResponseStatus.
Proof. solve_decision. Defined.

Record OcspResponse := { response_status : OcspResponseStatus; response_bytes : option bytes }.

(** The decoders and the encoder of the [x509_ocsp] crate. *)
Class OcspDer := {
  ocsp_response_from_der : bytes -> string + OcspResponse;
  basic_from_der : bytes -> string + BasicOcspResponse;
  response_data_to_der : ResponseData -> string + bytes;
}.

Inductive OcspVerifyError :=
  | UnsupportedAlgorithm (oid : string)
  | OcspSignatureInvalid
  | DelegatedSignerNotTrusted (reason : string)
  | MissingOcspSigningEku
  | SpkiParse (msg : string)
  | ResponseUnparseable (msg : string).

Definition ocsp_verify_error_display (e : OcspVerifyError) : string :=
  match e with
  | UnsupportedAlgorithm oid => "OCSP signer algorithm OID " +:+ oid +:+ " is not supported"
  | OcspSignatureInvalid => "OCSP response signature verification failed"
  | DelegatedSignerNotTrusted reason => "delegated OCSP signer not trusted: " +:+ reason
  | MissingOcspSigningEku => "delegated OCSP signer certificate missing id-kp-OCSPSigning EKU"
  | SpkiParse msg => "failed to parse SubjectPublicKeyInfo: " +:+ msg
  | ResponseUnparseable msg => "OCSP response could not be decoded: " +:+ msg
  end.

Inductive OcspClientPolicy := OcspDisabled | SoftFail | HardRequire.

#[export] Instance ocsp_policy_eq_dec : EqDecision OcspClientPolicy.
Proof. solve_decision. Defined.

Inductive OcspCheckResult :=
  | Absent | Unparseable | Revoked | Unknown | BadSignature (msg : string) | Good.

Section Ocsp.
Context `{Sha256} `{Digests} `{X509} `{SigPrims} `{OcspDer} {S : Type}.

Definition ocsp_digest (hash_oid : string) (data : bytes) : option bytes :=
  if String.eqb hash_oid OID_SHA1 then Some (sha1 data)
  else if String.eqb hash_oid OID_SHA256 then Some (sha256 data)
  else if String.eqb hash_oid OID_SHA384 then Some (sha384 data)
  else if String.eqb hash_oid OID_SHA512 then Some (sha512 data)
  else None.

(** ** ocsp_crypto.rs *)

Definition spki_raw_bytes (spki_der : bytes) : R OcspVerifyError bytes :=
  map_err SpkiParse (of_sum (spki_ref_raw spki_der)).

Definition verify_rsa_pkcs1_sha256 (spki_der tbs_der sig_bytes : bytes) : R OcspVerifyError unit :=
  inner_bytes ← map_err SpkiParse (of_sum (spki_ref_raw spki_der));
  '(modulus, public_exponent) ←
    map_err (fun e => SpkiParse ("RSAPublicKey parse: " +:+ e)) (of_sum (rsa_public_key_from_der inner_bytes));
  let n := from_be modulus in
  let e := from_be public_exponent in
  key ← map_err (fun e => SpkiParse ("RsaPublicKey::new: " +:+ e)) (of_sum (rsa_public_key_new n e));
  sig ← map_err (fun _ => OcspSignatureInvalid) (of_sum (sig_decode rsa_pkcs1_sha256 sig_bytes));
  if sig_verify rsa_pkcs1_sha256 key tbs_der sig then Ok tt else Err OcspSignatureInvalid.

Definition verify_ecdsa_p256_sha256 (spki_der tbs_der sig_bytes : bytes) : R OcspVerifyError unit :=
  raw ← spki_raw_bytes spki_der;
  vk ← map_err SpkiParse (of_sum (key_decode p256_sha256 raw));
  sig ← map_err (fun _ => OcspSignatureInvalid) (of_sum (sig_decode p256_sha256 sig_bytes));
  if sig_verify p256_sha256 vk tbs_der sig then Ok tt else Err OcspSignatureInvalid.

Definition verify_ecdsa_p384_sha384 (spki_der tbs_der sig_bytes : bytes) : R OcspVerifyError unit :=
  raw ← spki_raw_bytes spki_der;
  vk ← map_err SpkiParse (of_sum (key_decode p384_sha384 raw));
  sig ← map_err (fun _ => OcspSignatureInvalid) (of_sum (sig_decode p384_sha384 sig_bytes));
  if sig_verify p384_sha384 vk tbs_der sig then Ok tt else Err OcspSignatureInvalid.

Definition verify_ed25519 (spki_der tbs_der sig_bytes : bytes) : R OcspVerifyError unit :=
  raw_bytes ← spki_raw_bytes spki_der;
  key_bytes ← (if length raw_bytes =? 32 then Ok raw_bytes
               else Err (SpkiParse "Ed25519 public key must be 32 bytes"));
  vk ← map_err SpkiParse (of_sum (key_decode ed25519 key_bytes));
  sig ← map_err (fun _ => OcspSignatureInvalid) (of_sum (sig_decode ed25519 sig_bytes));
  if sig_verify ed25519 vk tbs_der sig then Ok tt else Err OcspSignatureInvalid.

Definition verify_ocsp_signature (spki_der tbs_der : bytes) (alg_oid : string) (sig_bytes : bytes)
  : R OcspVerifyError unit :=
  if String.eqb alg_oid OID_SHA256_WITH_RSA then verify_rsa_pkcs1_sha256 spki_der tbs_der sig_bytes
  else if String.eqb alg_oid OID_ECDSA_WITH_SHA256 then verify_ecdsa_p256_sha256 spki_der tbs_der sig_bytes
  else if String.eqb alg_oid OID_ECDSA_WITH_SHA384 then verify_ecdsa_p384_sha384 spki_der tbs_der sig_bytes
  else if String.eqb alg_oid OID_ED25519 then verify_ed25519 spki_der tbs_der sig_bytes
  else Err (UnsupportedAlgorithm alg_oid).

(** The [for ext in cert.extensions()] loop. *)
Fixpoint find_eku (exts : list XpExtension) : R OcspVerifyError unit :=
  match exts with
  | [] => Err MissingOcspSigningEku
  | ext :: exts =>
      if String.eqb (xp_oid ext) EKU_OID then
        match xp_parsed_eku ext with
        | Some eku =>
            if eku_any eku || existsb (fun o => String.eqb o OCSP_SIGNING_OID) (eku_other eku)
               || eku_ocsp_signing eku
            then Ok tt
            else Err MissingOcspSigningEku
        | None => Err MissingOcspSigningEku
        end
      else find_eku exts
  end.

Definition verify_eku_ocsp_signing (cert_der : bytes) : R OcspVerifyError unit :=
  cert ← map_err (fun e => ResponseUnparseable ("failed to parse delegated cert: " +:+ e))
           (of_sum (xp_from_der cert_der));
  find_eku (xp_extensions cert).

(** ** ocsp_client.rs: signer resolution *)

Definition spki_der_from_cert (cert : Certificate) : option bytes :=
  ok (of_sum (spki_to_der (subject_public_key_info (tbs_certificate cert)))).

Definition responder_is_issuer (rid : ResponderId) (issuer : Certificate) : bool :=
  match rid with
  | ByName name => bool_decide (name = tbs_subject (tbs_certificate issuer))
  | ByKey _ => false
  end.

Definition end_entity_is_self_signed (end_entity_der : bytes) : bool :=
  match certificate_from_der end_entity_der with
  | inr cert => bool_decide (tbs_subject (tbs_certificate cert) = tbs_issuer (tbs_certificate cert))
  | inl _ => false
  end.

Definition cert_to_der (cert : Certificate) : R OcspVerifyError bytes :=
  map_err (fun e => ResponseUnparseable ("re-encode cert DER: " +:+ e)) (of_sum (certificate_to_der cert)).

(** [issuer_cert_der.and_then(|der| Certificate::from_der(der).ok())]. *)
Definition parse_issuer (issuer_cert_der : option bytes) : option Certificate :=
  der ← issuer_cert_der; ok (of_sum (certificate_from_der der)).

(** The delegated signer, [certs.first()]. *)
Definition delegated_signer_spki (issuer_opt : option Certificate) (signer_cert : Certificate)
  : R OcspVerifyError bytes :=
  signer_cert_der ← cert_to_der signer_cert;
  _ ← verify_eku_ocsp_signing signer_cert_der;
  _ ← match issuer_opt with
      | Some iss =>
          issuer_spki ← ok_or (SpkiParse "issuer SPKI re-encode failed") (spki_der_from_cert iss);
          signer_tbs_der ← map_err (fun e => ResponseUnparseable ("re-encode signer TBS: " +:+ e))
                             (of_sum (tbs_to_der (tbs_certificate signer_cert)));
          map_err (fun e => DelegatedSignerNotTrusted
                     ("issuer did not sign the delegated OCSP cert: " +:+ ocsp_verify_error_display e))
            (verify_ocsp_signature issuer_spki signer_tbs_der
               (signature_algorithm signer_cert) (cert_signature signer_cert))
      | None => Ok tt
      end;
  ok_or (SpkiParse "signer cert SPKI encode failed") (spki_der_from_cert signer_cert).

Definition determine_signer_spki (basic : BasicOcspResponse) (issuer_cert_der : option bytes)
  : R OcspVerifyError bytes :=
  let issuer_opt := parse_issuer issuer_cert_der in
  let responder_is_iss :=
    match issuer_opt with
    | Some iss => responder_is_issuer (responder_id (tbs_response_data basic)) iss
    | None => false
    end in
  if responder_is_iss then
    match issuer_opt with
    | Some iss => ok_or (SpkiParse "issuer SPKI re-encode failed") (spki_der_from_cert iss)
    | None => Panic
    end
  else
    match basic_certs basic ≫= head with
    | Some signer_cert => delegated_signer_spki issuer_opt signer_cert
    | None =>
        match issuer_opt with
        | Some iss => ok_or (SpkiParse "issuer SPKI re-encode failed") (spki_der_from_cert iss)
        | None => Err (ResponseUnparseable
            "no issuer cert provided and no delegated signer in OCSP response")
        end
    end.

(** ** ocsp_client.rs: binding, freshness, evaluation *)

Definition cert_id_matches (cid : CertId) (issuer : Certificate) (end_entity_serial : bytes) : bool :=
  if bool_decide (cid_serial_number cid <> end_entity_serial) then false else
  let hash_oid := hash_algorithm cid in
  match name_to_der (tbs_subject (tbs_certificate issuer)) with
  | inl _ => false
  | inr issuer_name_der =>
      let issuer_key_bytes := subject_public_key (subject_public_key_info (tbs_certificate issuer)) in
      match ocsp_digest hash_oid issuer_name_der with
      | None => false
      | Some expected_name_hash =>
          match ocsp_digest hash_oid issuer_key_bytes with
          | None => false
          | Some expected_key_hash =>
              bool_decide (issuer_name_hash cid = expected_name_hash)
              && bool_decide (issuer_key_hash cid = expected_key_hash)
          end
      end
  end.

Definition single_response_is_current (sr : SingleResponse) (now : Z) : bool :=
  if (now <? this_update sr)%Z then false
  else match next_update sr with
       | Some next => if (next <? now)%Z then false else true
       | None => true
       end.

(** The [for sr in responses] loop with its three flags, and the verdict after it. *)
Fixpoint evaluate_loop (issuer : Certificate) (ee_serial : bytes) (now : Z)
  (rs : list SingleResponse) (matched_any has_unknown good_current : bool) : OcspCheckResult :=
  match rs with
  | [] =>
      if negb matched_any then Unparseable
      else if good_current then Good
      else if has_unknown then Unknown
      else Unparseable
  | sr :: rs =>
      if negb (cert_id_matches (cert_id sr) issuer ee_serial)
      then evaluate_loop issuer ee_serial now rs matched_any has_unknown good_current
      else match cert_status sr with
           | StatusRevoked => Revoked
           | status =>
               if negb (single_response_is_current sr now)
               then evaluate_loop issuer ee_serial now rs true has_unknown good_current
               else match status with
                    | StatusUnknown => evaluate_loop issuer ee_serial now rs true true good_current
                    | StatusGood => evaluate_loop issuer ee_serial now rs true has_unknown true
                    | StatusRevoked => evaluate_loop issuer ee_serial now rs true has_unknown good_current
                    end
           end
  end.

Definition evaluate_responses (rs : list SingleResponse) (end_entity_der : bytes)
  (issuer : option Certificate) (now : Z) : OcspCheckResult :=
  match certificate_from_der end_entity_der with
  | inl _ => Unparseable
  | inr end_entity =>
      let ee_serial := serial_number (tbs_certificate end_entity) in
      match issuer with
      | None => Unparseable
      | Some issuer => evaluate_loop issuer ee_serial now rs false false false
      end
  end.

Definition check_ocsp_staple (ocsp_response end_entity_der : bytes)
  (issuer_cert_der : option bytes) (now : Z) : R Empty_set OcspCheckResult :=
  match ocsp_response with
  | [] => Ok Absent
  | _ =>
    match ocsp_response_from_der ocsp_response with
    | inl _ => Ok Unparseable
    | inr parsed =>
      if bool_decide (response_status parsed <> Successful) then Ok Absent else
      match response_bytes parsed with
      | None => Ok Unparseable
      | Some resp_bytes =>
        match basic_from_der resp_bytes with
        | inl _ => Ok Unparseable
        | inr basic =>
          match response_data_to_der (tbs_response_data basic) with
          | inl _ => Ok Unparseable
          | inr tbs_der =>
            match determine_signer_spki basic issuer_cert_der with
            | Panic => Panic
            | Err (ResponseUnparseable _) => Ok Unparseable
            | Err e => Ok (BadSignature (ocsp_verify_error_display e))
            | Ok spki_der =>
              match verify_ocsp_signature spki_der tbs_der (basic_signature_algorithm basic)
                      (basic_signature basic) with
              | Panic => Panic
              | Err e => Ok (BadSignature (ocsp_verify_error_display e))
              | Ok _ => Ok (evaluate_responses (responses (tbs_response_data basic)) end_entity_der
                              (parse_issuer issuer_cert_der) now)
              end
            end
          end
        end
      end
    end
  end.

(** ** [OcspClientVerifier] *)

Record OcspClientVerifier := { ocsp_inner : ServerCertVerifier S; ocsp_policy : OcspClientPolicy }.

Definition ocsp_verifier_new (inner : ServerCertVerifier S) (policy : OcspClientPolicy) : OcspClientVerifier :=
  {| ocsp_inner := inner; ocsp_policy := policy |}.

Definition resolve_issuer (end_entity : bytes) (intermediates : list bytes) : option bytes :=
  match intermediates with
  | first :: _ => Some first
  | [] => if end_entity_is_self_signed end_entity then Some end_entity else None
  end.

Definition ocsp_verify_server_cert (self : OcspClientVerifier) (st : S) (end_entity : bytes)
  (intermediates : list bytes) (server_name : string) (ocsp_response : bytes) (now : Z)
  : S * R RustlsError unit :=
  let inner := verify_server_cert (ocsp_inner self) st end_entity intermediates server_name ocsp_response now in
  if bool_decide (ocsp_policy self = OcspDisabled) then inner else
  match check_ocsp_staple ocsp_response end_entity (resolve_issuer end_entity intermediates) now with
  | Panic => (st, Panic)
  | Err e => match e with end
  | Ok Revoked => (st, Err (InvalidCertificate Core.Revoked))
  | Ok (BadSignature msg) => (st, Err (General ("OCSP response cryptographic signature invalid: " +:+ msg)))
  | Ok Unknown =>
      match ocsp_policy self with
      | HardRequire => (st, Err (General "OCSP CertStatus::Unknown with HardRequire policy"))
      | _ => inner
      end
  | Ok Absent | Ok Unparseable =>
      match ocsp_policy self with
      | HardRequire => (st, Err (General "OCSP staple required but absent or unparseable"))
      | _ => inner
      end
  | Ok Good => inner
  end.

Definition ocsp_as_verifier (self : OcspClientVerifier) : ServerCertVerifier S := {|
  verify_server_cert := ocsp_verify_server_cert self;
  verify_tls12_signature := verify_tls12_signature (ocsp_inner self);
  verify_tls13_signature := verify_tls13_signature (ocsp_inner self);
  supported_verify_schemes := supported_verify_schemes (ocsp_inner self);
  requires_raw_public_keys := false;
|}.
End Ocsp.
Arguments OcspClientVerifier : clear implicits.

(** ** Properties *)

Section OcspProperties.
Context `{Sha256} `{Digests} `{X509} `{SigPrims} `{OcspDer} {S : Type}.

Lemma verify_ocsp_signature_total spki tbs oid sig : verify_ocsp_signature spki tbs oid sig <> Panic.
Proof.
  unfold verify_ocsp_signature, verify_rsa_pkcs1_sha256, verify_ecdsa_p256_sha256,
    verify_ecdsa_p384_sha384, verify_ed25519, spki_raw_bytes. no_panic.
Qed.

Lemma find_eku_total exts : find_eku exts <> Panic.
Proof. induction exts; cbn; no_panic; done. Qed.

Lemma delegated_total iss c : delegated_signer_spki iss c <> Panic.
Proof.
  unfold delegated_signer_spki, cert_to_der, verify_eku_ocsp_signing. no_panic;
    [apply find_eku_total|apply verify_ocsp_signature_total].
Qed.

Lemma determine_signer_spki_total basic issuer : determine_signer_spki basic issuer <> Panic.
Proof.
  unfold determine_signer_spki. no_panic; try apply delegated_total; naive_solver.
Qed.

Lemma check_ocsp_staple_total resp ee issuer now : exists v, check_ocsp_staple resp ee issuer now = Ok v.
Proof.
  unfold check_ocsp_staple. destruct resp; [by eauto|]. repeat (case_match; try (by eauto)).
  all: exfalso; first [by eapply verify_ocsp_signature_total | by eapply determine_signer_spki_total].
Qed.

(** *** Evaluation *)

(** The CertID names this certificate: its serial number, and the digests of its
    issuer's encoded name and public key under the algorithm the CertID names. *)
Definition binds (cid : CertId) (issuer : Certificate) (serial : bytes) : Prop :=
  cid_serial_number cid = serial /\
  exists name_der,
    name_to_der (tbs_subject (tbs_certificate issuer)) = inr name_der /\
    ocsp_digest (hash_algorithm cid) name_der = Some (issuer_name_hash cid) /\
    ocsp_digest (hash_algorithm cid) (subject_public_key (subject_public_key_info (tbs_certificate issuer)))
      = Some (issuer_key_hash cid).

Lemma cert_id_matches_spec cid issuer serial : cert_id_matches cid issuer serial = true <-> binds cid issuer serial.
Proof.
  unfold cert_id_matches, binds. case_bool_decide as Hs; [split; [done|by intros [? _]]|].
  destruct (name_to_der _) as [|name_der]; [split; [done|by intros (_ & ? & ? & _)]|].
  destruct (ocsp_digest _ name_der) as [nh|] eqn:Hn; [|split; [done|intros (_ & ? & [= ->] & ? & _); congruence]].
  destruct (ocsp_digest _ (subject_public_key _)) as [kh|]; [|split; [done|by intros (_ & ? & _ & _ & ?)]].
  rewrite andb_true_iff, !bool_decide_eq_true. naive_solver.
Qed.

#[export] Instance binds_dec cid issuer serial : Decision (binds cid issuer serial).
Proof.
  refine (cast_if (decide (cert_id_matches cid issuer serial = true))); by rewrite <- cert_id_matches_spec.
Defined.

(** The instant [now] is within the validity of the response, both ends included. *)
Definition in_force (sr : SingleResponse) (now : Z) : Prop :=
  (this_update sr <= now)%Z /\ match next_update sr with Some next => (now <= next)%Z | None => True end.

#[export] Instance in_force_dec sr now : Decision (in_force sr now).
Proof. unfold in_force. destruct (next_update sr); apply _. Defined.

Lemma is_current_spec sr now : single_response_is_current sr now = bool_decide (in_force sr now).
Proof.
  apply eq_true_iff_eq. rewrite bool_decide_eq_true. unfold single_response_is_current, in_force.
  destruct (next_update sr); repeat case_match; reflect_tests; naive_solver lia.
Qed.

(** The responses about this certificate. *)
Definition covering (issuer : Certificate) (serial : bytes) (rs : list SingleResponse) : list SingleResponse :=
  filter (fun sr => binds (cert_id sr) issuer serial) rs.

(** The verdict as a decision on the set of covering responses. *)
Definition verdict (now : Z) (rs : list SingleResponse) : OcspCheckResult :=
  if decide (Exists (fun sr => cert_status sr = StatusRevoked) rs) then Revoked
  else if decide (Exists (fun sr => cert_status sr = StatusGood /\ in_force sr now) rs) then Good
  else if decide (Exists (fun sr => cert_status sr = StatusUnknown /\ in_force sr now) rs) then Unknown
  else Unparseable.

(** The loop with its flags: a flag stands for a response already passed. *)
Lemma evaluate_loop_spec issuer serial now rs m u g :
  (u || g = true -> m = true) ->
  evaluate_loop issuer serial now rs m u g =
  let c := covering issuer serial rs in
  if decide (Exists (fun sr => cert_status sr = StatusRevoked) c) then Revoked
  else if decide (g = true \/ Exists (fun sr => cert_status sr = StatusGood /\ in_force sr now) c) then Good
  else if decide (u = true \/ Exists (fun sr => cert_status sr = StatusUnknown /\ in_force sr now) c) then Unknown
  else Unparseable.
Proof.
  unfold covering. revert m u g. induction rs as [|sr rs IH]; intros m u g Hm; cbn [evaluate_loop].
  { cbn. destruct m, u, g; naive_solver. }
  rewrite filter_cons. destruct (cert_id_matches (cert_id sr) issuer serial) eqn:Hc; cbn [negb].
  2: { rewrite IH by done. rewrite (decide_False (P := binds _ _ _)); [done|]. rewrite <- cert_id_matches_spec. congruence. }
  rewrite (decide_True (P := binds _ _ _)) by by apply cert_id_matches_spec.
  rewrite is_current_spec. case_bool_decide; destruct (cert_status sr) eqn:Hs; cbn [negb];
    rewrite ?IH by naive_solver; cbv zeta;
    repeat case_decide; rewrite ?Exists_cons, ?Hs in *; intuition congruence.
Qed.

Lemma Exists_perm {A} (P : A -> Prop) l l' : l ≡ₚ l' -> Exists P l <-> Exists P l'.
Proof. intros Hp. rewrite !Exists_exists. by setoid_rewrite Hp. Qed.

Lemma verdict_perm now l l' : l ≡ₚ l' -> verdict now l = verdict now l'.
Proof. intros Hp. unfold verdict. by rewrite !(decide_ext _ _ _ _ (Exists_perm _ _ _ Hp)). Qed.

Lemma evaluate_eq rs ee issuer now :
  evaluate_responses rs ee issuer now =
  match certificate_from_der ee, issuer with
  | inr c, Some i => verdict now (covering i (serial_number (tbs_certificate c)) rs)
  | _, _ => Unparseable
  end.
Proof.
  unfold evaluate_responses. destruct (certificate_from_der ee), issuer; try done.
  rewrite evaluate_loop_spec by done. unfold verdict. cbv zeta. repeat case_decide; intuition congruence.
Qed.

(** The verdict on a response list is a function of the set of responses
    whose CertID binds to the certificate and its issuer: [Revoked] if any of
    them is revoked, however stale; otherwise [Good] if one is a current [Good];
    otherwise [Unknown] if one is a current [Unknown]; otherwise the staple is
    unusable.  The order in which the responder lists them does not matter. *)
Theorem evaluate_responses_verdict rs ee issuer now :
  evaluate_responses rs ee issuer now =
    match certificate_from_der ee, issuer with
    | inr c, Some i => verdict now (covering i (serial_number (tbs_certificate c)) rs)
    | _, _ => Unparseable
    end /\
  forall rs', rs ≡ₚ rs' -> evaluate_responses rs' ee issuer now = evaluate_responses rs ee issuer now.
Proof.
  split; [apply evaluate_eq|]. intros rs' Hp. rewrite !evaluate_eq.
  destruct (certificate_from_der ee), issuer; try done. apply verdict_perm.
  unfold covering. by rewrite Hp.
Qed.

Lemma verdict_good now rs :
  verdict now rs = Good ->
  (exists sr, sr ∈ rs /\ cert_status sr = StatusGood /\ in_force sr now) /\
  Forall (fun sr => cert_status sr <> StatusRevoked) rs.
Proof.
  unfold verdict. repeat case_decide; try done. intros _. split; [by apply Exists_exists|by apply Forall_Exists_neg].
Qed.

(** *** Authorised signers *)

(** [sig] verifies on [msg] under the key of [spki], by the scheme the OID names. *)
Inductive signed_by (spki msg sig : bytes) : string -> Prop :=
  | signed_rsa raw n e key s :
      spki_ref_raw spki = inr raw -> rsa_public_key_from_der raw = inr (n, e) ->
      rsa_public_key_new (from_be n) (from_be e) = inr key ->
      sig_decode rsa_pkcs1_sha256 sig = inr s -> sig_verify rsa_pkcs1_sha256 key msg s = true ->
      signed_by spki msg sig OID_SHA256_WITH_RSA
  | signed_p256 raw key s :
      spki_ref_raw spki = inr raw -> key_decode p256_sha256 raw = inr key ->
      sig_decode p256_sha256 sig = inr s -> sig_verify p256_sha256 key msg s = true ->
      signed_by spki msg sig OID_ECDSA_WITH_SHA256
  | signed_p384 raw key s :
      spki_ref_raw spki = inr raw -> key_decode p384_sha384 raw = inr key ->
      sig_decode p384_sha384 sig = inr s -> sig_verify p384_sha384 key msg s = true ->
      signed_by spki msg sig OID_ECDSA_WITH_SHA384
  | signed_ed25519 raw key s :
      spki_ref_raw spki = inr raw -> length raw = 32 -> key_decode ed25519 raw = inr key ->
      sig_decode ed25519 sig = inr s -> sig_verify ed25519 key msg s = true ->
      signed_by spki msg sig OID_ED25519.

Lemma verify_ocsp_signature_sound spki tbs oid sig :
  verify_ocsp_signature spki tbs oid sig = Ok tt -> signed_by spki tbs sig oid.
Proof.
  unfold verify_ocsp_signature, verify_rsa_pkcs1_sha256, verify_ecdsa_p256_sha256,
    verify_ecdsa_p384_sha384, verify_ed25519, spki_raw_bytes. intros Hv.
  repeat match type of Hv with
  | (if String.eqb _ ?o then _ else _) = _ => destruct (String.eqb_spec oid o) as [->|_]
  end; try done; inv_ok; repeat (case_match; simplify_eq; inv_ok); reflect_tests; eauto using signed_by.
Qed.

(** The certificate has an extKeyUsage extension, the first of which allows OCSP
    signing. *)
Definition may_sign_ocsp (cert_der : bytes) : Prop :=
  exists cert pre ext post eku,
    xp_from_der cert_der = inr cert /\ xp_extensions cert = pre ++ ext :: post /\
    Forall (fun e => xp_oid e <> EKU_OID) pre /\ xp_oid ext = EKU_OID /\ xp_parsed_eku ext = Some eku /\
    (eku_any eku = true \/ OCSP_SIGNING_OID ∈ eku_other eku \/ eku_ocsp_signing eku = true).

Lemma find_eku_sound exts :
  find_eku exts = Ok tt ->
  exists pre ext post eku, exts = pre ++ ext :: post /\ Forall (fun e => xp_oid e <> EKU_OID) pre /\
    xp_oid ext = EKU_OID /\ xp_parsed_eku ext = Some eku /\
    (eku_any eku = true \/ OCSP_SIGNING_OID ∈ eku_other eku \/ eku_ocsp_signing eku = true).
Proof.
  induction exts as [|ext exts IH]; cbn [find_eku]; [done|]. destruct (String.eqb_spec (xp_oid ext) EKU_OID) as [He|He].
  - destruct (xp_parsed_eku ext) as [eku|] eqn:Hk; [|done]. case_match eqn:Hu; [intros _|done].
    exists [], ext, exts, eku. split_and!; try done. rewrite !orb_true_iff in Hu.
    destruct Hu as [[Hu|(o & Ho & ->%String.eqb_eq)%existsb_exists]|Hu]; eauto using list_elem_of_In.
    right; left. by apply list_elem_of_In.
  - intros (pre & e & post & eku & -> & Hpre & Hrest)%IH. exists (ext :: pre), e, post, eku. split_and!; naive_solver.
Qed.

Lemma verify_eku_sound cert_der : verify_eku_ocsp_signing cert_der = Ok tt -> may_sign_ocsp cert_der.
Proof.
  unfold verify_eku_ocsp_signing, may_sign_ocsp. intros Hv. inv_ok.
  match goal with Hf : find_eku _ = _ |- _ => destruct (find_eku_sound _ Hf) as (? & ? & ? & ? & ?) end. eauto 10.
Qed.

(** The key is vouched for by the issuer: it is the issuer's own, or that of
    the first embedded certificate, which has the OCSP-signing usage and whose
    TBSCertificate the issuer's key signed. *)
Definition authorised_signer (basic : BasicOcspResponse) (issuer : Certificate) (spki : bytes) : Prop :=
  spki_der_from_cert issuer = Some spki \/
  exists signer rest signer_der issuer_spki tbs,
    basic_certs basic = Some (signer :: rest) /\
    certificate_to_der signer = inr signer_der /\ may_sign_ocsp signer_der /\
    spki_der_from_cert issuer = Some issuer_spki /\ tbs_to_der (tbs_certificate signer) = inr tbs /\
    signed_by issuer_spki tbs (cert_signature signer) (signature_algorithm signer) /\
    spki_der_from_cert signer = Some spki.

Lemma determine_signer_authorised basic issuer_der issuer spki :
  parse_issuer issuer_der = Some issuer -> determine_signer_spki basic issuer_der = Ok spki ->
  authorised_signer basic issuer spki.
Proof.
  unfold determine_signer_spki, authorised_signer. intros ->. cbv zeta.
  case_match; [intros H'; inv_ok; by left|].
  destruct (basic_certs basic) as [[|signer rest]|]; cbn [mbind option_bind head];
    try (intros H'; inv_ok; by left).
  unfold delegated_signer_spki, cert_to_der. intros H'. inv_ok.
  repeat match goal with u : unit |- _ => destruct u end.
  right. eauto 15 using verify_eku_sound, verify_ocsp_signature_sound.
Qed.

(** What the staple, its signer and the certificate are when the staple has a
    verdict about the certificate. *)
Definition authentic (resp ee : bytes) (issuer_der : option bytes) (basic : BasicOcspResponse)
  (issuer cert : Certificate) : Prop :=
  exists parsed rb tbs spki,
    ocsp_response_from_der resp = inr parsed /\ response_status parsed = Successful /\
    response_bytes parsed = Some rb /\ basic_from_der rb = inr basic /\
    response_data_to_der (tbs_response_data basic) = inr tbs /\
    parse_issuer issuer_der = Some issuer /\ authorised_signer basic issuer spki /\
    signed_by spki tbs (basic_signature basic) (basic_signature_algorithm basic) /\
    certificate_from_der ee = inr cert.

Lemma staple_authentic resp ee issuer_der now v :
  check_ocsp_staple resp ee issuer_der now = Ok v -> v = Good \/ v = Revoked \/ v = Unknown ->
  exists basic issuer cert, authentic resp ee issuer_der basic issuer cert /\
    verdict now (covering issuer (serial_number (tbs_certificate cert)) (responses (tbs_response_data basic))) = v.
Proof.
  intros Hc Hv. assert (v <> Absent /\ v <> Unparseable /\ forall m, v <> BadSignature m) as (Hna & Hnu & Hnb) by naive_solver.
  revert Hc. unfold check_ocsp_staple. destruct resp as [|b resp]; [congruence|].
  destruct (ocsp_response_from_der _) as [|parsed] eqn:Hparse; [congruence|]. case_bool_decide as Hst; [congruence|].
  destruct (response_bytes parsed) as [rb|] eqn:Hrb; [|congruence].
  destruct (basic_from_der rb) as [|basic] eqn:Hb; [congruence|].
  destruct (response_data_to_der _) as [|tbs] eqn:Htbs; [congruence|].
  destruct (determine_signer_spki basic issuer_der) as [spki|[]|] eqn:Hsp; try congruence.
  destruct (verify_ocsp_signature spki tbs _ _) as [[]| |] eqn:Hsig; try congruence.
  intros [= Hev]. rewrite evaluate_eq in Hev.
  destruct (certificate_from_der ee) as [|cert] eqn:Hee; [congruence|].
  destruct (parse_issuer issuer_der) as [issuer|] eqn:Hi; [|congruence].
  exists basic, issuer, cert. split; [|done]. exists parsed, rb, tbs, spki.
  split_and!; try done; [by eapply determine_signer_authorised|by apply verify_ocsp_signature_sound].
Qed.

(** C7: a staple is [Good] only if it is a successful response whose data is
    signed by a key the issuer vouches for, and among the responses bound to
    this certificate one is a current [Good] and none is revoked. *)
Theorem ocsp_good_sound resp ee issuer_der now :
  check_ocsp_staple resp ee issuer_der now = Ok Good ->
  exists parsed rb basic tbs spki issuer cert,
    ocsp_response_from_der resp = inr parsed /\ response_status parsed = Successful /\
    response_bytes parsed = Some rb /\ basic_from_der rb = inr basic /\
    response_data_to_der (tbs_response_data basic) = inr tbs /\
    parse_issuer issuer_der = Some issuer /\ authorised_signer basic issuer spki /\
    signed_by spki tbs (basic_signature basic) (basic_signature_algorithm basic) /\
    certificate_from_der ee = inr cert /\
    let rs := covering issuer (serial_number (tbs_certificate cert)) (responses (tbs_response_data basic)) in
    (exists sr, sr ∈ rs /\ cert_status sr = StatusGood /\ in_force sr now) /\
    Forall (fun sr => cert_status sr <> StatusRevoked) rs.
Proof.
  intros Hc. destruct (staple_authentic _ _ _ _ _ Hc) as (basic & issuer & cert & (parsed & rb & tbs & spki & Ha) & Hv); [by left|].
  apply verdict_good in Hv as [Hgood Hnone].
  exists parsed, rb, basic, tbs, spki, issuer, cert. destruct_and!. by split_and!.
Qed.

(** The verdict of the staple under which a policy lets the handshake go on. *)
Definition ocsp_passes (policy : OcspClientPolicy) (resp ee : bytes) (ints : list bytes) (now : Z) : Prop :=
  policy = OcspDisabled \/
  exists v, check_ocsp_staple resp ee (resolve_issuer ee ints) now = Ok v /\
    (v = Good \/ (policy = SoftFail /\ (v = Absent \/ v = Unparseable \/ v = Unknown))).

(** The verifier as a layer: it passes the call on unchanged, or refuses and
    leaves the state alone. *)
Lemma ocsp_layer (self : OcspClientVerifier S) st ee ints name resp now :
  let r := verify_server_cert (ocsp_as_verifier self) st ee ints name resp now in
  (ocsp_passes (ocsp_policy self) resp ee ints now /\
   r = verify_server_cert (ocsp_inner self) st ee ints name resp now) \/
  (~ ocsp_passes (ocsp_policy self) resp ee ints now /\ exists e, r = (st, Err e)).
Proof.
  cbv zeta. cbn [ocsp_as_verifier verify_server_cert]. unfold ocsp_verify_server_cert, ocsp_passes.
  case_bool_decide as Hd; [left; auto|].
  destruct (check_ocsp_staple_total resp ee (resolve_issuer ee ints) now) as [v Hv]. rewrite Hv.
  destruct v, (ocsp_policy self); try done; first [left; split; [|done]; naive_solver|right; split; [|by eauto]];
    intros [?|(v' & [= <-] & ?)]; naive_solver.
Qed.

(** C8: the policy.  The verifier never panics by itself.  [Disabled] gives the
    inner verdict without looking at the staple.  Otherwise a revoked
    certificate and a bad signature are rejected under both policies; a [Good]
    staple gives the inner verdict; an absent, unusable or [Unknown] one gives
    the inner verdict under [SoftFail] and an error under [HardRequire]. *)
Theorem ocsp_policy_enforced (self : OcspClientVerifier S) st ee ints name resp now :
  let r := verify_server_cert (ocsp_as_verifier self) st ee ints name resp now in
  let inner := verify_server_cert (ocsp_inner self) st ee ints name resp now in
  (ocsp_policy self = OcspDisabled /\ r = inner) \/
  (ocsp_policy self <> OcspDisabled /\ exists v,
    check_ocsp_staple resp ee (resolve_issuer ee ints) now = Ok v /\
    match v with
    | Revoked => r = (st, Err (InvalidCertificate Core.Revoked))
    | BadSignature _ => exists msg, r = (st, Err (General msg))
    | Good => r = inner
    | _ => (ocsp_policy self = SoftFail /\ r = inner) \/
           (ocsp_policy self = HardRequire /\ exists msg, r = (st, Err (General msg)))
    end).
Proof.
  cbv zeta. cbn [ocsp_as_verifier verify_server_cert]. unfold ocsp_verify_server_cert.
  case_bool_decide as Hd; [by left|]. right. split; [done|].
  destruct (check_ocsp_staple_total resp ee (resolve_issuer ee ints) now) as [v Hv].
  exists v. split; [done|]. rewrite Hv.
  destruct v, (ocsp_policy self); try done; eauto; right; eauto.
Qed.

Lemma determine_signer_no_issuer basic issuer_der :
  parse_issuer issuer_der = None -> basic_certs basic ≫= head = None ->
  exists msg, determine_signer_spki basic issuer_der = Err (ResponseUnparseable msg).
Proof. unfold determine_signer_spki. intros -> ->. eauto. Qed.

(** A peer that sends only a leaf it did not sign itself never has its staple
    believed, and the staple counts as missing rather than forged when it names
    no delegated signer: the verdict is then [Absent] or [Unparseable], so that
    [SoftFail] goes on with the inner verdict. *)
Theorem leaf_only_chain (self : OcspClientVerifier S) st ee name resp now :
  end_entity_is_self_signed ee = false ->
  (forall v, check_ocsp_staple resp ee (resolve_issuer ee []) now = Ok v ->
     v = Absent \/ v = Unparseable \/ exists msg, v = BadSignature msg) /\
  ((forall parsed rb basic, ocsp_response_from_der resp = inr parsed -> response_bytes parsed = Some rb ->
      basic_from_der rb = inr basic -> basic_certs basic ≫= head = None) ->
   ocsp_policy self = SoftFail ->
   verify_server_cert (ocsp_as_verifier self) st ee [] name resp now
   = verify_server_cert (ocsp_inner self) st ee [] name resp now).
Proof.
  intros Hself. unfold resolve_issuer at 1. rewrite Hself. split.
  - intros v. unfold check_ocsp_staple. destruct resp; [naive_solver|].
    repeat (case_match; try naive_solver). all: rewrite evaluate_eq; cbn [parse_issuer mbind option_bind].
    all: destruct (certificate_from_der ee); naive_solver.
  - intros Hcerts Hpol. cbn [ocsp_as_verifier verify_server_cert]. unfold ocsp_verify_server_cert.
    rewrite Hpol, bool_decide_eq_false_2 by done. unfold resolve_issuer. rewrite Hself.
    unfold check_ocsp_staple. destruct resp; [done|].
    destruct (ocsp_response_from_der _) as [|parsed] eqn:Hparse; [done|]. case_bool_decide; [done|].
    destruct (response_bytes parsed) as [rb|] eqn:Hrb; [|done].
    destruct (basic_from_der rb) as [|basic] eqn:Hb; [done|].
    destruct (response_data_to_der _); [done|].
    destruct (determine_signer_no_issuer basic None) as [msg ->]; eauto.
Qed.
End OcspProperties.

Module OcspWitness.
Import Toy ToyX509.

(** A response is a zero byte and the signature over two fixed bytes, about the
    certificate with serial number 3 that subject 2 with key 4 issued. *)
Definition sr : SingleResponse := {|
  cert_id := {| hash_algorithm := OID_SHA256; issuer_name_hash := Toy.sha256 [Byte.x02];
                issuer_key_hash := Toy.sha256 [Byte.x04]; cid_serial_number := [Byte.x03] |};
  cert_status := StatusGood; this_update := 10; next_update := Some 100%Z |}.

#[local] Instance ocsp_der : OcspDer := {
  ocsp_response_from_der d :=
    match d with
    | Byte.x00 :: rb => inr {| response_status := Successful; response_bytes := Some rb |}
    | _ => inl "not a response"
    end;
  basic_from_der rb :=
    inr {| tbs_response_data := {| responder_id := ByName [Byte.x02]; responses := [sr]; rd_rest := [] |};
           basic_signature_algorithm := OID_ECDSA_WITH_SHA256; basic_signature := rb; basic_certs := None |};
  response_data_to_der _ := inr [Byte.x01; Byte.x02];
}.

Definition issuer : bytes := [Byte.x30; Byte.x01; Byte.x02; Byte.x09; Byte.x04].
Definition leaf : bytes := [Byte.x30; Byte.x02; Byte.x05; Byte.x03; Byte.x06].
Definition staple : bytes := [Byte.x00; Byte.x04; Byte.x02].

Lemma ocsp_good_sound_witness :
  check_ocsp_staple staple leaf (Some issuer) 50 = Ok Good /\
  exists spki, signed_by spki [Byte.x01; Byte.x02] [Byte.x04; Byte.x02] OID_ECDSA_WITH_SHA256.
Proof.
  assert (check_ocsp_staple staple leaf (Some issuer) 50 = Ok Good) as Hg by (vm_compute; reflexivity).
  split; [exact Hg|].
  destruct (ocsp_good_sound staple leaf (Some issuer) 50 Hg)
    as (parsed & rb & basic & tbs & spki & iss & cert & Hp & _ & Hrb & Hb & Ht & _ & _ & Hv & _).
  injection Hp as <-. injection Hrb as <-. injection Hb as <-. injection Ht as <-.
  exists spki. exact Hv.
Defined.

Definition verifier : OcspClientVerifier unit := ocsp_verifier_new (accept_all unit) SoftFail.

Lemma leaf_only_chain_witness :
  verify_server_cert (ocsp_as_verifier verifier) tt leaf [] "h" staple 50 = (tt, Ok tt).
Proof.
  apply (leaf_only_chain verifier tt leaf "h" staple 50); [reflexivity| |reflexivity].
  intros parsed rb basic _ _ Hb. injection Hb as <-. reflexivity.
Defined.

(** The clock past [nextUpdate], and a tampered signature. *)
Example staple_runs :
  check_ocsp_staple staple leaf (Some issuer) 101 = Ok Unparseable /\
  check_ocsp_staple [Byte.x00; Byte.x04; Byte.x03] leaf (Some issuer) 50
    = Ok (BadSignature "OCSP response signature verification failed") /\
  check_ocsp_staple staple issuer (Some issuer) 50 = Ok Unparseable.
Proof. vm_compute. done. Qed.
End OcspWitness.
