(* ===== verification/OcspTests.v ===== *)
(** * OcspTests: the unit tests of verifier/ocsp_client.rs

    The tests build responses with the x509_ocsp crate and certificates with
    oxitls-rcgen: [OcspBuild] has the constructors they call, with their documented
    behaviour as [OcspBuildLaws], and the DER of the generated certificates is an
    argument.  [ocsp_tests_pass] says that the tests pass whatever certificates are
    generated, as long as the self-signed ones name themselves as issuer and the
    leaf does not. *)

From S2P Require Import Prelude Core Crypto Verifier Ocsp.

(** [CertId::from_issuer] by the OID of its digest, [SerialNumber::new], and
    [OcspResponse::successful(..)?.to_der()]. *)
Class OcspBuild := {
  cert_id_from_issuer : string -> Certificate -> bytes -> string + CertId;
  serial_number_new : bytes -> string + bytes;
  successful_to_der : BasicOcspResponse -> string + bytes;
}.

(** A CertID is about the certificate it is made for, where the issuer's name can
    be encoded; a serial number keeps its value; a response that was encoded is
    read back. *)
Class OcspBuildLaws `{Sha256} `{Digests} `{X509} `{OcspDer} `{OcspBuild} := {
  from_issuer_binds : forall oid issuer serial name,
    oid = OID_SHA1 \/ oid = OID_SHA256 ->
    name_to_der (tbs_subject (tbs_certificate issuer)) = inr name ->
    exists cid, cert_id_from_issuer oid issuer serial = inr cid /\ binds cid issuer serial;
  serial_number_value : forall bs, bs <> [] ->
    exists s, serial_number_new bs = inr s /\ from_be s = from_be bs;
  successful_read : forall basic der, successful_to_der basic = inr der ->
    der <> [] /\ exists rb,
      ocsp_response_from_der der = inr {| response_status := Successful; response_bytes := Some rb |} /\
      basic_from_der rb = inr basic;
}.

(** ** Helpers of the tests *)

Definition now_2025_05 : Z := 1748304000.

(** [DateTime::new(y, m, d, 0, 0, 0)] in seconds since the epoch, in the Gregorian
    calendar: years begin in March, so that the leap day is the last. *)
Definition gtime (y m d : Z) : Z :=
  (let y := if m <=? 2 then y - 1 else y in
   let era := y / 400 in
   let yoe := y - era * 400 in
   let doy := (153 * (if 2 <? m then m - 3 else m + 9) + 2) / 5 + d - 1 in
   let doe := yoe * 365 + yoe / 4 - yoe / 100 + doy in
   (era * 146097 + doe - 719468) * 86400)%Z.

Example gtime_now : gtime 2025 5 27 = now_2025_05 /\ gtime 1970 1 1 = 0%Z /\ gtime 2000 3 1 = 951868800%Z.
Proof. vm_compute. done. Qed.

(** [if let Some(last) = wrong_bytes.last_mut() { *last ^= 0x01; }] *)
Definition flip_last (bs : bytes) : bytes :=
  match last bs with
  | Some b => take (length bs - 1) bs ++ [u8 (Z.lxor (val b) 1)]
  | None => bs
  end.

Definition is_good (r : OcspCheckResult) : bool := match r with Good => true | _ => false end.
Definition is_unparseable (r : OcspCheckResult) : bool := match r with Unparseable => true | _ => false end.

Section OcspTests.
Context `{Sha256} `{Digests} `{X509} `{SigPrims} `{OcspDer} `{OcspBuild}.

(** [generate_self_signed_p256], [generate_ca] and [generate_ca_signed_leaf] of
    oxitls-rcgen, by the DER of their certificates. *)
Context (generate_self_signed : R TlsError bytes) (generate_ca : R TlsError bytes)
  (generate_ca_signed_leaf : bytes -> R TlsError bytes).

Definition self_signed : R Empty_set (bytes * Certificate) :=
  der ← expect generate_self_signed;
  cert ← expect (of_sum (certificate_from_der der));
  Ok (der, cert).

Definition good_single_with (oid : string) (issuer : Certificate) (serial : bytes) (this : Z) (next : option Z)
  : R Empty_set SingleResponse :=
  cert_id ← expect (of_sum (cert_id_from_issuer oid issuer serial));
  Ok {| cert_id := cert_id; cert_status := StatusGood; this_update := this; next_update := next |}.

Definition good_single : Certificate -> bytes -> Z -> option Z -> R Empty_set SingleResponse := good_single_with OID_SHA256.
Definition good_single_sha1 : Certificate -> bytes -> Z -> option Z -> R Empty_set SingleResponse := good_single_with OID_SHA1.

(** ** The tests *)

Definition good_response_matching_certid_accepted : Test :=
  '(ee_der, issuer) ← self_signed;
  let serial := serial_number (tbs_certificate issuer) in
  sr ← good_single issuer serial (gtime 2025 1 1) (Some (gtime 2026 1 1));
  let result := evaluate_responses [sr] ee_der (Some issuer) now_2025_05 in
  assert (is_good result).

Definition good_response_wrong_serial_rejected : Test :=
  '(ee_der, issuer) ← self_signed;
  let wrong_bytes := flip_last (serial_number (tbs_certificate issuer)) in
  wrong_serial ← expect (of_sum (serial_number_new wrong_bytes));
  sr ← good_single issuer wrong_serial (gtime 2025 1 1) (Some (gtime 2026 1 1));
  let result := evaluate_responses [sr] ee_der (Some issuer) now_2025_05 in
  assert (is_unparseable result).

Definition good_response_sha1_certid_accepted : Test :=
  '(ee_der, issuer) ← self_signed;
  let serial := serial_number (tbs_certificate issuer) in
  sr ← good_single_sha1 issuer serial (gtime 2025 1 1) (Some (gtime 2026 1 1));
  let result := evaluate_responses [sr] ee_der (Some issuer) now_2025_05 in
  assert (is_good result).

Definition good_response_sha1_certid_wrong_serial_rejected : Test :=
  '(ee_der, issuer) ← self_signed;
  let wrong_bytes := flip_last (serial_number (tbs_certificate issuer)) in
  wrong_serial ← expect (of_sum (serial_number_new wrong_bytes));
  sr ← good_single_sha1 issuer wrong_serial (gtime 2025 1 1) (Some (gtime 2026 1 1));
  let result := evaluate_responses [sr] ee_der (Some issuer) now_2025_05 in
  assert (is_unparseable result).

Definition expired_good_response_rejected : Test :=
  '(ee_der, issuer) ← self_signed;
  let serial := serial_number (tbs_certificate issuer) in
  sr ← good_single issuer serial (gtime 2024 1 1) (Some (gtime 2025 3 1));
  let result := evaluate_responses [sr] ee_der (Some issuer) now_2025_05 in
  assert (negb (is_good result)).

Definition future_dated_response_rejected : Test :=
  '(ee_der, issuer) ← self_signed;
  let serial := serial_number (tbs_certificate issuer) in
  sr ← good_single issuer serial (gtime 2026 1 1) (Some (gtime 2027 1 1));
  let result := evaluate_responses [sr] ee_der (Some issuer) now_2025_05 in
  assert (negb (is_good result)).

Definition missing_issuer_cannot_match : Test :=
  '(ee_der, issuer) ← self_signed;
  let serial := serial_number (tbs_certificate issuer) in
  sr ← good_single issuer serial (gtime 2025 1 1) (Some (gtime 2026 1 1));
  let result := evaluate_responses [sr] ee_der None now_2025_05 in
  assert (is_unparseable result).

Definition self_signed_cert_detected_as_self_issuer : Test :=
  '(ee_der, _) ← self_signed;
  assert (end_entity_is_self_signed ee_der).

Definition ca_signed_leaf_not_detected_as_self_issuer : Test :=
  ca ← expect generate_ca;
  leaf ← expect (generate_ca_signed_leaf ca);
  _ ← assert (negb (end_entity_is_self_signed leaf));
  assert (end_entity_is_self_signed ca).

Definition garbage_cert_not_self_signed : Test :=
  _ ← assert (negb (end_entity_is_self_signed (bstr "not a certificate")));
  assert (negb (end_entity_is_self_signed [])).

(** The response of two tests, made for [issuer]; version, time of production and
    extensions are [rest]. *)
Definition unsigned_response (rest : bytes) (issuer : Certificate) : R Empty_set BasicOcspResponse :=
  let serial := serial_number (tbs_certificate issuer) in
  sr ← good_single issuer serial (gtime 2025 1 1) (Some (gtime 2026 1 1));
  Ok {| tbs_response_data := {| responder_id := ByName (tbs_subject (tbs_certificate issuer));
                                responses := [sr]; rd_rest := rest |};
        basic_signature_algorithm := signature_algorithm issuer;
        basic_signature := replicate 8 Byte.x00; basic_certs := None |}.

Definition no_issuer_no_delegated_signer_is_unparseable_not_badsignature (rest : bytes) : Test :=
  '(_, issuer) ← self_signed;
  basic ← unsigned_response rest issuer;
  let result := determine_signer_spki basic None in
  assert (match result with Err (ResponseUnparseable _) => true | _ => false end).

Definition AlwaysOk : ServerCertVerifier unit := {|
  verify_server_cert st _ _ _ _ _ := (st, Ok tt);
  verify_tls12_signature _ _ _ := Ok tt;
  verify_tls13_signature _ _ _ := Ok tt;
  supported_verify_schemes := [0x0807%Z];
  requires_raw_public_keys := false;
|}.

Definition well_formed_staple_with_bad_signature (rest : bytes) (issuer : Certificate) : R Empty_set bytes :=
  basic ← unsigned_response rest issuer;
  expect (of_sum (successful_to_der basic)).

(** The common part of the last two tests, by the policy. *)
Definition leaf_only_result (rest : bytes) (policy : OcspClientPolicy) : R Empty_set (R RustlsError unit) :=
  ca ← expect generate_ca;
  ca_cert ← expect (of_sum (certificate_from_der ca));
  leaf ← expect (generate_ca_signed_leaf ca);
  staple ← well_formed_staple_with_bad_signature rest ca_cert;
  let verifier := ocsp_verifier_new AlwaysOk policy in
  Ok (verify_server_cert (ocsp_as_verifier verifier) tt leaf [] "leaf.example" staple now_2025_05).2.

Definition softfail_leaf_only_chain_does_not_hard_fail (rest : bytes) : Test :=
  result ← leaf_only_result rest SoftFail;
  assert (is_ok result).

Definition hardrequire_leaf_only_chain_fails_as_unparseable_not_badsignature (rest : bytes) : Test :=
  result ← leaf_only_result rest HardRequire;
  match result with
  | Err (General msg) => assert (str_contains "absent or unparseable" msg)
  | _ => Panic
  end.
End OcspTests.

(** ** They pass *)

Lemma flip_last_length bs : length (flip_last bs) = length bs.
Proof.
  unfold flip_last. destruct bs as [|b bs _] using rev_ind; [done|].
  rewrite last_snoc, !length_app, length_take, length_app. cbn. lia.
Qed.

Lemma flip_last_nonempty bs : bs <> [] -> flip_last bs <> [].
Proof. intros Hne He. apply Hne, length_zero_iff_nil. by rewrite <- flip_last_length, He. Qed.

Lemma flip_last_neq bs : bs <> [] -> flip_last bs <> bs.
Proof.
  unfold flip_last. destruct bs as [|b bs _] using rev_ind; [done|]. intros _.
  rewrite last_snoc, length_app, Nat.add_sub, take_app_length. intros [_ [= He]]%app_inj_2; [|done].
  revert He. destruct b; vm_compute; discriminate.
Qed.

Section Pass.
Context `{OcspBuildLaws} `{SigPrims}.
Context (generate_self_signed generate_ca : R TlsError bytes) (generate_ca_signed_leaf : bytes -> R TlsError bytes).

(** A certificate that names itself as its issuer, with a name that can be encoded
    and a serial number. *)
Record own_issuer (der : bytes) (cert : Certificate) : Prop := {
  oi_parses : certificate_from_der der = inr cert;
  oi_self : tbs_subject (tbs_certificate cert) = tbs_issuer (tbs_certificate cert);
  oi_name : exists name, name_to_der (tbs_subject (tbs_certificate cert)) = inr name;
  oi_serial : serial_number (tbs_certificate cert) <> [];
}.

Lemma own_issuer_self_signed der cert : own_issuer der cert -> end_entity_is_self_signed der = true.
Proof. intros [Hp Hs _ _]. unfold end_entity_is_self_signed. rewrite Hp. by apply bool_decide_eq_true. Qed.

(** [good_single] and what its response is evaluated to. *)
Lemma good_single_verdict oid der cert serial this next :
  oid = OID_SHA1 \/ oid = OID_SHA256 -> own_issuer der cert ->
  exists sr, good_single_with oid cert serial this (Some next) = Ok sr /\
    evaluate_responses [sr] der (Some cert) now_2025_05 =
    if bool_decide (serial = serial_number (tbs_certificate cert)) && (this <=? now_2025_05)%Z && (now_2025_05 <=? next)%Z
    then Good else Unparseable.
Proof.
  intros Hoid [Hp _ [name Hn] _]. unfold good_single_with.
  destruct (from_issuer_binds oid cert serial name Hoid Hn) as (cid & -> & Hb). cbn [of_sum expect mbind R_bind].
  eexists. split; [done|]. unfold evaluate_responses. rewrite Hp. cbn [evaluate_loop cert_id cert_status].
  case_bool_decide as Hs; cbn [andb].
  - subst serial. rewrite (proj2 (cert_id_matches_spec _ _ _) Hb). cbn [negb].
    unfold single_response_is_current. cbn [this_update next_update].
    destruct (Z.ltb_spec now_2025_05 this), (Z.leb_spec this now_2025_05),
      (Z.ltb_spec next now_2025_05), (Z.leb_spec now_2025_05 next); try lia; done.
  - assert (cert_id_matches cid cert (serial_number (tbs_certificate cert)) = false) as ->; [|done].
    destruct (cert_id_matches _ _ _) eqn:Hm; [|done]. apply cert_id_matches_spec in Hm as [Hm _]. destruct Hb as [Hb _]. congruence.
Qed.

(** A flipped serial number is another one. *)
Lemma wrong_serial_differs serial s :
  serial <> [] -> serial_number_new (flip_last serial) = inr s -> s <> serial.
Proof.
  intros Hne Hs ->. destruct (serial_number_value _ (flip_last_nonempty _ Hne)) as (s' & Hs' & Hv). assert (s' = serial) as -> by congruence.
  apply (flip_last_neq serial Hne). apply from_be_inj; [apply flip_last_length|done].
Qed.

Lemma unsigned_response_ok rest der cert :
  own_issuer der cert -> exists basic, unsigned_response rest cert = Ok basic /\ basic_certs basic = None.
Proof.
  intros Ho. unfold unsigned_response, good_single.
  destruct (good_single_verdict OID_SHA256 der cert (serial_number (tbs_certificate cert)) (gtime 2025 1 1)
    (gtime 2026 1 1)) as (sr & -> & _); [by right|done|]. by eexists.
Qed.

(** A staple without signer certificates says nothing when the issuer is unknown. *)
Lemma unsigned_staple_unparseable basic der ee :
  basic_certs basic = None -> successful_to_der basic = inr der ->
  check_ocsp_staple der ee None now_2025_05 = Ok Unparseable.
Proof.
  intros Hc Hd. destruct (successful_read basic der Hd) as (Hne & rb & Hr & Hb).
  unfold check_ocsp_staple. destruct der as [|b der]; [done|].
  rewrite Hr. cbn [response_status response_bytes]. rewrite bool_decide_false by (by intros []). rewrite Hb.
  destruct (response_data_to_der _); [done|]. unfold determine_signer_spki. cbn. by rewrite Hc.
Qed.

Lemma leaf_only_verdict rest policy ca ca_cert leaf staple :
  generate_ca = Ok ca -> own_issuer ca ca_cert -> well_formed_staple_with_bad_signature rest ca_cert = Ok staple -> generate_ca_signed_leaf ca = Ok leaf ->
  end_entity_is_self_signed leaf = false -> policy <> OcspDisabled ->
  leaf_only_result generate_ca generate_ca_signed_leaf rest policy =
  Ok (match policy with HardRequire => Err (General "OCSP staple required but absent or unparseable") | _ => Ok tt end).
Proof.
  intros -> Ho Hst Hl Hs Hpol. unfold leaf_only_result. cbn [expect mbind R_bind]. rewrite (oi_parses _ _ Ho), Hl.
  cbn [of_sum expect mbind R_bind]. rewrite Hst. cbn [mbind R_bind].
  unfold well_formed_staple_with_bad_signature in Hst.
  destruct (unsigned_response_ok rest _ _ Ho) as (basic & Hb & Hc). rewrite Hb in Hst. cbn [mbind R_bind] in Hst.
  destruct (successful_to_der basic) as [|der] eqn:Hd; [done|]. injection Hst as ->.
  cbn [ocsp_as_verifier verify_server_cert]. unfold ocsp_verify_server_cert, resolve_issuer. cbn [ocsp_policy ocsp_verifier_new].
  rewrite bool_decide_false, Hs, (unsigned_staple_unparseable _ _ _ Hc Hd) by done. by destruct policy.
Qed.

(** The tests of ocsp_client.rs pass: with a generated certificate that is its own
    issuer, a generated root whose response can be encoded and a leaf of it that is
    not, and a parser that takes neither the text nor nothing for a certificate. *)
Theorem ocsp_tests_pass rest ee issuer ca ca_cert leaf staple e1 e2 :
  generate_self_signed = Ok ee -> own_issuer ee issuer ->
  generate_ca = Ok ca -> own_issuer ca ca_cert ->
  well_formed_staple_with_bad_signature rest ca_cert = Ok staple ->
  generate_ca_signed_leaf ca = Ok leaf -> end_entity_is_self_signed leaf = false ->
  certificate_from_der (bstr "not a certificate") = inl e1 -> certificate_from_der [] = inl e2 ->
  Forall (fun t => t = Ok tt)
    [good_response_matching_certid_accepted generate_self_signed; good_response_wrong_serial_rejected generate_self_signed;
     good_response_sha1_certid_accepted generate_self_signed; good_response_sha1_certid_wrong_serial_rejected generate_self_signed;
     expired_good_response_rejected generate_self_signed; future_dated_response_rejected generate_self_signed;
     missing_issuer_cannot_match generate_self_signed; self_signed_cert_detected_as_self_issuer generate_self_signed;
     ca_signed_leaf_not_detected_as_self_issuer generate_ca generate_ca_signed_leaf; garbage_cert_not_self_signed;
     no_issuer_no_delegated_signer_is_unparseable_not_badsignature generate_self_signed rest;
     softfail_leaf_only_chain_does_not_hard_fail generate_ca generate_ca_signed_leaf rest;
     hardrequire_leaf_only_chain_fails_as_unparseable_not_badsignature generate_ca generate_ca_signed_leaf rest].
Proof.
  intros Hg Ho Hca Hoca Hst Hleaf Hls Hg1 Hg2.
  assert (self_signed generate_self_signed = Ok (ee, issuer)) as Hself.
  { unfold self_signed. rewrite Hg. cbn [expect mbind R_bind]. by rewrite (oi_parses _ _ Ho). }
  unfold good_response_matching_certid_accepted, good_response_wrong_serial_rejected, good_response_sha1_certid_accepted,
    good_response_sha1_certid_wrong_serial_rejected, expired_good_response_rejected, future_dated_response_rejected,
    missing_issuer_cannot_match, self_signed_cert_detected_as_self_issuer, good_single, good_single_sha1,
    no_issuer_no_delegated_signer_is_unparseable_not_badsignature, softfail_leaf_only_chain_does_not_hard_fail,
    hardrequire_leaf_only_chain_fails_as_unparseable_not_badsignature.
  rewrite Hself, !(leaf_only_verdict rest _ ca ca_cert leaf staple) by done. cbn [mbind R_bind].
  set (serial := serial_number (tbs_certificate issuer)).
  destruct (serial_number_value _ (flip_last_nonempty serial (oi_serial _ _ Ho))) as (wrong & Hw & _). rewrite Hw. cbn [of_sum expect mbind R_bind].
  pose proof (wrong_serial_differs serial wrong (oi_serial _ _ Ho) Hw) as Hne.
  assert (forall oid s this next (k : OcspCheckResult -> bool), oid = OID_SHA1 \/ oid = OID_SHA256 ->
    k (if bool_decide (s = serial) && (this <=? now_2025_05)%Z && (now_2025_05 <=? next)%Z then Good else Unparseable) = true ->
    (sr ← good_single_with oid issuer s this (Some next);
     assert (k (evaluate_responses [sr] ee (Some issuer) now_2025_05))) = Ok (E:=Empty_set) tt) as Hv.
  { intros oid s this next k Hoid Hk. destruct (good_single_verdict oid ee issuer s this next Hoid Ho) as (sr & -> & Hsr).
    cbn [mbind R_bind]. rewrite Hsr. fold serial. by rewrite Hk. }
  repeat apply Forall_cons_2; [..|apply Forall_nil_2].
  1,3: apply (Hv _ _ _ _ is_good); [by auto|]; by rewrite bool_decide_true.
  1,2: apply (Hv _ _ _ _ is_unparseable); [by auto|]; by rewrite bool_decide_false.
  1,2: apply (Hv _ _ _ _ (fun r => negb (is_good r))); [by auto|]; by rewrite bool_decide_true.
  - destruct (good_single_verdict OID_SHA256 ee issuer serial (gtime 2025 1 1) (gtime 2026 1 1)) as (sr & -> & _);
      [by auto|done|]. cbn [mbind R_bind]. unfold evaluate_responses. by rewrite (oi_parses _ _ Ho).
  - by rewrite (own_issuer_self_signed _ _ Ho).
  - unfold ca_signed_leaf_not_detected_as_self_issuer. rewrite Hca. cbn [expect mbind R_bind]. rewrite Hleaf.
    cbn [expect mbind R_bind]. by rewrite Hls, (own_issuer_self_signed _ _ Hoca).
  - unfold garbage_cert_not_self_signed, end_entity_is_self_signed. by rewrite Hg1, Hg2.
  - destruct (unsigned_response_ok rest _ _ Ho) as (basic & -> & Hc). cbn [mbind R_bind].
    unfold determine_signer_spki. cbn. by rewrite Hc.
  - done.
  - done.
Qed.
End Pass.

(** The laws and the hypotheses together, with the toy certificates. *)
Module OcspTestsExample.
Import Toy ToyX509.

Definition cert : bytes := [Byte.x30; Byte.x01; Byte.x01; Byte.x09; Byte.x04].
Definition leaf : bytes := [Byte.x30; Byte.x01; Byte.x05; Byte.x03; Byte.x06].

Definition the_issuer : Certificate :=
  {| tbs_certificate :=
       {| serial_number := [Byte.x09]; tbs_issuer := [Byte.x01]; tbs_subject := [Byte.x01];
          subject_public_key_info := {| spki_algorithm := "1.3.101.112"; subject_public_key := [Byte.x04] |};
          tbs_extensions := Some [{| extn_id := EXT_OID; extn_critical := false; extn_value := [] |}];
          tbs_rest := [] |};
     signature_algorithm := "1.3.101.112"; cert_signature := [Byte.x01; u8 5] |}.

Definition the_response : BasicOcspResponse :=
  {| tbs_response_data := {| responder_id := ByName [Byte.x01];
       responses := [{| cert_id := {| hash_algorithm := OID_SHA256; issuer_name_hash := Toy.sha256 [Byte.x01];
                                      issuer_key_hash := Toy.sha256 [Byte.x04]; cid_serial_number := [Byte.x09] |};
                        cert_status := StatusGood; this_update := gtime 2025 1 1; next_update := Some (gtime 2026 1 1) |}];
       rd_rest := [] |};
     basic_signature_algorithm := "1.3.101.112"; basic_signature := replicate 8 Byte.x00; basic_certs := None |}.

#[local] Instance ext_dec : EqDecision Extension.
Proof. solve_decision. Defined.
#[local] Instance spki_dec : EqDecision Spki.
Proof. solve_decision. Defined.
#[local] Instance tbs_dec : EqDecision TbsCertificate.
Proof. solve_decision. Defined.
#[local] Instance certificate_dec : EqDecision Certificate.
Proof. solve_decision. Defined.
#[local] Instance cert_id_dec : EqDecision CertId.
Proof. solve_decision. Defined.
#[local] Instance single_dec : EqDecision SingleResponse.
Proof. solve_decision. Defined.
#[local] Instance responder_dec : EqDecision ResponderId.
Proof. solve_decision. Defined.
#[local] Instance data_dec : EqDecision ResponseData.
Proof. solve_decision. Defined.
#[local] Instance basic_dec : EqDecision BasicOcspResponse.
Proof. solve_decision. Defined.

#[local] Instance der : OcspDer := {
  ocsp_response_from_der d := inr {| response_status := Successful; response_bytes := Some d |};
  basic_from_der _ := inr the_response;
  response_data_to_der _ := inr [Byte.x01];
}.

#[local] Instance constructors : OcspBuild := {
  cert_id_from_issuer oid issuer serial :=
    match name_to_der (tbs_subject (tbs_certificate issuer)) with
    | inr name =>
        match ocsp_digest oid name, ocsp_digest oid (subject_public_key (subject_public_key_info (tbs_certificate issuer))) with
        | Some nh, Some kh => inr {| hash_algorithm := oid; issuer_name_hash := nh; issuer_key_hash := kh;
                                     cid_serial_number := serial |}
        | _, _ => inl "unknown digest"
        end
    | inl e => inl e
    end;
  serial_number_new bs := inr bs;
  successful_to_der b := if decide (b = the_response) then inr [Byte.x01] else inl "not encoded";
}.

#[local] Instance constructors_laws : OcspBuildLaws.
Proof.
  split.
  - intros oid issuer serial name Hoid Hn. cbn [cert_id_from_issuer constructors]. rewrite Hn.
    destruct Hoid as [->| ->]; cbn; (eexists; split; [reflexivity|]); (split; [done|]); eexists; done.
  - intros bs _. by exists bs.
  - intros basic d. cbn [successful_to_der constructors]. case_decide as He; [|done]. intros [= <-].
    split; [done|]. exists [Byte.x01]. by rewrite He.
Qed.

Lemma the_issuer_own : own_issuer cert the_issuer.
Proof. split; [reflexivity|reflexivity|by eexists|done]. Qed.

Example ocsp_tests_run :
  softfail_leaf_only_chain_does_not_hard_fail (Ok cert) (fun _ => Ok leaf) [] = Ok tt /\
  good_response_wrong_serial_rejected (Ok cert) = Ok tt.
Proof.
  pose proof (ocsp_tests_pass (Ok cert) (Ok cert) (fun _ => Ok leaf) [] cert the_issuer cert the_issuer leaf [Byte.x01]
    "not a certificate" "not a certificate" eq_refl the_issuer_own eq_refl the_issuer_own eq_refl eq_refl eq_refl eq_refl eq_refl)
    as Hall. split; [by apply (proj1 (Forall_lookup _ _) Hall 11)|by apply (proj1 (Forall_lookup _ _) Hall 1)].
Qed.
End OcspTestsExample.
