(* ===== verification/FuzzTargets.v ===== *)
(** * FuzzTargets: the fuzz targets, for every input

    crates/oxitls-adapter-rustls-rustcrypto/fuzz/fuzz_targets: each target hands the
    fuzzer's bytes to a parser or verifier and asserts that it does not panic.
    [fuzz_targets_survive] states the assertion for every sequence of inputs, and
    what the OCSP target can observe.  client_config_parser.rs only calls
    rustls-pemfile and has no part here. *)

From S2P Require Import Prelude Core Crypto Verifier Sct Ocsp.

(** [let _ = f(..);] *)
Definition discard {E A} (r : R E A) : Test := match r with Panic => Panic | _ => Ok tt end.

(** sct_list_parser.rs *)
Definition sct_list_parser (data : bytes) : Test := discard (parse_sct_list data).

Section FuzzTargets.
Context `{Sha256} `{Digests} `{X509} `{SigPrims} `{OcspDer}.

(** [rest.split_at(mid)], which panics beyond the end. *)
Definition slice_split_at (l : bytes) (mid : nat) : R Empty_set (bytes * bytes) :=
  if mid <=? length l then Ok (take mid l, drop mid l) else Panic.

(** precert_hash_parser.rs *)
Definition precert_hash_parser (data : bytes) : Test :=
  match data with
  | [] => Ok tt
  | split_byte :: rest =>
      let split := Nat.min (Z.to_nat (val split_byte)) (length rest) in
      '(leaf_der, issuer_der) ← slice_split_at rest split;
      discard (precert_tbs_and_issuer_hash leaf_der issuer_der)
  end.

(** ** ocsp_staple_parser.rs *)

Definition AlwaysOk : ServerCertVerifier unit := {|
  verify_server_cert st _ _ _ _ _ := (st, Ok tt);
  verify_tls12_signature _ _ _ := Ok tt;
  verify_tls13_signature _ _ _ := Ok tt;
  supported_verify_schemes := [0x0807%Z];
  requires_raw_public_keys := false;
|}.

(** [generate_ca] and [generate_ca_signed_leaf] of oxitls-rcgen, by the DER of their
    certificates. *)
Context (generate_ca : R TlsError bytes) (generate_ca_signed_leaf : bytes -> R TlsError bytes).

(** The [OnceLock] before and after, and the pair. *)
Definition leaf_and_issuer (cell : option (bytes * bytes)) : option (bytes * bytes) * R Empty_set (bytes * bytes) :=
  match cell with
  | Some certs => (cell, Ok certs)
  | None =>
      match (ca ← expect generate_ca; leaf ← expect (generate_ca_signed_leaf ca); Ok (leaf, ca)) with
      | Ok certs => (Some certs, Ok certs)
      | r => (None, r)
      end
  end.

(** The call on one input, given the pair. *)
Definition ocsp_staple_call (certs : bytes * bytes) (data : bytes) : R RustlsError unit :=
  let '(leaf, issuer) := certs in
  let intermediates := [issuer] in
  let now := 1748304000%Z in
  let verifier := ocsp_verifier_new AlwaysOk SoftFail in
  (verify_server_cert (ocsp_as_verifier verifier) tt leaf intermediates "ocsp-fuzz.example" data now).2.

Definition ocsp_staple_parser (cell : option (bytes * bytes)) (data : bytes) : option (bytes * bytes) * Test :=
  let '(cell, certs) := leaf_and_issuer cell in
  (cell, certs ← certs; discard (ocsp_staple_call certs data)).

(** The fuzzer's loop over a target with state: it stops at the first panic. *)
Fixpoint fuzz {St} (target : St -> bytes -> St * Test) (st : St) (inputs : list bytes) : Test :=
  match inputs with
  | [] => Ok tt
  | data :: inputs => let '(st, r) := target st data in _ ← r; fuzz target st inputs
  end.

(** ** No input makes a target panic *)

Lemma discard_ok {E A} (r : R E A) : r <> Panic -> discard r = Ok tt.
Proof. by destruct r. Qed.

Lemma ocsp_call_no_panic certs data : ocsp_staple_call certs data <> Panic.
Proof.
  destruct certs as [leaf issuer]. unfold ocsp_staple_call.
  destruct (ocsp_layer (ocsp_verifier_new AlwaysOk SoftFail) tt leaf [issuer] "ocsp-fuzz.example" data 1748304000)
    as [[_ ->]|[_ [e ->]]]; done.
Qed.

Lemma fuzz_ocsp_ok cell ca leaf inputs :
  generate_ca = Ok ca -> generate_ca_signed_leaf ca = Ok leaf -> fuzz ocsp_staple_parser cell inputs = Ok tt.
Proof.
  intros Hca Hleaf. revert cell. induction inputs as [|data inputs IH]; intros cell; [done|].
  cbn [fuzz]. unfold ocsp_staple_parser at 1, leaf_and_issuer.
  destruct cell as [certs|]; [|rewrite Hca; cbn [expect mbind R_bind]; rewrite Hleaf];
    cbn [expect mbind R_bind]; rewrite discard_ok by apply ocsp_call_no_panic; apply IH.
Qed.

(** C13: the fuzz targets hold for every input.  The SCT list parser, the
    reconstruction of precertificates and, in any sequence of runs over a
    generated CA and leaf, the verification of stapled OCSP responses never panic
    on bytes an attacker chooses.  The OCSP target sees success, a signature error,
    or a revocation; and a revocation only if the bytes are a response that a key
    the issuer vouches for has signed and that revokes this certificate. *)
Theorem fuzz_targets_survive ca leaf data inputs :
  generate_ca = Ok ca -> generate_ca_signed_leaf ca = Ok leaf ->
  sct_list_parser data = Ok tt /\ precert_hash_parser data = Ok tt /\
  fuzz ocsp_staple_parser None inputs = Ok tt /\
  match ocsp_staple_call (leaf, ca) data with
  | Ok _ => True
  | Err (General msg) => exists e, msg = "OCSP response cryptographic signature invalid: " +:+ e
  | Err e => e = InvalidCertificate Core.Revoked /\
      exists basic issuer cert sr, authentic data leaf (Some ca) basic issuer cert /\
        sr ∈ covering issuer (serial_number (tbs_certificate cert)) (responses (tbs_response_data basic)) /\
        cert_status sr = StatusRevoked
  | Panic => False
  end.
Proof.
  intros Hca Hleaf. split_and!.
  - apply discard_ok, parse_sct_list_no_panic.
  - unfold precert_hash_parser, slice_split_at. destruct data as [|b rest]; [done|].
    rewrite (proj2 (Nat.leb_le _ _)) by lia. apply discard_ok, precert_total.
  - by eapply fuzz_ocsp_ok.
  - unfold ocsp_staple_call. cbn [ocsp_as_verifier verify_server_cert]. unfold ocsp_verify_server_cert.
    cbn [ocsp_policy ocsp_verifier_new resolve_issuer]. rewrite bool_decide_false by done.
    destruct (check_ocsp_staple_total data leaf (Some ca) 1748304000) as [v Hv]. rewrite Hv.
    destruct v; cbn; eauto. split; [done|].
    destruct (staple_authentic _ _ _ _ _ Hv) as (basic & issuer & cert & Ha & Hr); [by auto|].
    exists basic, issuer, cert. revert Hr. unfold verdict.
    case_decide as He; [|repeat case_decide; done]. intros _. apply Exists_exists in He as (sr & Hin & Hs). eauto.
Qed.
End FuzzTargets.

Module FuzzTargetsWitness.
Import Toy ToyX509 OcspWitness.
#[local] Existing Instance ocsp_der.

(** The toy staple of OcspWitness, a forged one and noise, over a CA and its leaf. *)
Lemma fuzz_targets_survive_witness :
  fuzz (ocsp_staple_parser (Ok issuer) (fun _ => Ok leaf)) None [staple; [Byte.x00; Byte.x04; Byte.x03]; [Byte.x07]] = Ok tt.
Proof.
  apply (fuzz_targets_survive (Ok issuer) (fun _ => Ok leaf) issuer leaf [] [staple; [Byte.x00; Byte.x04; Byte.x03]; [Byte.x07]]);
    reflexivity.
Defined.
End FuzzTargetsWitness.
