(* ===== verification/Hpke.v ===== *)
(** * Hpke: RFC 9180 base mode

    crates/oxitls-adapter-rustls-rustcrypto/src/hpke: the labeled KDF (kdf.rs),
    the two Diffie-Hellman KEMs (kem.rs), the AEAD suites (aead.rs), the suites
    with their sealer and opener contexts (mod.rs). *)

From stdpp Require Import pretty.
From S2P Require Import Prelude Core Crypto.

(** ** Library primitives *)

(** HKDF-SHA256 ([hkdf]): [from_prk] gives an expander, [expand] fills a buffer of
    the requested length or fails. *)
Class Hkdf := {
  hkdf_extract : bytes -> bytes -> bytes;
  hkdf_from_prk : bytes -> option bytes;
  hkdf_expand : bytes -> bytes -> Z -> option bytes;
}.

(** The documented lengths: a PRK is a hash, [from_prk] wants one of at least that
    length, [expand] gives at most 255 of them. *)
Class HkdfLaws `{Hkdf} := {
  hkdf_extract_length : forall salt ikm, length (hkdf_extract salt ikm) = 32;
  hkdf_from_prk_ok : forall prk, 32 <= length prk -> is_Some (hkdf_from_prk prk);
  hkdf_from_prk_short : forall prk, length prk < 32 -> hkdf_from_prk prk = None;
  hkdf_expand_ok : forall x info l, (0 <= l <= 8160)%Z -> is_Some (hkdf_expand x info l);
  hkdf_expand_length : forall x info l okm,
    hkdf_expand x info l = Some okm -> Z.of_nat (length okm) = l;
}.

(** X25519 ([x25519_dalek]): public key of a secret, shared secret, and whether
    it is contributory. *)
Class X25519 := {
  x25519_public : bytes -> bytes;
  x25519_dh : bytes -> bytes -> bytes;
  was_contributory : bytes -> bool;
}.

Class X25519Laws `{X25519} := {
  x25519_public_length : forall sk, length (x25519_public sk) = 32;
  x25519_dh_length : forall a b, length (x25519_dh a b) = 32;
  x25519_dh_comm : forall a b, x25519_dh a (x25519_public b) = x25519_dh b (x25519_public a);
}.

(** P-256 ([p256]): points and scalars are abstract values. *)
Class P256 := {
  p256_point : Type;
  p256_scalar : Type;
  p256_from_sec1_bytes : bytes -> option p256_point;
  p256_to_uncompressed : p256_point -> bytes;
  p256_secret_from_slice : bytes -> option p256_scalar;
  p256_secret_to_bytes : p256_scalar -> bytes;
  p256_public : p256_scalar -> p256_point;
  p256_dh : p256_scalar -> p256_point -> bytes;
}.

Class P256Laws `{P256} := {
  p256_sec1 : forall p, p256_from_sec1_bytes (p256_to_uncompressed p) = Some p;
  p256_sec1_length : forall p, length (p256_to_uncompressed p) = 65;
  p256_secret : forall s, p256_secret_from_slice (p256_secret_to_bytes s) = Some s;
  p256_dh_comm : forall a b, p256_dh a (p256_public b) = p256_dh b (p256_public a);
}.

(** The answers of [getrandom::fill] to the 32-byte requests of one call. *)
Abbreviation Draws := (nat -> string + bytes).

Definition draws_ok (draws : Draws) : Prop :=
  forall i bs, draws i = inr bs -> length bs = 32.

(** ** kdf.rs *)

Definition HPKE_V1 : bytes := bstr "HPKE-v1".

Definition i2osp2 (n : Z) : bytes := be_bytes 2 n.

Record HpkeKeyMaterial := { km_key : bytes; km_base_nonce : bytes; km_exporter_secret : bytes }.

Section Kdf.
Context `{Hkdf}.

(** The four [input_ikm] calls feed the concatenation; [out.copy_from_slice]
    wants the PRK to be 32 bytes. *)
Definition labeled_extract (suite_id salt label ikm : bytes) : R RustlsError bytes :=
  let prk := hkdf_extract salt (HPKE_V1 ++ suite_id ++ label ++ ikm) in
  copy_from_slice (replicate 32 Byte.x00) prk.

Definition labeled_expand_checked (suite_id prk label info : bytes) (l : Z) : R RustlsError bytes :=
  let MAX_L := (255 * 32)%Z in
  if (MAX_L <? l)%Z
  then Err (General ("HPKE Export: requested length " +:+ pretty l +:+ " exceeds maximum "
                     +:+ pretty MAX_L +:+ " bytes"))
  else if (U16_MAX <? l)%Z then Err (General "HPKE Export: length does not fit in u16") else
  hkdf ← ok_or (General "HPKE Export: invalid PRK (must be at least 32 bytes)") (hkdf_from_prk prk);
  let l_bytes := i2osp2 l in
  ok_or (General "HPKE Export: HKDF expand failed")
    (hkdf_expand hkdf (l_bytes ++ HPKE_V1 ++ suite_id ++ label ++ info) l).

Definition labeled_expand (suite_id prk label info : bytes) (l : Z) : R RustlsError bytes :=
  labeled_expand_checked suite_id prk label info l.

Definition key_schedule_base (suite_id shared_secret info : bytes) (nk : Z)
  : R RustlsError HpkeKeyMaterial :=
  psk_id_hash ← labeled_extract suite_id [] (bstr "psk_id_hash") [];
  info_hash ← labeled_extract suite_id [] (bstr "info_hash") info;
  let ks_context := [Byte.x00] ++ psk_id_hash ++ info_hash in
  secret ← labeled_extract suite_id shared_secret (bstr "secret") [];
  key ← labeled_expand suite_id secret (bstr "key") ks_context nk;
  base_nonce_vec ← labeled_expand suite_id secret (bstr "base_nonce") ks_context 12;
  base_nonce ← copy_from_slice (replicate 12 Byte.x00) base_nonce_vec;
  exp_vec ← labeled_expand suite_id secret (bstr "exp") ks_context 32;
  exporter_secret ← copy_from_slice (replicate 32 Byte.x00) exp_vec;
  Ok {| km_key := key; km_base_nonce := base_nonce; km_exporter_secret := exporter_secret |}.
End Kdf.

(** ** kem.rs *)

(** The [DhKem] trait. *)
Record DhKem := {
  KEM_ID : Z;
  NENC : nat;
  NPK : nat;
  NSK : nat;
  NSECRET : Z;
  kem_generate : Draws -> R RustlsError (bytes * bytes);
  kem_encap : Draws -> bytes -> R RustlsError (bytes * bytes);
  kem_decap : bytes -> bytes -> R RustlsError bytes;
}.

Definition kem_suite_id (kem_id : Z) : bytes := bstr "KEM" ++ be_bytes 2 kem_id.

(** [<[u8; n]>::try_from(bs)] with an error message. *)
Definition try_into (n : nat) (msg : string) (bs : bytes) : R RustlsError bytes :=
  if length bs =? n then Ok bs else Err (General msg).

Section Kem.
Context `{Hkdf} `{X25519} `{P256}.

(** [extract_and_expand::<K>], given the id and the secret length of [K]. *)
Definition extract_and_expand (kem_id nsecret : Z) (dh kem_context : bytes) : R RustlsError bytes :=
  let suite_id := kem_suite_id kem_id in
  eae_prk ← labeled_extract suite_id [] (bstr "eae_prk") dh;
  out ← labeled_expand suite_id eae_prk (bstr "shared_secret") kem_context nsecret;
  if length out <? 32
  then Err (General "DHKEM ExtractAndExpand: shared secret shorter than 32 bytes")
  else slice out 0 32.

Definition x25519_generate (draws : Draws) : R RustlsError (bytes * bytes) :=
  buf ← map_err (fun e => General ("X25519 keygen: getrandom failed: " +:+ e)) (of_sum (draws 0));
  Ok (x25519_public buf, buf).

Definition x25519_encap (draws : Draws) (pk_r : bytes) : R RustlsError (bytes * bytes) :=
  pk_r_bytes ← try_into 32 "X25519 Encap: recipient pk must be 32 bytes" pk_r;
  sk_em ← map_err (fun e => General ("X25519 Encap: getrandom failed: " +:+ e)) (of_sum (draws 0));
  let pk_em := x25519_public sk_em in
  let dh := x25519_dh sk_em pk_r_bytes in
  if negb (was_contributory dh)
  then Err (General "X25519 Encap: non-contributory DH (small-order recipient key)") else
  let kem_context := pk_em ++ pk_r_bytes in
  shared_secret ← extract_and_expand 0x0020 32 dh kem_context;
  Ok (shared_secret, pk_em).

Definition x25519_decap (sk_r enc : bytes) : R RustlsError bytes :=
  enc_bytes ← try_into 32 "X25519 Decap: enc must be 32 bytes" enc;
  sk_r ← try_into 32 "X25519 Decap: secret key must be 32 bytes" sk_r;
  let pk_r := x25519_public sk_r in
  let dh := x25519_dh sk_r enc_bytes in
  if negb (was_contributory dh)
  then Err (General "X25519 Decap: non-contributory DH (small-order sender key)") else
  extract_and_expand 0x0020 32 dh (enc_bytes ++ pk_r).

Definition KemX25519 : DhKem := {|
  KEM_ID := 0x0020; NENC := 32; NPK := 32; NSK := 32; NSECRET := 32;
  kem_generate := x25519_generate; kem_encap := x25519_encap; kem_decap := x25519_decap |}.

(** The rejection loop from its [i]-th draw on; out of fuel is [Panic]. *)
Fixpoint p256_rejection_sample (fuel : nat) (draws : Draws) (i : nat) : R RustlsError p256_scalar :=
  match fuel with
  | O => Panic
  | S fuel =>
      buf ← map_err (fun e => General ("P-256 keygen: getrandom failed: " +:+ e)) (of_sum (draws i));
      match p256_secret_from_slice buf with
      | Some sk => Ok sk
      | None => p256_rejection_sample fuel draws (S i)
      end
  end.

Definition p256_generate (fuel : nat) (draws : Draws) : R RustlsError (bytes * bytes) :=
  sk ← p256_rejection_sample fuel draws 0;
  let pk := p256_public sk in
  Ok (p256_to_uncompressed pk, p256_secret_to_bytes sk).

Definition p256_encap (fuel : nat) (draws : Draws) (pk_r : bytes) : R RustlsError (bytes * bytes) :=
  pk_r ← ok_or (General "P-256 Encap: invalid recipient public key") (p256_from_sec1_bytes pk_r);
  sk_em ← p256_rejection_sample fuel draws 0;
  let pk_em := p256_public sk_em in
  let dh := p256_dh sk_em pk_r in
  let enc := p256_to_uncompressed pk_em in
  let pk_r_bytes := p256_to_uncompressed pk_r in
  shared_secret ← extract_and_expand 0x0010 32 dh (enc ++ pk_r_bytes);
  Ok (shared_secret, enc).

Definition p256_decap (sk_r enc : bytes) : R RustlsError bytes :=
  pk_em ← ok_or (General "P-256 Decap: invalid enc (sender ephemeral public key)")
            (p256_from_sec1_bytes enc);
  sk_r ← ok_or (General "P-256 Decap: invalid recipient secret key") (p256_secret_from_slice sk_r);
  let dh := p256_dh sk_r pk_em in
  let pk_r_bytes := p256_to_uncompressed (p256_public sk_r) in
  extract_and_expand 0x0010 32 dh (enc ++ pk_r_bytes).

Definition KemP256 (fuel : nat) : DhKem := {|
  KEM_ID := 0x0010; NENC := 65; NPK := 65; NSK := 32; NSECRET := 32;
  kem_generate := p256_generate fuel; kem_encap := p256_encap fuel; kem_decap := p256_decap |}.
End Kem.

(** ** aead.rs *)

(** The [AeadSuite] trait. *)
Record AeadSuite := {
  AEAD_ID : Z;
  NK : Z;
  NN : nat;
  NT : nat;
  suite_seal : bytes -> bytes -> bytes -> bytes -> R RustlsError bytes;
  suite_open : bytes -> bytes -> bytes -> bytes -> R RustlsError bytes;
}.

Definition AeadAes128Gcm (aes128gcm : Aead) : AeadSuite := {|
  AEAD_ID := 0x0001; NK := 16; NN := 12; NT := 16;
  suite_seal key nonce aad pt :=
    cipher ← try_into 16 "HPKE AES-128-GCM: invalid key length" key;
    ok_or (General "HPKE AES-128-GCM: encryption failed") (attached_encrypt aes128gcm cipher nonce aad pt);
  suite_open key nonce aad ct :=
    cipher ← try_into 16 "HPKE AES-128-GCM: invalid key length" key;
    ok_or (General "HPKE AES-128-GCM: decryption failed (bad tag or data)")
      (attached_decrypt aes128gcm cipher nonce aad ct);
|}.

Definition AeadChacha20 (chacha20poly1305 : Aead) : AeadSuite := {|
  AEAD_ID := 0x0003; NK := 32; NN := 12; NT := 16;
  suite_seal key nonce aad pt :=
    cipher ← try_into 32 "HPKE ChaCha20Poly1305: invalid key length" key;
    ok_or (General "HPKE ChaCha20Poly1305: encryption failed")
      (attached_encrypt chacha20poly1305 cipher nonce aad pt);
  suite_open key nonce aad ct :=
    cipher ← try_into 32 "HPKE ChaCha20Poly1305: invalid key length" key;
    ok_or (General "HPKE ChaCha20Poly1305: decryption failed (bad tag or data)")
      (attached_decrypt chacha20poly1305 cipher nonce aad ct);
|}.

(** ** mod.rs *)

Definition hpke_suite_id (K : DhKem) (A : AeadSuite) : bytes :=
  bstr "HPKE" ++ be_bytes 2 (KEM_ID K) ++ be_bytes 2 0x0001 ++ be_bytes 2 (AEAD_ID A).

(** The [for i in 0..8] loop over the 12-byte array. *)
Definition compute_nonce (base_nonce : bytes) (seq : Z) : bytes :=
  let seq_bytes := be_bytes 8 seq in
  foldl (fun nonce i => alter (fun b => xor_byte b (nth i seq_bytes Byte.x00)) (4 + i) nonce)
    base_nonce (List.seq 0 8).

(** [HpkeSealerCtx] and [HpkeOpenerCtx] have the same fields. *)
Record HpkeCtx := {
  ctx_key : bytes;
  ctx_base_nonce : bytes;
  ctx_seq : Z;
  ctx_suite_id : bytes;
  ctx_exporter_secret : bytes;
}.

Definition set_seq (c : HpkeCtx) (n : Z) : HpkeCtx :=
  {| ctx_key := ctx_key c; ctx_base_nonce := ctx_base_nonce c; ctx_seq := n;
     ctx_suite_id := ctx_suite_id c; ctx_exporter_secret := ctx_exporter_secret c |}.

Inductive HpkeKem := DHKEM_P256_HKDF_SHA256 | DHKEM_X25519_HKDF_SHA256.
Inductive HpkeAead := AES_128_GCM | CHACHA20_POLY_1305.
Inductive HpkeKdf := HKDF_SHA256.

(** [u16::from] of these enums: the IANA code points. *)
Definition kem_to_u16 (k : HpkeKem) : Z :=
  match k with DHKEM_P256_HKDF_SHA256 => 0x0010 | DHKEM_X25519_HKDF_SHA256 => 0x0020 end.
Definition aead_to_u16 (a : HpkeAead) : Z :=
  match a with AES_128_GCM => 0x0001 | CHACHA20_POLY_1305 => 0x0003 end.
Definition kdf_to_u16 (k : HpkeKdf) : Z := match k with HKDF_SHA256 => 0x0001 end.

Record HpkeSuite := { hs_kem : HpkeKem; hs_kdf_id : HpkeKdf; hs_aead_id : HpkeAead }.

Section Hpke.
Context `{Hkdf} (K : DhKem) (A : AeadSuite).

(** The context that both setups build from a key schedule. *)
Definition new_ctx (km : HpkeKeyMaterial) : HpkeCtx :=
  {| ctx_key := km_key km; ctx_base_nonce := km_base_nonce km; ctx_seq := 0;
     ctx_suite_id := hpke_suite_id K A; ctx_exporter_secret := km_exporter_secret km |}.

Definition setup_sender (draws : Draws) (info pub_key : bytes) : R RustlsError (bytes * HpkeCtx) :=
  let suite_id := hpke_suite_id K A in
  '(shared_secret, enc) ← kem_encap K draws pub_key;
  km ← key_schedule_base suite_id shared_secret info (NK A);
  Ok (enc, new_ctx km).

Definition setup_receiver (enc info secret_key : bytes) : R RustlsError HpkeCtx :=
  let suite_id := hpke_suite_id K A in
  shared_secret ← kem_decap K secret_key enc;
  km ← key_schedule_base suite_id shared_secret info (NK A);
  Ok (new_ctx km).

Definition hpke_seal (draws : Draws) (info aad plaintext pub_key : bytes) : R RustlsError (bytes * bytes) :=
  let suite_id := hpke_suite_id K A in
  '(shared_secret, enc) ← kem_encap K draws pub_key;
  km ← key_schedule_base suite_id shared_secret info (NK A);
  let nonce := compute_nonce (km_base_nonce km) 0 in
  ct ← suite_seal A (km_key km) nonce aad plaintext;
  Ok (enc, ct).

Definition hpke_open (enc info aad ciphertext secret_key : bytes) : R RustlsError bytes :=
  let suite_id := hpke_suite_id K A in
  shared_secret ← kem_decap K secret_key enc;
  km ← key_schedule_base suite_id shared_secret info (NK A);
  let nonce := compute_nonce (km_base_nonce km) 0 in
  suite_open A (km_key km) nonce aad ciphertext.

Definition generate_key_pair (draws : Draws) : R RustlsError (bytes * bytes) := kem_generate K draws.

Definition suite : R Empty_set HpkeSuite :=
  kem ← (if (KEM_ID K =? 0x0020)%Z then Ok DHKEM_X25519_HKDF_SHA256
         else if (KEM_ID K =? 0x0010)%Z then Ok DHKEM_P256_HKDF_SHA256
         else Panic);
  aead ← (if (AEAD_ID A =? 0x0001)%Z then Ok AES_128_GCM
          else if (AEAD_ID A =? 0x0003)%Z then Ok CHACHA20_POLY_1305
          else Panic);
  Ok {| hs_kem := kem; hs_kdf_id := HKDF_SHA256; hs_aead_id := aead |}.

Definition SEQ_LIMIT_ERROR : RustlsError := General "HPKE: message sequence number limit reached".

(** [seal] and [open] of a context, with the context they leave. *)
Definition sealer_seal (self : HpkeCtx) (aad plaintext : bytes) : HpkeCtx * R RustlsError bytes :=
  let nonce := compute_nonce (ctx_base_nonce self) (ctx_seq self) in
  match suite_seal A (ctx_key self) nonce aad plaintext with
  | Ok ct =>
      match checked_add U64_MAX (ctx_seq self) 1 with
      | Some seq => (set_seq self seq, Ok ct)
      | None => (self, Err SEQ_LIMIT_ERROR)
      end
  | e => (self, e)
  end.

Definition opener_open (self : HpkeCtx) (aad ciphertext : bytes) : HpkeCtx * R RustlsError bytes :=
  let nonce := compute_nonce (ctx_base_nonce self) (ctx_seq self) in
  match suite_open A (ctx_key self) nonce aad ciphertext with
  | Ok pt =>
      match checked_add U64_MAX (ctx_seq self) 1 with
      | Some seq => (set_seq self seq, Ok pt)
      | None => (self, Err SEQ_LIMIT_ERROR)
      end
  | e => (self, e)
  end.

Definition export (self : HpkeCtx) (exporter_context : bytes) (len : Z) : R RustlsError bytes :=
  labeled_expand_checked (ctx_suite_id self) (ctx_exporter_secret self) (bstr "sec") exporter_context len.

(** [export] of [HpkeOpenerCtx]. *)
Definition opener_export (self : HpkeCtx) (exporter_context : bytes) (len : Z) : R RustlsError bytes :=
  labeled_expand_checked (ctx_suite_id self) (ctx_exporter_secret self) (bstr "sec") exporter_context len.

(** The methods of rustls' trait: [Box<dyn HpkeSealer>] and [Box<dyn HpkeOpener>]
    hold the contexts. *)
Definition setup_sealer (draws : Draws) (info pub_key : bytes) : R RustlsError (bytes * HpkeCtx) :=
  '(enc, ctx) ← setup_sender draws info pub_key; Ok (enc, ctx).

Definition setup_opener (enc info secret_key : bytes) : R RustlsError HpkeCtx :=
  ctx ← setup_receiver enc info secret_key; Ok ctx.
End Hpke.

(** [pure_hpke_suites]. *)
Definition pure_hpke_suites `{Hkdf} `{X25519} `{P256} (fuel : nat) (aes128gcm chacha20 : Aead)
  : list (DhKem * AeadSuite) :=
  [(KemX25519, AeadAes128Gcm aes128gcm); (KemX25519, AeadChacha20 chacha20);
   (KemP256 fuel, AeadAes128Gcm aes128gcm); (KemP256 fuel, AeadChacha20 chacha20)].

(** ** The key schedule *)

Section KdfProperties.
Context `{HkdfLaws}.

Lemma labeled_extract_ok suite_id salt label ikm :
  exists prk, labeled_extract suite_id salt label ikm = Ok prk /\ length prk = 32.
Proof.
  unfold labeled_extract, copy_from_slice. rewrite hkdf_extract_length, length_replicate. cbn.
  eexists. split; [done|]. apply hkdf_extract_length.
Qed.

Lemma labeled_expand_ok suite_id prk label info l :
  32 <= length prk -> (0 <= l <= 8160)%Z ->
  exists okm, labeled_expand_checked suite_id prk label info l = Ok okm /\ Z.of_nat (length okm) = l.
Proof.
  intros Hp Hl. unfold labeled_expand_checked, U16_MAX. cbv zeta.
  rewrite !(proj2 (Z.ltb_ge _ _)) by lia.
  destruct (hkdf_from_prk_ok prk Hp) as [x ->]. cbn [ok_or mbind R_bind].
  set (i := i2osp2 l ++ _). destruct (hkdf_expand_ok x i l Hl) as [okm Ho]. rewrite Ho.
  exists okm. split; [done|]. by eapply hkdf_expand_length.
Qed.

(** [labeled_expand_checked] returns exactly [l] bytes when the PRK has at
    least 32 bytes and [l] is at most 255 * 32, and a [General] error in every
    other case; it never panics. *)
Theorem labeled_expand_checked_exact suite_id prk label info l :
  (0 <= l)%Z ->
  if bool_decide (32 <= length prk) && (l <=? 8160)%Z
  then exists okm, labeled_expand_checked suite_id prk label info l = Ok okm /\ Z.of_nat (length okm) = l
  else exists msg, labeled_expand_checked suite_id prk label info l = Err (General msg).
Proof.
  intros Hl. destruct (Z.leb_spec l 8160); [case_bool_decide|]; rewrite ?andb_true_r, ?andb_false_r.
  - by apply labeled_expand_ok.
  - unfold labeled_expand_checked, U16_MAX. cbv zeta. rewrite !(proj2 (Z.ltb_ge _ _)) by lia.
    rewrite hkdf_from_prk_short by lia. cbn. eauto.
  - unfold labeled_expand_checked. cbv zeta. rewrite (proj2 (Z.ltb_lt _ _)) by lia. eauto.
Qed.

Lemma copy_from_slice_ok {E} n (src : bytes) :
  length src = n -> copy_from_slice (E:=E) (replicate n Byte.x00) src = Ok src.
Proof. intros <-. unfold copy_from_slice. by rewrite length_replicate, Nat.eqb_refl. Qed.

Definition km_ok (nk : Z) (km : HpkeKeyMaterial) : Prop :=
  Z.of_nat (length (km_key km)) = nk /\ length (km_base_nonce km) = 12 /\
  length (km_exporter_secret km) = 32.

Lemma key_schedule_base_ok suite_id ss info nk :
  (0 <= nk <= 8160)%Z -> exists km, key_schedule_base suite_id ss info nk = Ok km /\ km_ok nk km.
Proof.
  intros Hn. unfold key_schedule_base, labeled_expand.
  destruct (labeled_extract_ok suite_id [] (bstr "psk_id_hash") []) as (p & -> & _). cbn [mbind R_bind].
  destruct (labeled_extract_ok suite_id [] (bstr "info_hash") info) as (i & -> & _). cbn [mbind R_bind].
  destruct (labeled_extract_ok suite_id ss (bstr "secret") []) as (s & -> & Hs). cbn [mbind R_bind].
  set (c := [Byte.x00] ++ p ++ i). assert (32 <= length s) as Hs' by lia.
  destruct (labeled_expand_ok suite_id s (bstr "key") c nk Hs' Hn) as (k & -> & Hk). cbn [mbind R_bind].
  destruct (labeled_expand_ok suite_id s (bstr "base_nonce") c 12 Hs') as (n & -> & Hn'); [lia|].
  cbn [mbind R_bind]. rewrite copy_from_slice_ok by lia. cbn [mbind R_bind].
  destruct (labeled_expand_ok suite_id s (bstr "exp") c 32 Hs') as (e & -> & He); [lia|].
  cbn [mbind R_bind]. rewrite copy_from_slice_ok by lia. cbn [mbind R_bind].
  eexists. split; [done|]. split_and!; cbn; lia.
Qed.
End KdfProperties.

(** ** What a KEM and an AEAD suite promise *)

Class KemLaws (K : DhKem) := {
  kem_correct : forall d d' pk sk ss enc,
    draws_ok d -> kem_generate K d = Ok (pk, sk) -> kem_encap K d' pk = Ok (ss, enc) ->
    kem_decap K sk enc = Ok ss;
  kem_enc_length : forall d pk ss enc, kem_encap K d pk = Ok (ss, enc) -> length enc = NENC K;
  kem_pk_length : forall d pk sk, kem_generate K d = Ok (pk, sk) -> length pk = NPK K;
}.

Class AeadSuiteLaws (A : AeadSuite) := {
  suite_nk : (0 <= NK A <= 8160)%Z;
  suite_correct : forall k n aad pt ct, suite_seal A k n aad pt = Ok ct -> suite_open A k n aad ct = Ok pt;
  suite_ct_length : forall k n aad pt ct, suite_seal A k n aad pt = Ok ct -> length ct = length pt + NT A;
  suite_no_panic : forall k n aad m, suite_seal A k n aad m <> Panic /\ suite_open A k n aad m <> Panic;
}.

Lemma try_into_Ok n msg bs r : try_into n msg bs = Ok r <-> r = bs /\ length bs = n.
Proof. unfold try_into. destruct (Nat.eqb_spec (length bs) n); naive_solver. Qed.

Lemma try_into_ok n msg bs : length bs = n -> try_into n msg bs = Ok bs.
Proof. intros. by apply try_into_Ok. Qed.

#[export] Instance AeadAes128Gcm_laws (A : Aead) `{!AeadLaws A} : AeadSuiteLaws (AeadAes128Gcm A).
Proof.
  split; cbn; [lia|..].
  - intros k n aad pt ct H. inv_ok. rename select (try_into _ _ _ = _) into Ht. rewrite Ht.
    cbn [mbind R_bind]. rename select (attached_encrypt _ _ _ _ _ = _) into He.
    by destruct (attached_roundtrip _ _ _ _ _ _ He) as [-> _].
  - intros k n aad pt ct H. inv_ok. rename select (attached_encrypt _ _ _ _ _ = _) into He.
    apply (attached_roundtrip _ _ _ _ _ _ He).
  - intros. unfold try_into. split; no_panic.
Qed.

#[export] Instance AeadChacha20_laws (A : Aead) `{!AeadLaws A} : AeadSuiteLaws (AeadChacha20 A).
Proof.
  split; cbn; [lia|..].
  - intros k n aad pt ct H. inv_ok. rename select (try_into _ _ _ = _) into Ht. rewrite Ht.
    cbn [mbind R_bind]. rename select (attached_encrypt _ _ _ _ _ = _) into He.
    by destruct (attached_roundtrip _ _ _ _ _ _ He) as [-> _].
  - intros k n aad pt ct H. inv_ok. rename select (attached_encrypt _ _ _ _ _ = _) into He.
    apply (attached_roundtrip _ _ _ _ _ _ He).
  - intros. unfold try_into. split; no_panic.
Qed.

Section KemProperties.
Context `{HkdfLaws} `{X25519Laws} `{P256Laws}.

#[export] Instance KemX25519_laws : KemLaws KemX25519.
Proof.
  split; cbn.
  - intros d d' pk sk ss enc Hd Hg He. unfold x25519_generate in Hg. inv_ok.
    simplify_eq. rename select (d 0 = _) into Hs. apply Hd in Hs.
    unfold x25519_encap in He. inv_ok. case_test; [done|]. inv_ok. simplify_eq.
    rename select (try_into _ _ _ = _) into Ht. apply try_into_Ok in Ht as [-> Hpk]. unfold x25519_decap.
    rewrite !try_into_ok by (done || apply x25519_public_length). cbn [mbind R_bind].
    rewrite x25519_dh_comm. by case_test.
  - intros d pk ss enc He. unfold x25519_encap in He. inv_ok. case_test; [done|]. inv_ok.
    simplify_eq. apply x25519_public_length.
  - intros d pk sk Hg. unfold x25519_generate in Hg. inv_ok. simplify_eq. apply x25519_public_length.
Qed.

#[export] Instance KemP256_laws fuel : KemLaws (KemP256 fuel).
Proof.
  split; cbn.
  - intros d d' pk sk ss enc Hd Hg He. unfold p256_generate in Hg. inv_ok. simplify_eq.
    unfold p256_encap in He. inv_ok. simplify_eq. unfold p256_decap.
    rename select (p256_from_sec1_bytes _ = _) into Hp. rewrite p256_sec1 in Hp. simplify_eq.
    rewrite p256_sec1, p256_secret. cbn [ok_or mbind R_bind]. by rewrite p256_dh_comm.
  - intros d pk ss enc He. unfold p256_encap in He. inv_ok. simplify_eq. apply p256_sec1_length.
  - intros d pk sk Hg. unfold p256_generate in Hg. inv_ok. simplify_eq. apply p256_sec1_length.
Qed.

(** Rejection sampling returns the first draw that is a scalar, after any
    number of draws that are not, without failing or looping on. *)
Theorem p256_rejection_sample_first draws n buf sk fuel :
  (forall i, i < n -> exists b, draws i = inr b /\ p256_secret_from_slice b = None) ->
  draws n = inr buf -> p256_secret_from_slice buf = Some sk -> n < fuel ->
  p256_rejection_sample fuel draws 0 = Ok sk.
Proof.
  intros Hrej Hn Hsk Hf.
  enough (forall k i, i + k = n -> k < fuel - i -> p256_rejection_sample (fuel - i) draws i = Ok sk) as Hk.
  { rewrite <- (Nat.sub_0_r fuel). apply (Hk n 0); lia. }
  induction k as [|k IH]; intros i Hi Hlt; destruct (fuel - i) as [|f] eqn:Ef; try lia;
    cbn [p256_rejection_sample].
  - replace i with n by lia. by rewrite Hn; cbn; rewrite Hsk.
  - destruct (Hrej i) as (b & -> & Hb); [lia|]. cbn. rewrite Hb.
    replace f with (fuel - S i) by lia. apply IH; lia.
Qed.
End KemProperties.
