(* ===== verification/HpkeSession.v ===== *)
(** * HpkeSession: HPKE contexts and suites

    The nonces of hpke/mod.rs, the sealer and opener contexts over many messages,
    one-shot seal and open, and the four suites, against what a KEM and an AEAD
    suite promise in Hpke. *)

From S2P Require Import Prelude Core Crypto Hpke.

(** ** Nonces *)

(** ComputeNonce of RFC 9180, section 5.2: [base_nonce XOR I2OSP(seq, Nn)] with
    [Nn = 12], which the code computes on the last eight bytes only. *)
Definition rfc9180_nonce (base : bytes) (seq : Z) : bytes := zip_with xor_byte base (be_bytes 12 seq).

Lemma zip_xor_inj base a b :
  length a = length base -> length b = length base ->
  zip_with xor_byte base a = zip_with xor_byte base b -> a = b.
Proof.
  revert a b. induction base as [|x base IH]; intros [|y a] [|z b] Ha Hb Hz; cbn in *; try lia; [done|].
  injection Hz as Hx Hz. apply xor_byte_inj in Hx as ->. f_equal. apply IH; [lia|lia|done].
Qed.

Lemma be_bytes_12_u64 seq : in_range U64_MAX seq -> be_bytes 12 seq = replicate 4 Byte.x00 ++ be_bytes 8 seq.
Proof.
  intros Hs. unfold in_range, U64_MAX in Hs. apply from_be_inj; [done|].
  rewrite from_be_be_bytes_small by (change (256 ^ Z.of_nat 12)%Z with 79228162514264337593543950336%Z; lia).
  cbn [replicate app]. rewrite !from_be_cons. change (val Byte.x00) with 0%Z.
  rewrite from_be_be_bytes_small by (change (256 ^ Z.of_nat 8)%Z with 18446744073709551616%Z; lia). lia.
Qed.

Lemma compute_nonce_xor base seq :
  length base = 12 -> in_range U64_MAX seq ->
  compute_nonce base seq = rfc9180_nonce base seq.
Proof.
  unfold rfc9180_nonce. intros Hb Hs. rewrite be_bytes_12_u64 by done. unfold compute_nonce.
  pose proof (length_be_bytes 8 seq) as Hl. revert Hl. generalize (be_bytes 8 seq). intros sb Hl.
  do 13 (destruct base as [|? base]; try done). do 9 (destruct sb as [|? sb]; try done).
  cbn. by rewrite !xor_byte_zero.
Qed.

Lemma compute_nonce_inj base a b :
  length base = 12 -> in_range U64_MAX a -> in_range U64_MAX b ->
  compute_nonce base a = compute_nonce base b -> a = b.
Proof.
  intros Hl Ha Hb. rewrite !compute_nonce_xor by done. intros Hz.
  unfold rfc9180_nonce in Hz. apply zip_xor_inj in Hz; [|by rewrite length_be_bytes..].
  unfold in_range, U64_MAX in *.
  apply be_bytes_inj in Hz; [done|change (256 ^ Z.of_nat 12)%Z with 79228162514264337593543950336%Z; lia..].
Qed.

(** The nonce of message [seq] is the one RFC 9180 defines;
    it has 12 bytes, and no other sequence number gives the same nonce. *)
Theorem compute_nonce_spec base seq :
  length base = 12 -> in_range U64_MAX seq ->
  compute_nonce base seq = rfc9180_nonce base seq /\
  length (compute_nonce base seq) = 12 /\
  (forall seq', in_range U64_MAX seq' -> compute_nonce base seq' = compute_nonce base seq -> seq' = seq).
Proof.
  intros Hb Hs. split_and!.
  - by apply compute_nonce_xor.
  - rewrite compute_nonce_xor by done. unfold rfc9180_nonce. rewrite length_zip_with, length_be_bytes. lia.
  - intros seq' Hs' He. by apply (compute_nonce_inj base).
Qed.

(** ** Contexts *)

Section CtxProperties.
Context `{HkdfLaws} (K : DhKem) (A : AeadSuite) `{!KemLaws K} `{!AeadSuiteLaws A}.

Definition ctx_ok (c : HpkeCtx) : Prop := length (ctx_base_nonce c) = 12 /\ in_range U64_MAX (ctx_seq c).

(** What one call does to a context. *)
Definition step_ok (c : HpkeCtx) (res : HpkeCtx * R RustlsError bytes) : Prop :=
  (is_ok res.2 = true -> (ctx_seq c < U64_MAX)%Z) /\
  res.1 = (if is_ok res.2 then set_seq c (ctx_seq c + 1) else c) /\ ctx_ok res.1 /\ res.2 <> Panic.

Lemma sealer_step c aad m : ctx_ok c -> step_ok c (sealer_seal A c aad m).
Proof.
  unfold step_ok, ctx_ok, sealer_seal, checked_add, in_range, U64_MAX. intros [Hn Hs].
  destruct (suite_no_panic (ctx_key c) (compute_nonce (ctx_base_nonce c) (ctx_seq c)) aad m) as [Hp _].
  destruct (suite_seal A _ _ aad m); [|done..].
  destruct (Z.leb_spec (ctx_seq c + 1) 18446744073709551615); cbn; split_and!; done || lia.
Qed.

Lemma opener_step c aad m : ctx_ok c -> step_ok c (opener_open A c aad m).
Proof.
  unfold step_ok, ctx_ok, opener_open, checked_add, in_range, U64_MAX. intros [Hn Hs].
  destruct (suite_no_panic (ctx_key c) (compute_nonce (ctx_base_nonce c) (ctx_seq c)) aad m) as [_ Hp].
  destruct (suite_open A _ _ aad m); [|done..].
  destruct (Z.leb_spec (ctx_seq c + 1) 18446744073709551615); cbn; split_and!; done || lia.
Qed.

(** One call to a sealer or an opener never panics and keeps the context
    well formed; on success it advances the sequence number by one, on any error
    it leaves the context as it was, and it only succeeds below the last 64-bit
    sequence number. *)
Theorem context_step c aad m :
  ctx_ok c -> step_ok c (sealer_seal A c aad m) /\ step_ok c (opener_open A c aad m).
Proof. split; [by apply sealer_step|by apply opener_step]. Qed.

(** Sealing and opening a list of messages, stopping at the first error. *)
Fixpoint seal_all (c : HpkeCtx) (ms : list (bytes * bytes)) : HpkeCtx * R RustlsError (list bytes) :=
  match ms with
  | [] => (c, Ok [])
  | (aad, pt) :: ms =>
      match sealer_seal A c aad pt with
      | (c, Ok ct) => let '(c, r) := seal_all c ms in (c, cts ← r; Ok (ct :: cts))
      | (c, Err e) => (c, Err e)
      | (c, Panic) => (c, Panic)
      end
  end.

Fixpoint open_all (c : HpkeCtx) (ms : list (bytes * bytes)) : HpkeCtx * R RustlsError (list bytes) :=
  match ms with
  | [] => (c, Ok [])
  | (aad, ct) :: ms =>
      match opener_open A c aad ct with
      | (c, Ok pt) => let '(c, r) := open_all c ms in (c, pts ← r; Ok (pt :: pts))
      | (c, Err e) => (c, Err e)
      | (c, Panic) => (c, Panic)
      end
  end.

Lemma seal_open_step c c' aad pt ct :
  sealer_seal A c aad pt = (c', Ok ct) -> opener_open A c aad ct = (c', Ok pt).
Proof.
  unfold sealer_seal, opener_open. destruct (suite_seal A _ _ aad pt) eqn:Hs; [|done..].
  destruct (checked_add _ _ _) eqn:Ha; [|done]. intros [= <- <-].
  by rewrite (suite_correct _ _ _ _ _ Hs).
Qed.

Lemma seal_open_all c c' ms cts :
  seal_all c ms = (c', Ok cts) -> open_all c (zip ms.*1 cts) = (c', Ok ms.*2).
Proof.
  revert c cts. induction ms as [|[aad pt] ms IH]; intros c cts; cbn [seal_all].
  { by intros [= <- <-]. }
  destruct (sealer_seal A c aad pt) as [c1 [ct| |]] eqn:Hs; try done.
  destruct (seal_all c1 ms) as [c2 r] eqn:Hr. intros [= -> Hc]. inv_ok.
  cbn. rewrite (seal_open_step _ _ _ _ _ Hs). by rewrite (IH _ _ Hr).
Qed.

Lemma seal_all_ctx c ms c' r :
  seal_all c ms = (c', r) -> c' = set_seq c (ctx_seq c').
Proof.
  revert c r. induction ms as [|[aad pt] ms IH]; intros c r; cbn [seal_all].
  { intros [= <- <-]. by destruct c. }
  unfold sealer_seal. destruct (suite_seal A _ _ aad pt); [|intros [= <- <-]; by destruct c..].
  destruct (checked_add _ _ _); [|intros [= <- <-]; by destruct c].
  destruct (seal_all _ ms) as [c2 r2] eqn:Hr. intros [= -> _]. by apply IH in Hr as ->.
Qed.

Lemma session_opens d d' pk sk info enc cs :
  draws_ok d -> generate_key_pair K d = Ok (pk, sk) -> setup_sender K A d' info pk = Ok (enc, cs) ->
  length enc = NENC K /\ ctx_ok cs /\ ctx_seq cs = 0%Z /\
  setup_receiver K A enc info sk = Ok cs /\
  forall ms cts c', seal_all cs ms = (c', Ok cts) ->
    open_all cs (zip ms.*1 cts) = (c', Ok ms.*2) /\
    (forall ectx l, export c' ectx l = export cs ectx l).
Proof.
  unfold generate_key_pair, setup_sender, setup_receiver. intros Hd Hg Hs.
  apply bind_Ok in Hs as ([ss enc'] & He & Hs). apply bind_Ok in Hs as (km & Hk & [= <- <-]).
  split_and!.
  - by eapply kem_enc_length.
  - destruct (key_schedule_base_ok (hpke_suite_id K A) ss info (NK A) suite_nk) as (km' & Hk' & _ & Hn & _).
    assert (km' = km) as -> by congruence. done.
  - done.
  - rewrite (kem_correct _ _ _ _ _ _ Hd Hg He). cbn [mbind R_bind]. by rewrite Hk.
  - intros ms cts c' Hall. split; [by apply seal_open_all|].
    intros ectx l. apply seal_all_ctx in Hall. by rewrite Hall.
Qed.

(** C15: a receiver that holds the private key sets up exactly the sender's
    context, and every list of messages the sender seals it opens in order to
    the same plaintexts, ending in the sender's state; both export the same
    secrets throughout. *)
Theorem hpke_session d d' pk sk info enc cs :
  draws_ok d -> generate_key_pair K d = Ok (pk, sk) -> setup_sender K A d' info pk = Ok (enc, cs) ->
  length enc = NENC K /\ ctx_ok cs /\ ctx_seq cs = 0%Z /\
  setup_receiver K A enc info sk = Ok cs /\
  forall ms cts c', seal_all cs ms = (c', Ok cts) ->
    open_all cs (zip ms.*1 cts) = (c', Ok ms.*2) /\
    (forall ectx l, export c' ectx l = export cs ectx l).
Proof. apply session_opens. Qed.

(** What is sealed in one shot to a generated public key is opened by its
    private key, with an encapsulated key and a ciphertext of the announced
    lengths. *)
Theorem hpke_seal_open d d' pk sk info aad pt enc ct :
  draws_ok d -> generate_key_pair K d = Ok (pk, sk) ->
  hpke_seal K A d' info aad pt pk = Ok (enc, ct) ->
  hpke_open K A enc info aad ct sk = Ok pt /\ length enc = NENC K /\ length ct = length pt + NT A.
Proof.
  unfold generate_key_pair, hpke_seal, hpke_open. intros Hd Hg Hs.
  apply bind_Ok in Hs as ([ss enc'] & He & Hs). apply bind_Ok in Hs as (km & Hk & Hs).
  cbv zeta in Hs. apply bind_Ok in Hs as (ct' & Hc & [= <- <-]).
  rewrite (kem_correct _ _ _ _ _ _ Hd Hg He). cbn [mbind R_bind]. rewrite Hk. cbn [mbind R_bind].
  split_and!; [by apply suite_correct|by eapply kem_enc_length|by eapply suite_ct_length].
Qed.

(** The ciphertexts of a run, by the nonces they were sealed under. *)
Lemma seal_all_nonces c ms c' cts :
  ctx_ok c -> seal_all c ms = (c', Ok cts) ->
  (ctx_seq c + Z.of_nat (length ms) <= U64_MAX)%Z /\ length cts = length ms /\
  forall i aad pt ct, ms !! i = Some (aad, pt) -> cts !! i = Some ct ->
    suite_seal A (ctx_key c) (compute_nonce (ctx_base_nonce c) (ctx_seq c + Z.of_nat i)) aad pt = Ok ct.
Proof.
  revert c cts. induction ms as [|[aad pt] ms IH]; intros c cts Hc; cbn [seal_all].
  { intros [= <- <-]. destruct Hc as [_ [? ?]]. cbn. split_and!; [lia|done|done]. }
  pose proof (sealer_step c aad pt Hc) as (Hlt & Hst & Hok & _).
  destruct (sealer_seal A c aad pt) as [c1 [ct| |]] eqn:Hs; try done.
  destruct (seal_all c1 ms) as [c2 r] eqn:Hr. intros [= -> Hb]. inv_ok. rename x into cts'.
  cbn [fst snd is_ok] in *. specialize (Hlt eq_refl). destruct (IH _ _ Hok Hr) as (Hlim & Hlen & Hall). subst c1.
  cbn [ctx_seq set_seq ctx_key ctx_base_nonce length] in *. split_and!; [lia|lia|].
  intros [|i] aad' pt' ct' Hm Hct; cbn in Hm, Hct; simplify_eq.
  - rewrite Z.add_0_r. unfold sealer_seal in Hs. by repeat case_match; simplify_eq.
  - replace (ctx_seq c + Z.of_nat (S i))%Z with (ctx_seq c + 1 + Z.of_nat i)%Z by lia. by apply Hall.
Qed.

(** The nonces RFC 9180 assigns to the next [n] messages of a context. *)
Definition session_nonces (c : HpkeCtx) (n : nat) : list bytes :=
  (fun i => rfc9180_nonce (ctx_base_nonce c) (ctx_seq c + Z.of_nat i)) <$> seq 0 n.

(** C17: a sealer never reuses a nonce: in any successful run the messages are
    sealed, each in its turn, under the nonces RFC 9180 assigns to them, which
    are pairwise distinct, and the counter does not pass its last value. *)
Theorem sealer_nonces_unique c ms c' cts :
  ctx_ok c -> seal_all c ms = (c', Ok cts) ->
  let nonces := session_nonces c (length ms) in
  NoDup nonces /\ length cts = length ms /\ (ctx_seq c + Z.of_nat (length ms) <= U64_MAX)%Z /\
  forall i aad pt ct n, ms !! i = Some (aad, pt) -> cts !! i = Some ct -> nonces !! i = Some n ->
    suite_seal A (ctx_key c) n aad pt = Ok ct.
Proof.
  intros Hc Hs nonces. destruct (seal_all_nonces _ _ _ _ Hc Hs) as (Hlim & Hlen & Hall).
  destruct Hc as [Hn [Hs0 _]].
  assert (nonces = (fun i => compute_nonce (ctx_base_nonce c) (ctx_seq c + Z.of_nat i)) <$> seq 0 (length ms)) as ->.
  { apply list_fmap_ext. intros k i [-> Hi]%lookup_seq. symmetry. apply compute_nonce_xor; [done|split; lia]. }
  split_and!; [|done..|].
  - apply NoDup_fmap_2_strong; [|apply NoDup_seq].
    intros i j [_ Hi]%elem_of_seq [_ Hj]%elem_of_seq He.
    apply compute_nonce_inj in He; [lia|done|split; lia..].
  - intros i aad pt ct n Hm Hct Hn'. rewrite list_lookup_fmap in Hn'.
    apply fmap_Some in Hn' as (j & [-> _]%lookup_seq & ->). by apply Hall.
Qed.
End CtxProperties.

(** ** The four suites *)

Section Suites.
Context `{HkdfLaws} `{X25519Laws} `{P256Laws} (fuel : nat) (aes128gcm chacha20 : Aead)
  `{!AeadLaws aes128gcm} `{!AeadLaws chacha20}.

Definition announces (KA : DhKem * AeadSuite) (hs : HpkeSuite) : Prop :=
  suite KA.1 KA.2 = Ok hs /\
  hpke_suite_id KA.1 KA.2 = bstr "HPKE" ++ be_bytes 2 (kem_to_u16 (hs_kem hs))
    ++ be_bytes 2 (kdf_to_u16 (hs_kdf_id hs)) ++ be_bytes 2 (aead_to_u16 (hs_aead_id hs)).

(** Every suite that is offered announces the algorithms it runs: [suite]
    does not panic, the code points it reports are those of the suite id that
    separates its key schedule, and no two suites share a suite id.  Both its
    KEM and its AEAD keep their interface's promises. *)
Theorem pure_hpke_suites_consistent :
  let suites := pure_hpke_suites fuel aes128gcm chacha20 in
  Forall (fun KA => exists hs, announces KA hs) suites /\
  NoDup ((fun KA => hpke_suite_id KA.1 KA.2) <$> suites) /\
  Forall (fun KA => KemLaws KA.1 /\ AeadSuiteLaws KA.2) suites.
Proof.
  cbv zeta. unfold pure_hpke_suites. split_and!.
  - repeat constructor; eexists; split; reflexivity.
  - apply (bool_decide_unpack _). vm_compute. done.
  - rewrite !Forall_cons. split_and!; cbn; try apply _. constructor.
Qed.
End Suites.

Module HpkeToy.
#[export] Instance hkdf : Hkdf := {
  hkdf_extract salt ikm := Toy.pad 32 (salt ++ ikm);
  hkdf_from_prk prk := if 32 <=? length prk then Some prk else None;
  hkdf_expand x info l :=
    if (0 <=? l)%Z && (l <=? 8160)%Z then Some (Toy.pad (Z.to_nat l) (x ++ info)) else None;
}.
#[export] Instance hkdf_laws : HkdfLaws.
Proof.
  split; cbn -[Nat.leb].
  - intros. apply Toy.length_pad.
  - intros prk Hp. rewrite (proj2 (Nat.leb_le _ _) Hp). eauto.
  - intros prk Hp. by rewrite (proj2 (Nat.leb_gt _ _) Hp).
  - intros x info l Hl. rewrite !(proj2 (Z.leb_le _ _)) by lia. eauto.
  - intros x info l okm He. case_match eqn:Hc; [|done]. injection He as <-.
    rewrite Toy.length_pad. reflect_tests. lia.
Qed.

#[export] Instance x25519 : X25519 := {
  x25519_public := Toy.pad 32;
  x25519_dh a b := be_bytes 32 (from_be (Toy.pad 32 a) + from_be b);
  was_contributory z := bool_decide (z <> replicate 32 Byte.x00);
}.
#[export] Instance x25519_laws : X25519Laws.
Proof.
  split; cbn -[be_bytes]; intros; [apply Toy.length_pad|apply length_be_bytes|]. by rewrite Z.add_comm.
Qed.

(** Points and scalars are bytes; a scalar's encoding repeats its byte. *)
#[export] Instance p256 : P256 := {
  p256_point := byte;
  p256_scalar := byte;
  p256_from_sec1_bytes bs := if length bs =? 65 then bs !! 1 else None;
  p256_to_uncompressed p := Byte.x04 :: replicate 64 p;
  p256_secret_from_slice bs := if bool_decide (bs = replicate 32 (default Byte.x00 (head bs))) then head bs else None;
  p256_secret_to_bytes s := replicate 32 s;
  p256_public s := s;
  p256_dh a b := be_bytes 32 (val a + val b);
}.
#[export] Instance p256_laws : P256Laws.
Proof.
  split; try done.
  - intros s. cbn -[replicate]. by rewrite bool_decide_eq_true_2.
  - intros a b. cbn -[be_bytes]. by rewrite Z.add_comm.
Qed.
End HpkeToy.

Module HpkeWitness.
Import Toy HpkeToy.

Definition draws (b : byte) : Draws := fun _ => inr (replicate 32 b).

Lemma draws_fine b : draws_ok (draws b).
Proof. intros i bs [= <-]. done. Qed.

Definition A : AeadSuite := AeadAes128Gcm Toy.aead.

Lemma labeled_expand_checked_exact_witness :
  exists okm, labeled_expand_checked [] (replicate 32 Byte.x01) [] [] 20 = Ok okm /\ Z.of_nat (length okm) = 20%Z.
Proof. apply (labeled_expand_checked_exact [] (replicate 32 Byte.x01) [] [] 20). lia. Defined.

(** The first draw is rejected, the second is a scalar. *)
Lemma p256_rejection_sample_first_witness :
  p256_rejection_sample 5
    (fun i => if i =? 0 then inr [Byte.x01; Byte.x02] else inr (replicate 32 Byte.x03)) 0 = Ok Byte.x03.
Proof.
  apply (@p256_rejection_sample_first HpkeToy.p256 _ 1 (replicate 32 Byte.x03) Byte.x03 5); [|reflexivity|reflexivity|lia].
  intros i Hi. exists [Byte.x01; Byte.x02]. destruct i; [done|lia].
Defined.

Lemma compute_nonce_spec_witness : length (compute_nonce (replicate 12 Byte.x11) 1) = 12.
Proof. apply (compute_nonce_spec (replicate 12 Byte.x11) 1); [done|unfold in_range, U64_MAX; lia]. Defined.

Definition key_pair : bytes * bytes := (replicate 32 Byte.x05, replicate 32 Byte.x05).

Lemma hpke_seal_open_witness :
  exists enc ct, hpke_seal KemX25519 A (draws Byte.x07) [Byte.x01] [] [Byte.x09] key_pair.1 = Ok (enc, ct) /\
    hpke_open KemX25519 A enc [Byte.x01] [] ct key_pair.2 = Ok [Byte.x09].
Proof.
  destruct (hpke_seal KemX25519 A (draws Byte.x07) [Byte.x01] [] [Byte.x09] key_pair.1) as [[enc ct]| |] eqn:E;
    [|vm_compute in E; discriminate..].
  exists enc, ct. split; [done|].
  apply (hpke_seal_open KemX25519 A (draws Byte.x05) (draws Byte.x07) key_pair.1 key_pair.2 [Byte.x01] [] [Byte.x09] enc ct);
    [apply draws_fine|reflexivity|exact E].
Defined.

Definition msgs : list (bytes * bytes) := [([], [Byte.x09]); ([Byte.x01], [Byte.x0a; Byte.x0b])].

Definition ctx : HpkeCtx :=
  {| ctx_key := replicate 16 Byte.x01; ctx_base_nonce := replicate 12 Byte.x02; ctx_seq := 0;
     ctx_suite_id := []; ctx_exporter_secret := replicate 32 Byte.x03 |}.

Lemma ctx_fine : ctx_ok ctx.
Proof. split; [done|]. unfold in_range, U64_MAX. cbn. lia. Qed.

Lemma hpke_session_witness :
  exists enc cs, setup_sender (KemP256 1) A (draws Byte.x07) [] (Byte.x04 :: replicate 64 Byte.x05) = Ok (enc, cs) /\
    setup_receiver (KemP256 1) A enc [] (replicate 32 Byte.x05) = Ok cs.
Proof.
  destruct (setup_sender (KemP256 1) A (draws Byte.x07) [] (Byte.x04 :: replicate 64 Byte.x05)) as [[enc cs]| |] eqn:E;
    [|vm_compute in E; discriminate..].
  exists enc, cs. split; [done|].
  apply (hpke_session (KemP256 1) A (draws Byte.x05) (draws Byte.x07) (Byte.x04 :: replicate 64 Byte.x05)
    (replicate 32 Byte.x05) [] enc cs); [apply draws_fine|reflexivity|exact E].
Defined.

Lemma context_step_witness : is_panic (sealer_seal A ctx [] [Byte.x09]).2 = false.
Proof.
  destruct (context_step A ctx [] [Byte.x09] ctx_fine) as [(_ & _ & _ & Hp) _].
  by destruct (sealer_seal A ctx [] [Byte.x09]).2.
Defined.

Lemma sealer_nonces_unique_witness : NoDup (session_nonces ctx 2).
Proof.
  destruct (seal_all A ctx msgs) as [c' [cts| |]] eqn:E; [|vm_compute in E; discriminate..].
  apply (sealer_nonces_unique A ctx msgs c' cts ctx_fine E).
Defined.

(** At the last sequence number both contexts refuse and do not move. *)
Example sequence_limit :
  sealer_seal A (set_seq ctx U64_MAX) [] [Byte.x09] = (set_seq ctx U64_MAX, Err SEQ_LIMIT_ERROR).
Proof. vm_compute. reflexivity. Qed.

Lemma pure_hpke_suites_consistent_witness :
  NoDup ((fun KA => hpke_suite_id KA.1 KA.2) <$> pure_hpke_suites 1 Toy.aead Toy.aead).
Proof. apply (pure_hpke_suites_consistent 1 Toy.aead Toy.aead). Defined.
End HpkeWitness.
