(* ===== verification/Standards.v ===== *)
(** * Standards: the published algorithms behind the cryptographic classes

    The classes of Crypto and Hpke leave SHA-256, HKDF, the AEADs and the curves
    open, because the crates that implement them are not part of the repository.
    This file has the functions of the standards those crates name (FIPS 180-4,
    RFC 2104, RFC 5869, FIPS 197, SP 800-38D, RFC 8439, RFC 7748, SEC 1, RFC 6979), as
    instances of the classes: with them the models run on real data, and known
    answers can be compared.  Words are primitive 63-bit integers, field elements
    are [BigN] numbers.  Constants that the standards derive from primes are
    derived here too. *)

From Stdlib Require Import Uint63.
From Bignums Require Import BigN.
From S2P Require Import Prelude Crypto Hpke.

Abbreviation word := PrimInt63.int.

(** ** Bytes, words and numbers *)

Definition word_of_byte (b : byte) : word := Uint63.of_Z (val b).
Definition byte_of_word (w : word) : byte := u8 (Uint63.to_Z w).

Definition from_le (bs : bytes) : Z := foldr (fun b acc => val b + 256 * acc)%Z 0%Z bs.
Definition le_bytes (n : nat) (z : Z) : bytes := reverse (be_bytes n z).

(** The bytes of a text of hexadecimal digits. *)
Definition hex_value (a : Ascii.ascii) : Z :=
  let n := Z.of_nat (Ascii.nat_of_ascii a) in
  if (n <? 58)%Z then n - 48 else n - 87.
Fixpoint unhex (s : string) : bytes :=
  match s with
  | String a (String b s) => u8 (16 * hex_value a + hex_value b) :: unhex s
  | _ => []
  end.

(** Two byte strings combined position by position, up to the shorter. *)
Definition xor_bytes (a b : bytes) : bytes := zip_with xor_byte a b.

Lemma xor_bytes_cancel (m ks : bytes) :
  length m <= length ks -> xor_bytes (xor_bytes m ks) ks = m.
Proof.
  revert ks. induction m as [|b m IH]; intros [|k ks] Hl; cbn in *; try done; [lia|].
  by rewrite xor_byte_twice, IH by lia.
Qed.

(** Chunks of one size, joined. *)
Lemma length_join_same (k : nat) (ls : list bytes) :
  Forall (fun l => length l = k) ls -> length (mjoin ls) = k * length ls.
Proof.
  induction 1 as [|l ls Hl _ IH]; [cbn; lia|]. rewrite join_cons, length_app, IH, Hl. cbn. lia.
Qed.

(** ** SHA-256 (FIPS 180-4) *)

Module Sha2.
Local Open Scope uint63_scope.

Definition mask32 : word := 0xffffffff.
Definition add32 (a b : word) : word := (a + b) land mask32.
Definition rotr (n x : word) : word := (x >> n) lor ((x << (32 - n)) land mask32).
Definition xor3 (a b c : word) : word := (a lxor b) lxor c.

Definition big_sigma0 (x : word) : word := xor3 (rotr 2 x) (rotr 13 x) (rotr 22 x).
Definition big_sigma1 (x : word) : word := xor3 (rotr 6 x) (rotr 11 x) (rotr 25 x).
Definition small_sigma0 (x : word) : word := xor3 (rotr 7 x) (rotr 18 x) (x >> 3).
Definition small_sigma1 (x : word) : word := xor3 (rotr 17 x) (rotr 19 x) (x >> 10).
Definition ch (x y z : word) : word := (x land y) lxor ((x lxor mask32) land z).
Definition maj (x y z : word) : word := xor3 (x land y) (x land z) (y land z).

(** The first 32 bits of the fractional part of a root: the largest [r] with
    [r ^ e <= p * 2 ^ (32 * e)], found bit by bit, without its integer part. *)
Definition primes : list Z :=
  filter (fun n => forallb (fun d => negb (n mod d =? 0)%Z) (filter (fun d => d * d <= n)%Z (seqZ 2 17)))
    (seqZ 2 310).
Definition root_bits (e p : Z) : word :=
  Uint63.of_Z (foldl (fun r i => let r' := (r + 2 ^ i)%Z in
    if (r' ^ e <=? p * 2 ^ (32 * e))%Z then r' else r) 0%Z (reverse (seqZ 0 42)) mod 2 ^ 32)%Z.

Definition K : list word := Eval vm_compute in root_bits 3 <$> take 64%nat primes.

Record State := mk { sa : word; sb : word; sc : word; sd : word; se : word; sf : word; sg : word; sh : word }.

Definition H0 : State := Eval vm_compute in
  match root_bits 2 <$> take 8%nat primes with
  | [a; b; c; d; e; f; g; h] => mk a b c d e f g h
  | _ => mk 0 0 0 0 0 0 0 0
  end.

(** One round with round constant [k] and schedule word [w]. *)
Definition round (s : State) (k w : word) : State :=
  let t1 := add32 (add32 (add32 (add32 (sh s) (big_sigma1 (se s))) (ch (se s) (sf s) (sg s))) k) w in
  let t2 := add32 (big_sigma0 (sa s)) (maj (sa s) (sb s) (sc s)) in
  mk (add32 t1 t2) (sa s) (sb s) (sc s) (add32 (sd s) t1) (se s) (sf s) (sg s).

(** The rounds over the constants, with the next sixteen schedule words. *)
Fixpoint rounds (ks : list word) (ws : list word) (s : State) : State :=
  match ks, ws with
  | k :: ks, w :: ws' =>
      let next := add32 (add32 (small_sigma1 (nth 14%nat ws 0)) (nth 9%nat ws 0))
                    (add32 (small_sigma0 (nth 1%nat ws 0)) w) in
      rounds ks (ws' ++ [next]) (round s k w)
  | _, _ => s
  end.

Definition compress (s : State) (block : list word) : State :=
  let r := rounds K block s in
  mk (add32 (sa s) (sa r)) (add32 (sb s) (sb r)) (add32 (sc s) (sc r)) (add32 (sd s) (sd r))
     (add32 (se s) (se r)) (add32 (sf s) (sf r)) (add32 (sg s) (sg r)) (add32 (sh s) (sh r)).

Fixpoint words (bs : bytes) : list word :=
  match bs with
  | a :: b :: c :: d :: bs =>
      ((word_of_byte a << 24) lor (word_of_byte b << 16) lor (word_of_byte c << 8) lor word_of_byte d) :: words bs
  | _ => []
  end.

Definition pad (m : bytes) : bytes :=
  let len := Z.of_nat (length m) in
  m ++ Byte.x80 :: replicate (Z.to_nat ((55 - len) mod 64)) Byte.x00 ++ be_bytes 8 (8 * len).

(** One block for every 64 bytes; the fuel is the number of words. *)
Fixpoint blocks (fuel : nat) (ws : list word) (s : State) : State :=
  match fuel, ws with
  | S fuel, _ :: _ => blocks fuel (drop 16%nat ws) (compress s (take 16%nat ws))
  | _, _ => s
  end.

Definition be_word (w : word) : bytes :=
  [byte_of_word (w >> 24); byte_of_word (w >> 16); byte_of_word (w >> 8); byte_of_word w].

Definition digest (m : bytes) : bytes :=
  let ws := words (pad m) in
  let s := blocks (length ws) ws H0 in
  be_word (sa s) ++ be_word (sb s) ++ be_word (sc s) ++ be_word (sd s) ++
  be_word (se s) ++ be_word (sf s) ++ be_word (sg s) ++ be_word (sh s).

Lemma length_digest m : length (digest m) = 32%nat.
Proof. done. Qed.

Definition hmac (key m : bytes) : bytes :=
  let k := if (length key <=? 64)%nat then key else digest key in
  let k := take 64%nat (k ++ replicate 64%nat Byte.x00) in
  let mix (b : byte) := (fun x => xor_byte x b) <$> k in
  digest (mix Byte.x5c ++ digest (mix Byte.x36 ++ m)).

Lemma length_hmac key m : length (hmac key m) = 32%nat.
Proof. done. Qed.

(** HKDF (RFC 5869): the blocks [T(i)], [i] of them from [n] down to 1. *)
Fixpoint hkdf_blocks (n : nat) (i : Z) (prk prev info : bytes) : bytes :=
  match n with
  | O => []
  | S n => let t := hmac prk (prev ++ info ++ [u8 i]) in t ++ hkdf_blocks n (i + 1) prk t info
  end.

Lemma length_hkdf_blocks n i prk prev info : length (hkdf_blocks n i prk prev info) = (32 * n)%nat.
Proof.
  revert i prev. induction n as [|n IH]; intros i prev; [done|]. cbn [hkdf_blocks].
  rewrite length_app, IH, length_hmac. lia.
Qed.
End Sha2.

#[export] Instance real_sha256 : Sha256 := Sha2.digest.
#[export] Instance real_sha256_laws : Sha256Laws.
Proof. split. apply Sha2.length_digest. Qed.

#[export] Instance real_hkdf : Hkdf := {
  hkdf_extract salt ikm := Sha2.hmac salt ikm;
  hkdf_from_prk prk := if 32 <=? length prk then Some prk else None;
  hkdf_expand prk info l :=
    if (0 <=? l)%Z && (l <=? 8160)%Z
    then Some (take (Z.to_nat l) (Sha2.hkdf_blocks (Z.to_nat ((l + 31) / 32)) 1 prk [] info))
    else None;
}.

#[export] Instance real_hkdf_laws : HkdfLaws.
Proof.
  split; cbn [hkdf_extract hkdf_from_prk hkdf_expand real_hkdf].
  - intros. apply Sha2.length_hmac.
  - intros prk Hp. rewrite (proj2 (Nat.leb_le _ _) Hp). eauto.
  - intros prk Hp. by rewrite (proj2 (Nat.leb_gt _ _) Hp).
  - intros x info l Hl. rewrite !(proj2 (Z.leb_le _ _)) by lia. eauto.
  - intros x info l okm He. case_match eqn:Hc; [|done]. injection He as <-. reflect_tests.
    rewrite length_take, Sha2.length_hkdf_blocks.
    pose proof (Z.mod_pos_bound (l + 31) 32). pose proof (Z.div_mod (l + 31) 32). lia.
Qed.

(** ** AES-128 and AES-256 (FIPS 197), and GCM (SP 800-38D) *)

Module Aes.
Local Open Scope uint63_scope.

(** Multiplication in GF(2^8) by [x], and by any element, least bit first. *)
Definition xtime (a : word) : word :=
  (if (0x80 <=? a) then (a << 1) lxor 0x11b else a << 1).
Fixpoint gmul_loop (n : nat) (a b acc : word) : word :=
  match n with
  | O => acc
  | S n => gmul_loop n (xtime a) (b >> 1) (if (b land 1 =? 1) then acc lxor a else acc)
  end.
Definition gmul (a b : word) : word := gmul_loop 8 a b 0.

(** The S-box: the inverse [a ^ 254], then the affine map. *)
Definition ginv (a : word) : word :=
  Nat.iter 253 (fun x => gmul x a) a.
Definition rotl8 (n x : word) : word := ((x << n) lor (x >> (8 - n))) land 0xff.
Definition sbox_of (a : word) : word :=
  let i := ginv a in
  i lxor (rotl8 1 i) lxor (rotl8 2 i) lxor (rotl8 3 i) lxor (rotl8 4 i) lxor 0x63.
Definition sbox : list word := Eval vm_compute in
  (fun i => sbox_of (Uint63.of_Z i)) <$> seqZ 0 256.
Definition sub (a : word) : word := nth (Z.to_nat (Uint63.to_Z a)) sbox 0.

Definition xor_words (a b : list word) : list word := zip_with (fun x y => x lxor y) a b.

(** Four words of a round key, each XORed with the one before, the first with [t]. *)
Definition chain (k t : list word) : list word :=
  match k with
  | [k0; k1; k2; k3; k4; k5; k6; k7; k8; k9; k10; k11; k12; k13; k14; k15] =>
      let w0 := xor_words [k0; k1; k2; k3] t in
      let w1 := xor_words [k4; k5; k6; k7] w0 in
      let w2 := xor_words [k8; k9; k10; k11] w1 in
      let w3 := xor_words [k12; k13; k14; k15] w2 in
      w0 ++ w1 ++ w2 ++ w3
  | _ => k
  end.

(** The last word of a round key, substituted, without and with the rotation and
    the round constant. *)
Definition sub_word (k : list word) : list word := sub <$> drop 12 k.
Definition rot_word (rcon : word) (k : list word) : list word :=
  xor_words (drop 1 (sub_word k) ++ take 1 (sub_word k)) [rcon; 0; 0; 0].

(** The next round key from a round key of sixteen bytes. *)
Definition next_key (rcon : word) (k : list word) : list word := chain k (rot_word rcon k).

Fixpoint key_schedule (n : nat) (rcon : word) (k : list word) : list (list word) :=
  match n with
  | O => []
  | S n => let k' := next_key rcon k in k' :: key_schedule n (xtime rcon) k'
  end.

(** A 32-byte key is two round keys; the second of each new pair is chained
    without rotation. *)
Fixpoint key_schedule256 (n : nat) (rcon : word) (a b : list word) : list (list word) :=
  match n with
  | O => []
  | S n => let a' := chain a (rot_word rcon b) in
           let b' := chain b (sub_word a') in
           a' :: b' :: key_schedule256 n (xtime rcon) a' b'
  end.

Definition shift_rows (s : list word) : list word :=
  (fun i => nth i s 0) <$> [0; 5; 10; 15; 4; 9; 14; 3; 8; 13; 2; 7; 12; 1; 6; 11]%nat.

Definition mix_column (a b c d : word) : list word :=
  let t := a lxor b lxor c lxor d in
  [a lxor t lxor (xtime (a lxor b)); b lxor t lxor (xtime (b lxor c));
   c lxor t lxor (xtime (c lxor d)); d lxor t lxor (xtime (d lxor a))].

Fixpoint mix_columns (s : list word) : list word :=
  match s with
  | a :: b :: c :: d :: s => mix_column a b c d ++ mix_columns s
  | _ => []
  end.

Fixpoint encrypt_rounds (s : list word) (ks : list (list word)) : list word :=
  match ks with
  | [] => s
  | [k] => xor_words (shift_rows (sub <$> s)) k
  | k :: ks => encrypt_rounds (xor_words (mix_columns (shift_rows (sub <$> s))) k) ks
  end.

(** One block under a 16-byte key and under a 32-byte key. *)
Definition block_of (s : list word) : bytes := (fun i => byte_of_word (nth i s 0)) <$> seq 0 16.

Definition block (key blk : bytes) : bytes :=
  let k := word_of_byte <$> key in
  block_of (encrypt_rounds (xor_words (word_of_byte <$> blk) k) (key_schedule 10 1 k)).

Definition block256 (key blk : bytes) : bytes :=
  let k := word_of_byte <$> key in
  let a := take 16 k in let b := drop 16 k in
  block_of (encrypt_rounds (xor_words (word_of_byte <$> blk) a) (take 14 (b :: key_schedule256 7 1 a b))).

Lemma length_aes_block key blk : length (block key blk) = 16%nat.
Proof. unfold block, block_of. cbv zeta. by rewrite length_fmap, length_seq. Qed.

Lemma length_aes256_block key blk : length (block256 key blk) = 16%nat.
Proof. unfold block256, block_of. cbv zeta. by rewrite length_fmap, length_seq. Qed.

(** The examples of FIPS 197, appendix C. *)
Example fips197 :
  let key := (fun i => u8 i) <$> seqZ 0 32 in
  let pt := unhex "00112233445566778899aabbccddeeff" in
  block (take 16 key) pt = unhex "69c4e0d86a7b0430d8cdb78070b4c55a" /\
  block256 key pt = unhex "8ea2b7ca516745bfeafc49904b496089".
Proof. vm_compute. split; reflexivity. Qed.
End Aes.

Module Gcm.
Local Open Scope Z_scope.

(** Multiplication of GHASH: bit 127 of a number is the coefficient of 1. *)
Definition mul (x y : Z) : Z :=
  (foldl (fun '(z, v) i =>
     (if Z.testbit x i then Z.lxor z v else z,
      if Z.odd v then Z.lxor (Z.shiftr v 1) (Z.shiftl 0xe1 120) else Z.shiftr v 1))
    (0, y) (reverse (seqZ 0 128))).1.

(** The input in blocks of sixteen bytes, the last one padded with zeros. *)
Fixpoint blocks16 (fuel : nat) (m : bytes) : list bytes :=
  match fuel, m with
  | S fuel, _ :: _ => take 16 (take 16 m ++ replicate 16 Byte.x00) :: blocks16 fuel (drop 16 m)
  | _, _ => []
  end.

Definition ghash (h : Z) (aad ct : bytes) : Z :=
  foldl (fun y b => mul (Z.lxor y (from_be b)) h) 0
    (blocks16 (length aad) aad ++ blocks16 (length ct) ct ++
     [be_bytes 8 (8 * Z.of_nat (length aad)) ++ be_bytes 8 (8 * Z.of_nat (length ct))]).

(** The counter blocks from [i] on, one for every started block of [n] bytes. *)
Definition keystream (key nonce : bytes) (n : nat) : bytes :=
  mjoin ((fun i => Aes.block key (nonce ++ be_bytes 4 (2 + Z.of_nat i))) <$> seq 0 ((n + 15) / 16)).

Definition tag (key nonce aad ct : bytes) : bytes :=
  let h := from_be (Aes.block key (replicate 16 Byte.x00)) in
  let s := from_be (Aes.block key (nonce ++ be_bytes 4 1)) in
  be_bytes 16 (Z.lxor (ghash h aad ct) s).

Lemma length_gcm_keystream key nonce n : (n <= length (keystream key nonce n))%nat.
Proof.
  unfold keystream. rewrite (length_join_same 16%nat).
  - rewrite length_fmap, length_seq. pose proof (Nat.div_mod_eq (n + 15) 16).
    pose proof (Nat.mod_upper_bound (n + 15) 16). lia.
  - apply Forall_fmap, Forall_true. intros i. unfold compose. cbn beta. rewrite Aes.length_aes_block. reflexivity.
Qed.
End Gcm.

(** ** ChaCha20 and Poly1305 (RFC 8439) *)

Module ChaCha.
Local Open Scope uint63_scope.

Definition rotl (n x : word) : word := ((x << n) land Sha2.mask32) lor (x >> (32 - n)).

Definition quarter (a b c d : word) : word * word * word * word :=
  let a := Sha2.add32 a b in let d := rotl 16 (d lxor a) in
  let c := Sha2.add32 c d in let b := rotl 12 (b lxor c) in
  let a := Sha2.add32 a b in let d := rotl 8 (d lxor a) in
  let c := Sha2.add32 c d in let b := rotl 7 (b lxor c) in
  (a, b, c, d).

Definition double_round (s : list word) : list word :=
  match s with
  | [x0; x1; x2; x3; x4; x5; x6; x7; x8; x9; x10; x11; x12; x13; x14; x15] =>
      let '(x0, x4, x8, x12) := quarter x0 x4 x8 x12 in
      let '(x1, x5, x9, x13) := quarter x1 x5 x9 x13 in
      let '(x2, x6, x10, x14) := quarter x2 x6 x10 x14 in
      let '(x3, x7, x11, x15) := quarter x3 x7 x11 x15 in
      let '(x0, x5, x10, x15) := quarter x0 x5 x10 x15 in
      let '(x1, x6, x11, x12) := quarter x1 x6 x11 x12 in
      let '(x2, x7, x8, x13) := quarter x2 x7 x8 x13 in
      let '(x3, x4, x9, x14) := quarter x3 x4 x9 x14 in
      [x0; x1; x2; x3; x4; x5; x6; x7; x8; x9; x10; x11; x12; x13; x14; x15]
  | _ => s
  end.

(** Little-endian words. *)
Fixpoint words_le (bs : bytes) : list word :=
  match bs with
  | a :: b :: c :: d :: bs => Uint63.of_Z (from_le [a; b; c; d]) :: words_le bs
  | _ => []
  end.

Definition block (key nonce : bytes) (counter : Z) : bytes :=
  let s := words_le (bstr "expand 32-byte k" ++ key ++ le_bytes 4 counter ++ nonce) in
  let r := Nat.iter 10 double_round s in
  mjoin ((fun i => le_bytes 4 (Uint63.to_Z (Sha2.add32 (nth i s 0) (nth i r 0)))) <$> seq 0 16).

Lemma length_chacha_block key nonce c : length (block key nonce c) = 64%nat.
Proof.
  unfold block. cbv zeta. rewrite (length_join_same 4%nat), length_fmap, length_seq; [reflexivity|].
  apply Forall_fmap, Forall_true. intros i. unfold compose, le_bytes. cbn beta.
  rewrite length_reverse, length_be_bytes. reflexivity.
Qed.

Definition keystream (key nonce : bytes) (n : nat) : bytes :=
  mjoin ((fun i => block key nonce (1 + Z.of_nat i)) <$> seq 0 ((n + 63) / 64)).

Lemma length_chacha_keystream key nonce n : (n <= length (keystream key nonce n))%nat.
Proof.
  unfold keystream. rewrite (length_join_same 64%nat).
  - rewrite length_fmap, length_seq. pose proof (Nat.div_mod_eq (n + 63) 64).
    pose proof (Nat.mod_upper_bound (n + 63) 64). lia.
  - apply Forall_fmap, Forall_true. intros i. unfold compose. cbn beta. rewrite length_chacha_block. reflexivity.
Qed.

(** Poly1305 over the message in blocks of sixteen bytes. *)
Fixpoint poly_blocks (fuel : nat) (r acc : Z) (m : bytes) : Z :=
  match fuel, m with
  | S fuel, _ :: _ =>
      let b := take 16 m in
      let n := (from_le b + 2 ^ (8 * Z.of_nat (length b)))%Z in
      poly_blocks fuel r ((acc + n) * r mod (2 ^ 130 - 5))%Z (drop 16 m)
  | _, _ => acc
  end.

Definition poly1305 (key m : bytes) : bytes :=
  let r := Z.land (from_le (take 16 key)) 0x0ffffffc0ffffffc0ffffffc0fffffff in
  let s := from_le (drop 16 key) in
  le_bytes 16 (poly_blocks (length m) r 0 m + s).

Definition pad16 (m : bytes) : bytes := m ++ replicate (Z.to_nat ((- Z.of_nat (length m)) mod 16)) Byte.x00.

Definition tag (key nonce aad ct : bytes) : bytes :=
  poly1305 (take 32 (block key nonce 0))
    (pad16 aad ++ pad16 ct ++ le_bytes 8 (Z.of_nat (length aad)) ++ le_bytes 8 (Z.of_nat (length ct))).
End ChaCha.

(** ** The AEADs as instances *)

(** A stream cipher with a tag over the associated data and the ciphertext. *)
Definition stream_aead (nk : nat) (keystream : bytes -> bytes -> nat -> bytes)
    (tag : bytes -> bytes -> bytes -> bytes -> bytes) : Aead := {|
  aead_encrypt key nonce aad pt :=
    if (length key =? nk) && (length nonce =? 12)
    then let ct := xor_bytes pt (keystream key nonce (length pt)) in Some (ct, tag key nonce aad ct)
    else None;
  aead_decrypt key nonce aad ct t :=
    if (length key =? nk) && (length nonce =? 12) && bool_decide (t = tag key nonce aad ct)
    then Some (xor_bytes ct (keystream key nonce (length ct)))
    else None;
|}.

Lemma stream_aead_laws nk keystream tag :
  (forall k n l, l <= length (keystream k n l)) -> (forall k n aad ct, length (tag k n aad ct) = 16) ->
  AeadLaws (stream_aead nk keystream tag).
Proof.
  intros Hks Htag.
  assert (forall k n m, length (xor_bytes m (keystream k n (length m))) = length m) as Hlen.
  { intros k n m. unfold xor_bytes. rewrite length_zip_with. specialize (Hks k n (length m)). lia. }
  split; cbn; intros k n aad m c t He; case_match eqn:Hc; simplify_eq; [|done|auto..].
  - rewrite bool_decide_eq_true_2, Hlen by done. cbn. f_equal. apply xor_bytes_cancel, Hks.
Qed.

Definition real_aes128gcm : Aead := stream_aead 16 Gcm.keystream Gcm.tag.
Definition real_chacha20poly1305 : Aead := stream_aead 32 ChaCha.keystream ChaCha.tag.

#[export] Instance real_aes128gcm_laws : AeadLaws real_aes128gcm.
Proof. apply stream_aead_laws; [apply Gcm.length_gcm_keystream|intros; apply length_be_bytes]. Qed.

#[export] Instance real_chacha20poly1305_laws : AeadLaws real_chacha20poly1305.
Proof.
  apply stream_aead_laws; [apply ChaCha.length_chacha_keystream|intros].
  unfold ChaCha.tag, ChaCha.poly1305, le_bytes. cbv zeta. by rewrite length_reverse, length_be_bytes.
Qed.

(** ** The curves *)

Module Field.
Section Field.
Context (p : BigN.t).

Definition mul (a b : BigN.t) : BigN.t := BigN.modulo (BigN.mul a b) p.
Definition add (a b : BigN.t) : BigN.t := BigN.modulo (BigN.add a b) p.
Definition sub (a b : BigN.t) : BigN.t := BigN.modulo (BigN.sub (BigN.add a p) b) p.

(** [a ^ e] with the exponent's bits from the top. *)
Definition pow (a : BigN.t) (e : Z) : BigN.t :=
  foldl (fun r i => let r := mul r r in if Z.testbit e i then mul r a else r) BigN.one
    (reverse (seqZ 0 (Z.log2 e + 1))).

(** The inverse modulo a prime. *)
Definition inv (a : BigN.t) : BigN.t := pow a (BigN.to_Z p - 2).
End Field.
End Field.

Definition big (z : Z) : BigN.t := BigN.of_N (Z.to_N z).

(** X25519 (RFC 7748): the Montgomery ladder. *)
Module Curve25519.
Definition p : BigN.t := Eval vm_compute in big (2 ^ 255 - 19).

Record Ladder := { x2 : BigN.t; z2 : BigN.t; x3 : BigN.t; z3 : BigN.t }.

(** One step for the point [x1], when the difference of the two is [x1]. *)
Definition step (x1 : BigN.t) (l : Ladder) : Ladder :=
  let a := Field.add p (x2 l) (z2 l) in
  let aa := Field.mul p a a in
  let b := Field.sub p (x2 l) (z2 l) in
  let bb := Field.mul p b b in
  let e := Field.sub p aa bb in
  let c := Field.add p (x3 l) (z3 l) in
  let d := Field.sub p (x3 l) (z3 l) in
  let da := Field.mul p d a in
  let cb := Field.mul p c b in
  let s := Field.add p da cb in
  let t := Field.sub p da cb in
  {| x3 := Field.mul p s s; z3 := Field.mul p x1 (Field.mul p t t);
     x2 := Field.mul p aa bb; z2 := Field.mul p e (Field.add p aa (Field.mul p (big 121665) e)) |}.

Definition swap (l : Ladder) : Ladder :=
  {| x2 := x3 l; z2 := z3 l; x3 := x2 l; z3 := z2 l |}.

Definition clamp (k : bytes) : Z :=
  Z.lor (Z.land (from_le k) (2 ^ 254 - 8)) (2 ^ 254).

Definition scalar_mult (k u : bytes) : bytes :=
  let k := clamp k in
  let x1 := big (Z.land (from_le u) (2 ^ 255 - 1)) in
  let l := foldl (fun l i => if Z.testbit k i then swap (step x1 (swap l)) else step x1 l)
             {| x2 := BigN.one; z2 := BigN.zero; x3 := x1; z3 := BigN.one |} (reverse (seqZ 0 255)) in
  le_bytes 32 (BigN.to_Z (Field.mul p (x2 l) (Field.inv p (z2 l)))).
End Curve25519.

#[export] Instance real_x25519 : X25519 := {
  x25519_public sk := Curve25519.scalar_mult sk (le_bytes 32 9);
  x25519_dh sk pk := Curve25519.scalar_mult sk pk;
  was_contributory z := bool_decide (z <> replicate 32 Byte.x00);
}.

(** P-256 (SP 800-186) in Jacobian coordinates. *)
Module Curve256.
Definition prime : Z := 2 ^ 256 - 2 ^ 224 + 2 ^ 192 + 2 ^ 96 - 1.
Definition order : Z := 0xffffffff00000000ffffffffffffffffbce6faada7179e84f3b9cac2fc632551.
Definition coeff_b : Z := 0x5ac635d8aa3a93e7b3ebbd55769886bc651d06b0cc53b0f63bce3c3e27d2604b.
Definition gx : Z := 0x6b17d1f2e12c4247f8bce6e563a440f277037d812deb33a0f4a13945d898c296.
Definition gy : Z := 0x4fe342e2fe1a7f9b8ee7eb4a7c0f9e162bce33576b315ececbb6406837bf51f5.

Definition p : BigN.t := Eval vm_compute in big prime.

Definition on_curve (x y : Z) : bool := ((y * y - (x * x * x - 3 * x + coeff_b)) mod prime =? 0)%Z.

Local Abbreviation mul := (Field.mul p).
Local Abbreviation add := (Field.add p).
Local Abbreviation sub := (Field.sub p).
Definition times (n : Z) (a : BigN.t) : BigN.t := mul (big n) a.

(** [jz = 0] is the point at infinity. *)
Record Jac := { jx : BigN.t; jy : BigN.t; jz : BigN.t }.
Definition infinity : Jac := {| jx := BigN.one; jy := BigN.one; jz := BigN.zero |}.

Definition double (P : Jac) : Jac :=
  let delta := mul (jz P) (jz P) in
  let gamma := mul (jy P) (jy P) in
  let beta := mul (jx P) gamma in
  let alpha := times 3 (mul (sub (jx P) delta) (add (jx P) delta)) in
  let x := sub (mul alpha alpha) (times 8 beta) in
  let yz := add (jy P) (jz P) in
  {| jx := x; jz := sub (sub (mul yz yz) gamma) delta;
     jy := sub (mul alpha (sub (times 4 beta) x)) (times 8 (mul gamma gamma)) |}.

Definition jadd (P Q : Jac) : Jac :=
  if BigN.eqb (jz P) BigN.zero then Q else if BigN.eqb (jz Q) BigN.zero then P else
  let zp := mul (jz P) (jz P) in
  let zq := mul (jz Q) (jz Q) in
  let u1 := mul (jx P) zq in
  let u2 := mul (jx Q) zp in
  let s1 := mul (jy P) (mul zq (jz Q)) in
  let s2 := mul (jy Q) (mul zp (jz P)) in
  let h := sub u2 u1 in
  let r := sub s2 s1 in
  if BigN.eqb h BigN.zero then if BigN.eqb r BigN.zero then double P else infinity else
  let hh := mul h h in
  let hhh := mul hh h in
  let v := mul u1 hh in
  let x := sub (sub (mul r r) hhh) (times 2 v) in
  {| jx := x; jy := sub (mul r (sub v x)) (mul s1 hhh); jz := mul (mul (jz P) (jz Q)) h |}.

Definition jmult (k : Z) (P : Z * Z) : Jac :=
  let P := {| jx := big P.1; jy := big P.2; jz := BigN.one |} in
  foldl (fun R i => let R := double R in if Z.testbit k i then jadd R P else R)
    infinity (reverse (seqZ 0 256)).

Definition to_affine (R : Jac) : Z * Z :=
  let i := Field.inv p (jz R) in
  let ii := mul i i in
  (BigN.to_Z (mul (jx R) ii), BigN.to_Z (mul (jy R) (mul ii i))).

Definition scalar_mult (k : Z) (P : Z * Z) : Z * Z := to_affine (jmult k P).

(** SEC 1 uncompressed points. *)
Definition from_sec1 (bs : bytes) : option (Z * Z) :=
  match bs with
  | Byte.x04 :: xy =>
      let x := from_be (take 32 xy) in
      let y := from_be (drop 32 xy) in
      if (length xy =? 64) && (x <? prime)%Z && (y <? prime)%Z && on_curve x y then Some (x, y) else None
  | _ => None
  end.
Definition to_sec1 (P : Z * Z) : bytes := Byte.x04 :: be_bytes 32 P.1 ++ be_bytes 32 P.2.
End Curve256.

#[export] Instance real_p256 : P256 := {
  p256_point := Z * Z;
  p256_scalar := Z;
  p256_from_sec1_bytes := Curve256.from_sec1;
  p256_to_uncompressed := Curve256.to_sec1;
  p256_secret_from_slice bs :=
    let d := from_be bs in
    if (length bs =? 32) && (0 <? d)%Z && (d <? Curve256.order)%Z then Some d else None;
  p256_secret_to_bytes d := be_bytes 32 d;
  p256_public d := Curve256.scalar_mult d (Curve256.gx, Curve256.gy);
  p256_dh d P := be_bytes 32 (Curve256.scalar_mult d P).1;
}.

(** ECDSA over P-256 with SHA-256 (FIPS 186-5), the nonce as RFC 6979 derives it. *)
Module Ecdsa.
Definition n : Z := Curve256.order.
Definition generator : Z * Z := (Curve256.gx, Curve256.gy).
Definition modulus : BigN.t := Eval vm_compute in big Curve256.order.
Definition invert (a : Z) : Z := BigN.to_Z (Field.inv modulus (big (a mod n))).

Definition hash_scalar (m : bytes) : Z := from_be (Sha2.digest m).

(** Section 3.2 of RFC 6979; [fuel] bounds the number of candidates. *)
Fixpoint candidates (fuel : nat) (K V : bytes) : Z :=
  match fuel with
  | O => 0
  | S fuel =>
      let V := Sha2.hmac K V in
      let k := from_be V in
      if (0 <? k)%Z && (k <? n)%Z then k
      else let K := Sha2.hmac K (V ++ [Byte.x00]) in candidates fuel K (Sha2.hmac K V)
  end.

Definition nonce (d : Z) (m : bytes) : Z :=
  let x := be_bytes 32 d ++ be_bytes 32 (hash_scalar m mod n) in
  let V := replicate 32 Byte.x01 in
  let K := Sha2.hmac (replicate 32 Byte.x00) (V ++ [Byte.x00] ++ x) in
  let V := Sha2.hmac K V in
  let K := Sha2.hmac K (V ++ [Byte.x01] ++ x) in
  let V := Sha2.hmac K V in
  candidates 4 K V.

Definition sign (d : Z) (m : bytes) : Z * Z :=
  let k := nonce d m in
  let r := ((Curve256.scalar_mult k generator).1 mod n)%Z in
  (r, (invert k * (hash_scalar m + r * d)) mod n)%Z.

Definition verify (Q : Z * Z) (m : bytes) (sig : Z * Z) : bool :=
  let '(r, s) := sig in
  let w := invert s in
  let R := Curve256.jadd (Curve256.jmult ((hash_scalar m * w) mod n)%Z generator)
             (Curve256.jmult ((r * w) mod n)%Z Q) in
  (0 <? r)%Z && (r <? n)%Z && (0 <? s)%Z && (s <? n)%Z &&
  negb (BigN.eqb (Curve256.jz R) BigN.zero) && ((Curve256.to_affine R).1 mod n =? r)%Z.

(** RFC 6979, A.2.5: P-256 and SHA-256. *)
Example rfc6979_sample :
  let d := 0xC9AFA9D845BA75166B5C215767B1D6934E50C3DB36E89B127B8A622B120F6721%Z in
  let sig := (0xEFD48B2AACB6A8FD1140DD9CD45E81D69D2C877B56AAF991C34D0EA84EAF3716,
              0xF7CB1C942D657C41D436C7A1B6E29F65F3E900DBB9AFF4064DC4AB2F843ACDA8)%Z in
  sign d (bstr "sample") = sig /\ verify (Curve256.scalar_mult d generator) (bstr "sample") sig = true.
Proof. vm_compute. done. Qed.
End Ecdsa.
