(* ===== verification/HpkeVectors.v ===== *)
(** * HpkeVectors: the known answers of RFC 9180

    src/hpke/vectors.rs and the tests of src/hpke/mod.rs that run them.  The
    vectors of the four suites are data; [run_kat_x25519_aes128] and the others are
    the tests.  With the algorithms of Standards the tests pass on the model of
    Hpke. *)

From S2P Require Import Prelude Core Crypto Hpke HpkeSession Standards.

(** ** vectors.rs *)

Record EncVec := { ev_seq : Z; ev_pt : bytes; ev_aad : bytes; ev_ct : bytes }.

Record ExportVec := { exporter_context : bytes; ex_l : Z; exported_value : bytes }.

Record Kat := {
  mode : Z;
  kat_info : bytes;
  kat_pk_rm : bytes;
  kat_sk_rm : bytes;
  kat_pk_em : bytes;
  kat_sk_em : bytes;
  kat_enc : bytes;
  kat_shared_secret : bytes;
  kat_key_bytes : bytes;
  kat_base_nonce : bytes;
  kat_exporter_secret : bytes;
  enc_vecs : list EncVec;
  exports : list ExportVec;
}.

Definition A1 : Kat := {|
  mode := 0;
  kat_info := unhex "4f6465206f6e2061204772656369616e2055726e";
  kat_sk_rm := unhex "4612c550263fc8ad58375df3f557aac531d26850903e55a9f23f21d8534e8ac8";
  kat_pk_rm := unhex "3948cfe0ad1ddb695d780e59077195da6c56506b027329794ab02bca80815c4d";
  kat_sk_em := unhex "52c4a758a802cd8b936eceea314432798d5baf2d7e9235dc084ab1b9cfa2f736";
  kat_pk_em := unhex "37fda3567bdbd628e88668c3c8d7e97d1d1253b6d4ea6d44c150f741f1bf4431";
  kat_enc := unhex "37fda3567bdbd628e88668c3c8d7e97d1d1253b6d4ea6d44c150f741f1bf4431";
  kat_shared_secret := unhex "fe0e18c9f024ce43799ae393c7e8fe8fce9d218875e8227b0187c04e7d2ea1fc";
  kat_key_bytes := unhex "4531685d41d65f03dc48f6b8302c05b0";
  kat_base_nonce := unhex "56d890e5accaaf011cff4b7d";
  kat_exporter_secret := unhex "45ff1c2e220db587171952c0592d5f5ebe103f1561a2614e38f2ffd47e99e3f8";
  enc_vecs := [
    {| ev_seq := 0; ev_aad := unhex "436f756e742d30";
       ev_pt := unhex "4265617574792069732074727574682c20747275746820626561757479";
       ev_ct := unhex "f938558b5d72f1a23810b4be2ab4f84331acc02fc97babc53a52ae8218a355a96d8770ac83d07bea87e13c512a" |};
    {| ev_seq := 1; ev_aad := unhex "436f756e742d31";
       ev_pt := unhex "4265617574792069732074727574682c20747275746820626561757479";
       ev_ct := unhex "af2d7e9ac9ae7e270f46ba1f975be53c09f8d875bdc8535458c2494e8a6eab251c03d0c22a56b8ca42c2063b84" |};
    {| ev_seq := 2; ev_aad := unhex "436f756e742d32";
       ev_pt := unhex "4265617574792069732074727574682c20747275746820626561757479";
       ev_ct := unhex "498dfcabd92e8acedc281e85af1cb4e3e31c7dc394a1ca20e173cb72516491588d96a19ad4a683518973dcc180" |}];
  exports := [
    {| exporter_context := []; ex_l := 32;
       exported_value := unhex "3853fe2b4035195a573ffc53856e77058e15d9ea064de3e59f4961d0095250ee" |};
    {| exporter_context := unhex "00"; ex_l := 32;
       exported_value := unhex "2e8f0b54673c7029649d4eb9d5e33bf1872cf76d623ff164ac185da9e88c21a5" |};
    {| exporter_context := unhex "54657374436f6e74657874"; ex_l := 32;
       exported_value := unhex "e9e43065102c3836401bed8c3c3c75ae46be1639869391d62c61f1ec7af54931" |}]
|}.

Definition A2 : Kat := {|
  mode := 0;
  kat_info := unhex "4f6465206f6e2061204772656369616e2055726e";
  kat_sk_rm := unhex "8057991eef8f1f1af18f4a9491d16a1ce333f695d4db8e38da75975c4478e0fb";
  kat_pk_rm := unhex "4310ee97d88cc1f088a5576c77ab0cf5c3ac797f3d95139c6c84b5429c59662a";
  kat_sk_em := unhex "f4ec9b33b792c372c1d2c2063507b684ef925b8c75a42dbcbf57d63ccd381600";
  kat_pk_em := unhex "1afa08d3dec047a643885163f1180476fa7ddb54c6a8029ea33f95796bf2ac4a";
  kat_enc := unhex "1afa08d3dec047a643885163f1180476fa7ddb54c6a8029ea33f95796bf2ac4a";
  kat_shared_secret := unhex "0bbe78490412b4bbea4812666f7916932b828bba79942424abb65244930d69a7";
  kat_key_bytes := unhex "ad2744de8e17f4ebba575b3f5f5a8fa1f69c2a07f6e7500bc60ca6e3e3ec1c91";
  kat_base_nonce := unhex "5c4d98150661b848853b547f";
  kat_exporter_secret := unhex "a3b010d4994890e2c6968a36f64470d3c824c8f5029942feb11e7a74b2921922";
  enc_vecs := [
    {| ev_seq := 0; ev_aad := unhex "436f756e742d30";
       ev_pt := unhex "4265617574792069732074727574682c20747275746820626561757479";
       ev_ct := unhex "1c5250d8034ec2b784ba2cfd69dbdb8af406cfe3ff938e131f0def8c8b60b4db21993c62ce81883d2dd1b51a28" |}];
  exports := [
    {| exporter_context := []; ex_l := 32;
       exported_value := unhex "4bbd6243b8bb54cec311fac9df81841b6fd61f56538a775e7c80a9f40160606e" |};
    {| exporter_context := unhex "00"; ex_l := 32;
       exported_value := unhex "8c1df14732580e5501b00f82b10a1647b40713191b7c1240ac80e2b68808ba69" |};
    {| exporter_context := unhex "54657374436f6e74657874"; ex_l := 32;
       exported_value := unhex "5acb09211139c43b3090489a9da433e8a30ee7188ba8b0a9a1ccf0c229283e53" |}]
|}.

Definition A3 : Kat := {|
  mode := 0;
  kat_info := unhex "4f6465206f6e2061204772656369616e2055726e";
  kat_sk_rm := unhex "f3ce7fdae57e1a310d87f1ebbde6f328be0a99cdbcadf4d6589cf29de4b8ffd2";
  kat_pk_rm := unhex "04fe8c19ce0905191ebc298a9245792531f26f0cece2460639e8bc39cb7f706a826a779b4cf969b8a0e539c7f62fb3d30ad6aa8f80e30f1d128aafd68a2ce72ea0";
  kat_sk_em := unhex "4995788ef4b9d6132b249ce59a77281493eb39af373d236a1fe415cb0c2d7beb";
  kat_pk_em := unhex "04a92719c6195d5085104f469a8b9814d5838ff72b60501e2c4466e5e67b325ac98536d7b61a1af4b78e5b7f951c0900be863c403ce65c9bfcb9382657222d18c4";
  kat_enc := unhex "04a92719c6195d5085104f469a8b9814d5838ff72b60501e2c4466e5e67b325ac98536d7b61a1af4b78e5b7f951c0900be863c403ce65c9bfcb9382657222d18c4";
  kat_shared_secret := unhex "c0d26aeab536609a572b07695d933b589dcf363ff9d93c93adea537aeabb8cb8";
  kat_key_bytes := unhex "868c066ef58aae6dc589b6cfdd18f97e";
  kat_base_nonce := unhex "4e0bc5018beba4bf004cca59";
  kat_exporter_secret := unhex "14ad94af484a7ad3ef40e9f3be99ecc6fa9036df9d4920548424df127ee0d99f";
  enc_vecs := [
    {| ev_seq := 0; ev_aad := unhex "436f756e742d30";
       ev_pt := unhex "4265617574792069732074727574682c20747275746820626561757479";
       ev_ct := unhex "5ad590bb8baa577f8619db35a36311226a896e7342a6d836d8b7bcd2f20b6c7f9076ac232e3ab2523f39513434" |}];
  exports := [
    {| exporter_context := []; ex_l := 32;
       exported_value := unhex "5e9bc3d236e1911d95e65b576a8a86d478fb827e8bdfe77b741b289890490d4d" |};
    {| exporter_context := unhex "00"; ex_l := 32;
       exported_value := unhex "6cff87658931bda83dc857e6353efe4987a201b849658d9b047aab4cf216e796" |};
    {| exporter_context := unhex "54657374436f6e74657874"; ex_l := 32;
       exported_value := unhex "d8f1ea7942adbba7412c6d431c62d01371ea476b823eb697e1f6e6cae1dab85a" |}]
|}.

Definition A5 : Kat := {|
  mode := 0;
  kat_info := unhex "4f6465206f6e2061204772656369616e2055726e";
  kat_sk_rm := unhex "a4d1c55836aa30f9b3fbb6ac98d338c877c2867dd3a77396d13f68d3ab150d3b";
  kat_pk_rm := unhex "04a697bffde9405c992883c5c439d6cc358170b51af72812333b015621dc0f40bad9bb726f68a5c013806a790ec716ab8669f84f6b694596c2987cf35baba2a006";
  kat_sk_em := unhex "7550253e1147aae48839c1f8af80d2770fb7a4c763afe7d0afa7e0f42a5b3689";
  kat_pk_em := unhex "04c07836a0206e04e31d8ae99bfd549380b072a1b1b82e563c935c095827824fc1559eac6fb9e3c70cd3193968994e7fe9781aa103f5b50e934b5b2f387e381291";
  kat_enc := unhex "04c07836a0206e04e31d8ae99bfd549380b072a1b1b82e563c935c095827824fc1559eac6fb9e3c70cd3193968994e7fe9781aa103f5b50e934b5b2f387e381291";
  kat_shared_secret := unhex "806520f82ef0b03c823b7fc524b6b55a088f566b9751b89551c170f4113bd850";
  kat_key_bytes := unhex "a8f45490a92a3b04d1dbf6cf2c3939ad8bfc9bfcb97c04bffe116730c9dfe3fc";
  kat_base_nonce := unhex "726b4390ed2209809f58c693";
  kat_exporter_secret := unhex "4f9bd9b3a8db7d7c3a5b9d44fdc1f6e37d5d77689ade5ec44a7242016e6aa205";
  enc_vecs := [
    {| ev_seq := 0; ev_aad := unhex "436f756e742d30";
       ev_pt := unhex "4265617574792069732074727574682c20747275746820626561757479";
       ev_ct := unhex "6469c41c5c81d3aa85432531ecf6460ec945bde1eb428cb2fedf7a29f5a685b4ccb0d057f03ea2952a27bb458b" |}];
  exports := [
    {| exporter_context := []; ex_l := 32;
       exported_value := unhex "9b13c510416ac977b553bf1741018809c246a695f45eff6d3b0356dbefe1e660" |};
    {| exporter_context := unhex "00"; ex_l := 32;
       exported_value := unhex "6c8b7be3a20a5684edecb4253619d9051ce8583baf850e0cb53c402bdcaf8ebb" |};
    {| exporter_context := unhex "54657374436f6e74657874"; ex_l := 32;
       exported_value := unhex "477a50d804c7c51941f69b8e32fe8288386ee1a84905fe4938d58972f24ac938" |}]
|}.

(** ** The tests *)

Section Tests.
Context `{Hkdf} `{X25519} `{P256} (aes128gcm chacha20 : Aead).

(** Encapsulation with a given ephemeral key. *)
Definition x25519_encap_deterministic (sk_em_bytes pk_r : bytes) : R RustlsError (bytes * bytes) :=
  pk_r_bytes ← try_into 32 "X25519 Encap: recipient pk must be 32 bytes" pk_r;
  let pk_em := x25519_public sk_em_bytes in
  let dh := x25519_dh sk_em_bytes pk_r_bytes in
  if negb (was_contributory dh) then Err (General "X25519 Encap: non-contributory DH") else
  let kem_context := pk_em ++ pk_r_bytes in
  shared_secret ← extract_and_expand 0x0020 32 dh kem_context;
  Ok (shared_secret, pk_em).

Definition p256_encap_deterministic (sk_em_bytes pk_r : bytes) : R RustlsError (bytes * bytes) :=
  pk_r ← ok_or (General "P-256 Encap: invalid recipient pk") (p256_from_sec1_bytes pk_r);
  sk_em ← ok_or (General "P-256 Encap: invalid ephemeral sk") (p256_secret_from_slice sk_em_bytes);
  let pk_em := p256_public sk_em in
  let dh := p256_dh sk_em pk_r in
  let enc := p256_to_uncompressed pk_em in
  let pk_r_bytes := p256_to_uncompressed pk_r in
  shared_secret ← extract_and_expand 0x0010 32 dh (enc ++ pk_r_bytes);
  Ok (shared_secret, enc).

(** The two loops at the end of the tests. *)
Definition check_export (suite_id : bytes) (km : HpkeKeyMaterial) (exp : ExportVec) : Test :=
  got ← expect (labeled_expand_checked suite_id (km_exporter_secret km) (bstr "sec")
                  (exporter_context exp) (ex_l exp));
  assert_eq got (exported_value exp).

Definition check_seal (A : AeadSuite) (km : HpkeKeyMaterial) (ev : EncVec) : Test :=
  let nonce := compute_nonce (km_base_nonce km) (ev_seq ev) in
  ct ← expect (suite_seal A (km_key km) nonce (ev_aad ev) (ev_pt ev));
  assert_eq ct (ev_ct ev).

Definition check_open (A : AeadSuite) (km : HpkeKeyMaterial) (ev : EncVec) : Test :=
  let nonce := compute_nonce (km_base_nonce km) (ev_seq ev) in
  pt ← expect (suite_open A (km_key km) nonce (ev_aad ev) (ev_ct ev));
  assert_eq pt (ev_pt ev).

Definition run_kat_x25519_aes128 (kat : Kat) : Test :=
  let A := (AeadAes128Gcm aes128gcm) in
  sk_em ← expect (try_into 32 "" (kat_sk_em kat));
  '(shared_secret, enc) ← expect (x25519_encap_deterministic sk_em (kat_pk_rm kat));
  _ ← assert_eq enc (kat_enc kat);
  _ ← assert_eq shared_secret (kat_shared_secret kat);
  let suite_id := bstr "HPKE" ++ unhex "002000010001" in
  km ← expect (key_schedule_base suite_id shared_secret (kat_info kat) (NK A));
  _ ← assert_eq (km_key km) (kat_key_bytes kat);
  _ ← assert_eq (km_base_nonce km) (kat_base_nonce kat);
  _ ← assert_eq (km_exporter_secret km) (kat_exporter_secret kat);
  _ ← for_each (check_export suite_id km) (exports kat);
  for_each (fun ev => _ ← check_seal A km ev; check_open A km ev) (enc_vecs kat).

Definition run_kat_x25519_chacha20 (kat : Kat) : Test :=
  let A := (AeadChacha20 chacha20) in
  sk_em ← expect (try_into 32 "" (kat_sk_em kat));
  '(shared_secret, enc) ← expect (x25519_encap_deterministic sk_em (kat_pk_rm kat));
  _ ← assert_eq enc (kat_enc kat);
  _ ← assert_eq shared_secret (kat_shared_secret kat);
  let suite_id := bstr "HPKE" ++ unhex "002000010003" in
  km ← expect (key_schedule_base suite_id shared_secret (kat_info kat) (NK A));
  _ ← assert_eq (km_key km) (kat_key_bytes kat);
  _ ← assert_eq (km_base_nonce km) (kat_base_nonce kat);
  _ ← assert_eq (km_exporter_secret km) (kat_exporter_secret kat);
  _ ← for_each (check_export suite_id km) (exports kat);
  for_each (check_seal A km) (enc_vecs kat).

Definition run_kat_p256_aes128 (kat : Kat) : Test :=
  let A := (AeadAes128Gcm aes128gcm) in
  '(shared_secret, enc) ← expect (p256_encap_deterministic (kat_sk_em kat) (kat_pk_rm kat));
  _ ← assert_eq enc (kat_enc kat);
  _ ← assert_eq shared_secret (kat_shared_secret kat);
  let suite_id := bstr "HPKE" ++ unhex "001000010001" in
  km ← expect (key_schedule_base suite_id shared_secret (kat_info kat) (NK A));
  _ ← assert_eq (km_key km) (kat_key_bytes kat);
  _ ← assert_eq (km_base_nonce km) (kat_base_nonce kat);
  _ ← assert_eq (km_exporter_secret km) (kat_exporter_secret kat);
  _ ← for_each (check_export suite_id km) (exports kat);
  for_each (check_seal A km) (enc_vecs kat).

Definition run_kat_p256_chacha20 (kat : Kat) : Test :=
  let A := (AeadChacha20 chacha20) in
  '(shared_secret, enc) ← expect (p256_encap_deterministic (kat_sk_em kat) (kat_pk_rm kat));
  _ ← assert_eq enc (kat_enc kat);
  _ ← assert_eq shared_secret (kat_shared_secret kat);
  let suite_id := bstr "HPKE" ++ unhex "001000010003" in
  km ← expect (key_schedule_base suite_id shared_secret (kat_info kat) (NK A));
  _ ← assert_eq (km_key km) (kat_key_bytes kat);
  _ ← assert_eq (km_base_nonce km) (kat_base_nonce kat);
  _ ← assert_eq (km_exporter_secret km) (kat_exporter_secret kat);
  _ ← for_each (check_export suite_id km) (exports kat);
  for_each (check_seal A km) (enc_vecs kat).

End Tests.

Theorem kat_tests_pass :
  run_kat_x25519_aes128 real_aes128gcm A1 = Ok tt /\
  run_kat_x25519_chacha20 real_chacha20poly1305 A2 = Ok tt /\
  run_kat_p256_aes128 real_aes128gcm A3 = Ok tt /\
  run_kat_p256_chacha20 real_chacha20poly1305 A5 = Ok tt.
Proof. split_and!; vm_compute; reflexivity. Qed.
