(* ===== verification/HpkeTests.v ===== *)
(** * HpkeTests: the tests of src/hpke

    The unit tests of kdf.rs, kem.rs, aead.rs and mod.rs (the known-answer tests are
    in HpkeVectors), with the algorithms of Standards.  What a test draws from the
    random generator is an argument; the tests pass for the draws of [own] and
    [ephemeral]. *)

From stdpp Require Import pretty.
From S2P Require Import Prelude Core Crypto Hpke HpkeSession Standards HpkeVectors.

Abbreviation aes := (AeadAes128Gcm real_aes128gcm).
Abbreviation chacha := (AeadChacha20 real_chacha20poly1305).
Definition suite_id_x25519_aes : bytes := bstr "HPKE" ++ unhex "002000010001".

(** ** kdf.rs *)

Definition labeled_extract_returns_32_bytes : Test :=
  prk ← expect (labeled_extract suite_id_x25519_aes [] (bstr "secret") []);
  assert_eq (length prk) 32.

Definition labeled_expand_varying_l : Test :=
  prk ← expect (labeled_extract suite_id_x25519_aes [] (bstr "key") []);
  for_each (fun l =>
    out ← expect (labeled_expand suite_id_x25519_aes prk (bstr "key") (bstr "ctx") l);
    assert_eq (Z.of_nat (length out)) l) [12%Z; 16%Z; 32%Z].

Definition labeled_expand_short_prk_returns_err_not_panic : Test :=
  let short_prk := replicate 4 Byte.x00 in
  assert (is_err (labeled_expand suite_id_x25519_aes short_prk (bstr "key") (bstr "ctx") 16)).

Definition labeled_expand_oversized_l_returns_err_not_panic : Test :=
  prk ← expect (labeled_extract suite_id_x25519_aes [] (bstr "key") []);
  assert (is_err (labeled_expand suite_id_x25519_aes prk (bstr "key") (bstr "ctx") (255 * 32 + 1))).

(** ** kem.rs *)

(** The two round-trip tests differ in the KEM. *)
Definition encap_decap_roundtrip (K : DhKem) (d d' : Draws) : Test :=
  '(pk_r, sk_r) ← expect (kem_generate K d);
  '(ss_enc, enc) ← expect (kem_encap K d' pk_r);
  ss_dec ← expect (kem_decap K sk_r enc);
  _ ← assert_eq ss_enc ss_dec;
  assert_eq (length enc) (NENC K).

Definition x25519_generate_and_encap_decap_roundtrip : Draws -> Draws -> Test := encap_decap_roundtrip KemX25519.
Definition p256_generate_and_encap_decap_roundtrip : Draws -> Draws -> Test := encap_decap_roundtrip (KemP256 1).

Definition x25519_kem_suite_id : Test := assert_eq (kem_suite_id (KEM_ID KemX25519)) (bstr "KEM" ++ unhex "0020").
Definition p256_kem_suite_id : Test := assert_eq (kem_suite_id (KEM_ID (KemP256 1))) (bstr "KEM" ++ unhex "0010").

(** The same test in kem.rs and mod.rs. *)
Definition x25519_noncontributory_rejected : Test :=
  let small_order_pk := replicate 32 Byte.x00 in
  let sk := replicate 32 Byte.x01 in
  let dh := x25519_dh sk small_order_pk in
  assert (negb (was_contributory dh)).

Definition p256_invalid_public_key_rejected (d : Draws) : Test :=
  let bad_pk := replicate 65 Byte.x00 in
  _ ← assert (is_err (kem_encap (KemP256 1) d bad_pk));
  assert (is_err (kem_decap (KemP256 1) (replicate 32 Byte.x00) bad_pk)).

(** ** aead.rs *)

Definition seal_open_roundtrip (A : AeadSuite) (key aad pt : bytes) : Test :=
  let nonce := replicate 12 Byte.x00 in
  ct ← expect (suite_seal A key nonce aad pt);
  _ ← assert_eq (length ct) (length pt + NT A);
  recovered ← expect (suite_open A key nonce aad ct);
  assert_eq recovered pt.

(** [let last = ct.len() - 1; ct[last] ^= flip;] *)
Definition bad_tag (A : AeadSuite) (key : bytes) (flip : byte) : Test :=
  let nonce := replicate 12 Byte.x00 in
  ct ← expect (suite_seal A key nonce [] (bstr "pt"));
  let ct := alter (fun b => xor_byte b flip) (length ct - 1) ct in
  assert (is_err (suite_open A key nonce [] ct)).

Definition zero_key_aes128 : bytes := replicate 16 Byte.x00.
Definition zero_key_chacha20 : bytes := replicate 32 Byte.x00.
Definition aes128gcm_roundtrip : Test := seal_open_roundtrip aes zero_key_aes128 (bstr "test-aad") (bstr "hello world").
Definition aes128gcm_bad_tag_rejected : Test := bad_tag aes zero_key_aes128 (u8 0xff).
Definition chacha20_roundtrip : Test := seal_open_roundtrip chacha zero_key_chacha20 (bstr "aad") (bstr "secret message").
Definition chacha20_bad_tag_rejected : Test := bad_tag chacha zero_key_chacha20 (u8 0x01).

(** ** mod.rs *)

#[local] Instance HpkeKem_eq_decision : EqDecision HpkeKem.
Proof. solve_decision. Defined.
#[local] Instance HpkeKdf_eq_decision : EqDecision HpkeKdf.
Proof. solve_decision. Defined.
#[local] Instance HpkeAead_eq_decision : EqDecision HpkeAead.
Proof. solve_decision. Defined.
#[local] Instance HpkeSuite_eq_decision : EqDecision HpkeSuite.
Proof. solve_decision. Defined.

Definition suite_ids_correct : Test :=
  for_each (fun '(KA, hs) => s ← suite (KA : DhKem * AeadSuite).1 KA.2; assert_eq s hs)
    (zip (pure_hpke_suites 1 real_aes128gcm real_chacha20poly1305)
       [{| hs_kem := DHKEM_X25519_HKDF_SHA256; hs_kdf_id := HKDF_SHA256; hs_aead_id := AES_128_GCM |};
        {| hs_kem := DHKEM_X25519_HKDF_SHA256; hs_kdf_id := HKDF_SHA256; hs_aead_id := CHACHA20_POLY_1305 |};
        {| hs_kem := DHKEM_P256_HKDF_SHA256; hs_kdf_id := HKDF_SHA256; hs_aead_id := AES_128_GCM |};
        {| hs_kem := DHKEM_P256_HKDF_SHA256; hs_kdf_id := HKDF_SHA256; hs_aead_id := CHACHA20_POLY_1305 |}]).

Section Roundtrips.
Context (K : DhKem) (A : AeadSuite) (d d' : Draws).

Definition roundtrip_single : Test :=
  '(pk, sk) ← expect (generate_key_pair K d);
  let info := bstr "test-info" in
  let aad := bstr "test-aad" in
  let pt := bstr "hello hpke world" in
  '(enc, ct) ← expect (hpke_seal K A d' info aad pt pk);
  recovered ← expect (hpke_open K A enc info aad ct sk);
  assert_eq recovered pt.

(** [for i in 0u8..3] with the two contexts. *)
Fixpoint exchange (n i : nat) (sealer opener : HpkeCtx) : Test :=
  match n with
  | O => Ok tt
  | S n =>
      let pt := bstr ("message " +:+ pretty i) in
      let aad := bstr ("aad " +:+ pretty i) in
      let '(sealer, r) := sealer_seal A sealer aad pt in
      ct ← expect r;
      let '(opener, r) := opener_open A opener aad ct in
      recovered ← expect r;
      _ ← assert_eq recovered pt;
      exchange n (S i) sealer opener
  end.

Definition roundtrip_multi : Test :=
  '(pk, sk) ← expect (generate_key_pair K d);
  let info := bstr "multi-message-test" in
  '(enc, sealer) ← expect (setup_sealer K A d' info pk);
  opener ← expect (setup_opener K A enc info sk);
  exchange 3 0 sealer opener.

Definition export_roundtrip : Test :=
  '(pk, sk) ← expect (generate_key_pair K d);
  let info := bstr "export-roundtrip-test" in
  '(enc, sender_ctx) ← expect (setup_sender K A d' info pk);
  receiver_ctx ← expect (setup_receiver K A enc info sk);
  let contexts := [[]; [Byte.x00]; bstr "TestContext"; bstr "arbitrary-app-label"] in
  _ ← for_each (fun ctx => for_each (fun l =>
        sender_out ← expect (export sender_ctx ctx l);
        receiver_out ← expect (opener_export receiver_ctx ctx l);
        _ ← assert_eq sender_out receiver_out;
        assert_eq (Z.of_nat (length sender_out)) l) [0%Z; 1%Z; 16%Z; 32%Z; 64%Z]) contexts;
  assert (negb (bool_decide (ctx_exporter_secret sender_ctx = replicate 32 Byte.x00))).

Definition export_overlength_returns_err : Test :=
  '(pk, sk) ← expect (generate_key_pair K d);
  '(enc, sender_ctx) ← expect (setup_sender K A d' (bstr "info") pk);
  receiver_ctx ← expect (setup_receiver K A enc (bstr "info") sk);
  let too_large := (255 * 32 + 1)%Z in
  _ ← assert (is_err (export sender_ctx (bstr "ctx") too_large));
  assert (is_err (opener_export receiver_ctx (bstr "ctx") too_large)).

(** [roundtrip_x25519_aes128] and its three siblings. *)
Definition roundtrips : Test := _ ← roundtrip_single; roundtrip_multi.
End Roundtrips.

(** The context both overflow tests build. *)
Definition zero_ctx (seq : Z) : HpkeCtx :=
  {| ctx_key := replicate 16 Byte.x00; ctx_base_nonce := replicate 12 Byte.x00; ctx_seq := seq;
     ctx_suite_id := suite_id_x25519_aes; ctx_exporter_secret := replicate 32 Byte.x00 |}.

Definition seq_overflow_aborts_sealer : Test :=
  let result := (sealer_seal aes (zero_ctx U64_MAX) (bstr "aad") (bstr "plaintext")).2 in
  assert (is_err result).

Definition seq_overflow_aborts_opener : Test :=
  let '(sealer, r) := sealer_seal aes (zero_ctx (U64_MAX - 1)) [] (bstr "hello") in
  ct ← expect r;
  let '(_, r) := opener_open aes (zero_ctx (U64_MAX - 1)) [] ct in
  _ ← expect r;
  let '(_, ct2) := sealer_seal aes sealer [] (bstr "hello2") in
  assert (is_err ct2).

Definition nonce_xor_is_correct : Test :=
  let base_nonce := replicate 12 (u8 0x11) in
  _ ← assert_eq (compute_nonce base_nonce 0) base_nonce;
  assert_eq (compute_nonce base_nonce 1) (alter (fun b => xor_byte b Byte.x01) 11 base_nonce).

Definition typed_const_suites_correct : Test :=
  for_each (fun '(KA, kem) => s ← suite (KA : DhKem * AeadSuite).1 KA.2; assert_eq (hs_kem s) kem)
    (zip (pure_hpke_suites 1 real_aes128gcm real_chacha20poly1305)
       [DHKEM_X25519_HKDF_SHA256; DHKEM_X25519_HKDF_SHA256; DHKEM_P256_HKDF_SHA256; DHKEM_P256_HKDF_SHA256]).

(** ** Running them *)

Definition own : Draws := fun _ => inr (unhex "4612c550263fc8ad58375df3f557aac531d26850903e55a9f23f21d8534e8ac8").
Definition ephemeral : Draws := fun _ => inr (unhex "52c4a758a802cd8b936eceea314432798d5baf2d7e9235dc084ab1b9cfa2f736").

Definition component_tests : list Test :=
  [labeled_extract_returns_32_bytes; labeled_expand_varying_l; labeled_expand_short_prk_returns_err_not_panic;
   labeled_expand_oversized_l_returns_err_not_panic;
   x25519_generate_and_encap_decap_roundtrip own ephemeral; p256_generate_and_encap_decap_roundtrip own ephemeral;
   x25519_kem_suite_id; p256_kem_suite_id; x25519_noncontributory_rejected; p256_invalid_public_key_rejected ephemeral;
   aes128gcm_roundtrip; aes128gcm_bad_tag_rejected; chacha20_roundtrip; chacha20_bad_tag_rejected;
   suite_ids_correct; seq_overflow_aborts_sealer; seq_overflow_aborts_opener; nonce_xor_is_correct;
   typed_const_suites_correct; export_overlength_returns_err KemX25519 aes own ephemeral].

Definition session_tests : list Test :=
  mjoin ((fun KA : DhKem * AeadSuite => [roundtrips KA.1 KA.2 own ephemeral; export_roundtrip KA.1 KA.2 own ephemeral])
    <$> pure_hpke_suites 1 real_aes128gcm real_chacha20poly1305).

Theorem hpke_tests_pass : forallb is_ok (component_tests ++ session_tests) = true.
Proof. vm_compute. reflexivity. Qed.
