(* ===== verification/CtLogs.v ===== *)
(** * CtLogs: the table of known CT logs

    src/verifier/ct_logs.rs of the adapter, and the log list of sct.rs.  The table
    is data; what can go wrong with it is that an identifier does not belong to its
    key, that a key is not a key of the announced algorithm, or that two entries
    hide each other.  Each of these is checked against SHA-256 and P-256 as the
    standards define them. *)

From S2P Require Import Prelude Core Crypto Hpke Standards Verifier Sct.

(** ** sct.rs: [CtLogList] *)

Abbreviation CtLogList := (list CtLog).

Definition empty : CtLogList := [].
Definition is_empty (logs : CtLogList) : bool := match logs with [] => true | _ => false end.

(** ** ct_logs.rs *)

Definition GOOGLE_ARGON_2026H1_SPKI_DER : bytes := unhex
  "3059301306072a8648ce3d020106082a8648ce3d0301070342000407fc1ee8638eff1c318afcb81e192b6050003e8e9eda7737e3a5a8da8d94f86be83d648f273f75b3fc6b12f037064f645875145d5652e66a2b144cec81d1ea3e".
Definition GOOGLE_ARGON_2026H1_LOG_ID : bytes := unhex
  "0e5794bcf3aea93e331b2c9907b3f790df9bc23d713225dd21a925ac61c54e21".

Definition GOOGLE_ARGON_2026H2_SPKI_DER : bytes := unhex
  "3059301306072a8648ce3d020106082a8648ce3d030107034200042a3a678bfeba0c862b4a518ae917fe7ba17673fdbc654bc327bf4df35fa0ca298011203278d67ef934608c75a0f535509ca1d3494d13d53b6a0eea459d241322".
Definition GOOGLE_ARGON_2026H2_LOG_ID : bytes := unhex
  "d76d7d10d1a7f577c2c7e95fd700bff982c9335a65e1d0b3017317c0c8c56977".

Definition GOOGLE_XENON_2026H1_SPKI_DER : bytes := unhex
  "3059301306072a8648ce3d020106082a8648ce3d030107034200043a1fc8bbced5904734caca010427211ce2293d92bb9145c75a3ea5d4f212e6e8e643baf37bc238affc238a0556eb030a30cc636cd93cbef57b94ba94d3bf884c".
Definition GOOGLE_XENON_2026H1_LOG_ID : bytes := unhex
  "969764bf555897adf743876837084277e9f03ad5f6a4f3366e46a43f0fcaa9c6".

Definition CLOUDFLARE_NIMBUS_2026_SPKI_DER : bytes := unhex
  "3059301306072a8648ce3d020106082a8648ce3d03010703420004d85c614fac6ad220804e8a42f604ad4bd4b11c798e2932de695359ebad78f3c02af2d0115d057eebe8c1d3df37bf9164466e0e2713eabb6f46275886ef4021a3".
Definition CLOUDFLARE_NIMBUS_2026_LOG_ID : bytes := unhex
  "cb38f715897c84a1445f5bc1ddfbc96ef29a59cd470a690585b0cb14c31458e7".

Definition CLOUDFLARE_NIMBUS_2027_SPKI_DER : bytes := unhex
  "3059301306072a8648ce3d020106082a8648ce3d0301070342000462377f8c4d04a0084d05b7dc361ad36fb174c75d0a64af2bd920e3c7519d8c9ef9849ac7c7638243e0574635e2f9cce8444375bb48fd71697c77a3a83cc3e881".
Definition CLOUDFLARE_NIMBUS_2027_LOG_ID : bytes := unhex
  "4c63dc98e59c1dab88f61e8a3ddeae8fab44a3377b5f9b94c3fba19cfcc1be26".

Definition GOOGLE_ARGON_2027H1_SPKI_DER : bytes := unhex
  "3059301306072a8648ce3d020106082a8648ce3d03010703420004287466d07ff351a140e88773e5c1af18eded08f4327c632026654138fc8a00fea618cd4888d5e2e022e898e532623d1837be29f9e19502914cb0ce21fe3cc2b0".
Definition GOOGLE_ARGON_2027H1_LOG_ID : bytes := unhex
  "d6d58da9d01753f36a4aa0c7574902afebc7dc2cd38cd9f764c80c89191e9f02".

(** [OnceLock::get_or_init]: every call sees this list. *)
Definition known_ct_logs : CtLogList := [
  {| ct_id := GOOGLE_ARGON_2026H1_LOG_ID; public_key_der := GOOGLE_ARGON_2026H1_SPKI_DER; key_alg := EcdsaP256Sha256 |};
  {| ct_id := GOOGLE_ARGON_2026H2_LOG_ID; public_key_der := GOOGLE_ARGON_2026H2_SPKI_DER; key_alg := EcdsaP256Sha256 |};
  {| ct_id := GOOGLE_XENON_2026H1_LOG_ID; public_key_der := GOOGLE_XENON_2026H1_SPKI_DER; key_alg := EcdsaP256Sha256 |};
  {| ct_id := CLOUDFLARE_NIMBUS_2026_LOG_ID; public_key_der := CLOUDFLARE_NIMBUS_2026_SPKI_DER; key_alg := EcdsaP256Sha256 |};
  {| ct_id := CLOUDFLARE_NIMBUS_2027_LOG_ID; public_key_der := CLOUDFLARE_NIMBUS_2027_SPKI_DER; key_alg := EcdsaP256Sha256 |};
  {| ct_id := GOOGLE_ARGON_2027H1_LOG_ID; public_key_der := GOOGLE_ARGON_2027H1_SPKI_DER; key_alg := EcdsaP256Sha256 |}].

(** ** The table is right *)

(** The point in a SubjectPublicKeyInfo of a P-256 key: a fixed DER prefix
    (id-ecPublicKey, prime256v1, a bit string of 66 bytes) and an uncompressed
    point of the curve. *)
Definition SPKI_P256_PREFIX : bytes := unhex "3059301306072a8648ce3d020106082a8648ce3d030107034200".
Definition spki_p256 (der : bytes) : option (Z * Z) :=
  if bool_decide (take 26 der = SPKI_P256_PREFIX) then Curve256.from_sec1 (drop 26 der) else None.

(** What an entry has to be, as a test. *)
Definition entry_ok (logs : CtLogList) (log : CtLog) : bool :=
  bool_decide (ct_id log = Sha2.digest (public_key_der log)) &&
  match key_alg log with EcdsaP256Sha256 => true | Ed25519 => false end &&
  bool_decide (spki_p256 (public_key_der log) <> None).

Lemma known_entries_ok : forallb (entry_ok known_ct_logs) known_ct_logs = true.
Proof. vm_compute. reflexivity. Qed.

Lemma known_ids_distinct : NoDup (ct_id <$> known_ct_logs).
Proof. apply (bool_decide_unpack _). vm_compute. exact I. Qed.

Lemma find_log_first logs log :
  NoDup (ct_id <$> logs) -> log ∈ logs -> find_log logs (ct_id log) = Some log.
Proof.
  unfold find_log. induction logs as [|l logs IH]; [by intros ? ?%not_elem_of_nil|].
  rewrite fmap_cons, NoDup_cons, elem_of_cons. intros [Hn Hd] [->|Hin]; cbn.
  - by rewrite bool_decide_eq_true_2.
  - rewrite bool_decide_eq_false_2; [by apply IH|]. intros He. apply Hn.
    rewrite He. by apply list_elem_of_fmap_2.
Qed.

(** Every known log is listed under the SHA-256 of its key (RFC 6962, section
    3.2) and found by it, and its key is a point of P-256, the curve of the
    algorithm it is listed with. *)
Theorem known_ct_logs_sound log :
  log ∈ known_ct_logs ->
  ct_id log = sha256 (public_key_der log) /\ length (ct_id log) = 32 /\
  find_log known_ct_logs (sha256 (public_key_der log)) = Some log /\
  key_alg log = EcdsaP256Sha256 /\ exists P, spki_p256 (public_key_der log) = Some P.
Proof.
  intros Hin. pose proof (proj1 (forallb_forall _ _) known_entries_ok log (proj1 (list_elem_of_In _ _) Hin)) as He.
  unfold entry_ok in He. apply andb_true_iff in He as [He Hs]. apply andb_true_iff in He as [Hid Ha].
  apply bool_decide_eq_true in Hid, Hs. assert (ct_id log = sha256 (public_key_der log)) as Hid' by exact Hid.
  split_and!.
  - exact Hid'.
  - rewrite Hid'. apply sha256_length.
  - rewrite <- Hid'. apply find_log_first; [apply known_ids_distinct|exact Hin].
  - by destruct (key_alg log).
  - destruct (spki_p256 (public_key_der log)) as [P|]; [eauto|done].
Qed.

(** The table is not empty. *)
Lemma known_ct_logs_sound_witness :
  find_log known_ct_logs (sha256 CLOUDFLARE_NIMBUS_2026_SPKI_DER) = known_ct_logs !! 3.
Proof.
  eapply (known_ct_logs_sound (Build_CtLog CLOUDFLARE_NIMBUS_2026_LOG_ID CLOUDFLARE_NIMBUS_2026_SPKI_DER EcdsaP256Sha256)).
  do 3 apply list_elem_of_further. apply list_elem_of_here.
Defined.
