(* ===== verification/EchConfig.v ===== *)
(** * EchConfig: minting an ECHConfigList

    crates/oxitls-adapter-rustls-rustcrypto/src/hpke/ech_config.rs: the encoding
    of one configuration, its two envelopes, and [generate_ech_config_list].
    [ech_end_to_end] composes it with HPKE: a client that reads the list seals for
    the server that holds the private key. *)

From S2P Require Import Prelude Core Crypto Hpke HpkeSession.

Record GeneratedEchConfig := {
  config_list : bytes;
  private_key : bytes;
  public_key : bytes;
  config_id : byte;
}.

Record SuiteIds := { ids_kem_id : Z; ids_kdf_id : Z; ids_aead_id : Z }.

(** [u16::try_from(len)] and [u8::try_from(len)] of a [usize]. *)
Definition try_from_len (max : Z) (msg : string) (n : nat) : R RustlsError Z :=
  if (Z.of_nat n <=? max)%Z then Ok (Z.of_nat n) else Err (General msg).

Definition encode_contents (ids : SuiteIds) (config_id : byte) (pk_bytes public_name_bytes : bytes)
  (maximum_name_length : byte) : R RustlsError bytes :=
  let contents := [config_id] ++ be_bytes 2 (ids_kem_id ids) in
  pk_len ← try_from_len U16_MAX "ECHConfig: public key length exceeds u16" (length pk_bytes);
  let contents := contents ++ be_bytes 2 pk_len ++ pk_bytes in
  let contents := contents ++ be_bytes 2 4 ++ be_bytes 2 (ids_kdf_id ids) ++ be_bytes 2 (ids_aead_id ids) in
  let contents := contents ++ [maximum_name_length] in
  pn_len ← try_from_len U8_MAX "ECHConfig: public_name length exceeds u8" (length public_name_bytes);
  let contents := contents ++ [u8 pn_len] ++ public_name_bytes in
  Ok (contents ++ be_bytes 2 0).

Definition wrap_config_list (contents : bytes) : R RustlsError bytes :=
  contents_len ← try_from_len U16_MAX "ECHConfig: contents length exceeds u16" (length contents);
  let ech_config := be_bytes 2 0xfe0d ++ be_bytes 2 contents_len ++ contents in
  list_len ← try_from_len U16_MAX "ECHConfigList: total length exceeds u16" (length ech_config);
  Ok (be_bytes 2 list_len ++ ech_config).

Section Ech.
(** [rustls::client::EchConfig::new] on the bytes and the suites: the message of
    its error, if it has one. *)
Context `{Hkdf} (ech_config_new : bytes -> list (DhKem * AeadSuite) -> string + unit)
  (suites : list (DhKem * AeadSuite)).

Definition generate_ech_config_list (draws : Draws) (S : DhKem * AeadSuite) (config_id : byte)
  (public_name : string) (maximum_name_length : byte) : R RustlsError GeneratedEchConfig :=
  '(pk, sk) ← generate_key_pair S.1 draws;
  hs ← map_err (fun e : Empty_set => match e with end) (suite S.1 S.2);
  let ids := {| ids_kem_id := kem_to_u16 (hs_kem hs); ids_kdf_id := kdf_to_u16 (hs_kdf_id hs);
                ids_aead_id := aead_to_u16 (hs_aead_id hs) |} in
  contents ← encode_contents ids config_id pk (bstr public_name) maximum_name_length;
  config_list ← wrap_config_list contents;
  _ ← map_err (fun e => General ("ECHConfig: self-validation failed (encoding bug): " +:+ e))
        (of_sum (ech_config_new config_list suites));
  Ok {| config_list := config_list; private_key := sk; public_key := pk; config_id := config_id |}.
End Ech.

(** ** The layout of draft-ietf-tls-esni-18, section 4 *)

(** A reader of the layout: fixed-size fields and length-prefixed fields. *)
Definition take_n (n : nat) (bs : bytes) : option (bytes * bytes) :=
  if n <=? length bs then Some (take n bs, drop n bs) else None.

Definition take_prefixed (w : nat) (bs : bytes) : option (bytes * bytes) :=
  '(len, bs) ← take_n w bs; take_n (be_usize len) bs.

Definition take_u16 (bs : bytes) : option (Z * bytes) :=
  '(v, bs) ← take_n 2 bs; Some (from_be v, bs).

Record EchFields := {
  f_config_id : bytes; f_kem : Z; f_public_key : bytes; f_cipher_suites : list (Z * Z);
  f_maximum_name_length : bytes; f_public_name : bytes; f_extensions : bytes;
}.

(** One cipher suite is a KDF id and an AEAD id; other sizes are not read. *)
Definition read_one_suite (bs : bytes) : option (list (Z * Z)) :=
  '(kdf, bs) ← take_u16 bs; '(aead, bs) ← take_u16 bs;
  match bs with [] => Some [(kdf, aead)] | _ => None end.

Definition read_ech_contents (bs : bytes) : option EchFields :=
  '(id, bs) ← take_n 1 bs; '(kem, bs) ← take_u16 bs; '(pk, bs) ← take_prefixed 2 bs;
  '(cs, bs) ← take_prefixed 2 bs; suites ← read_one_suite cs;
  '(mx, bs) ← take_n 1 bs; '(name, bs) ← take_prefixed 1 bs; '(exts, bs) ← take_prefixed 2 bs;
  match bs with
  | [] => Some {| f_config_id := id; f_kem := kem; f_public_key := pk; f_cipher_suites := suites;
                  f_maximum_name_length := mx; f_public_name := name; f_extensions := exts |}
  | _ => None
  end.

(** A list of exactly one configuration of version [0xfe0d]. *)
Definition read_ech_list (bs : bytes) : option EchFields :=
  '(body, rest) ← take_prefixed 2 bs; '(version, body) ← take_u16 body;
  '(contents, rest') ← take_prefixed 2 body;
  match rest, rest' with
  | [], [] => if (version =? 0xfe0d)%Z then read_ech_contents contents else None
  | _, _ => None
  end.

Lemma take_n_app n a r : length a = n -> take_n n (a ++ r) = Some (a, r).
Proof.
  intros <-. unfold take_n. rewrite (proj2 (Nat.leb_le _ _)) by (rewrite length_app; lia).
  by rewrite take_app_length, drop_app_length.
Qed.

Lemma take_prefixed_app w a r :
  (Z.of_nat (length a) < 256 ^ Z.of_nat w)%Z ->
  take_prefixed w (be_bytes w (Z.of_nat (length a)) ++ a ++ r) = Some (a, r).
Proof.
  intros Ha. unfold take_prefixed. rewrite take_n_app by apply length_be_bytes. cbn [mbind option_bind].
  rewrite be_usize_be_bytes by done. by apply take_n_app.
Qed.

Lemma take_u16_app z r : in_range U16_MAX z -> take_u16 (be_bytes 2 z ++ r) = Some (z, r).
Proof.
  unfold in_range, U16_MAX. intros Hz. unfold take_u16. rewrite take_n_app by apply length_be_bytes.
  cbn [mbind option_bind]. rewrite from_be_be_bytes_small; [done|]. change (256 ^ Z.of_nat 2)%Z with 65536%Z. lia.
Qed.

Definition ids_ok (ids : SuiteIds) : Prop :=
  in_range U16_MAX (ids_kem_id ids) /\ in_range U16_MAX (ids_kdf_id ids) /\ in_range U16_MAX (ids_aead_id ids).

Definition contents_wire (ids : SuiteIds) (config_id : byte) (pk name : bytes) (mx : byte) : bytes :=
  [config_id] ++ be_bytes 2 (ids_kem_id ids) ++ be_bytes 2 (Z.of_nat (length pk)) ++ pk
  ++ be_bytes 2 4 ++ (be_bytes 2 (ids_kdf_id ids) ++ be_bytes 2 (ids_aead_id ids) ++ [])
  ++ [mx] ++ be_bytes 1 (Z.of_nat (length name)) ++ name ++ be_bytes 2 0 ++ [] ++ [].

Lemma encode_contents_Ok ids id pk name mx :
  encode_contents ids id pk name mx =
  if (Z.of_nat (length pk) <=? U16_MAX)%Z then
    if (Z.of_nat (length name) <=? U8_MAX)%Z then Ok (contents_wire ids id pk name mx)
    else Err (General "ECHConfig: public_name length exceeds u8")
  else Err (General "ECHConfig: public key length exceeds u16").
Proof.
  unfold encode_contents, try_from_len, contents_wire.
  destruct (Z.of_nat (length pk) <=? U16_MAX)%Z; [|done]. cbn [mbind R_bind].
  destruct (Z.of_nat (length name) <=? U8_MAX)%Z; [|done]. cbn [mbind R_bind]. f_equal.
  rewrite <- !app_assoc, !app_nil_r. do 10 f_equal.
Qed.

Lemma length_contents_wire ids id pk name mx :
  length (contents_wire ids id pk name mx) = 15 + length pk + length name.
Proof. unfold contents_wire. rewrite !length_app, !length_be_bytes. cbn. lia. Qed.

Lemma read_contents_wire ids id pk name mx :
  ids_ok ids -> (Z.of_nat (length pk) <= U16_MAX)%Z -> (Z.of_nat (length name) <= U8_MAX)%Z ->
  read_ech_contents (contents_wire ids id pk name mx) =
  Some {| f_config_id := [id]; f_kem := ids_kem_id ids; f_public_key := pk;
          f_cipher_suites := [(ids_kdf_id ids, ids_aead_id ids)];
          f_maximum_name_length := [mx]; f_public_name := name; f_extensions := [] |}.
Proof.
  intros (Hk & Hd & Ha) Hpk Hn. unfold read_ech_contents, contents_wire. unfold U16_MAX, U8_MAX in *.
  rewrite (take_n_app 1 [id]) by done. cbn [mbind option_bind].
  rewrite take_u16_app by done. cbn [mbind option_bind].
  rewrite take_prefixed_app by (change (256 ^ Z.of_nat 2)%Z with 65536%Z; lia). cbn [mbind option_bind].
  set (cs := be_bytes 2 (ids_kdf_id ids) ++ be_bytes 2 (ids_aead_id ids) ++ []).
  assert (be_bytes 2 4 = be_bytes 2 (Z.of_nat (length cs))) as -> by (subst cs; rewrite !length_app, !length_be_bytes; done).
  rewrite take_prefixed_app by (subst cs; rewrite !length_app, !length_be_bytes; done). cbn [mbind option_bind].
  subst cs. unfold read_one_suite. rewrite !take_u16_app by done. cbn [mbind option_bind]. rewrite take_u16_app by done. cbn [mbind option_bind].
  rewrite (take_n_app 1 [mx]) by done. cbn [mbind option_bind].
  rewrite take_prefixed_app by (change (256 ^ Z.of_nat 1)%Z with 256%Z; lia). cbn [mbind option_bind].
  change (be_bytes 2 0) with (be_bytes 2 (Z.of_nat (length (A:=byte) []))).
  rewrite take_prefixed_app by done. done.
Qed.

Definition list_wire (contents : bytes) : bytes :=
  let c := be_bytes 2 0xfe0d ++ be_bytes 2 (Z.of_nat (length contents)) ++ contents in
  be_bytes 2 (Z.of_nat (length c)) ++ c.

Lemma wrap_config_list_Ok contents :
  wrap_config_list contents =
  if (Z.of_nat (length contents) + 4 <=? U16_MAX)%Z then Ok (list_wire contents)
  else if (Z.of_nat (length contents) <=? U16_MAX)%Z
  then Err (General "ECHConfigList: total length exceeds u16")
  else Err (General "ECHConfig: contents length exceeds u16").
Proof.
  unfold wrap_config_list, try_from_len, list_wire. cbv zeta.
  destruct (Z.leb_spec (Z.of_nat (length contents)) U16_MAX); cbn [mbind R_bind].
  - rewrite !length_app, !length_be_bytes.
    replace (Z.of_nat (2 + (2 + length contents))) with (Z.of_nat (length contents) + 4)%Z by lia.
    by destruct (_ <=? _)%Z.
  - by rewrite (proj2 (Z.leb_gt _ _)) by lia.
Qed.

Lemma read_list_wire contents :
  (Z.of_nat (length contents) + 4 <= U16_MAX)%Z ->
  read_ech_list (list_wire contents) = read_ech_contents contents.
Proof.
  unfold U16_MAX. intros Hl. unfold read_ech_list, list_wire. cbv zeta.
  set (c := be_bytes 2 0xfe0d ++ _). rewrite <- (app_nil_r c) at 2.
  rewrite take_prefixed_app; last first.
  { subst c. rewrite !length_app, !length_be_bytes. change (256 ^ Z.of_nat 2)%Z with 65536%Z. lia. }
  cbn [mbind option_bind]. subst c. rewrite take_u16_app by (unfold in_range, U16_MAX; lia).
  cbn [mbind option_bind]. rewrite <- (app_nil_r contents) at 2.
  rewrite take_prefixed_app by (change (256 ^ Z.of_nat 2)%Z with 65536%Z; lia). done.
Qed.

(** Encoding a configuration succeeds exactly when the key fits a [u16]
    length, the name a [u8] length and the whole list a [u16] length; a reader
    of the draft's layout then gets back the version, every identifier, the key,
    the name and an empty extension list, with nothing left over.  Otherwise the
    result is a [General] error, never truncated bytes. *)
Theorem ech_config_layout ids id pk name mx :
  ids_ok ids ->
  let r := contents ← encode_contents ids id pk name mx; wrap_config_list contents in
  if (Z.of_nat (length name) <=? U8_MAX)%Z
     && (Z.of_nat (length pk) + Z.of_nat (length name) + 19 <=? U16_MAX)%Z
  then exists l, r = Ok l /\ length l = 21 + length pk + length name /\
       read_ech_list l =
         Some {| f_config_id := [id]; f_kem := ids_kem_id ids; f_public_key := pk;
                 f_cipher_suites := [(ids_kdf_id ids, ids_aead_id ids)];
                 f_maximum_name_length := [mx]; f_public_name := name; f_extensions := [] |}
  else exists msg, r = Err (General msg).
Proof.
  intros Hids. cbv zeta. rewrite encode_contents_Ok.
  destruct (Z.leb_spec (Z.of_nat (length name)) U8_MAX) as [Hn|]; cbn [andb]; last first.
  { destruct (_ <=? _)%Z; cbn; eauto. }
  destruct (Z.leb_spec (Z.of_nat (length pk)) U16_MAX) as [Hp|]; last first.
  { rewrite (proj2 (Z.leb_gt _ _)) by lia. cbn. eauto. }
  cbn [mbind R_bind]. rewrite wrap_config_list_Ok, length_contents_wire.
  replace (Z.of_nat (15 + length pk + length name) + 4)%Z
    with (Z.of_nat (length pk) + Z.of_nat (length name) + 19)%Z by lia.
  destruct (Z.leb_spec (Z.of_nat (length pk) + Z.of_nat (length name) + 19) U16_MAX).
  - eexists. split; [done|]. split.
    + unfold list_wire. rewrite !length_app, !length_be_bytes, length_contents_wire. lia.
    + rewrite read_list_wire by (rewrite length_contents_wire; lia). by apply read_contents_wire.
  - destruct (_ <=? _)%Z; eauto.
Qed.

Section EchProperties.
Context `{HkdfLaws} `{X25519Laws} `{P256Laws} (fuel : nat) (aes128gcm chacha20 : Aead)
  `{!AeadLaws aes128gcm} `{!AeadLaws chacha20}
  (ech_config_new : bytes -> list (DhKem * AeadSuite) -> string + unit).

Lemma suites_announce S :
  S ∈ pure_hpke_suites fuel aes128gcm chacha20 ->
  NPK S.1 <= 65 /\ KemLaws S.1 /\ exists hs, suite S.1 S.2 = Ok hs.
Proof.
  unfold pure_hpke_suites. rewrite !elem_of_cons, elem_of_nil.
  intros [->|[->|[->|[->|[]]]]]; cbn [fst snd]; (split_and!; [cbn; lia|apply _|eexists; reflexivity]).
Qed.

Lemma suites_laws S :
  S ∈ pure_hpke_suites fuel aes128gcm chacha20 -> KemLaws S.1 /\ AeadSuiteLaws S.2.
Proof.
  unfold pure_hpke_suites. rewrite !elem_of_cons, elem_of_nil.
  intros [->|[->|[->|[->|[]]]]]; split; apply _.
Qed.

Lemma ids_of_suite hs :
  ids_ok {| ids_kem_id := kem_to_u16 (hs_kem hs); ids_kdf_id := kdf_to_u16 (hs_kdf_id hs);
            ids_aead_id := aead_to_u16 (hs_aead_id hs) |}.
Proof. destruct hs as [[] [] []]; unfold ids_ok, in_range, U16_MAX; cbn; lia. Qed.

(** For each of the four suites, once a key pair was drawn and the parser
    accepts the bytes, minting succeeds exactly for public names of at most 255
    bytes; the list then encodes that public key, the suite's own identifiers
    and the name, and the keys returned are the pair that was drawn. *)
Theorem generate_ech_config_list_spec suites draws S hs id name mx pk sk :
  S ∈ pure_hpke_suites fuel aes128gcm chacha20 -> suite S.1 S.2 = Ok hs ->
  generate_key_pair S.1 draws = Ok (pk, sk) -> (forall l, ech_config_new l suites = inr tt) ->
  if (Z.of_nat (length (bstr name)) <=? U8_MAX)%Z
  then exists g, generate_ech_config_list ech_config_new suites draws S id name mx = Ok g /\
    private_key g = sk /\ public_key g = pk /\ config_id g = id /\
    read_ech_list (config_list g) =
      Some {| f_config_id := [id]; f_kem := kem_to_u16 (hs_kem hs); f_public_key := pk;
              f_cipher_suites := [(kdf_to_u16 (hs_kdf_id hs), aead_to_u16 (hs_aead_id hs))];
              f_maximum_name_length := [mx]; f_public_name := bstr name; f_extensions := [] |}
  else generate_ech_config_list ech_config_new suites draws S id name mx
       = Err (General "ECHConfig: public_name length exceeds u8").
Proof.
  intros HS Hhs Hg Hval. destruct (suites_announce S HS) as (Hnpk & HK & _).
  pose proof (kem_pk_length _ _ _ Hg) as Hpk. unfold generate_ech_config_list.
  rewrite Hg. cbn [mbind R_bind]. rewrite Hhs. cbn [map_err mbind R_bind]. rewrite encode_contents_Ok.
  rewrite (proj2 (Z.leb_le (Z.of_nat (length pk)) U16_MAX)) by (unfold U16_MAX; lia).
  destruct (Z.leb_spec (Z.of_nat (length (bstr name))) U8_MAX) as [Hn|]; [|done].
  cbn [mbind R_bind]. unfold U8_MAX in Hn.
  rewrite wrap_config_list_Ok, length_contents_wire, (proj2 (Z.leb_le _ _)) by (unfold U16_MAX; lia).
  cbn [mbind R_bind]. rewrite Hval. cbn [of_sum map_err mbind R_bind]. eexists. split; [done|].
  cbn [config_list private_key public_key config_id]. split_and!; try done.
  rewrite read_list_wire by (rewrite length_contents_wire; unfold U16_MAX; lia).
  apply read_contents_wire; [apply ids_of_suite|unfold U16_MAX; lia|unfold U8_MAX; lia].
Qed.
(** ** From minting to decryption *)

(** What a client does with a list (draft-ietf-tls-esni-18, section 6.1): it picks
    the suite with the announced identifiers among those it has, and its HPKE [info]
    is the label with the configuration, which is the list without its length. *)
Definition offers (f : EchFields) (KA : DhKem * AeadSuite) : bool :=
  match suite KA.1 KA.2 with
  | Ok hs => (kem_to_u16 (hs_kem hs) =? f_kem f)%Z &&
             bool_decide ((kdf_to_u16 (hs_kdf_id hs), aead_to_u16 (hs_aead_id hs)) ∈ f_cipher_suites f)
  | _ => false
  end.

Definition find_suite (suites : list (DhKem * AeadSuite)) (f : EchFields) : option (DhKem * AeadSuite) :=
  List.find (offers f) suites.

Definition ech_info (config_list : bytes) : bytes := bstr "tls ech" ++ [Byte.x00] ++ drop 2 config_list.

Lemma generate_fields suites draws S id name mx g :
  S ∈ pure_hpke_suites fuel aes128gcm chacha20 ->
  generate_ech_config_list ech_config_new suites draws S id name mx = Ok g ->
  exists hs, suite S.1 S.2 = Ok hs /\ generate_key_pair S.1 draws = Ok (public_key g, private_key g) /\
    read_ech_list (config_list g) =
      Some {| f_config_id := [id]; f_kem := kem_to_u16 (hs_kem hs); f_public_key := public_key g;
              f_cipher_suites := [(kdf_to_u16 (hs_kdf_id hs), aead_to_u16 (hs_aead_id hs))];
              f_maximum_name_length := [mx]; f_public_name := bstr name; f_extensions := [] |}.
Proof.
  intros HS Hg. destruct (suites_announce S HS) as (Hnpk & HK & hs & Hhs). unfold generate_ech_config_list in Hg.
  apply bind_Ok in Hg as ([pk sk] & Hk & Hg). rewrite Hhs in Hg. cbn [map_err mbind R_bind] in Hg.
  apply bind_Ok in Hg as (contents & Hc & Hg). apply bind_Ok in Hg as (l & Hl & Hg).
  apply bind_Ok in Hg as (? & _ & [= <-]). exists hs. split_and!; [done..|].
  pose proof (kem_pk_length _ _ _ Hk) as Hpk. rewrite encode_contents_Ok in Hc.
  destruct (Z.leb_spec (Z.of_nat (length pk)) U16_MAX) as [Hp|]; [|done].
  destruct (Z.leb_spec (Z.of_nat (length (bstr name))) U8_MAX) as [Hn|]; [|done]. injection Hc as <-.
  rewrite wrap_config_list_Ok, length_contents_wire in Hl. rewrite (proj2 (Z.leb_le _ _)) in Hl by (unfold U16_MAX, U8_MAX in *; lia).
  injection Hl as <-. cbn [config_list public_key].
  rewrite read_list_wire by (rewrite length_contents_wire; unfold U16_MAX, U8_MAX in *; lia).
  by apply read_contents_wire; [apply ids_of_suite|..].
Qed.

(** The suites are told apart by the identifiers they announce. *)
Lemma find_suite_own S hs f :
  S ∈ pure_hpke_suites fuel aes128gcm chacha20 -> suite S.1 S.2 = Ok hs ->
  f_kem f = kem_to_u16 (hs_kem hs) ->
  f_cipher_suites f = [(kdf_to_u16 (hs_kdf_id hs), aead_to_u16 (hs_aead_id hs))] ->
  find_suite (pure_hpke_suites fuel aes128gcm chacha20) f = Some S.
Proof.
  unfold find_suite, pure_hpke_suites. rewrite !elem_of_cons, elem_of_nil.
  intros [->|[->|[->|[->|[]]]]] [= <-] Hk Hc; cbn [List.find]; unfold offers; rewrite Hk, Hc; reflexivity.
Qed.

(** C16: encrypted client hellos.  A client that reads a minted list finds in it the
    suite the list was minted for and its public key; what it seals to that key for
    the configuration, the first hello and those after a retry, is opened in order by
    whoever holds the private key that was returned with the list. *)
Theorem ech_end_to_end suites d S id name mx g :
  S ∈ pure_hpke_suites fuel aes128gcm chacha20 -> draws_ok d ->
  generate_ech_config_list ech_config_new suites d S id name mx = Ok g ->
  exists f, read_ech_list (config_list g) = Some f /\ f_public_name f = bstr name /\
    find_suite (pure_hpke_suites fuel aes128gcm chacha20) f = Some S /\
    forall d' enc cs, setup_sender S.1 S.2 d' (ech_info (config_list g)) (f_public_key f) = Ok (enc, cs) ->
      setup_receiver S.1 S.2 enc (ech_info (config_list g)) (private_key g) = Ok cs /\
      forall ms cts c', seal_all S.2 cs ms = (c', Ok cts) -> open_all S.2 cs (zip ms.*1 cts) = (c', Ok ms.*2).
Proof.
  intros HS Hd Hg. destruct (generate_fields _ _ _ _ _ _ _ HS Hg) as (hs & Hhs & Hk & Hr).
  eexists. split; [exact Hr|]. split; [done|]. split; [by eapply find_suite_own|].
  intros d' enc cs Hs. destruct (suites_laws S HS) as [HK HA].
  destruct (session_opens S.1 S.2 _ _ _ _ _ _ _ Hd Hk Hs) as (_ & _ & _ & Hrcv & Hopen).
  split; [exact Hrcv|]. intros ms cts c' Hseal. by apply Hopen.
Qed.
End EchProperties.

Module EchWitness.
Import Toy HpkeToy HpkeWitness.

Lemma ech_config_layout_witness :
  exists l, (contents ← encode_contents {| ids_kem_id := 32; ids_kdf_id := 1; ids_aead_id := 3 |}
                          Byte.x07 [Byte.x01; Byte.x02] [Byte.x61] Byte.x00; wrap_config_list contents) = Ok l /\
            length l = 24.
Proof.
  destruct (ech_config_layout {| ids_kem_id := 32; ids_kdf_id := 1; ids_aead_id := 3 |}
    Byte.x07 [Byte.x01; Byte.x02] [Byte.x61] Byte.x00) as (l & Hl & Hlen & _).
  { unfold ids_ok, in_range, U16_MAX. cbn. lia. }
  exists l. split; [exact Hl|exact Hlen].
Defined.

Lemma generate_ech_config_list_spec_witness :
  exists g, generate_ech_config_list (fun _ _ => inr tt) [] (draws Byte.x05)
              (KemX25519, AeadChacha20 Toy.aead) Byte.x07 "a.example" Byte.x00 = Ok g /\
            public_key g = replicate 32 Byte.x05.
Proof.
  destruct (generate_ech_config_list_spec 1 Toy.aead Toy.aead (fun _ _ => inr tt) [] (draws Byte.x05)
    (KemX25519, AeadChacha20 Toy.aead)
    {| hs_kem := DHKEM_X25519_HKDF_SHA256; hs_kdf_id := HKDF_SHA256; hs_aead_id := CHACHA20_POLY_1305 |}
    Byte.x07 "a.example" Byte.x00 (replicate 32 Byte.x05) (replicate 32 Byte.x05))
    as (g & Hg & _ & Hp & _); [|reflexivity|reflexivity|done|eauto].
  unfold pure_hpke_suites. rewrite !elem_of_cons. auto.
Defined.
(** A client seals two hellos to a minted list, and the server opens them. *)
Definition S0 : DhKem * AeadSuite := (KemX25519, AeadChacha20 Toy.aead).
Definition mint : R RustlsError GeneratedEchConfig :=
  generate_ech_config_list (fun _ _ => inr tt) [] (draws Byte.x05) S0 Byte.x07 "a.example" Byte.x00.
Definition minted : GeneratedEchConfig := Eval vm_compute in
  match mint with Ok g => g | _ => {| config_list := []; private_key := []; public_key := []; config_id := Byte.x00 |} end.
Definition hellos : list (bytes * bytes) := [([Byte.x01], bstr "hello"); ([], bstr "again")].
Definition sent : bytes * (HpkeCtx * R RustlsError (list bytes)) := Eval vm_compute in
  match setup_sender S0.1 S0.2 (draws Byte.x07) (ech_info (config_list minted)) (public_key minted) with
  | Ok (enc, cs) => (enc, seal_all S0.2 cs hellos)
  | _ => ([], ({| ctx_key := []; ctx_base_nonce := []; ctx_seq := 0; ctx_suite_id := []; ctx_exporter_secret := [] |}, Panic))
  end.

Lemma ech_end_to_end_witness :
  exists cs cts, setup_receiver S0.1 S0.2 sent.1 (ech_info (config_list minted)) (private_key minted) = Ok cs /\
    sent.2.2 = Ok cts /\ open_all S0.2 cs (zip hellos.*1 cts) = (sent.2.1, Ok [bstr "hello"; bstr "again"]).
Proof.
  destruct (ech_end_to_end 1 Toy.aead Toy.aead (fun _ _ => inr tt) [] (draws Byte.x05) S0 Byte.x07 "a.example" Byte.x00 minted)
    as (f & Hr & _ & _ & Hall).
  - unfold pure_hpke_suites. rewrite !elem_of_cons. auto.
  - apply draws_fine.
  - vm_compute. reflexivity.
  - vm_compute in Hr. injection Hr as <-.
    destruct (Hall (draws Byte.x07) sent.1 (set_seq sent.2.1 0)) as [Hrcv Hopen]; [vm_compute; reflexivity|].
    exists (set_seq sent.2.1 0). eexists. split; [exact Hrcv|]. split; [reflexivity|].
    apply (Hopen hellos). vm_compute. reflexivity.
Defined.
End EchWitness.
