(* ===== verification/RootStore.v ===== *)
(** * RootStore: trust anchors and the intermediate-certificate cache

    crates/oxitls-webpki-roots/src: the root-store builder and its helpers
    (lib.rs), the expiry report (expiring.rs), and the bounded LRU cache of
    intermediates (intermediate_cache.rs). *)

From S2P Require Import Prelude Core Crypto Verifier.

(** ** lib.rs *)

Record TrustAnchor := { ta_subject : bytes; ta_spki : bytes; ta_name_constraints : option bytes }.

(** [RootCertStore] is a vector of anchors. *)
Abbreviation RootCertStore := (list TrustAnchor).

Record TrustAnchorInfo := { subject_der : bytes; spki_sha256 : bytes; not_after : option Z }.

Record RootStoreBuilder := {
  include_webpki : bool;
  additional_der : list bytes;
  additional_pem : list bytes;
  excluded_spki_sha256 : list bytes;
}.

(** The bundle of the webpki-roots crate, [RootCertStore::add] (the anchor of a
    DER certificate, or an error) and [rustls_pemfile::certs] collected. *)
Class RootSources := {
  TLS_SERVER_ROOTS : list TrustAnchor;
  anchor_of_cert : bytes -> string + TrustAnchor;
  pem_certs : bytes -> string + list bytes;
}.

Section Roots.
Context `{Sha256} `{X509} `{RootSources}.

(** The [OnceLock]: the cell before and after a call, and the store returned. *)
Definition webpki_root_certs (cell : option RootCertStore) : option RootCertStore * RootCertStore :=
  match cell with
  | Some store => (Some store, store)
  | None => let store := [] ++ TLS_SERVER_ROOTS in (Some store, store)
  end.

(** The same cell, handed out as a shared pointer. *)
Definition webpki_root_certs_arc (cell : option RootCertStore) : option RootCertStore * RootCertStore :=
  match cell with
  | Some store => (Some store, store)
  | None => let store := [] ++ TLS_SERVER_ROOTS in (Some store, store)
  end.

Definition root_cert_count : nat := length TLS_SERVER_ROOTS.

Definition webpki_root_certs_filtered (f : TrustAnchor -> bool) : RootCertStore :=
  [] ++ filter (fun ta => f ta) TLS_SERVER_ROOTS.

Definition info_from_trust_anchor (ta : TrustAnchor) : R Empty_set TrustAnchorInfo :=
  hash ← copy_from_slice (replicate 32 Byte.x00) (sha256 (ta_spki ta));
  Ok {| subject_der := ta_subject ta; spki_sha256 := hash; not_after := None |}.

(** [None] is the inner option. *)
Definition info_from_cert_der (der : bytes) : R Empty_set (option TrustAnchorInfo) :=
  match xp_from_der der with
  | inl _ => Ok None
  | inr cert =>
      hash ← copy_from_slice (replicate 32 Byte.x00) (sha256 (xp_spki_raw cert));
      Ok (Some {| subject_der := xp_subject_raw cert; spki_sha256 := hash; not_after := None |})
  end.

Definition with_not_after (i : TrustAnchorInfo) (t : Z) : TrustAnchorInfo :=
  {| subject_der := subject_der i; spki_sha256 := spki_sha256 i; not_after := Some t |}.

Definition subject_dn (i : TrustAnchorInfo) : bytes := subject_der i.

Definition info_fingerprint_sha256 (i : TrustAnchorInfo) : bytes := spki_sha256 i.

(** [Display]: the fingerprint in capital hexadecimal ([{b:02X}]). *)
Definition hex02_upper (b : byte) : string :=
  let digit z := String.substring (Z.to_nat z) 1 "0123456789ABCDEF" in digit (val b / 16)%Z +:+ digit (val b mod 16)%Z.

Definition info_display (i : TrustAnchorInfo) : string :=
  "SPKI-SHA256:" +:+ foldr (fun b s => hex02_upper b +:+ s) "" (spki_sha256 i) +:+
  " (subject " +:+ pretty.pretty (length (subject_der i)) +:+ " bytes)".

Definition list_trust_anchors : R Empty_set (list TrustAnchorInfo) := mapM info_from_trust_anchor TLS_SERVER_ROOTS.

Definition builder_new : RootStoreBuilder :=
  {| include_webpki := false; additional_der := []; additional_pem := []; excluded_spki_sha256 := [] |}.

Definition with_webpki_roots (b : RootStoreBuilder) : RootStoreBuilder :=
  {| include_webpki := true; additional_der := additional_der b;
     additional_pem := additional_pem b; excluded_spki_sha256 := excluded_spki_sha256 b |}.

Definition add_der (b : RootStoreBuilder) (cert_der : bytes) : RootStoreBuilder :=
  {| include_webpki := include_webpki b; additional_der := additional_der b ++ [cert_der];
     additional_pem := additional_pem b; excluded_spki_sha256 := excluded_spki_sha256 b |}.

Definition add_pem (b : RootStoreBuilder) (pem_data : bytes) : RootStoreBuilder :=
  {| include_webpki := include_webpki b; additional_der := additional_der b;
     additional_pem := additional_pem b ++ [pem_data]; excluded_spki_sha256 := excluded_spki_sha256 b |}.

Definition exclude_fingerprint (b : RootStoreBuilder) (fp : bytes) : RootStoreBuilder :=
  {| include_webpki := include_webpki b; additional_der := additional_der b;
     additional_pem := additional_pem b; excluded_spki_sha256 := excluded_spki_sha256 b ++ [fp] |}.

(** [let _ = store.add(cert)]. *)
Definition store_add (store : RootCertStore) (cert : bytes) : RootCertStore :=
  match anchor_of_cert cert with inr ta => store ++ [ta] | inl _ => store end.

Definition build (self : RootStoreBuilder) : RootCertStore :=
  let store := [] in
  let store :=
    if include_webpki self
    then store ++ filter (fun ta => sha256 (ta_spki ta) ∉ excluded_spki_sha256 self) TLS_SERVER_ROOTS
    else store in
  let store := foldl store_add store (additional_der self) in
  foldl (fun store pem_data =>
           match pem_certs pem_data with
           | inr certs => foldl store_add store certs
           | inl _ => store
           end) store (additional_pem self).

Definition root_store_from_anchors (anchors : list TrustAnchor) : RootCertStore := [] ++ anchors.

Definition merge_root_stores (stores : list RootCertStore) : RootCertStore :=
  foldl (fun merged store => merged ++ store) [] stores.

(** ** expiring.rs

    A time is in nanoseconds since the epoch; [TIME_MAX] is the last instant of
    the year 9999, where [saturating_add] stops. *)
Definition TIME_MAX : Z := 253402300799999999999.

Definition info_if_expiring_within (der : bytes) (deadline : Z) : R Empty_set (option TrustAnchorInfo) :=
  match xp_from_der der with
  | inl _ => Ok None
  | inr cert =>
      let not_after := xp_not_after cert in
      if (not_after <=? deadline)%Z then
        info ← info_from_cert_der der;
        Ok (option_map (fun i => with_not_after i not_after) info)
      else Ok None
  end.

Fixpoint expiring_loop (ders : list bytes) (deadline : Z) (result : list TrustAnchorInfo)
  : R Empty_set (list TrustAnchorInfo) :=
  match ders with
  | [] => Ok result
  | der :: ders =>
      info ← info_if_expiring_within der deadline;
      expiring_loop ders deadline (match info with Some i => result ++ [i] | None => result end)
  end.

Definition expiring_roots_from_ders (now : Z) (ders : list bytes) (within_days : Z)
  : R Empty_set (list TrustAnchorInfo) :=
  let deadline := Z.min TIME_MAX (now + within_days * 86400 * 1000000000) in
  expiring_loop ders deadline [].

(** The bundle has no expiry dates: always empty. *)
Definition expiring_roots (_within_days : Z) : list TrustAnchorInfo := [].

Definition parse_not_after (der : bytes) : option Z :=
  match xp_from_der der with inr cert => Some (xp_not_after cert) | inl _ => None end.
End Roots.

(** ** intermediate_cache.rs *)

(** [lru::LruCache<[u8; 32], CertificateDer>]. *)
Class Lru := {
  lru : Type;
  lru_new : nat -> lru;
  lru_put : lru -> bytes -> bytes -> lru;
  lru_peek : lru -> bytes -> option bytes;
  lru_get : lru -> bytes -> lru * option bytes;
  lru_len : lru -> nat;
  lru_cap : lru -> nat;
  lru_clear : lru -> lru;
}.

(** Entries in order of use, most recent first. *)
Abbreviation Recency := (list (bytes * bytes)).

Definition recency_lookup (l : Recency) (k : bytes) : option bytes :=
  snd <$> List.find (fun e => bool_decide (e.1 = k)) l.

Definition recency_remove (l : Recency) (k : bytes) : Recency := filter (fun e => e.1 <> k) l.

(** The documented behaviour: [put] and [get] make the entry the most recent, a
    [put] into a full cache drops the least recent entry, [peek] changes nothing. *)
Class LruLaws `{Lru} := {
  lru_view : lru -> Recency;
  lru_view_new : forall n, lru_view (lru_new n) = [];
  lru_cap_new : forall n, lru_cap (lru_new n) = n;
  lru_view_put : forall c k v,
    lru_view (lru_put c k v) = take (lru_cap c) ((k, v) :: recency_remove (lru_view c) k);
  lru_cap_put : forall c k v, lru_cap (lru_put c k v) = lru_cap c;
  lru_peek_view : forall c k, lru_peek c k = recency_lookup (lru_view c) k;
  lru_get_view : forall c k,
    (lru_get c k).2 = recency_lookup (lru_view c) k /\ lru_cap (lru_get c k).1 = lru_cap c /\
    lru_view (lru_get c k).1 =
      match recency_lookup (lru_view c) k with
      | Some v => (k, v) :: recency_remove (lru_view c) k
      | None => lru_view c
      end;
  lru_len_view : forall c, lru_len c = length (lru_view c);
  lru_view_clear : forall c, lru_view (lru_clear c) = [] /\ lru_cap (lru_clear c) = lru_cap c;
}.

Section IntermediateCache.
Context `{Sha256} `{Lru}.

(** The [RwLock], with its poison flag, around the cache. *)
Record IntermediateCertCache := { cache_inner : lru; cache_poisoned : bool }.

(** [format!("intermediate cache lock poisoned: {e}")] with the text of [e]. *)
Definition POISONED : TlsError :=
  Other "intermediate cache lock poisoned: poisoned lock: another task failed inside".

Definition fingerprint_sha256 (der : bytes) : R TlsError bytes :=
  copy_from_slice (replicate 32 Byte.x00) (sha256 der).

Definition cache_new (capacity : nat) : IntermediateCertCache :=
  {| cache_inner := lru_new capacity; cache_poisoned := false |}.

Definition with_inner (c : IntermediateCertCache) (l : lru) : IntermediateCertCache :=
  {| cache_inner := l; cache_poisoned := cache_poisoned c |}.

(** [self.inner.read()] and [self.inner.write()] with the error mapped. *)
Definition lock (c : IntermediateCertCache) : R TlsError lru :=
  if cache_poisoned c then Err POISONED else Ok (cache_inner c).

Definition cache_insert (self : IntermediateCertCache) (cert : bytes)
  : IntermediateCertCache * R TlsError bytes :=
  match (fingerprint ← fingerprint_sha256 cert; guard ← lock self; Ok (fingerprint, guard)) with
  | Ok (fingerprint, guard) => (with_inner self (lru_put guard fingerprint cert), Ok fingerprint)
  | Err e => (self, Err e)
  | Panic => (self, Panic)
  end.

Definition cache_get (self : IntermediateCertCache) (fingerprint : bytes) : R TlsError (option bytes) :=
  guard ← lock self; Ok (lru_peek guard fingerprint).

Definition cache_touch (self : IntermediateCertCache) (fingerprint : bytes)
  : IntermediateCertCache * R TlsError (option bytes) :=
  match lock self with
  | Ok guard => let '(guard, r) := lru_get guard fingerprint in (with_inner self guard, Ok r)
  | Err e => (self, Err e)
  | Panic => (self, Panic)
  end.

Definition cache_len (self : IntermediateCertCache) : R TlsError nat :=
  guard ← lock self; Ok (lru_len guard).

Definition cache_is_empty (self : IntermediateCertCache) : R TlsError bool :=
  n ← cache_len self; Ok (n =? 0).

Definition cache_capacity (self : IntermediateCertCache) : R TlsError nat :=
  guard ← lock self; Ok (lru_cap guard).

Definition cache_contains (self : IntermediateCertCache) (fingerprint : bytes) : R TlsError bool :=
  guard ← lock self; Ok (bool_decide (is_Some (lru_peek guard fingerprint))).

Definition cache_clear (self : IntermediateCertCache) : IntermediateCertCache * R TlsError unit :=
  match lock self with
  | Ok guard => (with_inner self (lru_clear guard), Ok tt)
  | Err e => (self, Err e)
  | Panic => (self, Panic)
  end.

(** One call of a thread; the lock makes calls atomic. *)
Inductive cache_step : IntermediateCertCache -> IntermediateCertCache -> Prop :=
  | step_insert c cert : cache_step c (cache_insert c cert).1
  | step_touch c fp : cache_step c (cache_touch c fp).1
  | step_clear c : cache_step c (cache_clear c).1.
End IntermediateCache.

(** ** Properties of the builder *)

Section RootProperties.
Context `{Sha256Laws} `{X509} `{RootSources}.

Definition anchors_of (ders : list bytes) : list TrustAnchor :=
  omap (fun d => match anchor_of_cert d with inr ta => Some ta | inl _ => None end) ders.

Definition pem_ders (pem : bytes) : list bytes :=
  match pem_certs pem with inr certs => certs | inl _ => [] end.

Lemma foldl_store_add store ders : foldl store_add store ders = store ++ anchors_of ders.
Proof.
  revert store. induction ders as [|d ders IH]; intros store; cbn [foldl]; [by rewrite app_nil_r|].
  rewrite IH. unfold anchors_of, store_add. cbn. destruct (anchor_of_cert d); cbn; [done|].
  by rewrite <- app_assoc.
Qed.

Lemma build_eq b :
  build b =
  (if include_webpki b
   then filter (fun ta => sha256 (ta_spki ta) ∉ excluded_spki_sha256 b) TLS_SERVER_ROOTS else [])
  ++ anchors_of (additional_der b ++ concat (pem_ders <$> additional_pem b)).
Proof.
  unfold build. rewrite foldl_store_add. set (bundle := if include_webpki b then _ else _).
  assert (forall s pems, foldl (fun store pem_data =>
    match pem_certs pem_data with inr certs => foldl store_add store certs | inl _ => store end) s pems
    = s ++ anchors_of (concat (pem_ders <$> pems))) as Hp.
  { intros s pems. revert s. induction pems as [|p pems IH]; intros s; cbn [foldl]; [by rewrite app_nil_r|].
    rewrite IH. unfold pem_ders at 2. cbn [fmap list_fmap concat].
    destruct (pem_certs p); [done|]. rewrite foldl_store_add. unfold anchors_of.
    by rewrite omap_app, app_assoc. }
  rewrite Hp. unfold anchors_of. rewrite omap_app, app_assoc. subst bundle. by destruct (include_webpki b).
Qed.

Lemma list_trust_anchors_eq :
  list_trust_anchors =
  Ok ((fun ta => {| subject_der := ta_subject ta; spki_sha256 := sha256 (ta_spki ta); not_after := None |})
        <$> TLS_SERVER_ROOTS).
Proof.
  unfold list_trust_anchors. induction TLS_SERVER_ROOTS as [|ta l IH]; [done|].
  change (mapM info_from_trust_anchor (ta :: l)) with
    (y ← info_from_trust_anchor ta; k ← mapM info_from_trust_anchor l; mret (y :: k)).
  rewrite IH. unfold info_from_trust_anchor, copy_from_slice. by rewrite sha256_length, length_replicate.
Qed.

(** The list of anchors is complete and in order, and a fingerprint it shows is the
    one that excludes exactly the bundle's anchors with that key. *)
Theorem listed_fingerprints :
  exists infos, list_trust_anchors = Ok infos /\ length infos = root_cert_count /\
    forall i info, infos !! i = Some info ->
      exists ta, TLS_SERVER_ROOTS !! i = Some ta /\ subject_dn info = ta_subject ta /\
        (ta ∉ build (exclude_fingerprint (with_webpki_roots builder_new) (info_fingerprint_sha256 info))) /\
        forall ta', ta' ∈ TLS_SERVER_ROOTS ->
          (ta' ∈ build (exclude_fingerprint (with_webpki_roots builder_new) (info_fingerprint_sha256 info)) <->
           sha256 (ta_spki ta') <> sha256 (ta_spki ta)).
Proof.
  rewrite list_trust_anchors_eq. eexists. split; [done|]. split; [apply length_fmap|].
  intros i info (ta & -> & Hta)%list_lookup_fmap_Some_1. exists ta. split; [done|]. split; [done|].
  assert (forall ta', ta' ∈ build (exclude_fingerprint (with_webpki_roots builder_new) (sha256 (ta_spki ta))) <->
    ta' ∈ TLS_SERVER_ROOTS /\ sha256 (ta_spki ta') <> sha256 (ta_spki ta)) as Hb.
  { intros ta'. rewrite build_eq. cbn. rewrite app_nil_r, list_elem_of_filter, list_elem_of_singleton. tauto. }
  cbn. split; [rewrite Hb; tauto|]. intros ta' Hin. rewrite Hb. tauto.
Qed.

(** The built store holds the bundled anchors whose key fingerprint is not
    excluded (if the bundle was asked for), then the anchors of the DER and PEM
    certificates that parse, in the order they were added.  An anchor with an
    excluded fingerprint can only come from the added certificates, and
    excluding a fingerprint that is not in the bundle changes nothing: the
    exclusion list is not applied to added certificates. *)
Theorem build_contents b :
  build b =
  (if include_webpki b
   then filter (fun ta => sha256 (ta_spki ta) ∉ excluded_spki_sha256 b) TLS_SERVER_ROOTS else [])
  ++ anchors_of (additional_der b ++ concat (pem_ders <$> additional_pem b)) /\
  (forall ta, ta ∈ build b -> sha256 (ta_spki ta) ∈ excluded_spki_sha256 b ->
     ta ∈ anchors_of (additional_der b ++ concat (pem_ders <$> additional_pem b))) /\
  (forall fp, fp ∉ (fun ta => sha256 (ta_spki ta)) <$> TLS_SERVER_ROOTS ->
     build (exclude_fingerprint b fp) = build b).
Proof.
  split_and!; [apply build_eq|..].
  - intros ta. rewrite build_eq, elem_of_app. intros [Hin|]; [|done]. intros Hex.
    destruct (include_webpki b); [|by apply not_elem_of_nil in Hin].
    by apply list_elem_of_filter in Hin as [? _].
  - intros fp Hfp. rewrite !build_eq. cbn. destruct (include_webpki b); [|done]. f_equal.
    apply filter_ext_elem. intros ta Hta. cbn. rewrite elem_of_app, list_elem_of_singleton.
    split; [tauto|]. intros Hn [?|Heq]; [done|]. apply Hfp, list_elem_of_fmap. eauto.
Qed.

(** *** Expiry report *)

(** What the report says of one certificate. *)
Definition expiring_info (deadline : Z) (der : bytes) : option TrustAnchorInfo :=
  match xp_from_der der with
  | inr cert =>
      if (xp_not_after cert <=? deadline)%Z
      then Some {| subject_der := xp_subject_raw cert; spki_sha256 := sha256 (xp_spki_raw cert);
                   not_after := Some (xp_not_after cert) |}
      else None
  | inl _ => None
  end.

Lemma info_if_expiring_within_eq der deadline :
  info_if_expiring_within der deadline = Ok (expiring_info deadline der).
Proof.
  unfold info_if_expiring_within, expiring_info, info_from_cert_der, copy_from_slice.
  destruct (xp_from_der der) as [|cert]; [done|]. destruct (_ <=? _)%Z; [|done].
  by rewrite length_replicate, sha256_length.
Qed.

Lemma expiring_loop_eq ders deadline result :
  expiring_loop ders deadline result = Ok (result ++ omap (expiring_info deadline) ders).
Proof.
  revert result. induction ders as [|d ders IH]; intros result; cbn [expiring_loop].
  { by rewrite app_nil_r. }
  rewrite info_if_expiring_within_eq. cbn [mbind R_bind]. rewrite IH. cbn.
  destruct (expiring_info deadline d); [by rewrite <- app_assoc|done].
Qed.

(** The expiry report never fails; it lists, in the order of the input, one
    entry for each certificate that parses and whose [notAfter] is at or before
    the deadline (already expired ones included), with that [notAfter], and a
    longer horizon never removes a certificate from it. *)
Theorem expiring_roots_from_ders_spec now ders days :
  let deadline := Z.min TIME_MAX (now + days * 86400 * 1000000000) in
  expiring_roots_from_ders now ders days = Ok (omap (expiring_info deadline) ders) /\
  forall days' r r', (days <= days')%Z ->
    expiring_roots_from_ders now ders days = Ok r -> expiring_roots_from_ders now ders days' = Ok r' ->
    r ⊆ r'.
Proof.
  cbv zeta. unfold expiring_roots_from_ders. rewrite !expiring_loop_eq. split; [done|].
  intros days' r r' Hd. rewrite expiring_loop_eq. intros [= <-] [= <-] i.
  rewrite !list_elem_of_omap. intros (d & Hin & Hi). exists d. split; [done|]. revert Hi.
  unfold expiring_info. destruct (xp_from_der d); [done|].
  destruct (Z.leb_spec (xp_not_after x) (Z.min TIME_MAX (now + days * 86400 * 1000000000))); [|done].
  by rewrite (proj2 (Z.leb_le _ _)) by lia.
Qed.
End RootProperties.

(** ** Properties of the cache *)

Lemma recency_remove_keys l k : (recency_remove l k).*1 = filter (fun x => x <> k) l.*1.
Proof.
  unfold recency_remove. induction l as [|[k' v] l IH]; [done|]. rewrite fmap_cons, !filter_cons.
  cbn [fst]. case_decide; rewrite ?fmap_cons; by rewrite IH.
Qed.

Lemma recency_remove_length l k v :
  recency_lookup l k = Some v -> S (length (recency_remove l k)) <= length l.
Proof.
  unfold recency_lookup, recency_remove. induction l as [|[k' v'] l IH]; [done|].
  rewrite filter_cons. cbn [List.find fst]. case_bool_decide as Hk; cbn [length].
  - intros _. rewrite decide_False by tauto. apply le_n_S, length_filter.
  - intros Hf. rewrite decide_True by done. cbn [length]. apply le_n_S. by apply IH.
Qed.

Lemma recency_lookup_elem l k v : recency_lookup l k = Some v -> (k, v) ∈ l.
Proof.
  unfold recency_lookup. intros ([k' v'] & Hf & ->)%fmap_Some.
  apply List.find_some in Hf as [Hin Hk%bool_decide_eq_true]. cbn in *. subst. by apply list_elem_of_In.
Qed.

Lemma recency_lookup_index l i k v :
  NoDup l.*1 -> l !! i = Some (k, v) -> recency_lookup l k = Some v.
Proof.
  unfold recency_lookup. revert i. induction l as [|[k' v'] l IH]; intros [|i] Hnd Hi; cbn in *; try done.
  - injection Hi as -> ->. by rewrite bool_decide_eq_true_2.
  - apply NoDup_cons in Hnd as [Hk Hnd]. rewrite bool_decide_eq_false_2; [by eapply IH|].
    intros ->. apply Hk, list_elem_of_fmap. exists (k, v). split; [done|]. by eapply list_elem_of_lookup_2.
Qed.

Section CacheProperties.
Context `{Sha256Laws} `{LruLaws}.

(** Every entry is filed under its own fingerprint, once, within capacity. *)
Definition view_ok (cap : nat) (l : Recency) : Prop :=
  (forall k v, (k, v) ∈ l -> k = sha256 v) /\ NoDup l.*1 /\ length l <= cap.

Definition cache_ok (c : IntermediateCertCache) : Prop :=
  view_ok (lru_cap (cache_inner c)) (lru_view (cache_inner c)).

Lemma view_ok_push cap l v k :
  view_ok cap l -> k = sha256 v -> view_ok cap (take cap ((k, v) :: recency_remove l k)).
Proof.
  intros (Hfp & Hnd & _) ->. split_and!.
  - intros k' v' Hin%subseteq_take. apply elem_of_cons in Hin as [[= -> ->]|Hin]; [done|].
    apply list_elem_of_filter in Hin as [_ Hin]. by apply Hfp.
  - rewrite fmap_take. eapply sublist_NoDup; [|apply sublist_take]. rewrite fmap_cons. cbn [fst]. rewrite recency_remove_keys. apply NoDup_cons. split.
    + intros [? _]%list_elem_of_filter. done.
    + by apply NoDup_filter.
  - rewrite length_take. lia.
Qed.

Lemma fingerprint_eq der : fingerprint_sha256 der = Ok (sha256 der).
Proof. unfold fingerprint_sha256, copy_from_slice. by rewrite length_replicate, sha256_length. Qed.

Lemma insert_eq c cert :
  cache_insert c cert =
  if cache_poisoned c then (c, Err POISONED)
  else (with_inner c (lru_put (cache_inner c) (sha256 cert) cert), Ok (sha256 cert)).
Proof. unfold cache_insert. rewrite fingerprint_eq. cbn. unfold lock. by destruct (cache_poisoned c). Qed.

Lemma get_push cap l k v :
  view_ok cap l -> recency_lookup l k = Some v -> view_ok cap ((k, v) :: recency_remove l k).
Proof.
  intros Hok Hl. pose proof (recency_remove_length _ _ _ Hl) as Hlen. destruct Hok as (Hfp & Hnd & Hcap).
  rewrite <- (firstn_all2 (n:=cap) ((k, v) :: recency_remove l k)) by (cbn; lia).
  apply view_ok_push; [done|]. by apply Hfp, recency_lookup_elem.
Qed.

Lemma cache_step_ok c c' :
  cache_step c c' -> cache_ok c -> cache_ok c' /\ lru_cap (cache_inner c') = lru_cap (cache_inner c).
Proof.
  unfold cache_ok. intros [c0 cert|c0 fp|c0] Hok.
  - rewrite insert_eq. destruct (cache_poisoned c0); [done|]. cbn.
    rewrite lru_cap_put, lru_view_put. split; [|done]. by apply view_ok_push.
  - unfold cache_touch, lock. destruct (cache_poisoned c0); [done|].
    destruct (lru_get_view (cache_inner c0) fp) as (_ & Hcap & Hview).
    destruct (lru_get (cache_inner c0) fp) as [l r]. cbn in *. rewrite Hcap, Hview. split; [|done].
    destruct (recency_lookup _ fp) eqn:Hl; [|done]. by apply get_push.
  - unfold cache_clear, lock. destruct (cache_poisoned c0); [done|]. cbn.
    destruct (lru_view_clear (cache_inner c0)) as [-> ->]. split; [|done].
    split_and!; [by intros ? ? ?%not_elem_of_nil|constructor|cbn; lia].
Qed.

Lemma cache_reach_ok n c :
  rtc cache_step (cache_new n) c -> cache_ok c /\ lru_cap (cache_inner c) = n.
Proof.
  intros Hr. remember (cache_new n) as c0 eqn:E.
  assert (cache_ok c0 /\ lru_cap (cache_inner c0) = n) as [Hok0 Hn0].
  { subst. unfold cache_ok. cbn. rewrite lru_view_new, lru_cap_new.
    split; [|done]. split_and!; [by intros ? ? ?%not_elem_of_nil|constructor|cbn; lia]. }
  clear E. induction Hr as [|c1 c2 c3 Hs _ IH]; [done|].
  destruct (cache_step_ok _ _ Hs Hok0) as [Hok1 Hc]. apply IH; congruence.
Qed.

(** In every state a cache can reach by calls of any threads, it holds at
    most its capacity of entries, and a lookup only ever returns a certificate
    that has the fingerprint asked for. *)
Theorem cache_reachable n c :
  rtc cache_step (cache_new n) c ->
  (forall len, cache_len c = Ok len -> len <= n) /\
  (forall cap, cache_capacity c = Ok cap -> cap = n) /\
  (forall fp cert, cache_get c fp = Ok (Some cert) -> sha256 cert = fp) /\
  (forall fp cert, (cache_touch c fp).2 = Ok (Some cert) -> sha256 cert = fp).
Proof.
  intros ((Hfp & Hnd & Hlen) & Hcap)%cache_reach_ok.
  assert (forall fp cert, recency_lookup (lru_view (cache_inner c)) fp = Some cert -> sha256 cert = fp) as Hl.
  { intros fp cert Hr%recency_lookup_elem. symmetry. by apply Hfp. }
  unfold cache_len, cache_capacity, cache_get, cache_touch, lock.
  destruct (cache_poisoned c); [done|]. cbn. split_and!.
  - intros len [= <-]. rewrite lru_len_view. lia.
  - intros cap [= <-]. done.
  - intros fp cert [= Hp]. rewrite lru_peek_view in Hp. by apply Hl.
  - intros fp cert. destruct (lru_get_view (cache_inner c) fp) as (Hg & _).
    destruct (lru_get (cache_inner c) fp) as [l r]. cbn in *. subst r. intros [= Hr]. by apply Hl.
Qed.

(** *** Survival of recent entries *)

(** Inserts and touches that follow. *)
Inductive Use := UseInsert (cert : bytes) | UseTouch (fp : bytes).

Definition use (c : IntermediateCertCache) (u : Use) : IntermediateCertCache :=
  match u with UseInsert cert => (cache_insert c cert).1 | UseTouch fp => (cache_touch c fp).1 end.

Definition at_index (c : IntermediateCertCache) (k : bytes) (i : nat) : Prop :=
  exists v j, j <= i /\ lru_view (cache_inner c) !! j = Some (k, v).

Lemma push_index l k k' v' v j :
  l !! j = Some (k, v) ->
  exists v'' j', j' <= S j /\ ((k', v') :: recency_remove l k') !! j' = Some (k, v'').
Proof.
  intros Hj. destruct (decide (k = k')) as [->|Hne].
  - exists v', 0. split; [lia|done].
  - destruct (filter_lookup_le (fun e => e.1 <> k') l j (k, v) Hj Hne) as (j' & Hle & Hf).
    exists v, (S j'). split; [lia|done].
Qed.

Lemma use_index c u k i :
  cache_ok c -> cache_poisoned c = false -> at_index c k i -> S i < lru_cap (cache_inner c) ->
  at_index (use c u) k (S i).
Proof.
  intros Hok Hp (v & j & Hj & Hv) Hcap. destruct u as [cert|fp]; cbn.
  - rewrite insert_eq, Hp. unfold at_index. cbn. rewrite lru_view_put.
    destruct (push_index _ k (sha256 cert) cert v j Hv) as (v' & j' & Hle & Hl).
    exists v', j'. split; [lia|]. rewrite lookup_take_lt by lia. done.
  - unfold cache_touch, lock. rewrite Hp. destruct (lru_get_view (cache_inner c) fp) as (_ & _ & Hview).
    destruct (lru_get (cache_inner c) fp) as [l r]. unfold at_index. cbn in *. rewrite Hview.
    destruct (recency_lookup _ fp) as [w|].
    + destruct (push_index _ k fp w v j Hv) as (v' & j' & Hle & Hl). exists v', j'. split; [lia|done].
    + exists v, j. split; [lia|done].
Qed.

Lemma use_step c u : cache_step c (use c u).
Proof. destruct u; constructor. Qed.

Lemma use_poisoned c u : cache_poisoned (use c u) = cache_poisoned c.
Proof.
  destruct u; cbn; [rewrite insert_eq|unfold cache_touch, lock];
    destruct (cache_poisoned c) eqn:Hp; try done. by destruct (lru_get _ _).
Qed.

Lemma uses_index us c k i :
  cache_ok c -> cache_poisoned c = false -> at_index c k i ->
  i + length us < lru_cap (cache_inner c) ->
  cache_ok (foldl use c us) /\ cache_poisoned (foldl use c us) = false /\
  at_index (foldl use c us) k (i + length us).
Proof.
  revert c i. induction us as [|u us IH]; intros c i Hok Hp Hi Hcap; cbn [foldl length] in *.
  { by rewrite Nat.add_0_r. }
  destruct (cache_step_ok _ _ (use_step c u) Hok) as [Hok' Hcap'].
  replace (i + S (length us)) with (S i + length us) by lia.
  apply IH; [done|by rewrite use_poisoned|apply use_index; try done; lia|lia].
Qed.

Lemma at_index_get c k i :
  cache_ok c -> cache_poisoned c = false -> at_index c k i ->
  exists cert, cache_get c k = Ok (Some cert) /\ sha256 cert = k.
Proof.
  intros (Hfp & Hnd & _) Hp (v & j & _ & Hv). exists v. unfold cache_get, lock. rewrite Hp. cbn.
  rewrite lru_peek_view, (recency_lookup_index _ _ _ _ Hnd Hv). split; [done|].
  symmetry. apply Hfp. by eapply list_elem_of_lookup_2.
Qed.

(** C20: an inserted certificate is found at once under the fingerprint that was
    returned, and whatever was just inserted or touched survives any later calls
    that insert or touch fewer than [n] times, [n] being the capacity. *)
Theorem recently_used_survives n c cert us :
  rtc cache_step (cache_new n) c -> cache_poisoned c = false -> length us < n ->
  (cache_insert c cert).2 = Ok (sha256 cert) /\
  cache_get (cache_insert c cert).1 (sha256 cert) = Ok (Some cert) /\
  (exists cert', cache_get (foldl use (cache_insert c cert).1 us) (sha256 cert) = Ok (Some cert') /\
                 sha256 cert' = sha256 cert) /\
  (forall fp old, cache_get c fp = Ok (Some old) ->
     exists cert', cache_get (foldl use (cache_touch c fp).1 us) fp = Ok (Some cert') /\ sha256 cert' = fp).
Proof.
  intros [Hok Hn]%cache_reach_ok Hp Hus.
  assert (lru_view (cache_inner (cache_insert c cert).1) !! 0 = Some (sha256 cert, cert)) as Hfront.
  { rewrite insert_eq, Hp. cbn. rewrite lru_view_put. rewrite lookup_take_lt by lia. done. }
  assert (cache_poisoned (cache_insert c cert).1 = false) as Hp' by (by rewrite insert_eq, Hp).
  destruct (cache_step_ok _ _ (step_insert c cert) Hok) as [Hok' Hn'].
  split_and!.
  - by rewrite insert_eq, Hp.
  - unfold cache_get, lock. rewrite Hp'. cbn. rewrite lru_peek_view.
    by rewrite (recency_lookup_index _ 0 _ cert (proj1 (proj2 Hok')) Hfront).
  - destruct (uses_index us _ (sha256 cert) 0 Hok' Hp') as (Hok2 & Hp2 & Hi); [by exists cert, 0|lia|].
    by eapply at_index_get.
  - intros fp old Hget. destruct (cache_step_ok _ _ (step_touch c fp) Hok) as [Hok2 Hn2].
    assert (at_index (cache_touch c fp).1 fp 0) as Hi.
    { unfold cache_get, lock in Hget. unfold cache_touch, lock. rewrite Hp in *. injection Hget as Hget.
      rewrite lru_peek_view in Hget. destruct (lru_get_view (cache_inner c) fp) as (_ & _ & Hview).
      destruct (lru_get (cache_inner c) fp) as [l r]. cbn in *. rewrite Hget in Hview.
      exists old, 0. cbn. by rewrite Hview. }
    assert (cache_poisoned (cache_touch c fp).1 = false) as Hp2.
    { change (cache_touch c fp).1 with (use c (UseTouch fp)). by rewrite use_poisoned. }
    destruct (uses_index us _ fp 0 Hok2 Hp2 Hi) as (Hok3 & Hp3 & Hi3); [lia|]. by eapply at_index_get.
Qed.
End CacheProperties.

Module RootStoreWitness.
Import Toy ToyX509.

#[local] Instance sources : RootSources := {
  TLS_SERVER_ROOTS := [{| ta_subject := [Byte.x01]; ta_spki := [Byte.x02]; ta_name_constraints := None |}];
  anchor_of_cert d :=
    match d with
    | [] => inl "empty"
    | b :: _ => inr {| ta_subject := [Byte.x01]; ta_spki := [b]; ta_name_constraints := None |}
    end;
  pem_certs p := inr [p];
}.

(** The excluded key leaves with the bundle and comes back as an added root. *)
Example exclusion_misses_added_root :
  build (exclude_fingerprint (with_webpki_roots builder_new) (Toy.sha256 [Byte.x02])) = [] /\
  build (exclude_fingerprint (add_der (with_webpki_roots builder_new) [Byte.x02]) (Toy.sha256 [Byte.x02]))
    = TLS_SERVER_ROOTS.
Proof. split; reflexivity. Qed.

Lemma expiring_roots_from_ders_spec_witness :
  exists r, expiring_roots_from_ders 0 [[Byte.x30; Byte.x01; Byte.x02; Byte.x03; Byte.x04]; [Byte.x00]] 1 = Ok r /\
    length r = 1.
Proof.
  destruct (expiring_roots_from_ders_spec 0 [[Byte.x30; Byte.x01; Byte.x02; Byte.x03; Byte.x04]; [Byte.x00]] 1)
    as [Heq _].
  eexists. split; [exact Heq|reflexivity].
Defined.

(** A cache that keeps its entries in a list. *)
#[local] Instance list_lru : Lru := {
  lru := nat * Recency;
  lru_new n := (n, []);
  lru_put c k v := (c.1, take c.1 ((k, v) :: recency_remove c.2 k));
  lru_peek c k := recency_lookup c.2 k;
  lru_get c k :=
    match recency_lookup c.2 k with
    | Some v => ((c.1, (k, v) :: recency_remove c.2 k), Some v)
    | None => (c, None)
    end;
  lru_len c := length c.2;
  lru_cap c := c.1;
  lru_clear c := (c.1, []);
}.

#[local] Instance list_lru_laws : LruLaws.
Proof.
  refine {| lru_view := snd |}; try done. intros c k. cbn. by destruct (recency_lookup c.2 k).
Defined.

Definition cache : IntermediateCertCache := (cache_insert (cache_new 2) [Byte.x05]).1.

Lemma cache_reaches : rtc cache_step (cache_new 2) cache.
Proof. apply rtc_once, step_insert. Qed.

Lemma cache_reachable_witness : Toy.sha256 [Byte.x05] = Toy.pad 32 [Byte.x05].
Proof.
  apply (cache_reachable 2 cache cache_reaches). vm_compute. reflexivity.
Defined.

Lemma recently_used_survives_witness :
  cache_get (cache_insert cache [Byte.x06]).1 (Toy.sha256 [Byte.x06]) = Ok (Some [Byte.x06]).
Proof.
  apply (recently_used_survives 2 cache [Byte.x06] [UseInsert [Byte.x07]] cache_reaches);
    [reflexivity|cbn; lia].
Defined.

(** The least recently used entry is the one that goes. *)
Example eviction :
  let c := (cache_insert (cache_insert cache [Byte.x06]).1 [Byte.x07]).1 in
  cache_get c (Toy.sha256 [Byte.x05]) = Ok None /\ cache_len c = Ok 2.
Proof. vm_compute. done. Qed.
End RootStoreWitness.
