(* ===== verification/NativeCerts.v ===== *)
(** * NativeCerts: the platform's trust anchors

    crates/oxitls-native-certs/src/lib.rs.  The operating system is the class
    [NativeOs]: files on Linux, trust settings by domain on macOS, the ROOT store on
    Windows.  A certificate is its DER bytes; [RootSources] reads anchors from it. *)

From S2P Require Import Prelude Core RootStore.

Inductive TargetOs := MacOs | Linux | Windows | OtherOs.

(** Security.framework's trust-settings domains and the setting of a certificate
    for TLS. *)
Inductive Domain := DomainUser | DomainAdmin | DomainSystem.

Inductive TrustSettingsForCertificate := TrustInvalid | TrustRoot | TrustAsRoot | TrustDeny | TrustUnspecified.

#[export] Instance trust_eq_dec : EqDecision TrustSettingsForCertificate.
Proof. solve_decision. Defined.

(** [rustls_pemfile::certs] yields a result per certificate.  A blocking task that
    could not be joined is a [join_error]. *)
Class NativeOs := {
  fs_read : string -> IoError + bytes;
  io_error_debug : IoError -> string;
  pem_items : bytes -> list (string + bytes);
  trust_settings_iter : Domain -> string + list bytes;
  tls_trust_settings_for_certificate : Domain -> bytes -> string + option TrustSettingsForCertificate;
  open_current_user_root : string + list bytes;
  join_error : option string;
}.

Section Native.
Context `{RootSources} `{NativeOs}.

(** [RootCertStore::add_parsable_certificates]: the store, and how many were added
    and skipped. *)
Definition add_parsable_certificates (store : RootCertStore) (certs : list bytes) : RootCertStore * (nat * nat) :=
  foldl (fun '(store, (added, skipped)) cert =>
           match anchor_of_cert cert with
           | inr ta => (store ++ [ta], (S added, skipped))
           | inl _ => (store, (added, S skipped))
           end) (store, (0, 0)) certs.

(** *** macOS *)

(** The [match] on the settings of one certificate; [None] is the [continue] of the
    error arm. *)
Definition trust_for_ssl (settings : string + option TrustSettingsForCertificate) : option bool :=
  match settings with
  | inr (Some TrustRoot) | inr (Some TrustAsRoot) => Some true
  | inr None => Some true
  | inr (Some TrustDeny) => Some false
  | inr (Some TrustUnspecified) => Some false
  | inr (Some TrustInvalid) => Some false
  | inl _ => None
  end.

(** The inner loop, over the certificates of a domain. *)
Fixpoint macos_certs (domain : Domain) (certs : list bytes) (ders : list bytes) : list bytes :=
  match certs with
  | [] => ders
  | cert :: certs =>
      match trust_for_ssl (tls_trust_settings_for_certificate domain cert) with
      | None | Some false => macos_certs domain certs ders
      | Some true => macos_certs domain certs (ders ++ [cert])
      end
  end.

(** The outer loop. *)
Fixpoint macos_domains (domains : list Domain) (ders : list bytes) : list bytes :=
  match domains with
  | [] => ders
  | domain :: domains =>
      match trust_settings_iter domain with
      | inl _ => macos_domains domains ders
      | inr iter => macos_domains domains (macos_certs domain iter ders)
      end
  end.

Definition macos_collect_trusted_ders : R TlsError (list bytes) :=
  Ok (macos_domains [DomainUser; DomainAdmin; DomainSystem] []).

Definition load_macos_roots : R TlsError RootCertStore :=
  ders ← match join_error with
         | Some e => Err (Other ("native-roots macOS join error: " +:+ e))
         | None => macos_collect_trusted_ders
         end;
  let store := [] in
  let '(store, _) := add_parsable_certificates store ders in
  Ok store.

(** *** Linux *)

Definition PATHS : list string :=
  ["/etc/ssl/certs/ca-certificates.crt"; "/etc/pki/tls/cert.pem"; "/etc/ssl/cert.pem"].

Definition QUOTE : string := String (Ascii.ascii_of_nat 34) EmptyString.

(** The [Debug] of a list of paths and of an optional error. *)
Definition paths_debug (paths : list string) : string :=
  "[" +:+ String.concat ", " ((fun p => QUOTE +:+ p +:+ QUOTE) <$> paths) +:+ "]".

Definition last_err_debug (e : option IoError) : string :=
  match e with Some e => "Some(" +:+ io_error_debug e +:+ ")" | None => "None" end.

Definition read_bundle (bs : bytes) : RootCertStore :=
  let store := [] in
  let certs := omap (fun res => match res with inr c => Some c | inl _ => None end) (pem_items bs) in
  let '(store, _) := add_parsable_certificates store certs in
  store.

(** The [for path in PATHS] loop. *)
Fixpoint linux_paths (paths : list string) (last_err : option IoError) : R TlsError RootCertStore :=
  match paths with
  | [] => Err (Other ("native-roots Linux: no CA bundle found at any of " +:+ paths_debug PATHS +:+
                      " (last error: " +:+ last_err_debug last_err +:+ ")"))
  | path :: paths =>
      match fs_read path with
      | inr bs => Ok (read_bundle bs)
      | inl e => linux_paths paths (Some e)
      end
  end.

Definition load_linux_roots : R TlsError RootCertStore := linux_paths PATHS None.

(** *** Windows *)

Definition windows_collect_trusted_ders : R TlsError (list bytes) :=
  map_err (fun e => Other ("native-roots Windows: cannot open ROOT store: " +:+ e)) (of_sum open_current_user_root).

Definition load_windows_roots : R TlsError RootCertStore :=
  ders ← match join_error with
         | Some e => Err (Other ("native-roots Windows join error: " +:+ e))
         | None => windows_collect_trusted_ders
         end;
  let store := [] in
  let '(store, _) := add_parsable_certificates store ders in
  Ok store.

Definition load_native_roots (os : TargetOs) : R TlsError RootCertStore :=
  match os with
  | MacOs => load_macos_roots
  | Linux => load_linux_roots
  | Windows => load_windows_roots
  | OtherOs => Err (Other "native-roots: unsupported target OS")
  end.

(** ** Properties *)

(** The anchors of those certificates that have one. *)
Definition anchors (certs : list bytes) : RootCertStore :=
  omap (fun c => match anchor_of_cert c with inr ta => Some ta | inl _ => None end) certs.

Lemma add_parsable_spec store certs :
  let '(store', (added, skipped)) := add_parsable_certificates store certs in
  store' = store ++ anchors certs /\ added = length (anchors certs) /\ added + skipped = length certs.
Proof.
  unfold add_parsable_certificates.
  enough (forall a s st, let '(st', (a', s')) := foldl (fun '(store, (added, skipped)) cert =>
           match anchor_of_cert cert with
           | inr ta => (store ++ [ta], (S added, skipped))
           | inl _ => (store, (added, S skipped))
           end) (st, (a, s)) certs in
    st' = st ++ anchors certs /\ a' = a + length (anchors certs) /\ a' + s' = a + s + length certs) as Hgen.
  { specialize (Hgen 0 0 store). by destruct (foldl _ _ _) as [? [? ?]]. }
  induction certs as [|c certs IH]; intros a s st; cbn [foldl].
  { rewrite app_nil_r. cbn. split_and!; [done|lia..]. }
  unfold anchors. cbn [omap list_omap]. destruct (anchor_of_cert c) as [e|ta]; [specialize (IH a (S s) st)|specialize (IH (S a) s (st ++ [ta]))];
    destruct (foldl _ _ certs) as [st' [a' s']]; destruct IH as (-> & Ha & Hs); unfold anchors in *; cbn [length];
    rewrite <- ?app_assoc; split_and!; try done; lia.
Qed.

Lemma read_bundle_spec bs :
  read_bundle bs = anchors (omap (fun res => match res with inr c => Some c | inl _ => None end) (pem_items bs)).
Proof.
  unfold read_bundle. pose proof (add_parsable_spec [] (omap (fun res => match res with inr c => Some c | inl _ => None end) (pem_items bs))) as Hs.
  destruct (add_parsable_certificates _ _) as [st [a s]]. by destruct Hs as [-> _].
Qed.

(** On Linux the first path that can be read decides, whatever it contains: the
    store is the anchors of its well-formed certificates, possibly none, and the
    paths after it are not looked at.  The load fails exactly when no path can be
    read, and the message then names the last failure. *)
Theorem linux_roots_exact :
  match load_linux_roots with
  | Ok store => exists pre path post bs, PATHS = pre ++ path :: post /\
      Forall (fun p => exists e, fs_read p = inl e) pre /\ fs_read path = inr bs /\
      store = anchors (omap (fun res => match res with inr c => Some c | inl _ => None end) (pem_items bs))
  | Err e => (forall p, p ∈ PATHS -> exists e, fs_read p = inl e) /\
      exists last, fs_read "/etc/ssl/cert.pem" = inl last /\
        e = Other ("native-roots Linux: no CA bundle found at any of " +:+ paths_debug PATHS +:+
                   " (last error: " +:+ ("Some(" +:+ io_error_debug last +:+ ")") +:+ ")")
  | Panic => False
  end.
Proof.
  unfold load_linux_roots, PATHS. cbn [linux_paths].
  destruct (fs_read "/etc/ssl/certs/ca-certificates.crt") as [e1|bs] eqn:H1; last first.
  { exists [], "/etc/ssl/certs/ca-certificates.crt", ["/etc/pki/tls/cert.pem"; "/etc/ssl/cert.pem"], bs.
    rewrite read_bundle_spec. split_and!; (done || constructor). }
  destruct (fs_read "/etc/pki/tls/cert.pem") as [e2|bs] eqn:H2; last first.
  { exists ["/etc/ssl/certs/ca-certificates.crt"], "/etc/pki/tls/cert.pem", ["/etc/ssl/cert.pem"], bs.
    rewrite read_bundle_spec. split_and!; [done|repeat constructor; eauto|done|done]. }
  destruct (fs_read "/etc/ssl/cert.pem") as [e3|bs] eqn:H3; last first.
  { exists ["/etc/ssl/certs/ca-certificates.crt"; "/etc/pki/tls/cert.pem"], "/etc/ssl/cert.pem", [], bs.
    rewrite read_bundle_spec. split_and!; [done|repeat constructor; eauto|done|done]. }
  split.
  - intros p Hp. rewrite !elem_of_cons, elem_of_nil in Hp. destruct Hp as [->|[->|[->|[]]]]; eauto.
  - exists e3. done.
Qed.

Lemma macos_certs_spec domain certs ders :
  macos_certs domain certs ders
  = ders ++ filter (fun c => trust_for_ssl (tls_trust_settings_for_certificate domain c) = Some true) certs.
Proof.
  revert ders. induction certs as [|c certs IH]; intros ders; cbn [macos_certs]; [by rewrite app_nil_r|].
  destruct (trust_for_ssl _) as [[]|] eqn:Ht; rewrite IH;
    [rewrite filter_cons_True, <- app_assoc by done|rewrite filter_cons_False by congruence..]; done.
Qed.

Lemma macos_domains_elem domains ders der :
  der ∈ macos_domains domains ders <->
  der ∈ ders \/ exists domain certs, domain ∈ domains /\ trust_settings_iter domain = inr certs /\ der ∈ certs /\
    trust_for_ssl (tls_trust_settings_for_certificate domain der) = Some true.
Proof.
  revert ders. induction domains as [|d domains IH]; intros ders; cbn [macos_domains].
  { split; [by left|]. intros [?|(d & ? & Hd & _)]; [done|]. by apply not_elem_of_nil in Hd. }
  destruct (trust_settings_iter d) as [e|certs] eqn:Hi; rewrite IH, ?macos_certs_spec, ?elem_of_app, ?list_elem_of_filter;
    setoid_rewrite elem_of_cons; naive_solver congruence.
Qed.

(** On macOS a certificate is taken exactly if some domain lists it with a setting
    that permits TLS or without one; what the other domains say of it, a denial by
    the user included, changes nothing.  The load itself does not fail. *)
Theorem macos_roots_exact :
  join_error = None ->
  exists ders, macos_collect_trusted_ders = Ok ders /\ load_macos_roots = Ok (anchors ders) /\
    forall der, der ∈ ders <-> exists domain certs, trust_settings_iter domain = inr certs /\ der ∈ certs /\
      tls_trust_settings_for_certificate domain der ∈ [inr None; inr (Some TrustRoot); inr (Some TrustAsRoot)].
Proof.
  intros Hj. eexists. split; [done|]. split.
  - unfold load_macos_roots, macos_collect_trusted_ders. rewrite Hj. cbn [mbind R_bind].
    pose proof (add_parsable_spec [] (macos_domains [DomainUser; DomainAdmin; DomainSystem] [])) as Hs.
    destruct (add_parsable_certificates _ _) as [st [a s]]. by destruct Hs as [-> _].
  - intros der. rewrite macos_domains_elem.
    assert (forall r, trust_for_ssl r = Some true <-> r ∈ [inr None; inr (Some TrustRoot); inr (Some TrustAsRoot)]) as Ht.
    { intros r. rewrite !elem_of_cons, elem_of_nil. destruct r as [|[[]|]]; cbn; naive_solver. }
    setoid_rewrite Ht. split; [intros [?%not_elem_of_nil|(d & certs & _ & Hi & Hin & Hs)]; [done|eauto]|].
    intros (d & certs & Hi & Hin & Hs). right. exists d, certs. split_and!; try done.
    destruct d; repeat (first [by left|right]).
Qed.
End Native.

(** ** Witnesses *)

Module NativeCertsWitness.
#[local] Instance sources : RootSources := {
  TLS_SERVER_ROOTS := [];
  anchor_of_cert d := match d with
                      | [] => inl "empty"
                      | b :: _ => inr {| ta_subject := d; ta_spki := [b]; ta_name_constraints := None |}
                      end;
  pem_certs _ := inr [];
}.

(** The user denies the certificate [09], the system trusts it. *)
#[local] Instance os : NativeOs := {
  fs_read p := if String.eqb p "/etc/ssl/cert.pem" then inr [Byte.x01; Byte.x02]
               else inl {| io_kind := NotFound; io_message := "no such file" |};
  io_error_debug e := io_message e;
  pem_items bs := inl "bad" :: ((fun b => inr [b]) <$> bs) ++ [inr []];
  trust_settings_iter d := match d with DomainAdmin => inl "none" | _ => inr [[Byte.x09]] end;
  tls_trust_settings_for_certificate d _ :=
    inr (match d with DomainUser => Some TrustDeny | _ => Some TrustRoot end);
  open_current_user_root := inr [];
  join_error := None;
}.

Lemma macos_roots_exact_witness :
  exists ders, macos_collect_trusted_ders = Ok ders /\ [Byte.x09] ∈ ders /\
    tls_trust_settings_for_certificate DomainUser [Byte.x09] = inr (Some TrustDeny).
Proof.
  destruct macos_roots_exact as (ders & Hd & _ & Hin); [reflexivity|]. exists ders. split_and!; [done| |reflexivity].
  apply Hin. exists DomainSystem, [[Byte.x09]]. split_and!; [reflexivity|by left|right; by left].
Defined.

(** The first two bundles are missing; the third has one bad item and one
    certificate without an anchor. *)
Example linux_third_path : match load_linux_roots with Ok st => length st | _ => 0 end = 2.
Proof. vm_compute. reflexivity. Qed.
End NativeCertsWitness.
