(* ===== verification/ClientBuilder.v ===== *)
(** * ClientBuilder: the client's stack of certificate verifiers

    The remaining verifiers of crates/oxitls-adapter-rustls-rustcrypto/src/verifier
    (pin.rs, custom.rs, crl.rs, raw_public_key.rs), and client_builder.rs, which
    stacks pinning or CRL checking, the recording of intermediates, OCSP and SCT
    checks over the WebPKI verifier of rustls. *)

From S2P Require Import Prelude Core Crypto KeyLog Verifier Sct Ocsp RootStore.

(** ** The WebPKI verifier of rustls

    Built from a root store and CRLs (none for a plain verifier), or refused with
    a message; it keeps no state of ours.  An instance of [WebPki] is what rustls
    does with one provider. *)

Record WebPkiServerVerifier := {
  wp_verify_server_cert : bytes -> list bytes -> string -> bytes -> Z -> R RustlsError unit;
  wp_verify_tls12_signature : bytes -> bytes -> DigitallySignedStruct -> R RustlsError unit;
  wp_verify_tls13_signature : bytes -> bytes -> DigitallySignedStruct -> R RustlsError unit;
  wp_supported_verify_schemes : list Z;
}.

Class WebPki := {
  webpki_build : RootCertStore -> list bytes -> string + WebPkiServerVerifier;
  safe_default_protocol_versions : string + unit;
}.

Definition webpki_as_verifier {S} (w : WebPkiServerVerifier) : ServerCertVerifier S := {|
  verify_server_cert st ee ints name ocsp now := (st, wp_verify_server_cert w ee ints name ocsp now);
  verify_tls12_signature := wp_verify_tls12_signature w;
  verify_tls13_signature := wp_verify_tls13_signature w;
  supported_verify_schemes := wp_supported_verify_schemes w;
  requires_raw_public_keys := false;
|}.

Definition APPLICATION_VERIFICATION_FAILURE : RustlsError :=
  InvalidCertificate (OtherCertificateError "ApplicationVerificationFailure").

Section Verifiers.
Context `{Sha256} {S : Type}.

(** ** pin.rs *)

Record CertPinVerifier := { pinned : list bytes; pin_inner : ServerCertVerifier S }.

Definition pin_verify_server_cert (self : CertPinVerifier) (st : S) (end_entity : bytes)
  (intermediates : list bytes) (server_name : string) (ocsp_response : bytes) (now : Z)
  : S * R RustlsError unit :=
  match copy_from_slice (E:=RustlsError) (replicate 32 Byte.x00) (sha256 end_entity) with
  | Ok fingerprint =>
      if negb (bool_decide (fingerprint ∈ pinned self)) then (st, Err APPLICATION_VERIFICATION_FAILURE)
      else verify_server_cert (pin_inner self) st end_entity intermediates server_name ocsp_response now
  | Err e => (st, Err e)
  | Panic => (st, Panic)
  end.

Definition pin_as_verifier (self : CertPinVerifier) : ServerCertVerifier S := {|
  verify_server_cert := pin_verify_server_cert self;
  verify_tls12_signature := verify_tls12_signature (pin_inner self);
  verify_tls13_signature := verify_tls13_signature (pin_inner self);
  supported_verify_schemes := supported_verify_schemes (pin_inner self);
  requires_raw_public_keys := false;
|}.

(** ** custom.rs: the predicate may change the shared state *)

Record CustomServerVerifier := {
  custom_inner : ServerCertVerifier S;
  predicate : S -> bytes -> list bytes -> S * R RustlsError unit;
}.

Definition custom_verify_server_cert (self : CustomServerVerifier) (st : S) (end_entity : bytes)
  (intermediates : list bytes) (server_name : string) (ocsp_response : bytes) (now : Z)
  : S * R RustlsError unit :=
  match verify_server_cert (custom_inner self) st end_entity intermediates server_name ocsp_response now with
  | (st, Ok _) => predicate self st end_entity intermediates
  | (st, Err e) => (st, Err e)
  | (st, Panic) => (st, Panic)
  end.

Definition custom_as_verifier (self : CustomServerVerifier) : ServerCertVerifier S := {|
  verify_server_cert := custom_verify_server_cert self;
  verify_tls12_signature := verify_tls12_signature (custom_inner self);
  verify_tls13_signature := verify_tls13_signature (custom_inner self);
  supported_verify_schemes := supported_verify_schemes (custom_inner self);
  requires_raw_public_keys := false;
|}.

(** ** raw_public_key.rs

    [raw_verify] is [verify_tls13_signature_with_raw_key] with the provider's
    algorithms, whose schemes are [raw_schemes]. *)

Record RawPublicKeyServerVerifier := {
  trusted_spki : list bytes;
  raw_verify : bytes -> bytes -> DigitallySignedStruct -> R RustlsError unit;
  raw_schemes : list Z;
}.

Definition raw_verify_cert (self : RawPublicKeyServerVerifier) (end_entity : bytes) : R RustlsError unit :=
  let presented := end_entity in
  let matched := existsb (fun pin => bool_decide (pin = presented)) (trusted_spki self) in
  if matched then Ok tt else Err APPLICATION_VERIFICATION_FAILURE.

Definition raw_as_verifier (self : RawPublicKeyServerVerifier) : ServerCertVerifier S := {|
  verify_server_cert st ee _ _ _ _ := (st, raw_verify_cert self ee);
  verify_tls12_signature _ _ _ := Err (PeerIncompatible "Tls12NotOffered");
  verify_tls13_signature message cert dss := let spki := cert in raw_verify self message spki dss;
  supported_verify_schemes := raw_schemes self;
  requires_raw_public_keys := true;
|}.
End Verifiers.
Arguments CertPinVerifier : clear implicits.
Arguments CustomServerVerifier : clear implicits.

(** ** crl.rs *)

Definition crl_verifier_new `{WebPki} (roots : RootCertStore) (crls : list bytes)
  : R TlsError WebPkiServerVerifier :=
  map_err (fun e => InvalidConfig ("CRL verifier: " +:+ e)) (of_sum (webpki_build roots crls)).

(** ** client_builder.rs *)

Section Builder.
Context `{Sha256} `{Digests} `{X509} `{SigPrims} `{OcspDer} `{Lru} `{WebPki}.

Record RustcryptoClientConfigBuilder := {
  cb_root_store : RootCertStore;
  cb_pinned_certs : list bytes;
  cb_crls : list bytes;
  cb_keylog : KeyLogPolicy;
  cb_alpn_protocols : list bytes;
  cb_intermediate_cache : bool;
  cb_resumption_disabled : bool;
  cb_ocsp_policy : option OcspClientPolicy;
  cb_sct_policy : option (SctPolicy * list CtLog);
}.

Definition client_builder_new : RustcryptoClientConfigBuilder :=
  {| cb_root_store := []; cb_pinned_certs := []; cb_crls := []; cb_keylog := KeyLogDisabled;
     cb_alpn_protocols := []; cb_intermediate_cache := false; cb_resumption_disabled := false;
     cb_ocsp_policy := None; cb_sct_policy := None |}.

(** The option setters.  The cache itself is the state the verifiers share;
    the builder records whether one was attached. *)

Definition with_roots (self : RustcryptoClientConfigBuilder) (store : RootCertStore)
  : RustcryptoClientConfigBuilder :=
  {| cb_root_store := store; cb_pinned_certs := cb_pinned_certs self; cb_crls := cb_crls self;
     cb_keylog := cb_keylog self; cb_alpn_protocols := cb_alpn_protocols self; cb_intermediate_cache
     := cb_intermediate_cache self; cb_resumption_disabled := cb_resumption_disabled self;
     cb_ocsp_policy := cb_ocsp_policy self; cb_sct_policy := cb_sct_policy self |}.

Definition with_pinned_certs (self : RustcryptoClientConfigBuilder) (fingerprints : list bytes)
  : RustcryptoClientConfigBuilder :=
  {| cb_root_store := cb_root_store self; cb_pinned_certs := fingerprints; cb_crls := cb_crls self;
     cb_keylog := cb_keylog self; cb_alpn_protocols := cb_alpn_protocols self; cb_intermediate_cache
     := cb_intermediate_cache self; cb_resumption_disabled := cb_resumption_disabled self;
     cb_ocsp_policy := cb_ocsp_policy self; cb_sct_policy := cb_sct_policy self |}.

Definition with_crl (self : RustcryptoClientConfigBuilder) (crls : list bytes)
  : RustcryptoClientConfigBuilder :=
  {| cb_root_store := cb_root_store self; cb_pinned_certs := cb_pinned_certs self; cb_crls := crls;
     cb_keylog := cb_keylog self; cb_alpn_protocols := cb_alpn_protocols self; cb_intermediate_cache
     := cb_intermediate_cache self; cb_resumption_disabled := cb_resumption_disabled self;
     cb_ocsp_policy := cb_ocsp_policy self; cb_sct_policy := cb_sct_policy self |}.

Definition with_keylog (self : RustcryptoClientConfigBuilder) (policy : KeyLogPolicy)
  : RustcryptoClientConfigBuilder :=
  {| cb_root_store := cb_root_store self; cb_pinned_certs := cb_pinned_certs self; cb_crls :=
     cb_crls self; cb_keylog := policy; cb_alpn_protocols := cb_alpn_protocols self;
     cb_intermediate_cache := cb_intermediate_cache self; cb_resumption_disabled :=
     cb_resumption_disabled self; cb_ocsp_policy := cb_ocsp_policy self; cb_sct_policy :=
     cb_sct_policy self |}.

Definition with_alpn (self : RustcryptoClientConfigBuilder) (protos : list bytes)
  : RustcryptoClientConfigBuilder :=
  {| cb_root_store := cb_root_store self; cb_pinned_certs := cb_pinned_certs self; cb_crls :=
     cb_crls self; cb_keylog := cb_keylog self; cb_alpn_protocols := protos; cb_intermediate_cache
     := cb_intermediate_cache self; cb_resumption_disabled := cb_resumption_disabled self;
     cb_ocsp_policy := cb_ocsp_policy self; cb_sct_policy := cb_sct_policy self |}.

Definition with_intermediate_cache (self : RustcryptoClientConfigBuilder)
  : RustcryptoClientConfigBuilder :=
  {| cb_root_store := cb_root_store self; cb_pinned_certs := cb_pinned_certs self; cb_crls :=
     cb_crls self; cb_keylog := cb_keylog self; cb_alpn_protocols := cb_alpn_protocols self;
     cb_intermediate_cache := true; cb_resumption_disabled := cb_resumption_disabled self;
     cb_ocsp_policy := cb_ocsp_policy self; cb_sct_policy := cb_sct_policy self |}.

Definition with_resumption_disabled (self : RustcryptoClientConfigBuilder)
  : RustcryptoClientConfigBuilder :=
  {| cb_root_store := cb_root_store self; cb_pinned_certs := cb_pinned_certs self; cb_crls :=
     cb_crls self; cb_keylog := cb_keylog self; cb_alpn_protocols := cb_alpn_protocols self;
     cb_intermediate_cache := cb_intermediate_cache self; cb_resumption_disabled := true;
     cb_ocsp_policy := cb_ocsp_policy self; cb_sct_policy := cb_sct_policy self |}.

Definition with_ocsp_policy (self : RustcryptoClientConfigBuilder) (policy : OcspClientPolicy)
  : RustcryptoClientConfigBuilder :=
  {| cb_root_store := cb_root_store self; cb_pinned_certs := cb_pinned_certs self; cb_crls :=
     cb_crls self; cb_keylog := cb_keylog self; cb_alpn_protocols := cb_alpn_protocols self;
     cb_intermediate_cache := cb_intermediate_cache self; cb_resumption_disabled :=
     cb_resumption_disabled self; cb_ocsp_policy := Some policy; cb_sct_policy := cb_sct_policy self |}.

Definition with_sct_policy (self : RustcryptoClientConfigBuilder) (policy : SctPolicy) (logs : list CtLog)
  : RustcryptoClientConfigBuilder :=
  {| cb_root_store := cb_root_store self; cb_pinned_certs := cb_pinned_certs self; cb_crls :=
     cb_crls self; cb_keylog := cb_keylog self; cb_alpn_protocols := cb_alpn_protocols self;
     cb_intermediate_cache := cb_intermediate_cache self; cb_resumption_disabled :=
     cb_resumption_disabled self; cb_ocsp_policy := cb_ocsp_policy self; cb_sct_policy := Some
     (policy, logs) |}.

(** What [build] sets of a [rustls::ClientConfig]; [cfg_alpn] and [cfg_key_log]
    are [None] where the default of rustls stays. *)
Record ClientConfig := {
  cfg_verifier : ServerCertVerifier IntermediateCertCache;
  cfg_alpn_protocols : option (list bytes);
  cfg_key_log : option KeyLogPolicy;
  cfg_resumption_disabled : bool;
}.

(** The closure given to [CustomServerVerifier::new]: every intermediate goes into
    the cache and the cache's errors are ignored. *)
Definition record_intermediates (cache : IntermediateCertCache) (_leaf : bytes) (intermediates : list bytes)
  : IntermediateCertCache * R RustlsError unit :=
  (foldl (fun c cert => (cache_insert c cert).1) cache intermediates, Ok tt).

Definition base_verifier (self : RustcryptoClientConfigBuilder)
  : R TlsError (ServerCertVerifier IntermediateCertCache) :=
  match cb_pinned_certs self, cb_crls self with
  | _ :: _, _ =>
      inner ← map_err (fun e => InvalidConfig ("verifier build: " +:+ e))
                (of_sum (webpki_build (cb_root_store self) []));
      Ok (pin_as_verifier {| pinned := cb_pinned_certs self; pin_inner := webpki_as_verifier inner |})
  | [], _ :: _ =>
      inner ← crl_verifier_new (cb_root_store self) (cb_crls self); Ok (webpki_as_verifier inner)
  | [], [] =>
      inner ← map_err (fun e => InvalidConfig ("verifier build: " +:+ e))
                (of_sum (webpki_build (cb_root_store self) []));
      Ok (webpki_as_verifier inner)
  end.

Definition client_build (self : RustcryptoClientConfigBuilder) : R TlsError ClientConfig :=
  base ← base_verifier self;
  let cache_verifier :=
    if cb_intermediate_cache self
    then custom_as_verifier {| custom_inner := base; predicate := record_intermediates |} else base in
  let ocsp_verifier :=
    match cb_ocsp_policy self with
    | Some policy =>
        if bool_decide (policy <> OcspDisabled) then ocsp_as_verifier (ocsp_verifier_new cache_verifier policy)
        else cache_verifier
    | None => cache_verifier
    end in
  let verifier :=
    match cb_sct_policy self with
    | Some (Disabled, _) | None => ocsp_verifier
    | Some (policy, logs) => sct_as_verifier (sct_verifier_new ocsp_verifier policy logs)
    end in
  _ ← map_err InvalidConfig (of_sum safe_default_protocol_versions);
  Ok {| cfg_verifier := verifier;
        cfg_alpn_protocols := match cb_alpn_protocols self with [] => None | l => Some l end;
        cfg_key_log := match cb_keylog self with KeyLogDisabled => None | p => Some p end;
        cfg_resumption_disabled := cb_resumption_disabled self |}.
End Builder.
Arguments ClientConfig : clear implicits.
Arguments ClientConfig {_}.

(** ** Properties *)

(** A verifier accepts on exactly the condition [P], leaving the state [st'], and
    otherwise refuses and leaves it as it was. *)
Definition decides {S} (v : ServerCertVerifier S) (st : S) (ee : bytes) (ints : list bytes) (name : string)
  (ocsp : bytes) (now : Z) (P : Prop) (st' : S) : Prop :=
  (P /\ verify_server_cert v st ee ints name ocsp now = (st', Ok tt)) \/
  (~ P /\ exists r, r <> Ok tt /\ verify_server_cert v st ee ints name ocsp now = (st, r)).

Section StackProperties.
Context `{Sha256Laws} `{Digests} `{X509} `{SigPrims} `{OcspDer} {S : Type}.
Context (st : S) (ee : bytes) (ints : list bytes) (name : string) (ocsp : bytes) (now : Z).

Abbreviation decides_here v P st' := (decides v st ee ints name ocsp now P st').

Lemma webpki_decides w :
  decides_here (webpki_as_verifier w) (wp_verify_server_cert w ee ints name ocsp now = Ok tt) st.
Proof.
  unfold decides. cbn. destruct (wp_verify_server_cert w ee ints name ocsp now) as [[]|e|]; [by left|right..];
    (split; [done|by eexists; split; [|done]]).
Qed.

Lemma decides_iff v P Q st' : (P <-> Q) -> decides_here v P st' -> decides_here v Q st'.
Proof. unfold decides. tauto. Qed.
(** A layer that passes the call on under [Q] and refuses otherwise. *)
Lemma layer_decides v v' (Q P : Prop) st' :
  ((Q /\ verify_server_cert v st ee ints name ocsp now = verify_server_cert v' st ee ints name ocsp now) \/
   (~ Q /\ exists e, verify_server_cert v st ee ints name ocsp now = (st, Err e))) ->
  decides_here v' P st' -> decides_here v (Q /\ P) st'.
Proof.
  intros [[HQ Hv]|[HQ [e Hv]]] [[HP Hi]|(HP & r & Hr & Hi)]; unfold decides; rewrite Hv; rewrite ?Hi; [by left|right..];
    (split; [tauto|by eexists; split; [|done]]).
Qed.

Lemma pin_layer pins (v : ServerCertVerifier S) :
  let p := pin_as_verifier {| pinned := pins; pin_inner := v |} in
  (sha256 ee ∈ pins /\
   verify_server_cert p st ee ints name ocsp now = verify_server_cert v st ee ints name ocsp now) \/
  (~ sha256 ee ∈ pins /\ exists e, verify_server_cert p st ee ints name ocsp now = (st, Err e)).
Proof.
  cbn. unfold pin_verify_server_cert, copy_from_slice. rewrite length_replicate, sha256_length. cbn.
  case_bool_decide; [by left|right; eauto].
Qed.

Lemma custom_decides v P f :
  (forall s, (f s ee ints).2 = Ok tt) -> decides_here v P st ->
  decides_here (custom_as_verifier {| custom_inner := v; predicate := f |}) P (f st ee ints).1.
Proof.
  intros Hf Hd. unfold decides. cbn. unfold custom_verify_server_cert. cbn.
  destruct Hd as [[HP ->]|(HP & r & Hr & ->)]; [left|right]; (split; [done|]).
  - rewrite <- (Hf st). by destruct (f st ee ints).
  - exists r. by destruct r as [[]| |].
Qed.

Lemma ocsp_decides policy v P st' :
  decides_here v P st' ->
  decides_here (ocsp_as_verifier (ocsp_verifier_new v policy)) (ocsp_passes policy ocsp ee ints now /\ P) st'.
Proof. apply layer_decides. apply (ocsp_layer (ocsp_verifier_new v policy) st ee ints name ocsp now). Qed.

Lemma sct_decides policy logs v P st' :
  decides_here v P st' ->
  decides_here (sct_as_verifier (sct_verifier_new v policy logs)) (sct_passes policy logs ee ints /\ P) st'.
Proof.
  apply layer_decides. destruct (sct_layer (sct_verifier_new v policy logs) st ee ints name ocsp now)
    as [?|[? [msg ?]]]; [by left|right; eauto].
Qed.

Lemma ocsp_option_decides policy v P st' :
  decides_here v P st' ->
  decides_here (match policy with
                | Some policy => if bool_decide (policy <> OcspDisabled)
                                 then ocsp_as_verifier (ocsp_verifier_new v policy) else v
                | None => v
                end)
    ((forall p, policy = Some p -> ocsp_passes p ocsp ee ints now) /\ P) st'.
Proof.
  intros Hd. destruct policy as [p|]; [case_bool_decide as Hp|].
  - eapply decides_iff; [|by apply ocsp_decides]. naive_solver.
  - eapply decides_iff; [|exact Hd]. subst p. split; [|tauto]. intros HP. split; [|done].
    intros p [= <-]. by left.
  - eapply decides_iff; [|exact Hd]. naive_solver.
Qed.

Lemma sct_option_decides policy v P st' :
  decides_here v P st' ->
  decides_here (match policy with
                | Some (Disabled, _) | None => v
                | Some (policy, logs) => sct_as_verifier (sct_verifier_new v policy logs)
                end)
    ((forall p logs, policy = Some (p, logs) -> sct_passes p logs ee ints) /\ P) st'.
Proof.
  intros Hd. destruct policy as [[[|m|m] logs]|].
  2, 3: eapply decides_iff; [|by apply sct_decides]; naive_solver.
  all: eapply decides_iff; [|exact Hd]; (split; [|tauto]); intros HP; (split; [|done]); by intros ?? [= <- <-].
Qed.

End StackProperties.

Section BuilderProperties.
Context `{Sha256Laws} `{Digests} `{X509} `{SigPrims} `{OcspDer} `{Lru} `{WebPki}.

(** Pinning takes precedence over the CRLs. *)
Definition effective_crls (b : RustcryptoClientConfigBuilder) : list bytes :=
  match cb_pinned_certs b with [] => cb_crls b | _ => [] end.

(** What a configured client requires of a server. *)
Definition client_requires (b : RustcryptoClientConfigBuilder) (w : WebPkiServerVerifier)
  (ee : bytes) (ints : list bytes) (name : string) (ocsp : bytes) (now : Z) : Prop :=
  (forall policy logs, cb_sct_policy b = Some (policy, logs) -> sct_passes policy logs ee ints) /\
  (forall policy, cb_ocsp_policy b = Some policy -> ocsp_passes policy ocsp ee ints now) /\
  (cb_pinned_certs b <> [] -> sha256 ee ∈ cb_pinned_certs b) /\
  wp_verify_server_cert w ee ints name ocsp now = Ok tt.

Lemma base_verifier_decides b v w cache ee ints name ocsp now :
  base_verifier b = Ok v -> webpki_build (cb_root_store b) (effective_crls b) = inr w ->
  decides v cache ee ints name ocsp now
    ((cb_pinned_certs b <> [] -> sha256 ee ∈ cb_pinned_certs b) /\
     wp_verify_server_cert w ee ints name ocsp now = Ok tt) cache.
Proof.
  unfold base_verifier, effective_crls, crl_verifier_new. intros Hb Hw.
  destruct (cb_pinned_certs b) as [|pin pins]; [destruct (cb_crls b)|]; inv_ok;
    match goal with Hx : webpki_build _ _ = inr ?x |- _ => rewrite Hw in Hx; injection Hx as <- end.
  1, 2: eapply decides_iff; [|apply webpki_decides]; split; [done|by intros [_ ?]].
  eapply decides_iff; [|eapply layer_decides; [apply pin_layer|apply webpki_decides]].
  split; intros [Hp Hwp]; split; auto.
Qed.

Lemma client_build_decides b cfg w cache ee ints name ocsp now :
  client_build b = Ok cfg -> webpki_build (cb_root_store b) (effective_crls b) = inr w ->
  decides (cfg_verifier cfg) cache ee ints name ocsp now (client_requires b w ee ints name ocsp now)
    (if cb_intermediate_cache b then foldl (fun c cert => (cache_insert c cert).1) cache ints else cache).
Proof.
  intros Hb Hw. unfold client_build in Hb. apply bind_Ok in Hb as (base & Hbase & Hb).
  cbv zeta in Hb. apply bind_Ok in Hb as ([] & _ & [= <-]). cbn [cfg_verifier].
  apply sct_option_decides, ocsp_option_decides.
  pose proof (base_verifier_decides b base w cache ee ints name ocsp now Hbase Hw) as Hd.
  destruct (cb_intermediate_cache b); [|done].
  by apply (custom_decides _ _ _ _ _ _ _ _ record_intermediates).
Qed.

(** C2: the verifier of a client that was configured accepts a server exactly if
    every check that was asked for does: the SCT policy, the OCSP policy, the
    pins and WebPKI (with the CRLs unless pins were given).  The cache of
    intermediates, if one was attached, receives the intermediates of accepted
    servers only; a refused server leaves it untouched. *)
Theorem client_verifier_exact b cfg w cache ee ints name ocsp now :
  client_build b = Ok cfg -> webpki_build (cb_root_store b) (effective_crls b) = inr w ->
  let res := verify_server_cert (cfg_verifier cfg) cache ee ints name ocsp now in
  (res.2 = Ok tt <-> client_requires b w ee ints name ocsp now) /\
  res.1 = (if is_ok res.2 && cb_intermediate_cache b
           then foldl (fun c cert => (cache_insert c cert).1) cache ints else cache).
Proof.
  intros Hb Hw res. destruct (client_build_decides b cfg w cache ee ints name ocsp now Hb Hw)
    as [[Hok Hv]|(Hno & r & Hr & Hv)]; subst res; rewrite Hv; cbn.
  - split; [tauto|]. by destruct (cb_intermediate_cache b).
  - split; [tauto|]. by destruct r as [[]| |].
Qed.
End BuilderProperties.

(** The scan for a trusted key is membership. *)
Lemma pins_match (pins : list bytes) (presented : bytes) :
  existsb (fun pin => bool_decide (pin = presented)) pins = bool_decide (presented ∈ pins).
Proof.
  apply eq_true_iff_eq. rewrite existsb_exists, bool_decide_eq_true. split.
  - intros (pin & Hp%list_elem_of_In & ->%bool_decide_eq_true). done.
  - intros Hp. exists presented. split; [by apply list_elem_of_In|by apply bool_decide_eq_true].
Qed.

(** A raw-public-key verifier accepts exactly the keys it was given, byte for
    byte, whatever else the server sends, asks for raw keys, and refuses every
    TLS 1.2 signature.  A verifier wrapped in any of the other layers no longer
    asks for raw keys. *)
Theorem raw_public_key_exact `{Sha256} `{Digests} `{X509} `{SigPrims} `{OcspDer} {S}
  (self : RawPublicKeyServerVerifier) (st : S) ee ints name ocsp now :
  let v := raw_as_verifier (S:=S) self in
  (verify_server_cert v st ee ints name ocsp now = (st, Ok tt) <-> ee ∈ trusted_spki self) /\
  (ee ∉ trusted_spki self ->
   verify_server_cert v st ee ints name ocsp now = (st, Err APPLICATION_VERIFICATION_FAILURE)) /\
  (forall m c d, exists e, verify_tls12_signature v m c d = Err e) /\
  requires_raw_public_keys v = true /\
  (forall pins f policy spolicy logs,
     requires_raw_public_keys (pin_as_verifier {| pinned := pins; pin_inner := v |}) = false /\
     requires_raw_public_keys (custom_as_verifier {| custom_inner := v; predicate := f |}) = false /\
     requires_raw_public_keys (ocsp_as_verifier (ocsp_verifier_new v policy)) = false /\
     requires_raw_public_keys (sct_as_verifier (sct_verifier_new v spolicy logs)) = false).
Proof.
  cbn. unfold raw_verify_cert. rewrite pins_match.
  case_bool_decide; split_and!; try done; eauto; naive_solver.
Qed.

(** ** Witnesses *)

Module ClientBuilderWitness.
Import Toy ToyX509 OcspWitness RootStoreWitness.
#[local] Existing Instance ocsp_der.
#[local] Existing Instance list_lru.

(** A WebPKI verifier that accepts any chain with an intermediate. *)
Definition webpki_ok : WebPkiServerVerifier := {|
  wp_verify_server_cert _ ints _ _ _ := match ints with [] => Err (InvalidCertificate UnknownIssuer) | _ => Ok tt end;
  wp_verify_tls12_signature _ _ _ := Ok tt; wp_verify_tls13_signature _ _ _ := Ok tt;
  wp_supported_verify_schemes := [];
|}.

#[local] Instance webpki : WebPki := {
  webpki_build _ _ := inr webpki_ok; safe_default_protocol_versions := inr tt;
}.

(** Pinned leaf, cached intermediates, an OCSP staple required. *)
Definition builder : RustcryptoClientConfigBuilder :=
  with_ocsp_policy (with_intermediate_cache
    (with_pinned_certs client_builder_new [Toy.sha256 OcspWitness.leaf])) HardRequire.

Lemma client_verifier_exact_witness :
  exists cfg, client_build builder = Ok cfg /\
    client_requires builder webpki_ok OcspWitness.leaf [OcspWitness.issuer] "h" staple 50 /\
    (verify_server_cert (cfg_verifier cfg) (cache_new 2) OcspWitness.leaf [OcspWitness.issuer] "h" staple 50).1
      = (cache_insert (cache_new 2) OcspWitness.issuer).1.
Proof.
  eexists. split; [reflexivity|].
  match goal with |- context [cfg_verifier ?c] =>
    destruct (client_verifier_exact builder c webpki_ok (cache_new 2) OcspWitness.leaf [OcspWitness.issuer] "h" staple 50)
      as [Hreq Hcache]; [reflexivity|reflexivity|]
  end.
  split; [apply Hreq; vm_compute; reflexivity|vm_compute; reflexivity].
Defined.
End ClientBuilderWitness.
