(* ===== verification/KeyExchange.v ===== *)
(** * KeyExchange: the key exchange groups of the providers

    crates/oxitls-core/src/os_rng.rs, crates/oxitls-rustcrypto-provider/src/kx.rs
    (X25519 and the NIST curves) and kx.rs of the adapter, the post-quantum hybrid
    X25519MLKEM768.  X25519 is the class of file Hpke; the curves and ML-KEM-768
    are interfaces with the laws their specifications give. *)

From S2P Require Import Prelude Core Crypto Hpke HpkeSession.

(** ** os_rng.rs: a request the OS refuses is a panic, also through [try_fill_bytes] *)

Module OsRng.
Definition fill_bytes {E} (w : World) (n : nat) : R E bytes :=
  match os_random w n with Ok bs => Ok bs | _ => Panic end.

Definition try_fill_bytes (w : World) (n : nat) : R string bytes :=
  bs ← fill_bytes w n; Ok bs.

(** [from_ne_bytes] depends on the machine: an argument. *)
Definition next_u32 {E} (from_ne_bytes : bytes -> Z) (w : World) : R E Z :=
  b ← fill_bytes w 4; Ok (from_ne_bytes b).

Definition next_u64 {E} (from_ne_bytes : bytes -> Z) (w : World) : R E Z :=
  b ← fill_bytes w 8; Ok (from_ne_bytes b).
End OsRng.

Inductive NamedGroup := X25519Group | secp256r1 | secp384r1 | X25519MLKEM768.

#[export] Instance NamedGroup_eq_dec : EqDecision NamedGroup.
Proof. solve_decision. Defined.

Definition InvalidKeyShare : RustlsError := PeerMisbehaved "InvalidKeyShare".

(** [<[u8; 32]>::try_from(slice)] with the error of this module. *)
Definition share_32 (bs : bytes) : R RustlsError bytes :=
  if length bs =? 32 then Ok bs else Err InvalidKeyShare.

(** [EphemeralSecret::random_from_rng(OsRng)] of [x25519_dalek]. *)
Definition random_from_rng (w : World) : R RustlsError bytes := OsRng.fill_bytes w 32.

(** ** kx.rs of the provider *)

Section X25519Kx.
Context `{X25519}.

Record X25519KeyExchange := { x_priv_key : bytes; x_pub_key : bytes }.

Definition x25519_start (w : World) : R RustlsError X25519KeyExchange :=
  priv_key ← random_from_rng w;
  let pub_key := x25519_public priv_key in
  Ok {| x_priv_key := priv_key; x_pub_key := pub_key |}.

Definition x25519_complete (self : X25519KeyExchange) (peer : bytes) : R RustlsError bytes :=
  peer_array ← share_32 peer;
  Ok (x25519_dh (x_priv_key self) peer_array).

Definition x25519_name : NamedGroup := X25519Group.
Definition x25519_group (_ : X25519KeyExchange) : NamedGroup := x25519_name.
End X25519Kx.

(** A NIST curve as [p256] and [p384] give it: the parameters of [impl_kx!]. *)
Record EcdhCurve := {
  ec_name : NamedGroup;
  ec_secret : Type;
  ec_public : Type;
  ec_random : World -> R RustlsError ec_secret;
  ec_public_of : ec_secret -> ec_public;
  ec_to_sec1_bytes : ec_public -> bytes;
  ec_from_sec1_bytes : bytes -> option ec_public;
  ec_diffie_hellman : ec_secret -> ec_public -> bytes;
}.

Class EcdhCurveLaws (C : EcdhCurve) := {
  ec_sec1 : forall p, ec_from_sec1_bytes C (ec_to_sec1_bytes C p) = Some p;
  ec_dh_comm : forall a b,
    ec_diffie_hellman C a (ec_public_of C b) = ec_diffie_hellman C b (ec_public_of C a);
}.

Section EcdhKx.
Context (C : EcdhCurve).

Record EcdhKeyExchange := { ec_kx_priv : ec_secret C; ec_kx_pub : bytes }.

Definition ecdh_start (w : World) : R RustlsError EcdhKeyExchange :=
  priv_key ← ec_random C w;
  let pub_key := ec_public_of C priv_key in
  Ok {| ec_kx_priv := priv_key; ec_kx_pub := ec_to_sec1_bytes C pub_key |}.

Definition ecdh_complete (self : EcdhKeyExchange) (peer : bytes) : R RustlsError bytes :=
  their_pub ← ok_or InvalidKeyShare (ec_from_sec1_bytes C peer);
  Ok (ec_diffie_hellman C (ec_kx_priv self) their_pub).
End EcdhKx.

(** ** kx.rs of the adapter: X25519MLKEM768 *)

(** ML-KEM-768 ([ml_kem]): key generation and encapsulation draw randomness, their
    first argument.  A ciphertext slice of the wrong length is an error. *)
Class MlKem768 := {
  mlkem_dk : Type;
  mlkem_ek : Type;
  mlkem_generate_keypair : bytes -> mlkem_dk * mlkem_ek;
  mlkem_ek_to_bytes : mlkem_ek -> bytes;
  mlkem_ek_new : bytes -> option mlkem_ek;
  mlkem_encapsulate : bytes -> mlkem_ek -> bytes * bytes;
  mlkem_decapsulate_slice : mlkem_dk -> bytes -> option bytes;
}.

(** FIPS 203: sizes, and keys decode to themselves. *)
Class MlKem768Laws `{MlKem768} := {
  mlkem_ek_length : forall ek, length (mlkem_ek_to_bytes ek) = 1184;
  mlkem_ek_decodes : forall ek, mlkem_ek_new (mlkem_ek_to_bytes ek) = Some ek;
  mlkem_ct_length : forall r ek, length (mlkem_encapsulate r ek).1 = 1088;
  mlkem_ss_length : forall r ek, length (mlkem_encapsulate r ek).2 = 32;
  mlkem_decaps_defined : forall dk ct, length ct = 1088 -> is_Some (mlkem_decapsulate_slice dk ct);
  mlkem_decaps_length : forall dk ct ss, mlkem_decapsulate_slice dk ct = Some ss -> length ss = 32;
}.

(** Decapsulation gives back the secret of this encapsulation.  FIPS 203 allows it to
    fail, for about one in 2^164 keys and encapsulations. *)
Definition decapsulates `{MlKem768} (seed r : bytes) : Prop :=
  let '(dk, ek) := mlkem_generate_keypair seed in
  mlkem_decapsulate_slice dk (mlkem_encapsulate r ek).1 = Some (mlkem_encapsulate r ek).2.

Definition MLKEM768_ENCAP_KEY_LEN : nat := 1184.
Definition MLKEM768_CIPHERTEXT_LEN : nat := 1088.
Definition X25519_PUB_LEN : nat := 32.
Definition CLIENT_SHARE_LEN : nat := MLKEM768_ENCAP_KEY_LEN + X25519_PUB_LEN.
Definition SERVER_SHARE_LEN : nat := MLKEM768_CIPHERTEXT_LEN + X25519_PUB_LEN.

Record CompletedKeyExchange := { ckx_group : NamedGroup; ckx_pub_key : bytes; ckx_secret : bytes }.

(** [l.split_at(mid)] *)
Definition split_at {E} (l : bytes) (mid : nat) : R E (bytes * bytes) :=
  if mid <=? length l then Ok (take mid l, drop mid l) else Panic.

(** [debug_assert_eq!]: a panic of a debug build. *)
Definition debug_assert_eq {E} (a b : nat) : R E unit := if a =? b then Ok tt else Panic.

Section Hybrid.
Context `{X25519} `{MlKem768}.

Record ActiveX25519MlKem768 := { a_dk : mlkem_dk; a_x25519_priv : bytes; a_combined_pub : bytes }.

(** [seed] is the randomness [MlKem768::generate_keypair] draws. *)
Definition hybrid_start (w : World) (seed : bytes) : R RustlsError ActiveX25519MlKem768 :=
  let '(dk, ek) := mlkem_generate_keypair seed in
  let ek_bytes := mlkem_ek_to_bytes ek in
  x25519_priv ← random_from_rng w;
  let x25519_pub := x25519_public x25519_priv in
  let combined_pub := ek_bytes ++ x25519_pub in
  _ ← debug_assert_eq (length combined_pub) CLIENT_SHARE_LEN;
  Ok {| a_dk := dk; a_x25519_priv := x25519_priv; a_combined_pub := combined_pub |}.

Definition hybrid_start_and_complete (w : World) (r : bytes) (peer_pub_key : bytes)
  : R RustlsError CompletedKeyExchange :=
  if negb (length peer_pub_key =? CLIENT_SHARE_LEN) then Err InvalidKeyShare else
  '(peer_ek_bytes, peer_x25519_bytes) ← split_at peer_pub_key MLKEM768_ENCAP_KEY_LEN;
  peer_ek_array ← (if length peer_ek_bytes =? MLKEM768_ENCAP_KEY_LEN then Ok peer_ek_bytes else Err InvalidKeyShare);
  peer_ek ← ok_or InvalidKeyShare (mlkem_ek_new peer_ek_array);
  let '(ct, mlkem_ss) := mlkem_encapsulate r peer_ek in
  x25519_priv ← random_from_rng w;
  let x25519_pub := x25519_public x25519_priv in
  peer_x25519_array ← share_32 peer_x25519_bytes;
  let x25519_ss := x25519_dh x25519_priv peer_x25519_array in
  let pub_key := ct ++ x25519_pub in
  _ ← debug_assert_eq (length pub_key) SERVER_SHARE_LEN;
  let secret_bytes := mlkem_ss ++ x25519_ss in
  _ ← debug_assert_eq (length secret_bytes) 64;
  Ok {| ckx_group := X25519MLKEM768; ckx_pub_key := pub_key; ckx_secret := secret_bytes |}.

Definition hybrid_complete (self : ActiveX25519MlKem768) (peer_pub_key : bytes) : R RustlsError bytes :=
  if negb (length peer_pub_key =? SERVER_SHARE_LEN) then Err InvalidKeyShare else
  '(ct_bytes, peer_x25519_bytes) ← split_at peer_pub_key MLKEM768_CIPHERTEXT_LEN;
  mlkem_ss ← ok_or InvalidKeyShare (mlkem_decapsulate_slice (a_dk self) ct_bytes);
  peer_x25519_array ← share_32 peer_x25519_bytes;
  let x25519_ss := x25519_dh (a_x25519_priv self) peer_x25519_array in
  let secret_bytes := mlkem_ss ++ x25519_ss in
  _ ← debug_assert_eq (length secret_bytes) 64;
  Ok secret_bytes.

Definition hybrid_component (self : ActiveX25519MlKem768) : R RustlsError (option (NamedGroup * bytes)) :=
  x25519_pub ← slice (a_combined_pub self) MLKEM768_ENCAP_KEY_LEN (length (a_combined_pub self));
  Ok (Some (X25519Group, x25519_pub)).

Definition complete_hybrid_component (self : ActiveX25519MlKem768) (peer_pub_key : bytes) : R RustlsError bytes :=
  peer_array ← share_32 peer_pub_key;
  let ss := x25519_dh (a_x25519_priv self) peer_array in
  Ok ss.

Definition hybrid_name : NamedGroup := X25519MLKEM768.
Definition hybrid_pub_key (self : ActiveX25519MlKem768) : bytes := a_combined_pub self.

(** [usable_for_version]: TLS 1.3, code 0x0304, only. *)
Definition usable_for_version (version : Z) : bool := (version =? 0x0304)%Z.
End Hybrid.

(** ** Properties *)

Lemma debug_assert_true {E} a b : a = b -> debug_assert_eq (E:=E) a b = Ok tt.
Proof. intros ->. unfold debug_assert_eq. by rewrite Nat.eqb_refl. Qed.

Lemma share_32_Ok bs : length bs = 32 -> share_32 bs = Ok bs.
Proof. intros Hl. unfold share_32. by rewrite Hl. Qed.

Lemma share_32_cases bs :
  (length bs = 32 /\ share_32 bs = Ok bs) \/ (length bs <> 32 /\ share_32 bs = Err InvalidKeyShare).
Proof. unfold share_32. destruct (length bs =? 32) eqn:E; reflect_tests; auto. Qed.

Lemma split_at_app {E} (a b : bytes) n : n = length a -> split_at (E:=E) (a ++ b) n = Ok (a, b).
Proof.
  intros ->. unfold split_at. rewrite length_app, (proj2 (Nat.leb_le _ _)) by lia.
  by rewrite take_app_length, drop_app_length.
Qed.

(** The random generator answers with a full buffer. *)
Definition rng_works (w : World) : Prop := exists bs, os_random w 32 = Ok bs /\ length bs = 32.

Lemma random_from_rng_works w : rng_works w -> exists sk, random_from_rng w = Ok sk.
Proof. intros (bs & Hb & _). exists bs. unfold random_from_rng, OsRng.fill_bytes. by rewrite Hb. Qed.

Section KeyExchangeProperties.
Context `{X25519Laws} `{MlKem768Laws}.

(** What a started client holds: the halves of its share. *)
Lemma hybrid_start_inv w seed a :
  hybrid_start w seed = Ok a ->
  exists sk, random_from_rng w = Ok sk /\ a_x25519_priv a = sk /\
    a_dk a = (mlkem_generate_keypair seed).1 /\
    a_combined_pub a = mlkem_ek_to_bytes (mlkem_generate_keypair seed).2 ++ x25519_public sk.
Proof.
  unfold hybrid_start. destruct (mlkem_generate_keypair seed) as [dk ek]. intros. inv_ok. cbn. eauto.
Qed.

Lemma hybrid_start_works w seed : rng_works w -> exists a, hybrid_start w seed = Ok a.
Proof.
  intros (sk & Hsk)%random_from_rng_works. unfold hybrid_start.
  destruct (mlkem_generate_keypair seed) as [dk ek]. rewrite Hsk. cbn [mbind R_bind].
  rewrite debug_assert_true by (rewrite length_app, mlkem_ek_length, x25519_public_length; done).
  eauto.
Qed.

(** The server on any share of the right length. *)
Lemma hybrid_server_eq w r share :
  rng_works w -> length share = 1216 ->
  exists sk, random_from_rng w = Ok sk /\
    hybrid_start_and_complete w r share =
      match mlkem_ek_new (take 1184 share) with
      | None => Err InvalidKeyShare
      | Some ek => Ok {|
          ckx_group := X25519MLKEM768;
          ckx_pub_key := (mlkem_encapsulate r ek).1 ++ x25519_public sk;
          ckx_secret := (mlkem_encapsulate r ek).2 ++ x25519_dh sk (drop 1184 share) |}
      end.
Proof.
  intros (sk & Hsk)%random_from_rng_works Hl. exists sk. split; [done|].
  unfold hybrid_start_and_complete, split_at. rewrite Hl, (proj2 (Nat.eqb_eq 1216 CLIENT_SHARE_LEN)) by done.
  cbn [negb]. rewrite (proj2 (Nat.leb_le MLKEM768_ENCAP_KEY_LEN 1216)) by (unfold MLKEM768_ENCAP_KEY_LEN; lia).
  cbn [mbind R_bind]. rewrite length_take, Hl, (proj2 (Nat.eqb_eq _ MLKEM768_ENCAP_KEY_LEN)) by done.
  cbn [mbind R_bind]. change MLKEM768_ENCAP_KEY_LEN with 1184.
  destruct (mlkem_ek_new (take 1184 share)) as [ek|]; [|done]. cbn [ok_or mbind R_bind].
  pose proof (mlkem_ct_length r ek) as Hct. pose proof (mlkem_ss_length r ek) as Hss.
  destruct (mlkem_encapsulate r ek) as [ct ss]. cbn in Hct, Hss. rewrite Hsk. cbn [mbind R_bind].
  rewrite share_32_Ok by (rewrite length_drop, Hl; done). cbn [mbind R_bind].
  rewrite (debug_assert_true (length (ct ++ _))) by (rewrite length_app, Hct, x25519_public_length; done).
  cbn [mbind R_bind]. by rewrite debug_assert_true by (rewrite length_app, Hss, x25519_dh_length; done).
Qed.

(** The server on a share made of a key [ek] and an X25519 point. *)
Lemma hybrid_serve w r ek pk :
  rng_works w -> length pk = 32 ->
  exists sk, random_from_rng w = Ok sk /\
    hybrid_start_and_complete w r (mlkem_ek_to_bytes ek ++ pk) = Ok {|
      ckx_group := X25519MLKEM768;
      ckx_pub_key := (mlkem_encapsulate r ek).1 ++ x25519_public sk;
      ckx_secret := (mlkem_encapsulate r ek).2 ++ x25519_dh sk pk |}.
Proof.
  intros Hw Hpk. destruct (hybrid_server_eq w r (mlkem_ek_to_bytes ek ++ pk) Hw) as (sk & Hsk & Heq).
  { by rewrite length_app, mlkem_ek_length, Hpk. }
  exists sk. split; [done|].
  by rewrite Heq, take_app_length', drop_app_length', mlkem_ek_decodes by (by rewrite mlkem_ek_length).
Qed.

(** The client on an answer made of a ciphertext its key opens and a point. *)
Lemma hybrid_finish a ct ss pk :
  length ct = 1088 -> length pk = 32 -> mlkem_decapsulate_slice (a_dk a) ct = Some ss ->
  hybrid_complete a (ct ++ pk) = Ok (ss ++ x25519_dh (a_x25519_priv a) pk).
Proof.
  intros Hct Hpk Hss. unfold hybrid_complete. rewrite length_app, Hct, Hpk.
  rewrite (proj2 (Nat.eqb_eq _ _)) by done. cbn [negb].
  rewrite split_at_app by (by rewrite Hct). cbn [mbind R_bind]. rewrite Hss. cbn [ok_or mbind R_bind].
  rewrite share_32_Ok by done. cbn [mbind R_bind].
  by rewrite debug_assert_true by (rewrite length_app, (mlkem_decaps_length _ _ _ Hss), x25519_dh_length; done).
Qed.

(** C18: the hybrid exchange succeeds and agrees.  When the random generators
    answer, a client starts with a share of 1216 bytes, the server answers it with
    one of 1120 bytes, the client completes, and both hold a secret of 64 bytes: the
    server's is the encapsulated ML-KEM secret followed by the X25519 secret, and
    the client's is the same exactly if ML-KEM decapsulation gives back what was
    encapsulated.  A server that knows only X25519 takes the component the client
    offers (the end of its share) and, with the same random bytes, reaches that
    X25519 secret, as does the client's fallback. *)
Theorem hybrid_agreement wc ws seed r :
  rng_works wc -> rng_works ws ->
  exists a c secret,
    hybrid_start wc seed = Ok a /\ length (hybrid_pub_key a) = 1216 /\
    hybrid_start_and_complete ws r (hybrid_pub_key a) = Ok c /\ length (ckx_pub_key c) = 1120 /\
    hybrid_complete a (ckx_pub_key c) = Ok secret /\ length secret = 64 /\ length (ckx_secret c) = 64 /\
    (secret = ckx_secret c <-> decapsulates seed r) /\ ckx_group c = hybrid_name /\
    exists pub kx s,
      hybrid_component a = Ok (Some (x25519_name, pub)) /\ x25519_start ws = Ok kx /\
      x25519_complete kx pub = Ok s /\ complete_hybrid_component a (x_pub_key kx) = Ok s /\
      ckx_secret c = (mlkem_encapsulate r (mlkem_generate_keypair seed).2).2 ++ s /\ drop 32 secret = s.
Proof.
  intros Hc Hs. destruct (hybrid_start_works wc seed Hc) as [a Ha]. exists a.
  destruct (hybrid_start_inv wc seed a Ha) as (skc & _ & Hp & Hdk & Hpub).
  unfold decapsulates. destruct (mlkem_generate_keypair seed) as [dk ek]. cbn in Hdk, Hpub. cbn [snd].
  destruct (hybrid_serve ws r ek (x25519_public skc) Hs) as (sks & Hsks & Hserve); [apply x25519_public_length|].
  destruct (mlkem_decaps_defined dk _ (mlkem_ct_length r ek)) as [ss Hss].
  pose proof (mlkem_decaps_length _ _ _ Hss) as Hssl.
  unfold hybrid_pub_key. rewrite Hpub, Hserve. eexists _, (ss ++ x25519_dh skc (x25519_public sks)).
  split; [done|]. split; [|split; [reflexivity|]]; cbn [ckx_pub_key ckx_secret ckx_group].
  { by rewrite length_app, mlkem_ek_length, x25519_public_length. }
  rewrite !length_app, mlkem_ct_length, mlkem_ss_length, !x25519_dh_length, !x25519_public_length, Hssl.
  split_and!; try done.
  - rewrite <- Hdk in Hss. erewrite hybrid_finish by (eauto using mlkem_ct_length, x25519_public_length). by rewrite Hp.
  - rewrite Hss, (x25519_dh_comm skc sks). split; [intros Heq|by intros [= ->]].
    apply app_inj_1 in Heq as [-> _]; [done|]. by rewrite Hssl, mlkem_ss_length.
  - eexists (x25519_public skc), _, _. unfold hybrid_component, x25519_start, x25519_complete, complete_hybrid_component.
    rewrite Hpub, slice_full by (rewrite ?length_app, mlkem_ek_length; unfold MLKEM768_ENCAP_KEY_LEN; lia).
    rewrite drop_app_length' by (by rewrite mlkem_ek_length). rewrite Hsks. cbn [mbind R_bind].
    split; [done|]. split; [done|]. cbn [x_pub_key]. rewrite !share_32_Ok by apply x25519_public_length. cbn [mbind R_bind].
    split; [done|]. rewrite Hp, drop_app_length', (x25519_dh_comm skc sks) by done. done.
Qed.

(** Key shares from the peer.  A share of the wrong length, or whose ML-KEM
    key is refused, is answered with InvalidKeyShare; nothing a peer sends makes
    either side panic; and a share of the right length always completes on the
    client's side. *)
Theorem hybrid_share_checked w r a share :
  rng_works w ->
  (length share <> 1216 -> hybrid_start_and_complete w r share = Err InvalidKeyShare) /\
  (length share <> 1120 -> hybrid_complete a share = Err InvalidKeyShare) /\
  (length share = 1216 -> mlkem_ek_new (take 1184 share) = None ->
   hybrid_start_and_complete w r share = Err InvalidKeyShare) /\
  hybrid_start_and_complete w r share <> Panic /\
  (length share = 1120 -> exists secret, hybrid_complete a share = Ok secret /\ length secret = 64) /\
  (length share <> 32 -> complete_hybrid_component a share = Err InvalidKeyShare).
Proof.
  intros Hw. assert (forall n m, n <> m -> negb (n =? m) = true) as Hne.
  { intros n m Hnm. by rewrite (proj2 (Nat.eqb_neq _ _) Hnm). }
  split_and!.
  - intros Hl. unfold hybrid_start_and_complete. by rewrite (Hne (length share) CLIENT_SHARE_LEN) by done.
  - intros Hl. unfold hybrid_complete. by rewrite (Hne (length share) SERVER_SHARE_LEN) by done.
  - intros Hl Hek. destruct (hybrid_server_eq w r share Hw Hl) as (sk & _ & ->). by rewrite Hek.
  - destruct (decide (length share = 1216)) as [Hl|Hl].
    + destruct (hybrid_server_eq w r share Hw Hl) as (sk & _ & ->). by destruct (mlkem_ek_new _).
    + unfold hybrid_start_and_complete. by rewrite (Hne (length share) CLIENT_SHARE_LEN) by done.
  - intros Hl. assert (length (take 1088 share) = 1088) as Hct by (rewrite length_take; lia).
    destruct (mlkem_decaps_defined (a_dk a) _ Hct) as [ss Hss]. exists (ss ++ x25519_dh (a_x25519_priv a) (drop 1088 share)).
    rewrite length_app, (mlkem_decaps_length _ _ _ Hss), x25519_dh_length. split; [|done].
    rewrite <- (take_drop 1088 share) at 1. apply hybrid_finish; [done|rewrite length_drop; lia|done].
  - intros Hl. unfold complete_hybrid_component. by destruct (share_32_cases share) as [[? _]|[_ ->]].
Qed.
End KeyExchangeProperties.

(** Each curve of the provider agrees: both sides start, exchange public keys and
    complete with the same secret; a share the curve cannot decode is refused. *)
Theorem ecdh_agreement (C : EcdhCurve) `{!EcdhCurveLaws C} w1 w2 k1 k2 peer :
  ecdh_start C w1 = Ok k1 -> ecdh_start C w2 = Ok k2 ->
  (exists s, ecdh_complete C k1 (ec_kx_pub C k2) = Ok s /\ ecdh_complete C k2 (ec_kx_pub C k1) = Ok s) /\
  (ec_from_sec1_bytes C peer = None -> ecdh_complete C k1 peer = Err InvalidKeyShare).
Proof.
  unfold ecdh_start, ecdh_complete. intros. inv_ok. cbn. rewrite !ec_sec1. cbn. split.
  - eexists. split; [reflexivity|]. by rewrite ec_dh_comm.
  - by intros ->.
Qed.

(** The X25519 exchange has no check for a shared secret that does not
    depend on the local key: where HPKE refuses a peer's point as non-contributory,
    the TLS exchange, the hybrid and its fallback complete with that secret. *)
Theorem x25519_small_order_accepted `{Hkdf} `{X25519} `{MlKem768} (kx : X25519KeyExchange) a peer :
  length (x_priv_key kx) = 32 -> length peer = 32 -> a_x25519_priv a = x_priv_key kx ->
  was_contributory (x25519_dh (x_priv_key kx) peer) = false ->
  x25519_complete kx peer = Ok (x25519_dh (x_priv_key kx) peer) /\
  complete_hybrid_component a peer = Ok (x25519_dh (x_priv_key kx) peer) /\
  exists e, x25519_decap (x_priv_key kx) peer = Err e.
Proof.
  intros Hk Hp Ha Hc. unfold x25519_complete, complete_hybrid_component, x25519_decap, try_into.
  rewrite share_32_Ok, Ha, Hp, Hk by done. cbn. rewrite Hc. eauto.
Qed.

(** ** Witnesses *)

Module KeyExchangeWitness.
Import Toy HpkeToy.

(** Keys are bytes; the secret depends on the key and the ciphertext. *)
#[local] Instance mlkem : MlKem768 := {
  mlkem_dk := byte; mlkem_ek := byte;
  mlkem_generate_keypair seed := let b := default Byte.x00 (head seed) in (b, b);
  mlkem_ek_to_bytes b := replicate 1184 b;
  mlkem_ek_new bs := b ← head bs; if bool_decide (bs = replicate 1184 b) then Some b else None;
  mlkem_encapsulate r b := (pad 1088 r, pad 32 (b :: pad 1088 r));
  mlkem_decapsulate_slice b ct := if length ct =? 1088 then Some (pad 32 (b :: ct)) else None;
}.

#[local] Instance mlkem_laws : MlKem768Laws.
Proof.
  split.
  - intros b. apply length_replicate.
  - intros b. change (mlkem_ek_to_bytes b) with (replicate 1184 b). unfold mlkem_ek_new, mlkem.
    change (head (replicate 1184 b)) with (Some b).
    change ((if bool_decide (replicate 1184 b = replicate 1184 b) then Some b else None) = Some b).
    by rewrite bool_decide_eq_true_2.
  - intros r b. apply length_pad.
  - intros r b. apply length_pad.
  - intros b ct Hl. unfold mlkem_decapsulate_slice, mlkem. rewrite Hl, Nat.eqb_refl. eauto.
  - intros b ct ss. unfold mlkem_decapsulate_slice, mlkem. case_match; [|done]. intros [= <-]. apply length_pad.
Qed.

Lemma rng (b : byte) : rng_works (world b 0).
Proof. exists (replicate 32 b). by split; [|apply length_replicate]. Qed.

Lemma hybrid_agreement_witness :
  exists a c, hybrid_start (world Byte.x01 0) [Byte.x05] = Ok a /\
    hybrid_start_and_complete (world Byte.x02 0) [Byte.x09] (hybrid_pub_key a) = Ok c /\
    hybrid_complete a (ckx_pub_key c) = Ok (ckx_secret c).
Proof.
  destruct (hybrid_agreement (world Byte.x01 0) (world Byte.x02 0) [Byte.x05] [Byte.x09] (rng _) (rng _))
    as (a & c & s & Ha & _ & Hc & _ & Hs & _ & _ & Hsame & _).
  exists a, c. split; [exact Ha|]. split; [exact Hc|]. rewrite Hs. f_equal. apply Hsame. vm_compute. reflexivity.
Defined.

Definition active (k : bytes) : ActiveX25519MlKem768 := @Build_ActiveX25519MlKem768 mlkem Byte.x01 k [].

Lemma hybrid_share_checked_witness :
  hybrid_start_and_complete (world Byte.x02 0) [] [Byte.x01] = Err InvalidKeyShare.
Proof.
  destruct (hybrid_share_checked (world Byte.x02 0) [] (active []) [Byte.x01] (rng _)) as [Hlen _].
  apply Hlen. cbn [length]. lia.
Defined.

(** The zero key against the zero point. *)
Lemma x25519_small_order_accepted_witness :
  let zeros := replicate 32 Byte.x00 in
  x25519_complete {| x_priv_key := zeros; x_pub_key := x25519_public zeros |} zeros = Ok zeros.
Proof.
  cbv zeta. destruct (x25519_small_order_accepted
    {| x_priv_key := replicate 32 Byte.x00; x_pub_key := x25519_public (replicate 32 Byte.x00) |}
    (active (replicate 32 Byte.x00))
    (replicate 32 Byte.x00)) as [Hc _]; [reflexivity|reflexivity|reflexivity|vm_compute; reflexivity|].
  rewrite Hc. vm_compute. reflexivity.
Defined.
End KeyExchangeWitness.
