(* ===== verification/Provider.v ===== *)
(** * Provider: the RustCrypto provider

    crates/oxitls-rustcrypto-provider/src: lib.rs (cipher suites and the provider),
    misc.rs, sign.rs and sign/, verify.rs and verify/, hash.rs, hmac.rs; and the
    provider functions of the adapter's lib.rs.  RustCrypto's key types, signature
    schemes and hash states are interfaces. *)

From stdpp Require Import pretty.
From S2P Require Import Prelude Core Crypto KeyExchange.

(** ** misc.rs: [const_concat_slices!]

    The array starts filled with some element and two loops overwrite it. *)

(** [out[i + offset] = src[i]] *)
Definition copy_step {A} (src : list A) (offset : nat) (out : list A) (i : nat) : list A :=
  match src !! i with Some x => <[i + offset := x]> out | None => out end.

Definition copy_loop {A} (src : list A) (offset : nat) (out : list A) : list A :=
  foldl (copy_step src offset) out (seq 0 (length src)).

Definition const_concat_slices {A} (a b : list A) : list A :=
  let len := length a + length b in
  let out :=
    match a, b with
    | x :: _, _ => replicate len x
    | [], y :: _ => replicate len y
    | [], [] => []
    end in
  let out := copy_loop a 0 out in
  copy_loop b (length a) out.

(** ** lib.rs: cipher suites

    A suite is its wire value; a hash, HMAC or AEAD implementation is named. *)

Inductive HashName := SHA256 | SHA384.
Inductive AeadName := Tls12Aes128Gcm | Tls12Aes256Gcm | Tls13Aes128Gcm | Tls13Aes256Gcm | Chacha20Poly1305.

#[export] Instance HashName_eq_dec : EqDecision HashName.
Proof. solve_decision. Defined.
#[export] Instance AeadName_eq_dec : EqDecision AeadName.
Proof. solve_decision. Defined.

Inductive KeyExchangeAlgorithm := DHE | ECDHE.

Record CipherSuiteCommon := { suite : Z; hash_provider : HashName; confidentiality_limit : Z }.

Record Tls12CipherSuite := {
  common12 : CipherSuiteCommon;
  kx12 : KeyExchangeAlgorithm;
  sign12 : list SignatureScheme;
  aead_alg12 : AeadName;
  prf_provider : HashName;
}.

Record Tls13CipherSuite := {
  common13 : CipherSuiteCommon;
  hkdf_provider : HashName;
  aead_alg13 : AeadName;
  quic : option unit;
}.

Inductive SupportedCipherSuite := SuiteTls12 (s : Tls12CipherSuite) | SuiteTls13 (s : Tls13CipherSuite).

Definition suite_of (s : SupportedCipherSuite) : Z :=
  match s with SuiteTls12 s => suite (common12 s) | SuiteTls13 s => suite (common13 s) end.

Definition TLS12_ECDSA_SCHEMES : list SignatureScheme :=
  [ECDSA_NISTP256_SHA256; ECDSA_NISTP384_SHA384; ECDSA_NISTP521_SHA512; ED25519].

Definition TLS12_RSA_SCHEMES : list SignatureScheme :=
  [RSA_PKCS1_SHA256; RSA_PKCS1_SHA384; RSA_PKCS1_SHA512; RSA_PSS_SHA256; RSA_PSS_SHA384; RSA_PSS_SHA512].

Definition TLS_ECDHE_ECDSA_WITH_AES_128_GCM_SHA256 : SupportedCipherSuite := SuiteTls12 {|
  common12 := {| suite := 0xC02B; hash_provider := SHA256; confidentiality_limit := U64_MAX |};
  kx12 := ECDHE; sign12 := TLS12_ECDSA_SCHEMES; aead_alg12 := Tls12Aes128Gcm; prf_provider := SHA256 |}.

Definition TLS_ECDHE_ECDSA_WITH_AES_256_GCM_SHA384 : SupportedCipherSuite := SuiteTls12 {|
  common12 := {| suite := 0xC02C; hash_provider := SHA384; confidentiality_limit := U64_MAX |};
  kx12 := ECDHE; sign12 := TLS12_ECDSA_SCHEMES; aead_alg12 := Tls12Aes256Gcm; prf_provider := SHA384 |}.

Definition TLS_ECDHE_ECDSA_WITH_CHACHA20_POLY1305_SHA256 : SupportedCipherSuite := SuiteTls12 {|
  common12 := {| suite := 0xCCA9; hash_provider := SHA256; confidentiality_limit := U64_MAX |};
  kx12 := ECDHE; sign12 := TLS12_ECDSA_SCHEMES; aead_alg12 := Chacha20Poly1305; prf_provider := SHA256 |}.

Definition TLS_ECDHE_ECDSA_SUITES : list SupportedCipherSuite :=
  [TLS_ECDHE_ECDSA_WITH_AES_128_GCM_SHA256; TLS_ECDHE_ECDSA_WITH_AES_256_GCM_SHA384;
   TLS_ECDHE_ECDSA_WITH_CHACHA20_POLY1305_SHA256].

Definition TLS_ECDHE_RSA_WITH_AES_128_GCM_SHA256 : SupportedCipherSuite := SuiteTls12 {|
  common12 := {| suite := 0xC02F; hash_provider := SHA256; confidentiality_limit := U64_MAX |};
  kx12 := ECDHE; sign12 := TLS12_RSA_SCHEMES; aead_alg12 := Tls12Aes128Gcm; prf_provider := SHA256 |}.

Definition TLS_ECDHE_RSA_WITH_AES_256_GCM_SHA384 : SupportedCipherSuite := SuiteTls12 {|
  common12 := {| suite := 0xC030; hash_provider := SHA384; confidentiality_limit := U64_MAX |};
  kx12 := ECDHE; sign12 := TLS12_RSA_SCHEMES; aead_alg12 := Tls12Aes256Gcm; prf_provider := SHA384 |}.

Definition TLS_ECDHE_RSA_WITH_CHACHA20_POLY1305_SHA256 : SupportedCipherSuite := SuiteTls12 {|
  common12 := {| suite := 0xCCA8; hash_provider := SHA256; confidentiality_limit := U64_MAX |};
  kx12 := ECDHE; sign12 := TLS12_RSA_SCHEMES; aead_alg12 := Chacha20Poly1305; prf_provider := SHA256 |}.

Definition TLS_ECDHE_RSA_SUITES : list SupportedCipherSuite :=
  [TLS_ECDHE_RSA_WITH_AES_128_GCM_SHA256; TLS_ECDHE_RSA_WITH_AES_256_GCM_SHA384;
   TLS_ECDHE_RSA_WITH_CHACHA20_POLY1305_SHA256].

Definition TLS12_SUITES (feature_tls12 : bool) : list SupportedCipherSuite :=
  if feature_tls12 then const_concat_slices TLS_ECDHE_ECDSA_SUITES TLS_ECDHE_RSA_SUITES else [].

Definition TLS13_AES_128_GCM_SHA256 : SupportedCipherSuite := SuiteTls13 {|
  common13 := {| suite := 0x1301; hash_provider := SHA256; confidentiality_limit := U64_MAX |};
  hkdf_provider := SHA256; aead_alg13 := Tls13Aes128Gcm; quic := None |}.

Definition TLS13_AES_256_GCM_SHA384 : SupportedCipherSuite := SuiteTls13 {|
  common13 := {| suite := 0x1302; hash_provider := SHA384; confidentiality_limit := U64_MAX |};
  hkdf_provider := SHA384; aead_alg13 := Tls13Aes256Gcm; quic := None |}.

Definition TLS13_AES_SUITES : list SupportedCipherSuite := [TLS13_AES_128_GCM_SHA256; TLS13_AES_256_GCM_SHA384].

Definition TLS13_CHACHA20_POLY1305_SHA256 : SupportedCipherSuite := SuiteTls13 {|
  common13 := {| suite := 0x1303; hash_provider := SHA256; confidentiality_limit := U64_MAX |};
  hkdf_provider := SHA256; aead_alg13 := Chacha20Poly1305; quic := None |}.

Definition TLS13_SUITES : list SupportedCipherSuite :=
  const_concat_slices TLS13_AES_SUITES [TLS13_CHACHA20_POLY1305_SHA256].

Definition ALL_CIPHER_SUITES (feature_tls12 : bool) : list SupportedCipherSuite :=
  const_concat_slices (if feature_tls12 then TLS12_SUITES feature_tls12 else []) TLS13_SUITES.

Definition ALL_KX_GROUPS : list NamedGroup := [X25519Group; secp256r1; secp384r1].

(** ** sign.rs and sign/ *)

(** [pki_types::PrivateKeyDer], which is non-exhaustive. *)
Inductive PrivateKeyDer := Pkcs1 (der : bytes) | Sec1 (der : bytes) | Pkcs8 (der : bytes) | OtherKeyDer.

(** [rustls::sign::Signer] and [SigningKey]. *)
Record Signer := {
  signer_sign : World -> bytes -> R RustlsError bytes;
  signer_scheme : SignatureScheme;
}.

Record SigningKey := {
  choose_scheme : list SignatureScheme -> option Signer;
  key_algorithm : SignatureAlgorithm;
}.

(** An ECDSA key type of RustCrypto: its decoders (an error is its text) and
    signing, which draws randomness. *)
Record KeyLib := {
  key_t : Type;
  from_pkcs8_der : bytes -> string + key_t;
  from_sec1_der : bytes -> string + key_t;
  try_sign : World -> key_t -> bytes -> option bytes;
}.

(** The crates [p256], [p384], [ed25519_dalek] (which signs without randomness) and
    [rsa] (whose keys sign by a scheme). *)
Class KeyLibs := {
  p256_lib : KeyLib;
  p384_lib : KeyLib;
  ed_key : Type;
  ed_from_pkcs8_der : bytes -> string + ed_key;
  ed_from_sec1_der : bytes -> string + ed_key;
  ed_try_sign : ed_key -> bytes -> option bytes;
  rsa_key : Type;
  rsa_from_pkcs8_der : bytes -> string + rsa_key;
  rsa_from_pkcs1_der : bytes -> string + rsa_key;
  rsa_try_sign : SignatureScheme -> World -> rsa_key -> bytes -> option bytes;
}.

Section Sign.
Context `{KeyLibs}.

(** [GenericRandomizedSigner::sign]; [GenericSigner::sign] differs by not being
    given the random generator. *)
Definition generic_randomized_signer (sign : World -> bytes -> option bytes) (scheme : SignatureScheme) : Signer := {|
  signer_sign w message := ok_or (General "signing failed") (sign w message);
  signer_scheme := scheme;
|}.

Definition generic_signer (sign : bytes -> option bytes) (scheme : SignatureScheme) : Signer := {|
  signer_sign _ message := ok_or (General "signing failed") (sign message);
  signer_scheme := scheme;
|}.

(** [impl_ecdsa!]: the key type and the scheme are the macro's arguments. *)
Definition ecdsa_try_from (L : KeyLib) (value : PrivateKeyDer) : R RustlsError (key_t L) :=
  let pkey :=
    match value with
    | Pkcs8 der => map_err (fun e => "failed to decrypt private key: " +:+ e) (of_sum (from_pkcs8_der L der))
    | Sec1 sec1 => map_err (fun e => "failed to decrypt private key: " +:+ e) (of_sum (from_sec1_der L sec1))
    | Pkcs1 _ => Err "ECDSA does not support PKCS#1 key"
    | OtherKeyDer => Err "not supported"
    end in
  map_err General pkey.

Definition ecdsa_signing_key (L : KeyLib) (scheme : SignatureScheme) (key : key_t L) : SigningKey := {|
  choose_scheme offered :=
    if bool_decide (scheme ∈ offered)
    then Some (generic_randomized_signer (fun w m => try_sign L w key m) scheme) else None;
  key_algorithm := ECDSA;
|}.

Definition ed25519_try_from (value : PrivateKeyDer) : R RustlsError ed_key :=
  let pkey :=
    match value with
    | Pkcs8 der => map_err (fun e => "failed to decrypt private key: " +:+ e) (of_sum (ed_from_pkcs8_der der))
    | Sec1 sec1 => map_err (fun e => "failed to decrypt private key: " +:+ e) (of_sum (ed_from_sec1_der sec1))
    | Pkcs1 _ => Err "ED25519 does not support PKCS#1 key"
    | OtherKeyDer => Err "not supported"
    end in
  map_err General pkey.

Definition ed25519_signing_key (key : ed_key) : SigningKey := {|
  choose_scheme offered :=
    if bool_decide (ED25519 ∈ offered)
    then Some (generic_signer (ed_try_sign key) ED25519) else None;
  key_algorithm := Ed25519Algorithm;
|}.

Definition ALL_RSA_SCHEMES : list SignatureScheme :=
  [RSA_PSS_SHA512; RSA_PSS_SHA384; RSA_PSS_SHA256; RSA_PKCS1_SHA512; RSA_PKCS1_SHA384; RSA_PKCS1_SHA256].

Definition rsa_try_from (value : PrivateKeyDer) : R RustlsError rsa_key :=
  let pkey :=
    match value with
    | Pkcs8 der => map_err (fun e => "failed to decrypt private key: " +:+ e) (of_sum (rsa_from_pkcs8_der der))
    | Pkcs1 der => map_err (fun e => "failed to decrypt private key: " +:+ e) (of_sum (rsa_from_pkcs1_der der))
    | Sec1 _ => Err "RSA does not support SEC-1 key"
    | OtherKeyDer => Err "not supported"
    end in
  map_err General pkey.

Definition rsa_choose_scheme (key : rsa_key) (offered : list SignatureScheme) : option Signer :=
  scheme ← find (fun scheme => bool_decide (scheme ∈ offered)) ALL_RSA_SCHEMES;
  let signer := Some (generic_randomized_signer (fun w m => rsa_try_sign scheme w key m) scheme) in
  match scheme with
  | RSA_PSS_SHA512 | RSA_PSS_SHA384 | RSA_PSS_SHA256
  | RSA_PKCS1_SHA512 | RSA_PKCS1_SHA384 | RSA_PKCS1_SHA256 => signer
  | _ => None
  end.

Definition rsa_signing_key (key : rsa_key) : SigningKey := {|
  choose_scheme := rsa_choose_scheme key;
  key_algorithm := RSA;
|}.

(** [r.or_else(|_| f)] *)
Definition or_else {E A} (m : R E A) (f : R E A) : R E A := match m with Err _ => f | _ => m end.

Definition any_ecdsa_type (der : PrivateKeyDer) : R RustlsError SigningKey :=
  or_else (ecdsa_signing_key p256_lib ECDSA_NISTP256_SHA256 <$> ecdsa_try_from p256_lib der)
          (ecdsa_signing_key p384_lib ECDSA_NISTP384_SHA384 <$> ecdsa_try_from p384_lib der).

Definition any_eddsa_type (der : PrivateKeyDer) : R RustlsError SigningKey :=
  ed25519_signing_key <$> ed25519_try_from der.

Definition any_supported_type (der : PrivateKeyDer) : R RustlsError SigningKey :=
  or_else (or_else (rsa_signing_key <$> rsa_try_from der) (any_ecdsa_type der)) (any_eddsa_type der).
End Sign.

(** ** verify.rs and verify/ *)

Inductive InvalidSignature := InvalidSignatureError.

(** [pki_types::alg_id] by name. *)
Inductive AlgorithmIdentifier :=
  | AlgEcdsaP256 | AlgEcdsaP384 | AlgEcdsaSha256 | AlgEcdsaSha384 | AlgEd25519 | AlgRsaEncryption
  | AlgRsaPkcs1Sha256 | AlgRsaPkcs1Sha384 | AlgRsaPkcs1Sha512 | AlgRsaPssSha256 | AlgRsaPssSha384 | AlgRsaPssSha512.

Record SignatureVerificationAlgorithm := {
  public_key_alg_id : AlgorithmIdentifier;
  signature_alg_id : AlgorithmIdentifier;
  verify_signature : bytes -> bytes -> bytes -> R InvalidSignature unit;
}.

Record EcdsaVerifyLib := {
  ev_sig : Type;
  ev_key : Type;
  ev_sig_from_der : bytes -> option ev_sig;
  ev_key_from_sec1_bytes : bytes -> option ev_key;
  ev_verify_prehash : ev_key -> bytes -> ev_sig -> bool;
}.

Class VerifyLibs := {
  p256_verify : EcdsaVerifyLib;
  p384_verify : EcdsaVerifyLib;
  ed_vkey : Type;
  ed_sig : Type;
  ed_signature_from_slice : bytes -> option ed_sig;
  ed_vkey_from_bytes : bytes -> option ed_vkey;
  ed_verify : ed_vkey -> bytes -> ed_sig -> bool;
  rsa_public : Type;
  rsa_signature : Type;
  rsa_public_from_pkcs1_der : bytes -> option rsa_public;
  rsa_signature_try_from : SignatureScheme -> bytes -> option rsa_signature;
  rsa_verify : SignatureScheme -> rsa_public -> bytes -> rsa_signature -> bool;
}.

Definition valid_if (b : bool) : R InvalidSignature unit := if b then Ok tt else Err InvalidSignatureError.

Section Verify.
Context `{Sha256} `{Digests} `{VerifyLibs}.

(** [impl_generic_ecdsa_verifer!] *)
Definition ecdsa_verifier (L : EcdsaVerifyLib) (pk_alg sig_alg : AlgorithmIdentifier) (hash : bytes -> bytes)
  : SignatureVerificationAlgorithm := {|
  public_key_alg_id := pk_alg;
  signature_alg_id := sig_alg;
  verify_signature public_key message signature :=
    signature ← ok_or InvalidSignatureError (ev_sig_from_der L signature);
    verifying_key ← ok_or InvalidSignatureError (ev_key_from_sec1_bytes L public_key);
    let digest := hash message in
    valid_if (ev_verify_prehash L verifying_key digest signature);
|}.

Definition ECDSA_P256_SHA256 := ecdsa_verifier p256_verify AlgEcdsaP256 AlgEcdsaSha256 sha256.
Definition ECDSA_P256_SHA384 := ecdsa_verifier p256_verify AlgEcdsaP256 AlgEcdsaSha384 sha384.
Definition ECDSA_P384_SHA256 := ecdsa_verifier p384_verify AlgEcdsaP384 AlgEcdsaSha256 sha256.
Definition ECDSA_P384_SHA384 := ecdsa_verifier p384_verify AlgEcdsaP384 AlgEcdsaSha384 sha384.

(** [Ed25519Verify]: the key must have 32 bytes. *)
Definition ED25519_VERIFY : SignatureVerificationAlgorithm := {|
  public_key_alg_id := AlgEd25519;
  signature_alg_id := AlgEd25519;
  verify_signature public_key message signature :=
    public_key ← (if length public_key =? 32 then Ok public_key else Err InvalidSignatureError);
    signature ← ok_or InvalidSignatureError (ed_signature_from_slice signature);
    key ← ok_or InvalidSignatureError (ed_vkey_from_bytes public_key);
    valid_if (ed_verify key message signature);
|}.

(** [impl_generic_rsa_verifer!]: padding and hash are those of a scheme. *)
Definition rsa_verifier (sig_alg : AlgorithmIdentifier) (scheme : SignatureScheme) : SignatureVerificationAlgorithm := {|
  public_key_alg_id := AlgRsaEncryption;
  signature_alg_id := sig_alg;
  verify_signature public_key message signature :=
    public_key ← ok_or InvalidSignatureError (rsa_public_from_pkcs1_der public_key);
    signature ← ok_or InvalidSignatureError (rsa_signature_try_from scheme signature);
    valid_if (rsa_verify scheme public_key message signature);
|}.

Definition VERIFY_RSA_PKCS1_SHA256 := rsa_verifier AlgRsaPkcs1Sha256 RSA_PKCS1_SHA256.
Definition VERIFY_RSA_PKCS1_SHA384 := rsa_verifier AlgRsaPkcs1Sha384 RSA_PKCS1_SHA384.
Definition VERIFY_RSA_PKCS1_SHA512 := rsa_verifier AlgRsaPkcs1Sha512 RSA_PKCS1_SHA512.
Definition VERIFY_RSA_PSS_SHA256 := rsa_verifier AlgRsaPssSha256 RSA_PSS_SHA256.
Definition VERIFY_RSA_PSS_SHA384 := rsa_verifier AlgRsaPssSha384 RSA_PSS_SHA384.
Definition VERIFY_RSA_PSS_SHA512 := rsa_verifier AlgRsaPssSha512 RSA_PSS_SHA512.

Record WebPkiSupportedAlgorithms := {
  algs_all : list SignatureVerificationAlgorithm;
  algs_mapping : list (SignatureScheme * list SignatureVerificationAlgorithm);
}.

Definition ALGORITHMS : WebPkiSupportedAlgorithms := {|
  algs_all := [ECDSA_P256_SHA256; ECDSA_P256_SHA384; ECDSA_P384_SHA256; ECDSA_P384_SHA384; ED25519_VERIFY;
               VERIFY_RSA_PKCS1_SHA256; VERIFY_RSA_PKCS1_SHA384; VERIFY_RSA_PKCS1_SHA512;
               VERIFY_RSA_PSS_SHA256; VERIFY_RSA_PSS_SHA384; VERIFY_RSA_PSS_SHA512];
  algs_mapping :=
    [(ECDSA_NISTP384_SHA384, [ECDSA_P384_SHA384; ECDSA_P256_SHA384]);
     (ECDSA_NISTP256_SHA256, [ECDSA_P256_SHA256; ECDSA_P384_SHA256]);
     (ED25519, [ED25519_VERIFY]);
     (RSA_PKCS1_SHA256, [VERIFY_RSA_PKCS1_SHA256]);
     (RSA_PKCS1_SHA384, [VERIFY_RSA_PKCS1_SHA384]);
     (RSA_PKCS1_SHA512, [VERIFY_RSA_PKCS1_SHA512]);
     (RSA_PSS_SHA256, [VERIFY_RSA_PSS_SHA256]);
     (RSA_PSS_SHA384, [VERIFY_RSA_PSS_SHA384]);
     (RSA_PSS_SHA512, [VERIFY_RSA_PSS_SHA512])];
|}.
End Verify.

(** ** hash.rs and hmac.rs

    A [digest::Digest] is a state with [new], [update] and [finalize]; an
    [hmac::Hmac] state comes from a key. *)

Record DigestLib := {
  digest_state : Type;
  digest_new : digest_state;
  digest_update : digest_state -> bytes -> digest_state;
  digest_finalize : digest_state -> bytes;
  digest_digest : bytes -> bytes;
  digest_output_size : nat;
}.

(** Updating is hashing the concatenation. *)
Class DigestLaws (D : DigestLib) := {
  digest_finalize_updates : forall chunks,
    digest_finalize D (foldl (digest_update D) (digest_new D) chunks) = digest_digest D (mjoin chunks);
}.

Section Hash.
Context (D : DigestLib).

(** [Hash::start], [Hash::hash] and the context's methods. *)
Definition hash_start : digest_state D := digest_new D.
Definition hash_hash (data : bytes) : bytes := digest_digest D data.
Definition hash_output_len : nat := digest_output_size D.
Definition fork_finish (self : digest_state D) : bytes := digest_finalize D self.
Definition fork (self : digest_state D) : digest_state D := self.
Definition finish (self : digest_state D) : bytes := digest_finalize D self.
Definition hash_update (self : digest_state D) (data : bytes) : digest_state D := digest_update D self data.
End Hash.

Record HmacLib := {
  hmac_state : Type;
  hmac_new_from_slice : bytes -> option hmac_state;
  hmac_update : hmac_state -> bytes -> hmac_state;
  hmac_finalize : hmac_state -> bytes;
  hmac_mac : bytes -> bytes -> bytes;
  hmac_output_size : nat;
}.

(** HMAC takes a key of any length, and updating is authenticating the
    concatenation. *)
Class HmacLaws (M : HmacLib) := {
  hmac_any_key : forall key, is_Some (hmac_new_from_slice M key);
  hmac_updates : forall key st chunks,
    hmac_new_from_slice M key = Some st ->
    hmac_finalize M (foldl (hmac_update M) st chunks) = hmac_mac M key (mjoin chunks);
}.

Section Hmac.
Context (M : HmacLib).

(** [with_key] unwraps. *)
Definition hmac_with_key (key : bytes) : R Empty_set (hmac_state M) :=
  match hmac_new_from_slice M key with Some st => Ok st | None => Panic end.

Definition sign_concat (self : hmac_state M) (first : bytes) (middle : list bytes) (last : bytes) : bytes :=
  let ctx := self in
  let ctx := hmac_update M ctx first in
  let ctx := foldl (hmac_update M) ctx middle in
  let ctx := hmac_update M ctx last in
  hmac_finalize M ctx.

Definition hmac_hash_output_len : nat := hmac_output_size M.
Definition tag_len : nat := hmac_output_size M.
End Hmac.

(** ** The provider, and the adapter's functions on it *)

Record CryptoProvider := {
  cipher_suites : list SupportedCipherSuite;
  kx_groups : list NamedGroup;
  signature_verification_algorithms : WebPkiSupportedAlgorithms;
  secure_random : World -> nat -> R string bytes;
  load_private_key : PrivateKeyDer -> R RustlsError SigningKey;
}.

Section TheProvider.
Context `{KeyLibs} `{Sha256} `{Digests} `{VerifyLibs} (feature_tls12 : bool).

(** [SecureRandom::fill]: an OS error is [GetRandomFailed]. *)
Definition provider_fill (w : World) (n : nat) : R string bytes :=
  match os_random w n with Ok bs => Ok bs | Err _ => Err "GetRandomFailed" | Panic => Panic end.

Definition provider : CryptoProvider := {|
  cipher_suites := ALL_CIPHER_SUITES feature_tls12;
  kx_groups := ALL_KX_GROUPS;
  signature_verification_algorithms := ALGORITHMS;
  secure_random := provider_fill;
  load_private_key := any_supported_type;
|}.

Definition pure_provider : CryptoProvider := provider.

Definition pure_provider_with_pq : CryptoProvider :=
  {| cipher_suites := cipher_suites provider; kx_groups := X25519MLKEM768 :: kx_groups provider;
     signature_verification_algorithms := signature_verification_algorithms provider;
     secure_random := secure_random provider; load_private_key := load_private_key provider |}.

Definition pure_quic_provider : CryptoProvider := pure_provider.

(** [as_str] is the name table of rustls. *)
Definition supported_cipher_suites (as_str : Z -> option string) : list string :=
  (fun cs => default "unknown" (as_str (suite_of cs))) <$> cipher_suites provider.
End TheProvider.

(** [supported_versions]: the [Debug] text of [rustls::ALL_VERSIONS]. *)
Definition supported_versions (all_versions : list Z) (debug : Z -> string) : list string := debug <$> all_versions.

Definition map_cipher_suite (s : Z) : option CipherSuite :=
  match s with
  | 0x1301 => Some Tls13Aes128GcmSha256
  | 0x1302 => Some Tls13Aes256GcmSha384
  | 0x1303 => Some Tls13Chacha20Poly1305Sha256
  | 0xC02B => Some Tls12EcdheEcdsaAes128GcmSha256
  | 0xC02C => Some Tls12EcdheEcdsaAes256GcmSha384
  | 0xC02F => Some Tls12EcdheRsaAes128GcmSha256
  | 0xC030 => Some Tls12EcdheRsaAes256GcmSha384
  | 0xCCA9 => Some Tls12EcdheEcdsaChacha20Poly1305Sha256
  | 0xCCA8 => Some Tls12EcdheRsaChacha20Poly1305Sha256
  | _ => None
  end%Z.

Definition connection_info_from_state (state : CommonState) : ConnectionInfo :=
  let version := pv ← cs_protocol_version state;
                 match pv with 0x0303 => Some Tls12 | 0x0304 => Some Tls13 | _ => None end%Z in
  let cipher_suite := cs ← cs_negotiated_cipher_suite state; map_cipher_suite cs in
  let alpn := cs_alpn_protocol state in
  let info := ConnectionInfoOps.new in
  let info := match version with Some v => ConnectionInfoOps.with_version v info | None => info end in
  let info := match cipher_suite with Some cs => ConnectionInfoOps.with_cipher_suite cs info | None => info end in
  match alpn with Some a => ConnectionInfoOps.with_alpn_protocol a info | None => info end.

(** [TlsConnectionExt] of crates/oxitls/src/lib.rs: the peer's certificates, and on
    the server side the name the client asked for. *)
Definition client_tls_connection_info (session : CommonState) (peer_certificates : option (list bytes)) : ConnectionInfo :=
  let info := connection_info_from_state session in
  match peer_certificates with Some certs => ConnectionInfoOps.with_peer_certificates certs info | None => info end.

Definition server_tls_connection_info (session : CommonState) (peer_certificates : option (list bytes))
  (server_name : option string) : ConnectionInfo :=
  let info := connection_info_from_state session in
  let info :=
    match peer_certificates with Some certs => ConnectionInfoOps.with_peer_certificates certs info | None => info end in
  match server_name with Some sni => ConnectionInfoOps.with_sni sni info | None => info end.

(** ** Properties *)

Lemma copy_steps_length {A} (src : list A) off out l : length (foldl (copy_step src off) out l) = length out.
Proof.
  revert out. induction l as [|i l IH]; intros out; [done|]. cbn [foldl]. rewrite IH.
  unfold copy_step. destruct (src !! i); [apply length_insert|done].
Qed.

Lemma copy_steps_lookup {A} (src : list A) off out n j :
  off + n <= length out -> n <= length src ->
  foldl (copy_step src off) out (seq 0 n) !! j
  = if decide (off <= j < off + n) then src !! (j - off) else out !! j.
Proof.
  induction n as [|n IH]; intros Ho Hn; [by rewrite decide_False by lia|].
  rewrite seq_S, foldl_app. cbn [foldl]. unfold copy_step at 1.
  destruct (lookup_lt_is_Some_2 src n) as [x Hx]; [lia|]. rewrite Nat.add_0_l, Hx.
  destruct (decide (j = n + off)) as [->|Hj].
  - rewrite decide_True, list_lookup_insert_eq by (rewrite ?copy_steps_length; lia). by rewrite Nat.add_sub.
  - rewrite list_lookup_insert_ne, IH by lia.
    destruct (decide (off <= j < off + n)); destruct (decide (off <= j < off + S n)); (done || lia).
Qed.

(** The two loops write the concatenation, whatever the array held. *)
Lemma const_concat_slices_app {A} (a b : list A) : const_concat_slices a b = a ++ b.
Proof.
  unfold const_concat_slices. set (out := match a, b with x :: _, _ => _ | _, _ => _ end).
  assert (length out = length a + length b) as Hout.
  { subst out. destruct a, b; cbn; rewrite ?length_replicate; lia. }
  apply list_eq. intros j. unfold copy_loop.
  rewrite copy_steps_lookup by (rewrite ?copy_steps_length; lia). rewrite copy_steps_lookup by lia. rewrite Nat.add_0_l. case_decide as Hj; [|case_decide as Hi].
  - by rewrite lookup_app_r by lia.
  - rewrite lookup_app_l by lia. by rewrite Nat.sub_0_r.
  - rewrite !lookup_ge_None_2; [done|rewrite length_app; lia|lia].
Qed.

(** What a suite's registered name says: the text that must occur in it. *)
Definition named (sub : string) (c : CipherSuite) : bool :=
  match String.index 0 sub (cipher_suite_display c) with Some _ => true | None => false end.

Definition suite_hash (s : SupportedCipherSuite) : HashName :=
  match s with SuiteTls12 s => hash_provider (common12 s) | SuiteTls13 s => hash_provider (common13 s) end.
Definition suite_kdf (s : SupportedCipherSuite) : HashName :=
  match s with SuiteTls12 s => prf_provider s | SuiteTls13 s => hkdf_provider s end.
Definition suite_aead (s : SupportedCipherSuite) : AeadName :=
  match s with SuiteTls12 s => aead_alg12 s | SuiteTls13 s => aead_alg13 s end.
Definition suite_is_13 (s : SupportedCipherSuite) : bool :=
  match s with SuiteTls12 _ => false | SuiteTls13 _ => true end.
Definition suite_signs (s : SupportedCipherSuite) : list SignatureScheme :=
  match s with SuiteTls12 s => sign12 s | SuiteTls13 _ => [] end.

Definition hash_text (h : HashName) : string := match h with SHA256 => "SHA256" | SHA384 => "SHA384" end.
Definition aead_text (a : AeadName) : string :=
  match a with
  | Tls12Aes128Gcm | Tls13Aes128Gcm => "AES_128_GCM"
  | Tls12Aes256Gcm | Tls13Aes256Gcm => "AES_256_GCM"
  | Chacha20Poly1305 => "CHACHA20_POLY1305"
  end.

(** A suite is built from the parts its name lists. *)
Definition suite_as_named (s : SupportedCipherSuite) : bool :=
  match map_cipher_suite (suite_of s) with
  | None => false
  | Some c =>
      eqb (is_tls13 c) (suite_is_13 s) && named (hash_text (suite_hash s)) c &&
      bool_decide (suite_kdf s = suite_hash s) && named (aead_text (suite_aead s)) c &&
      (suite_is_13 s || bool_decide (suite_signs s = if named "_RSA_" c then TLS12_RSA_SCHEMES else TLS12_ECDSA_SCHEMES))
  end.

Section ProviderProperties.
Context `{KeyLibs} `{Sha256} `{Digests} `{VerifyLibs}.

(** C39: the provider's cipher suites.  They are the suites of the core crate, each
    once, and each is assembled from the version, hash, key derivation, AEAD and
    signature schemes its registered name states; without the tls12 feature only
    the three of TLS 1.3 are left.  No suite carries QUIC keys, also in the
    provider offered for QUIC. *)
Theorem provider_suites_as_named :
  Forall (fun s => suite_as_named s = true) (cipher_suites (provider true)) /\
  (forall c, In c ALL_SUITES <-> In (Some c) ((fun s => map_cipher_suite (suite_of s)) <$> cipher_suites (provider true))) /\
  NoDup (suite_of <$> cipher_suites (provider true)) /\
  cipher_suites (provider false) = filter (fun s => suite_is_13 s = true) (cipher_suites (provider true)) /\
  Forall (fun s => match s with SuiteTls13 s => quic s = None | SuiteTls12 _ => True end)
    (cipher_suites (pure_quic_provider true)) /\
  kx_groups (pure_provider_with_pq true) = hybrid_name :: kx_groups (pure_provider true).
Proof.
  unfold pure_quic_provider, pure_provider, pure_provider_with_pq, provider. cbn [cipher_suites kx_groups].
  unfold ALL_CIPHER_SUITES, TLS12_SUITES, TLS13_SUITES. rewrite !const_concat_slices_app. split_and!.
  - repeat constructor.
  - intros c. split; intros Hin; cbn in *; naive_solver.
  - apply (bool_decide_eq_true_1 (NoDup _)). vm_compute. reflexivity.
  - reflexivity.
  - repeat constructor.
  - done.
Qed.

(** The two ways connection information is read from a connection agree,
    except where rustls reports a value neither knows: then the core crate assumes
    TLS 1.2 or names the suite unknown, and the adapter leaves the field empty. *)
Theorem connection_info_agree state v :
  cs_protocol_version state = Some v ->
  exists info, connection_info_from state = Some info /\
    ci_version info = (if bool_decide (v = 0x0304) then Some Tls13 else Some Tls12)%Z /\
    ci_version (connection_info_from_state state)
      = (if bool_decide (v = 0x0303 \/ v = 0x0304) then ci_version info else None)%Z /\
    ci_cipher_suite (connection_info_from_state state)
      = (if bool_decide (ci_cipher_suite info = Some UnknownSuite) then None else ci_cipher_suite info) /\
    ci_alpn_protocol (connection_info_from_state state) = ci_alpn_protocol info /\
    ci_sni (connection_info_from_state state) = ci_sni info /\
    ci_peer_certificates (connection_info_from_state state) = ci_peer_certificates info.
Proof.
  destruct state as [v' s a]. cbn. intros ->. unfold connection_info_from, connection_info_from_state. cbn.
  eexists. split; [reflexivity|].
  assert (tls_version_from_rustls v = if bool_decide (v = 0x0304)%Z then Tls13 else Tls12) as ->.
  { case_bool_decide; [by subst|]. unfold tls_version_from_rustls. repeat case_match; by simplify_eq. }
  assert (match v with 0x0303 => Some Tls12 | 0x0304 => Some Tls13 | _ => None end%Z
    = if bool_decide (v = 0x0303 \/ v = 0x0304)%Z then Some (if bool_decide (v = 0x0304)%Z then Tls13 else Tls12) else None) as ->.
  { case_bool_decide as Hv; [by destruct Hv; subst|]. repeat case_match; simplify_eq; tauto. }
  assert (forall c, map_cipher_suite c = if bool_decide (cipher_suite_from_rustls c = UnknownSuite) then None
                                         else Some (cipher_suite_from_rustls c)) as Hcs.
  { intros c. unfold map_cipher_suite, cipher_suite_from_rustls. repeat case_match; by simplify_eq. }
  destruct s as [s|]; cbn; rewrite ?Hcs; repeat case_bool_decide; destruct a; cbn in *; simplify_eq;
    split_and!; (done || congruence || tauto).
Qed.
End ProviderProperties.

(** ** Signing and verifying *)

(** The documented correctness of the signature crates: what a key signs verifies
    under its public key.  The public keys are the encodings TLS carries. *)
Class SignatureLaws `{KeyLibs} `{Sha256} `{Digests} `{VerifyLibs} := {
  p256_public_sec1 : key_t p256_lib -> bytes;
  p384_public_sec1 : key_t p384_lib -> bytes;
  ed_public_bytes : ed_key -> bytes;
  rsa_public_pkcs1 : rsa_key -> bytes;
  p256_signs : forall w k m sig, try_sign p256_lib w k m = Some sig ->
    exists s vk, ev_sig_from_der p256_verify sig = Some s /\
      ev_key_from_sec1_bytes p256_verify (p256_public_sec1 k) = Some vk /\
      ev_verify_prehash p256_verify vk (sha256 m) s = true;
  p384_signs : forall w k m sig, try_sign p384_lib w k m = Some sig ->
    exists s vk, ev_sig_from_der p384_verify sig = Some s /\
      ev_key_from_sec1_bytes p384_verify (p384_public_sec1 k) = Some vk /\
      ev_verify_prehash p384_verify vk (sha384 m) s = true;
  ed_signs : forall k m sig, ed_try_sign k m = Some sig ->
    exists s vk, length (ed_public_bytes k) = 32 /\ ed_signature_from_slice sig = Some s /\
      ed_vkey_from_bytes (ed_public_bytes k) = Some vk /\ ed_verify vk m s = true;
  rsa_signs : forall scheme w k m sig, scheme ∈ ALL_RSA_SCHEMES -> rsa_try_sign scheme w k m = Some sig ->
    exists s vk, rsa_public_from_pkcs1_der (rsa_public_pkcs1 k) = Some vk /\
      rsa_signature_try_from scheme sig = Some s /\ rsa_verify scheme vk m s = true;
}.

Section SignProperties.
Context `{SignatureLaws}.

(** The key a private-key file holds.  PKCS#1 files hold RSA keys, SEC1 files keys of
    one of the curves, PKCS#8 files any of them; the first crate that decodes the
    file decides. *)
Inductive LoadedKey := LoadedRsa (k : rsa_key) | LoadedP256 (k : key_t p256_lib) | LoadedP384 (k : key_t p384_lib)
  | LoadedEd (k : ed_key).

Definition decoded {A} (r : string + A) : option A := match r with inl _ => None | inr a => Some a end.

(** The first of several results. *)
Definition first_of {A} (l : list (option A)) : option A := foldr (fun x y => match x with Some _ => x | None => y end) None l.

Definition loaded (der : PrivateKeyDer) : option LoadedKey :=
  match der with
  | Pkcs1 d => LoadedRsa <$> decoded (rsa_from_pkcs1_der d)
  | Sec1 d =>
      first_of [LoadedP256 <$> decoded (from_sec1_der p256_lib d); LoadedP384 <$> decoded (from_sec1_der p384_lib d);
                LoadedEd <$> decoded (ed_from_sec1_der d)]
  | Pkcs8 d =>
      first_of [LoadedRsa <$> decoded (rsa_from_pkcs8_der d); LoadedP256 <$> decoded (from_pkcs8_der p256_lib d);
                LoadedP384 <$> decoded (from_pkcs8_der p384_lib d); LoadedEd <$> decoded (ed_from_pkcs8_der d)]
  | OtherKeyDer => None
  end.

(** What is reported when no crate decodes it: the objection of the last decoder. *)
Definition refusal (der : PrivateKeyDer) : string :=
  let text {A} (r : string + A) := match r with inl e => "failed to decrypt private key: " +:+ e | inr _ => "" end in
  match der with
  | Pkcs1 _ => "ED25519 does not support PKCS#1 key"
  | Sec1 d => text (ed_from_sec1_der d)
  | Pkcs8 d => text (ed_from_pkcs8_der d)
  | OtherKeyDer => "not supported"
  end.

Definition loaded_key (k : LoadedKey) : SigningKey :=
  match k with
  | LoadedRsa k => rsa_signing_key k
  | LoadedP256 k => ecdsa_signing_key p256_lib ECDSA_NISTP256_SHA256 k
  | LoadedP384 k => ecdsa_signing_key p384_lib ECDSA_NISTP384_SHA384 k
  | LoadedEd k => ed25519_signing_key k
  end.

Definition loaded_public (k : LoadedKey) : bytes :=
  match k with
  | LoadedRsa k => rsa_public_pkcs1 k
  | LoadedP256 k => p256_public_sec1 k
  | LoadedP384 k => p384_public_sec1 k
  | LoadedEd k => ed_public_bytes k
  end.

(** The schemes a key can sign with, in its order of preference. *)
Definition loaded_schemes (k : LoadedKey) : list SignatureScheme :=
  match k with
  | LoadedRsa _ => ALL_RSA_SCHEMES
  | LoadedP256 _ => [ECDSA_NISTP256_SHA256]
  | LoadedP384 _ => [ECDSA_NISTP384_SHA384]
  | LoadedEd _ => [ED25519]
  end.

Lemma any_supported_type_loaded der :
  any_supported_type der = match loaded der with Some k => Ok (loaded_key k) | None => Err (General (refusal der)) end.
Proof.
  unfold loaded, refusal, any_supported_type, any_ecdsa_type, any_eddsa_type, rsa_try_from, ecdsa_try_from, ed25519_try_from.
  destruct der as [d|d|d|]; [by destruct (rsa_from_pkcs1_der d)|..|done].
  - destruct (from_sec1_der p256_lib d); [|done]. destruct (from_sec1_der p384_lib d); [|done].
    by destruct (ed_from_sec1_der d).
  - destruct (rsa_from_pkcs8_der d); [|done]. destruct (from_pkcs8_der p256_lib d); [|done].
    destruct (from_pkcs8_der p384_lib d); [|done]. by destruct (ed_from_pkcs8_der d).
Qed.

(** A key chooses the first of its schemes that was offered. *)
Lemma loaded_choose k offered :
  match find (fun s => bool_decide (s ∈ offered)) (loaded_schemes k) with
  | Some scheme => exists s, choose_scheme (loaded_key k) offered = Some s /\ signer_scheme s = scheme
  | None => choose_scheme (loaded_key k) offered = None
  end.
Proof.
  destruct k as [k|k|k|k]; cbn -[ALL_RSA_SCHEMES].
  2-4: by case_bool_decide; eauto.
  unfold rsa_choose_scheme. destruct (find _ ALL_RSA_SCHEMES) as [s|] eqn:E; [|done].
  apply find_some in E as [Hin _]. cbn in Hin. destruct Hin as [<-|[<-|[<-|[<-|[<-|[<-|[]]]]]]]; cbn; eauto.
Qed.

(** The verification algorithm that answers for a scheme of a key. *)
Definition verifying (k : LoadedKey) (scheme : SignatureScheme) : SignatureVerificationAlgorithm :=
  match k with
  | LoadedRsa _ =>
      match scheme with
      | RSA_PSS_SHA512 => VERIFY_RSA_PSS_SHA512 | RSA_PSS_SHA384 => VERIFY_RSA_PSS_SHA384
      | RSA_PSS_SHA256 => VERIFY_RSA_PSS_SHA256 | RSA_PKCS1_SHA512 => VERIFY_RSA_PKCS1_SHA512
      | RSA_PKCS1_SHA384 => VERIFY_RSA_PKCS1_SHA384 | _ => VERIFY_RSA_PKCS1_SHA256
      end
  | LoadedP256 _ => ECDSA_P256_SHA256
  | LoadedP384 _ => ECDSA_P384_SHA384
  | LoadedEd _ => ED25519_VERIFY
  end.

Ltac in_list := cbn; repeat first [apply list_elem_of_here | apply list_elem_of_further].

Lemma verifying_mapped k scheme :
  scheme ∈ loaded_schemes k ->
  verifying k scheme ∈ algs_all ALGORITHMS /\
  exists algs, (scheme, algs) ∈ algs_mapping ALGORITHMS /\ verifying k scheme ∈ algs.
Proof.
  destruct k; cbn [loaded_schemes]; unfold ALL_RSA_SCHEMES; rewrite !elem_of_cons, elem_of_nil; intros Hs;
    repeat match goal with H : _ \/ _ |- _ => destruct H end; subst; try done; cbn [verifying];
    (split; [in_list|eexists; split; in_list]).
Qed.

Lemma verifying_accepts k offered s w m sig :
  choose_scheme (loaded_key k) offered = Some s -> signer_sign s w m = Ok sig ->
  verify_signature (verifying k (signer_scheme s)) (loaded_public k) m sig = Ok tt.
Proof.
  destruct k as [k|k|k|k]; cbn [loaded_key choose_scheme ecdsa_signing_key ed25519_signing_key rsa_signing_key].
  2-4: case_bool_decide; [|done]; intros [= <-]; cbn; intros Hs%ok_or_Ok.
  - unfold rsa_choose_scheme. intros (scheme & Hf & Hc)%bind_Some. apply find_some in Hf as [Hin _].
    assert (scheme ∈ ALL_RSA_SCHEMES) as Hs by (by apply list_elem_of_In).
    assert (s = generic_randomized_signer (fun w m => rsa_try_sign scheme w k m) scheme) as ->
      by (by destruct scheme; simplify_eq).
    cbn. intros (sg & vk & Hvk & Hsg & Hv)%ok_or_Ok%rsa_signs; [|done].
    cbn in Hin. destruct Hin as [<-|[<-|[<-|[<-|[<-|[<-|[]]]]]]]; cbn; by rewrite Hvk; cbn; rewrite Hsg; cbn; rewrite Hv.
  - apply p256_signs in Hs as (sg & vk & Hsg & Hvk & Hv). by rewrite Hsg; cbn; rewrite Hvk; cbn; rewrite Hv.
  - apply p384_signs in Hs as (sg & vk & Hsg & Hvk & Hv). by rewrite Hsg; cbn; rewrite Hvk; cbn; rewrite Hv.
  - apply ed_signs in Hs as (sg & vk & Hl & Hsg & Hvk & Hv). by rewrite Hl; cbn; rewrite Hsg; cbn; rewrite Hvk; cbn; rewrite Hv.
Qed.

(** C24: signing and verifying with the provider.  A private key loads exactly if a
    crate for its format decodes it (RSA for PKCS#1; P-256, P-384, Ed25519 for SEC1;
    all four for PKCS#8, in the order RSA, P-256, P-384, Ed25519) and otherwise fails
    with the objection of the last decoder.  A loaded key signs exactly when one of its schemes is
    offered, with the first of them in its own order; and what it signs verifies,
    under its public key, with an algorithm the provider lists for that scheme. *)
Theorem sign_verify_roundtrip der offered :
  match loaded der with
  | None => any_supported_type der = Err (General (refusal der))
  | Some k =>
      exists key, any_supported_type der = Ok key /\
        (choose_scheme key offered = None <-> forall s, s ∈ loaded_schemes k -> s ∉ offered) /\
        forall s, choose_scheme key offered = Some s ->
          find (fun x => bool_decide (x ∈ offered)) (loaded_schemes k) = Some (signer_scheme s) /\
          forall w m sig, signer_sign s w m = Ok sig ->
            exists algs alg, (signer_scheme s, algs) ∈ algs_mapping ALGORITHMS /\ alg ∈ algs /\
              alg ∈ algs_all ALGORITHMS /\ verify_signature alg (loaded_public k) m sig = Ok tt
  end.
Proof.
  rewrite any_supported_type_loaded. destruct (loaded der) as [k|]; [|done].
  eexists. split; [done|]. pose proof (loaded_choose k offered) as Hc.
  destruct (find (fun x => bool_decide (x ∈ offered)) (loaded_schemes k)) as [scheme|] eqn:Ef.
  - destruct Hc as (s0 & Hs0 & Hscheme). pose proof (find_some _ _ Ef) as [Hin Hoff].
    apply bool_decide_eq_true in Hoff. apply list_elem_of_In in Hin. split.
    + rewrite Hs0. split; [done|]. intros Hno. by destruct (Hno _ Hin).
    + intros s Hs. assert (s0 = s) as -> by congruence. rewrite Hscheme. split; [done|].
      intros w m sig Hsig. destruct (verifying_mapped k scheme Hin) as (Hall & algs & Hmap & Halg).
      exists algs, (verifying k scheme). split_and!; [done..|]. rewrite <- Hscheme. by eapply verifying_accepts.
  - split; [|congruence]. split; [|done]. intros _ s Hs. apply list_elem_of_In in Hs.
    pose proof (find_none _ _ Ef s Hs) as Hn. by apply bool_decide_eq_false in Hn.
Qed.
End SignProperties.

(** The transcript hash: feeding data in pieces, forking and finishing early do
    not change what is hashed; and [sign_concat] authenticates the concatenation
    of its parts, for a key of any length. *)
Theorem hash_hmac_concat (D : DigestLib) (M : HmacLib) `{!DigestLaws D, !HmacLaws M} chunks more key first middle last :
  let ctx := foldl (hash_update D) (hash_start D) chunks in
  fork_finish D ctx = hash_hash D (mjoin chunks) /\
  finish D (foldl (hash_update D) (fork D ctx) more) = hash_hash D (mjoin (chunks ++ more)) /\
  exists st, hmac_with_key M key = Ok st /\
    sign_concat M st first middle last = hmac_mac M key (first ++ mjoin middle ++ last).
Proof.
  cbv zeta. unfold fork_finish, finish, fork, hash_hash, hash_start, hash_update. split_and!.
  - apply digest_finalize_updates.
  - rewrite <- foldl_app. apply digest_finalize_updates.
  - destruct (hmac_any_key key) as [st Hst]. exists st. unfold hmac_with_key. rewrite Hst. split; [done|].
    pose proof (hmac_updates key st (first :: middle ++ [last]) Hst) as Hu. cbn [foldl] in Hu.
    rewrite foldl_app in Hu. unfold sign_concat. cbn [foldl] in Hu. rewrite Hu, join_cons.
    rewrite join_app. cbn. by rewrite app_nil_r.
Qed.

(** ** Witness *)

Module ProviderWitness.
Import Toy.

(** Keys are bytes; a signature is the key followed by the digest or message. *)
Definition ecdsa_lib (hash : bytes -> bytes) : KeyLib := {|
  key_t := bytes; from_pkcs8_der _ := inl "not this curve"; from_sec1_der := inr;
  try_sign _ k m := Some (k ++ hash m) |}.

#[local] Instance keys : KeyLibs := {
  p256_lib := ecdsa_lib sha256; p384_lib := ecdsa_lib sha384;
  ed_key := bytes; ed_from_pkcs8_der := inr; ed_from_sec1_der _ := inl "no"; ed_try_sign k m := Some (pad 32 k ++ m);
  rsa_key := bytes; rsa_from_pkcs8_der _ := inl "not RSA"; rsa_from_pkcs1_der := inr;
  rsa_try_sign _ _ k m := Some (k ++ m) }.

Definition ecdsa_verify_lib : EcdsaVerifyLib := {|
  ev_sig := bytes; ev_key := bytes; ev_sig_from_der := Some; ev_key_from_sec1_bytes := Some;
  ev_verify_prehash vk d s := bool_decide (s = vk ++ d) |}.

#[local] Instance verifiers : VerifyLibs := {
  p256_verify := ecdsa_verify_lib; p384_verify := ecdsa_verify_lib;
  ed_vkey := bytes; ed_sig := bytes; ed_signature_from_slice := Some; ed_vkey_from_bytes := Some;
  ed_verify vk m s := bool_decide (s = vk ++ m);
  rsa_public := bytes; rsa_signature := bytes; rsa_public_from_pkcs1_der := Some;
  rsa_signature_try_from _ := Some; rsa_verify _ vk m s := bool_decide (s = vk ++ m) }.

#[local] Instance signature_laws : SignatureLaws.
Proof.
  refine (Build_SignatureLaws keys sha256 digests verifiers (fun k => k) (fun k => k) (pad 32) (fun k => k) _ _ _ _);
    cbn; intros; simplify_eq; eexists _, _;
    split_and!; try reflexivity; try apply length_pad; by apply bool_decide_eq_true_2.
Defined.

(** An Ed25519 key in PKCS#8, and a key of no known format. *)
Lemma sign_verify_roundtrip_witness :
  any_supported_type OtherKeyDer = Err (General "not supported") /\
  exists key s sig, any_supported_type (Pkcs8 [Byte.x07]) = Ok key /\
    choose_scheme key [RSA_PSS_SHA256; ED25519] = Some s /\
    signer_sign s (world Byte.x00 0) [Byte.x01] = Ok sig /\
    exists alg, alg ∈ algs_all ALGORITHMS /\ verify_signature alg (pad 32 [Byte.x07]) [Byte.x01] sig = Ok tt.
Proof.
  split; [exact (sign_verify_roundtrip OtherKeyDer [])|].
  destruct (sign_verify_roundtrip (Pkcs8 [Byte.x07]) [RSA_PSS_SHA256; ED25519]) as (key & Hk & _ & Hs).
  exists (@ed25519_signing_key keys [Byte.x07]). eexists _, _.
  split; [reflexivity|]. split; [reflexivity|]. split; [reflexivity|]. injection Hk as <-.
  destruct (Hs _ eq_refl) as (_ & Hv). destruct (Hv (world Byte.x00 0) [Byte.x01] _ eq_refl) as (algs & alg & _ & _ & Hall & Hok).
  exists alg. split; [exact Hall|exact Hok].
Defined.

Lemma connection_info_agree_witness :
  exists info, connection_info_from {| cs_protocol_version := Some 0x0304%Z; cs_negotiated_cipher_suite := Some 0x1301%Z;
                                       cs_alpn_protocol := None |} = Some info /\ ci_version info = Some Tls13.
Proof.
  destruct (connection_info_agree {| cs_protocol_version := Some 0x0304%Z; cs_negotiated_cipher_suite := Some 0x1301%Z;
                                     cs_alpn_protocol := None |} 0x0304%Z eq_refl) as (info & Hi & Hv & _).
  exists info. split; [exact Hi|]. rewrite Hv. reflexivity.
Defined.
End ProviderWitness.
