(* ===== verification/FacadeClient.v ===== *)
(** * FacadeClient: the client builder of the facade

    crates/oxitls/src/tls13/client.rs and danger.rs: the builder, its setters and
    [build], which picks one of five ways to authenticate the server.  rustls' own
    builder is an interface per provider; the adapter's builder is the one of file
    ClientBuilder. *)

From S2P Require Import Prelude Core Crypto KeyLog Verifier Sct Ocsp Hpke.
From S2P Require Import HpkeSession RootStore ClientBuilder KeyExchange Provider.

(** ** What rustls does with a provider *)

(** [EchMode]: an accepted configuration, or GREASE with the identifiers of the
    KEM and the AEAD and the placeholder key. *)
Inductive EchMode := EchEnable (config : bytes) | EchGrease (suite_id : Z * Z) (placeholder_key : bytes).

(** [ClientConfig::builder_with_provider]: the version list or the ECH mode is
    accepted or refused with a message; a root store gives a verifier without
    further checks; a client certificate and its key are accepted or refused.  The
    last two are the provider's signature algorithms. *)
Record RustlsClient := {
  rustls_webpki : WebPki;
  protocol_versions_ok : list Z -> string + unit;
  ech_ok : EchMode -> string + unit;
  with_root_certificates : RootCertStore -> WebPkiServerVerifier;
  client_auth_cert_ok : list bytes -> PrivateKeyDer -> string + unit;
  verify_tls13_signature_with_raw_key : bytes -> bytes -> DigitallySignedStruct -> R RustlsError unit;
  supported_schemes : list Z;
}.

Definition TLS13 : Z := 0x0304.
Definition TLS12 : Z := 0x0303.

(** ** danger.rs *)

(** [DangerHostnameIgnoreVerifier]: a mismatch of the name is no error. *)
Definition hostname_ignore_verifier {S} (inner : WebPkiServerVerifier) : ServerCertVerifier S := {|
  verify_server_cert st end_entity intermediates server_name ocsp_response now :=
    (st, match wp_verify_server_cert inner end_entity intermediates server_name ocsp_response now with
         | Ok verified => Ok verified
         | Err (InvalidCertificate NotValidForName) | Err (InvalidCertificate (NotValidForNameContext _)) => Ok tt
         | Err other => Err other
         | Panic => Panic
         end);
  verify_tls12_signature := wp_verify_tls12_signature inner;
  verify_tls13_signature := wp_verify_tls13_signature inner;
  supported_verify_schemes := wp_supported_verify_schemes inner;
  requires_raw_public_keys := false;
|}.

(** [DangerousNoCertVerifier]; [schemes] are those of the pure provider. *)
Definition no_cert_verifier {S} (schemes : list Z) : ServerCertVerifier S := {|
  verify_server_cert st _ _ _ _ _ := (st, Ok tt);
  verify_tls12_signature _ _ _ := Ok tt;
  verify_tls13_signature _ _ _ := Ok tt;
  supported_verify_schemes := schemes;
  requires_raw_public_keys := false;
|}.

(** ** The builder

    A certificate cache is the state the verifiers share; the builder records that
    one was attached.  Fields of features that are off keep their initial value,
    so the record is that of all features. *)

Record ClientBuilder := {
  protocol_versions : option (list Z);
  trusted_certs : list bytes;
  use_webpki_roots : bool;
  resumption_capacity : nat;
  alpn : list bytes;
  client_cert : option (list bytes * PrivateKeyDer);
  danger_accept_invalid_certs : bool;
  danger_accept_invalid_hostnames : bool;
  cert_pins : list bytes;
  crls : list bytes;
  key_log_policy : option KeyLogPolicy;
  intermediate_cache : bool;
  enable_early_data : bool;
  quic_preview : bool;
  extra_root_store : option RootCertStore;
  ct_logs : option (list CtLog * SctPolicy);
  provider_opt : option CryptoProvider;
  server_raw_public_keys : option (list bytes);
  ech_mode : option EchMode;
  enable_cert_compression : bool;
}.

Module ClientB.
Definition new : ClientBuilder := {|
  protocol_versions := None; trusted_certs := []; use_webpki_roots := false; resumption_capacity := 256;
  alpn := []; client_cert := None; danger_accept_invalid_certs := false; danger_accept_invalid_hostnames := false;
  cert_pins := []; crls := []; key_log_policy := None; intermediate_cache := false;
  enable_early_data := false; quic_preview := false; extra_root_store := None; ct_logs := None;
  provider_opt := None; server_raw_public_keys := None; ech_mode := None; enable_cert_compression := false |}.

Definition with_tls12_fallback (self : ClientBuilder) : ClientBuilder :=
  let '(Build_ClientBuilder _ tc uw rc al cc dc dh pins cr kl ic ed qp xs ct pr rpk ech comp) := self in
  Build_ClientBuilder (Some [TLS13; TLS12]) tc uw rc al cc dc dh pins cr kl ic ed qp xs ct pr rpk ech comp.

Definition with_protocol_versions (self : ClientBuilder) (versions : list Z) : ClientBuilder :=
  let '(Build_ClientBuilder _ tc uw rc al cc dc dh pins cr kl ic ed qp xs ct pr rpk ech comp) := self in
  Build_ClientBuilder (Some versions) tc uw rc al cc dc dh pins cr kl ic ed qp xs ct pr rpk ech comp.

Definition with_trusted_cert_der (self : ClientBuilder) (cert : bytes) : ClientBuilder :=
  let '(Build_ClientBuilder pv tc uw rc al cc dc dh pins cr kl ic ed qp xs ct pr rpk ech comp) := self in
  Build_ClientBuilder pv (tc ++ [cert]) uw rc al cc dc dh pins cr kl ic ed qp xs ct pr rpk ech comp.

Definition with_webpki_roots (self : ClientBuilder) : ClientBuilder :=
  let '(Build_ClientBuilder pv tc _ rc al cc dc dh pins cr kl ic ed qp xs ct pr rpk ech comp) := self in
  Build_ClientBuilder pv tc true rc al cc dc dh pins cr kl ic ed qp xs ct pr rpk ech comp.

Definition with_resumption_capacity (self : ClientBuilder) (cap : nat) : ClientBuilder :=
  let '(Build_ClientBuilder pv tc uw _ al cc dc dh pins cr kl ic ed qp xs ct pr rpk ech comp) := self in
  Build_ClientBuilder pv tc uw cap al cc dc dh pins cr kl ic ed qp xs ct pr rpk ech comp.

Definition with_alpn_protocols (self : ClientBuilder) (protocols : list bytes) : ClientBuilder :=
  let '(Build_ClientBuilder pv tc uw rc _ cc dc dh pins cr kl ic ed qp xs ct pr rpk ech comp) := self in
  Build_ClientBuilder pv tc uw rc protocols cc dc dh pins cr kl ic ed qp xs ct pr rpk ech comp.

Definition with_client_cert (self : ClientBuilder) (certs : list bytes) (key : PrivateKeyDer) : ClientBuilder :=
  let '(Build_ClientBuilder pv tc uw rc al _ dc dh pins cr kl ic ed qp xs ct pr rpk ech comp) := self in
  Build_ClientBuilder pv tc uw rc al (Some (certs, key)) dc dh pins cr kl ic ed qp xs ct pr rpk ech comp.

Definition with_danger_accept_invalid_certs (self : ClientBuilder) : ClientBuilder :=
  let '(Build_ClientBuilder pv tc uw rc al cc _ dh pins cr kl ic ed qp xs ct pr rpk ech comp) := self in
  Build_ClientBuilder pv tc uw rc al cc true dh pins cr kl ic ed qp xs ct pr rpk ech comp.

Definition with_danger_accept_invalid_hostnames (self : ClientBuilder) : ClientBuilder :=
  let '(Build_ClientBuilder pv tc uw rc al cc dc _ pins cr kl ic ed qp xs ct pr rpk ech comp) := self in
  Build_ClientBuilder pv tc uw rc al cc dc true pins cr kl ic ed qp xs ct pr rpk ech comp.

Definition with_cert_pinning (self : ClientBuilder) (new_pins : list bytes) : ClientBuilder :=
  let '(Build_ClientBuilder pv tc uw rc al cc dc dh _ cr kl ic ed qp xs ct pr rpk ech comp) := self in
  Build_ClientBuilder pv tc uw rc al cc dc dh new_pins cr kl ic ed qp xs ct pr rpk ech comp.

Definition with_crl (self : ClientBuilder) (new_crls : list bytes) : ClientBuilder :=
  let '(Build_ClientBuilder pv tc uw rc al cc dc dh pins _ kl ic ed qp xs ct pr rpk ech comp) := self in
  Build_ClientBuilder pv tc uw rc al cc dc dh pins new_crls kl ic ed qp xs ct pr rpk ech comp.

Definition with_key_log_file (self : ClientBuilder) (path : string) : ClientBuilder :=
  let '(Build_ClientBuilder pv tc uw rc al cc dc dh pins cr _ ic ed qp xs ct pr rpk ech comp) := self in
  Build_ClientBuilder pv tc uw rc al cc dc dh pins cr (Some (KeyLogFile path)) ic ed qp xs ct pr rpk ech comp.

Definition with_key_log_custom (self : ClientBuilder) (logger : nat) : ClientBuilder :=
  let '(Build_ClientBuilder pv tc uw rc al cc dc dh pins cr _ ic ed qp xs ct pr rpk ech comp) := self in
  Build_ClientBuilder pv tc uw rc al cc dc dh pins cr (Some (KeyLogCustom logger)) ic ed qp xs ct pr rpk ech comp.

Definition with_intermediate_cache (self : ClientBuilder) : ClientBuilder :=
  let '(Build_ClientBuilder pv tc uw rc al cc dc dh pins cr kl _ ed qp xs ct pr rpk ech comp) := self in
  Build_ClientBuilder pv tc uw rc al cc dc dh pins cr kl true ed qp xs ct pr rpk ech comp.

Definition with_root_store_builder (self : ClientBuilder) `{Sha256} `{RootSources} (builder : RootStoreBuilder) : ClientBuilder :=
  let '(Build_ClientBuilder pv tc uw rc al cc dc dh pins cr kl ic ed qp _ ct pr rpk ech comp) := self in
  Build_ClientBuilder pv tc uw rc al cc dc dh pins cr kl ic ed qp (Some (RootStore.build builder)) ct pr rpk ech comp.

Definition with_ct_logs (self : ClientBuilder) (logs : list CtLog) (policy : SctPolicy) : ClientBuilder :=
  let '(Build_ClientBuilder pv tc uw rc al cc dc dh pins cr kl ic ed qp xs _ pr rpk ech comp) := self in
  Build_ClientBuilder pv tc uw rc al cc dc dh pins cr kl ic ed qp xs (Some (logs, policy)) pr rpk ech comp.

Definition with_early_data (self : ClientBuilder) : ClientBuilder :=
  let '(Build_ClientBuilder pv tc uw rc al cc dc dh pins cr kl ic _ qp xs ct pr rpk ech comp) := self in
  Build_ClientBuilder pv tc uw rc al cc dc dh pins cr kl ic true qp xs ct pr rpk ech comp.

Definition with_quic_preview (self : ClientBuilder) (enabled : bool) : ClientBuilder :=
  let '(Build_ClientBuilder pv tc uw rc al cc dc dh pins cr kl ic ed _ xs ct pr rpk ech comp) := self in
  Build_ClientBuilder pv tc uw rc al cc dc dh pins cr kl ic ed enabled xs ct pr rpk ech comp.

Definition with_provider (self : ClientBuilder) (p : CryptoProvider) : ClientBuilder :=
  let '(Build_ClientBuilder pv tc uw rc al cc dc dh pins cr kl ic ed qp xs ct _ rpk ech comp) := self in
  Build_ClientBuilder pv tc uw rc al cc dc dh pins cr kl ic ed qp xs ct (Some p) rpk ech comp.

Definition with_server_raw_public_keys (self : ClientBuilder) (spki_list : list bytes) : ClientBuilder :=
  let '(Build_ClientBuilder pv tc uw rc al cc dc dh pins cr kl ic ed qp xs ct pr _ ech comp) := self in
  Build_ClientBuilder pv tc uw rc al cc dc dh pins cr kl ic ed qp xs ct pr (Some spki_list) ech comp.

(** [self.ech_mode = Some(mode)] *)
Definition set_ech_mode (self : ClientBuilder) (mode : EchMode) : ClientBuilder :=
  let '(Build_ClientBuilder pv tc uw rc al cc dc dh pins cr kl ic ed qp xs ct pr rpk _ comp) := self in
  Build_ClientBuilder pv tc uw rc al cc dc dh pins cr kl ic ed qp xs ct pr rpk (Some mode) comp.

Definition with_cert_compression (self : ClientBuilder) : ClientBuilder :=
  let '(Build_ClientBuilder pv tc uw rc al cc dc dh pins cr kl ic ed qp xs ct pr rpk ech _) := self in
  Build_ClientBuilder pv tc uw rc al cc dc dh pins cr kl ic ed qp xs ct pr rpk ech true.

(** [EchConfig::new] of rustls reads the list with the given suites, or fails. *)
Definition with_ech_config_list (ech_config_new : bytes -> string + bytes) (self : ClientBuilder)
  (ech_config_list : bytes) : R TlsError ClientBuilder :=
  cfg ← map_err (fun e => InvalidConfig ("ECH config: " +:+ e)) (of_sum (ech_config_new ech_config_list));
  Ok (set_ech_mode self (EchEnable cfg)).

(** [pure_hpke_suites()[0]] generates the placeholder key, or it is 32 zeros. *)
Definition with_ech_grease (suites : list (DhKem * AeadSuite)) (draws : Draws) (self : ClientBuilder)
  : R TlsError ClientBuilder :=
  match suites with
  | [] => Panic
  | suite :: _ =>
      match kem_generate suite.1 draws with
      | Panic => Panic
      | Ok (pk, _sk) => Ok (set_ech_mode self (EchGrease (KEM_ID suite.1, AEAD_ID suite.2) pk))
      | Err _ => Ok (set_ech_mode self (EchGrease (KEM_ID suite.1, AEAD_ID suite.2) (replicate 32 Byte.x00)))
      end
  end.

(** A no-op, kept for symmetry with the server. *)
Definition with_ticketer_rotation_interval (self : ClientBuilder) (_interval : Z) : ClientBuilder := self.
End ClientB.

(** ** [build] *)

(** [impl Clone for PrivateKeyDer] by hand: the facade's helper. *)
Definition clone_private_key_der (key : PrivateKeyDer) : R TlsError PrivateKeyDer :=
  match key with
  | Pkcs1 k => Ok (Pkcs1 k)
  | Sec1 k => Ok (Sec1 k)
  | Pkcs8 k => Ok (Pkcs8 k)
  | OtherKeyDer => Err (InvalidConfig "unsupported PrivateKeyDer variant for cloning")
  end.

Inductive VersionChoice := Versions (l : list Z) | WithEch (mode : EchMode) | SafeDefaults.

Inductive ClientAuth :=
  | NoClientAuth
  | AuthCert (certs : list bytes) (key : PrivateKeyDer)
  | AuthResolver (certs : list bytes) (signing_key : SigningKey).

Inductive Resumption := ResumptionDisabled | InMemorySessions (capacity : nat).

Definition resumption_of (capacity : nat) : Resumption :=
  if capacity =? 0 then ResumptionDisabled else InMemorySessions capacity.

Section Build.
Context `{KeyLibs} `{Sha256} `{Digests} `{VerifyLibs} `{X509} `{SigPrims} `{OcspDer} `{Lru} `{RootSources}.

(** rustls; the state of the once-cell that holds the Mozilla roots; and the
    compile-time features that select the default provider. *)
Context (rustls : CryptoProvider -> RustlsClient) (cell : option RootCertStore) (feature_tls12 post_quantum : bool).

Record FacadeConfig := {
  fc_provider : CryptoProvider;
  fc_versions : VersionChoice;
  fc_verifier : ServerCertVerifier IntermediateCertCache;
  fc_client_auth : ClientAuth;
  fc_alpn_protocols : list bytes;
  fc_key_log : option KeyLogPolicy;
  fc_resumption : Resumption;
  fc_enable_early_data : bool;
  fc_cert_compression : bool;
}.

(** [SingleClientCertResolver]: the key is loaded by the pure provider, and the
    resolver answers every request with it. *)
Definition single_client_cert_resolver_new (show : RustlsError -> string) (certs : list bytes) (key : PrivateKeyDer)
  : R TlsError ClientAuth :=
  signing_key ← map_err (fun e => InvalidConfig ("failed to load client key: " +:+ show e))
                  (load_private_key (pure_provider feature_tls12) key);
  Ok (AuthResolver certs signing_key).

Definition single_resolve (self : ClientAuth) : option (list bytes * SigningKey) :=
  match self with AuthResolver certs k => Some (certs, k) | _ => None end.

(** [for cert in self.trusted_certs { root_store.add(cert)? }] *)
Fixpoint add_trusted (store : RootCertStore) (certs : list bytes) : R TlsError RootCertStore :=
  match certs with
  | [] => Ok store
  | cert :: certs =>
      ta ← map_err BadCert (of_sum (anchor_of_cert cert));
      add_trusted (store ++ [ta]) certs
  end.

(** The root store, built the same way in three places of [build]. *)
Definition facade_roots (self : ClientBuilder) : R TlsError RootCertStore :=
  let root_store := if use_webpki_roots self then (webpki_root_certs cell).2 else [] in
  root_store ← add_trusted root_store (trusted_certs self);
  Ok (match extra_root_store self with Some extra => root_store ++ extra | None => root_store end).

(** [Arc::try_unwrap(key)], or a clone when the builder was cloned. *)
Definition unwrap_key (shared : bool) (key : PrivateKeyDer) : R TlsError PrivateKeyDer :=
  if shared then clone_private_key_der key else Ok key.

Definition client_auth (p : CryptoProvider) (shared : bool) (self : ClientBuilder) : R TlsError ClientAuth :=
  match client_cert self with
  | Some (certs, key) =>
      key ← unwrap_key shared key;
      _ ← map_err InvalidConfig (of_sum (client_auth_cert_ok (rustls p) certs key));
      Ok (AuthCert certs key)
  | None => Ok NoClientAuth
  end.

Definition has_roots (self : ClientBuilder) : bool :=
  use_webpki_roots self || negb (bool_decide (trusted_certs self = [])) ||
  match extra_root_store self with Some s => negb (bool_decide (s = [])) | None => false end.

Definition use_adapter (self : ClientBuilder) : bool :=
  negb (bool_decide (cert_pins self = [])) || negb (bool_decide (crls self = [])) ||
  match ct_logs self with Some _ => true | None => false end.

(** The adapter's builder as [build] fills it. *)
Definition adapter_builder (self : ClientBuilder) (root_store : RootCertStore) : RustcryptoClientConfigBuilder :=
  let adapter := ClientBuilder.with_alpn (ClientBuilder.with_crl (ClientBuilder.with_pinned_certs
    (ClientBuilder.with_roots client_builder_new root_store) (cert_pins self)) (crls self)) (alpn self) in
  let adapter := match key_log_policy self with Some p => ClientBuilder.with_keylog adapter p | None => adapter end in
  let adapter := if intermediate_cache self then ClientBuilder.with_intermediate_cache adapter else adapter in
  match ct_logs self with
  | Some (logs, sct_policy) => ClientBuilder.with_sct_policy adapter sct_policy logs
  | None => adapter
  end.

(** What the paths that do not return early do to their config: ALPN with [h3],
    the key log, resumption, early data and compression. *)
Definition finish_config (self : ClientBuilder) (p : CryptoProvider) (v : VersionChoice)
  (verifier : ServerCertVerifier IntermediateCertCache) (auth : ClientAuth) : FacadeConfig :=
  let alpn_protocols :=
    if quic_preview self && negb (bool_decide (bstr "h3" ∈ alpn self)) then alpn self ++ [bstr "h3"] else alpn self in
  {| fc_provider := p; fc_versions := v; fc_verifier := verifier; fc_client_auth := auth;
     fc_alpn_protocols := alpn_protocols; fc_key_log := key_log_policy self;
     fc_resumption := resumption_of (resumption_capacity self);
     fc_enable_early_data := enable_early_data self;
     fc_cert_compression := enable_cert_compression self |}.

(** The branch of [build] for [danger_accept_invalid_hostnames]. *)
Definition build_ignoring_hostnames (p : CryptoProvider) (v : VersionChoice) (shared : bool) (self : ClientBuilder)
  : R TlsError FacadeConfig :=
  root_store ← facade_roots self;
  inner_verifier ← map_err (fun e => InvalidConfig ("verifier build: " +:+ e))
                     (of_sum (@webpki_build (rustls_webpki (rustls p)) root_store []));
  auth ← client_auth p shared self;
  Ok (finish_config self p v (hostname_ignore_verifier inner_verifier) auth).

(** The branch for pins, CRLs and CT logs, which returns the config of the adapter. *)
Definition build_with_adapter (self : ClientBuilder) : R TlsError FacadeConfig :=
  root_store ← facade_roots self;
  cfg ← @client_build _ _ _ _ _ _ (rustls_webpki (rustls (pure_provider feature_tls12)))
          (adapter_builder self root_store);
  Ok {| fc_provider := pure_provider feature_tls12; fc_versions := SafeDefaults;
        fc_verifier := cfg_verifier cfg; fc_client_auth := NoClientAuth;
        fc_alpn_protocols := default [] (cfg_alpn_protocols cfg); fc_key_log := cfg_key_log cfg;
        fc_resumption := resumption_of (resumption_capacity self);
        fc_enable_early_data := enable_early_data self; fc_cert_compression := false |}.

Definition build (show : RustlsError -> string) (shared : bool) (self : ClientBuilder) : R TlsError FacadeConfig :=
  let has_pinning := negb (bool_decide (cert_pins self = [])) in
  let has_rpk := match server_raw_public_keys self with Some _ => true | None => false end in
  let bypasses_verify := danger_accept_invalid_certs self || danger_accept_invalid_hostnames self in
  if negb (has_roots self) && negb has_pinning && negb has_rpk && negb bypasses_verify
  then Err (InvalidConfig "ClientBuilder: at least one root store, cert pinning, or RPK pinning must be configured") else
  let p := match provider_opt self with
           | Some p => p
           | None => if post_quantum then pure_provider_with_pq feature_tls12 else pure_provider feature_tls12
           end in
  let versions := match protocol_versions self with Some v => v | None => [TLS13] end in
  v ← match ech_mode self with
      | Some mode => _ ← map_err InvalidConfig (of_sum (ech_ok (rustls p) mode)); Ok (WithEch mode)
      | None => _ ← map_err InvalidConfig (of_sum (protocol_versions_ok (rustls p) versions)); Ok (Versions versions)
      end;
  match server_raw_public_keys self with
  | Some spki_list =>
      let rpk_verifier := raw_as_verifier
        {| trusted_spki := spki_list; raw_verify := verify_tls13_signature_with_raw_key (rustls p);
           raw_schemes := supported_schemes (rustls p) |} in
      auth ← client_auth p shared self;
      Ok {| fc_provider := p; fc_versions := v; fc_verifier := rpk_verifier; fc_client_auth := auth;
            fc_alpn_protocols := alpn self; fc_key_log := key_log_policy self;
            fc_resumption := resumption_of (resumption_capacity self);
            fc_enable_early_data := enable_early_data self; fc_cert_compression := false |}
  | None =>
      if danger_accept_invalid_certs self then
        auth ← match client_cert self with
               | Some (certs, key) => key ← unwrap_key shared key; single_client_cert_resolver_new show certs key
               | None => Ok NoClientAuth
               end;
        Ok (finish_config self p v (no_cert_verifier (supported_schemes (rustls (pure_provider feature_tls12)))) auth)
      else if danger_accept_invalid_hostnames self then
        build_ignoring_hostnames p v shared self
      else if use_adapter self then
        build_with_adapter self
      else
        root_store ← facade_roots self;
        let verifier := webpki_as_verifier (with_root_certificates (rustls p) root_store) in
        auth ← client_auth p shared self;
        Ok (finish_config self p v verifier auth)
  end.

(** [GenericTlsConnector::connect] of lib.rs up to the handshake: the builder is
    cloned, so its key is shared. *)
Definition connector_config (show : RustlsError -> string) (self : ClientBuilder) : R TlsError FacadeConfig :=
  build show true self.
End Build.

(** ** Properties *)

(** The hostname-ignoring verifier accepts what WebPKI accepts, and what it
    refuses for the name alone. *)
Definition accepted_but_for_name (r : R RustlsError unit) : Prop :=
  r = Ok tt \/ r = Err (InvalidCertificate NotValidForName) \/
  exists d, r = Err (InvalidCertificate (NotValidForNameContext d)).

Lemma hostname_ignore_exact {S} inner (st : S) ee ints name ocsp now :
  (verify_server_cert (hostname_ignore_verifier inner) st ee ints name ocsp now).2 = Ok tt <->
  accepted_but_for_name (wp_verify_server_cert inner ee ints name ocsp now).
Proof.
  unfold accepted_but_for_name. cbn. split.
  - destruct (wp_verify_server_cert inner ee ints name ocsp now) as [[]|e|]; [by left| |done].
    destruct e as [| |[]| | | | | | | |]; try done; eauto.
  - by intros [->|[->|[d ->]]].
Qed.

Section BuildProperties.
Context `{KeyLibs} `{Sha256Laws} `{Digests} `{VerifyLibs} `{X509} `{SigPrims} `{OcspDer} `{Lru} `{RootSources}.
Context (rustls : CryptoProvider -> RustlsClient) (cell : option RootCertStore) (feature_tls12 post_quantum : bool)
  (show : RustlsError -> string).

Abbreviation facade_build := (build rustls cell feature_tls12 post_quantum show).
Abbreviation pure := (pure_provider feature_tls12).

Definition provider_of (b : ClientBuilder) : CryptoProvider :=
  match provider_opt b with
  | Some p => p
  | None => if post_quantum then pure_provider_with_pq feature_tls12 else pure
  end.

(** The anchors of a list of certificates, if all of them are certificates. *)
Lemma add_trusted_Ok store certs out :
  add_trusted store certs = Ok out <->
  exists tas, Forall2 (fun c ta => anchor_of_cert c = inr ta) certs tas /\ out = store ++ tas.
Proof.
  revert store. induction certs as [|c certs IH]; intros store; cbn [add_trusted].
  - split; [intros [= <-]; exists []; by rewrite app_nil_r|]. intros (tas & Hf & ->).
    apply Forall2_nil_inv_l in Hf as ->. by rewrite app_nil_r.
  - split.
    + intros (ta & Hta & Hb)%bind_Ok. inv_ok. apply IH in Hb as (tas & Hf & ->).
      exists (ta :: tas). rewrite <- app_assoc. split; [by constructor|done].
    + intros (tas & Hf & ->). apply Forall2_cons_inv_l in Hf as (ta & tas' & Hc & Hf & ->).
      rewrite Hc. cbn. apply IH. exists tas'. by rewrite <- app_assoc.
Qed.

(** The bundle if asked for, the certificates to trust, and the builder's roots. *)
Definition configured_roots (b : ClientBuilder) (store : RootCertStore) : Prop :=
  exists tas, Forall2 (fun c ta => anchor_of_cert c = inr ta) (trusted_certs b) tas /\
    store = (if use_webpki_roots b then (webpki_root_certs cell).2 else []) ++ tas ++ default [] (extra_root_store b).

Lemma facade_roots_Ok b store : facade_roots cell b = Ok store <-> configured_roots b store.
Proof.
  unfold facade_roots, configured_roots. rewrite bind_Ok. split.
  - intros (st & (tas & Hf & ->)%add_trusted_Ok & [= <-]). exists tas. split; [done|].
    destruct (extra_root_store b); cbn; by rewrite ?app_nil_r, <- ?app_assoc.
  - intros (tas & Hf & ->). eexists. split; [apply add_trusted_Ok; eauto|].
    destruct (extra_root_store b); cbn; by rewrite ?app_nil_r, <- ?app_assoc.
Qed.

(** The options of the adapter's builder. *)
Lemma adapter_builder_fields b store :
  let a := adapter_builder b store in
  cb_root_store a = store /\ cb_pinned_certs a = cert_pins b /\ cb_crls a = crls b /\
  cb_alpn_protocols a = alpn b /\ cb_intermediate_cache a = intermediate_cache b /\
  cb_ocsp_policy a = None /\ cb_keylog a = default KeyLogDisabled (key_log_policy b) /\
  cb_sct_policy a = (fun '(logs, policy) => (policy, logs)) <$> ct_logs b.
Proof.
  cbv zeta. unfold adapter_builder. destruct (key_log_policy b), (intermediate_cache b), (ct_logs b) as [[]|]; done.
Qed.

(** Pins, CRLs or CT logs are configured. *)
Definition extra_checks (b : ClientBuilder) : bool :=
  match cert_pins b, crls b, ct_logs b with [], [], None => false | _, _, _ => true end.

Lemma use_adapter_extra b : use_adapter b = extra_checks b.
Proof. unfold use_adapter, extra_checks. by destruct (cert_pins b), (crls b), (ct_logs b). Qed.

(** What the built client requires of a server, by the way it was configured. *)
Definition server_accepted (b : ClientBuilder) (ee : bytes) (ints : list bytes) (name : string) (ocsp : bytes)
  (now : Z) : Prop :=
  match server_raw_public_keys b with
  | Some spkis => ee ∈ spkis
  | None =>
      danger_accept_invalid_certs b = true \/
      exists store, configured_roots b store /\
        if danger_accept_invalid_hostnames b then
          exists w, @webpki_build (rustls_webpki (rustls (provider_of b))) store [] = inr w /\
            accepted_but_for_name (wp_verify_server_cert w ee ints name ocsp now)
        else if extra_checks b then
          exists w, @webpki_build (rustls_webpki (rustls pure)) store
                      (match cert_pins b with [] => crls b | _ => [] end) = inr w /\
            (forall logs policy, ct_logs b = Some (logs, policy) -> sct_passes policy logs ee ints) /\
            (cert_pins b <> [] -> sha256 ee ∈ cert_pins b) /\
            wp_verify_server_cert w ee ints name ocsp now = Ok tt
        else wp_verify_server_cert (with_root_certificates (rustls (provider_of b)) store) ee ints name ocsp now = Ok tt
  end.

Lemma adapter_verifier_exact b store cfg cache ee ints name ocsp now :
  @client_build _ _ _ _ _ _ (rustls_webpki (rustls pure)) (adapter_builder b store) = Ok cfg ->
  (verify_server_cert (cfg_verifier cfg) cache ee ints name ocsp now).2 = Ok tt <->
  exists w, @webpki_build (rustls_webpki (rustls pure)) store
              (match cert_pins b with [] => crls b | _ => [] end) = inr w /\
    (forall logs policy, ct_logs b = Some (logs, policy) -> sct_passes policy logs ee ints) /\
    (cert_pins b <> [] -> sha256 ee ∈ cert_pins b) /\
    wp_verify_server_cert w ee ints name ocsp now = Ok tt.
Proof.
  intros Hb. destruct (adapter_builder_fields b store) as (Hroots & Hpins & Hcrls & _ & _ & Hocsp & _ & Hsct).
  assert (exists w, @webpki_build (rustls_webpki (rustls pure)) store
            (match cert_pins b with [] => crls b | _ => [] end) = inr w) as [w Hw].
  { pose proof Hb as (base & Hbase & _)%bind_Ok. unfold base_verifier, crl_verifier_new in Hbase.
    rewrite Hroots, Hpins, Hcrls in Hbase.
    destruct (cert_pins b); [destruct (crls b)|]; inv_ok; eauto. }
  assert (effective_crls (adapter_builder b store) = match cert_pins b with [] => crls b | _ => [] end) as Heff.
  { unfold effective_crls. by rewrite Hpins, Hcrls. }
  destruct (@client_build_decides _ _ _ _ _ _ _ (rustls_webpki (rustls pure)) _ cfg w cache ee ints name ocsp now Hb)
    as [[Hok Hv]|(Hno & r & Hr & Hv)]; [by rewrite Hroots, Heff|..]; rewrite Hv; cbn;
    unfold client_requires in *; rewrite ?Hsct, ?Hocsp, ?Hpins in *; setoid_rewrite Hw.
  - split; [intros _|done]. exists w. destruct Hok as (Hs & _ & Hp & Hwp). split_and!; try done.
    intros logs policy Hct. apply Hs. by rewrite Hct.
  - split; [done|]. intros (w' & [= <-] & Hs & Hp & Hwp). destruct Hno. split_and!; try done.
    intros policy logs ([l p] & Hct & [= <- <-])%fmap_Some. by apply Hs.
Qed.

(** The verifier of a built configuration, on every path of [build]. *)
Lemma facade_verifier_iff shared b cfg cache ee ints name ocsp now :
  facade_build shared b = Ok cfg ->
  (verify_server_cert (fc_verifier cfg) cache ee ints name ocsp now).2 = Ok tt <->
  server_accepted b ee ints name ocsp now.
Proof.
  unfold build, build_ignoring_hostnames, build_with_adapter, server_accepted. case_test; [done|]. fold (provider_of b).
  intros (v & _ & Hb)%bind_Ok. destruct (server_raw_public_keys b) as [spkis|].
  { apply bind_Ok in Hb as (auth & _ & [= <-]). cbn. unfold raw_verify_cert. cbn.
    case_match eqn:E; (split; [|intros; try done]); try done.
    - intros _. apply existsb_exists in E as (x & Hx & ->%bool_decide_eq_true). by apply list_elem_of_In.
    - exfalso. apply not_true_iff_false in E. apply E, existsb_exists. exists ee.
      split; [by apply list_elem_of_In|by apply bool_decide_eq_true]. }
  destruct (danger_accept_invalid_certs b).
  { apply bind_Ok in Hb as (auth & _ & [= <-]). cbn. tauto. }
  assert (forall (P : Prop), (false = true \/ P) <-> P) as Hor by (intros; intuition discriminate). rewrite Hor.
  assert (forall store (P : RootCertStore -> Prop), facade_roots cell b = Ok store ->
    ((exists s, configured_roots b s /\ P s) <-> P store)) as Hroots.
  { intros store P Hst. setoid_rewrite <- facade_roots_Ok. naive_solver congruence. }
  rewrite use_adapter_extra in Hb. destruct (danger_accept_invalid_hostnames b); [|destruct (extra_checks b)];
    apply bind_Ok in Hb as (store & Hstore & Hb);
    rewrite (Hroots store (fun s => _) Hstore).
  - apply bind_Ok in Hb as (w & Hw & Hb). apply map_err_Ok, of_sum_Ok in Hw. apply bind_Ok in Hb as (auth & _ & [= <-]).
    cbn [finish_config fc_verifier]. rewrite hostname_ignore_exact. rewrite Hw. naive_solver.
  - apply bind_Ok in Hb as (c & Hc & [= <-]). cbn [fc_verifier]. by apply adapter_verifier_exact.
  - apply bind_Ok in Hb as (auth & _ & [= <-]). cbn. done.
Qed.


(** Whether the adapter's builder makes the configuration. *)
Definition adapter_path (b : ClientBuilder) : bool :=
  match server_raw_public_keys b with Some _ => false | None => true end &&
  negb (danger_accept_invalid_certs b) && negb (danger_accept_invalid_hostnames b) && extra_checks b.

Definition versions_of (b : ClientBuilder) : VersionChoice :=
  match ech_mode b with Some mode => WithEch mode | None => Versions (default [TLS13] (protocol_versions b)) end.

(** The identity a client presents: none if none was given; otherwise exactly the
    given chain and key, the key loaded by the pure provider when certificates are
    not verified, and handed to rustls in the other cases. *)
Definition client_auth_as_asked (b : ClientBuilder) (auth : ClientAuth) : Prop :=
  match client_cert b with
  | None => auth = NoClientAuth
  | Some (certs, key) =>
      match server_raw_public_keys b with
      | None =>
          if danger_accept_invalid_certs b
          then exists k, load_private_key pure key = Ok k /\ auth = AuthResolver certs k
          else auth = AuthCert certs key
      | Some _ => auth = AuthCert certs key
      end
  end.

(** Raw public keys are trusted: their path returns before [h3] and compression. *)
Definition raw_path (b : ClientBuilder) : bool :=
  match server_raw_public_keys b with Some _ => true | None => false end.

(** A configuration that follows the options of its builder. *)
Definition honours (b : ClientBuilder) (cfg : FacadeConfig) : Prop :=
  fc_provider cfg = provider_of b /\ fc_versions cfg = versions_of b /\
  client_auth_as_asked b (fc_client_auth cfg) /\ fc_key_log cfg = key_log_policy b /\
  (quic_preview b = true /\ raw_path b = false /\ bstr "h3" ∉ alpn b -> fc_alpn_protocols cfg = alpn b ++ [bstr "h3"]) /\
  (quic_preview b = false \/ raw_path b = true \/ bstr "h3" ∈ alpn b -> fc_alpn_protocols cfg = alpn b) /\
  fc_cert_compression cfg = enable_cert_compression b && negb (raw_path b).

Lemma unwrap_key_same shared key key' : unwrap_key shared key = Ok key' -> key' = key.
Proof. unfold unwrap_key, clone_private_key_der. destruct shared, key; naive_solver. Qed.

Lemma client_auth_given p shared b auth :
  client_auth rustls p shared b = Ok auth ->
  match client_cert b with None => auth = NoClientAuth | Some (certs, key) => auth = AuthCert certs key end.
Proof.
  unfold client_auth. destruct (client_cert b) as [[certs key]|]; [|by intros [= <-]].
  by intros (key' & ->%unwrap_key_same & (_ & _ & [= <-])%bind_Ok)%bind_Ok.
Qed.

Lemma finish_honours b verifier auth :
  raw_path b = false -> client_auth_as_asked b auth ->
  honours b (finish_config b (provider_of b) (versions_of b) verifier auth).
Proof.
  intros Hr Ha. unfold honours, finish_config. cbn. rewrite Hr. cbn [negb].
  split_and!; try done; [| |by rewrite andb_true_r].
  - intros (-> & _ & Hn). cbn [andb]. by rewrite bool_decide_eq_false_2.
  - intros [->|[[=]|Hin]]; [done|]. rewrite bool_decide_eq_true_2 by done. by rewrite andb_false_r.
Qed.

(** C34: which options a configuration follows.  Resumption, early data and the key
    log are always as asked.  Outside the adapter's path so are the provider, the
    versions or ECH, and the client certificate with its key; [h3] is added to the
    protocols exactly if the QUIC preview is on and it is not among them, and
    certificates are compressed if asked, except that with trusted raw public keys
    neither happens.  On the adapter's path (pins, CRLs or CT logs) the client
    certificate is dropped, the versions are rustls' defaults, TLS 1.2 included,
    and provider, ECH, [h3] and compression are ignored. *)
Theorem facade_options shared b cfg :
  facade_build shared b = Ok cfg ->
  fc_resumption cfg = resumption_of (resumption_capacity b) /\ fc_enable_early_data cfg = enable_early_data b /\
  (adapter_path b = false -> honours b cfg) /\
  (adapter_path b = true ->
     fc_client_auth cfg = NoClientAuth /\ fc_versions cfg = SafeDefaults /\ fc_provider cfg = pure /\
     fc_alpn_protocols cfg = alpn b /\ fc_cert_compression cfg = false /\
     fc_key_log cfg = match key_log_policy b with Some KeyLogDisabled => None | l => l end).
Proof.
  unfold build, build_ignoring_hostnames, build_with_adapter, adapter_path. case_test; [done|].
  fold (provider_of b). intros (v & Hv & Hb)%bind_Ok.
  assert (v = versions_of b) as ->.
  { unfold versions_of. destruct (ech_mode b); apply bind_Ok in Hv as (_ & _ & [= <-]); [done|].
    by destruct (protocol_versions b). }
  destruct (server_raw_public_keys b) as [spkis|] eqn:Hrpk; cbn [andb].
  { apply bind_Ok in Hb as (auth & Ha%client_auth_given & [= <-]).
    split_and!; try done. intros _. unfold honours, client_auth_as_asked, raw_path. cbn. rewrite Hrpk.
    split_and!; try done; [naive_solver|by rewrite andb_false_r]. }
  assert (raw_path b = false) as Hraw by (unfold raw_path; by rewrite Hrpk).
  destruct (danger_accept_invalid_certs b) eqn:Hd; cbn [andb negb].
  { apply bind_Ok in Hb as (auth & Ha & [= <-]). split_and!; try done. intros _. apply finish_honours; [done|].
    unfold client_auth_as_asked. rewrite Hrpk, Hd.
    destruct (client_cert b) as [[certs key]|]; [|by injection Ha as <-].
    apply bind_Ok in Ha as (k & ->%unwrap_key_same & (sk & Hsk%map_err_Ok & [= <-])%bind_Ok). eauto. }
  assert (forall p auth, client_auth rustls p shared b = Ok auth -> client_auth_as_asked b auth) as Hgiven.
  { intros p auth Ha%client_auth_given. unfold client_auth_as_asked. by rewrite Hrpk, Hd. }
  destruct (danger_accept_invalid_hostnames b); cbn [andb negb].
  { apply bind_Ok in Hb as (store & _ & (w & _ & (auth & Ha & [= <-])%bind_Ok)%bind_Ok).
    split_and!; try done. intros _. eapply finish_honours, Hgiven, Ha; done. }
  rewrite use_adapter_extra in Hb. destruct (extra_checks b).
  - apply bind_Ok in Hb as (store & _ & (c & Hc & [= <-])%bind_Ok). split_and!; try done. intros _. cbn.
    apply bind_Ok in Hc as (base & _ & Hc). apply bind_Ok in Hc as (_ & _ & [= <-]). cbn [cfg_alpn_protocols cfg_key_log].
    destruct (adapter_builder_fields b store) as (_ & _ & _ & -> & _ & _ & -> & _).
    split_and!; try done; [by destruct (alpn b)|by destruct (key_log_policy b) as [[]|]].
  - apply bind_Ok in Hb as (store & _ & (auth & Ha & [= <-])%bind_Ok).
    split_and!; try done. intros _. eapply finish_honours, Hgiven, Ha; done.
Qed.

Lemma client_auth_no_panic p shared b : client_auth rustls p shared b <> Panic.
Proof. unfold client_auth, unwrap_key, clone_private_key_der. no_panic. Qed.

Lemma facade_roots_no_panic b : facade_roots cell b <> Panic.
Proof.
  unfold facade_roots. apply bind_no_panic; [|done].
  generalize (if use_webpki_roots b then (webpki_root_certs cell).2 else []). induction (trusted_certs b); intros; [done|].
  cbn. by apply bind_no_panic; [apply map_err_no_panic; no_panic|].
Qed.

Lemma client_build_no_panic (W : WebPki) b : client_build b <> Panic.
Proof. unfold client_build, base_verifier, crl_verifier_new. no_panic. Qed.

Lemma load_no_panic key : load_private_key pure key <> Panic.
Proof.
  cbn. rewrite any_supported_type_loaded. by destruct (loaded key).
Qed.

(** Nothing to trust was configured. *)
Definition no_roots (b : ClientBuilder) : Prop :=
  use_webpki_roots b = false /\ trusted_certs b = [] /\ default [] (extra_root_store b) = [].

Lemma has_roots_spec b : has_roots b = false <-> no_roots b.
Proof.
  unfold has_roots, no_roots.
  destruct (use_webpki_roots b), (trusted_certs b), (extra_root_store b) as [[|]|]; cbn; naive_solver.
Qed.

Lemma facade_roots_empty b : no_roots b -> facade_roots cell b = Ok [].
Proof. intros (Hw & Ht & He). apply facade_roots_Ok. exists []. rewrite Hw, Ht, He. done. Qed.

Lemma add_trusted_bad pre c post e store :
  Forall (fun c => exists ta, anchor_of_cert c = inr ta) pre -> anchor_of_cert c = inl e ->
  add_trusted store (pre ++ c :: post) = Err (BadCert e).
Proof.
  intros Hpre Hc. revert store. induction Hpre as [|x pre [ta Hx] _ IH]; intros store; cbn [app add_trusted].
  - by rewrite Hc.
  - rewrite Hx. apply IH.
Qed.

Lemma facade_roots_bad b pre c post e :
  trusted_certs b = pre ++ c :: post -> Forall (fun c => exists ta, anchor_of_cert c = inr ta) pre ->
  anchor_of_cert c = inl e -> facade_roots cell b = Err (BadCert e).
Proof. intros Ht Hpre Hc. unfold facade_roots. rewrite Ht, (add_trusted_bad pre c post e) by done. done. Qed.

(** rustls takes the versions or the ECH mode. *)
Definition versions_accepted (b : ClientBuilder) : Prop :=
  match ech_mode b with
  | Some mode => ech_ok (rustls (provider_of b)) mode = inr tt
  | None => protocol_versions_ok (rustls (provider_of b)) (default [TLS13] (protocol_versions b)) = inr tt
  end.

Lemma pinned_without_roots (W : WebPki) b :
  (forall crls, exists e, webpki_build [] crls = inl e) -> cert_pins b <> [] ->
  exists e, client_build (adapter_builder b []) = Err (InvalidConfig e).
Proof.
  intros Hrefuse Hp. destruct (adapter_builder_fields b []) as (Hroots & Hpins & _).
  unfold client_build, base_verifier. rewrite Hroots, Hpins. destruct (cert_pins b); [done|].
  destruct (Hrefuse []) as [e ->]. cbn. eauto.
Qed.

Lemma facade_build_no_panic shared b : facade_build shared b <> Panic.
Proof.
  unfold build, build_ignoring_hostnames, build_with_adapter. no_panic_step; [done|].
  apply bind_no_panic; [destruct (ech_mode b); no_panic|]. intros v _.
  destruct (server_raw_public_keys b); [by apply bind_no_panic; [apply client_auth_no_panic|]|].
  case_test; [|case_test; [|case_test]]; (apply bind_no_panic; [|intros store _]); auto using facade_roots_no_panic; try done.
  - unfold single_client_cert_resolver_new, unwrap_key, clone_private_key_der.
    pose proof load_no_panic. repeat no_panic_step; auto.
  - apply bind_no_panic; [no_panic|]. intros w _. by apply bind_no_panic; [apply client_auth_no_panic|].
  - by apply bind_no_panic; [apply client_build_no_panic|].
  - by apply bind_no_panic; [apply client_auth_no_panic|].
Qed.

(** How [build] fails.  It never panics.  Without roots, pins, raw keys or a
    danger flag it is refused as misconfigured.  A certificate to trust that is not
    one is reported as bad wherever roots are used.  And pins without roots, which
    pass that check, are then refused by rustls, which builds no WebPKI verifier
    from an empty root store. *)
Theorem facade_build_errors shared b :
  facade_build shared b <> Panic /\
  (no_roots b -> cert_pins b = [] -> server_raw_public_keys b = None ->
   danger_accept_invalid_certs b = false -> danger_accept_invalid_hostnames b = false ->
   facade_build shared b = Err (InvalidConfig
     "ClientBuilder: at least one root store, cert pinning, or RPK pinning must be configured")) /\
  (forall pre c post e, trusted_certs b = pre ++ c :: post ->
   Forall (fun c => exists ta, anchor_of_cert c = inr ta) pre -> anchor_of_cert c = inl e ->
   server_raw_public_keys b = None -> danger_accept_invalid_certs b = false -> versions_accepted b ->
   facade_build shared b = Err (BadCert e)) /\
  ((forall crls, exists e, @webpki_build (rustls_webpki (rustls pure)) [] crls = inl e) ->
   no_roots b -> server_raw_public_keys b = None ->
   danger_accept_invalid_certs b = false -> danger_accept_invalid_hostnames b = false ->
   exists e, facade_build shared b = Err (InvalidConfig e)).
Proof.
  split_and!.
  - apply facade_build_no_panic.
  - intros Hr%has_roots_spec Hp Hrpk Hc Hh. unfold build. by rewrite Hr, Hp, Hrpk, Hc, Hh.
  - intros pre c post e Ht Hpre Hbad Hrpk Hc Hv. pose proof (facade_roots_bad _ _ _ _ _ Ht Hpre Hbad) as Hf.
    assert (has_roots b = true) as Hr.
    { apply not_false_iff_true. intros (_ & Ht' & _)%has_roots_spec. by rewrite Ht' in Ht; destruct pre. }
    unfold build, build_ignoring_hostnames, build_with_adapter, versions_accepted in *.
    rewrite Hr, Hrpk, Hc, Hf. cbn [negb andb orb]. fold (provider_of b).
    destruct (ech_mode b); [|destruct (protocol_versions b); cbn in Hv]; rewrite Hv; cbn; by repeat case_test.
  - intros Hrefuse Hr Hrpk Hc Hh. unfold build, build_with_adapter.
    rewrite (proj2 (has_roots_spec b) Hr), Hrpk, Hc, Hh. cbn [negb andb orb].
    case_bool_decide as Hp; cbn [negb andb]; [eauto|]. fold (provider_of b).
    assert (exists e, @client_build _ _ _ _ _ _ (rustls_webpki (rustls pure)) (adapter_builder b []) = Err (InvalidConfig e)) as [e He].
    { by apply pinned_without_roots. }
    unfold use_adapter. rewrite bool_decide_eq_false_2 by done. cbn [negb orb].
    rewrite (facade_roots_empty b) by done.
    destruct (ech_mode b); destruct (_ : string + unit); cbn; eauto; rewrite He; cbn; eauto.
Qed.
End BuildProperties.

(** ** Witnesses *)

Module FacadeClientWitness.
Import Toy ToyX509 OcspWitness RootStoreWitness.
#[local] Existing Instance ocsp_der.
#[local] Existing Instance list_lru.
#[local] Existing Instance ProviderWitness.keys.
#[local] Existing Instance ProviderWitness.verifiers.

#[local] Instance sources : RootSources := {
  TLS_SERVER_ROOTS := [{| ta_subject := [Byte.x01]; ta_spki := [Byte.x02]; ta_name_constraints := None |}];
  anchor_of_cert d := match d with
                      | [] => inl "empty"
                      | b :: _ => inr {| ta_subject := d; ta_spki := [b]; ta_name_constraints := None |}
                      end;
  pem_certs _ := inl "no PEM";
}.

(** rustls: a verifier accepts a chain if there is a root, and no verifier is built
    without roots. *)
Definition webpki_of (roots : RootCertStore) : WebPkiServerVerifier := {|
  wp_verify_server_cert ee _ _ _ _ :=
    if bool_decide (ee ∈ ta_subject <$> roots) then Err (InvalidCertificate NotValidForName)
    else match roots with [] => Err (InvalidCertificate UnknownIssuer) | _ => Ok tt end;
  wp_verify_tls12_signature _ _ _ := Ok tt; wp_verify_tls13_signature _ _ _ := Ok tt;
  wp_supported_verify_schemes := [];
|}.

Definition rustls (_ : CryptoProvider) : RustlsClient := {|
  rustls_webpki := {| webpki_build roots _ := match roots with [] => inl "no roots" | _ => inr (webpki_of roots) end;
                      safe_default_protocol_versions := inr tt |};
  protocol_versions_ok _ := inr tt; ech_ok _ := inr tt; with_root_certificates := webpki_of;
  client_auth_cert_ok _ _ := inr tt; verify_tls13_signature_with_raw_key _ _ _ := Ok tt; supported_schemes := [];
|}.

Definition show (_ : RustlsError) : string := "error".

(** Pins and a client certificate over the Mozilla roots. *)
Definition pinned_builder : FacadeClient.ClientBuilder :=
  ClientB.with_client_cert (ClientB.with_cert_pinning (ClientB.with_webpki_roots ClientB.new)
    [Toy.sha256 [Byte.x09]]) [[Byte.x05]] (Pkcs8 [Byte.x06]).

Definition pinned_config : R TlsError FacadeConfig := build rustls None true false show false pinned_builder.

(** What the built client says to a server that presents [ee]. *)
Definition verdict (ee : bytes) : bool :=
  match pinned_config with
  | Ok cfg => is_ok (verify_server_cert (fc_verifier cfg) (cache_new 2) ee [] "h" [] 0).2
  | _ => false
  end.


(** A client over the Mozilla roots with a QUIC preview. *)
Definition quic_builder : FacadeClient.ClientBuilder :=
  ClientB.with_quic_preview (ClientB.with_client_cert (ClientB.with_webpki_roots ClientB.new)
    [[Byte.x05]] (Pkcs8 [Byte.x06])) true.

Definition quic_config : R TlsError FacadeConfig := build rustls None true false show false quic_builder.

(** With pins the client certificate is gone from the configuration; without, it is
    there, and [h3] is offered. *)
Lemma facade_options_witness :
  (exists cfg, pinned_config = Ok cfg /\ fc_client_auth cfg = NoClientAuth /\ fc_versions cfg = SafeDefaults) /\
  (exists cfg, quic_config = Ok cfg /\ fc_client_auth cfg = AuthCert [[Byte.x05]] (Pkcs8 [Byte.x06]) /\
     fc_alpn_protocols cfg = [bstr "h3"]).
Proof.
  split.
  - assert (is_ok pinned_config = true) as Hok by (vm_compute; reflexivity).
    destruct pinned_config as [cfg| |] eqn:Hcfg; try discriminate Hok. exists cfg.
    destruct (facade_options rustls None true false show false pinned_builder cfg Hcfg) as (_ & _ & _ & Hopt).
    destruct Hopt as (Hauth & Hver & _); [vm_compute; reflexivity|]. repeat split; assumption.
  - assert (is_ok quic_config = true) as Hok by (vm_compute; reflexivity).
    destruct quic_config as [cfg| |] eqn:Hcfg; try discriminate Hok. exists cfg.
    destruct (facade_options rustls None true false show false quic_builder cfg Hcfg) as (_ & _ & Hopt & _).
    destruct Hopt as (_ & _ & Hauth & _ & Hh3 & _); [vm_compute; reflexivity|]. split; [reflexivity|].
    split; [exact Hauth|]. rewrite Hh3; [reflexivity|]. repeat split. vm_compute. inversion 1.
Defined.

Lemma facade_build_errors_witness :
  exists e, build rustls None true false show false (ClientB.with_cert_pinning ClientB.new [[Byte.x01]])
            = Err (InvalidConfig e).
Proof.
  destruct (facade_build_errors rustls None true false show false (ClientB.with_cert_pinning ClientB.new [[Byte.x01]]))
    as (_ & _ & _ & Hpin).
  apply Hpin; [|repeat split|reflexivity..]. intros crls. exists "no roots". reflexivity.
Defined.
End FacadeClientWitness.
