(* ===== verification/FacadeServer.v ===== *)
(** * FacadeServer: the server builders

    crates/oxitls/src/tls13/server.rs (the facade's builder, ticket rotation task
    and [GenericTlsAcceptor] of lib.rs), server_builder.rs and cert_compression.rs
    of the adapter.  rustls' builder is an interface per provider. *)

From S2P Require Import Prelude Core Crypto Tickets AntiReplay KeyLog Verifier RootStore.
From S2P Require Import ClientBuilder KeyExchange Provider FacadeClient.

(** ** Shared ticketers

    An [Arc<dyn ProducesTickets>] by what it points to: an [OxiTicketer] on the
    heap, a ticketer of the application, or an anti-replay wrapper around one. *)

Inductive TicketerRef := RefOxi (id : nat) | RefExternal (id : nat) | RefAntiReplay (inner : TicketerRef).

(** [CertifiedKey]: the chain and the identity of its signing key. *)
Record CertifiedKey := { ck_cert : list bytes; ck_key : nat }.

(** ** What rustls does with a provider *)

(** [ServerConfig::builder_with_provider]: versions are accepted or refused; a
    WebPKI client verifier is built or refused; a certificate with its key (and a
    staple) is accepted or refused, and so is a certificate for a name. *)
Record RustlsServer := {
  server_versions_ok : list Z -> string + unit;
  safe_default_versions_ok : string + unit;
  client_verifier_ok : RootCertStore -> string + unit;
  single_cert_ok : list bytes -> PrivateKeyDer -> option bytes -> string + unit;
  sni_add_ok : string -> CertifiedKey -> string + unit;
}.

Inductive ClientVerifier :=
  | NoClientVerifier
  | WebPkiClient (roots : RootCertStore) (allow_unauthenticated : bool)
  | RawKeyClient (trusted : list bytes).

Inductive CertResolver :=
  | RawKeyResolver (k : CertifiedKey)
  | SniResolver (l : list (string * CertifiedKey))
  | SingleCert (certs : list bytes) (key : PrivateKeyDer) (ocsp : option bytes).

Record ServerConfig := {
  sc_provider : CryptoProvider;
  sc_versions : VersionChoice;
  sc_client_verifier : ClientVerifier;
  sc_resolver : CertResolver;
  sc_alpn_protocols : list bytes;
  sc_ticketer : option TicketerRef;
  sc_max_fragment_size : option nat;
  sc_max_early_data_size : Z;
  sc_key_log : option KeyLogPolicy;
  sc_cert_compression : bool;
}.

(** ** The builder of the facade *)

Record ServerBuilder := {
  certs : option (list bytes);
  key : option PrivateKeyDer;
  client_verifier_roots : option RootCertStore;
  sb_alpn : list bytes;
  sni_map : list (string * CertifiedKey);
  sb_protocol_versions : option (list Z);
  ticketer : option TicketerRef;
  rotation_ticketer : option (nat * Z);
  ocsp_response : option bytes;
  max_fragment_size : option nat;
  max_early_data_size : option Z;
  sb_provider : option CryptoProvider;
  server_raw_public_key : option CertifiedKey;
  client_raw_public_keys : option (list bytes);
  sb_key_log_policy : option KeyLogPolicy;
  sb_enable_cert_compression : bool;
}.

Module ServerB.
Definition new : ServerBuilder := {|
  certs := None; key := None; client_verifier_roots := None; sb_alpn := [];
  sni_map := []; sb_protocol_versions := None; ticketer := None; rotation_ticketer := None;
  ocsp_response := None; max_fragment_size := None; max_early_data_size := None; sb_provider := None;
  server_raw_public_key := None; client_raw_public_keys := None; sb_key_log_policy := None; sb_enable_cert_compression := false |}.

Definition with_der_cert_and_key (self : ServerBuilder) (cert_chain : list bytes) (k : PrivateKeyDer) : ServerBuilder :=
  let '(Build_ServerBuilder _ _ roots al sni pv tk rot oc mf me pr rpk crpk kl comp) := self in
  Build_ServerBuilder (Some cert_chain) (Some k) roots al sni pv tk rot oc mf me pr rpk crpk kl comp.

Definition with_client_cert_verifier (self : ServerBuilder) (r : RootCertStore) : ServerBuilder :=
  let '(Build_ServerBuilder ce ke _ al sni pv tk rot oc mf me pr rpk crpk kl comp) := self in
  Build_ServerBuilder ce ke (Some r) al sni pv tk rot oc mf me pr rpk crpk kl comp.

Definition with_provider (self : ServerBuilder) (p : CryptoProvider) : ServerBuilder :=
  let '(Build_ServerBuilder ce ke roots al sni pv tk rot oc mf me _ rpk crpk kl comp) := self in
  Build_ServerBuilder ce ke roots al sni pv tk rot oc mf me (Some p) rpk crpk kl comp.

Definition with_alpn_protocols (self : ServerBuilder) (protocols : list bytes) : ServerBuilder :=
  let '(Build_ServerBuilder ce ke roots _ sni pv tk rot oc mf me pr rpk crpk kl comp) := self in
  Build_ServerBuilder ce ke roots protocols sni pv tk rot oc mf me pr rpk crpk kl comp.

Definition with_sni_cert (self : ServerBuilder) (server_name : string) (k : CertifiedKey) : ServerBuilder :=
  let '(Build_ServerBuilder ce ke roots al sni pv tk rot oc mf me pr rpk crpk kl comp) := self in
  Build_ServerBuilder ce ke roots al (sni ++ [(server_name, k)]) pv tk rot oc mf me pr rpk crpk kl comp.

Definition with_protocol_versions (self : ServerBuilder) (versions : list Z) : ServerBuilder :=
  let '(Build_ServerBuilder ce ke roots al sni _ tk rot oc mf me pr rpk crpk kl comp) := self in
  Build_ServerBuilder ce ke roots al sni (Some versions) tk rot oc mf me pr rpk crpk kl comp.

Definition with_ticketer (self : ServerBuilder) (t : TicketerRef) : ServerBuilder :=
  let '(Build_ServerBuilder ce ke roots al sni pv _ _ oc mf me pr rpk crpk kl comp) := self in
  Build_ServerBuilder ce ke roots al sni pv (Some t) None oc mf me pr rpk crpk kl comp.

Definition with_ocsp_response (self : ServerBuilder) (ocsp_der : bytes) : ServerBuilder :=
  let '(Build_ServerBuilder ce ke roots al sni pv tk rot _ mf me pr rpk crpk kl comp) := self in
  Build_ServerBuilder ce ke roots al sni pv tk rot (Some ocsp_der) mf me pr rpk crpk kl comp.

Definition with_max_fragment_size (self : ServerBuilder) (size : option nat) : ServerBuilder :=
  let '(Build_ServerBuilder ce ke roots al sni pv tk rot oc _ me pr rpk crpk kl comp) := self in
  Build_ServerBuilder ce ke roots al sni pv tk rot oc size me pr rpk crpk kl comp.

Definition with_max_early_data_size (self : ServerBuilder) (size : Z) : ServerBuilder :=
  let '(Build_ServerBuilder ce ke roots al sni pv tk rot oc mf me pr rpk crpk kl comp) := self in
  Build_ServerBuilder ce ke roots al sni pv tk rot oc mf (Some size) pr rpk crpk kl comp.

Definition with_server_raw_public_key (self : ServerBuilder) (certified_key : CertifiedKey) : ServerBuilder :=
  let '(Build_ServerBuilder ce ke roots al sni pv tk rot oc mf me pr _ crpk kl comp) := self in
  Build_ServerBuilder ce ke roots al sni pv tk rot oc mf me pr (Some certified_key) crpk kl comp.

Definition with_client_raw_public_keys (self : ServerBuilder) (trusted : list bytes) : ServerBuilder :=
  let '(Build_ServerBuilder ce ke roots al sni pv tk rot oc mf me pr rpk _ kl comp) := self in
  Build_ServerBuilder ce ke roots al sni pv tk rot oc mf me pr rpk (Some trusted) kl comp.

Definition with_key_log_file (self : ServerBuilder) (path : string) : ServerBuilder :=
  let '(Build_ServerBuilder ce ke roots al sni pv tk rot oc mf me pr rpk crpk _ comp) := self in
  Build_ServerBuilder ce ke roots al sni pv tk rot oc mf me pr rpk crpk (Some (KeyLogFile path)) comp.

Definition with_key_log_custom (self : ServerBuilder) (logger : nat) : ServerBuilder :=
  let '(Build_ServerBuilder ce ke roots al sni pv tk rot oc mf me pr rpk crpk _ comp) := self in
  Build_ServerBuilder ce ke roots al sni pv tk rot oc mf me pr rpk crpk (Some (KeyLogCustom logger)) comp.

Definition with_cert_compression (self : ServerBuilder) : ServerBuilder :=
  let '(Build_ServerBuilder ce ke roots al sni pv tk rot oc mf me pr rpk crpk kl _) := self in
  Build_ServerBuilder ce ke roots al sni pv tk rot oc mf me pr rpk crpk kl true.

(** [self.ticketer = t] *)
Definition set_ticketer (self : ServerBuilder) (t : option TicketerRef) : ServerBuilder :=
  let '(Build_ServerBuilder ce ke roots al sni pv _ rot oc mf me pr rpk crpk kl comp) := self in
  Build_ServerBuilder ce ke roots al sni pv t rot oc mf me pr rpk crpk kl comp.

(** [self.rotation_ticketer = Some((arc, interval)); self.ticketer = None] *)
Definition set_rotation (self : ServerBuilder) (id : nat) (interval : Z) : ServerBuilder :=
  let '(Build_ServerBuilder ce ke roots al sni pv _ _ oc mf me pr rpk crpk kl comp) := self in
  Build_ServerBuilder ce ke roots al sni pv None (Some (id, interval)) oc mf me pr rpk crpk kl comp.

(** [OcspResponseResolver]: called once, here; [StaticOcspResolver] always answers. *)
Definition with_ocsp_response_resolver (self : ServerBuilder) (resolver : option bytes) : ServerBuilder :=
  match resolver with Some bytes => with_ocsp_response self bytes | None => self end.

Definition static_ocsp_resolver (b : bytes) : option bytes := Some b.

(** [rustls_pemfile] collects the certificates of a text, and finds its first
    private key, if any. *)
Definition with_pem_cert_and_key (pem_certs : bytes -> string + list bytes)
  (pem_private_key : bytes -> string + option PrivateKeyDer) (self : ServerBuilder) (cert_pem key_pem : bytes)
  : R TlsError ServerBuilder :=
  certs ← map_err BadCert (of_sum (pem_certs cert_pem));
  if bool_decide (certs = []) then Err (BadCert "no certificates found in PEM") else
  found ← map_err InvalidConfig (of_sum (pem_private_key key_pem));
  key ← ok_or (BadCert "no private key found in PEM") found;
  Ok (with_der_cert_and_key self certs key).

Definition with_pem_cert_chain_and_key := with_pem_cert_and_key.

(** The heap of [OxiTicketer]s and the ids given out: allocation is [Arc::new]. *)
Record Heap := { objects : gmap nat OxiTicketer; next_id : nat }.

Definition alloc (h : Heap) (t : OxiTicketer) : Heap * nat :=
  ({| objects := <[next_id h := t]> (objects h); next_id := S (next_id h) |}, next_id h).

Definition with_anti_replay (w : World) (h : Heap) (self : ServerBuilder) : Heap * R TlsError ServerBuilder :=
  match ticketer self with
  | Some t => (h, Ok (set_ticketer self (Some (RefAntiReplay t))))
  | None =>
      match Tickets.new w with
      | Ok t => let '(h, id) := alloc h t in (h, Ok (set_ticketer self (Some (RefAntiReplay (RefOxi id)))))
      | Err e => (h, Err e)
      | Panic => (h, Panic)
      end
  end.

Definition with_ticketer_rotation_interval (w : World) (h : Heap) (self : ServerBuilder) (interval : Z)
  : Heap * ServerBuilder :=
  match Tickets.new w with
  | Ok t => let '(h, id) := alloc h t in (h, set_rotation self id interval)
  | _ => (h, self)
  end.

(** The private helper: a variant it does not know becomes an empty PKCS#8 key. *)
Definition clone_private_key_der (key : PrivateKeyDer) : PrivateKeyDer :=
  match key with
  | Pkcs1 k => Pkcs1 k
  | Sec1 k => Sec1 k
  | Pkcs8 k => Pkcs8 k
  | OtherKeyDer => Pkcs8 []
  end.

Definition clone (self : ServerBuilder) : ServerBuilder :=
  let '(Build_ServerBuilder ce ke roots al sni pv tk rot oc mf me pr rpk crpk kl comp) := self in
  Build_ServerBuilder ce (clone_private_key_der <$> ke) roots al sni pv tk rot oc mf me pr rpk crpk kl comp.

(** ** [build]

    Besides the configuration it may spawn a rotation task: the ticketer it holds
    weakly and its period in milliseconds.  Outside a runtime, spawning panics. *)

Record RotationTask := { task_target : nat; task_period : Z }.

Section Build.
Context `{KeyLibs} `{Sha256} `{Digests} `{VerifyLibs}.
Context (rustls : CryptoProvider -> RustlsServer) (feature_tls12 post_quantum in_tokio : bool).

Definition client_verifier (p : CryptoProvider) (self : ServerBuilder) : R TlsError ClientVerifier :=
  match client_raw_public_keys self with
  | Some spki_list => Ok (RawKeyClient spki_list)
  | None =>
      match client_verifier_roots self with
      | Some roots =>
          _ ← map_err InvalidConfig (of_sum (client_verifier_ok (rustls p) roots)); Ok (WebPkiClient roots false)
      | None => Ok NoClientVerifier
      end
  end.

(** [for (name, ck) in self.sni_map { resolver.add(&name, ck)? }] *)
Fixpoint sni_resolver (p : CryptoProvider) (acc l : list (string * CertifiedKey)) : R TlsError CertResolver :=
  match l with
  | [] => Ok (SniResolver acc)
  | (name, ck) :: l =>
      _ ← map_err InvalidConfig (of_sum (sni_add_ok (rustls p) name ck));
      sni_resolver p (acc ++ [(name, ck)]) l
  end.

Definition cert_resolver (p : CryptoProvider) (self : ServerBuilder) : R TlsError CertResolver :=
  match server_raw_public_key self with
  | Some rpk_key => Ok (RawKeyResolver rpk_key)
  | None =>
      if negb (bool_decide (sni_map self = [] )) then sni_resolver p [] (sni_map self) else
      certs ← ok_or (InvalidConfig "no certificate configured") (certs self);
      key ← ok_or (InvalidConfig "no private key configured") (key self);
      _ ← map_err BadCert (of_sum (single_cert_ok (rustls p) certs key (ocsp_response self)));
      Ok (SingleCert certs key (ocsp_response self))
  end.

Definition build (self : ServerBuilder) : R TlsError (ServerConfig * option RotationTask) :=
  let p := match sb_provider self with
           | Some p => p
           | None => if post_quantum then pure_provider_with_pq feature_tls12 else pure_provider feature_tls12
           end in
  let versions := match sb_protocol_versions self with Some v => v | None => [TLS13] end in
  _ ← map_err InvalidConfig (of_sum (server_versions_ok (rustls p) versions));
  verifier ← client_verifier p self;
  resolver ← cert_resolver p self;
  '(installed, task) ←
    match rotation_ticketer self with
    | Some (ticketer_arc, interval) =>
        let effective_interval := Z.max interval 1000 in
        if in_tokio then Ok (Some (RefOxi ticketer_arc),
                             Some {| task_target := ticketer_arc; task_period := effective_interval |})
        else Panic
    | None => Ok (ticketer self, None)
    end;
  Ok ({| sc_provider := p; sc_versions := Versions versions; sc_client_verifier := verifier; sc_resolver := resolver;
         sc_alpn_protocols := sb_alpn self; sc_ticketer := installed; sc_max_fragment_size := max_fragment_size self;
         sc_max_early_data_size := default 0%Z (max_early_data_size self); sc_key_log := sb_key_log_policy self;
         sc_cert_compression := sb_enable_cert_compression self |}, task).

(** [GenericTlsAcceptor::accept] of lib.rs up to the handshake: every connection
    builds a clone. *)
Definition acceptor_config (self : ServerBuilder) : R TlsError (ServerConfig * option RotationTask) := build (clone self).
End Build.

(** One turn of the task's loop after a tick: stop when the ticketer is gone,
    otherwise rotate and go on whatever the result. *)
Definition task_tick (w : World) (upgraded : option OxiTicketer) : option OxiTicketer * bool :=
  match upgraded with
  | None => (None, false)
  | Some strong => (Some (rotate w strong).1, true)
  end.

(** The loop over its ticks; a tick says whether the last strong reference was
    dropped before it.  The result counts the turns that rotated. *)
Fixpoint rotation_loop (ticks : list (World * bool)) (t : option OxiTicketer) : option OxiTicketer * nat :=
  match ticks with
  | [] => (t, 0)
  | (w, dropped) :: ticks =>
      let t := if dropped then None else t in
      match task_tick w t with
      | (t, false) => (t, 0)
      | (t, true) => let '(t, n) := rotation_loop ticks t in (t, S n)
      end
  end.

(** The whole task: the first tick, which is immediate, is awaited and skipped. *)
Definition rotation_task (ticks : list (World * bool)) (t : option OxiTicketer) : option OxiTicketer * nat :=
  match ticks with
  | [] => (t, 0)
  | _ :: ticks => rotation_loop ticks t
  end.

(** *** Tasks of several builds on one heap

    A spawned task between two ticks: whether the first tick is still to come, and
    whether its loop goes on.  [Weak::upgrade] is a lookup on the heap of ticketers
    that are referenced. *)
Record RunningTask := { rk_task : RotationTask; rk_first : bool; rk_running : bool }.

Definition spawn (task : RotationTask) : RunningTask := {| rk_task := task; rk_first := true; rk_running := true |}.

Definition task_turn (w : World) (h : gmap nat OxiTicketer) (rk : RunningTask) : gmap nat OxiTicketer * RunningTask :=
  if negb (rk_running rk) then (h, rk) else
  if rk_first rk then (h, {| rk_task := rk_task rk; rk_first := false; rk_running := true |}) else
  let target := task_target (rk_task rk) in
  let '(t, running) := task_tick w (h !! target) in
  (match t with Some t => <[target := t]> h | None => h end,
   {| rk_task := rk_task rk; rk_first := false; rk_running := running |}).

(** The runtime gives tasks their ticks in some order: which task, and the world. *)
Definition runtime_step (s : gmap nat OxiTicketer * list RunningTask) (turn : nat * World)
  : gmap nat OxiTicketer * list RunningTask :=
  let '(h, tasks) := s in
  match tasks !! turn.1 with
  | Some rk => let '(h, rk) := task_turn turn.2 h rk in (h, <[turn.1 := rk]> tasks)
  | None => s
  end.

Definition run_turns (turns : list (nat * World)) (s : gmap nat OxiTicketer * list RunningTask)
  : gmap nat OxiTicketer * list RunningTask := foldl runtime_step s turns.
End ServerB.

(** ** server_builder.rs of the adapter *)

Module AdapterServer.
Record RustcryptoServerConfigBuilder := {
  as_certs : list bytes;
  as_key : option PrivateKeyDer;
  as_ocsp_response : bytes;
  as_client_auth_required : option bool;
  as_client_auth_roots : option RootCertStore;
  as_keylog : KeyLogPolicy;
  as_alpn_protocols : list bytes;
  as_ticketer : option TicketerRef;
}.

Definition new : RustcryptoServerConfigBuilder := {|
  as_certs := []; as_key := None; as_ocsp_response := []; as_client_auth_required := None;
  as_client_auth_roots := None; as_keylog := KeyLogDisabled; as_alpn_protocols := []; as_ticketer := None |}.

Definition with_cert_and_key (self : RustcryptoServerConfigBuilder) (certs : list bytes) (key : PrivateKeyDer) : RustcryptoServerConfigBuilder :=
  let '(Build_RustcryptoServerConfigBuilder _ _ oc req roots kl al tk) := self in
  Build_RustcryptoServerConfigBuilder certs (Some key) oc req roots kl al tk.

Definition with_ocsp_response (self : RustcryptoServerConfigBuilder) (der : bytes) : RustcryptoServerConfigBuilder :=
  let '(Build_RustcryptoServerConfigBuilder ce ke _ req roots kl al tk) := self in
  Build_RustcryptoServerConfigBuilder ce ke der req roots kl al tk.

Definition with_client_auth (self : RustcryptoServerConfigBuilder) (required : bool) (r : RootCertStore) : RustcryptoServerConfigBuilder :=
  let '(Build_RustcryptoServerConfigBuilder ce ke oc _ _ kl al tk) := self in
  Build_RustcryptoServerConfigBuilder ce ke oc (Some required) (Some r) kl al tk.

Definition with_keylog (self : RustcryptoServerConfigBuilder) (policy : KeyLogPolicy) : RustcryptoServerConfigBuilder :=
  let '(Build_RustcryptoServerConfigBuilder ce ke oc req roots _ al tk) := self in
  Build_RustcryptoServerConfigBuilder ce ke oc req roots policy al tk.

Definition with_alpn (self : RustcryptoServerConfigBuilder) (protos : list bytes) : RustcryptoServerConfigBuilder :=
  let '(Build_RustcryptoServerConfigBuilder ce ke oc req roots kl _ tk) := self in
  Build_RustcryptoServerConfigBuilder ce ke oc req roots kl protos tk.

Definition with_ticketer (self : RustcryptoServerConfigBuilder) (t : TicketerRef) : RustcryptoServerConfigBuilder :=
  let '(Build_RustcryptoServerConfigBuilder ce ke oc req roots kl al _) := self in
  Build_RustcryptoServerConfigBuilder ce ke oc req roots kl al (Some t).

Section Build.
Context `{KeyLibs} `{Sha256} `{Digests} `{VerifyLibs} (rustls : CryptoProvider -> RustlsServer) (feature_tls12 : bool).

Definition build (self : RustcryptoServerConfigBuilder) : R TlsError ServerConfig :=
  key ← ok_or (InvalidConfig "no private key provided") (as_key self);
  let p := pure_provider feature_tls12 in
  _ ← map_err InvalidConfig (of_sum (safe_default_versions_ok (rustls p)));
  verifier ←
    match as_client_auth_required self, as_client_auth_roots self with
    | Some required, Some roots =>
        _ ← map_err (fun e => InvalidConfig ("client verifier: " +:+ e)) (of_sum (client_verifier_ok (rustls p) roots));
        Ok (WebPkiClient roots (negb required))
    | _, _ => Ok NoClientVerifier
    end;
  let ocsp := match as_ocsp_response self with [] => None | l => Some l end in
  _ ← map_err BadCert (of_sum (single_cert_ok (rustls p) (as_certs self) key ocsp));
  Ok {| sc_provider := p; sc_versions := SafeDefaults; sc_client_verifier := verifier;
        sc_resolver := SingleCert (as_certs self) key ocsp; sc_alpn_protocols := as_alpn_protocols self;
        sc_ticketer := as_ticketer self; sc_max_fragment_size := None; sc_max_early_data_size := 0;
        sc_key_log := match as_keylog self with KeyLogDisabled => None | p => Some p end;
        sc_cert_compression := false |}.

(** [server_config] of lib.rs. *)
Definition server_config (certs : list bytes) (key : PrivateKeyDer) : R TlsError ServerConfig :=
  let p := pure_provider feature_tls12 in
  _ ← map_err InvalidConfig (of_sum (safe_default_versions_ok (rustls p)));
  _ ← map_err BadCert (of_sum (single_cert_ok (rustls p) certs key None));
  Ok {| sc_provider := p; sc_versions := SafeDefaults; sc_client_verifier := NoClientVerifier;
        sc_resolver := SingleCert certs key None; sc_alpn_protocols := []; sc_ticketer := None;
        sc_max_fragment_size := None; sc_max_early_data_size := 0; sc_key_log := None; sc_cert_compression := false |}.
End Build.
End AdapterServer.

(** ** cert_compression.rs *)

Module CertCompression.
(** [oxiarc_deflate]: zlib at a level, and its inverse. *)
Class Zlib := {
  zlib_compress : bytes -> Z -> option bytes;
  zlib_decompress : bytes -> option bytes;
}.

Class ZlibLaws `{Zlib} := {
  zlib_inverse : forall input level out, zlib_compress input level = Some out -> zlib_decompress out = Some input;
}.

Inductive CompressionLevel := Interactive | Amortized.
Inductive CompressionFailed := CompressionFailedError.
Inductive DecompressionFailed := DecompressionFailedError.

Section Compression.
Context `{Zlib}.

Definition compress (input : bytes) (level : CompressionLevel) : R CompressionFailed bytes :=
  let lvl := match level with Interactive => 1 | Amortized => 9 end%Z in
  ok_or CompressionFailedError (zlib_compress input lvl).

(** The output buffer as it is left, and the result. *)
Definition decompress (input output : bytes) : bytes * R DecompressionFailed unit :=
  match zlib_decompress input with
  | None => (output, Err DecompressionFailedError)
  | Some decoded =>
      if negb (length decoded =? length output) then (output, Err DecompressionFailedError)
      else match copy_from_slice (E:=DecompressionFailed) output decoded with
           | Ok out => (out, Ok tt)
           | _ => (output, Panic)
           end
  end.
End Compression.

(** [CertificateCompressionAlgorithm::Zlib] by its code point, for both. *)
Definition compression_algorithm : Z := 1.

(** [install_cert_compression_client] and [_server] set the flag of the config. *)
Definition install_cert_compression_server (config : ServerConfig) : ServerConfig :=
  {| sc_provider := sc_provider config; sc_versions := sc_versions config;
     sc_client_verifier := sc_client_verifier config; sc_resolver := sc_resolver config;
     sc_alpn_protocols := sc_alpn_protocols config; sc_ticketer := sc_ticketer config;
     sc_max_fragment_size := sc_max_fragment_size config; sc_max_early_data_size := sc_max_early_data_size config;
     sc_key_log := sc_key_log config; sc_cert_compression := true |}.
End CertCompression.

(** ** Properties of the builder *)

Section ServerProperties.
Context `{KeyLibs} `{Sha256} `{Digests} `{VerifyLibs}.
Context (rustls : CryptoProvider -> RustlsServer) (feature_tls12 post_quantum in_tokio : bool).

Abbreviation server_build := (ServerB.build rustls feature_tls12 post_quantum in_tokio).

Definition server_provider (b : ServerBuilder) : CryptoProvider :=
  match sb_provider b with
  | Some p => p
  | None => if post_quantum then pure_provider_with_pq feature_tls12 else pure_provider feature_tls12
  end.

Lemma sni_resolver_Ok p acc l r :
  ServerB.sni_resolver rustls p acc l = Ok r <->
  r = SniResolver (acc ++ l) /\ Forall (fun nc => sni_add_ok (rustls p) nc.1 nc.2 = inr tt) l.
Proof.
  revert acc. induction l as [|[name ck] l IH]; intros acc; cbn [ServerB.sni_resolver].
  - rewrite app_nil_r. split; [intros [= <-]; auto|]. by intros [-> _].
  - rewrite bind_Ok. rewrite Forall_cons. cbn [fst snd]. split.
    + intros ([] & Ha & Hr). inv_ok. apply IH in Hr as [-> Hf]. by rewrite <- app_assoc.
    + intros [-> [Ha Hf]]. exists tt. rewrite Ha. split; [done|]. apply IH. by rewrite <- app_assoc.
Qed.

Definition rustls_accepts (b : ServerBuilder) (p : CryptoProvider) (r : CertResolver) : Prop :=
  match r with
  | RawKeyResolver k => server_raw_public_key b = Some k
  | SniResolver l => server_raw_public_key b = None /\ l = sni_map b /\ l <> [] /\
      Forall (fun nc => sni_add_ok (rustls p) nc.1 nc.2 = inr tt) l
  | SingleCert cs k o => server_raw_public_key b = None /\ sni_map b = [] /\ certs b = Some cs /\ key b = Some k /\
      o = ocsp_response b /\ single_cert_ok (rustls p) cs k o = inr tt
  end.

Lemma cert_resolver_Ok p b r : ServerB.cert_resolver rustls p b = Ok r <-> rustls_accepts b p r.
Proof.
  unfold ServerB.cert_resolver, rustls_accepts. destruct (server_raw_public_key b) as [k|].
  { split; [by intros [= <-]|]. destruct r; naive_solver. }
  case_bool_decide as Hs; cbn [negb].
  - rewrite bind_Ok. setoid_rewrite bind_Ok. setoid_rewrite bind_Ok. setoid_rewrite ok_or_Ok.
    setoid_rewrite map_err_Ok. setoid_rewrite of_sum_Ok. split.
    + intros (cs & Hc & k & Hk & [] & Hok & [= <-]). by split_and!.
    + destruct r as [|l|cs k o]; [naive_solver|naive_solver|]. intros (_ & _ & Hc & Hk & -> & Hok).
      exists cs. split; [done|]. exists k. split; [done|]. by exists tt.
  - rewrite sni_resolver_Ok. cbn [app]. split; [intros [-> Hf]; auto|]. destruct r; naive_solver.
Qed.

(** C25: the configuration a server is built with.  It exists exactly if rustls
    accepts the versions, the roots for client certificates and the certificates;
    raw public keys come before names, and names before the single certificate,
    which alone carries the OCSP response; trusted raw client keys come before
    client roots, and client certificates are required whenever roots are set; a
    rotating ticketer comes before a fixed one and spawns its task, at most once a
    second. *)
Theorem server_build_exact b cfg task :
  in_tokio = true ->
  server_build b = Ok (cfg, task) <->
  let p := server_provider b in
  let versions := default [TLS13] (sb_protocol_versions b) in
  server_versions_ok (rustls p) versions = inr tt /\ sc_versions cfg = Versions versions /\ sc_provider cfg = p /\
  sc_client_verifier cfg = match client_raw_public_keys b, client_verifier_roots b with
                           | Some l, _ => RawKeyClient l
                           | None, Some roots => WebPkiClient roots false
                           | None, None => NoClientVerifier
                           end /\
  (client_raw_public_keys b = None -> forall roots, client_verifier_roots b = Some roots ->
     client_verifier_ok (rustls p) roots = inr tt) /\
  rustls_accepts b p (sc_resolver cfg) /\
  sc_ticketer cfg = match rotation_ticketer b with Some (id, _) => Some (RefOxi id) | None => ticketer b end /\
  task = (fun '(id, interval) => {| ServerB.task_target := id; ServerB.task_period := Z.max interval 1000 |})
           <$> rotation_ticketer b /\
  sc_alpn_protocols cfg = sb_alpn b /\ sc_max_fragment_size cfg = max_fragment_size b /\
  sc_max_early_data_size cfg = default 0%Z (max_early_data_size b) /\ sc_key_log cfg = sb_key_log_policy b /\
  sc_cert_compression cfg = sb_enable_cert_compression b.
Proof.
  intros ->. cbv zeta. unfold ServerB.build. fold (server_provider b).
  replace (match sb_protocol_versions b with Some v => v | None => [TLS13] end)
    with (default [TLS13] (sb_protocol_versions b)) by (by destruct (sb_protocol_versions b)).
  generalize (default [TLS13] (sb_protocol_versions b)) (server_provider b). intros versions p.
  rewrite bind_Ok. setoid_rewrite bind_Ok. setoid_rewrite bind_Ok. setoid_rewrite bind_Ok.
  setoid_rewrite map_err_Ok. setoid_rewrite of_sum_Ok. setoid_rewrite cert_resolver_Ok. split.
  - intros ([] & Hv & verifier & Hver & resolver & Hres & [inst tsk] & Hinst & [= <- <-]). cbn.
    unfold ServerB.client_verifier in Hver. split_and!; try done.
    + destruct (client_raw_public_keys b); [by injection Hver as <-|].
      destruct (client_verifier_roots b); inv_ok; done.
    + intros Hn roots Hr. rewrite Hn, Hr in Hver. inv_ok. by destruct x.
    + destruct (rotation_ticketer b) as [[]|]; by injection Hinst as <- <-.
    + destruct (rotation_ticketer b) as [[]|]; by injection Hinst as <- <-.
  - destruct cfg. cbn. intros (Hv & -> & -> & -> & Hroots & Hres & -> & -> & -> & -> & -> & -> & ->).
    exists tt. split; [done|].
    exists (match client_raw_public_keys b, client_verifier_roots b with
            | Some l, _ => RawKeyClient l | None, Some roots => WebPkiClient roots false | None, None => NoClientVerifier
            end). split.
    { unfold ServerB.client_verifier. destruct (client_raw_public_keys b); [done|].
      destruct (client_verifier_roots b); [|done]. by rewrite (Hroots eq_refl _ eq_refl). }
    eexists. split; [exact Hres|]. destruct (rotation_ticketer b) as [[id iv]|]; (eexists; split; [done|]; done).
Qed.

(** C26: replay protection and key rotation.  After [with_anti_replay] the
    installed ticketer is guarded against replays exactly if no rotation interval
    was set before: the builder keeps the rotating ticketer beside the guarded one,
    and [build] installs the former. *)
Theorem anti_replay_installed w h h' b b' cfg task :
  ServerB.with_anti_replay w h b = (h', Ok b') -> server_build b' = Ok (cfg, task) ->
  ((exists inner, sc_ticketer cfg = Some (RefAntiReplay inner)) <-> rotation_ticketer b = None) /\
  (forall inner, sc_ticketer cfg = Some (RefAntiReplay inner) ->
     ticketer b = Some inner \/
     ticketer b = None /\ exists t, Tickets.new w = Ok t /\ ServerB.objects h' !! ServerB.next_id h = Some t /\
       inner = RefOxi (ServerB.next_id h)).
Proof.
  intros Hset Hb.
  assert (exists inner, ticketer b' = Some (RefAntiReplay inner) /\ rotation_ticketer b' = rotation_ticketer b /\
    (ticketer b = Some inner \/
     ticketer b = None /\ exists t, Tickets.new w = Ok t /\ ServerB.objects h' !! ServerB.next_id h = Some t /\
       inner = RefOxi (ServerB.next_id h))) as (inner & Ht & Hr & Hinner).
  { unfold ServerB.with_anti_replay in Hset. destruct (ticketer b) as [t|] eqn:Et.
    - injection Hset as <- <-. exists t. destruct b; cbn in *. auto.
    - destruct (Tickets.new w) as [t| |]; try done. cbn in Hset. injection Hset as <- <-.
      exists (RefOxi (ServerB.next_id h)). destruct b; cbn in *. split_and!; try done. right. split; [done|].
      exists t. cbn. by rewrite lookup_insert_eq. }
  assert (sc_ticketer cfg = match rotation_ticketer b with Some (id, _) => Some (RefOxi id) | None => ticketer b' end) as Hi.
  { unfold ServerB.build in Hb. apply bind_Ok in Hb as (_ & _ & (v & _ & (r & _ & ([i t] & Hi & [= <- <-])%bind_Ok)%bind_Ok)%bind_Ok).
    cbn. rewrite Hr in Hi. destruct (rotation_ticketer b) as [[id iv]|]; [destruct in_tokio|]; by inversion Hi. }
  rewrite Hi. destruct (rotation_ticketer b) as [[id iv]|].
  - split; [split; [by intros [??]|done]|done].
  - rewrite Ht. split; [naive_solver|]. by intros ? [= <-].
Qed.
End ServerProperties.

(** ** The rotation task *)

(** The ticketer after the turns of the loop whose worlds are [ws]. *)
Definition rotate_all (ws : list World) (t : OxiTicketer) : OxiTicketer := foldl (fun t w => (rotate w t).1) t ws.

Lemma rotation_loop_live ws rest t :
  ServerB.rotation_loop (((fun w => (w, false)) <$> ws) ++ rest) (Some t)
  = let '(t', n) := ServerB.rotation_loop rest (Some (rotate_all ws t)) in (t', length ws + n).
Proof.
  revert t. induction ws as [|w ws IH]; intros t.
  - cbn. by destruct (ServerB.rotation_loop rest (Some t)).
  - rewrite fmap_cons, <- app_comm_cons. cbn [ServerB.rotation_loop ServerB.task_tick].
    rewrite IH. unfold rotate_all. cbn [foldl length].
    by destruct (ServerB.rotation_loop rest _) as [t' n].
Qed.

(** C35: the rotation task ends.  The first, immediate tick does nothing.  While the
    configuration is alive every later tick rotates once, also after failures of the
    random generator; at the first of them after the last reference was dropped the
    loop stops, and no later tick is handled. *)
Theorem rotation_task_stops first ws w rest t :
  ServerB.rotation_task (first :: ((fun w => (w, false)) <$> ws) ++ (w, true) :: rest) (Some t) = (None, length ws) /\
  ServerB.rotation_task (first :: ((fun w => (w, false)) <$> ws)) (Some t) = (Some (rotate_all ws t), length ws).
Proof.
  unfold ServerB.rotation_task. split.
  - rewrite rotation_loop_live. cbn. f_equal. lia.
  - rewrite <- (app_nil_r (_ <$> ws)), rotation_loop_live. cbn. f_equal. lia.
Qed.

Section Grace.
Context {aes256gcm : Aead} {aes_laws : AeadLaws aes256gcm}.

(** The random generator works, and the key it gives does not open the ticket. *)
Definition fresh_for (ticket : bytes) (w : World) : Prop :=
  exists k, generate w = Ok k /\ decrypt_with_key k ticket = Err tt.

Lemma rotate_fresh ticket w t :
  poisoned t = false -> fresh_for ticket w ->
  rotate w t = ((rotate w t).1, Ok tt) /\ poisoned (rotate w t).1 = false /\
  decrypt_with_key (current (rotate w t).1) ticket = Err tt.
Proof. intros Hp (k & Hg & Hd). unfold rotate. by rewrite Hg, Hp. Qed.

(** Two or more rotations close a ticket no current key opens. *)
Lemma rotations_close ticket ws t :
  poisoned t = false -> decrypt_with_key (current t) ticket = Err tt -> Forall (fresh_for ticket) ws -> ws <> [] ->
  oxi_decrypt (rotate_all ws t) ticket = Err tt.
Proof.
  revert t. induction ws as [|w ws IH]; intros t Hp Hd Hf Hne; [done|].
  apply Forall_cons in Hf as [Hw Hf]. destruct (rotate_fresh ticket w t Hp Hw) as (Hr & Hp' & Hd').
  unfold rotate_all. cbn [foldl]. destruct ws as [|w' ws]; [by eapply grace_two|]. by apply IH.
Qed.

Lemma rotations_decide ticket ws t w0 plain :
  oxi_encrypt t w0 plain = Ok ticket -> Forall (fresh_for ticket) ws ->
  oxi_decrypt (rotate_all ws t) ticket = if length ws <=? 1 then Ok plain else Err tt.
Proof.
  intros Henc Hf. assert (poisoned t = false) as Hp by (unfold oxi_encrypt in Henc; by destruct (poisoned t)).
  destruct ws as [|w [|w' ws]].
  - by apply oxi_encrypt_decrypt in Henc as [? _].
  - apply Forall_cons in Hf as [Hf _]. destruct (rotate_fresh ticket w t Hp Hf) as (Hr & _ & Hd). by eapply grace_one.
  - apply Forall_cons in Hf as [Hw Hf]. destruct (rotate_fresh ticket w t Hp Hw) as (_ & Hp' & Hd').
    by apply (rotations_close ticket (w' :: ws) (rotate w t).1).
Qed.
End Grace.

(** *** Ticks and time *)

(** The ticks of each of [n] tasks among the turns of the runtime. *)
Definition ticks_of (n : nat) (turns : list (nat * World)) : list nat :=
  (fun i => length (filter (fun turn => turn.1 = i) turns)) <$> seq 0 n.

(** [tokio::time::interval]: the first tick is due when the task starts, and each
    later one a period after the one before.  By the time [now] the task has handled
    [n] ticks: the last of them was due, and the next is not overdue by more than
    [latency], the delay with which the runtime polls a task. *)
Definition interval_ticks (latency period now start : Z) (n : nat) : Prop :=
  (n = 0 \/ (start + (Z.of_nat n - 1) * period <= now)%Z) /\ (now < start + Z.of_nat n * period + latency)%Z.

(** Ticks after the first rotate. *)
Definition rotations (counts : list nat) : nat := sum_list (pred <$> counts).

(** The rotations between two times, of tasks that have handled these ticks. *)
Lemma interval_rotations latency period t0 t start a c :
  (0 < period)%Z -> (0 < latency)%Z -> (t0 <= t)%Z ->
  interval_ticks latency period t0 start a -> interval_ticks latency period t start c ->
  ((t < t0 + period - latency)%Z -> pred c <= pred a + 1) /\
  ((t0 + period + latency <= t)%Z -> (start <= t0)%Z -> pred a + 1 <= pred c) /\
  ((t0 + 2 * period + latency <= t)%Z -> (start <= t0)%Z -> pred a + 2 <= pred c).
Proof.
  unfold interval_ticks. intros Hp Hl Ht [Ha Ha'] [Hc Hc']. split_and!.
  - intros Hlt. destruct Hc as [->|Hc]; [lia|].
    assert (Z.of_nat c - 1 < Z.of_nat a + 1)%Z by nia. lia.
  - intros Hle Hs. destruct (decide (a = 0)) as [->|Hne]; [|destruct Ha as [|Ha]; [done|]].
    + assert (1 < Z.of_nat c)%Z by nia. lia.
    + assert (Z.of_nat a < Z.of_nat c)%Z by nia. lia.
  - intros Hle Hs. destruct (decide (a = 0)) as [->|Hne]; [|destruct Ha as [|Ha]; [done|]].
    + assert (2 < Z.of_nat c)%Z by nia. lia.
    + assert (Z.of_nat a + 1 < Z.of_nat c)%Z by nia. lia.
Qed.

Lemma interval_rotations_all latency period t0 t starts c0 c1 :
  (0 < period)%Z -> (0 < latency)%Z -> (t0 <= t)%Z -> Forall (fun s => (s <= t0)%Z) starts ->
  Forall2 (interval_ticks latency period t0) starts c0 -> Forall2 (interval_ticks latency period t) starts c1 ->
  ((t < t0 + period - latency)%Z -> rotations c1 <= rotations c0 + length starts) /\
  ((t0 + period + latency <= t)%Z -> rotations c0 + length starts <= rotations c1) /\
  ((t0 + 2 * period + latency <= t)%Z -> rotations c0 + 2 * length starts <= rotations c1).
Proof.
  intros Hp Hl Ht Hs H0. revert c1 Hs. unfold rotations. induction H0 as [|s a starts c0 Ha H0 IH]; intros c1 Hs H1.
  { apply Forall2_nil_inv_l in H1 as ->. cbn. lia. }
  apply Forall2_cons_inv_l in H1 as (c & c1' & Hc & H1 & ->). apply Forall_cons in Hs as [Hs0 Hs].
  destruct (IH c1' Hs H1) as (I1 & I2 & I3).
  destruct (interval_rotations latency period t0 t s a c Hp Hl Ht Ha Hc) as (J1 & J2 & J3). cbn.
  split_and!; intros Hd; [specialize (I1 Hd); specialize (J1 Hd)|specialize (I2 Hd); specialize (J2 Hd Hs0)|
    specialize (I3 Hd); specialize (J3 Hd Hs0)]; lia.
Qed.

(** The tasks of the builds of one builder after these ticks, while the ticketer is
    referenced. *)
Definition tasks_after (task : ServerB.RotationTask) (counts : list nat) : list ServerB.RunningTask :=
  (fun n => {| ServerB.rk_task := task; ServerB.rk_first := n =? 0; ServerB.rk_running := true |}) <$> counts.

Definition count_tick (counts : list nat) (turn : nat * World) : list nat :=
  match counts !! turn.1 with Some n => <[turn.1 := S n]> counts | None => counts end.

Lemma rotations_tick counts i n :
  counts !! i = Some n -> rotations (<[i := S n]> counts) = rotations counts + if n =? 0 then 0 else 1.
Proof.
  intros Hi. rewrite (insert_take_drop counts i (S n)) by (by eapply lookup_lt_Some).
  replace (rotations counts) with (rotations (take i counts ++ n :: drop (S i) counts)) by (by rewrite take_drop_middle).
  unfold rotations. rewrite !fmap_app, !fmap_cons.
  induction (pred <$> take i counts) as [|x l IH]; cbn in *; [destruct n; cbn|]; lia.
Qed.

(** One turn: the tick is counted, and it rotates exactly if it is not the first. *)
Lemma runtime_step_tick task h counts tk i w :
  h !! ServerB.task_target task = Some tk ->
  exists h' ws, ServerB.runtime_step (h, tasks_after task counts) (i, w) = (h', tasks_after task (count_tick counts (i, w))) /\
    h' !! ServerB.task_target task = Some (rotate_all ws tk) /\
    rotations (count_tick counts (i, w)) = rotations counts + length ws /\ ws ⊆ [w].
Proof.
  intros Hh. unfold ServerB.runtime_step, count_tick, tasks_after. cbn [fst snd]. rewrite list_lookup_fmap.
  destruct (counts !! i) as [n|] eqn:Hi; cbn [fmap option_fmap option_map].
  2:{ exists h, []. split_and!; auto. set_solver. }
  rewrite (rotations_tick _ _ _ Hi), list_fmap_insert. destruct n as [|n]; cbn.
  - exists h, []. split_and!; auto. set_solver.
  - rewrite Hh. cbn. exists (<[ServerB.task_target task := (rotate w tk).1]> h), [w].
    rewrite lookup_insert_eq. split_and!; auto.
Qed.

Lemma run_turns_rotate task turns h counts tk :
  h !! ServerB.task_target task = Some tk ->
  exists h' ws, ServerB.run_turns turns (h, tasks_after task counts) = (h', tasks_after task (foldl count_tick counts turns)) /\
    h' !! ServerB.task_target task = Some (rotate_all ws tk) /\
    rotations (foldl count_tick counts turns) = rotations counts + length ws /\ ws ⊆ turns.*2.
Proof.
  revert h counts tk. induction turns as [|[i w] turns IH]; intros h counts tk Hh.
  { exists h, []. cbn. split_and!; auto. }
  destruct (runtime_step_tick task h counts tk i w Hh) as (h1 & ws1 & Hst & Hh1 & Hr1 & Hw1).
  destruct (IH h1 (count_tick counts (i, w)) _ Hh1) as (h2 & ws2 & Hst2 & Hh2 & Hr2 & Hw2).
  exists h2, (ws1 ++ ws2). unfold ServerB.run_turns in *. cbn [foldl]. rewrite Hst, Hst2.
  unfold rotate_all in *. rewrite foldl_app, length_app. split_and!; try done; [lia|]. cbn. set_solver.
Qed.

(** A task by itself on the heap is [rotation_task]. *)
Lemma run_turns_alone task first ws h tk :
  h !! ServerB.task_target task = Some tk ->
  (ServerB.run_turns (pair 0 <$> first :: ws) (h, [ServerB.spawn task])).1 !! ServerB.task_target task
  = (ServerB.rotation_task ((fun w => (w, false)) <$> first :: ws) (Some tk)).1.
Proof.
  intros Hh. cbn [fmap list_fmap ServerB.rotation_task].
  rewrite <- (app_nil_r ((fun w => (w, false)) <$> ws)), rotation_loop_live. cbn [ServerB.rotation_loop fst].
  unfold ServerB.run_turns. cbn. revert h tk Hh. induction ws as [|w ws IH]; intros h tk Hh; [done|].
  cbn. rewrite Hh. cbn. apply IH, lookup_insert_eq.
Qed.

Lemma ticks_of_app n before after : foldl count_tick (ticks_of n before) after = ticks_of n (before ++ after).
Proof.
  induction after as [|[i w] after IH] using rev_ind; [by rewrite app_nil_r|].
  rewrite foldl_app, IH, app_assoc. cbn [foldl]. set (turns := before ++ after).
  assert (forall j, ticks_of n turns !! j = (fun i => length (filter (fun turn => turn.1 = i) turns)) <$> seq 0 n !! j) as Hl.
  { intros j. unfold ticks_of. by rewrite list_lookup_fmap. }
  apply list_eq. intros j. unfold ticks_of at 2. rewrite list_lookup_fmap. unfold count_tick. cbn [fst].
  destruct (decide (j < n)) as [Hj|Hj].
  - rewrite lookup_seq_lt by done. cbn. rewrite filter_app, length_app, filter_cons, filter_nil. cbn [fst].
    destruct (decide (i = j)) as [->|Hne].
    + rewrite Hl, lookup_seq_lt by done. cbn. rewrite list_lookup_insert_eq; [f_equal; cbn; lia|].
      unfold ticks_of. rewrite length_fmap, length_seq. done.
    + cbn. rewrite Nat.add_0_r. destruct (ticks_of n turns !! i).
      * rewrite list_lookup_insert_ne, Hl, lookup_seq_lt by done. done.
      * rewrite Hl, lookup_seq_lt by done. done.
  - rewrite lookup_seq_ge by lia. cbn. apply lookup_ge_None.
    destruct (ticks_of n turns !! i); rewrite ?length_insert; unfold ticks_of; rewrite length_fmap, length_seq; lia.
Qed.

Lemma spawned_tasks task n : replicate n (ServerB.spawn task) = tasks_after task (ticks_of n []).
Proof.
  unfold tasks_after, ticks_of. apply list_eq. intros j. rewrite !list_lookup_fmap.
  destruct (decide (j < n)).
  - by rewrite lookup_replicate_2, lookup_seq_lt.
  - rewrite lookup_seq_ge by lia. apply lookup_ge_None. rewrite length_replicate. lia.
Qed.

Section Rotation.
Context `{KeyLibs} `{Sha256} `{Digests} `{VerifyLibs} {aes256gcm : Aead} {aes_laws : AeadLaws aes256gcm}.
Context (rustls : CryptoProvider -> RustlsServer) (feature_tls12 post_quantum in_tokio : bool).

Lemma build_task b cfg task :
  ServerB.build rustls feature_tls12 post_quantum in_tokio b = Ok (cfg, Some task) ->
  sc_ticketer cfg = Some (RefOxi (ServerB.task_target task)) /\
  exists interval, rotation_ticketer b = Some (ServerB.task_target task, interval) /\
    ServerB.task_period task = Z.max interval 1000.
Proof.
  unfold ServerB.build. intros (_ & _ & (v & _ & (r & _ & ([i t] & Hi & [= <- ->])%bind_Ok)%bind_Ok)%bind_Ok)%bind_Ok.
  destruct (rotation_ticketer b) as [[id iv]|]; [|done]. destruct in_tokio; [|done]. injection Hi as <- <-. cbn. eauto.
Qed.

(** C27: tickets and rotating keys over time.  Connections are served by a builder
    with a rotation interval: each of them starts, at one of the times [starts], a
    task on the one shared ticketer that the configuration installs.  A ticket is
    issued at [t0] and presented at [t], the runtime has handled the ticks of these
    tasks with at most [latency] delay, and every key drawn in between is new.  With
    one task the ticket opens for one rotation interval (less the latency) and no
    longer than two (and the latency).  With two or more it is refused one interval
    (and the latency) after it was issued. *)
Theorem rotation_window b cfg task (starts : list Z) latency h0 h1 h2 tasks1 tasks2 before after t0 t w0 plain ticket tk :
  ServerB.acceptor_config rustls feature_tls12 post_quantum in_tokio b = Ok (cfg, Some task) ->
  h0 !! ServerB.task_target task <> None ->
  ServerB.run_turns before (h0, replicate (length starts) (ServerB.spawn task)) = (h1, tasks1) ->
  h1 !! ServerB.task_target task = Some tk -> encrypt tk w0 plain = Ok ticket ->
  ServerB.run_turns after (h1, tasks1) = (h2, tasks2) -> Forall (fresh_for ticket) after.*2 ->
  let period := ServerB.task_period task in
  (0 < latency)%Z -> (t0 <= t)%Z -> Forall (fun s => (s <= t0)%Z) starts ->
  Forall2 (interval_ticks latency period t0) starts (ticks_of (length starts) before) ->
  Forall2 (interval_ticks latency period t) starts (ticks_of (length starts) (before ++ after)) ->
  sc_ticketer cfg = Some (RefOxi (ServerB.task_target task)) /\ (1000 <= period)%Z /\
  exists tk', h2 !! ServerB.task_target task = Some tk' /\
    (length starts = 1 -> (t < t0 + period - latency)%Z -> (decrypt tk' w0 ticket).2 = Ok plain) /\
    (length starts = 1 -> (t0 + 2 * period + latency <= t)%Z -> (decrypt tk' w0 ticket).2 = Err tt) /\
    (2 <= length starts -> (t0 + period + latency <= t)%Z -> (decrypt tk' w0 ticket).2 = Err tt).
Proof.
  intros (Hinst & iv & _ & Hper)%build_task Hh0 Hrun1 Htk Henc Hrun2 Hf period Hlat Ht Hs Hc0 Hc1.
  assert (1000 <= period)%Z as Hmin by (subst period; lia). split; [done|]. split; [done|].
  destruct (h0 !! ServerB.task_target task) as [tk0|] eqn:Htk0; [|done].
  destruct (run_turns_rotate task before h0 (ticks_of (length starts) []) tk0 Htk0) as (h1' & ws0 & Hr & _ & _ & _).
  rewrite <- spawned_tasks, Hrun1 in Hr. injection Hr as <- ->. rewrite ticks_of_app in Hrun2. cbn [app] in Hrun2.
  destruct (run_turns_rotate task after h1 (ticks_of (length starts) before) tk Htk) as (h2' & ws & Hr & Htk' & Hn & Hws).
  rewrite Hrun2 in Hr. injection Hr as <- _. rewrite ticks_of_app in Hn.
  exists (rotate_all ws tk). split; [done|]. cbn in *.
  rewrite (rotations_decide ticket ws tk w0 plain Henc).
  2:{ apply Forall_forall. intros w Hw. rewrite Forall_forall in Hf. by apply Hf, Hws. }
  pose proof (interval_rotations_all latency period t0 t starts _ _ ltac:(lia) Hlat Ht Hs Hc0 Hc1) as (Hup & Hone & Htwo).
  split_and!; intros Hl Hd.
  - rewrite (proj2 (Nat.leb_le _ _)); [done|]. specialize (Hup Hd). lia.
  - rewrite (proj2 (Nat.leb_gt _ _)); [done|]. specialize (Htwo Hd). lia.
  - rewrite (proj2 (Nat.leb_gt _ _)); [done|]. specialize (Hone Hd). lia.
Qed.
End Rotation.

(** ** Certificate compression *)

(** Certificates survive compression: what was compressed, at either level,
    decompresses into a buffer of its length; a buffer of any other length is left
    as it was and the message refused, and nothing panics. *)
Theorem cert_compression_roundtrip `{CertCompression.ZlibLaws} input level out buffer :
  CertCompression.compress input level = Ok out ->
  (length buffer = length input -> CertCompression.decompress out buffer = (input, Ok tt)) /\
  (length buffer <> length input ->
   CertCompression.decompress out buffer = (buffer, Err CertCompression.DecompressionFailedError)) /\
  forall bs, (CertCompression.decompress bs buffer).2 <> Panic.
Proof.
  unfold CertCompression.compress. rewrite ok_or_Ok. intros Hc%CertCompression.zlib_inverse.
  unfold CertCompression.decompress, copy_from_slice. rewrite Hc. split_and!.
  - intros Hl. by rewrite Hl, Nat.eqb_refl.
  - intros Hl. by rewrite (proj2 (Nat.eqb_neq _ _)) by done.
  - intros bs. destruct (CertCompression.zlib_decompress bs); [|done].
    destruct (length _ =? length buffer) eqn:E; cbn; [|done]. reflect_tests. by rewrite <- E, Nat.eqb_refl.
Qed.

(** ** Witnesses *)

Module FacadeServerWitness.
Import Toy.
#[local] Existing Instance ProviderWitness.keys.
#[local] Existing Instance ProviderWitness.verifiers.

Definition rustls (_ : CryptoProvider) : RustlsServer := {|
  server_versions_ok _ := inr tt; safe_default_versions_ok := inr tt; client_verifier_ok _ := inr tt;
  single_cert_ok _ _ _ := inr tt; sni_add_ok _ _ := inr tt |}.

Definition heap0 : ServerB.Heap := {| ServerB.objects := ∅; ServerB.next_id := 0 |}.
Definition plain : ServerBuilder := ServerB.with_der_cert_and_key ServerB.new [[Byte.x01]] (Pkcs8 [Byte.x02]).

(** A server with a rotation interval of ten milliseconds, and with replay
    protection asked for afterwards. *)
Definition rotating : ServerBuilder :=
  (ServerB.with_ticketer_rotation_interval (world Byte.x01 0) heap0 plain 10).2.
Definition guarded : R TlsError ServerBuilder := (ServerB.with_anti_replay (world Byte.x02 0) heap0 rotating).2.

Definition config (b : ServerBuilder) : ServerConfig := {|
  sc_provider := pure_provider true; sc_versions := Versions [TLS13]; sc_client_verifier := NoClientVerifier;
  sc_resolver := SingleCert [[Byte.x01]] (Pkcs8 [Byte.x02]) None; sc_alpn_protocols := [];
  sc_ticketer := match rotation_ticketer b with Some (id, _) => Some (RefOxi id) | None => ticketer b end;
  sc_max_fragment_size := None; sc_max_early_data_size := 0; sc_key_log := None; sc_cert_compression := false |}.

Definition task0 : ServerB.RotationTask := {| ServerB.task_target := 0; ServerB.task_period := 1000 |}.

Lemma server_build_exact_witness :
  ServerB.build rustls true false true rotating = Ok (config rotating, Some task0).
Proof.
  apply (server_build_exact rustls true false true rotating (config rotating) (Some task0) eq_refl).
  cbv zeta. split_and!; try reflexivity; try discriminate. repeat split; reflexivity.
Defined.

(** The guard is lost. *)
Lemma anti_replay_installed_witness :
  exists b cfg task, guarded = Ok b /\ ServerB.build rustls true false true b = Ok (cfg, task) /\
    ~ exists inner, sc_ticketer cfg = Some (RefAntiReplay inner).
Proof.
  eexists _, _, _. split; [reflexivity|]. split; [reflexivity|].
  match goal with |- ~ exists inner, sc_ticketer ?c = _ =>
    destruct (anti_replay_installed rustls true false true (world Byte.x02 0) heap0 _ rotating _ c (Some task0) eq_refl eq_refl)
      as [Hiff _] end.
  rewrite Hiff. discriminate.
Defined.

Definition tk : OxiTicketer := TicketsWitness.t0.
Definition fresh1 : World := world Byte.x02 1.
Definition fresh2 : World := world Byte.x03 1.

Lemma fresh_worlds : Forall (fresh_for TicketsWitness.ticket0) [fresh1; fresh2].
Proof. repeat constructor; eexists; (split; [reflexivity|vm_compute; reflexivity]). Qed.

(** Two connections were served at time 0, and handled their immediate ticks.  A
    ticket issued at 500 ms is refused at 1600 ms: both tasks have rotated. *)
Definition turns0 : list (nat * World) := [(0, fresh1); (1, fresh1)].
Definition turns1 : list (nat * World) := [(0, fresh1); (1, fresh2)].

Definition heap1 : gmap nat OxiTicketer := {[ 0 := tk ]}.

Lemma rotation_window_witness :
  exists tk', (ServerB.run_turns turns1 (ServerB.run_turns turns0 (heap1, replicate 2 (ServerB.spawn task0)))).1 !! 0 = Some tk' /\
    (decrypt tk' (world Byte.x01 0) TicketsWitness.ticket0).2 = Err tt.
Proof.
  assert (exists cfg, ServerB.acceptor_config rustls true false true rotating = Ok (cfg, Some task0)) as [cfg Hcfg]
    by (eexists; reflexivity).
  destruct (ServerB.run_turns turns0 (heap1, replicate 2 (ServerB.spawn task0))) as [h1 tasks1] eqn:H1.
  destruct (ServerB.run_turns turns1 (h1, tasks1)) as [h2 tasks2] eqn:H2.
  destruct (rotation_window rustls true false true rotating cfg task0 [0; 0]%Z 50 heap1 h1 h2 tasks1 tasks2 turns0 turns1
    500 1600 (world Byte.x01 0) (bstr "state") TicketsWitness.ticket0 tk Hcfg) as (_ & _ & tk' & Htk' & _ & _ & Hlost).
  - discriminate.
  - exact H1.
  - injection H1 as <- <-. reflexivity.
  - vm_compute. reflexivity.
  - exact H2.
  - exact fresh_worlds.
  - lia.
  - lia.
  - repeat constructor; lia.
  - repeat first [apply Forall2_nil_2 | apply Forall2_cons_2]; (split; [right|]; vm_compute; congruence).
  - repeat first [apply Forall2_nil_2 | apply Forall2_cons_2]; (split; [right|]; vm_compute; congruence).
  - exists tk'. split; [exact Htk'|]. apply Hlost; cbn; lia.
Defined.

(** Compression that appends a byte. *)
#[local] Instance zlib : CertCompression.Zlib := {
  CertCompression.zlib_compress input level := Some (u8 level :: input);
  CertCompression.zlib_decompress bs := match bs with [] => None | _ :: bs => Some bs end }.
#[local] Instance zlib_laws : CertCompression.ZlibLaws.
Proof. constructor. by intros input level out [= <-]. Qed.

Lemma cert_compression_roundtrip_witness :
  CertCompression.decompress [Byte.x09; Byte.x05] [Byte.x00] = ([Byte.x05], Ok tt).
Proof.
  destruct (cert_compression_roundtrip [Byte.x05] CertCompression.Amortized [Byte.x09; Byte.x05] [Byte.x00]) as [Hrt _];
    [reflexivity|]. apply Hrt. reflexivity.
Defined.
End FacadeServerWitness.
