(* ===== verification/Streams.v ===== *)
(** * Streams: connectors, acceptors and streams

    The connector and acceptor of crates/oxitls-adapter-rustls-rustcrypto/src/lib.rs,
    crates/oxitls/src/stream.rs, the generic connector and acceptor of
    crates/oxitls/src/lib.rs, and the traits of crates/oxitls-core/src/lib.rs they
    implement.  tokio-rustls is the class [TokioRustls]: a handshake over a
    transport, the four poll operations of a stream, and what a session answers. *)

From S2P Require Import Prelude Core Crypto KeyLog Verifier Sct Ocsp RootStore.
From S2P Require Import ClientBuilder KeyExchange Provider FacadeClient FacadeServer.

(** ** Futures

    A future by when it is ready, in milliseconds after its first poll, and with
    what; [None] never completes. *)

Definition Future (A : Type) : Type := option (Z * A).

Definition ready {A} (a : A) : Future A := Some (0%Z, a).

(** [fut.await] followed by synchronous code. *)
Definition after {A B} (fut : Future A) (f : A -> B) : Future B := (fun '(t, a) => (t, f a)) <$> fut.

(** [tokio::time::timeout] polls the future before it looks at the deadline. *)
Definition timeout {A} (d : Z) (fut : Future A) : Future (option A) :=
  match fut with
  | Some (t, a) => if (t <=? d)%Z then Some (t, Some a) else Some (d, None)
  | None => Some (d, None)
  end.

(** ** [AsyncRead] and [AsyncWrite]

    [poll_read] is given the space left in the buffer and returns the bytes it
    appended. *)

Inductive Poll (A : Type) := Ready (a : A) | Pending.
Arguments Ready {A} _.
Arguments Pending {A}.

Class AsyncIo (T : Type) := {
  poll_read : T -> nat -> T * Poll (R IoError bytes);
  poll_write : T -> bytes -> T * Poll (R IoError nat);
  poll_flush : T -> T * Poll (R IoError unit);
  poll_shutdown : T -> T * Poll (R IoError unit);
}.

(** ** tokio-rustls *)

Inductive Side := ClientSide | ServerSide.

Inductive EchStatus := EchNotOffered | EchGreased | EchOffered | EchAccepted | EchRejected.

Class TokioRustls `{Lru} := {
  (** [ServerName::try_from]: the name, or the message of the error. *)
  server_name_try_from : string -> string + string;
  TlsStream : Side -> Type -> Type;
  Session : Side -> Type;
  tls_io : forall {side S} `{AsyncIo S}, AsyncIo (TlsStream side S);
  connect : forall {S} `{AsyncIo S}, FacadeConfig -> string -> S -> Future (R IoError (TlsStream ClientSide S));
  accept : forall {S} `{AsyncIo S}, ServerConfig -> S -> Future (R IoError (TlsStream ServerSide S));
  (** [get_ref] and [into_inner]. *)
  get_ref : forall {side S}, TlsStream side S -> S * Session side;
  into_inner : forall {side S}, TlsStream side S -> S * Session side;
  common_state : forall {side}, Session side -> CommonState;
  peer_certificates : forall {side}, Session side -> option (list bytes);
  (** A writer of early data into the session, if it can take any. *)
  WriteEarlyData : Type;
  session_early_data : Session ClientSide -> option WriteEarlyData;
  session_ech_status : Session ClientSide -> EchStatus;
  (** The buffer after the call, and whether it succeeded. *)
  session_export : forall {side}, Session side -> bytes -> bytes -> option bytes -> bytes * R RustlsError unit;
}.
#[export] Existing Instance tls_io.

(** A client handshake succeeds only with a server whose certificates the
    configuration's verifier accepted for that name, in this handshake or in the one
    a resumed session comes from; the session keeps them.  [RustlsPeers] relates the
    sessions of the two ends of a connection: they derive the same keying material
    (RFC 8446, section 7.5), exactly as much as was asked for, and none is given for
    an empty buffer. *)
Class TokioRustlsLaws `{TokioRustls} := {
  RustlsPeers : Session ClientSide -> Session ServerSide -> Prop;
  connect_verified : forall S `{AsyncIo S} cfg name (s : S) t tls,
    connect cfg name s = Some (t, Ok tls) ->
    exists cache ee ints ocsp now,
      peer_certificates (get_ref tls).2 = Some (ee :: ints) /\
      (verify_server_cert (fc_verifier cfg) cache ee ints name ocsp now).2 = Ok tt;
  connect_no_panic : forall S `{AsyncIo S} cfg name (s : S) t, connect cfg name s <> Some (t, Panic);
  accept_no_panic : forall S `{AsyncIo S} cfg (s : S) t, accept cfg s <> Some (t, Panic);
  into_inner_get_ref : forall side S (tls : TlsStream side S), into_inner tls = get_ref tls;
  export_length : forall side (s : Session side) out label ctx,
    length (session_export s out label ctx).1 = length out;
  export_empty : forall side (s : Session side) label ctx, exists e, (session_export s [] label ctx).2 = Err e;
  export_no_panic : forall side (s : Session side) out label ctx, (session_export s out label ctx).2 <> Panic;
  export_agrees : forall c s out out' label ctx,
    RustlsPeers c s -> length out = length out' ->
    (session_export c out label ctx).2 = Ok tt -> (session_export s out' label ctx).2 = Ok tt ->
    (session_export c out label ctx).1 = (session_export s out' label ctx).1;
}.

(** ** The traits of oxitls-core

    A [Box<dyn TlsStreamTrait>] is the stream it holds. *)

Class TlsStreamInfo (T : Type) := { connection_info : T -> option ConnectionInfo }.

(** The method a type that does not define its own inherits. *)
Definition default_connection_info {T} (_self : T) : option ConnectionInfo := None.

(** config.rs: what a configuration can be asked, and the suites of one that does
    not constrain them. *)
Class TlsConfig (C : Type) := {
  protocol_versions : C -> list TlsVersion;
  alpn_protocols : C -> list bytes;
  sni_name : C -> option string;
  config_cipher_suites : C -> list CipherSuite;
}.

Definition default_cipher_suites {C} (_self : C) : list CipherSuite := [].

Section Traits.
Context `{TokioRustls}.

Class TlsConnector (C : Type) := {
  trait_connect : forall {S} `{AsyncIo S}, C -> S -> string -> Future (R TlsError (TlsStream ClientSide S));
}.

Class TlsAcceptor (A : Type) := {
  trait_accept : forall {S} `{AsyncIo S}, A -> S -> Future (R TlsError (TlsStream ServerSide S));
}.

Class GenericTlsConnector (C : Type) := {
  ConnectedStream : Type -> Type;
  generic_connect : forall {S} `{AsyncIo S}, C -> S -> string -> Future (R TlsError (ConnectedStream S));
}.

(** A server's [accept] may also have started a task that rotates ticket keys. *)
Class GenericTlsAcceptor (A : Type) := {
  AcceptedStream : Type -> Type;
  generic_accept : forall {S} `{AsyncIo S}, A -> S ->
    Future (R TlsError (AcceptedStream S)) * option ServerB.RotationTask;
}.
End Traits.

(** ** The adapter: lib.rs *)

Section Adapter.
Context `{TokioRustls} `{KeyLibs} `{Sha256} `{Digests} `{VerifyLibs} `{RootSources}.
Context (rustls : CryptoProvider -> RustlsClient) (feature_tls12 : bool).

(** rustls' defaults: no ALPN, no key log, 256 sessions in memory, no early data. *)
Definition client_config (root_store : RootCertStore) : R TlsError FacadeConfig :=
  let provider := pure_provider feature_tls12 in
  _ ← map_err InvalidConfig (of_sum (@safe_default_protocol_versions (rustls_webpki (rustls provider))));
  Ok {| fc_provider := provider; fc_versions := SafeDefaults;
        fc_verifier := webpki_as_verifier (with_root_certificates (rustls provider) root_store);
        fc_client_auth := NoClientAuth; fc_alpn_protocols := []; fc_key_log := None;
        fc_resumption := InMemorySessions 256; fc_enable_early_data := false; fc_cert_compression := false |}.

Record RustcryptoConnector := { conn_inner : FacadeConfig }.

Definition connector_new (cfg : FacadeConfig) : RustcryptoConnector := {| conn_inner := cfg |}.

Definition connector_connect {S} `{AsyncIo S} (self : RustcryptoConnector) (server_name : string) (stream : S)
  : Future (R IoError (TlsStream ClientSide S)) :=
  connect (conn_inner self) server_name stream.

(** A client stream with its [ConnectionInfo]. *)
Record RustcryptoClientStream (S : Type) := { rcs_inner : TlsStream ClientSide S; rcs_info : ConnectionInfo }.
Arguments rcs_inner {S} _.
Arguments rcs_info {S} _.

Definition connect_tcp {S} `{AsyncIo S} (self : RustcryptoConnector) (host : string) (stream : S)
  : Future (R TlsError (RustcryptoClientStream S)) :=
  match server_name_try_from host with
  | inl e => ready (Err (InvalidConfig ("invalid SNI: " +:+ e)))
  | inr sni =>
      after (connect (conn_inner self) sni stream) (fun r =>
        tls ← map_err (fun e => Handshake (io_message e)) r;
        let info := connection_info_from_state (common_state (get_ref tls).2) in
        Ok {| rcs_inner := tls; rcs_info := info |})
  end.

#[export] Instance connector_trait : TlsConnector RustcryptoConnector := {
  trait_connect S _ self stream server_name :=
    after (connect (conn_inner self) server_name stream) (map_err (fun e => Handshake (io_message e)));
}.

#[export] Instance client_stream_info {S} : TlsStreamInfo (RustcryptoClientStream S) := {
  connection_info self := Some (rcs_info self);
}.

Definition rcs_set {S A} (self : RustcryptoClientStream S) (r : TlsStream ClientSide S * A) : RustcryptoClientStream S * A :=
  ({| rcs_inner := r.1; rcs_info := rcs_info self |}, r.2).

#[export] Instance client_stream_io {S} `{AsyncIo S} : AsyncIo (RustcryptoClientStream S) := {
  poll_read self n := rcs_set self (poll_read (rcs_inner self) n);
  poll_write self buf := rcs_set self (poll_write (rcs_inner self) buf);
  poll_flush self := rcs_set self (poll_flush (rcs_inner self));
  poll_shutdown self := rcs_set self (poll_shutdown (rcs_inner self));
}.

Record RustcryptoAcceptor := { acc_inner : ServerConfig }.

Definition acceptor_new (cfg : ServerConfig) : RustcryptoAcceptor := {| acc_inner := cfg |}.

Definition acceptor_accept {S} `{AsyncIo S} (self : RustcryptoAcceptor) (stream : S)
  : Future (R IoError (TlsStream ServerSide S)) :=
  accept (acc_inner self) stream.

Definition accept_tcp {S} `{AsyncIo S} (self : RustcryptoAcceptor) (stream : S)
  : Future (R TlsError (TlsStream ServerSide S)) :=
  after (accept (acc_inner self) stream) (map_err (fun e => Handshake (io_message e))).

Definition connect_with_alpn {S} `{AsyncIo S} (stream : S) (host : string) (alpn : list bytes) (roots : RootCertStore)
  : Future (R TlsError (RustcryptoClientStream S)) :=
  let provider := pure_provider feature_tls12 in
  match map_err InvalidConfig (of_sum (@safe_default_protocol_versions (rustls_webpki (rustls provider)))) with
  | Ok _ =>
      let cfg := {| fc_provider := provider; fc_versions := SafeDefaults;
        fc_verifier := webpki_as_verifier (with_root_certificates (rustls provider) roots);
        fc_client_auth := NoClientAuth; fc_alpn_protocols := alpn; fc_key_log := None;
        fc_resumption := InMemorySessions 256; fc_enable_early_data := false; fc_cert_compression := false |} in
      connect_tcp (connector_new cfg) host stream
  | Err e => ready (Err e)
  | Panic => ready Panic
  end.

Definition accept_with_timeout {S} `{AsyncIo S} (acceptor : RustcryptoAcceptor) (stream : S) (duration : Z)
  : Future (R TlsError (TlsStream ServerSide S)) :=
  after (timeout duration (accept_tcp acceptor stream)) (fun o =>
    match o with Some r => r | None => Err (Other "TLS handshake timed out") end).

Definition from_config_with_sni {S} `{AsyncIo S} (stream : S) (config : FacadeConfig) (sni : string)
  : Future (R TlsError (RustcryptoClientStream S)) :=
  connect_tcp (connector_new config) sni stream.

#[export] Instance acceptor_trait : TlsAcceptor RustcryptoAcceptor := {
  trait_accept S _ self stream :=
    after (accept (acc_inner self) stream) (map_err (fun e => Handshake (io_message e)));
}.

(** [connector_with_webpki_roots] of crates/oxitls/src/lib.rs. *)
Definition connector_with_webpki_roots (cell : option RootCertStore) : R TlsError RustcryptoConnector :=
  let root_store := (webpki_root_certs cell).2 in
  cfg ← client_config root_store;
  Ok (connector_new cfg).
End Adapter.
Arguments RustcryptoClientStream {_ _} S.
Arguments rcs_inner {_ _ S} _.
Arguments rcs_info {_ _ S} _.

(** ** The facade: stream.rs *)

Section Facade.
Context `{TokioRustls}.

Inductive Inner (S : Type) :=
  | Client (s : TlsStream ClientSide S)
  | Server (s : TlsStream ServerSide S).
Arguments Client {S} _.
Arguments Server {S} _.

Record OxiTlsStream (S : Type) := { oxi_inner : Inner S; oxi_info : option ConnectionInfo }.
Arguments oxi_inner {S} _.
Arguments oxi_info {S} _.

Definition early_data {S} (self : OxiTlsStream S) : option WriteEarlyData :=
  match oxi_inner self with
  | Client s => session_early_data (get_ref s).2
  | Server _ => None
  end.

Definition ech_status {S} (self : OxiTlsStream S) : option EchStatus :=
  match oxi_inner self with
  | Client s => Some (session_ech_status (get_ref s).2)
  | Server _ => None
  end.

Definition from_client {S} (stream : TlsStream ClientSide S) (info : option ConnectionInfo) : OxiTlsStream S :=
  {| oxi_inner := Client stream; oxi_info := info |}.

Definition from_server {S} (stream : TlsStream ServerSide S) (info : option ConnectionInfo) : OxiTlsStream S :=
  {| oxi_inner := Server stream; oxi_info := info |}.

Definition oxi_connection_info {S} (self : OxiTlsStream S) : option ConnectionInfo := oxi_info self.

Definition oxi_get_ref {S} (self : OxiTlsStream S) : S :=
  match oxi_inner self with Client s => (get_ref s).1 | Server s => (get_ref s).1 end.

Definition oxi_into_inner {S} (self : OxiTlsStream S) : S :=
  match oxi_inner self with Client s => (into_inner s).1 | Server s => (into_inner s).1 end.

(** [show] is the [Display] of [rustls::Error]. *)
Definition export_keying_material (show : RustlsError -> string) {S} (self : OxiTlsStream S)
  (output label : bytes) (context : option bytes) : bytes * R TlsError unit :=
  match oxi_inner self with
  | Client stream =>
      let session := (get_ref stream).2 in
      let '(output, r) := session_export session output label context in
      (output, map_err (fun e => Other (show e)) r)
  | Server stream =>
      let session := (get_ref stream).2 in
      let '(output, r) := session_export session output label context in
      (output, map_err (fun e => Other (show e)) r)
  end.

(** The two [From] conversions. *)
Definition oxi_from_client {S} (stream : TlsStream ClientSide S) : OxiTlsStream S :=
  {| oxi_inner := Client stream; oxi_info := None |}.

Definition oxi_from_server {S} (stream : TlsStream ServerSide S) : OxiTlsStream S :=
  {| oxi_inner := Server stream; oxi_info := None |}.

#[export] Instance oxi_stream_info {S} : TlsStreamInfo (OxiTlsStream S) := { connection_info self := oxi_info self }.

(** The stream after an operation on what it holds. *)
Definition oxi_client {S A} (self : OxiTlsStream S) (r : TlsStream ClientSide S * A) : OxiTlsStream S * A :=
  ({| oxi_inner := Client r.1; oxi_info := oxi_info self |}, r.2).

Definition oxi_server {S A} (self : OxiTlsStream S) (r : TlsStream ServerSide S * A) : OxiTlsStream S * A :=
  ({| oxi_inner := Server r.1; oxi_info := oxi_info self |}, r.2).

#[export] Instance oxi_stream_io {S} `{AsyncIo S} : AsyncIo (OxiTlsStream S) := {
  poll_read self n :=
    match oxi_inner self with
    | Client s => oxi_client self (poll_read s n)
    | Server s => oxi_server self (poll_read s n)
    end;
  poll_write self buf :=
    match oxi_inner self with
    | Client s => oxi_client self (poll_write s buf)
    | Server s => oxi_server self (poll_write s buf)
    end;
  poll_flush self :=
    match oxi_inner self with
    | Client s => oxi_client self (poll_flush s)
    | Server s => oxi_server self (poll_flush s)
    end;
  poll_shutdown self :=
    match oxi_inner self with
    | Client s => oxi_client self (poll_shutdown s)
    | Server s => oxi_server self (poll_shutdown s)
    end;
}.

(** ** [GenericTlsConnector] and [GenericTlsAcceptor] of lib.rs

    An error of [build] is the future's result; a panic in [build] is one of the
    call, shown as a future that is ready with it. *)

Section Generic.
Context `{KeyLibs} `{Sha256} `{Digests} `{VerifyLibs} `{X509} `{SigPrims} `{OcspDer} `{RootSources}.
Context (rustls : CryptoProvider -> RustlsClient) (rustls_server : CryptoProvider -> RustlsServer)
  (cell : option RootCertStore) (feature_tls12 post_quantum in_tokio : bool) (show : RustlsError -> string).

Definition facade_connect {S} `{AsyncIo S} (self : ClientBuilder) (stream : S) (server_name : string)
  : Future (R TlsError (OxiTlsStream S)) :=
  match connector_config rustls cell feature_tls12 post_quantum show self with
  | Ok cfg =>
      after (connect cfg server_name stream) (fun r =>
        tls_stream ← map_err (fun e => Other (io_message e)) r;
        Ok (from_client tls_stream None))
  | Err e => ready (Err e)
  | Panic => ready Panic
  end.

Definition facade_accept {S} `{AsyncIo S} (self : ServerBuilder) (stream : S)
  : Future (R TlsError (OxiTlsStream S)) * option ServerB.RotationTask :=
  match ServerB.acceptor_config rustls_server feature_tls12 post_quantum in_tokio self with
  | Ok (cfg, task) =>
      (after (accept cfg stream) (fun r =>
         tls_stream ← map_err (fun e => Other (io_message e)) r;
         Ok (from_server tls_stream None)), task)
  | Err e => (ready (Err e), None)
  | Panic => (ready Panic, None)
  end.

#[export] Instance client_builder_connector : GenericTlsConnector ClientBuilder := {
  ConnectedStream := OxiTlsStream;
  generic_connect S _ := facade_connect;
}.

#[export] Instance server_builder_acceptor : GenericTlsAcceptor ServerBuilder := {
  AcceptedStream := OxiTlsStream;
  generic_accept S _ := facade_accept;
}.
End Generic.
End Facade.
Arguments Inner {_ _} S.
Arguments Client {_ _ S} _.
Arguments Server {_ _ S} _.
Arguments OxiTlsStream {_ _} S.
Arguments oxi_inner {_ _ S} _.
Arguments oxi_info {_ _ S} _.

(** ** Properties *)

Lemma after_Some {A B} (fut : Future A) (f : A -> B) t b :
  after fut f = Some (t, b) <-> exists a, fut = Some (t, a) /\ b = f a.
Proof. destruct fut as [[t' a]|]; cbn; naive_solver. Qed.

(** *** Wrappers are transparent *)

Inductive IoOp := Read (space : nat) | Write (buf : bytes) | Flush | Shutdown.

Inductive IoResult :=
  | ReadResult (r : Poll (R IoError bytes))
  | WriteResult (r : Poll (R IoError nat))
  | UnitResult (r : Poll (R IoError unit)).

Definition do_op {T} `{AsyncIo T} (t : T) (op : IoOp) : T * IoResult :=
  match op with
  | Read n => let '(t, r) := poll_read t n in (t, ReadResult r)
  | Write b => let '(t, r) := poll_write t b in (t, WriteResult r)
  | Flush => let '(t, r) := poll_flush t in (t, UnitResult r)
  | Shutdown => let '(t, r) := poll_shutdown t in (t, UnitResult r)
  end.

Fixpoint run_ops {T} `{AsyncIo T} (t : T) (ops : list IoOp) : T * list IoResult :=
  match ops with
  | [] => (t, [])
  | op :: ops => let '(t, r) := do_op t op in let '(t, rs) := run_ops t ops in (t, r :: rs)
  end.

(** Every operation through [wrap] is the operation inside. *)
Definition transparent {T U} `{AsyncIo T} `{AsyncIo U} (wrap : T -> U) : Prop :=
  forall t op, do_op (wrap t) op = (wrap (do_op t op).1, (do_op t op).2).

Lemma run_ops_wrap {T U} `{AsyncIo T} `{AsyncIo U} (wrap : T -> U) t ops :
  transparent wrap -> run_ops (wrap t) ops = (wrap (run_ops t ops).1, (run_ops t ops).2).
Proof.
  intros Hw. revert t. induction ops as [|op ops IH]; intros t; [done|]. cbn [run_ops].
  rewrite Hw. destruct (do_op t op) as [t' r]. cbn [fst snd]. rewrite IH. by destruct (run_ops t' ops).
Qed.

Section StreamProperties.
Context `{TokioRustlsLaws}.

(** The streams the connectors return read, write, flush and close exactly as the
    tokio-rustls stream inside: any sequence of polls gives the same results and
    leaves the same stream, and what was recorded about the connection does not
    change. *)
Theorem streams_transparent {S} `{AsyncIo S} (ops : list IoOp) :
  (forall (c : TlsStream ClientSide S) info,
     run_ops (from_client c info) ops = (from_client (run_ops c ops).1 info, (run_ops c ops).2)) /\
  (forall (s : TlsStream ServerSide S) info,
     run_ops (from_server s info) ops = (from_server (run_ops s ops).1 info, (run_ops s ops).2)) /\
  (forall (c : TlsStream ClientSide S) info,
     run_ops {| rcs_inner := c; rcs_info := info |} ops =
     ({| rcs_inner := (run_ops c ops).1; rcs_info := info |}, (run_ops c ops).2)).
Proof.
  split_and!; intros c info.
  - apply (run_ops_wrap (fun c => from_client c info)). intros t []; cbn; by destruct (_ : TlsStream _ _ * _).
  - apply (run_ops_wrap (fun s => from_server s info)). intros t []; cbn; by destruct (_ : TlsStream _ _ * _).
  - apply (run_ops_wrap (fun c => {| rcs_inner := c; rcs_info := info |})).
    intros t []; cbn; by destruct (_ : TlsStream _ _ * _).
Qed.

(** *** Keying material *)

(** The two ends of a connection export the same bytes for the same label and
    context, as many as were asked for, whatever the buffers held; an empty request
    is refused and every refusal is [TlsError::Other].  The transport taken out of a
    stream is the one its reference shows. *)
Theorem exports_agree (show : RustlsError -> string) {S} (c : TlsStream ClientSide S) (s : TlsStream ServerSide S)
  info info' out out' label ctx :
  RustlsPeers (get_ref c).2 (get_ref s).2 -> length out = length out' ->
  let rc := export_keying_material show (from_client c info) out label ctx in
  let rs := export_keying_material show (from_server s info') out' label ctx in
  (rc.2 = Ok tt -> rs.2 = Ok tt -> rc.1 = rs.1 /\ length rc.1 = length out) /\
  (out = [] -> exists m m', rc.2 = Err (Other m) /\ rs.2 = Err (Other m')) /\
  (forall r, r ∈ [rc.2; rs.2] -> r = Ok tt \/ exists m, r = Err (Other m)) /\
  oxi_into_inner (from_client c info) = oxi_get_ref (from_client c info).
Proof.
  intros Hp Hlen. cbn [export_keying_material from_client from_server oxi_inner].
  pose proof (export_agrees _ _ out out' label ctx Hp Hlen) as Hagree.
  pose proof (export_length _ (get_ref c).2 out label ctx) as Hl.
  pose proof (export_no_panic _ (get_ref c).2 out label ctx) as Hc.
  pose proof (export_no_panic _ (get_ref s).2 out' label ctx) as Hs.
  pose proof (export_empty _ (get_ref c).2 label ctx) as [e He].
  pose proof (export_empty _ (get_ref s).2 label ctx) as [e' He'].
  split_and!; [| | |unfold oxi_into_inner, oxi_get_ref; cbn; by rewrite into_inner_get_ref].
  - destruct (session_export (get_ref c).2 out label ctx) as [oc [[]| |]],
      (session_export (get_ref s).2 out' label ctx) as [os [[]| |]]; cbn in *; try done. naive_solver.
  - intros ->. destruct out'; [|discriminate Hlen].
    destruct (session_export (get_ref c).2 [] label ctx), (session_export (get_ref s).2 [] label ctx).
    cbn in *. subst. eauto.
  - destruct (session_export (get_ref c).2 out label ctx) as [oc [[]| |]],
      (session_export (get_ref s).2 out' label ctx) as [os [[]| |]]; cbn in *; try done; set_solver.
Qed.

(** *** Accepting with a deadline *)

(** [accept_with_timeout] always completes, no later than the deadline: with the
    handshake's result if there is one by then, and with a timeout error otherwise,
    also when the peer never finishes. *)
Theorem accept_with_timeout_completes {S} `{AsyncIo S} (acceptor : RustcryptoAcceptor) (stream : S) (d : Z) :
  exists t r, accept_with_timeout acceptor stream d = Some (t, r) /\ (t <= d)%Z /\
    ((accept_tcp acceptor stream = Some (t, r)) \/
     (t = d /\ r = Err (Other "TLS handshake timed out") /\
      forall t' r', accept_tcp acceptor stream = Some (t', r') -> (d < t')%Z)).
Proof.
  unfold accept_with_timeout, timeout. destruct (accept_tcp acceptor stream) as [[t r]|].
  - destruct (Z.leb_spec t d); cbn; eexists _, _; (split; [done|]); (split; [lia|]); [by left|].
    right. split_and!; [done..|]. by intros t' r' [= <- <-].
  - eexists _, _. split; [done|]. split; [lia|]. by right.
Qed.
End StreamProperties.

(** *** Authentication *)

Section Authentication.
Context `{TokioRustlsLaws} `{KeyLibs} `{Sha256Laws} `{Digests} `{VerifyLibs} `{X509} `{SigPrims} `{OcspDer} `{RootSources}.
Context (rustls : CryptoProvider -> RustlsClient) (cell : option RootCertStore) (feature_tls12 post_quantum : bool)
  (show : RustlsError -> string).

Abbreviation pure := (pure_provider feature_tls12).

(** The certificates a client stream's session holds. *)
Definition peer_chain {S} (tls : TlsStream ClientSide S) (chain : list bytes) : Prop :=
  peer_certificates (get_ref tls).2 = Some chain.

Lemma connect_after {S} `{AsyncIo S} {A} cfg name (s : S) (wrap : TlsStream ClientSide S -> A) to_error t a :
  after (connect cfg name s) (fun r => tls ← map_err to_error r; Ok (wrap tls)) = Some (t, Ok (E:=TlsError) a) ->
  exists tls, connect cfg name s = Some (t, Ok tls) /\ a = wrap tls.
Proof. intros (r & Hc & Hr)%after_Some. destruct r; cbn in Hr; try done. injection Hr as ->. eauto. Qed.

(** C3: A stream the facade's connector returns belongs to a server its builder
    accepts: the session's certificates passed, for the name that was asked for,
    exactly the checks the builder was configured with (raw keys, WebPKI over the
    configured roots, pins, CRLs, SCTs), unless a danger flag waived them. *)
Theorem facade_connect_authenticates {S} `{AsyncIo S} (b : ClientBuilder) (stream : S) (name : string) t s :
  facade_connect rustls cell feature_tls12 post_quantum show b stream name = Some (t, Ok s) ->
  exists tls ee ints ocsp now,
    oxi_inner s = Client tls /\ peer_chain tls (ee :: ints) /\
    server_accepted rustls cell feature_tls12 post_quantum b ee ints name ocsp now.
Proof.
  unfold facade_connect, connector_config. destruct (build _ _ _ _ _ _ b) as [cfg| |] eqn:Hb; [|done..].
  intros (tls & Hc & ->)%connect_after. apply connect_verified in Hc as (cache & ee & ints & ocsp & now & Hp & Hv).
  exists tls, ee, ints, ocsp, now. split_and!; [done..|]. by eapply facade_verifier_iff.
Qed.

(** The certificates WebPKI accepted for [name] over [roots], as the pure provider
    verifies them. *)
Definition webpki_accepted (roots : RootCertStore) (name : string) (chain : list bytes) : Prop :=
  exists ee ints ocsp now, chain = ee :: ints /\
    wp_verify_server_cert (with_root_certificates (rustls pure) roots) ee ints name ocsp now = Ok tt.

Lemma connect_tcp_Ok {S} `{AsyncIo S} cfg host (stream : S) t s :
  connect_tcp (connector_new cfg) host stream = Some (t, Ok s) ->
  exists sni, server_name_try_from host = inr sni /\
    connect cfg sni stream = Some (t, Ok (rcs_inner s)) /\
    rcs_info s = connection_info_from_state (common_state (get_ref (rcs_inner s)).2).
Proof.
  unfold connect_tcp. destruct (server_name_try_from host) as [e|sni]; [done|].
  intros (tls & Hc & ->)%(connect_after _ _ _ (fun tls => {| rcs_inner := tls; rcs_info := _ |})). eauto.
Qed.

Lemma webpki_connected {S} `{AsyncIo S} cfg roots name (stream : S) t tls :
  fc_verifier cfg = webpki_as_verifier (with_root_certificates (rustls pure) roots) ->
  connect cfg name stream = Some (t, Ok tls) -> exists chain, peer_chain tls chain /\ webpki_accepted roots name chain.
Proof.
  intros Hv (cache & ee & ints & ocsp & now & Hp & Hok)%connect_verified. rewrite Hv in Hok.
  exists (ee :: ints). split; [done|]. by exists ee, ints, ocsp, now.
Qed.

(** A stream of the adapter's [connect_with_alpn], or of a connector over the
    Mozilla roots, belongs to a server whose chain WebPKI accepted, over the given
    roots or the bundle, for the name [host] denotes; and it carries the version,
    suite and protocol of its own session. *)
Theorem adapter_connect_authenticates {S} `{AsyncIo S} (host : string) (stream : S) t s :
  (forall alpn roots,
     connect_with_alpn rustls feature_tls12 stream host alpn roots = Some (t, Ok s) ->
     exists name chain, server_name_try_from host = inr name /\ peer_chain (rcs_inner s) chain /\
       webpki_accepted roots name chain /\
       connection_info s = Some (connection_info_from_state (common_state (get_ref (rcs_inner s)).2))) /\
  (forall connector, connector_with_webpki_roots rustls feature_tls12 cell = Ok connector ->
     connect_tcp connector host stream = Some (t, Ok s) ->
     exists name chain, server_name_try_from host = inr name /\ peer_chain (rcs_inner s) chain /\
       webpki_accepted (webpki_root_certs cell).2 name chain /\
       connection_info s = Some (connection_info_from_state (common_state (get_ref (rcs_inner s)).2))).
Proof.
  split.
  - intros alpn roots. unfold connect_with_alpn. destruct (map_err _ _); [|done..].
    intros (sni & Hs & Hc & Hi)%connect_tcp_Ok. apply (webpki_connected _ roots) in Hc as (chain & Hp & Hw); [|done].
    exists sni, chain. split_and!; try done. cbn. by rewrite Hi.
  - intros connector (cfg & (_ & _ & [= <-])%bind_Ok & [= <-])%bind_Ok.
    intros (sni & Hs & Hc & Hi)%connect_tcp_Ok.
    apply (webpki_connected _ (webpki_root_certs cell).2) in Hc as (chain & Hp & Hw); [|done].
    exists sni, chain. split_and!; try done. cbn. by rewrite Hi.
Qed.

(** How the same handshake comes back from the adapter and from the facade.  The
    adapter reports a failed one as a handshake error and gives its streams the
    connection information; the facade reports the same failure as
    [TlsError::Other] and its streams never carry information.  Neither panics, and
    a host that is no server name is refused before any handshake. *)
Theorem handshake_reports {S} `{AsyncIo S} (b : ClientBuilder) cfg (stream : S) (host name : string) :
  connector_config rustls cell feature_tls12 post_quantum show b = Ok cfg ->
  let adapter := connect_tcp (connector_new cfg) host stream in
  let facade := facade_connect rustls cell feature_tls12 post_quantum show b stream name in
  (forall e, server_name_try_from host = inl e -> exists m, adapter = Some (0%Z, Err (InvalidConfig m))) /\
  (server_name_try_from host = inr name ->
   (forall t e, adapter = Some (t, Err e) ->
      is_handshake e = true /\ exists e', facade = Some (t, Err e') /\ is_handshake e' = false /\ is_io e' = false) /\
   (forall t s, adapter = Some (t, Ok s) ->
      is_Some (connection_info s) /\
      exists s', facade = Some (t, Ok s') /\ oxi_inner s' = Client (rcs_inner s) /\ connection_info s' = None) /\
   (forall t, adapter <> Some (t, Panic) /\ facade <> Some (t, Panic)) /\
   (adapter = None <-> facade = None)).
Proof.
  intros Hcfg. unfold facade_connect. rewrite Hcfg. cbv zeta. split.
  { intros e He. unfold connect_tcp. rewrite He. cbn. eauto. }
  intros Hn. unfold connect_tcp. rewrite Hn. cbn [connector_new conn_inner].
  pose proof (connect_no_panic S cfg name stream) as Hp.
  destruct (connect cfg name stream) as [[t [tls|e|]]|]; cbn; [..|by destruct (Hp t)|]; split_and!; try done; naive_solver.
Qed.
End Authentication.

(** ** Witnesses *)

Module StreamsWitness.
Import Toy ToyX509 OcspWitness RootStoreWitness FacadeClientWitness.
#[local] Existing Instance ocsp_der.
#[local] Existing Instance list_lru.
#[local] Existing Instance ProviderWitness.keys.
#[local] Existing Instance ProviderWitness.verifiers.
#[local] Existing Instance FacadeClientWitness.sources.

(** A transport that queues what is written; reading takes from the front. *)
#[local] Instance queue_io : AsyncIo bytes := {
  poll_read q n := (drop n q, Ready (Ok (take n q)));
  poll_write q buf := (q ++ buf, Ready (Ok (length buf)));
  poll_flush q := (q, Ready (Ok tt));
  poll_shutdown q := ([], Ready (Ok tt));
}.

(** A session: its exporter secret and the peer's certificates. *)
Record ToySession := { secret : byte; peers : option (list bytes) }.

(** The server presents the certificate [09] and takes 5 ms. *)
Definition toy_connect {S} (cfg : FacadeConfig) (name : string) (s : S) : Future (R IoError (S * ToySession)) :=
  Some (5%Z, match (verify_server_cert (fc_verifier cfg) (cache_new 2) [Byte.x09] [] name [] 0).2 with
             | Ok _ => Ok (s, {| secret := Byte.x07; peers := Some [[Byte.x09]] |})
             | _ => Err {| io_kind := InvalidData; io_message := "refused" |}
             end).

Definition toy_export (s : ToySession) (out : bytes) : bytes * R RustlsError unit :=
  match out with [] => ([], Err (General "empty")) | _ => (replicate (length out) (secret s), Ok tt) end.

#[local] Instance toy_tokio : TokioRustls := {
  server_name_try_from h := if bool_decide (h = "") then inl "empty name" else inr h;
  TlsStream _ S := (S * ToySession)%type;
  Session _ := ToySession;
  tls_io _ S io := {|
    poll_read s n := let '(q, r) := @poll_read S io s.1 n in ((q, s.2), r);
    poll_write s b := let '(q, r) := @poll_write S io s.1 b in ((q, s.2), r);
    poll_flush s := let '(q, r) := @poll_flush S io s.1 in ((q, s.2), r);
    poll_shutdown s := let '(q, r) := @poll_shutdown S io s.1 in ((q, s.2), r) |};
  connect S _ := toy_connect;
  accept S _ cfg s := Some (5%Z, Ok (s, {| secret := Byte.x07; peers := None |}));
  get_ref _ _ s := s;
  into_inner _ _ s := s;
  common_state _ _ := {| cs_protocol_version := Some 0x0304%Z; cs_negotiated_cipher_suite := Some 0x1301%Z; cs_alpn_protocol := None |};
  peer_certificates _ := peers;
  WriteEarlyData := unit;
  session_early_data _ := None;
  session_ech_status _ := EchNotOffered;
  session_export _ s out _ _ := toy_export s out;
}.

#[local] Instance toy_tokio_laws : @TokioRustlsLaws _ toy_tokio.
Proof.
  apply (@Build_TokioRustlsLaws _ toy_tokio (fun c s : ToySession => secret c = secret s)).
  - intros S io cfg name s t tls. cbn. unfold toy_connect.
    destruct (verify_server_cert _ _ _ _ _ _ _).2 as [[]| |] eqn:Hv; intros [= <- <-].
    eexists _, _, _, _, _. split; [reflexivity|exact Hv].
  - intros S io cfg name s t. cbn. unfold toy_connect. by destruct (verify_server_cert _ _ _ _ _ _ _).2.
  - done.
  - done.
  - intros side s out label ctx. destruct out; [done|]. apply length_replicate.
  - intros. cbn. eauto.
  - intros side s out label ctx. by destruct out.
  - intros c s out out' label ctx Hs Hl _ _. cbn. unfold toy_export.
    destruct out, out'; try done. cbn [fst]. by rewrite Hs, Hl.
Defined.

Definition acceptor (n : nat) : RustcryptoAcceptor :=
  {| acc_inner := {| sc_provider := pure_provider true; sc_versions := SafeDefaults; sc_client_verifier := NoClientVerifier;
       sc_resolver := SniResolver []; sc_alpn_protocols := []; sc_ticketer := None; sc_max_fragment_size := Some n;
       sc_max_early_data_size := 0; sc_key_log := None; sc_cert_compression := false |} |}.

(** The handshake takes longer than the deadline. *)
Example accept_too_late :
  accept_with_timeout (acceptor 1) [] 3 = Some (3%Z, Err (Other "TLS handshake timed out")) /\
  (exists s, accept_with_timeout (acceptor 1) [] 5 = Some (5%Z, Ok s)).
Proof. split; [reflexivity|eexists; reflexivity]. Qed.

(** The pinned server is accepted, and nothing else would be. *)
Definition connected : Future (R TlsError (OxiTlsStream bytes)) :=
  facade_connect rustls None true false show pinned_builder [] "h".

Lemma facade_connect_authenticates_witness :
  exists s tls ocsp now, connected = Some (5%Z, Ok s) /\ oxi_inner s = Client tls /\
    peer_chain tls [[Byte.x09]] /\
    server_accepted rustls None true false pinned_builder [Byte.x09] [] "h" ocsp now.
Proof.
  assert (match connected with
          | Some (t, Ok s) => match oxi_inner s with Client tls => bool_decide (t = 5%Z /\ tls.2.(peers) = Some [[Byte.x09]]) | _ => false end
          | _ => false end = true) as Hok by (vm_compute; reflexivity).
  destruct connected as [[t [s| |]]|] eqn:Hc; try discriminate Hok.
  destruct (facade_connect_authenticates rustls None true false show pinned_builder [] "h" t s Hc)
    as (tls & ee & ints & ocsp & now & Hi & Hp & Hacc).
  rewrite Hi in Hok. apply bool_decide_eq_true in Hok as [-> Hpeers].
  unfold peer_chain in Hp. cbn in Hp. rewrite Hpeers in Hp. injection Hp as <- <-.
  exists s, tls, ocsp, now. split_and!; [reflexivity|exact Hi|exact Hpeers|exact Hacc].
Defined.

Definition webpki_connector : R TlsError RustcryptoConnector := connector_with_webpki_roots rustls true None.

Lemma adapter_connect_authenticates_witness :
  exists connector s chain, webpki_connector = Ok connector /\
    connect_tcp connector "h" [] = Some (5%Z, Ok s) /\ peer_chain (S:=bytes) (rcs_inner s) chain /\
    webpki_accepted rustls true (webpki_root_certs None).2 "h" chain.
Proof.
  assert (is_ok webpki_connector = true) as Hok by (vm_compute; reflexivity).
  destruct webpki_connector as [connector| |] eqn:Hconn; try discriminate Hok.
  assert (match webpki_connector with
          | Ok c => match connect_tcp c "h" [] with Some (t, Ok s) => bool_decide (t = 5%Z) | _ => false end
          | _ => false end = true) as Hs by (vm_compute; reflexivity).
  rewrite Hconn in Hs. destruct (connect_tcp connector "h" []) as [[t [s| |]]|] eqn:Hc; try discriminate Hs.
  apply bool_decide_eq_true in Hs as ->.
  destruct (adapter_connect_authenticates rustls None true "h" [] 5%Z s) as [_ Hauth].
  destruct (Hauth connector Hconn Hc) as (name & chain & [= <-] & Hp & Hw & _).
  exists connector, s, chain. split_and!; [reflexivity|exact Hc|exact Hp|exact Hw].
Defined.

Lemma exports_agree_witness :
  exists out, export_keying_material show (from_client (S:=bytes) ([], {| secret := Byte.x07; peers := None |}) None) [Byte.x00; Byte.x01] [] None = (out, Ok tt) /\
    export_keying_material show (from_server (S:=bytes) ([], {| secret := Byte.x07; peers := None |}) None) [Byte.x02; Byte.x03] [] None = (out, Ok tt) /\
    out = [Byte.x07; Byte.x07].
Proof.
  exists [Byte.x07; Byte.x07].
  destruct (@exports_agree _ toy_tokio toy_tokio_laws show bytes ([], {| secret := Byte.x07; peers := None |})
              ([], {| secret := Byte.x07; peers := None |}) None None [Byte.x00; Byte.x01] [Byte.x02; Byte.x03] [] None) as [Heq _]; [reflexivity..|].
  destruct Heq as [Heq _]; [reflexivity..|]. cbn in Heq. split_and!; reflexivity.
Defined.

Lemma handshake_reports_witness :
  exists cfg s, connector_config rustls None true false show pinned_builder = Ok cfg /\
    facade_connect (S:=bytes) rustls None true false show pinned_builder [] "h" = Some (5%Z, Ok s) /\
    connection_info s = None.
Proof.
  assert (is_ok (connector_config rustls None true false show pinned_builder) = true) as Hok by (vm_compute; reflexivity).
  destruct (connector_config rustls None true false show pinned_builder) as [cfg| |] eqn:Hcfg; try discriminate Hok.
  destruct (handshake_reports rustls None true false show pinned_builder cfg ([] : bytes) "h" "h" Hcfg) as [_ Hr].
  destruct (Hr eq_refl) as (_ & Hs & _).
  assert (match connector_config rustls None true false show pinned_builder with
          | Ok c => match connect_tcp (connector_new c) "h" ([] : bytes) with Some (t, Ok s) => bool_decide (t = 5%Z) | _ => false end
          | _ => false end = true) as Ha by (vm_compute; reflexivity).
  rewrite Hcfg in Ha. destruct (connect_tcp (connector_new cfg) "h" []) as [[t [a| |]]|] eqn:Hc; try discriminate Ha.
  apply bool_decide_eq_true in Ha as ->.
  destruct (Hs 5%Z a eq_refl) as (_ & s & Hf & _ & Hi). exists cfg, s. split_and!; [reflexivity|exact Hf|exact Hi].
Defined.
End StreamsWitness.
