(* ===== verification/ClientAuth.v ===== *)
(** * ClientAuth: whom a server admits

    The client half of raw_public_key.rs (crates/oxitls-adapter-rustls-rustcrypto),
    the verifiers a server configuration names, and what a stream accepted by the
    facade or by the adapter says about the client, over the handshakes of a whole
    deployment, in which sessions may be resumed.  The WebPKI client verifier is a
    parameter, and [AcceptLaws] states what rustls does with a verifier. *)

From S2P Require Import Prelude Core Crypto KeyLog Verifier Sct Ocsp RootStore.
From S2P Require Import ClientBuilder KeyExchange Provider FacadeClient FacadeServer Streams.

(** ** rustls' trait *)

Record ClientCertVerifier := {
  verify_client_cert : bytes -> list bytes -> Z -> R RustlsError unit;
  client_verify_tls12_signature : bytes -> bytes -> DigitallySignedStruct -> R RustlsError unit;
  client_verify_tls13_signature : bytes -> bytes -> DigitallySignedStruct -> R RustlsError unit;
  client_supported_verify_schemes : list Z;
  client_requires_raw_public_keys : bool;
  offer_client_auth : bool;
  client_auth_mandatory : bool;
  root_hint_subjects : list bytes;
}.

(** ** raw_public_key.rs *)

Record RawPublicKeyClientVerifier := {
  client_trusted_spki : list bytes;
  client_spki_provider : CryptoProvider;
}.

Definition raw_client_new (trusted_spki : list bytes) (provider : CryptoProvider) : RawPublicKeyClientVerifier :=
  {| client_trusted_spki := trusted_spki; client_spki_provider := provider |}.

Definition raw_verify_client_cert (self : RawPublicKeyClientVerifier) (end_entity : bytes) : R RustlsError unit :=
  let presented := end_entity in
  let matched := existsb (fun pin => bool_decide (pin = presented)) (client_trusted_spki self) in
  if matched then Ok tt else Err APPLICATION_VERIFICATION_FAILURE.

Definition raw_client_as_verifier (rustls : CryptoProvider -> RustlsClient) (self : RawPublicKeyClientVerifier)
  : ClientCertVerifier := {|
  client_requires_raw_public_keys := true;
  offer_client_auth := true;
  client_auth_mandatory := true;
  root_hint_subjects := [];
  verify_client_cert end_entity _ _ := raw_verify_client_cert self end_entity;
  client_verify_tls12_signature _ _ _ := Err (PeerIncompatible "Tls12NotOffered");
  client_verify_tls13_signature message cert dss :=
    let spki := cert in verify_tls13_signature_with_raw_key (rustls (client_spki_provider self)) message spki dss;
  client_supported_verify_schemes := supported_schemes (rustls (client_spki_provider self));
|}.

(** ** What a configuration asks of clients *)

Section Admission.
Context `{TokioRustls} (rustls : CryptoProvider -> RustlsClient).
(** [WebPkiClientVerifier::builder_with_provider(roots, provider)], with
    [allow_unauthenticated] or without, and [build]. *)
Context (webpki_client : CryptoProvider -> RootCertStore -> bool -> ClientCertVerifier).

(** The verifier of a configuration; without one, no client is asked for a
    certificate. *)
Definition client_verifier_of (cfg : ServerConfig) : option ClientCertVerifier :=
  match sc_client_verifier cfg with
  | NoClientVerifier => None
  | WebPkiClient roots allow_unauthenticated => Some (webpki_client (sc_provider cfg) roots allow_unauthenticated)
  | RawKeyClient trusted => Some (raw_client_as_verifier rustls (raw_client_new trusted (sc_provider cfg)))
  end.

(** rustls' rule: whoever is asked presents certificates the verifier accepts, or
    none, if that is not mandatory. *)
Definition client_admitted (verifier : option ClientCertVerifier) (peer : option (list bytes)) : Prop :=
  match verifier, peer with
  | None, None => True
  | Some v, None => client_auth_mandatory v = false
  | Some v, Some (ee :: ints) => exists now, verify_client_cert v ee ints now = Ok tt
  | _, _ => False
  end.

(** Whose keys a ticketer seals with: a replay guard seals with those of the
    ticketer it wraps. *)
Fixpoint sealer_of (t : TicketerRef) : TicketerRef :=
  match t with RefAntiReplay inner => sealer_of inner | t => t end.

Definition same_tickets (t t' : option TicketerRef) : Prop :=
  exists s s', t = Some s /\ t' = Some s' /\ sealer_of s = sealer_of s'.

#[export] Instance same_tickets_trans : Transitive same_tickets.
Proof. intros t1 t2 t3 (s1 & s2 & -> & -> & H12) (? & s3 & [= <-] & -> & H23). exists s1, s3. by rewrite H12. Qed.
End Admission.

(** ** Resumed sessions *)

(** The session whose ticket, or stored state, the client presented in the handshake
    that made this one; [None] for a full handshake. *)
Class Resumption `{TokioRustls} := resumed_from : Session ServerSide -> option (Session ServerSide).

(** What rustls does with a verifier: a full handshake admits a client by the
    verifier of its configuration, and a resumed session keeps the certificates of
    the session it resumes.  [allow_unauthenticated] is what makes a client
    certificate optional. *)
Class AcceptLaws `{Resumption} (rustls : CryptoProvider -> RustlsClient)
    (webpki_client : CryptoProvider -> RootCertStore -> bool -> ClientCertVerifier) := {
  accept_full : forall S `{AsyncIo S} cfg (s : S) t tls,
    accept cfg s = Some (t, Ok tls) -> resumed_from (get_ref tls).2 = None ->
    client_admitted (client_verifier_of rustls webpki_client cfg) (peer_certificates (get_ref tls).2);
  resumed_peer : forall s prev, resumed_from s = Some prev -> peer_certificates s = peer_certificates prev;
  webpki_mandatory : forall p roots allow, client_auth_mandatory (webpki_client p roots allow) = negb allow;
}.

(** The handshakes of a deployment, the latest first: servers of some kind [A]
    establish sessions, and a session that is resumed was established before by a
    server that [shares] its sessions with this one.  The latter is the authenticity
    of tickets: what opens was sealed under the same keys. *)
Section History.
Context `{Resumption} {A : Type} (establishes : A -> Session ServerSide -> Prop) (shares : A -> A -> Prop).

Definition genuine (h : list (A * Session ServerSide)) (a : A) (s : Session ServerSide) : Prop :=
  forall prev, resumed_from s = Some prev -> exists a0, (a0, prev) ∈ h /\ shares a0 a.

Inductive history : list (A * Session ServerSide) -> Prop :=
  | history_nil : history []
  | history_next h a s : history h -> establishes a s -> genuine h a s -> history ((a, s) :: h).

(** Every session goes back to a full handshake with the same client. *)
Lemma history_origin rustls webpki_client `{!AcceptLaws rustls webpki_client} `{!Transitive shares} h a s :
  history h -> (a, s) ∈ h ->
  exists a0 s0, (a0, s0) ∈ h /\ establishes a0 s0 /\ resumed_from s0 = None /\
    peer_certificates s0 = peer_certificates s /\ (a0 = a /\ s0 = s \/ resumed_from s <> None /\ shares a0 a).
Proof.
  intros Hh. revert a s. induction Hh as [|h b t Hh IH He Hg]; intros a s; [by intros ?%elem_of_nil|].
  rewrite elem_of_cons. intros [[= -> ->]|Hin].
  2:{ destruct (IH a s Hin) as (a0 & s0 & Hin0 & Hrest). exists a0, s0. split; [set_solver|done]. }
  destruct (resumed_from t) as [prev|] eqn:Hr.
  - destruct (Hg prev Hr) as (a1 & Hin1 & Hsh). destruct (IH a1 prev Hin1) as (a0 & s0 & Hin0 & He0 & Hn & Hp & Hor).
    exists a0, s0. split; [set_solver|]. rewrite Hp, (resumed_peer t prev Hr). split_and!; try done.
    right. split; [done|]. destruct Hor as [[-> _]|[_ ?]]; [done|]. by etrans.
  - exists b, t. split; [set_solver|]. split_and!; auto.
Qed.
End History.

Section Authentication.
Context `{TokioRustls} `{KeyLibs} `{Sha256} `{Digests} `{VerifyLibs} `{X509} `{SigPrims} `{OcspDer} `{RootSources}.
Context (rustls : CryptoProvider -> RustlsClient) (rustls_server : CryptoProvider -> RustlsServer)
  (webpki_client : CryptoProvider -> RootCertStore -> bool -> ClientCertVerifier)
  (feature_tls12 post_quantum in_tokio : bool) `{!Resumption} `{!AcceptLaws rustls webpki_client}.

Abbreviation verifier_of := (client_verifier_of rustls webpki_client).

(** *** Verdicts *)

(** A raw-key verifier accepts exactly the keys it was given, whatever else the
    client sends and whenever; it insists on a key, names no authorities, and refuses
    every TLS 1.2 signature. *)
Theorem raw_client_exact (self : RawPublicKeyClientVerifier) ee ints now :
  let v := raw_client_as_verifier rustls self in
  (verify_client_cert v ee ints now = Ok tt <-> ee ∈ client_trusted_spki self) /\
  (ee ∉ client_trusted_spki self -> verify_client_cert v ee ints now = Err APPLICATION_VERIFICATION_FAILURE) /\
  (forall m c d, exists e, client_verify_tls12_signature v m c d = Err e) /\
  client_auth_mandatory v = true /\ root_hint_subjects v = [] /\
  client_requires_raw_public_keys v = true.
Proof.
  cbn. unfold raw_verify_client_cert. rewrite pins_match.
  case_bool_decide; split_and!; try done; eauto; naive_solver.
Qed.

(** Certificates the WebPKI client verifier accepts over [roots]. *)
Definition webpki_client_accepts (p : CryptoProvider) (roots : RootCertStore) (allow : bool) (peer : option (list bytes)) : Prop :=
  exists ee ints now, peer = Some (ee :: ints) /\ verify_client_cert (webpki_client p roots allow) ee ints now = Ok tt.

Definition presents_key (trusted : list bytes) (peer : option (list bytes)) : Prop :=
  exists spki rest, peer = Some (spki :: rest) /\ spki ∈ trusted.

Lemma client_admitted_iff cfg peer :
  client_admitted (verifier_of cfg) peer <->
  match sc_client_verifier cfg with
  | NoClientVerifier => peer = None
  | WebPkiClient roots allow => (allow = true /\ peer = None) \/ webpki_client_accepts (sc_provider cfg) roots allow peer
  | RawKeyClient trusted => presents_key trusted peer
  end.
Proof.
  unfold client_admitted, client_verifier_of, webpki_client_accepts, presents_key.
  destruct (sc_client_verifier cfg) as [|roots allow|trusted].
  - by destruct peer.
  - destruct peer as [[|ee ints]|]; [naive_solver..|]. rewrite webpki_mandatory. destruct allow; naive_solver.
  - destruct peer as [[|k ints]|]; [naive_solver| |naive_solver].
    cbn. unfold raw_verify_client_cert. rewrite pins_match. cbn.
    case_bool_decide; split.
    + eauto.
    + by exists 0%Z.
    + intros [? Hx]. discriminate Hx.
    + intros (? & ? & [= <- <-] & ?). done.
Qed.

(** *** The facade *)

(** The clients a builder describes. *)
Definition client_ok (p : CryptoProvider) (b : ServerBuilder) (peer : option (list bytes)) : Prop :=
  match client_raw_public_keys b, client_verifier_roots b with
  | Some trusted, _ => presents_key trusted peer
  | None, Some roots => webpki_client_accepts p roots false peer
  | None, None => peer = None
  end.

(** The ticketer [build] installs. *)
Definition installed_ticketer (b : ServerBuilder) : option TicketerRef :=
  match rotation_ticketer b with Some (id, _) => Some (RefOxi id) | None => ticketer b end.

Abbreviation provider_of := (server_provider feature_tls12 post_quantum).

Lemma server_build_client b cfg task :
  ServerB.build rustls_server feature_tls12 post_quantum in_tokio b = Ok (cfg, task) ->
  sc_provider cfg = provider_of b /\ sc_ticketer cfg = installed_ticketer b /\
  ServerB.client_verifier rustls_server (provider_of b) b = Ok (sc_client_verifier cfg).
Proof.
  unfold ServerB.build. fold (provider_of b). intros Hb.
  apply bind_Ok in Hb as (? & _ & Hb). apply bind_Ok in Hb as (verifier & Hv & Hb).
  apply bind_Ok in Hb as (? & _ & Hb). apply bind_Ok in Hb as ([installed tsk] & Hi & Hb).
  injection Hb as <- <-. cbn. split_and!; [done| |done].
  unfold installed_ticketer. destruct (rotation_ticketer b) as [[id iv]|]; [|by injection Hi as <-].
  destruct in_tokio; by inversion Hi.
Qed.

Lemma admitted_client_ok b cfg task peer :
  ServerB.build rustls_server feature_tls12 post_quantum in_tokio b = Ok (cfg, task) ->
  client_admitted (verifier_of cfg) peer -> client_ok (provider_of b) b peer.
Proof.
  intros (Hp & _ & Hv)%server_build_client. rewrite client_admitted_iff. unfold client_ok.
  unfold ServerB.client_verifier in Hv. rewrite Hp in *. destruct (client_raw_public_keys b).
  { by injection Hv as <-. }
  destruct (client_verifier_roots b); [|by injection Hv as <-].
  apply bind_Ok in Hv as (? & _ & [= <-]). by intros [[[=] _]|?].
Qed.

Lemma client_ok_clone p b peer : client_ok p (ServerB.clone b) peer = client_ok p b peer.
Proof. by destruct b. Qed.
Lemma installed_ticketer_clone b : installed_ticketer (ServerB.clone b) = installed_ticketer b.
Proof. by destruct b. Qed.
Lemma provider_of_clone b : provider_of (ServerB.clone b) = provider_of b.
Proof. by destruct b. Qed.

(** The sessions the facade's acceptor establishes for a builder.  Every connection
    has its own configuration, so only tickets carry sessions from one to another. *)
Definition facade_establishes (b : ServerBuilder) (sess : Session ServerSide) : Prop :=
  exists (S : Type) (io : AsyncIo S) (stream : S) t s tls,
    (facade_accept rustls_server feature_tls12 post_quantum in_tokio b stream).1 = Some (t, Ok s) /\
    oxi_inner s = Server tls /\ sess = (get_ref tls).2.

Definition facade_shares (b0 b : ServerBuilder) : Prop := same_tickets (installed_ticketer b0) (installed_ticketer b).

#[local] Instance facade_shares_trans : Transitive facade_shares.
Proof. intros ???. apply same_tickets_trans. Qed.

(** A full handshake admits the clients the builder describes. *)
Lemma facade_full_handshake b sess :
  facade_establishes b sess -> resumed_from sess = None -> client_ok (provider_of b) b (peer_certificates sess).
Proof.
  intros (S & io & stream & t & s & tls & Ha & Hi & ->) Hn. revert Ha. unfold facade_accept, ServerB.acceptor_config.
  destruct (ServerB.build _ _ _ _ _) as [[cfg task]| |] eqn:Hb; [|done..]. cbn [fst].
  intros (r & Ha & Hr)%after_Some. destruct r as [tls'| |]; cbn in Hr; try done. injection Hr as ->.
  injection Hi as ->. apply accept_full in Ha; [|done].
  rewrite <- (client_ok_clone _ b), <- (provider_of_clone b). by eapply admitted_client_ok.
Qed.

(** C4: whom the facade's acceptors admit, over all the handshakes of a deployment.
    Each session belongs to a client that made a full handshake, now or earlier, with
    a server whose builder describes it: a trusted raw key, certificates that pass
    WebPKI over the client roots, or, if neither is set, nobody who was asked.  That
    server is this one, or, for a resumed session, one of the deployment whose
    tickets this one opens.  So a full handshake, and any session of a server without a
    ticketer, answers to this builder. *)
Theorem facade_accept_authenticates h b sess :
  history facade_establishes facade_shares h -> (b, sess) ∈ h ->
  let peer := peer_certificates sess in
  (exists b0 sess0, (b0, sess0) ∈ h /\ resumed_from sess0 = None /\ peer_certificates sess0 = peer /\
     client_ok (provider_of b0) b0 peer /\ (b0 = b \/ resumed_from sess <> None /\ facade_shares b0 b)) /\
  (resumed_from sess = None \/ installed_ticketer b = None -> client_ok (provider_of b) b peer).
Proof.
  intros Hh Hin. cbv zeta.
  destruct (history_origin _ _ rustls webpki_client h b sess Hh Hin) as (b0 & s0 & Hin0 & He & Hn & Hp & Hor).
  pose proof (facade_full_handshake _ _ He Hn) as Hok. rewrite Hp in Hok. split.
  - exists b0, s0. split_and!; try done. naive_solver.
  - intros Hcase. destruct Hor as [[-> ->]|[Hr (t & t' & _ & Ht & _)]]; [done|].
    destruct Hcase as [?|Hnone]; [done|congruence].
Qed.

(** *** The adapter *)

(** The acceptor of the adapter keeps its configuration, and with it the sessions it
    stores, over all its connections. *)
Definition adapter_establishes (cfg : ServerConfig) (sess : Session ServerSide) : Prop :=
  exists (S : Type) (io : AsyncIo S) (stream : S) t tls,
    accept_tcp (acceptor_new cfg) stream = Some (t, Ok tls) /\ sess = (get_ref tls).2.

Definition adapter_shares (cfg0 cfg : ServerConfig) : Prop :=
  cfg0 = cfg \/ same_tickets (sc_ticketer cfg0) (sc_ticketer cfg).

#[local] Instance adapter_shares_trans : Transitive adapter_shares.
Proof. intros c1 c2 c3 [->|H12] [->|H23]; unfold adapter_shares; auto. right. by etrans. Qed.

(** The same of the adapter's builder and acceptor without a ticketer: with client
    authentication, certificates that pass WebPKI over its roots, which only an
    optional one lets the client leave out; without, none. *)
Theorem adapter_accept_authenticates h (b : AdapterServer.RustcryptoServerConfigBuilder) cfg sess :
  AdapterServer.build rustls_server feature_tls12 b = Ok cfg -> AdapterServer.as_ticketer b = None ->
  history adapter_establishes adapter_shares h -> (cfg, sess) ∈ h ->
  let peer := peer_certificates sess in
  match AdapterServer.as_client_auth_required b, AdapterServer.as_client_auth_roots b with
  | Some required, Some roots =>
      (required = false /\ peer = None) \/ webpki_client_accepts (pure_provider feature_tls12) roots (negb required) peer
  | _, _ => peer = None
  end.
Proof.
  intros Hb Hnone Hh Hin. cbv zeta.
  destruct (history_origin _ _ rustls webpki_client h cfg sess Hh Hin) as (cfg0 & s0 & _ & He & Hn & <- & Hor).
  destruct He as (S & io & stream & t & tls & (r & Ha & Hr)%after_Some & ->).
  destruct r; try done. injection Hr as ->. apply accept_full in Ha; [|done]. cbn in Ha.
  unfold AdapterServer.build in Hb. apply bind_Ok in Hb as (key & _ & Hb). apply bind_Ok in Hb as (? & _ & Hb).
  apply bind_Ok in Hb as (verifier & Hv & Hb). apply bind_Ok in Hb as (? & _ & Hb). injection Hb as Hcfg.
  assert (cfg0 = cfg) as ->.
  { destruct Hor as [[-> _]|[_ [?|(? & ? & _ & Ht & _)]]]; [done..|]. rewrite <- Hcfg, Hnone in Ht. done. }
  rewrite <- Hcfg, client_admitted_iff in Ha. cbn in Ha.
  destruct (AdapterServer.as_client_auth_required b) as [required|], (AdapterServer.as_client_auth_roots b) as [roots|];
    inv_ok; simplify_eq/=; try done.
  destruct Ha as [[?%negb_true_iff ?]|?]; auto.
Qed.
End Authentication.

(** ** Witnesses *)

Module ClientAuthWitness.
Import Toy RootStoreWitness StreamsWitness.
#[local] Existing Instance list_lru.
#[local] Existing Instance ProviderWitness.keys.
#[local] Existing Instance ProviderWitness.verifiers.
#[local] Existing Instance queue_io.

Definition webpki_client (_ : CryptoProvider) (roots : RootCertStore) (allow : bool) : ClientCertVerifier := {|
  verify_client_cert _ _ _ := match roots with [] => Err (General "no roots") | _ => Ok tt end;
  client_verify_tls12_signature _ _ _ := Ok tt; client_verify_tls13_signature _ _ _ := Ok tt;
  client_supported_verify_schemes := []; client_requires_raw_public_keys := false;
  offer_client_auth := true; client_auth_mandatory := negb allow; root_hint_subjects := [] |}.

Abbreviation client_rustls := FacadeClientWitness.rustls.
Abbreviation server_rustls := FacadeServerWitness.rustls.

(** A client that presents [09] if it is asked; where that is refused, it presents the
    ticket of a session in which it was accepted, if there are tickets.  Resumed
    sessions have the secret [08]. *)
Definition full_session (peers : option (list bytes)) : ToySession := {| secret := Byte.x07; peers := peers |}.
Definition resumed_session (peers : option (list bytes)) : ToySession := {| secret := Byte.x08; peers := peers |}.

Definition toy_accept {S} (cfg : ServerConfig) (s : S) : Future (R IoError (S * ToySession)) :=
  Some (5%Z, match client_verifier_of client_rustls webpki_client cfg with
             | None => Ok (s, full_session None)
             | Some v =>
                 match verify_client_cert v [Byte.x09] [] 0 with
                 | Ok _ => Ok (s, full_session (Some [[Byte.x09]]))
                 | _ =>
                     match sc_ticketer cfg with
                     | Some _ => Ok (s, resumed_session (Some [[Byte.x09]]))
                     | None => Err {| io_kind := InvalidData; io_message := "refused" |}
                     end
                 end
             end).

#[local] Instance server_tokio : TokioRustls := {
  server_name_try_from := @server_name_try_from _ toy_tokio;
  TlsStream _ S := (S * ToySession)%type;
  Session _ := ToySession;
  tls_io side S _ := @tls_io _ toy_tokio side S _;
  connect S _ := toy_connect;
  accept S _ := toy_accept;
  get_ref _ _ s := s;
  into_inner _ _ s := s;
  common_state := @common_state _ toy_tokio;
  peer_certificates _ := peers;
  WriteEarlyData := unit;
  session_early_data _ := None;
  session_ech_status _ := EchNotOffered;
  session_export _ s out _ _ := toy_export s out;
}.

#[local] Instance toy_resumption : Resumption := fun s : ToySession =>
  if bool_decide (secret s = Byte.x08) then Some (full_session (peers s)) else None.

#[local] Instance accept_laws : @AcceptLaws _ server_tokio toy_resumption client_rustls webpki_client.
Proof.
  constructor; [| |done].
  2:{ intros [sec ps] prev. unfold resumed_from, toy_resumption. case_bool_decide; [|done]. by intros [= <-]. }
  intros S io cfg s t tls. cbn. unfold toy_accept. intros [= _ Ha] Hn. unfold client_admitted.
  destruct (client_verifier_of client_rustls webpki_client cfg) as [v|]; [|by injection Ha as <-].
  destruct (verify_client_cert v [Byte.x09] [] 0) as [[]| |] eqn:Hv; [injection Ha as <-; by exists 0%Z|..];
    (destruct (sc_ticketer cfg); [|done]); injection Ha as <-; discriminate Hn.
Defined.

(** Servers with one ticketer that trust one raw key each. *)
Definition trusting (key : byte) : ServerBuilder :=
  ServerB.with_ticketer (ServerB.with_client_raw_public_keys FacadeServerWitness.plain [[key]]) (RefExternal 1).

Abbreviation establishes := (facade_establishes server_rustls true false true).

(** The client was admitted by the server that trusts [09], and goes on to the one
    that trusts [08] with its ticket. *)
Definition log : list (ServerBuilder * Session ServerSide) :=
  [(trusting Byte.x08, resumed_session (Some [[Byte.x09]])); (trusting Byte.x09, full_session (Some [[Byte.x09]]))].

Lemma accepted_by (b : ServerBuilder) (sess : ToySession) :
  bool_decide (match (facade_accept server_rustls true false true b ([] : bytes)).1 with
               | Some (_, Ok s) => match oxi_inner s with Server tls => Some (peers tls.2, secret tls.2) | Client _ => None end
               | _ => None
               end = Some (peers sess, secret sess)) = true ->
  establishes b sess.
Proof.
  intros Hb%bool_decide_eq_true. destruct (facade_accept server_rustls true false true b ([] : bytes)).1 as [[t [s| |]]|] eqn:Ha; try done.
  destruct (oxi_inner s) as [|tls] eqn:Hi; [done|]. exists bytes, queue_io, [], t, s, tls. split_and!; try done.
  destruct sess, tls as [q [sec ps]]. cbn in *. by injection Hb as -> ->.
Qed.

Lemma log_history : history establishes facade_shares log.
Proof.
  refine (history_next _ _ [(_, _)] _ _ (history_next _ _ [] _ _ (history_nil _ _) _ _) _ _).
  - apply accepted_by. vm_compute. reflexivity.
  - intros prev Hr. discriminate Hr.
  - apply accepted_by. vm_compute. reflexivity.
  - intros prev [= <-]. exists (trusting Byte.x09). split; [set_solver|]. by eexists _, _.
Qed.

(** The server that trusts [08] serves a client with the key [09], and the full
    handshake was made with the other. *)
Lemma facade_accept_authenticates_witness :
  exists b0, b0 <> trusting Byte.x08 /\ facade_shares b0 (trusting Byte.x08) /\
    client_ok webpki_client (server_provider true false b0) b0 (Some [[Byte.x09]]) /\
    ~ client_ok webpki_client (server_provider true false (trusting Byte.x08)) (trusting Byte.x08) (Some [[Byte.x09]]).
Proof.
  assert (~ client_ok webpki_client (server_provider true false (trusting Byte.x08)) (trusting Byte.x08) (Some [[Byte.x09]])) as Hno.
  { intros (spki & rest & [= <- <-] & Hin). vm_compute in Hin. apply list_elem_of_singleton in Hin. discriminate Hin. }
  destruct (facade_accept_authenticates client_rustls server_rustls webpki_client true false true log
    (trusting Byte.x08) (resumed_session (Some [[Byte.x09]])) log_history (list_elem_of_here _ _))
    as [(b0 & s0 & _ & _ & _ & Hok & Hor) _].
  exists b0. destruct Hor as [->|[_ Hsh]]; [destruct (Hno Hok)|].
  split; [intros ->; exact (Hno Hok)|]. split; [exact Hsh|]. split; [exact Hok|exact Hno].
Defined.

Definition auth_builder (required : bool) : AdapterServer.RustcryptoServerConfigBuilder :=
  AdapterServer.with_client_auth (AdapterServer.with_cert_and_key AdapterServer.new [[Byte.x01]] (Pkcs8 [Byte.x02])) required [].

Definition auth_config (required : bool) : R TlsError ServerConfig :=
  AdapterServer.build server_rustls true (auth_builder required).

(** No certificate passes over an empty store. *)
Lemma adapter_accept_authenticates_witness cfg sess h :
  auth_config true = Ok cfg -> history adapter_establishes adapter_shares h -> (cfg, sess) ∉ h.
Proof.
  intros Hb Hh Hin.
  pose proof (adapter_accept_authenticates client_rustls server_rustls webpki_client true h (auth_builder true) cfg
    sess Hb eq_refl Hh Hin) as Hok. cbn in Hok.
  destruct Hok as [[[=] _]|(ee & ints & now & _ & [=])].
Defined.
End ClientAuthWitness.
