(* ===== verification/AwsProvider.v ===== *)
(** * AwsProvider: the aws-lc adapter

    crates/oxitls-adapter-aws-lc/src: provider.rs, provider_type.rs, client.rs,
    server.rs, fips.rs, error.rs and the functions of lib.rs (ticketer.rs is file
    AwsTickets).  aws-lc-rs is its default provider, its answer about FIPS mode and
    the [Debug] names of its suites and groups; rustls' builders are the interfaces
    of FacadeClient and FacadeServer. *)

From S2P Require Import Prelude Core Crypto KeyLog Verifier RootStore ClientBuilder.
From S2P Require Import KeyExchange Provider FacadeClient FacadeServer.

(** ** error.rs *)

(** The arguments are the [Debug] texts of the aws-lc-rs errors. *)
Definition unspecified_to_tls_error (e : string) : TlsError := Other ("aws-lc-rs error: " +:+ e).

Definition key_rejected_to_tls_error (e : string) : TlsError := InvalidConfig ("aws-lc-rs key rejected: " +:+ e).

Definition rustls_error_to_tls_error (rustls_display : RustlsError -> string) (e : RustlsError) : TlsError :=
  match e with
  | InvalidCertificate reason => CertInvalid (certificate_error_debug reason)
  | RustlsAlertReceived alert _ => AlertReceived (alert_from_u8 alert)
  | PeerIncompatible reason => ProtocolViolation reason
  | PeerMisbehaved reason => ProtocolViolation reason
  | General msg => Other msg
  | other => Other (rustls_display other)
  end.

(** ** The library *)

Class AwsLc := {
  default_provider : CryptoProvider;
  try_fips_mode : string + unit;
  suite_debug : SupportedCipherSuite -> string;
  group_debug : NamedGroup -> string;
}.

Section Aws.
Context `{Lru} `{AwsLc}.

(** ** provider.rs, fips.rs and lib.rs *)

Definition aws_lc_provider : CryptoProvider := default_provider.

Definition is_fips_mode : bool := match try_fips_mode with inr _ => true | inl _ => false end.

Definition aws_lc_provider_tls12_only : CryptoProvider * list Z := (aws_lc_provider, [TLS12]).

Definition aws_lc_provider_with_cipher_suites (suites : list SupportedCipherSuite) : CryptoProvider :=
  let p := default_provider in
  {| cipher_suites := suites; kx_groups := kx_groups p;
     signature_verification_algorithms := signature_verification_algorithms p;
     secure_random := secure_random p; load_private_key := load_private_key p |}.

Definition supported_cipher_suites : list string := suite_debug <$> cipher_suites aws_lc_provider.

Definition supported_kx_groups : list string := group_debug <$> kx_groups aws_lc_provider.

(** ** client.rs and server.rs *)

Context (rustls : CryptoProvider -> RustlsClient) (rustls_server : CryptoProvider -> RustlsServer).

Definition set_alpn (cfg : FacadeConfig) (alpn : list bytes) : FacadeConfig :=
  {| fc_provider := fc_provider cfg; fc_versions := fc_versions cfg; fc_verifier := fc_verifier cfg;
     fc_client_auth := fc_client_auth cfg; fc_alpn_protocols := alpn; fc_key_log := fc_key_log cfg;
     fc_resumption := fc_resumption cfg; fc_enable_early_data := fc_enable_early_data cfg;
     fc_cert_compression := fc_cert_compression cfg |}.

Definition aws_lc_client_config (roots : RootCertStore) (alpn : list bytes) : R TlsError FacadeConfig :=
  let provider := aws_lc_provider in
  _ ← map_err InvalidConfig (of_sum (@safe_default_protocol_versions (rustls_webpki (rustls provider))));
  let cfg := {| fc_provider := provider; fc_versions := SafeDefaults;
    fc_verifier := webpki_as_verifier (with_root_certificates (rustls provider) roots);
    fc_client_auth := NoClientAuth; fc_alpn_protocols := []; fc_key_log := None;
    fc_resumption := InMemorySessions 256; fc_enable_early_data := false; fc_cert_compression := false |} in
  Ok (if bool_decide (alpn = []) then cfg else set_alpn cfg alpn).

Definition aws_lc_mtls_client_config (roots : RootCertStore) (client_cert_chain : list bytes) (client_key : PrivateKeyDer)
  : R TlsError FacadeConfig :=
  let provider := aws_lc_provider in
  _ ← map_err InvalidConfig (of_sum (@safe_default_protocol_versions (rustls_webpki (rustls provider))));
  _ ← map_err BadCert (of_sum (client_auth_cert_ok (rustls provider) client_cert_chain client_key));
  Ok {| fc_provider := provider; fc_versions := SafeDefaults;
    fc_verifier := webpki_as_verifier (with_root_certificates (rustls provider) roots);
    fc_client_auth := AuthCert client_cert_chain client_key; fc_alpn_protocols := []; fc_key_log := None;
    fc_resumption := InMemorySessions 256; fc_enable_early_data := false; fc_cert_compression := false |}.

Definition aws_lc_server_config (certs : list bytes) (key : PrivateKeyDer) (alpn : list bytes) : R TlsError ServerConfig :=
  let provider := aws_lc_provider in
  _ ← map_err InvalidConfig (of_sum (safe_default_versions_ok (rustls_server provider)));
  _ ← map_err BadCert (of_sum (single_cert_ok (rustls_server provider) certs key None));
  let config alpn := {| sc_provider := provider; sc_versions := SafeDefaults; sc_client_verifier := NoClientVerifier;
    sc_resolver := SingleCert certs key None; sc_alpn_protocols := alpn; sc_ticketer := None;
    sc_max_fragment_size := None; sc_max_early_data_size := 0; sc_key_log := None; sc_cert_compression := false |} in
  Ok (if bool_decide (alpn = []) then config [] else config alpn).

(** ** provider_type.rs *)

Record AwsLcTlsProvider := { aws_inner : CryptoProvider }.

Definition aws_tls_new : AwsLcTlsProvider := {| aws_inner := aws_lc_provider |}.

Definition aws_tls_with_cipher_suites (suites : list SupportedCipherSuite) : AwsLcTlsProvider :=
  {| aws_inner := aws_lc_provider_with_cipher_suites suites |}.

Definition aws_tls_tls12_only (self : AwsLcTlsProvider) : AwsLcTlsProvider * list Z :=
  let '(provider, versions) := aws_lc_provider_tls12_only in ({| aws_inner := provider |}, versions).

Definition aws_tls_is_fips (self : AwsLcTlsProvider) : bool := is_fips_mode.

Definition aws_tls_cipher_suites (self : AwsLcTlsProvider) : list string := suite_debug <$> cipher_suites (aws_inner self).

Definition aws_tls_kx_groups (self : AwsLcTlsProvider) : list string := group_debug <$> kx_groups (aws_inner self).

Definition aws_tls_client_config (self : AwsLcTlsProvider) (roots : RootCertStore) : R TlsError FacadeConfig :=
  aws_lc_client_config roots [].

Definition aws_tls_mtls_client_config (self : AwsLcTlsProvider) (roots : RootCertStore) (cert_chain : list bytes)
  (key : PrivateKeyDer) : R TlsError FacadeConfig :=
  aws_lc_mtls_client_config roots cert_chain key.

Definition aws_tls_server_config (self : AwsLcTlsProvider) (cert_chain : list bytes) (key : PrivateKeyDer) : R TlsError ServerConfig :=
  aws_lc_server_config cert_chain key [].

Definition aws_tls_as_provider (self : AwsLcTlsProvider) : CryptoProvider := aws_inner self.

Definition aws_tls_default : AwsLcTlsProvider := aws_tls_new.
End Aws.

(** ** Properties *)

(** The conversion of rustls errors and the one of oxitls-core agree on everything
    but four kinds: an alert is [AlertReceived] here and a handshake error there, and
    missing certificates, an unsupported name type and a bad fragment size, which
    have classes of their own there, are [Other] here. *)
Theorem aws_errors_mirror show e :
  rustls_error_to_tls_error show e = tls_error_from_rustls show e <->
  match e with
  | RustlsAlertReceived _ _ | NoCertificatesPresented | UnsupportedNameType | BadMaxFragmentSize => False
  | _ => True
  end.
Proof. by destruct e. Qed.

Lemma aws_alert_codes show code debug : to_u8 (match rustls_error_to_tls_error show (RustlsAlertReceived code debug) with
  | AlertReceived d => d | _ => CloseNotify end) = code.
Proof. apply to_u8_alert_from_u8. Qed.

Section AwsProperties.
Context `{Lru} `{AwsLc} (rustls : CryptoProvider -> RustlsClient) (rustls_server : CryptoProvider -> RustlsServer).

(** The configurations of [AwsLcTlsProvider] do not depend on the provider it
    holds: every one is built with the default suites, so a restriction given to
    [with_cipher_suites] reaches only [as_provider] and [cipher_suites], and
    [tls12_only] drops it there too. *)
Theorem aws_restriction_lost (suites : list SupportedCipherSuite) roots chain key :
  let restricted := aws_tls_with_cipher_suites suites in
  cipher_suites (aws_tls_as_provider restricted) = suites /\
  aws_tls_cipher_suites restricted = suite_debug <$> suites /\
  (aws_tls_tls12_only restricted).1 = aws_tls_new /\
  (forall cfg, aws_tls_client_config rustls restricted roots = Ok cfg -> fc_provider cfg = default_provider) /\
  (forall cfg, aws_tls_mtls_client_config rustls restricted roots chain key = Ok cfg -> fc_provider cfg = default_provider) /\
  (forall cfg, aws_tls_server_config rustls_server restricted chain key = Ok cfg -> sc_provider cfg = default_provider).
Proof.
  cbv zeta. split_and!; try done.
  - by intros cfg (_ & _ & [= <-])%bind_Ok.
  - by intros cfg (_ & _ & (_ & _ & [= <-])%bind_Ok)%bind_Ok.
  - by intros cfg (_ & _ & (_ & _ & [= <-])%bind_Ok)%bind_Ok.
Qed.

(** The outcome of the configuration builders: a version refusal is
    [InvalidConfig], a refused certificate or key [BadCert], nothing panics, and
    otherwise the configuration verifies servers against exactly the given roots and
    carries the certificate and the protocols it was given. *)
Theorem aws_configs_exact roots chain key alpn :
  let p := default_provider in
  let client := aws_lc_client_config rustls roots alpn in
  let mtls := aws_lc_mtls_client_config rustls roots chain key in
  let server := aws_lc_server_config rustls_server chain key alpn in
  match @safe_default_protocol_versions (rustls_webpki (rustls p)) with
  | inl e => client = Err (InvalidConfig e) /\ mtls = Err (InvalidConfig e)
  | inr _ =>
      (exists cfg, client = Ok cfg /\ fc_alpn_protocols cfg = alpn /\ fc_client_auth cfg = NoClientAuth /\
         fc_verifier cfg = webpki_as_verifier (with_root_certificates (rustls p) roots)) /\
      match client_auth_cert_ok (rustls p) chain key with
      | inl e => mtls = Err (BadCert e)
      | inr _ => exists cfg, mtls = Ok cfg /\ fc_client_auth cfg = AuthCert chain key /\ fc_alpn_protocols cfg = [] /\
                   fc_verifier cfg = webpki_as_verifier (with_root_certificates (rustls p) roots)
      end
  end /\
  match safe_default_versions_ok (rustls_server p), single_cert_ok (rustls_server p) chain key None with
  | inl e, _ => server = Err (InvalidConfig e)
  | inr _, inl e => server = Err (BadCert e)
  | inr _, inr _ => exists cfg, server = Ok cfg /\ sc_alpn_protocols cfg = alpn /\
                      sc_resolver cfg = SingleCert chain key None /\ sc_client_verifier cfg = NoClientVerifier
  end.
Proof.
  cbv zeta. unfold aws_lc_client_config, aws_lc_mtls_client_config, aws_lc_server_config, aws_lc_provider. split.
  - destruct (@safe_default_protocol_versions _) as [e|[]]; cbn; [done|]. split.
    + eexists. split; [done|]. by case_bool_decide; subst.
    + destruct (client_auth_cert_ok _ _ _) as [e|[]]; cbn; [done|]. by eexists.
  - destruct (safe_default_versions_ok _) as [e|[]]; cbn; [done|].
    destruct (single_cert_ok _ _ _ _) as [e|[]]; cbn; [done|]. eexists. split; [done|]. by case_bool_decide; subst.
Qed.
End AwsProperties.
