(* ===== verification/RcgenKeys.v ===== *)
(** * RcgenKeys: the signing keys of certificate generation

    crates/oxitls-rcgen/src/keypair.rs: Ed25519, ECDSA P-256 and P-384, and RSA keys
    that implement rcgen's [PublicKeyData] and [SigningKey].  The crates that do the
    arithmetic are the records [EcdsaCrate] and the class [KeyCrates]. *)

From S2P Require Import Prelude Core Crypto.

(** ** What rcgen takes *)

Inductive RcgenAlgorithm := PKCS_ED25519 | PKCS_ECDSA_P256_SHA256 | PKCS_ECDSA_P384_SHA384 | PKCS_RSA_SHA256.

#[export] Instance RcgenAlgorithm_eq_dec : EqDecision RcgenAlgorithm.
Proof. solve_decision. Defined.

Inductive RcgenError := RingUnspecified | OtherRcgenError (text : string).

(** The traits [PublicKeyData] and [SigningKey]. *)
Record PublicKeyData := { der_bytes : bytes; algorithm : RcgenAlgorithm }.

Record RcgenKey := { key_public : PublicKeyData; key_sign : bytes -> R RcgenError bytes }.

(** ** The key crates *)

(** [p256::ecdsa] and [p384::ecdsa]: the size of a scalar, keys from scalars, the
    uncompressed point, PKCS#8 (an error is its text), signatures in DER. *)
Record EcdsaCrate := {
  scalar_len : nat;
  ec_key : Type;
  ec_from_bytes : bytes -> option ec_key;
  ec_sec1_point : ec_key -> bytes;
  ec_to_pkcs8_der : ec_key -> string + bytes;
  ec_sign_der : ec_key -> bytes -> bytes;
}.

(** [ed25519_dalek] and [rsa].  What draws random numbers is given the [World] and
    panics with it. *)
Class KeyCrates := {
  p256_crate : EcdsaCrate;
  p384_crate : EcdsaCrate;
  dalek_key : Type;
  dalek_from_bytes : bytes -> dalek_key;
  dalek_verifying_key : dalek_key -> bytes;
  dalek_to_pkcs8_der : dalek_key -> string + bytes;
  dalek_sign : dalek_key -> bytes -> bytes;
  rsa_private : Type;
  rsa_private_new : World -> Z -> R string rsa_private;
  rsa_private_from_pkcs8 : bytes -> string + rsa_private;
  rsa_public_pkcs1 : rsa_private -> string + bytes;
  rsa_to_pkcs8_der : rsa_private -> string + bytes;
  rsa_pkcs1v15_sha256_sign : World -> rsa_private -> bytes -> R unit bytes;
}.

(** The answers of [getrandom::fill] to the calls of one function: the number of
    the call and the size of its buffer. *)
Abbreviation Fills := (nat -> nat -> string + bytes).

Section Keys.
Context `{KeyCrates}.

(** ** Ed25519 *)

Record OxiEd25519Key := { ed_inner : dalek_key; ed_pub_key_bytes : bytes; ed_pkcs8_der_bytes : bytes }.

Definition ed_from_seed (seed : bytes) : R TlsError OxiEd25519Key :=
  let inner := dalek_from_bytes seed in
  let pub_key_bytes := dalek_verifying_key inner in
  doc ← map_err Other (of_sum (dalek_to_pkcs8_der inner));
  Ok {| ed_inner := inner; ed_pub_key_bytes := pub_key_bytes; ed_pkcs8_der_bytes := doc |}.

Definition ed_generate (fills : Fills) : R TlsError OxiEd25519Key :=
  seed ← map_err Other (of_sum (fills 0 32));
  ed_from_seed seed.

Definition ed_pkcs8_der (self : OxiEd25519Key) : bytes := ed_pkcs8_der_bytes self.

Definition ed_public_key (self : OxiEd25519Key) : PublicKeyData :=
  {| der_bytes := ed_pub_key_bytes self; algorithm := PKCS_ED25519 |}.

Definition ed_signing_key (self : OxiEd25519Key) : RcgenKey :=
  {| key_public := ed_public_key self; key_sign msg := Ok (dalek_sign (ed_inner self) msg) |}.

(** ** ECDSA

    The two key types have the same code; [C] is the crate they are built on. *)

Section Ecdsa.
Context (C : EcdsaCrate).

Record OxiEcdsaKey := { ecdsa_inner : ec_key C; uncompressed_pub : bytes; ecdsa_pkcs8_der_bytes : bytes }.

Definition try_from_scalar (scalar : bytes) : R TlsError (option OxiEcdsaKey) :=
  match ec_from_bytes C scalar with
  | None => Ok None
  | Some inner =>
      doc ← map_err Other (of_sum (ec_to_pkcs8_der C inner));
      let uncompressed_pub := ec_sec1_point C inner in
      Ok (Some {| ecdsa_inner := inner; uncompressed_pub := uncompressed_pub; ecdsa_pkcs8_der_bytes := doc |})
  end.

(** The [loop]: [i] counts its turns; without fuel it is still running. *)
Fixpoint generate_loop (fuel : nat) (fills : Fills) (i : nat) : option (R TlsError OxiEcdsaKey) :=
  match fuel with
  | O => None
  | S fuel =>
      match (scalar ← map_err Other (of_sum (fills i (scalar_len C))); try_from_scalar scalar) with
      | Ok (Some key) => Some (Ok key)
      | Ok None => generate_loop fuel fills (S i)
      | Err e => Some (Err e)
      | Panic => Some Panic
      end
  end.

Definition ecdsa_sign (self : OxiEcdsaKey) (msg : bytes) : R RcgenError bytes := Ok (ec_sign_der C (ecdsa_inner self) msg).
End Ecdsa.

Definition OxiEcdsaP256Key : Type := OxiEcdsaKey p256_crate.
Definition OxiEcdsaP384Key : Type := OxiEcdsaKey p384_crate.

Definition p256_try_from_scalar (scalar : bytes) : R TlsError (option OxiEcdsaP256Key) := try_from_scalar p256_crate scalar.
Definition p384_try_from_scalar (scalar : bytes) : R TlsError (option OxiEcdsaP384Key) := try_from_scalar p384_crate scalar.

Definition p256_key_generate (fuel : nat) (fills : Fills) : option (R TlsError OxiEcdsaP256Key) :=
  generate_loop p256_crate fuel fills 0.
Definition p384_key_generate (fuel : nat) (fills : Fills) : option (R TlsError OxiEcdsaP384Key) :=
  generate_loop p384_crate fuel fills 0.

Definition p256_signing_key (self : OxiEcdsaP256Key) : RcgenKey :=
  {| key_public := {| der_bytes := uncompressed_pub _ self; algorithm := PKCS_ECDSA_P256_SHA256 |};
     key_sign := ecdsa_sign p256_crate self |}.
Definition p384_signing_key (self : OxiEcdsaP384Key) : RcgenKey :=
  {| key_public := {| der_bytes := uncompressed_pub _ self; algorithm := PKCS_ECDSA_P384_SHA384 |};
     key_sign := ecdsa_sign p384_crate self |}.

(** ** RSA

    The two sizes differ in the modulus and in the texts of their errors. *)

Record OxiRsaKey := { rsa_inner : rsa_private; rsa_pub_key_der : bytes; rsa_pkcs8_der_bytes : bytes }.

Definition rsa_from_inner (label : string) (inner : rsa_private) : R TlsError OxiRsaKey :=
  pub_key_der ← map_err (fun e => Other (label +:+ " pubkey PKCS#1 DER: " +:+ e)) (of_sum (rsa_public_pkcs1 inner));
  pkcs8_der_bytes ← map_err (fun e => Other (label +:+ " PKCS#8 DER: " +:+ e)) (of_sum (rsa_to_pkcs8_der inner));
  Ok {| rsa_inner := inner; rsa_pub_key_der := pub_key_der; rsa_pkcs8_der_bytes := pkcs8_der_bytes |}.

Definition rsa4096_from_inner (inner : rsa_private) : R TlsError OxiRsaKey := rsa_from_inner "RSA-4096" inner.

Definition rsa2048_generate (w : World) : R TlsError OxiRsaKey :=
  inner ← map_err (fun e => Other ("RSA-2048 keygen: " +:+ e)) (rsa_private_new w 2048);
  rsa_from_inner "RSA-2048" inner.

Definition rsa4096_generate (w : World) : R TlsError OxiRsaKey :=
  inner ← map_err (fun e => Other ("RSA-4096 keygen: " +:+ e)) (rsa_private_new w 4096);
  rsa4096_from_inner inner.

Definition rsa2048_from_pkcs8_der (der : bytes) : R TlsError OxiRsaKey :=
  inner ← map_err (fun e => Other ("RSA-2048 PKCS#8 parse: " +:+ e)) (of_sum (rsa_private_from_pkcs8 der));
  rsa_from_inner "RSA-2048" inner.

Definition rsa4096_from_pkcs8_der (der : bytes) : R TlsError OxiRsaKey :=
  inner ← map_err (fun e => Other ("RSA-4096 PKCS#8 parse: " +:+ e)) (of_sum (rsa_private_from_pkcs8 der));
  rsa4096_from_inner inner.

Definition rsa_sign (w : World) (self : OxiRsaKey) (msg : bytes) : R RcgenError bytes :=
  map_err (fun _ => RingUnspecified) (rsa_pkcs1v15_sha256_sign w (rsa_inner self) msg).

Definition rsa_public_key (self : OxiRsaKey) : PublicKeyData :=
  {| der_bytes := rsa_pub_key_der self; algorithm := PKCS_RSA_SHA256 |}.

Definition rsa_as_signing_key (w : World) (self : OxiRsaKey) : RcgenKey :=
  {| key_public := rsa_public_key self; key_sign := rsa_sign w self |}.

(** ** The key of a CA, as cert.rs keeps it *)

Inductive CaSignerInner :=
  | SignerEd25519 (k : OxiEd25519Key)
  | SignerP256 (k : OxiEcdsaP256Key)
  | SignerP384 (k : OxiEcdsaP384Key)
  | SignerRsa2048 (k : OxiRsaKey)
  | SignerRsa4096 (k : OxiRsaKey).

Definition signer_key (w : World) (s : CaSignerInner) : RcgenKey :=
  match s with
  | SignerEd25519 k => ed_signing_key k
  | SignerP256 k => p256_signing_key k
  | SignerP384 k => p384_signing_key k
  | SignerRsa2048 k | SignerRsa4096 k => rsa_as_signing_key w k
  end.

Definition signer_public (s : CaSignerInner) : PublicKeyData :=
  match s with
  | SignerEd25519 k => ed_public_key k
  | SignerP256 k => key_public (p256_signing_key k)
  | SignerP384 k => key_public (p384_signing_key k)
  | SignerRsa2048 k | SignerRsa4096 k => rsa_public_key k
  end.

Definition signer_pkcs8_der (s : CaSignerInner) : bytes :=
  match s with
  | SignerEd25519 k => ed_pkcs8_der k
  | SignerP256 k => ecdsa_pkcs8_der_bytes _ k
  | SignerP384 k => ecdsa_pkcs8_der_bytes _ k
  | SignerRsa2048 k | SignerRsa4096 k => rsa_pkcs8_der_bytes k
  end.

Inductive SigningAlgorithm := AlgEd25519 | EcdsaP256 | EcdsaP384 | Rsa2048 | Rsa4096.

Definition as_signer {A} (variant : A -> CaSignerInner) (key : R TlsError A) : R TlsError CaSignerInner :=
  variant <$> key.

(** [OxiEd25519Key::generate()?] and its siblings, by the algorithm asked for, in
    the enum above. *)
Definition generate_key (alg : SigningAlgorithm) (w : World) (fuel : nat) (fills : Fills) : option (R TlsError CaSignerInner) :=
  match alg with
  | AlgEd25519 => Some (as_signer SignerEd25519 (ed_generate fills))
  | EcdsaP256 => r ← p256_key_generate fuel fills; Some (as_signer SignerP256 r)
  | EcdsaP384 => r ← p384_key_generate fuel fills; Some (as_signer SignerP384 r)
  | Rsa2048 => Some (as_signer SignerRsa2048 (rsa2048_generate w))
  | Rsa4096 => Some (as_signer SignerRsa4096 (rsa4096_generate w))
  end.
End Keys.

(** ** Properties *)

(** When a draw ends the loop: it fails, it is a key, or its key cannot be
    serialised. *)
Definition draw_ends (C : EcdsaCrate) (fills : Fills) (i : nat) : bool :=
  match fills i (scalar_len C) with
  | inl _ => true
  | inr scalar => match ec_from_bytes C scalar with Some _ => true | None => false end
  end.

Lemma generate_loop_skip C fuel fills i n :
  (forall j, j < n -> draw_ends C fills (i + j) = false) ->
  generate_loop C (n + fuel) fills i = generate_loop C fuel fills (i + n).
Proof.
  revert i. induction n as [|n IH]; intros i Hn; [by rewrite Nat.add_0_r|].
  pose proof (Hn 0 ltac:(lia)) as H0. rewrite Nat.add_0_r in H0. unfold draw_ends in H0. cbn [Nat.add generate_loop].
  destruct (fills i (scalar_len C)) as [e|scalar]; [done|]. cbn. unfold try_from_scalar.
  destruct (ec_from_bytes C scalar); [done|]. rewrite IH; [f_equal; lia|].
  intros j Hj. rewrite <- (Hn (S j)) by lia. f_equal. lia.
Qed.

(** C37: generating an ECDSA key ends with the first draw that is a valid scalar or
    an error, whatever more fuel it is given, and the key it returns is the one of
    that scalar; while every draw is refused the loop goes on. *)
Theorem ecdsa_generate_ends C fills n fuel :
  (forall j, j < n -> draw_ends C fills j = false) ->
  (draw_ends C fills n = true -> n < fuel ->
   generate_loop C fuel fills 0
   = Some (match fills n (scalar_len C) with
           | inl e => Err (Other e)
           | inr scalar =>
               match ec_from_bytes C scalar with
               | Some k =>
                   match ec_to_pkcs8_der C k with
                   | inl e => Err (Other e)
                   | inr doc => Ok {| ecdsa_inner := k; uncompressed_pub := ec_sec1_point C k;
                                      ecdsa_pkcs8_der_bytes := doc |}
                   end
               | None => Panic
               end
           end)) /\
  (fuel <= n -> generate_loop C fuel fills 0 = None).
Proof.
  intros Hn. split.
  - intros He Hf. replace fuel with (n + S (fuel - n - 1)) by lia.
    rewrite generate_loop_skip by exact Hn. cbn [generate_loop Nat.add]. unfold draw_ends in He.
    destruct (fills n (scalar_len C)) as [e|scalar]; [done|]. cbn. unfold try_from_scalar.
    destruct (ec_from_bytes C scalar) as [k|]; [|done]. by destruct (ec_to_pkcs8_der C k).
  - intros Hf. replace fuel with (fuel + 0) by lia. rewrite generate_loop_skip by (intros; apply Hn; lia). done.
Qed.

(** *** Keys that fit together *)

(** What the key crates promise: a signature verifies under the public key. *)
Class KeyVerify := key_verify : RcgenAlgorithm -> bytes -> bytes -> bytes -> bool.

Class KeyCratesLaws `{KeyCrates} `{KeyVerify} := {
  dalek_verifies : forall k m, key_verify PKCS_ED25519 (dalek_verifying_key k) m (dalek_sign k m) = true;
  p256_verifies : forall k m,
    key_verify PKCS_ECDSA_P256_SHA256 (ec_sec1_point p256_crate k) m (ec_sign_der p256_crate k m) = true;
  p384_verifies : forall k m,
    key_verify PKCS_ECDSA_P384_SHA384 (ec_sec1_point p384_crate k) m (ec_sign_der p384_crate k m) = true;
  rsa_verifies : forall w k pub m sig,
    rsa_public_pkcs1 k = inr pub -> rsa_pkcs1v15_sha256_sign w k m = Ok sig ->
    key_verify PKCS_RSA_SHA256 pub m sig = true;
}.

Section KeyProperties.
Context `{KeyCrates}.

(** The cached public key and PKCS#8 form are those of the private key. *)
Definition signer_ok (s : CaSignerInner) : Prop :=
  match s with
  | SignerEd25519 k =>
      ed_pub_key_bytes k = dalek_verifying_key (ed_inner k) /\ dalek_to_pkcs8_der (ed_inner k) = inr (ed_pkcs8_der_bytes k)
  | SignerP256 k =>
      uncompressed_pub _ k = ec_sec1_point _ (ecdsa_inner _ k) /\
      ec_to_pkcs8_der _ (ecdsa_inner _ k) = inr (ecdsa_pkcs8_der_bytes _ k)
  | SignerP384 k =>
      uncompressed_pub _ k = ec_sec1_point _ (ecdsa_inner _ k) /\
      ec_to_pkcs8_der _ (ecdsa_inner _ k) = inr (ecdsa_pkcs8_der_bytes _ k)
  | SignerRsa2048 k | SignerRsa4096 k =>
      rsa_public_pkcs1 (rsa_inner k) = inr (rsa_pub_key_der k) /\ rsa_to_pkcs8_der (rsa_inner k) = inr (rsa_pkcs8_der_bytes k)
  end.

Lemma generate_loop_Ok C fuel fills i k :
  generate_loop C fuel fills i = Some (Ok k) ->
  uncompressed_pub C k = ec_sec1_point C (ecdsa_inner C k) /\
  ec_to_pkcs8_der C (ecdsa_inner C k) = inr (ecdsa_pkcs8_der_bytes C k).
Proof.
  revert i. induction fuel as [|fuel IH]; intros i; [done|]. cbn [generate_loop].
  destruct (fills i (scalar_len C)) as [e|scalar]; [done|]. cbn. unfold try_from_scalar.
  destruct (ec_from_bytes C scalar) as [key|]; [|apply IH].
  destruct (ec_to_pkcs8_der C key) eqn:Hd; [done|]. cbn. by intros [= <-].
Qed.

Lemma rsa_from_inner_Ok label inner k :
  rsa_from_inner label inner = Ok k ->
  rsa_public_pkcs1 (rsa_inner k) = inr (rsa_pub_key_der k) /\ rsa_to_pkcs8_der (rsa_inner k) = inr (rsa_pkcs8_der_bytes k).
Proof. unfold rsa_from_inner. intros. by inv_ok. Qed.

Lemma as_signer_Ok {A} (f : A -> CaSignerInner) r s : as_signer f r = Ok s -> exists a, r = Ok a /\ s = f a.
Proof. destruct r; cbn; naive_solver. Qed.

Lemma generate_key_ok alg w fuel fills s : generate_key alg w fuel fills = Some (Ok s) -> signer_ok s.
Proof.
  destruct alg; cbn [generate_key].
  - intros [= (k & Hk & ->)%as_signer_Ok]. unfold ed_generate, ed_from_seed in Hk. by inv_ok.
  - unfold p256_key_generate. destruct (generate_loop _ _ _ _) as [r|] eqn:Hr; [|done]. cbn.
    intros [= (k & -> & ->)%as_signer_Ok]. by apply generate_loop_Ok in Hr.
  - unfold p384_key_generate. destruct (generate_loop _ _ _ _) as [r|] eqn:Hr; [|done]. cbn.
    intros [= (k & -> & ->)%as_signer_Ok]. by apply generate_loop_Ok in Hr.
  - intros [= (k & Hk & ->)%as_signer_Ok]. unfold rsa2048_generate in Hk. inv_ok. by eapply rsa_from_inner_Ok.
  - intros [= (k & Hk & ->)%as_signer_Ok]. unfold rsa4096_generate in Hk. inv_ok. by eapply rsa_from_inner_Ok.
Qed.

Lemma signer_key_public w s : key_public (signer_key w s) = signer_public s.
Proof. by destruct s. Qed.

Lemma signer_verifies `{!KeyVerify, !KeyCratesLaws} w s m sig :
  signer_ok s -> key_sign (signer_key w s) m = Ok sig ->
  key_verify (algorithm (signer_public s)) (der_bytes (signer_public s)) m sig = true.
Proof.
  destruct s; cbn; intros [Hp _] Hs; rewrite ?Hp; unfold ecdsa_sign, rsa_sign in Hs; inv_ok;
    eauto using dalek_verifies, p256_verifies, p384_verifies, rsa_verifies.
Qed.
End KeyProperties.

(** ** A concrete instance *)

Module RcgenToy.
(** The public key is the private key, and a signature is both; RSA is refused. *)
Definition crate (n : nat) : EcdsaCrate := {|
  scalar_len := n; ec_key := bytes;
  ec_from_bytes bs := if decide (bs = replicate n Byte.x00) then None else Some bs;
  ec_sec1_point k := k; ec_to_pkcs8_der k := inr k; ec_sign_der k m := k ++ m |}.

#[export] Instance crates : KeyCrates := {
  p256_crate := crate 2; p384_crate := crate 3;
  dalek_key := bytes; dalek_from_bytes bs := bs; dalek_verifying_key k := k; dalek_to_pkcs8_der k := inr k;
  dalek_sign k m := k ++ m;
  rsa_private := bytes; rsa_private_new w bits := Err "no RSA"; rsa_private_from_pkcs8 der := inr der;
  rsa_public_pkcs1 k := inr k; rsa_to_pkcs8_der k := inr k; rsa_pkcs1v15_sha256_sign w k m := Ok (k ++ m) }.

#[export] Instance verify : KeyVerify := fun _ pub m sig => bool_decide (sig = pub ++ m).

#[export] Instance crates_laws : KeyCratesLaws.
Proof. split; intros; cbn in *; simplify_eq; by apply bool_decide_eq_true_2. Qed.

(** Two refused draws, then a key. *)
Definition fills : Fills := fun i n => inr (replicate n (if i <? 2 then Byte.x00 else Byte.x07)).

Lemma ecdsa_generate_ends_witness :
  generate_loop (crate 2) 5 fills 0
  = Some (Ok {| ecdsa_inner := [Byte.x07; Byte.x07] : ec_key (crate 2); uncompressed_pub := [Byte.x07; Byte.x07];
                ecdsa_pkcs8_der_bytes := [Byte.x07; Byte.x07] |}) /\
  generate_loop (crate 2) 2 fills 0 = None.
Proof.
  assert (forall j, j < 2 -> draw_ends (crate 2) fills j = false) as Hj by (intros [|[|j]] Hj; [done..|lia]).
  split; [exact (proj1 (ecdsa_generate_ends (crate 2) fills 2 5 Hj) eq_refl ltac:(lia))|].
  exact (proj2 (ecdsa_generate_ends (crate 2) fills 2 2 Hj) ltac:(lia)).
Defined.
End RcgenToy.
