(* ===== verification/Rcgen.v ===== *)
(** * Rcgen: issuing certificates

    crates/oxitls-rcgen/src/cert.rs and csr.rs: the parameter builder, self-signed
    and CA-signed certificates, chains, and certificate signing requests.  The
    crates rcgen, x509-parser, p12 and time are the classes [RcgenNames], [Rcgen]
    and [X509Requests]; [RcgenLaws] states what an issued certificate holds. *)

From stdpp Require Import pretty.
From S2P Require Import Prelude Core Crypto Provider RcgenEncode RcgenKeys.

(** ** [str::parse::<IpAddr>] of the standard library *)

Inductive IpAddr := V4 (octets : bytes) | V6 (octets : bytes).

#[export] Instance IpAddr_eq_dec : EqDecision IpAddr.
Proof. solve_decision. Defined.

Module ParseIp.
Definition to_digit (radix : Z) (b : byte) : option Z :=
  let v := val b in
  let d := (if (48 <=? v) && (v <=? 57) then v - 48
            else if (97 <=? v) && (v <=? 122) then v - 87
            else if (65 <=? v) && (v <=? 90) then v - 55 else 36)%Z in
  if (d <? radix)%Z then Some d else None.

Fixpoint read_digits (radix : Z) (max_digits : nat) (l : bytes) (result : Z) (count : nat) : option (Z * nat * bytes) :=
  match l with
  | [] => Some (result, count, [])
  | b :: l' =>
      match to_digit radix b with
      | Some d => if max_digits <? S count then None else read_digits radix max_digits l' (result * radix + d) (S count)
      | None => Some (result, count, l)
      end
  end.

Definition read_number (radix : Z) (max_digits : nat) (allow_zero_prefix : bool) (max : Z) (l : bytes)
  : option (Z * bytes) :=
  let has_leading_zero := bool_decide (head l = Some Byte.x30) in
  '(result, count, rest) ← read_digits radix max_digits l 0 0;
  if count =? 0 then None
  else if negb allow_zero_prefix && has_leading_zero && (1 <? count) then None
  else if (result <=? max)%Z then Some (result, rest) else None.

(** The separator stands before every group but the first. *)
Definition read_separator {A} (sep : byte) (i : nat) (inner : bytes -> option (A * bytes)) (l : bytes)
  : option (A * bytes) :=
  if i =? 0 then inner l else match l with b :: l => if decide (b = sep) then inner l else None | [] => None end.

Definition read_ipv4 (l : bytes) : option (bytes * bytes) :=
  let group i := read_separator Byte.x2e i (read_number 10 3 false 255) in
  '(a, l) ← group 0 l; '(b, l) ← group 1 l; '(c, l) ← group 2 l; '(d, l) ← group 3 l;
  Some ([u8 a; u8 b; u8 c; u8 d], l).

(** [k] groups are left; an embedded IPv4 address takes two. *)
Fixpoint read_groups (k i : nat) (acc : bytes) (l : bytes) : bytes * bool * bytes :=
  match k with
  | O => (acc, false, l)
  | S k =>
      match (if 0 <? k then read_separator Byte.x3a i read_ipv4 l else None) with
      | Some (v4, l) => (acc ++ v4, true, l)
      | None =>
          match read_separator Byte.x3a i (read_number 16 4 true 0xFFFF) l with
          | Some (g, l) => read_groups k (S i) (acc ++ be_bytes 2 g) l
          | None => (acc, false, l)
          end
      end
  end.

Definition read_ipv6 (l : bytes) : option (bytes * bytes) :=
  let '(head, head_ipv4, l) := read_groups 8 0 [] l in
  if length head =? 16 then Some (head, l) else
  if head_ipv4 then None else
  match l with
  | b0 :: b1 :: l =>
      if decide (b0 = Byte.x3a /\ b1 = Byte.x3a) then
        let '(tail, _, l) := read_groups (8 - (length head / 2 + 1)) 0 [] l in
        Some (head ++ replicate (16 - length head - length tail) Byte.x00 ++ tail, l)
      else None
  | _ => None
  end.

Definition parse (s : string) : option IpAddr :=
  let l := bstr s in
  match read_ipv4 l with
  | Some (v4, rest) => if decide (rest = []) then Some (V4 v4) else None
  | None =>
      match read_ipv6 l with
      | Some (v6, rest) => if decide (rest = []) then Some (V6 v6) else None
      | None => None
      end
  end.

Example parse_runs :
  parse "192.168.1.1" = Some (V4 [Byte.xc0; Byte.xa8; Byte.x01; Byte.x01]) /\
  parse "::1" = Some (V6 (replicate 15 Byte.x00 ++ [Byte.x01])) /\
  parse "::ffff:1.2.3.4" = Some (V6 (replicate 10 Byte.x00 ++ [Byte.xff; Byte.xff; Byte.x01; Byte.x02; Byte.x03; Byte.x04])) /\
  parse "1.2.3.04" = None /\ parse "1.2.3.256" = None /\ parse "1:2:3:4:5:6:7:8:9" = None /\ parse "example.com" = None.
Proof. vm_compute. auto 8. Qed.
End ParseIp.

(** ** Parameters of a certificate, as rcgen has them *)

Inductive SanType := DnsName (s : string) | IpAddress (ip : IpAddr) | Rfc822Name (s : string) | URI (s : string).
Inductive BasicConstraints := Unconstrained | Constrained (path_len : Z).
Inductive IsCa := NoCa | Ca (c : BasicConstraints).
Inductive KeyUsagePurpose := DigitalSignature | KeyCertSign | CrlSign | OtherKeyUsage (n : nat).
Inductive ExtendedKeyUsagePurpose :=
  | ServerAuth | ClientAuthUsage | CodeSigning | EmailProtection | OcspSigning | OtherExtendedKeyUsage (oid : list Z).
Inductive DnType := CommonName | OtherDnType (oid : list Z).
Inductive GeneralSubtree := SubtreeDnsName (s : string) | OtherSubtree (der : bytes).
Inductive KeyIdMethod := PreSpecified (kid : bytes) | OtherKeyIdMethod.

(** [DistinguishedName], the conversion of a [String] to an [Ia5String] (or the
    text of the error), [DnType::from_oid], and the text of rcgen's errors. *)
Class RcgenNames := {
  DistinguishedName : Type;
  dn_new : DistinguishedName;
  dn_push : DistinguishedName -> DnType -> string -> DistinguishedName;
  dn_type_from_oid : list Z -> DnType;
  ia5_string : string -> string + string;
  rcgen_error_display : RcgenError -> string;
}.

Record CertificateParams `{RcgenNames} := {
  subject_alt_names : list SanType;
  distinguished_name : DistinguishedName;
  is_ca : IsCa;
  key_usages : list KeyUsagePurpose;
  extended_key_usages : list ExtendedKeyUsagePurpose;
  key_identifier_method : KeyIdMethod;
  serial_number : option Z;
  not_before : Z;
  not_after : Z;
  name_constraints : option (list GeneralSubtree * list GeneralSubtree);
  custom_extensions : list (list Z * bytes);
  use_authority_key_identifier_extension : bool;
  crl_distribution_points : list (list string);
}.

(** [CertificateParams::default], [subject_public_key_info], signing (the DER and
    the PEM of a certificate), requests, and [p12::PFX]. *)
Class Rcgen `{RcgenNames} := {
  params_default : CertificateParams;
  subject_public_key_info : PublicKeyData -> bytes;
  self_signed : CertificateParams -> RcgenKey -> R RcgenError (bytes * bytes);
  signed_by : CertificateParams -> PublicKeyData -> CertificateParams -> RcgenKey -> R RcgenError (bytes * bytes);
  serialize_request : CertificateParams -> RcgenKey -> R RcgenError bytes;
  csr_pem : bytes -> RcgenError + bytes;
  pfx_new : bytes -> bytes -> string -> string -> option bytes;
}.

(** ** [CertificateParamsBuilder] *)

Record CertificateParamsBuilder := {
  b_common_name : option string;
  b_dns_names : list string;
  b_ip_addresses : list IpAddr;
  b_is_ca : IsCa;
  b_key_usages : list KeyUsagePurpose;
  b_extended_key_usages : list ExtendedKeyUsagePurpose;
  b_serial_number : option Z;
  b_not_before : option Z;
  b_not_after : option Z;
  b_name_constraints : option (list GeneralSubtree * list GeneralSubtree);
  b_subject_key_id : option bytes;
  b_authority_key_id : option bytes;
  b_enable_aki_from_issuer : bool;
  b_crl_distribution_points : list string;
  b_ocsp_responder_url : option string;
}.

Module ParamsB.
Definition new : CertificateParamsBuilder := Build_CertificateParamsBuilder None [] [] NoCa [] [] None None None None None None false [] None.

Definition with_common_name (self : CertificateParamsBuilder) (s : string) : CertificateParamsBuilder :=
  let '(Build_CertificateParamsBuilder _ dns ip ca ku eku sn nb na nc ski aki aii crl oc) := self in
  Build_CertificateParamsBuilder (Some s) dns ip ca ku eku sn nb na nc ski aki aii crl oc.

Definition with_dns_names (self : CertificateParamsBuilder) (names : list string) : CertificateParamsBuilder :=
  let '(Build_CertificateParamsBuilder cn dns ip ca ku eku sn nb na nc ski aki aii crl oc) := self in
  Build_CertificateParamsBuilder cn (dns ++ names) ip ca ku eku sn nb na nc ski aki aii crl oc.

(** An address that does not parse is skipped. *)
Definition with_ip_addresses (self : CertificateParamsBuilder) (addrs : list string) : CertificateParamsBuilder :=
  let '(Build_CertificateParamsBuilder cn dns ip ca ku eku sn nb na nc ski aki aii crl oc) := self in
  let ip := foldl (fun ip addr => match ParseIp.parse addr with Some a => ip ++ [a] | None => ip end) ip addrs in
  Build_CertificateParamsBuilder cn dns ip ca ku eku sn nb na nc ski aki aii crl oc.

Definition with_ca (self : CertificateParamsBuilder) : CertificateParamsBuilder :=
  let '(Build_CertificateParamsBuilder cn dns ip _ ku eku sn nb na nc ski aki aii crl oc) := self in
  Build_CertificateParamsBuilder cn dns ip (Ca Unconstrained) ku eku sn nb na nc ski aki aii crl oc.

Definition with_ca_path_length (self : CertificateParamsBuilder) (path_len : Z) : CertificateParamsBuilder :=
  let '(Build_CertificateParamsBuilder cn dns ip _ ku eku sn nb na nc ski aki aii crl oc) := self in
  Build_CertificateParamsBuilder cn dns ip (Ca (Constrained path_len)) ku eku sn nb na nc ski aki aii crl oc.

Definition with_server_auth (self : CertificateParamsBuilder) : CertificateParamsBuilder :=
  let '(Build_CertificateParamsBuilder cn dns ip ca ku eku sn nb na nc ski aki aii crl oc) := self in
  Build_CertificateParamsBuilder cn dns ip ca ku (eku ++ [ServerAuth]) sn nb na nc ski aki aii crl oc.

Definition with_client_auth (self : CertificateParamsBuilder) : CertificateParamsBuilder :=
  let '(Build_CertificateParamsBuilder cn dns ip ca ku eku sn nb na nc ski aki aii crl oc) := self in
  Build_CertificateParamsBuilder cn dns ip ca ku (eku ++ [ClientAuthUsage]) sn nb na nc ski aki aii crl oc.

Definition with_code_signing (self : CertificateParamsBuilder) : CertificateParamsBuilder :=
  let '(Build_CertificateParamsBuilder cn dns ip ca ku eku sn nb na nc ski aki aii crl oc) := self in
  Build_CertificateParamsBuilder cn dns ip ca ku (eku ++ [CodeSigning]) sn nb na nc ski aki aii crl oc.

Definition with_email_protection (self : CertificateParamsBuilder) : CertificateParamsBuilder :=
  let '(Build_CertificateParamsBuilder cn dns ip ca ku eku sn nb na nc ski aki aii crl oc) := self in
  Build_CertificateParamsBuilder cn dns ip ca ku (eku ++ [EmailProtection]) sn nb na nc ski aki aii crl oc.

Definition with_ocsp_signing (self : CertificateParamsBuilder) : CertificateParamsBuilder :=
  let '(Build_CertificateParamsBuilder cn dns ip ca ku eku sn nb na nc ski aki aii crl oc) := self in
  Build_CertificateParamsBuilder cn dns ip ca ku (eku ++ [OcspSigning]) sn nb na nc ski aki aii crl oc.

Definition with_digital_signature (self : CertificateParamsBuilder) : CertificateParamsBuilder :=
  let '(Build_CertificateParamsBuilder cn dns ip ca ku eku sn nb na nc ski aki aii crl oc) := self in
  Build_CertificateParamsBuilder cn dns ip ca (ku ++ [DigitalSignature]) eku sn nb na nc ski aki aii crl oc.

Definition with_key_cert_sign (self : CertificateParamsBuilder) : CertificateParamsBuilder :=
  let '(Build_CertificateParamsBuilder cn dns ip ca ku eku sn nb na nc ski aki aii crl oc) := self in
  Build_CertificateParamsBuilder cn dns ip ca (ku ++ [KeyCertSign]) eku sn nb na nc ski aki aii crl oc.

Definition with_crl_sign (self : CertificateParamsBuilder) : CertificateParamsBuilder :=
  let '(Build_CertificateParamsBuilder cn dns ip ca ku eku sn nb na nc ski aki aii crl oc) := self in
  Build_CertificateParamsBuilder cn dns ip ca (ku ++ [CrlSign]) eku sn nb na nc ski aki aii crl oc.

Definition with_key_usages (self : CertificateParamsBuilder) (usages : list KeyUsagePurpose) : CertificateParamsBuilder :=
  let '(Build_CertificateParamsBuilder cn dns ip ca _ eku sn nb na nc ski aki aii crl oc) := self in
  Build_CertificateParamsBuilder cn dns ip ca usages eku sn nb na nc ski aki aii crl oc.

Definition with_extended_key_usages (self : CertificateParamsBuilder) (usages : list ExtendedKeyUsagePurpose) : CertificateParamsBuilder :=
  let '(Build_CertificateParamsBuilder cn dns ip ca ku _ sn nb na nc ski aki aii crl oc) := self in
  Build_CertificateParamsBuilder cn dns ip ca ku usages sn nb na nc ski aki aii crl oc.

Definition with_serial_number (self : CertificateParamsBuilder) (serial : Z) : CertificateParamsBuilder :=
  let '(Build_CertificateParamsBuilder cn dns ip ca ku eku _ nb na nc ski aki aii crl oc) := self in
  Build_CertificateParamsBuilder cn dns ip ca ku eku (Some serial) nb na nc ski aki aii crl oc.

Definition with_validity (self : CertificateParamsBuilder) (from until : Z) : CertificateParamsBuilder :=
  let '(Build_CertificateParamsBuilder cn dns ip ca ku eku sn _ _ nc ski aki aii crl oc) := self in
  Build_CertificateParamsBuilder cn dns ip ca ku eku sn (Some from) (Some until) nc ski aki aii crl oc.

Definition with_name_constraints (self : CertificateParamsBuilder) (permitted excluded : list GeneralSubtree) : CertificateParamsBuilder :=
  let '(Build_CertificateParamsBuilder cn dns ip ca ku eku sn nb na _ ski aki aii crl oc) := self in
  Build_CertificateParamsBuilder cn dns ip ca ku eku sn nb na (Some (permitted, excluded)) ski aki aii crl oc.

Definition with_subject_key_id (self : CertificateParamsBuilder) (kid : bytes) : CertificateParamsBuilder :=
  let '(Build_CertificateParamsBuilder cn dns ip ca ku eku sn nb na nc _ aki aii crl oc) := self in
  Build_CertificateParamsBuilder cn dns ip ca ku eku sn nb na nc (Some kid) aki aii crl oc.

Definition with_authority_key_id (self : CertificateParamsBuilder) (kid : bytes) : CertificateParamsBuilder :=
  let '(Build_CertificateParamsBuilder cn dns ip ca ku eku sn nb na nc ski _ aii crl oc) := self in
  Build_CertificateParamsBuilder cn dns ip ca ku eku sn nb na nc ski (Some kid) aii crl oc.

Definition with_authority_key_id_from_issuer (self : CertificateParamsBuilder) : CertificateParamsBuilder :=
  let '(Build_CertificateParamsBuilder cn dns ip ca ku eku sn nb na nc ski aki _ crl oc) := self in
  Build_CertificateParamsBuilder cn dns ip ca ku eku sn nb na nc ski aki true crl oc.

Definition with_crl_distribution_point (self : CertificateParamsBuilder) (uri : string) : CertificateParamsBuilder :=
  let '(Build_CertificateParamsBuilder cn dns ip ca ku eku sn nb na nc ski aki aii crl oc) := self in
  Build_CertificateParamsBuilder cn dns ip ca ku eku sn nb na nc ski aki aii (crl ++ [uri]) oc.

Definition with_ocsp_responder_url (self : CertificateParamsBuilder) (url : string) : CertificateParamsBuilder :=
  let '(Build_CertificateParamsBuilder cn dns ip ca ku eku sn nb na nc ski aki aii crl _) := self in
  Build_CertificateParamsBuilder cn dns ip ca ku eku sn nb na nc ski aki aii crl (Some url).

End ParamsB.

Section Cert.
Context `{KeyCrates} `{Rcgen} `{Sha256}.

Definition config_error {A} (m : R RcgenError A) : R TlsError A :=
  map_err (fun e => InvalidConfig (rcgen_error_display e)) m.

(** ** [CertifiedKey] *)

Record RcCertifiedKey := { cert_der : bytes; pkcs8_der : bytes; cert_pem : bytes }.

Definition cert_fingerprint_sha256 (self : RcCertifiedKey) : bytes := sha256 (cert_der self).

Definition certified_key_pem (self : RcCertifiedKey) : R TlsError bytes := key_pem (pkcs8_der self).

Definition to_pkcs12 (self : RcCertifiedKey) (password friendly_name : string) : R TlsError bytes :=
  ok_or (InvalidConfig "PKCS#12 construction failed") (pfx_new (cert_der self) (pkcs8_der self) password friendly_name).

Definition to_rustls_cert_and_key (self : RcCertifiedKey) : list bytes * PrivateKeyDer :=
  ([cert_der self], Pkcs8 (pkcs8_der self)).

(** [provider] is [pure_provider()]. *)
Definition to_rustls_certified_key (provider : CryptoProvider) (show : RustlsError -> string) (self : RcCertifiedKey)
  : R TlsError (list bytes * SigningKey) :=
  signing_key ← map_err (fun e => InvalidConfig ("failed to load key: " +:+ show e))
                  (load_private_key provider (Pkcs8 (pkcs8_der self)));
  Ok ([cert_der self], signing_key).


(** [for name in &self.dns_names { sans.push(DnsName(name.try_into()?)) }] *)
Fixpoint dns_sans (names : list string) (sans : list SanType) : R TlsError (list SanType) :=
  match names with
  | [] => Ok sans
  | name :: names =>
      san ← map_err InvalidConfig (of_sum (ia5_string name));
      dns_sans names (sans ++ [DnsName san])
  end.

Definition build_with_spki (self : CertificateParamsBuilder) (spki_for_kid : bytes) : R TlsError CertificateParams :=
  sans ← dns_sans (b_dns_names self) [];
  let sans := foldl (fun sans ip => sans ++ [IpAddress ip]) sans (b_ip_addresses self) in
  if match sans, b_is_ca self with [], NoCa => true | _, _ => false end
  then Err (InvalidConfig "at least one SAN is required for leaf certificates") else
  let default_kid := sha256 spki_for_kid in
  let ski := default default_kid (b_subject_key_id self) in
  let dn :=
    match b_common_name self with
    | Some cn => dn_push dn_new CommonName cn
    | None => match b_dns_names self with first_dns :: _ => dn_push dn_new CommonName first_dns | [] => dn_new end
    end in
  let params := params_default in
  Ok {|
    subject_alt_names := sans;
    distinguished_name := dn;
    is_ca := b_is_ca self;
    key_usages := if bool_decide (length (b_key_usages self) = 0) then key_usages params else b_key_usages self;
    extended_key_usages :=
      if bool_decide (length (b_extended_key_usages self) = 0) then extended_key_usages params
      else b_extended_key_usages self;
    key_identifier_method := PreSpecified ski;
    serial_number := Some (default 1%Z (b_serial_number self));
    not_before := default (not_before params) (b_not_before self);
    not_after := default (not_after params) (b_not_after self);
    name_constraints := match b_name_constraints self with Some nc => Some nc | None => name_constraints params end;
    custom_extensions :=
      let exts := custom_extensions params in
      let exts :=
        match b_authority_key_id self with
        | Some aki_bytes => exts ++ [([2; 5; 29; 35]%Z, encode_authority_key_identifier aki_bytes)]
        | None => exts
        end in
      match b_ocsp_responder_url self with
      | Some url => exts ++ [([1; 3; 6; 1; 5; 5; 7; 1; 1]%Z, encode_aia_ocsp url)]
      | None => exts
      end;
    use_authority_key_identifier_extension :=
      match b_authority_key_id self with
      | Some _ => use_authority_key_identifier_extension params
      | None => if b_enable_aki_from_issuer self then true else use_authority_key_identifier_extension params
      end;
    crl_distribution_points :=
      if bool_decide (length (b_crl_distribution_points self) = 0) then crl_distribution_points params
      else (fun uri => [uri]) <$> b_crl_distribution_points self;
  |}.

Definition params_build (self : CertificateParamsBuilder) : R TlsError CertificateParams := build_with_spki self [].

(** ** Server, client and CA parameters *)

Definition parse_san (s : string) : R TlsError SanType :=
  match ParseIp.parse s with
  | Some ip => Ok (IpAddress ip)
  | None => san ← map_err InvalidConfig (of_sum (ia5_string s)); Ok (DnsName san)
  end.

Definition with_names (params : CertificateParams) (sans : list SanType) (dn : DistinguishedName) (ca : IsCa)
  (ku : list KeyUsagePurpose) (eku : list ExtendedKeyUsagePurpose) (kid : bytes) (serial : Z) : CertificateParams := {|
  subject_alt_names := sans; distinguished_name := dn; is_ca := ca; key_usages := ku; extended_key_usages := eku;
  key_identifier_method := PreSpecified kid; serial_number := Some serial;
  not_before := not_before params; not_after := not_after params; name_constraints := name_constraints params;
  custom_extensions := custom_extensions params;
  use_authority_key_identifier_extension := use_authority_key_identifier_extension params;
  crl_distribution_points := crl_distribution_points params |}.

Definition build_params (names : list string) (spki_for_kid : bytes) : R TlsError CertificateParams :=
  sans ← mapM parse_san names;
  if bool_decide (length sans = 0) then Err (InvalidConfig "at least one SAN is required") else
  let kid := sha256 spki_for_kid in
  let cn := default "localhost" (head names) in
  Ok (with_names params_default sans (dn_push dn_new CommonName cn) NoCa [DigitalSignature] [ServerAuth] kid 1).

Definition build_client_params (names : list string) (spki_for_kid : bytes) : R TlsError CertificateParams :=
  sans ← mapM parse_san names;
  if bool_decide (length sans = 0) then Err (InvalidConfig "at least one SAN is required") else
  let kid := sha256 spki_for_kid in
  let cn := default "client" (head names) in
  Ok (with_names params_default sans (dn_push dn_new CommonName cn) NoCa [DigitalSignature] [ClientAuthUsage] kid 2).

Definition build_ca_params (subject_cn : string) (spki_for_kid : bytes) (path_length : option Z) : CertificateParams :=
  let kid := sha256 spki_for_kid in
  let ca := match path_length with Some len => Ca (Constrained len) | None => Ca Unconstrained end in
  with_names params_default (subject_alt_names params_default) (dn_push dn_new CommonName subject_cn) ca
    [KeyCertSign; CrlSign; DigitalSignature] (extended_key_usages params_default) kid 1.

(** ** Self-signed certificates *)

(** The part the functions share, from the key on. *)
Definition self_signed_with (w : World) (names : list string) (key : CaSignerInner) : R TlsError RcCertifiedKey :=
  let spki := subject_public_key_info (key_public (signer_key w key)) in
  params ← build_params names spki;
  '(der, pem) ← config_error (self_signed params (signer_key w key));
  Ok {| cert_der := der; pkcs8_der := signer_pkcs8_der key; cert_pem := pem |}.

Definition generate_self_signed_ed25519 (w : World) (fills : Fills) (names : list string) : R TlsError RcCertifiedKey :=
  key ← ed_generate fills; self_signed_with w names (SignerEd25519 key).
Definition generate_self_signed_p256 (w : World) (fuel : nat) (fills : Fills) (names : list string)
  : option (R TlsError RcCertifiedKey) :=
  key ← p256_key_generate fuel fills; Some (key ← key; self_signed_with w names (SignerP256 key)).
Definition generate_self_signed_p384 (w : World) (fuel : nat) (fills : Fills) (names : list string)
  : option (R TlsError RcCertifiedKey) :=
  key ← p384_key_generate fuel fills; Some (key ← key; self_signed_with w names (SignerP384 key)).
Definition generate_self_signed_rsa2048 (w : World) (names : list string) : R TlsError RcCertifiedKey :=
  key ← rsa2048_generate w; self_signed_with w names (SignerRsa2048 key).
Definition generate_self_signed_rsa4096 (w : World) (names : list string) : R TlsError RcCertifiedKey :=
  key ← rsa4096_generate w; self_signed_with w names (SignerRsa4096 key).
Definition self_signed_from_rsa2048_key (w : World) (names : list string) (key : OxiRsaKey) : R TlsError RcCertifiedKey :=
  self_signed_with w names (SignerRsa2048 key).
Definition self_signed_from_rsa4096_key (w : World) (names : list string) (key : OxiRsaKey) : R TlsError RcCertifiedKey :=
  self_signed_with w names (SignerRsa4096 key).

Definition generate_self_signed (w : World) (fuel : nat) (fills : Fills) (names : list string) (alg : SigningAlgorithm)
  : option (R TlsError RcCertifiedKey) :=
  match alg with
  | AlgEd25519 => Some (generate_self_signed_ed25519 w fills names)
  | EcdsaP256 => generate_self_signed_p256 w fuel fills names
  | EcdsaP384 => generate_self_signed_p384 w fuel fills names
  | Rsa2048 => Some (generate_self_signed_rsa2048 w names)
  | Rsa4096 => Some (generate_self_signed_rsa4096 w names)
  end.

(** ** Certificate authorities *)

Record CaCertifiedKey := { certified_key : RcCertifiedKey; ca_params : CertificateParams; signer : CaSignerInner }.

Definition as_certified_key (self : CaCertifiedKey) : RcCertifiedKey := certified_key self.

Definition sign_child (w : World) (self : CaCertifiedKey) (child_params : CertificateParams) (child_key : PublicKeyData)
  : R TlsError (bytes * bytes) :=
  config_error (signed_by child_params child_key (ca_params self) (signer_key w (signer self))).

(** [?] on a key that is generated first. *)
Definition with_key {A} (key : option (R TlsError CaSignerInner)) (f : CaSignerInner -> R TlsError A) : option (R TlsError A) :=
  match key with Some key => Some (key ← key; f key) | None => None end.

Definition generate_ca (w : World) (fuel : nat) (fills : Fills) (subject_cn : string) (alg : SigningAlgorithm)
  : option (R TlsError CaCertifiedKey) :=
  with_key (generate_key alg w fuel fills) (fun key =>
    let spki := subject_public_key_info (key_public (signer_key w key)) in
    let params := build_ca_params subject_cn spki None in
    '(der, pem) ← config_error (self_signed params (signer_key w key));
    Ok {| certified_key := {| cert_der := der; pkcs8_der := signer_pkcs8_der key; cert_pem := pem |};
          ca_params := params; signer := key |}).

Definition generate_intermediate_ca (w : World) (fuel : nat) (fills : Fills) (subject_cn : string)
  (alg : SigningAlgorithm) (parent : CaCertifiedKey) : option (R TlsError CaCertifiedKey) :=
  with_key (generate_key alg w fuel fills) (fun key =>
    let spki := subject_public_key_info (key_public (signer_key w key)) in
    let params := build_ca_params subject_cn spki (Some 0%Z) in
    '(der, pem) ← sign_child w parent params (key_public (signer_key w key));
    Ok {| certified_key := {| cert_der := der; pkcs8_der := signer_pkcs8_der key; cert_pem := pem |};
          ca_params := params; signer := key |}).

Definition generate_ca_signed_client_cert (w : World) (fuel : nat) (fills : Fills) (names : list string)
  (alg : SigningAlgorithm) (ca : CaCertifiedKey) : option (R TlsError RcCertifiedKey) :=
  with_key (generate_key alg w fuel fills) (fun key =>
    let spki := subject_public_key_info (key_public (signer_key w key)) in
    params ← build_client_params names spki;
    '(der, pem) ← sign_child w ca params (key_public (signer_key w key));
    Ok {| cert_der := der; pkcs8_der := signer_pkcs8_der key; cert_pem := pem |}).

Definition generate_ca_signed_leaf (w : World) (fuel : nat) (fills : Fills) (names : list string)
  (alg : SigningAlgorithm) (ca : CaCertifiedKey) : option (R TlsError RcCertifiedKey) :=
  with_key (generate_key alg w fuel fills) (fun key =>
    let spki := subject_public_key_info (key_public (signer_key w key)) in
    params ← build_params names spki;
    '(der, pem) ← sign_child w ca params (key_public (signer_key w key));
    Ok {| cert_der := der; pkcs8_der := signer_pkcs8_der key; cert_pem := pem |}).
End Cert.

(** ** Chains *)

Record CertChainBuilder := { ch_leaf : option bytes; ch_intermediates : list bytes; ch_root : option bytes }.

Module ChainB.
Definition new : CertChainBuilder := {| ch_leaf := None; ch_intermediates := []; ch_root := None |}.

Definition with_leaf (self : CertChainBuilder) (cert : bytes) : CertChainBuilder :=
  {| ch_leaf := Some cert; ch_intermediates := ch_intermediates self; ch_root := ch_root self |}.

Definition with_intermediate (self : CertChainBuilder) (cert : bytes) : CertChainBuilder :=
  {| ch_leaf := ch_leaf self; ch_intermediates := ch_intermediates self ++ [cert]; ch_root := ch_root self |}.

Definition with_root (self : CertChainBuilder) (cert : bytes) : CertChainBuilder :=
  {| ch_leaf := ch_leaf self; ch_intermediates := ch_intermediates self; ch_root := Some cert |}.

Definition build (self : CertChainBuilder) : list bytes :=
  let chain := match ch_leaf self with Some leaf => [leaf] | None => [] end in
  let chain := chain ++ ch_intermediates self in
  match ch_root self with Some root => chain ++ [root] | None => chain end.

Definition build_rustls (self : CertChainBuilder) : list bytes :=
  let chain := match ch_leaf self with Some leaf => [leaf] | None => [] end in
  let chain := foldl (fun chain intermediate => chain ++ [intermediate]) chain (ch_intermediates self) in
  match ch_root self with Some root => chain ++ [root] | None => chain end.
End ChainB.

(** ** Signing requests (csr.rs) *)

(** What x509-parser finds in a request: object identifiers whose arcs may not fit
    (then there is no iterator), attributes with text values, extensions. *)
Record X509Attribute := { attr_type : option (list Z); attr_as_str : string + string }.

Inductive GeneralName :=
  | GnDNSName (s : string) | GnRFC822Name (s : string) | GnURI (s : string) | GnIPAddress (octets : bytes) | GnOther.

Inductive ParsedExtension := SubjectAlternativeName (general_names : list GeneralName) | OtherExtension.

Record X509Request := {
  csr_signature_oid : option (list Z);
  csr_subject : list (list X509Attribute);
  csr_requested_extensions : option (list ParsedExtension);
  csr_subject_public_key : bytes;
  csr_spki_raw : bytes;
}.

(** The parser (or the debug text of its error), and the range of the times the
    [time] crate can hold. *)
Class X509Requests := {
  request_from_der : bytes -> string + X509Request;
  time_min : Z;
  time_max : Z;
}.

(** [OffsetDateTime + Duration] panics outside the range. *)
Definition datetime_add `{X509Requests} {E} (t d : Z) : R E Z :=
  if (time_min <=? t + d)%Z && (t + d <=? time_max)%Z then Ok (t + d)%Z else Panic.

Record CsrBytes := { csr_bytes_der : bytes; csr_bytes_pem : bytes }.
Record SignedCertificate := { sc_cert_der : bytes; sc_cert_pem : bytes }.

Record ParsedCsr `{RcgenNames} := {
  subject_dn : DistinguishedName;
  sans : list SanType;
  public_key_bit_string : bytes;
  spki_full : bytes;
  csr_algorithm : RcgenAlgorithm;
}.

(** [{other:?}] of a [&[u64]]. *)
Definition debug_u64s (l : list Z) : string := "[" +:+ String.concat ", " (pretty <$> l) +:+ "]".

Definition OID_ED25519_SIGNATURE : list Z := [1; 3; 101; 112]%Z.
Definition OID_ECDSA_SHA256 : list Z := [1; 2; 840; 10045; 4; 3; 2]%Z.
Definition OID_ECDSA_SHA384 : list Z := [1; 2; 840; 10045; 4; 3; 3]%Z.
Definition OID_RSA_SHA256 : list Z := [1; 2; 840; 113549; 1; 1; 11]%Z.

Definition signature_algorithm_from_oid (oid : list Z) : R TlsError RcgenAlgorithm :=
  if decide (oid = OID_ED25519_SIGNATURE) then Ok PKCS_ED25519
  else if decide (oid = OID_ECDSA_SHA256) then Ok PKCS_ECDSA_P256_SHA256
  else if decide (oid = OID_ECDSA_SHA384) then Ok PKCS_ECDSA_P384_SHA384
  else if decide (oid = OID_RSA_SHA256) then Ok PKCS_RSA_SHA256
  else Err (InvalidConfig ("unsupported CSR signature algorithm OID: " +:+ debug_u64s oid)).

Definition parse_ip_octets (octets : bytes) : option IpAddr :=
  if length octets =? 4 then Some (V4 octets) else if length octets =? 16 then Some (V6 octets) else None.

Section Csr.
Context `{KeyCrates} `{Rcgen} `{Sha256} `{X509Requests}.

Definition build_csr_with_key (subject_cn : string) (key : RcgenKey) : R TlsError CsrBytes :=
  let params := params_default in
  let dn := dn_push dn_new CommonName subject_cn in
  san ← map_err InvalidConfig (of_sum (ia5_string subject_cn));
  let params := {|
    subject_alt_names := [DnsName san]; distinguished_name := dn; is_ca := is_ca params;
    key_usages := key_usages params; extended_key_usages := extended_key_usages params;
    key_identifier_method := key_identifier_method params; serial_number := serial_number params;
    not_before := not_before params; not_after := not_after params; name_constraints := name_constraints params;
    custom_extensions := custom_extensions params;
    use_authority_key_identifier_extension := use_authority_key_identifier_extension params;
    crl_distribution_points := crl_distribution_points params |} in
  der ← map_err (fun e => InvalidConfig ("CSR serialize: " +:+ rcgen_error_display e)) (serialize_request params key);
  pem ← map_err (fun e => InvalidConfig ("CSR pem: " +:+ rcgen_error_display e)) (of_sum (csr_pem der));
  Ok {| csr_bytes_der := der; csr_bytes_pem := pem |}.

Definition generate_csr (w : World) (fuel : nat) (fills : Fills) (subject_cn : string) (alg : SigningAlgorithm)
  : option (R TlsError (CsrBytes * bytes)) :=
  with_key (generate_key alg w fuel fills) (fun key =>
    csr ← build_csr_with_key subject_cn (signer_key w key);
    Ok (csr, signer_pkcs8_der key)).

Fixpoint push_attributes (dn : DistinguishedName) (rdn : list X509Attribute) : R TlsError DistinguishedName :=
  match rdn with
  | [] => Ok dn
  | attr :: rdn =>
      raw_oid ← ok_or (InvalidConfig "DN attribute OID missing") (attr_type attr);
      let dn_type := dn_type_from_oid raw_oid in
      value ← map_err (fun e => InvalidConfig ("DN attribute value: " +:+ e)) (of_sum (attr_as_str attr));
      push_attributes (dn_push dn dn_type value) rdn
  end.

Fixpoint push_rdns (dn : DistinguishedName) (name : list (list X509Attribute)) : R TlsError DistinguishedName :=
  match name with
  | [] => Ok dn
  | rdn :: name => dn ← push_attributes dn rdn; push_rdns dn name
  end.

Definition dn_from_x509_name (name : list (list X509Attribute)) : R TlsError DistinguishedName := push_rdns dn_new name.

(** [Some] and [None] of the parser, never an error. *)
Definition collect_requested_extensions (csr : X509Request) : R TlsError (option (list ParsedExtension)) :=
  Ok (csr_requested_extensions csr).

Definition san_from_general_name (gn : GeneralName) : option SanType :=
  let try_into (s : string) := match ia5_string s with inr s => Some s | inl _ => None end in
  match gn with
  | GnDNSName s => DnsName <$> try_into s
  | GnRFC822Name s => Rfc822Name <$> try_into s
  | GnURI s => URI <$> try_into s
  | GnIPAddress octets => IpAddress <$> parse_ip_octets octets
  | GnOther => None
  end.

Definition requested_sans (req_exts : list ParsedExtension) : list SanType :=
  foldl (fun sans ext =>
    match ext with
    | SubjectAlternativeName general_names =>
        foldl (fun sans gn => match san_from_general_name gn with Some sty => sans ++ [sty] | None => sans end)
          sans general_names
    | OtherExtension => sans
    end) [] req_exts.

Definition parse_csr_components (csr_der : bytes) : R TlsError ParsedCsr :=
  csr ← map_err (fun e => InvalidConfig ("parse CSR DER: " +:+ e)) (of_sum (request_from_der csr_der));
  alg_oid ← ok_or (InvalidConfig "CSR signature algorithm OID is missing") (csr_signature_oid csr);
  algorithm ← signature_algorithm_from_oid alg_oid;
  subject_dn ← dn_from_x509_name (csr_subject csr);
  let sans := match collect_requested_extensions csr with Ok (Some req_exts) => requested_sans req_exts | _ => [] end in
  Ok {| subject_dn := subject_dn; sans := sans; public_key_bit_string := csr_subject_public_key csr;
        spki_full := csr_spki_raw csr; csr_algorithm := algorithm |}.

Definition sign_with_issuer (params : CertificateParams) (csr_pub : PublicKeyData) (ca_params : CertificateParams)
  (ca_key : RcgenKey) : R TlsError (bytes * bytes) :=
  map_err (fun e => InvalidConfig ("sign CSR: " +:+ rcgen_error_display e)) (signed_by params csr_pub ca_params ca_key).

(** The parameters of the certificate: the subject and names of the request, the
    validity of the caller. *)
Definition csr_params (parsed : ParsedCsr) (from until : Z) : CertificateParams :=
  let params := params_default in {|
    subject_alt_names := sans parsed; distinguished_name := subject_dn parsed; is_ca := is_ca params;
    key_usages := key_usages params; extended_key_usages := extended_key_usages params;
    key_identifier_method := PreSpecified (sha256 (spki_full parsed)); serial_number := Some 1%Z;
    not_before := from; not_after := until; name_constraints := name_constraints params;
    custom_extensions := custom_extensions params;
    use_authority_key_identifier_extension := use_authority_key_identifier_extension params;
    crl_distribution_points := crl_distribution_points params |}.

Definition sign_csr (w : World) (csr_der : bytes) (ca : CaCertifiedKey) (validity_days : Z) : R TlsError SignedCertificate :=
  parsed ← parse_csr_components csr_der;
  let now := unix_seconds w in
  from ← datetime_add now (- (5 * 60));
  until ← datetime_add now (validity_days * 86400);
  let params := csr_params parsed from until in
  let csr_pub := {| der_bytes := public_key_bit_string parsed; algorithm := csr_algorithm parsed |} in
  '(der, pem) ← sign_with_issuer params csr_pub (ca_params ca) (signer_key w (signer ca));
  Ok {| sc_cert_der := der; sc_cert_pem := pem |}.
End Csr.

(** ** Showing a certificate *)

(** The subject, the signature algorithm and the end of validity x509-parser reads,
    and the [time] crate's conversion and formats. *)
Record X509Summary := { x_subject : string; x_algorithm_id : string; x_not_after : Z }.

Class X509Show := {
  certificate_from_der : bytes -> option X509Summary;
  from_unix_timestamp : Z -> option Z;
  rfc3339 : Z -> option string;
  datetime_display : Z -> string;
}.

Section Show.
Context `{X509Show} `{Sha256}.

Definition cert_not_after (self : RcCertifiedKey) : option Z :=
  parsed ← certificate_from_der (cert_der self);
  from_unix_timestamp (x_not_after parsed).

Definition newline : string := String (Ascii.ascii_of_nat 10) "".

Definition certified_key_display (self : RcCertifiedKey) : string :=
  let subject := match certificate_from_der (cert_der self) with Some c => x_subject c | None => "<unparseable>" end in
  let algorithm := match certificate_from_der (cert_der self) with Some c => x_algorithm_id c | None => "<unknown>" end in
  let fp := cert_fingerprint_sha256 self in
  let fp_hex := String.concat ":" (hex02 <$> fp) in
  let not_after_val :=
    match cert_not_after self with
    | Some t => match rfc3339 t with Some s => s | None => datetime_display t end
    | None => "<unparseable>"
    end in
  "Subject: " +:+ subject +:+ newline +:+ "Algorithm: " +:+ algorithm +:+ newline +:+
  "SHA-256: " +:+ fp_hex +:+ newline +:+ "Not after: " +:+ not_after_val.
End Show.

(** ** Properties *)

(** What a certificate says to its reader. *)
Record CertView `{RcgenNames} := {
  v_params : CertificateParams;
  v_public : PublicKeyData;
  v_issuer : DistinguishedName;
  v_tbs : bytes;
  v_signature_algorithm : RcgenAlgorithm;
  v_signature : bytes;
}.

(** rcgen issues a certificate for the parameters and the public key it was given,
    named after its issuer and signed with the issuer's key. *)
Class RcgenLaws `{Rcgen} := {
  certificate_says : bytes -> CertView -> Prop;
  self_signed_says : forall p k der pem, self_signed p k = Ok (der, pem) ->
    exists tbs sig, key_sign k tbs = Ok sig /\
    certificate_says der {| v_params := p; v_public := key_public k; v_issuer := distinguished_name p;
      v_tbs := tbs; v_signature_algorithm := algorithm (key_public k); v_signature := sig |};
  signed_by_says : forall p pub ip ik der pem, signed_by p pub ip ik = Ok (der, pem) ->
    exists tbs sig, key_sign ik tbs = Ok sig /\
    certificate_says der {| v_params := p; v_public := pub; v_issuer := distinguished_name ip;
      v_tbs := tbs; v_signature_algorithm := algorithm (key_public ik); v_signature := sig |};
}.

Section CertProperties.
Context `{KeyCrates} `{Rcgen} `{Sha256} `{!RcgenLaws} `{!KeyVerify, !KeyCratesLaws}.

(** A certificate that says [v], and whose signature the issuer's key verifies. *)
Definition issued_by (issuer : CaCertifiedKey) (der : bytes) (v : CertView) : Prop :=
  certificate_says der v /\ v_issuer v = distinguished_name (ca_params issuer) /\
  v_signature_algorithm v = algorithm (signer_public (signer issuer)) /\
  key_verify (v_signature_algorithm v) (der_bytes (signer_public (signer issuer))) (v_tbs v) (v_signature v) = true.

Definition key_id_of (key : CaSignerInner) : KeyIdMethod :=
  PreSpecified (sha256 (subject_public_key_info (signer_public key))).

(** A CA certificate for its own key, issued by [issuer]. *)
Definition ca_ok (issuer ca : CaCertifiedKey) : Prop :=
  signer_ok (signer ca) /\ pkcs8_der (certified_key ca) = signer_pkcs8_der (signer ca) /\
  (exists c, is_ca (ca_params ca) = Ca c) /\ KeyCertSign ∈ key_usages (ca_params ca) /\
  key_identifier_method (ca_params ca) = key_id_of (signer ca) /\
  exists v, issued_by issuer (cert_der (certified_key ca)) v /\
            v_params v = ca_params ca /\ v_public v = signer_public (signer ca).

(** From the issuing CA up to the root. *)
Fixpoint chain_ok (cas : list CaCertifiedKey) : Prop :=
  match cas with
  | [] => False
  | [root] => ca_ok root root
  | ca :: (parent :: _) as rest => ca_ok parent ca /\ chain_ok rest
  end.

(** RFC 5280: at most so many CAs may stand below as the path length allows. *)
Definition path_ok (cas : list CaCertifiedKey) : Prop :=
  forall i ca, cas !! i = Some ca ->
  match is_ca (ca_params ca) with
  | Ca (Constrained n) => (Z.of_nat i <= n)%Z
  | Ca Unconstrained => True
  | NoCa => False
  end.

(** The CAs the crate makes, below each other. *)
Inductive ca_chain : list CaCertifiedKey -> Prop :=
  | chain_root w fuel fills cn alg ca :
      generate_ca w fuel fills cn alg = Some (Ok ca) -> ca_chain [ca]
  | chain_below w fuel fills cn alg parent rest ca :
      ca_chain (parent :: rest) -> generate_intermediate_ca w fuel fills cn alg parent = Some (Ok ca) ->
      ca_chain (ca :: parent :: rest).

(** A leaf certificate for a key of its own, as [names], usage and serial say. *)
Definition leaf_ok (ca : CaCertifiedKey) (names : list string) (eku : ExtendedKeyUsagePurpose) (serial : Z)
  (leaf : RcCertifiedKey) : Prop :=
  exists key v, signer_ok key /\ pkcs8_der leaf = signer_pkcs8_der key /\ issued_by ca (cert_der leaf) v /\
  v_public v = signer_public key /\ mapM parse_san names = Ok (subject_alt_names (v_params v)) /\
  subject_alt_names (v_params v) <> [] /\
  is_ca (v_params v) = NoCa /\ extended_key_usages (v_params v) = [eku] /\
  key_identifier_method (v_params v) = key_id_of key /\ serial_number (v_params v) = Some serial.

Lemma config_error_Ok {A} (m : R RcgenError A) a : config_error m = Ok a <-> m = Ok a.
Proof. apply map_err_Ok. Qed.

Lemma with_key_Ok {A} key (f : CaSignerInner -> R TlsError A) a :
  with_key key f = Some (Ok a) -> exists k, key = Some (Ok k) /\ f k = Ok a.
Proof.
  destruct key as [[k|e|]|]; cbn; [|done..]. intros [= Hf]. eauto.
Qed.

Lemma sign_child_issued w ca p pub der pem :
  signer_ok (signer ca) -> sign_child w ca p pub = Ok (der, pem) ->
  exists v, issued_by ca der v /\ v_params v = p /\ v_public v = pub.
Proof.
  intros Hok Hs. apply config_error_Ok, signed_by_says in Hs as (tbs & sig & Hsig & Hv). rewrite signer_key_public in Hv.
  eexists. split; [split_and!; [done..|]|done]. cbn. eapply signer_verifies; eauto.
Qed.

Lemma generate_ca_ok w fuel fills cn alg ca :
  generate_ca w fuel fills cn alg = Some (Ok ca) ->
  ca_ok ca ca /\ is_ca (ca_params ca) = Ca Unconstrained.
Proof.
  intros (key & Hk & Hca)%with_key_Ok. apply generate_key_ok in Hk. rewrite signer_key_public in Hca.
  apply bind_Ok in Hca as ([der pem] & Hs%config_error_Ok & [= <-]).
  apply self_signed_says in Hs as (tbs & sig & Hsig & Hv). rewrite signer_key_public in Hv.
  split; [|done]. unfold ca_ok. cbn [signer certified_key ca_params pkcs8_der cert_der].
  split_and!; [done|done|by eexists|by left|done|]. eexists.
  split; [split_and!; [done..|]|done]. cbn. eapply signer_verifies; eauto.
Qed.

Lemma generate_intermediate_ok w fuel fills cn alg parent ca :
  signer_ok (signer parent) -> generate_intermediate_ca w fuel fills cn alg parent = Some (Ok ca) ->
  ca_ok parent ca /\ is_ca (ca_params ca) = Ca (Constrained 0).
Proof.
  intros Hp (key & Hk & Hca)%with_key_Ok. apply generate_key_ok in Hk. rewrite signer_key_public in Hca.
  apply bind_Ok in Hca as ([der pem] & Hs & [= <-]). apply sign_child_issued in Hs as (v & Hi & Hv & Hpub); [|done].
  split; [|done]. unfold ca_ok. cbn [signer certified_key ca_params pkcs8_der cert_der].
  split_and!; [done|done|by eexists|by left|done|by eauto].
Qed.

Lemma ca_chain_ok cas : ca_chain cas -> chain_ok cas /\ exists root, last cas = Some root /\
  is_ca (ca_params root) = Ca Unconstrained /\
  forall i ca, cas !! i = Some ca -> S i < length cas -> is_ca (ca_params ca) = Ca (Constrained 0).
Proof.
  induction 1 as [????? ca Hca|????? parent rest ca _ [IHc (root & Hl & Hr & IHi)] Hca].
  - apply generate_ca_ok in Hca as [Hok Hu]. split; [done|]. exists ca. split_and!; [done..|].
    intros [|i] c Hc Hi; cbn in *; [lia|done].
  - assert (signer_ok (signer parent)) as Hp by (destruct rest; cbn in IHc; [apply IHc|apply IHc]).
    apply generate_intermediate_ok in Hca as [Hok Hu]; [|done]. split; [done|]. exists root.
    split_and!; [done..|]. intros [|i] c Hc Hi; cbn in Hc, Hi; [by simplify_eq|]. apply (IHi i); [done|cbn; lia].
Qed.

Lemma ca_chain_signer ca rest : ca_chain (ca :: rest) -> signer_ok (signer ca).
Proof. intros [Hc _]%ca_chain_ok. destruct rest; apply Hc. Qed.

(** C22: certificate authorities and what they issue.  In every chain of CAs the
    crate makes, each certifies its own key, is marked as a CA that may sign, and
    its signature verifies under the key of the CA above (the root's under its
    own).  The path lengths allow the chain exactly if it has at most one
    intermediate, although a second can be issued.  A leaf of any of them verifies
    under its CA, names what was asked for, and has the usage of a server or
    client; every server leaf has serial number 1 and every client leaf 2. *)
Theorem issued_certificates cas :
  ca_chain cas ->
  chain_ok cas /\ (path_ok cas <-> length cas <= 2) /\
  forall ca rest w fuel fills names alg leaf, cas = ca :: rest ->
  (generate_ca_signed_leaf w fuel fills names alg ca = Some (Ok leaf) -> leaf_ok ca names ServerAuth 1 leaf) /\
  (generate_ca_signed_client_cert w fuel fills names alg ca = Some (Ok leaf) -> leaf_ok ca names ClientAuthUsage 2 leaf).
Proof.
  intros Hcas. destruct (ca_chain_ok _ Hcas) as (Hok & root & Hl & Hr & Hi). split_and!; [done|..].
  - split.
    + intros Hp. apply Nat.le_ngt. intros Hlen. destruct (lookup_lt_is_Some_2 cas 1 ltac:(lia)) as [ca Hca].
      specialize (Hp 1 ca Hca). rewrite (Hi 1 ca Hca ltac:(lia)) in Hp. lia.
    + intros Hlen i ca Hca. destruct (decide (S i < length cas)) as [Hlt|Hge].
      * rewrite (Hi i ca Hca Hlt). lia.
      * assert (last cas = Some ca) as Hlast.
        { rewrite last_lookup. rewrite <- Hca. f_equal. apply lookup_lt_Some in Hca. lia. }
        simplify_eq. by rewrite Hr.
  - intros ca rest w fuel fills names alg leaf ->. pose proof (ca_chain_signer _ _ Hcas) as Hs.
    split; intros (key & Hk & Hleaf)%with_key_Ok; apply generate_key_ok in Hk; rewrite signer_key_public in Hleaf;
      apply bind_Ok in Hleaf as (p & Hp & ([der pem] & (v & Hv & Hvp & Hvk)%sign_child_issued & [= <-])%bind_Ok); try done;
      apply bind_Ok in Hp as (sans & Hsans & Hp); case_bool_decide as He; try done; injection Hp as <-;
      exists key, v; rewrite Hvp; split_and!; try done; by destruct sans.
Qed.

Definition ext_values (oid : list Z) (p : CertificateParams) : list bytes :=
  snd <$> filter (fun e => e.1 = oid) (custom_extensions p).

(** What readers find in built parameters: a key identifier or OCSP address of
    admissible length is read back from its one extension; the authority key
    identifier comes from the builder or from the issuer, never both; and only a
    CA goes without a name. *)
Theorem params_extensions b spki p :
  custom_extensions params_default = [] -> use_authority_key_identifier_extension params_default = false ->
  build_with_spki b spki = Ok p ->
  ext_values [2; 5; 29; 35]%Z p = option_list (encode_authority_key_identifier <$> b_authority_key_id b) /\
  (use_authority_key_identifier_extension p = true <-> b_authority_key_id b = None /\ b_enable_aki_from_issuer b = true) /\
  (forall kid, b_authority_key_id b = Some kid -> (Z.of_nat (length kid) <= 65531)%Z ->
     read_aki <$> ext_values [2; 5; 29; 35]%Z p = [Some kid]) /\
  (forall url, b_ocsp_responder_url b = Some url -> (Z.of_nat (length (bstr url)) <= 65517)%Z ->
     read_aia <$> ext_values [1; 3; 6; 1; 5; 5; 7; 1; 1]%Z p = [Some (bstr url)]) /\
  (is_ca p = NoCa -> subject_alt_names p <> []) /\
  key_identifier_method p = PreSpecified (default (sha256 spki) (b_subject_key_id b)).
Proof.
  intros Hexts Haki Hb. unfold build_with_spki in Hb. apply bind_Ok in Hb as (dns & _ & Hb). cbv zeta in Hb.
  set (names := foldl _ dns _) in Hb.
  destruct (match names with [] => _ | _ => _ end) eqn:He; [done|]. injection Hb as <-.
  unfold ext_values. cbn [custom_extensions use_authority_key_identifier_extension is_ca subject_alt_names key_identifier_method].
  rewrite Hexts, Haki.
  match goal with |- ?x = _ /\ _ =>
    assert (x = option_list (encode_authority_key_identifier <$> b_authority_key_id b)) as ->
      by (by destruct (b_authority_key_id b), (b_ocsp_responder_url b)) end.
  split_and!; [done|..|done].
  - destruct (b_authority_key_id b), (b_enable_aki_from_issuer b); naive_solver.
  - intros kid -> Hl. change ([read_aki (encode_authority_key_identifier kid)] = [Some kid]).
    by rewrite read_aki_encoded, (proj2 (Z.leb_le _ _) Hl).
  - intros url -> Hl. match goal with |- _ <$> ?x = _ => assert (x = [encode_aia_ocsp url]) as ->
      by (by destruct (b_authority_key_id b)) end.
    change ([read_aia (encode_aia_ocsp url)] = [Some (bstr url)]). by rewrite read_aia_encoded, (proj2 (Z.leb_le _ _) Hl).
  - intros Hca Hn. by rewrite Hca, Hn in He.
Qed.
End CertProperties.

(** The object identifier a key's signatures carry. *)
Definition signature_oid (alg : RcgenAlgorithm) : list Z :=
  match alg with
  | PKCS_ED25519 => OID_ED25519_SIGNATURE
  | PKCS_ECDSA_P256_SHA256 => OID_ECDSA_SHA256
  | PKCS_ECDSA_P384_SHA384 => OID_ECDSA_SHA384
  | PKCS_RSA_SHA256 => OID_RSA_SHA256
  end.

Definition OID_COMMON_NAME : list Z := [2; 5; 4; 3]%Z.

(** A request rcgen wrote for one common name and one DNS name, as x509-parser
    reads it. *)
Class RequestLaws `{Rcgen} `{X509Requests} := {
  request_reads : forall p k cn san der,
    distinguished_name p = dn_push dn_new CommonName cn -> subject_alt_names p = [DnsName san] ->
    serialize_request p k = Ok der ->
    request_from_der der = inr {|
      csr_signature_oid := Some (signature_oid (algorithm (key_public k)));
      csr_subject := [[{| attr_type := Some OID_COMMON_NAME; attr_as_str := inr cn |}]];
      csr_requested_extensions := Some [SubjectAlternativeName [GnDNSName san]];
      csr_subject_public_key := der_bytes (key_public k);
      csr_spki_raw := subject_public_key_info (key_public k) |};
  common_name_oid : dn_type_from_oid OID_COMMON_NAME = CommonName;
  ia5_unchanged : forall s t, ia5_string s = inr t -> t = s;
}.

Section CsrProperties.
Context `{KeyCrates} `{Rcgen} `{Sha256} `{X509Requests} `{!RcgenLaws} `{!KeyVerify, !KeyCratesLaws} `{!RequestLaws}.

Lemma signature_oid_known alg : signature_algorithm_from_oid (signature_oid alg) = Ok alg.
Proof. by destruct alg. Qed.

(** The parser undoes the request writer. *)
Lemma build_csr_parses cn key csr :
  build_csr_with_key cn key = Ok csr ->
  parse_csr_components (csr_bytes_der csr)
  = Ok {| subject_dn := dn_push dn_new CommonName cn; sans := [DnsName cn];
          public_key_bit_string := der_bytes (key_public key);
          spki_full := subject_public_key_info (key_public key); csr_algorithm := algorithm (key_public key) |}.
Proof.
  unfold build_csr_with_key. cbv zeta. intros Hcsr. inv_ok. cbn [csr_bytes_der].
  match goal with Hi : ia5_string cn = inr ?s |- _ => pose proof (ia5_unchanged _ _ Hi) as Hs; subst s end.
  match goal with Hr : serialize_request _ _ = Ok _ |- _ => apply (request_reads _ _ cn cn) in Hr as Hp; [|done..] end.
  unfold parse_csr_components. rewrite Hp. cbn [of_sum map_err mbind R_bind ok_or csr_signature_oid].
  rewrite signature_oid_known. cbn. rewrite common_name_oid. cbn.
  match goal with Hi : ia5_string cn = _ |- _ => by rewrite Hi end.
Qed.

(** The time the certificate of a request is valid until can be held. *)
Definition validity_fits (w : World) (days : Z) : bool :=
  ((time_min <=? unix_seconds w - 300) && (unix_seconds w - 300 <=? time_max) &&
   (time_min <=? unix_seconds w + days * 86400) && (unix_seconds w + days * 86400 <=? time_max))%Z.

Lemma validity_cases {E A} w days (f : Z -> Z -> R E A) :
  (from ← datetime_add (unix_seconds w) (- (5 * 60)); until ← datetime_add (unix_seconds w) (days * 86400); f from until)
  = if validity_fits w days then f (unix_seconds w - 300)%Z (unix_seconds w + days * 86400)%Z else Panic.
Proof.
  unfold validity_fits, datetime_add. change (unix_seconds w + - (5 * 60))%Z with (unix_seconds w - 300)%Z.
  destruct (time_min <=? unix_seconds w - 300)%Z, (unix_seconds w - 300 <=? time_max)%Z,
    (time_min <=? unix_seconds w + days * 86400)%Z, (unix_seconds w + days * 86400 <=? time_max)%Z; done.
Qed.

Lemma public_key_eta k : {| der_bytes := der_bytes k; algorithm := algorithm k |} = k.
Proof. by destruct k. Qed.

(** C23: requests round trip through signing.  A request the crate generated is
    always understood and signed whenever rcgen signs; the certificate names the
    same subject, holds the key whose private half was handed out with the request, is valid from
    five minutes ago for the days asked, and verifies under the CA.  A validity that
    ends beyond the last time the clock type holds panics. *)
Theorem csr_roundtrip w fuel fills cn alg csr pkcs8 w' ca days :
  generate_csr w fuel fills cn alg = Some (Ok (csr, pkcs8)) -> signer_ok (signer ca) ->
  exists key, signer_ok key /\ pkcs8 = signer_pkcs8_der key /\
  if validity_fits w' days then
    exists p,
    distinguished_name p = dn_push dn_new CommonName cn /\ subject_alt_names p = [DnsName cn] /\
    key_identifier_method p = key_id_of key /\ serial_number p = Some 1%Z /\
    not_before p = (unix_seconds w' - 300)%Z /\ not_after p = (unix_seconds w' + days * 86400)%Z /\
    forall der pem,
    (sign_csr w' (csr_bytes_der csr) ca days = Ok {| sc_cert_der := der; sc_cert_pem := pem |} <->
     signed_by p (signer_public key) (ca_params ca) (signer_key w' (signer ca)) = Ok (der, pem)) /\
    (sign_csr w' (csr_bytes_der csr) ca days = Ok {| sc_cert_der := der; sc_cert_pem := pem |} ->
     exists v, issued_by ca der v /\ v_params v = p /\ v_public v = signer_public key)
  else sign_csr w' (csr_bytes_der csr) ca days = Panic.
Proof.
  intros (key & Hk & Hcsr)%with_key_Ok Hca. apply generate_key_ok in Hk.
  apply bind_Ok in Hcsr as (csr' & Hp%build_csr_parses & [= -> <-]). rewrite signer_key_public in Hp.
  exists key. split_and!; [done..|].
  unfold sign_csr. rewrite Hp. cbn [mbind R_bind]. cbv zeta. rewrite (validity_cases w' days (fun from until => _)).
  destruct (validity_fits w' days); [|done]. cbn [public_key_bit_string csr_algorithm].
  rewrite public_key_eta. set (p := csr_params _ _ _). exists p. split_and!; [done..|]. intros der pem.
  assert (forall r : R RcgenError (bytes * bytes),
    ('(der, pem) ← map_err (fun e => InvalidConfig ("sign CSR: " +:+ rcgen_error_display e)) r;
     Ok {| sc_cert_der := der; sc_cert_pem := pem |}) = Ok {| sc_cert_der := der; sc_cert_pem := pem |} <->
    r = Ok (der, pem)) as Hr by (intros [[? ?]| |]; cbn; naive_solver).
  split; [apply Hr|]. intros (tbs & sig & Hsig & Hv)%Hr%signed_by_says. rewrite signer_key_public in Hv.
  eexists. split; [split_and!; [exact Hv|done..|]|done]. cbn. eapply signer_verifies; eauto.
Qed.
End CsrProperties.

(** ** Witnesses *)

Module RcgenWitness.
Import Toy RcgenToy.

#[export] Instance DnType_eq_dec : EqDecision DnType.
Proof. solve_decision. Defined.
#[export] Instance SanType_eq_dec : EqDecision SanType.
Proof. solve_decision. Defined.

#[local] Instance names : RcgenNames := {
  DistinguishedName := list (DnType * string); dn_new := []; dn_push dn t s := dn ++ [(t, s)];
  dn_type_from_oid oid := if decide (oid = OID_COMMON_NAME) then CommonName else OtherDnType oid;
  ia5_string s := inr s; rcgen_error_display _ := "error" }.

Definition params0 : CertificateParams := {|
  subject_alt_names := []; distinguished_name := []; is_ca := NoCa; key_usages := []; extended_key_usages := [];
  key_identifier_method := OtherKeyIdMethod; serial_number := None; not_before := 0; not_after := 1000000;
  name_constraints := None; custom_extensions := []; use_authority_key_identifier_extension := false;
  crl_distribution_points := [] |}.

Definition alg_byte (a : RcgenAlgorithm) : byte :=
  match a with
  | PKCS_ED25519 => Byte.x01 | PKCS_ECDSA_P256_SHA256 => Byte.x02
  | PKCS_ECDSA_P384_SHA384 => Byte.x03 | PKCS_RSA_SHA256 => Byte.x04
  end.

Definition byte_alg (b : byte) : RcgenAlgorithm :=
  match b with
  | Byte.x01 => PKCS_ED25519 | Byte.x02 => PKCS_ECDSA_P256_SHA256
  | Byte.x03 => PKCS_ECDSA_P384_SHA384 | _ => PKCS_RSA_SHA256
  end.

(** A certificate is its public key with the signature over it; requests are
    written for one name only. *)
#[local] Instance toy_rcgen : Rcgen := {
  params_default := params0; subject_public_key_info pub := der_bytes pub;
  self_signed p k := (sig ← key_sign k (der_bytes (key_public k)); Ok (der_bytes (key_public k) ++ sig, []));
  signed_by p pub ip ik := (sig ← key_sign ik (der_bytes pub); Ok (der_bytes pub ++ sig, []));
  serialize_request p k :=
    if decide (distinguished_name p = [(CommonName, "leaf")] /\ subject_alt_names p = [DnsName "leaf"])
    then Ok (alg_byte (algorithm (key_public k)) :: der_bytes (key_public k)) else Err RingUnspecified;
  csr_pem der := inr der; pfx_new cert key _ _ := Some (cert ++ key) }.

#[local] Instance requests : X509Requests := {
  request_from_der der :=
    match der with
    | b :: pub => inr {|
        csr_signature_oid := Some (signature_oid (byte_alg b));
        csr_subject := [[{| attr_type := Some OID_COMMON_NAME; attr_as_str := inr "leaf" |}]];
        csr_requested_extensions := Some [SubjectAlternativeName [GnDNSName "leaf"]];
        csr_subject_public_key := pub; csr_spki_raw := pub |}
    | [] => inl "empty"
    end;
  time_min := 0; time_max := 253402300799 }.

#[local] Instance rcgen_laws : RcgenLaws.
Proof.
  refine {| certificate_says der v := der = v_tbs v ++ v_signature v |}.
  - intros p k der pem Hs. cbn in Hs. destruct (key_sign k _) as [sig| |] eqn:Hk; [|done..]. injection Hs as <- <-.
    by exists (der_bytes (key_public k)), sig.
  - intros p pub ip ik der pem Hs. cbn in Hs. destruct (key_sign ik _) as [sig| |] eqn:Hk; [|done..].
    injection Hs as <- <-. by exists (der_bytes pub), sig.
Defined.

#[local] Instance request_laws : RequestLaws.
Proof.
  split; [|done|by intros s t [= ->]].
  intros p k cn san der Hd Hs Hser. cbn in Hser, Hd. rewrite Hd, Hs in Hser. case_decide as Hc; [|done].
  destruct Hc as [Hc1 Hc2]. simplify_eq. by destruct (algorithm (key_public k)).
Qed.

Definition w0 : World := {| os_random n := Ok (replicate n Byte.x01); unix_seconds := 1000 |}.

Lemma issued_certificates_witness : exists root int leaf,
  generate_ca w0 0 fills "root" AlgEd25519 = Some (Ok root) /\
  generate_intermediate_ca w0 5 fills "int" EcdsaP256 root = Some (Ok int) /\
  generate_ca_signed_leaf w0 5 fills ["leaf"; "10.0.0.1"] EcdsaP384 int = Some (Ok leaf) /\
  chain_ok [int; root] /\ path_ok [int; root] /\ leaf_ok int ["leaf"; "10.0.0.1"] ServerAuth 1 leaf.
Proof.
  do 3 eexists. do 3 (split; [reflexivity|]).
  match goal with |- chain_ok ?cas /\ _ /\ leaf_ok _ ?ns _ _ ?leaf =>
    destruct (issued_certificates cas) as (Hc & Hp & Hl);
      [eapply (chain_below w0 5 fills "int" EcdsaP256);
         [eapply (chain_root w0 0 fills "root" AlgEd25519); reflexivity|reflexivity]|];
    split; [exact Hc|]; split; [apply Hp; cbn; lia|];
    exact (proj1 (Hl _ _ w0 5 fills ns EcdsaP384 leaf eq_refl) eq_refl)
  end.
Defined.

Definition cert_of (r : R TlsError SignedCertificate) : SignedCertificate :=
  match r with Ok c => c | _ => {| sc_cert_der := []; sc_cert_pem := [] |} end.

Lemma csr_roundtrip_witness : exists csr pkcs8 root,
  generate_csr w0 5 fills "leaf" EcdsaP256 = Some (Ok (csr, pkcs8)) /\
  generate_ca w0 0 fills "root" AlgEd25519 = Some (Ok root) /\
  (exists key cert v, pkcs8 = signer_pkcs8_der key /\ sign_csr w0 (csr_bytes_der csr) root 90 = Ok cert /\
     issued_by root (sc_cert_der cert) v /\ v_public v = signer_public key) /\
  sign_csr w0 (csr_bytes_der csr) root 4294967295 = Panic.
Proof.
  do 3 eexists. do 2 (split; [reflexivity|]).
  match goal with |- (exists key cert v, ?pk = _ /\ sign_csr _ (csr_bytes_der ?csr) ?ca _ = _ /\ _) /\ _ =>
    assert (signer_ok (signer ca)) as Hca by (split; reflexivity);
    assert (generate_csr w0 5 fills "leaf" EcdsaP256 = Some (Ok (csr, pk))) as Hg by (vm_compute; reflexivity);
    destruct (csr_roundtrip w0 5 fills "leaf" EcdsaP256 csr pk w0 ca 90 Hg Hca)
      as (key & _ & Hpk & p & _ & _ & _ & _ & _ & _ & Hs);
    destruct (csr_roundtrip w0 5 fills "leaf" EcdsaP256 csr pk w0 ca 4294967295 Hg Hca) as (key' & _ & _ & Hpanic)
  end.
  split; [|exact Hpanic].
  match type of Hs with forall der pem, (?r = _ <-> _) /\ _ =>
    destruct (Hs (sc_cert_der (cert_of r)) (sc_cert_pem (cert_of r))) as [_ Hissued];
    destruct Hissued as (v & Hv & _ & Hpub); [vm_compute; reflexivity|];
    exists key, (cert_of r), v
  end.
  split; [exact Hpk|]. split; [vm_compute; reflexivity|]. split; [exact Hv|exact Hpub].
Defined.
End RcgenWitness.
