(* ===== verification/Unused.v ===== *)
(** * Unused: source files that no crate declares

    Three files of the repository are not part of a crate, since no [mod]
    names them: crates/oxitls-rcgen/src/accessors.rs and pkcs12.rs, an earlier
    form of methods cert.rs has now, and crates/oxitls-h2/src/error.rs, an
    earlier form of the errors of lib.rs.  They are modelled to compare them
    with what is compiled in their place: [error_module_agrees] says where the
    two forms of the errors differ, and [fingerprint_reads] that the fingerprint
    text of accessors.rs can be read back. *)

From S2P Require Import Prelude Core Crypto H2 Rcgen.

(** ** oxitls-rcgen: accessors.rs *)

(** What [parse_x509_certificate] finds, the error by its [Debug] text. *)
Record X509View := { xv_subject : string; xv_not_before : Z; xv_not_after : Z; xv_algorithm : string }.

Class X509Parser := {
  parse_x509_certificate : bytes -> string + X509View;
  format_rfc3339 : Z -> option string;
}.

(** A Rust [String] made of ASCII bytes. *)
Definition str (l : bytes) : string := String.string_of_list_byte l.

Definition hex_digit_char (n : Z) : byte :=
  if (n <=? 9)%Z then u8 (val Byte.x30 + n)
  else if (n <=? 15)%Z then u8 (val Byte.x41 + (n - 10)) else Byte.x3f.

(** The body of the loop, [i] the index of [b]. *)
Definition push_byte (st : nat * string) (b : byte) : nat * string :=
  let '(i, out) := st in
  let out := if 0 <? i then out +:+ ":" else out in
  let hi := Z.land (Z.shiftr (val b) 4) 0x0F in
  let lo := Z.land (val b) 0x0F in
  let out := out +:+ str [hex_digit_char hi] in
  (S i, out +:+ str [hex_digit_char lo]).

Definition format_fingerprint (fp : bytes) : string := (foldl push_byte (0, "") fp).2.

Section Accessors.
Context `{X509Parser} `{Sha256}.

Definition parse_cert (self : RcCertifiedKey) : R TlsError X509View :=
  match parse_x509_certificate (cert_der self) with
  | inr cert => Ok cert
  | inl e => Err (InvalidConfig ("parse cert DER: " +:+ e))
  end.

Definition subject_name (self : RcCertifiedKey) : R TlsError string :=
  cert ← parse_cert self; Ok (xv_subject cert).

Definition accessor_not_after (self : RcCertifiedKey) : R TlsError Z :=
  cert ← parse_cert self; Ok (xv_not_after cert).

Definition accessor_not_before (self : RcCertifiedKey) : R TlsError Z :=
  cert ← parse_cert self; Ok (xv_not_before cert).

Definition signature_algorithm_oid (self : RcCertifiedKey) : R TlsError string :=
  cert ← parse_cert self; Ok (xv_algorithm cert).

Definition accessors_display (self : RcCertifiedKey) : string :=
  let subject := match subject_name self with Ok s => s | _ => "<unparseable>" end in
  let algorithm := match signature_algorithm_oid self with Ok s => s | _ => "<unparseable>" end in
  let fingerprint := format_fingerprint (cert_fingerprint_sha256 self) in
  let not_after :=
    match accessor_not_after self with
    | Ok dt => match format_rfc3339 dt with Some s => s | None => "<unformattable>" end
    | _ => "<unparseable>"
    end in
  "Subject:    " +:+ subject +:+ newline +:+ "Algorithm:  " +:+ algorithm +:+ newline +:+
  "SHA-256:    " +:+ fingerprint +:+ newline +:+ "Not after:  " +:+ not_after.
End Accessors.

(** ** oxitls-rcgen: pkcs12.rs *)

(** The [p12] crate: a PFX from certificate, key, further certificates,
    password and name. *)
Class P12 := {
  PFX : Type;
  pfx_new_one : bytes -> bytes -> option bytes -> string -> string -> option PFX;
  pfx_new_with_cas : bytes -> bytes -> list bytes -> string -> string -> option PFX;
  pfx_to_der : PFX -> bytes;
}.

Section Pkcs12.
Context `{P12}.

Definition PKCS12_FAILED : TlsError :=
  Other "PKCS#12 construction failed (OS RNG unavailable or DER encoding rejected)".

Definition pkcs12_export (self : RcCertifiedKey) (password friendly_name : string) : R TlsError bytes :=
  pfx ← ok_or PKCS12_FAILED (pfx_new_one (cert_der self) (pkcs8_der self) None password friendly_name);
  Ok (pfx_to_der pfx).

Definition to_pkcs12_with_chain (self : RcCertifiedKey) (password friendly_name : string) (ca_chain : list bytes)
  : R TlsError bytes :=
  pfx ← ok_or PKCS12_FAILED (pfx_new_with_cas (cert_der self) (pkcs8_der self) ca_chain password friendly_name);
  Ok (pfx_to_der pfx).
End Pkcs12.

(** ** oxitls-h2: error.rs *)

Module ErrorRs.
Section ErrorRs.
Context `{H2.H2Types}.

Inductive RsH2Error :=
  | AlpnNotH2 (got : string)
  | ProtocolErr (e : H2.h2_error)
  | IoErr (e : IoError)
  | SettingsErr (s : string)
  | StreamReset (r : H2.Reason)
  | Timeout
  | GracefulShutdownTimeout.

Definition rs_is_alpn_not_h2 (self : RsH2Error) : bool := match self with AlpnNotH2 _ => true | _ => false end.
Definition rs_is_h2 (self : RsH2Error) : bool := match self with ProtocolErr _ => true | _ => false end.
Definition rs_is_io (self : RsH2Error) : bool := match self with IoErr _ => true | _ => false end.
Definition rs_is_stream_reset (self : RsH2Error) : bool := match self with StreamReset _ => true | _ => false end.
Definition rs_is_timeout (self : RsH2Error) : bool :=
  match self with Timeout | GracefulShutdownTimeout => true | _ => false end.

Definition rs_display (self : RsH2Error) : string :=
  match self with
  | AlpnNotH2 got => "ALPN protocol is not " +:+ H2.QUOTE +:+ "h2" +:+ H2.QUOTE +:+ " (got " +:+ got +:+ ")"
  | ProtocolErr e => "h2 error: " +:+ H2.h2_error_display e
  | IoErr e => "I/O error: " +:+ io_message e
  | SettingsErr s => "settings error: " +:+ s
  | StreamReset r => "stream reset: " +:+ H2.reason_debug r
  | Timeout => "operation timed out"
  | GracefulShutdownTimeout => "graceful shutdown timed out"
  end.

Definition rs_source (self : RsH2Error) : option (H2.h2_error + IoError) :=
  match self with
  | ProtocolErr e => Some (inl e)
  | IoErr e => Some (inr e)
  | AlpnNotH2 _ | SettingsErr _ | StreamReset _ | Timeout | GracefulShutdownTimeout => None
  end.

Definition rs_from_h2 (e : H2.h2_error) : RsH2Error :=
  if H2.is_reset e then
    match H2.error_reason e with Some reason => StreamReset reason | None => ProtocolErr e end
  else ProtocolErr e.

Definition rs_from_io (e : IoError) : RsH2Error := IoErr e.

Definition rs_tls_error (e : RsH2Error) : TlsError :=
  match e with
  | AlpnNotH2 s => Handshake ("ALPN not h2: " +:+ s)
  | ProtocolErr e => Other ("h2: " +:+ H2.h2_error_display e)
  | IoErr e => Io (io_kind e)
  | SettingsErr s => Other ("h2 settings: " +:+ s)
  | StreamReset r => Other ("stream reset: " +:+ H2.reason_debug r)
  | Timeout => Other "h2 timeout"
  | GracefulShutdownTimeout => Other "h2 graceful shutdown timeout"
  end.

(** The same error in the type of lib.rs. *)
Definition in_lib (e : RsH2Error) : H2.H2Error :=
  match e with
  | AlpnNotH2 s => H2.AlpnNotH2 s
  | ProtocolErr e => H2.H2 e
  | IoErr e => H2.IoErr e
  | SettingsErr s => H2.SettingsErr s
  | StreamReset r => H2.StreamReset r
  | Timeout => H2.Timeout
  | GracefulShutdownTimeout => H2.GracefulShutdownTimeout
  end.

(** The two forms of the errors name the same cases, answer every predicate and
    [source] alike and wrap foreign errors alike; their texts differ on a reset
    stream only.  A [TlsError] made of them is of the same kind, except that a
    settings error is [Other] here and [InvalidConfig] in lib.rs. *)
Theorem error_module_agrees :
  (forall e, H2.is_alpn_not_h2 (in_lib e) = rs_is_alpn_not_h2 e /\ H2.is_h2 (in_lib e) = rs_is_h2 e /\
     H2.is_io (in_lib e) = rs_is_io e /\ H2.is_stream_reset (in_lib e) = rs_is_stream_reset e /\
     H2.is_timeout (in_lib e) = rs_is_timeout e /\ H2.source (in_lib e) = rs_source e) /\
  (forall e, H2.from_h2 e = in_lib (rs_from_h2 e)) /\ (forall e, H2.from_io e = in_lib (rs_from_io e)) /\
  (forall e, rs_is_stream_reset e = false -> H2.h2_display (in_lib e) = rs_display e) /\
  (forall r, H2.h2_display (H2.StreamReset r) = "H2 " +:+ rs_display (StreamReset r)) /\
  (forall e, match e with SettingsErr s => rs_tls_error e = Other ("h2 settings: " +:+ s) /\
                            H2.tls_error_from_h2 (in_lib e) = InvalidConfig s
             | _ => is_handshake (H2.tls_error_from_h2 (in_lib e)) = is_handshake (rs_tls_error e) /\
                    Core.is_io (H2.tls_error_from_h2 (in_lib e)) = Core.is_io (rs_tls_error e)
             end).
Proof.
  split_and!; try done; try (intros []; cbn; done).
  intros e. unfold H2.from_h2, rs_from_h2. destruct (H2.is_reset e), (H2.error_reason e); done.
Qed.
End ErrorRs.
End ErrorRs.

(** ** Properties of accessors.rs *)

(** Reading a fingerprint: groups of two hexadecimal digits between colons. *)
Definition read_group (g : bytes) : option byte :=
  match g with
  | [x; y] => hi ← ParseIp.to_digit 16 x; lo ← ParseIp.to_digit 16 y; Some (u8 (hi * 16 + lo))
  | _ => None
  end.
Definition read_fingerprint (s : string) : option bytes := mapM read_group (split_on Byte.x3a (bstr s)).

Definition digits_of (b : byte) : bytes :=
  [hex_digit_char (Z.land (Z.shiftr (val b) 4) 0x0F); hex_digit_char (Z.land (val b) 0x0F)].

Lemma bstr_str l : bstr (str l) = l.
Proof. apply String.list_byte_of_string_of_list_byte. Qed.

Lemma digits_of_read b : read_group (digits_of b) = Some b /\ Byte.x3a ∉ digits_of b.
Proof.
  destruct b; (split; [reflexivity|]); unfold digits_of; rewrite !not_elem_of_cons;
    (split; [discriminate|]); (split; [discriminate|apply not_elem_of_nil]).
Qed.

Lemma format_tail bs i out :
  bstr (foldl push_byte (S i, out) bs).2 = bstr out ++ mjoin ((fun b => Byte.x3a :: digits_of b) <$> bs).
Proof.
  revert i out. induction bs as [|b bs IH]; intros i out; [by rewrite app_nil_r|].
  cbn [foldl push_byte]. rewrite IH. cbn [Nat.ltb Nat.leb]. rewrite !bstr_app, !bstr_str, fmap_cons, join_cons.
  rewrite <- !app_assoc. done.
Qed.

Lemma read_tail b bs :
  mapM read_group (split_on Byte.x3a (digits_of b ++ mjoin ((fun b => Byte.x3a :: digits_of b) <$> bs))) = Some (b :: bs).
Proof.
  revert b. induction bs as [|c bs IH]; intros b; destruct (digits_of_read b) as [Hr Hn].
  - cbn [fmap list_fmap mjoin list_join]. rewrite app_nil_r, split_on_none by done. cbn [mapM]. by rewrite Hr.
  - rewrite fmap_cons, join_cons. cbn [app]. rewrite split_on_app by done. cbn [mapM]. by rewrite Hr, IH.
Qed.

(** The fingerprint text of a non-empty digest can be read back, whatever the
    bytes, and has three characters per byte less one. *)
Theorem fingerprint_reads (fp : bytes) :
  fp <> [] ->
  read_fingerprint (format_fingerprint fp) = Some fp /\
  length (bstr (format_fingerprint fp)) = 3 * length fp - 1.
Proof.
  destruct fp as [|b bs]; [done|]. intros _.
  assert (bstr (format_fingerprint (b :: bs)) = digits_of b ++ mjoin ((fun b => Byte.x3a :: digits_of b) <$> bs)) as Hf.
  { unfold format_fingerprint. cbn [foldl push_byte]. rewrite format_tail, !bstr_app, !bstr_str. done. }
  unfold read_fingerprint. rewrite Hf. split; [apply read_tail|].
  assert (length (mjoin ((fun b => Byte.x3a :: digits_of b) <$> bs)) = 3 * length bs) as Hl.
  { clear. induction bs as [|c bs IH]; [done|]. rewrite fmap_cons, join_cons, length_app, IH. cbn. lia. }
  rewrite length_app, Hl. cbn. lia.
Qed.

(** Every accessor succeeds exactly when the certificate parses. *)
Lemma accessors_succeed `{X509Parser} self :
  is_ok (subject_name self) = is_ok (parse_cert self) /\ is_ok (accessor_not_after self) = is_ok (parse_cert self) /\
  is_ok (accessor_not_before self) = is_ok (parse_cert self) /\
  is_ok (signature_algorithm_oid self) = is_ok (parse_cert self).
Proof.
  unfold subject_name, accessor_not_after, accessor_not_before, signature_algorithm_oid.
  by destruct (parse_cert self).
Qed.
