(* ===== verification/Records.v ===== *)
(** * Records: TLS record protection

    crates/oxitls-rustcrypto-provider/src/aead/gcm.rs and chacha20.rs: the
    encrypters and decrypters of TLS 1.2 and TLS 1.3 records. *)

From S2P Require Import Prelude Core Crypto Hpke.

(** ** What rustls hands over and takes back *)

(** The payload of an outgoing message comes in chunks. *)
Record OutboundPlainMessage := { op_typ : byte; op_version : Z; op_payload : list bytes }.
Record OpaqueMessage := { om_typ : byte; om_version : Z; om_payload : bytes }.
Record PlainMessage := { pm_typ : byte; pm_version : Z; pm_payload : bytes }.

Definition APPLICATION_DATA : byte := Byte.x17.
Definition TLSv1_2 : Z := 0x0303.
Definition TLSv1_3 : Z := 0x0304.

(** [rustls::crypto::cipher]: the record nonce, the associated data of both
    versions, and the two ways of turning an opaque message into a plain one. *)
Class RustlsCipher := {
  nonce_new : bytes -> Z -> bytes;
  make_tls12_aad : Z -> byte -> Z -> Z -> bytes;
  make_tls13_aad : Z -> bytes;
  into_plain_message : OpaqueMessage -> PlainMessage;
  into_tls13_unpadded_message : OpaqueMessage -> RustlsError + PlainMessage;
}.

(** Documented behaviour: the nonce is the IV with the 64-bit sequence number
    XORed into its last eight bytes; a plain message keeps type, version and
    payload; unpadding takes the last non-zero byte as the content type, for a
    payload of at most 2^14 + 1 bytes. *)
Class RustlsCipherLaws `{RustlsCipher} := {
  nonce_new_spec : forall iv seq, length iv = 12 ->
    length (nonce_new iv seq) = 12 /\ take 4 (nonce_new iv seq) = take 4 iv;
  into_plain_message_spec : forall m,
    into_plain_message m = {| pm_typ := om_typ m; pm_version := om_version m; pm_payload := om_payload m |};
  unpadded_spec : forall t v p ct, ct <> Byte.x00 -> (Z.of_nat (length p) <= 16384)%Z ->
    into_tls13_unpadded_message {| om_typ := t; om_version := v; om_payload := p ++ [ct] |}
    = inr {| pm_typ := ct; pm_version := TLSv1_3; pm_payload := p |};
}.

(** An AEAD of the [aes_gcm] and [chacha20poly1305] crates, with its key size;
    [new_from_slice] fails exactly on another key length. *)
Record AeadAlg := { alg : Aead; key_size : nat }.

Definition new_from_slice_unwrap {E} (a : AeadAlg) (key : bytes) : R E bytes :=
  if length key =? key_size a then Ok key else Panic.

Inductive ConnectionTrafficSecrets :=
  | SecretsAes128Gcm (key iv : bytes)
  | SecretsAes256Gcm (key iv : bytes)
  | SecretsChacha20Poly1305 (key iv : bytes).

Record KeyBlockShape := { enc_key_len : nat; fixed_iv_len : nat; explicit_nonce_len : nat }.

(** [dst[i..j].copy_from_slice(src)] on an array of known length. *)
Definition write_range {E} (dst : bytes) (i j : nat) (src : bytes) : R E bytes :=
  old ← slice dst i j;
  new ← copy_from_slice old src;
  Ok (take i dst ++ new ++ drop j dst).

(** [a - b] on [usize]: the check panics when it is compiled in, and the result
    wraps around when it is not. *)
Definition usize_sub {E} (overflow_checks : bool) (a b : nat) : R E Z :=
  if b <=? a then Ok (Z.of_nat (a - b))
  else if overflow_checks then Panic else Ok (Z.of_nat a - Z.of_nat b + 2 ^ 64)%Z.

Section Records.
Context `{RustlsCipher} (a : AeadAlg).

(** ** TLS 1.3, [impl_gcm_tls13] and [Tls13Cipher] *)

Record Tls13Cipher := { t13_key : bytes; t13_iv : bytes }.

(** [encrypter] and [decrypter] of [Chacha20Poly1305], and those of the GCM
    algorithms. *)
Definition tls13_cipher {E} (key iv : bytes) : R E Tls13Cipher :=
  key ← new_from_slice_unwrap a key; Ok {| t13_key := key; t13_iv := iv |}.

Definition tls13_gcm_cipher {E} (key iv : bytes) : R E Tls13Cipher :=
  key ← new_from_slice_unwrap a key; Ok {| t13_key := key; t13_iv := iv |}.

Definition tls13_key_len : nat := key_size a.

Definition tls13_gcm_key_len : nat := key_size a.

Definition tls13_gcm_extract_keys (key iv : bytes) : ConnectionTrafficSecrets := SecretsAes256Gcm key iv.

Definition tls13_chacha_extract_keys (key iv : bytes) : ConnectionTrafficSecrets :=
  SecretsChacha20Poly1305 key iv.

Definition CHACHAPOLY1305_OVERHEAD : nat := 16.

Definition tls13_encrypted_payload_len (payload_len : nat) : nat :=
  payload_len + 1 + CHACHAPOLY1305_OVERHEAD.

(** The macro's overhead is 16 for both key sizes. *)
Definition tls13_gcm_encrypted_payload_len (payload_len : nat) : nat := payload_len + 1 + 16.

Definition tls13_gcm_encrypt (self : Tls13Cipher) (m : OutboundPlainMessage) (seq : Z)
  : R RustlsError OpaqueMessage :=
  let total_len := tls13_gcm_encrypted_payload_len (length (concat (op_payload m))) in
  let payload := [] in
  let nonce := nonce_new (t13_iv self) seq in
  let aad := make_tls13_aad (Z.of_nat total_len) in
  let payload := payload ++ concat (op_payload m) in
  let payload := payload ++ [op_typ m] in
  payload ← ok_or EncryptError (attached_encrypt (alg a) (t13_key self) nonce aad payload);
  Ok {| om_typ := APPLICATION_DATA; om_version := TLSv1_2; om_payload := payload |}.

Definition tls13_chacha_encrypt (self : Tls13Cipher) (m : OutboundPlainMessage) (seq : Z)
  : R RustlsError OpaqueMessage :=
  let total_len := tls13_encrypted_payload_len (length (concat (op_payload m))) in
  let payload := [] in
  let payload := payload ++ concat (op_payload m) in
  let payload := payload ++ [op_typ m] in
  let nonce := nonce_new (t13_iv self) seq in
  let aad := make_tls13_aad (Z.of_nat total_len) in
  payload ← ok_or EncryptError (attached_encrypt (alg a) (t13_key self) nonce aad payload);
  Ok {| om_typ := APPLICATION_DATA; om_version := TLSv1_2; om_payload := payload |}.

Definition tls13_decrypt (self : Tls13Cipher) (m : OpaqueMessage) (seq : Z) : R RustlsError PlainMessage :=
  let payload := om_payload m in
  let nonce := nonce_new (t13_iv self) seq in
  let aad := make_tls13_aad (Z.of_nat (length payload)) in
  payload ← ok_or DecryptError (attached_decrypt (alg a) (t13_key self) nonce aad payload);
  of_sum (into_tls13_unpadded_message
            {| om_typ := om_typ m; om_version := om_version m; om_payload := payload |}).

Definition tls13_gcm_decrypt (self : Tls13Cipher) (m : OpaqueMessage) (seq : Z) : R RustlsError PlainMessage :=
  let payload := om_payload m in
  let nonce := nonce_new (t13_iv self) seq in
  let aad := make_tls13_aad (Z.of_nat (length payload)) in
  payload ← ok_or DecryptError (attached_decrypt (alg a) (t13_key self) nonce aad payload);
  of_sum (into_tls13_unpadded_message
            {| om_typ := om_typ m; om_version := om_version m; om_payload := payload |}).

(** ** TLS 1.2 GCM, [impl_gcm_tls12] *)

Definition TLS12_GCM_EXPLICIT_NONCE_LEN : nat := 8.
Definition TLS12_GCM_OVERHEAD : nat := TLS12_GCM_EXPLICIT_NONCE_LEN + 16.

Record Tls12GcmEncrypter := { e12_key : bytes; e12_iv : bytes }.
Record Tls12GcmDecrypter := { d12_key : bytes; d12_iv : bytes }.

Definition tls12_gcm_encrypter {E} (key write_iv explicit : bytes) : R E Tls12GcmEncrypter :=
  key ← new_from_slice_unwrap a key;
  let iv := replicate 12 Byte.x00 in
  iv ← write_range iv 0 4 write_iv;
  iv ← write_range iv 4 12 explicit;
  Ok {| e12_key := key; e12_iv := iv |}.

Definition tls12_gcm_decrypter {E} (dec_key dec_iv : bytes) : R E Tls12GcmDecrypter :=
  key ← new_from_slice_unwrap a dec_key;
  iv ← (if length dec_iv =? 4 then Ok dec_iv else Panic);
  Ok {| d12_key := key; d12_iv := iv |}.

Definition tls12_gcm_key_block_shape : KeyBlockShape :=
  {| enc_key_len := key_size a; fixed_iv_len := 4; explicit_nonce_len := 8 |}.

(** [Iv::new] wants a 12-byte array. *)
Definition tls12_gcm_extract_keys {E} (key iv : bytes) : R E ConnectionTrafficSecrets :=
  iv ← (if length iv =? 12 then Ok iv else Panic);
  Ok (SecretsAes128Gcm key iv).

Definition tls12_gcm_encrypted_payload_len (payload_len : nat) : nat :=
  payload_len + TLS12_GCM_EXPLICIT_NONCE_LEN + 16.

Definition tls12_gcm_encrypt (self : Tls12GcmEncrypter) (m : OutboundPlainMessage) (seq : Z)
  : R RustlsError OpaqueMessage :=
  let payload := [] in
  let nonce := nonce_new (e12_iv self) seq in
  let aad := make_tls12_aad seq (op_typ m) (op_version m) (Z.of_nat (length (concat (op_payload m)))) in
  explicit ← slice nonce 4 (length nonce);
  let payload := payload ++ explicit in
  let payload := payload ++ concat (op_payload m) in
  msg ← slice payload TLS12_GCM_EXPLICIT_NONCE_LEN (length payload);
  '(ct, tag) ← ok_or EncryptError (@aead_encrypt (alg a) (e12_key self) nonce aad msg);
  let payload := take TLS12_GCM_EXPLICIT_NONCE_LEN payload ++ ct in
  let payload := payload ++ tag in
  Ok {| om_typ := op_typ m; om_version := op_version m; om_payload := payload |}.

Definition rotate_left (n : nat) (bs : bytes) : bytes := drop n bs ++ take n bs.

Definition tls12_gcm_decrypt (self : Tls12GcmDecrypter) (m : OpaqueMessage) (seq : Z)
  : R RustlsError PlainMessage :=
  let payload := om_payload m in
  if length payload <? TLS12_GCM_OVERHEAD then Err DecryptError else
  let nonce := replicate 12 Byte.x00 in
  nonce ← write_range nonce 0 4 (d12_iv self);
  explicit ← slice payload 0 TLS12_GCM_EXPLICIT_NONCE_LEN;
  nonce ← write_range nonce 4 12 explicit;
  let aad := make_tls12_aad seq (om_typ m) (om_version m)
               (Z.of_nat (length payload - TLS12_GCM_OVERHEAD)) in
  rest ← slice payload TLS12_GCM_EXPLICIT_NONCE_LEN (length payload);
  let tag_pos := length rest - 16 in
  msg ← slice rest 0 tag_pos;
  tag ← slice rest tag_pos (length rest);
  msg ← ok_or DecryptError (@aead_decrypt (alg a) (d12_key self) nonce aad msg tag);
  let payload := take TLS12_GCM_EXPLICIT_NONCE_LEN payload ++ msg ++ tag in
  let payload := rotate_left TLS12_GCM_EXPLICIT_NONCE_LEN payload in
  let payload := take tag_pos payload in
  Ok (into_plain_message {| om_typ := om_typ m; om_version := om_version m; om_payload := payload |}).

(** ** TLS 1.2 ChaCha20-Poly1305, [Tls12Cipher] *)

(** [Iv::copy] wants 12 bytes. *)
Definition tls12_chacha_cipher {E} (key iv : bytes) : R E Tls13Cipher :=
  key ← new_from_slice_unwrap a key;
  iv ← (if length iv =? 12 then Ok iv else Panic);
  Ok {| t13_key := key; t13_iv := iv |}.

Definition tls12_chacha_key_block_shape : KeyBlockShape :=
  {| enc_key_len := 32; fixed_iv_len := 12; explicit_nonce_len := 0 |}.

Definition tls12_chacha_extract_keys {E} (key iv : bytes) : R E ConnectionTrafficSecrets :=
  iv ← (if length iv =? 12 then Ok iv else Panic);
  Ok (SecretsChacha20Poly1305 key iv).

Definition tls12_chacha_encrypted_payload_len (payload_len : nat) : nat :=
  payload_len + CHACHAPOLY1305_OVERHEAD.

Definition tls12_chacha_encrypt (self : Tls13Cipher) (m : OutboundPlainMessage) (seq : Z)
  : R RustlsError OpaqueMessage :=
  let payload := [] ++ concat (op_payload m) in
  let nonce := nonce_new (t13_iv self) seq in
  let aad := make_tls12_aad seq (op_typ m) (op_version m) (Z.of_nat (length (concat (op_payload m)))) in
  payload ← ok_or EncryptError (attached_encrypt (alg a) (t13_key self) nonce aad payload);
  Ok {| om_typ := op_typ m; om_version := op_version m; om_payload := payload |}.

Definition tls12_chacha_decrypt (overflow_checks : bool) (self : Tls13Cipher) (m : OpaqueMessage) (seq : Z)
  : R RustlsError PlainMessage :=
  let payload := om_payload m in
  let nonce := nonce_new (t13_iv self) seq in
  len ← usize_sub overflow_checks (length payload) CHACHAPOLY1305_OVERHEAD;
  let aad := make_tls12_aad seq (om_typ m) (om_version m) len in
  payload ← ok_or DecryptError (attached_decrypt (alg a) (t13_key self) nonce aad payload);
  Ok (into_plain_message {| om_typ := om_typ m; om_version := om_version m; om_payload := payload |}).
End Records.

(** ** Properties *)

Lemma write_range_ok {E} dst i j src :
  i <= j -> j <= length dst -> length src = j - i ->
  write_range (E:=E) dst i j src = Ok (take i dst ++ src ++ drop j dst).
Proof.
  intros. unfold write_range. rewrite slice_ok by lia. cbn [mbind R_bind]. unfold copy_from_slice.
  rewrite length_take, length_drop, (proj2 (Nat.eqb_eq _ _)) by lia. done.
Qed.

Lemma write_range_Ok {E} dst i j src r :
  write_range (E:=E) dst i j src = Ok r -> length src = j - i /\ r = take i dst ++ src ++ drop j dst.
Proof.
  unfold write_range, copy_from_slice. intros Hw. inv_ok. case_test; inv_ok. reflect_tests.
  rename select (slice _ _ _ = _) into Hs. pose proof (slice_length _ _ _ _ Hs). split; [lia|done].
Qed.

Section RecordProperties.
Context `{RustlsCipherLaws} (a : AeadAlg) `{!AeadLaws (alg a)}.

Definition plain_of (m : OutboundPlainMessage) : PlainMessage :=
  {| pm_typ := op_typ m; pm_version := op_version m; pm_payload := concat (op_payload m) |}.

(** Record [o], unprotected to [r], carries [m] in TLS 1.3. *)
Definition tls13_carries (m : OutboundPlainMessage) (o : OpaqueMessage) (len : nat) (r : R RustlsError PlainMessage) : Prop :=
  r = Ok {| pm_typ := op_typ m; pm_version := TLSv1_3; pm_payload := concat (op_payload m) |} /\
  om_typ o = APPLICATION_DATA /\ om_version o = TLSv1_2 /\ length (om_payload o) = len.

(** What both TLS 1.3 encrypters compute. *)
Lemma tls13_decrypt_sealed c m seq len p :
  let o := {| om_typ := APPLICATION_DATA; om_version := TLSv1_2; om_payload := p |} in
  len = length (concat (op_payload m)) + 17 ->
  attached_encrypt (alg a) (t13_key c) (nonce_new (t13_iv c) seq) (make_tls13_aad (Z.of_nat len))
    (concat (op_payload m) ++ [op_typ m]) = Some p ->
  op_typ m <> Byte.x00 -> (Z.of_nat (length (concat (op_payload m))) <= 16384)%Z ->
  tls13_carries m o len (tls13_decrypt a c o seq).
Proof.
  intros o Hn He Ht Hl. destruct (attached_roundtrip _ _ _ _ _ _ He) as [Hd Hlen].
  assert (length p = len) as Hp by (rewrite length_app in Hlen; cbn in Hlen; lia).
  split; [|done]. unfold tls13_decrypt. cbn [om_payload om_typ om_version o]. rewrite Hp, Hd.
  cbn [ok_or mbind R_bind]. by rewrite unpadded_spec.
Qed.

(** C19: a TLS 1.3 record protected by the GCM ciphers, or by
    ChaCha20-Poly1305, is unprotected by the same algorithm, under the same
    sequence number, key and IV, to the message that was sent, with the type
    that was hidden inside; on the wire it is application data of the length
    that was announced to the peer through the associated data.  The two
    algorithms' own [encrypter] and [decrypter] need a key of their length. *)
Theorem tls13_record_roundtrip key iv m seq :
  length key = key_size a -> op_typ m <> Byte.x00 -> (Z.of_nat (length (concat (op_payload m))) <= 16384)%Z ->
  (exists c, tls13_gcm_cipher (E:=RustlsError) a key iv = Ok c /\
     forall o, tls13_gcm_encrypt a c m seq = Ok o ->
       tls13_carries m o (tls13_gcm_encrypted_payload_len (length (concat (op_payload m)))) (tls13_gcm_decrypt a c o seq)) /\
  (exists c, tls13_cipher (E:=RustlsError) a key iv = Ok c /\
     forall o, tls13_chacha_encrypt a c m seq = Ok o ->
       tls13_carries m o (tls13_encrypted_payload_len (length (concat (op_payload m)))) (tls13_decrypt a c o seq)).
Proof.
  intros Hk Ht Hl. unfold tls13_gcm_cipher, tls13_cipher, new_from_slice_unwrap.
  rewrite (proj2 (Nat.eqb_eq _ _) Hk). cbn [mbind R_bind].
  split; (eexists; split; [reflexivity|]); intros o He;
    unfold tls13_gcm_encrypt, tls13_chacha_encrypt in He; cbn [app] in He; inv_ok;
    rename select (attached_encrypt _ _ _ _ _ = _) into Ha;
    (eapply tls13_decrypt_sealed in Ha; [exact Ha|..|done|done]);
    unfold tls13_gcm_encrypted_payload_len, tls13_encrypted_payload_len, CHACHAPOLY1305_OVERHEAD; lia.
Qed.

Lemma tls12_gcm_decrypt_no_panic d m seq :
  length (d12_iv d) = 4 -> tls12_gcm_decrypt a d m seq <> Panic.
Proof.
  intros Hd. unfold tls12_gcm_decrypt, TLS12_GCM_OVERHEAD, TLS12_GCM_EXPLICIT_NONCE_LEN.
  destruct (Nat.ltb_spec (length (om_payload m)) (8 + 16)) as [|Hlen]; [done|]. cbv zeta.
  rewrite write_range_ok by (cbn; lia). cbn [mbind R_bind].
  rewrite (slice_ok (om_payload m) 0 8) by lia. cbn [mbind R_bind].
  rewrite write_range_ok; [|lia|rewrite !length_app, length_drop; cbn; lia|rewrite length_take, length_drop; lia].
  no_panic; try lia.
Qed.

(** Unprotecting an explicit nonce, a ciphertext and a tag. *)
Lemma gcm12_decrypt_wire d t v ex ct tag seq :
  length (d12_iv d) = 4 -> length ex = 8 -> length tag = 16 ->
  tls12_gcm_decrypt a d {| om_typ := t; om_version := v; om_payload := ex ++ ct ++ tag |} seq =
  match @aead_decrypt (alg a) (d12_key d) (d12_iv d ++ ex)
          (make_tls12_aad seq t v (Z.of_nat (length ct))) ct tag with
  | Some msg => if length msg =? length ct
                then Ok {| pm_typ := t; pm_version := v; pm_payload := msg |}
                else Err DecryptError
  | None => Err DecryptError
  end.
Proof.
  intros Hiv Hex Htag. unfold tls12_gcm_decrypt, TLS12_GCM_OVERHEAD, TLS12_GCM_EXPLICIT_NONCE_LEN.
  cbn [om_payload om_typ om_version]. set (p := ex ++ ct ++ tag).
  assert (length p = 24 + length ct) as Hp by (subst p; rewrite !length_app; lia).
  rewrite (proj2 (Nat.ltb_ge _ _)) by lia. cbv zeta.
  rewrite write_range_ok by (cbn; lia). cbn [mbind R_bind].
  assert (slice (E:=RustlsError) p 0 8 = Ok ex) as -> by (apply (slice_app_mid [] ex (ct ++ tag)); cbn; lia).
  cbn [mbind R_bind].
  rewrite write_range_ok; [|lia|rewrite !length_app, length_drop; cbn; lia|lia]. cbn [mbind R_bind].
  assert (slice (E:=RustlsError) p 8 (length p) = Ok (ct ++ tag)) as ->.
  { rewrite (slice_full p) by lia. subst p. by rewrite drop_app_length' by lia. }
  cbn [mbind R_bind]. rewrite length_app, Htag, Nat.add_sub.
  assert (slice (E:=RustlsError) (ct ++ tag) 0 (length ct) = Ok ct) as ->
    by (apply (slice_app_mid [] ct tag); cbn; lia).
  cbn [mbind R_bind].
  assert (slice (E:=RustlsError) (ct ++ tag) (length ct) (length ct + 16) = Ok tag) as ->.
  { rewrite (slice_full (ct ++ tag)) by (rewrite ?length_app; lia). by rewrite drop_app_length. }
  cbn [mbind R_bind]. rewrite Hp. replace (24 + length ct - (8 + 16)) with (length ct) by lia.
  assert (take 4 (take 0 (replicate 12 Byte.x00) ++ d12_iv d ++ drop 4 (replicate 12 Byte.x00)) ++ ex
    ++ drop 12 (take 0 (replicate 12 Byte.x00) ++ d12_iv d ++ drop 4 (replicate 12 Byte.x00)) = d12_iv d ++ ex) as ->.
  { revert Hiv. generalize (d12_iv d) as iv. intros iv Hiv. do 5 (destruct iv as [|? iv]; try done).
    cbn. by rewrite app_nil_r. }
  destruct (aead_decrypt _ _ _ ct tag) as [msg|] eqn:Hdec; [|done]. cbn [ok_or mbind R_bind].
  rewrite (aead_pt_length _ _ _ _ _ _ Hdec), Nat.eqb_refl, into_plain_message_spec. cbn [om_typ om_version om_payload].
  do 2 f_equal. unfold rotate_left. subst p.
  rewrite (take_app_length' ex (ct ++ tag) 8), (drop_app_length' ex (msg ++ tag) 8) by lia.
  rewrite <- app_assoc. rewrite take_app_length' by (by rewrite (aead_pt_length _ _ _ _ _ _ Hdec)). done.
Qed.

Lemma gcm12_keys key write_iv explicit dec_iv e d :
  tls12_gcm_encrypter (E:=RustlsError) a key write_iv explicit = Ok e ->
  tls12_gcm_decrypter (E:=RustlsError) a key dec_iv = Ok d -> dec_iv = write_iv ->
  e12_key e = d12_key d /\ length (d12_iv d) = 4 /\ length (e12_iv e) = 12 /\ take 4 (e12_iv e) = d12_iv d.
Proof.
  unfold tls12_gcm_encrypter, tls12_gcm_decrypter. intros He Hd ->.
  apply bind_Ok in He as (k & Hk & He). cbv zeta in He. apply bind_Ok in He as (iv1 & Hw1 & He).
  apply bind_Ok in He as (iv2 & Hw2 & [= <-]). rewrite Hk in Hd. cbn [mbind R_bind] in Hd.
  apply write_range_Ok in Hw1 as (Hl1 & ->). apply write_range_Ok in Hw2 as (Hl2 & ->).
  rewrite (proj2 (Nat.eqb_eq (length write_iv) 4) Hl1) in Hd. injection Hd as <-. cbn [e12_key d12_key e12_iv d12_iv].
  do 5 (destruct write_iv as [|? write_iv]; try done). do 9 (destruct explicit as [|? explicit]; try done).
Qed.

(** TLS 1.2 GCM.  A record of an encrypter is unprotected by the decrypter set
    up with the same key and fixed IV, whatever the explicit nonce block, to the
    message that was sent; its length is the announced one.  The decrypter never
    panics on a record, and rejects one too short for nonce and tag. *)
Theorem tls12_gcm_record_roundtrip key iv explicit e d m seq :
  tls12_gcm_encrypter (E:=RustlsError) a key iv explicit = Ok e ->
  tls12_gcm_decrypter (E:=RustlsError) a key iv = Ok d ->
  (forall o, tls12_gcm_encrypt a e m seq = Ok o ->
     tls12_gcm_decrypt a d o seq = Ok (plain_of m) /\
     length (om_payload o) = tls12_gcm_encrypted_payload_len (length (concat (op_payload m)))) /\
  (forall o, tls12_gcm_decrypt a d o seq <> Panic /\
     (length (om_payload o) < 24 -> tls12_gcm_decrypt a d o seq = Err DecryptError)).
Proof.
  intros He Hd. destruct (gcm12_keys _ _ _ _ _ _ He Hd eq_refl) as (Hkey & Hdl & Hel & Hpre).
  split; last first.
  { intros o. split; [by apply tls12_gcm_decrypt_no_panic|]. intros Hlen. unfold tls12_gcm_decrypt.
    by rewrite (proj2 (Nat.ltb_lt _ _)) by (unfold TLS12_GCM_OVERHEAD, TLS12_GCM_EXPLICIT_NONCE_LEN; lia). }
  intros o Ho. unfold tls12_gcm_encrypt, TLS12_GCM_EXPLICIT_NONCE_LEN in Ho. cbv zeta in Ho.
  destruct (nonce_new_spec (e12_iv e) seq Hel) as [Hn Hn4]. set (nonce := nonce_new (e12_iv e) seq) in *.
  assert (slice (E:=RustlsError) nonce 4 (length nonce) = Ok (drop 4 nonce)) as Hs1
    by (apply slice_full; lia).
  rewrite Hs1 in Ho. cbn [mbind R_bind app] in Ho. set (body := concat (op_payload m)) in *.
  assert (length (drop 4 nonce) = 8) as H8 by (rewrite length_drop; lia).
  assert (slice (E:=RustlsError) (drop 4 nonce ++ body) 8 (length (drop 4 nonce ++ body)) = Ok body) as Hs2.
  { rewrite slice_full by (rewrite ?length_app; lia). by rewrite drop_app_length' by lia. }
  rewrite Hs2 in Ho. cbn [mbind R_bind] in Ho. apply bind_Ok in Ho as ([ct tag] & Henc & [= <-]).
  apply ok_or_Ok in Henc. rewrite take_app_length' by lia. cbn [om_payload].
  pose proof (aead_ct_length _ _ _ _ _ _ Henc) as Hct. pose proof (aead_tag_length _ _ _ _ _ _ Henc) as Htag.
  pose proof (aead_correct _ _ _ _ _ _ Henc) as Hdec.
  split; [|unfold tls12_gcm_encrypted_payload_len, TLS12_GCM_EXPLICIT_NONCE_LEN; rewrite !length_app; lia].
  rewrite <- app_assoc, gcm12_decrypt_wire by lia.
  rewrite <- Hpre, <- Hn4, take_drop, Hct, <- Hkey, Hdec. by rewrite Nat.eqb_refl.
Qed.

(** TLS 1.2 ChaCha20-Poly1305.  A protected record is unprotected to the message
    that was sent, whether or not overflow checks are compiled in.  A record
    shorter than the tag is rejected as a decryption error in a build without
    the checks, and panics in a build with them, unlike with GCM. *)
Theorem tls12_chacha_record c m seq :
  (forall o checks, tls12_chacha_encrypt a c m seq = Ok o ->
     tls12_chacha_decrypt a checks c o seq = Ok (plain_of m) /\
     length (om_payload o) = tls12_chacha_encrypted_payload_len (length (concat (op_payload m)))) /\
  (forall o, length (om_payload o) < 16 ->
     tls12_chacha_decrypt a false c o seq = Err DecryptError /\
     tls12_chacha_decrypt a true c o seq = Panic).
Proof.
  split.
  - intros o checks Ho. unfold tls12_chacha_encrypt in Ho. cbv zeta in Ho. inv_ok.
    rename select (attached_encrypt _ _ _ _ _ = _) into He. cbn [app] in He.
    destruct (attached_roundtrip _ _ _ _ _ _ He) as [Hd Hl]. cbn [om_payload]. split; [|exact Hl].
    unfold tls12_chacha_decrypt, usize_sub, CHACHAPOLY1305_OVERHEAD. cbn [om_payload om_typ om_version].
    rewrite (proj2 (Nat.leb_le _ _)) by lia. cbn [mbind R_bind].
    replace (Z.of_nat (length x - 16)) with (Z.of_nat (length (concat (op_payload m)))) by lia.
    rewrite Hd. cbn [ok_or mbind R_bind]. by rewrite into_plain_message_spec.
  - intros o Ho. unfold tls12_chacha_decrypt, usize_sub, CHACHAPOLY1305_OVERHEAD, attached_decrypt.
    rewrite (proj2 (Nat.leb_gt _ _)), (proj2 (Nat.ltb_lt _ _)) by lia. done.
Qed.
End RecordProperties.

(** ** Exporting keys

    [extract_keys] of the TLS 1.2 GCM ciphers, on the IV that their own key-block
    shape describes. *)
Lemma tls12_gcm_extract_keys_panics (a : AeadAlg) {E} key iv :
  length iv = fixed_iv_len (tls12_gcm_key_block_shape a) ->
  tls12_gcm_extract_keys (E:=E) key iv = Panic.
Proof. intros Hl. unfold tls12_gcm_extract_keys. cbn in Hl. by rewrite Hl. Qed.

Module RecordsWitness.
Import Toy.

#[local] Instance rustls : RustlsCipher := {
  nonce_new := compute_nonce;
  make_tls12_aad _ t _ _ := [t];
  make_tls13_aad n := be_bytes 2 n;
  into_plain_message m := {| pm_typ := om_typ m; pm_version := om_version m; pm_payload := om_payload m |};
  into_tls13_unpadded_message m :=
    match last (om_payload m) with
    | Some t =>
        inr {| pm_typ := t; pm_version := TLSv1_3; pm_payload := take (length (om_payload m) - 1) (om_payload m) |}
    | None => inl DecryptError
    end;
}.

#[local] Instance rustls_laws : RustlsCipherLaws.
Proof.
  split; [|done|].
  - intros iv seq Hl. cbn. unfold compute_nonce. generalize (be_bytes 8 seq). intros sb.
    do 13 (destruct iv as [|? iv]; try done).
  - intros t v p ct _ _. cbn. rewrite last_snoc, length_app. cbn.
    by rewrite Nat.add_sub, take_app_length.
Qed.

Definition aes : AeadAlg := {| alg := Toy.aead; key_size := 16 |}.
Definition message : OutboundPlainMessage :=
  {| op_typ := Byte.x16; op_version := TLSv1_2; op_payload := [[Byte.x01]; [Byte.x02; Byte.x03]] |}.
Definition cipher13 : Tls13Cipher := {| t13_key := replicate 16 Byte.x01; t13_iv := replicate 12 Byte.x02 |}.

Lemma tls13_record_roundtrip_witness :
  exists o, tls13_gcm_encrypt aes cipher13 message 7 = Ok o /\
    tls13_carries message o 20 (tls13_gcm_decrypt aes cipher13 o 7).
Proof.
  destruct (tls13_record_roundtrip aes (replicate 16 Byte.x01) (replicate 12 Byte.x02) message 7)
    as [(c & [= <-] & Hc) _]; [done|done|cbn; lia|].
  destruct (tls13_gcm_encrypt aes cipher13 message 7) as [o| |] eqn:E; [|vm_compute in E; discriminate..].
  exists o. split; [done|]. exact (Hc o E).
Defined.

Lemma tls12_gcm_record_roundtrip_witness :
  exists e d, tls12_gcm_encrypter (E:=RustlsError) aes (replicate 16 Byte.x01) (replicate 4 Byte.x05) (replicate 8 Byte.x06) = Ok e /\
    tls12_gcm_decrypter (E:=RustlsError) aes (replicate 16 Byte.x01) (replicate 4 Byte.x05) = Ok d /\
    tls12_gcm_decrypt aes d {| om_typ := Byte.x16; om_version := TLSv1_2; om_payload := [] |} 0 = Err DecryptError.
Proof.
  eexists. eexists. split; [reflexivity|]. split; [reflexivity|].
  eapply (tls12_gcm_record_roundtrip aes (replicate 16 Byte.x01) (replicate 4 Byte.x05) (replicate 8 Byte.x06)
    _ _ message 0); [reflexivity|reflexivity|cbn; lia].
Defined.

Lemma tls12_chacha_record_witness :
  tls12_chacha_decrypt {| alg := Toy.aead; key_size := 32 |} true cipher13
    {| om_typ := Byte.x16; om_version := TLSv1_2; om_payload := [Byte.x00] |} 0 = Panic.
Proof.
  apply (tls12_chacha_record {| alg := Toy.aead; key_size := 32 |} cipher13 message 0). cbn. lia.
Defined.
End RecordsWitness.
