(* ===== verification/Quic.v ===== *)
(** * Quic: header and packet protection

    crates/oxitls-rustcrypto-provider/src/quic.rs: the header-protection mask and
    its application, the packet key, and the key builder. *)

From S2P Require Import Prelude Core Crypto Hpke Records Provider.

Definition SAMPLE_LEN : nat := 16.
Definition MAX_PN_LEN : nat := 4.
Definition MASK_LEN : nat := 5.

Inductive HeaderCipher := HcAes128 | HcAes256 | HcChaCha20.

Record HeaderProtectionKey := { hp_key : bytes; hp_cipher : HeaderCipher }.

Definition hp_new (key : bytes) (cipher : HeaderCipher) : HeaderProtectionKey := {| hp_key := key; hp_cipher := cipher |}.

Definition sample_len (self : HeaderProtectionKey) : nat := SAMPLE_LEN.

(** The block ciphers of the [aes] crate and the stream cipher of [chacha20] with
    the traits of the [cipher] crate: [try_seek] to a byte position, and
    [try_apply_keystream] to a buffer, [None] being their errors. *)
Class HeaderCiphers := {
  aes128_encrypt_block : bytes -> bytes -> bytes;
  aes256_encrypt_block : bytes -> bytes -> bytes;
  ChaCha20Core : Type;
  chacha20_new : bytes -> bytes -> ChaCha20Core;
  try_seek : ChaCha20Core -> Z -> option ChaCha20Core;
  try_apply_keystream : ChaCha20Core -> bytes -> option bytes;
  keystream_end : Z;   (** where the key stream ends, in bytes *)
}.

(** As the crates document it: a block cipher keeps the length of its block; the
    key stream can be used up to its end, and using it beyond is an error.  The
    block counter of ChaCha20 has 32 bits; whether an implementation gives out the
    last of its blocks is left open. *)
Class HeaderCiphersLaws `{HeaderCiphers} := {
  aes128_block_length : forall k b, length (aes128_encrypt_block k b) = 16;
  aes256_block_length : forall k b, length (aes256_encrypt_block k b) = 16;
  keystream_end_blocks : ((2 ^ 32 - 1) * 64 <= keystream_end)%Z;
  keystream_within : forall k n pos data, (0 <= pos)%Z -> (pos + Z.of_nat (length data) <= keystream_end)%Z ->
    exists stream out, try_seek (chacha20_new k n) pos = Some stream /\
      try_apply_keystream stream data = Some out /\ length out = length data;
  keystream_beyond : forall k n pos data stream, (keystream_end < pos + Z.of_nat (length data))%Z ->
    try_seek (chacha20_new k n) pos = Some stream -> try_apply_keystream stream data = None;
}.

(** [StreamCipher::apply_keystream] unwraps: it panics at the end of the stream. *)
Definition apply_keystream `{HeaderCiphers} {E} (stream : ChaCha20Core) (data : bytes) : R E bytes :=
  match try_apply_keystream stream data with Some out => Ok out | None => Panic end.

Definition from_le (bs : bytes) : Z := from_be (reverse bs).

Definition and_byte (a b : byte) : byte := u8 (Z.land (val a) (val b)).

(** The two bits of the first byte that carry the packet-number length. *)
Definition pn_len_of (b : byte) : nat := Z.to_nat (val (and_byte b Byte.x03)) + 1.

Definition checked_mul (max x y : Z) : option Z := if (x * y <=? max)%Z then Some (x * y)%Z else None.

Section Quic.
Context `{HeaderCiphers} `{RustlsCipher}.

(** [<[u8; n]>::try_from(..).map_err(..)] is [try_into] of Hpke. *)
Definition derive_mask (self : HeaderProtectionKey) (sample : bytes) : R RustlsError bytes :=
  if negb (length sample =? SAMPLE_LEN)
  then Err (General "QUIC header protection: sample must be 16 bytes") else
  match hp_cipher self with
  | HcAes128 =>
      let key_bytes := hp_key self in
      if length key_bytes <? 16
      then Err (General "QUIC header protection: AES-128 key must be 16 bytes") else
      k ← slice key_bytes 0 16;
      let block := aes128_encrypt_block k sample in
      m ← slice block 0 MASK_LEN;
      try_into MASK_LEN "invariant: AES block >= 5 bytes" m
  | HcAes256 =>
      let key_bytes := hp_key self in
      if length key_bytes <? 32
      then Err (General "QUIC header protection: AES-256 key must be 32 bytes") else
      k ← slice key_bytes 0 32;
      let block := aes256_encrypt_block k sample in
      m ← slice block 0 MASK_LEN;
      try_into MASK_LEN "invariant: AES block >= 5 bytes" m
  | HcChaCha20 =>
      c ← slice sample 0 4;
      counter_bytes ← try_into 4 "invariant: sample >= 4 bytes" c;
      let counter := from_le counter_bytes in
      n ← slice sample 4 16;
      nonce_bytes ← try_into 12 "invariant: sample[4..16] is 12 bytes" n;
      let key_bytes := hp_key self in
      if length key_bytes <? 32
      then Err (General "QUIC header protection: ChaCha20 key must be 32 bytes") else
      k ← slice key_bytes 0 32;
      key_array ← try_into 32 "invariant: key >= 32 bytes" k;
      byte_offset ← ok_or (General "QUIC header protection: counter overflow") (checked_mul U64_MAX counter 64);
      stream ← ok_or (General "QUIC header protection: seek failed")
                 (try_seek (chacha20_new key_array nonce_bytes) byte_offset);
      apply_keystream stream (replicate MASK_LEN Byte.x00)
  end.

(** The [for (dst, m) in packet_number.iter_mut().zip(pn_mask).take(pn_len)] loop. *)
Fixpoint xor_pn (n : nat) (packet_number pn_mask : bytes) : bytes :=
  match n, packet_number, pn_mask with
  | S n, dst :: packet_number, m :: pn_mask => xor_byte dst m :: xor_pn n packet_number pn_mask
  | _, _, _ => packet_number
  end.

Definition xor_in_place (mask : bytes) (first : byte) (packet_number : bytes) (masked : bool)
  : R RustlsError (byte * bytes) :=
  if MAX_PN_LEN <? length packet_number
  then Err (General "QUIC header protection: packet number too long") else
  let LONG_HEADER_FORM := Byte.x80 in
  let bits := if bool_decide (and_byte first LONG_HEADER_FORM = LONG_HEADER_FORM)
              then Byte.x0f else Byte.x1f in
  match mask with
  | [] => Panic
  | first_mask :: pn_mask =>
      let first_plain := if masked then xor_byte first (and_byte first_mask bits) else first in
      let pn_len := pn_len_of first_plain in
      let first := xor_byte first (and_byte first_mask bits) in
      Ok (first, xor_pn pn_len packet_number pn_mask)
  end.

(** [encrypt_in_place] and [decrypt_in_place]: the bytes they leave. *)
Definition hp_encrypt_in_place (self : HeaderProtectionKey) (sample : bytes) (first : byte) (packet_number : bytes)
  : R RustlsError (byte * bytes) :=
  mask ← derive_mask self sample; xor_in_place mask first packet_number false.

Definition hp_decrypt_in_place (self : HeaderProtectionKey) (sample : bytes) (first : byte) (packet_number : bytes)
  : R RustlsError (byte * bytes) :=
  mask ← derive_mask self sample; xor_in_place mask first packet_number true.

(** ** [PacketKey], over ChaCha20-Poly1305 *)
Context (chacha20poly1305 : AeadAlg).

Record PacketKey := { pk_iv : bytes; pk_suite : Tls13CipherSuite; pk_crypto : bytes }.

Definition packet_key_new {E} (suite : Tls13CipherSuite) (key iv : bytes) : R E PacketKey :=
  crypto ← new_from_slice_unwrap chacha20poly1305 key; Ok {| pk_iv := iv; pk_suite := suite; pk_crypto := crypto |}.

(** The payload is encrypted in place; the tag is returned. *)
Definition packet_encrypt_in_place (self : PacketKey) (packet_number : Z) (aad payload : bytes)
  : R RustlsError (bytes * bytes) :=
  let nonce := nonce_new (pk_iv self) packet_number in
  ok_or EncryptError (@aead_encrypt (alg chacha20poly1305) (pk_crypto self) nonce aad payload).

Definition tag_len : nat := 16.

Definition packet_decrypt_in_place (self : PacketKey) (packet_number : Z) (aad payload : bytes)
  : R RustlsError bytes :=
  let payload_ := payload in
  let payload_len := length payload_ in
  let nonce := nonce_new (pk_iv self) packet_number in
  payload_ ← ok_or DecryptError (attached_decrypt (alg chacha20poly1305) (pk_crypto self) nonce aad payload_);
  payload ← copy_from_slice payload payload_;
  plain_len ← (if tag_len <=? payload_len then Ok (payload_len - tag_len) else Panic);
  slice payload 0 plain_len.

Definition integrity_limit : Z := Z.shiftl 1 36.
Definition confidentiality_limit : Z := U64_MAX.

(** ** [KeyBuilder] *)
Record KeyBuilder := { kb_cipher : HeaderCipher; kb_suite : Tls13CipherSuite }.

Definition new_chacha20 (suite : Tls13CipherSuite) : KeyBuilder := {| kb_cipher := HcChaCha20; kb_suite := suite |}.
Definition new_aes128 (suite : Tls13CipherSuite) : KeyBuilder := {| kb_cipher := HcAes128; kb_suite := suite |}.
Definition new_aes256 (suite : Tls13CipherSuite) : KeyBuilder := {| kb_cipher := HcAes256; kb_suite := suite |}.

Definition packet_key {E} (self : KeyBuilder) (key iv : bytes) : R E PacketKey := packet_key_new (kb_suite self) key iv.

Definition header_protection_key (self : KeyBuilder) (key : bytes) : HeaderProtectionKey := hp_new key (kb_cipher self).

Definition aead_key_len (self : KeyBuilder) : nat := key_size chacha20poly1305.
End Quic.

(** ** Facts about bytes, by evaluation over all of them *)

Definition all_bytes : list byte := (fun n => u8 (Z.of_nat n)) <$> seq 0 256.

Lemma all_bytes_elem b : b ∈ all_bytes.
Proof.
  apply list_elem_of_fmap. exists (Z.to_nat (val b)). pose proof (byte.unsigned_range b). split.
  - rewrite Z2Nat.id by lia. symmetry. apply byte.of_Z_unsigned.
  - apply elem_of_seq. lia.
Qed.

Lemma forall_bytes2 (P : byte -> byte -> bool) :
  forallb (fun a => forallb (P a) all_bytes) all_bytes = true -> forall a b, P a b = true.
Proof.
  intros Hf a b. rewrite forallb_forall in Hf. specialize (Hf a).
  rewrite forallb_forall in Hf. apply Hf; apply list_elem_of_In, all_bytes_elem.
Qed.

Definition header_bits (first : byte) : byte :=
  if bool_decide (and_byte first Byte.x80 = Byte.x80) then Byte.x0f else Byte.x1f.

(** Masking the protected bits keeps the header form, and twice is nothing. *)
Lemma mask_first (f m : byte) :
  let f' := xor_byte f (and_byte m (header_bits f)) in
  header_bits f' = header_bits f /\ xor_byte f' (and_byte m (header_bits f')) = f /\
  val (and_byte (xor_byte f f') (u8 (255 - val (header_bits f)))) = 0%Z.
Proof.
  pose proof (forall_bytes2 (fun f m =>
    let f' := xor_byte f (and_byte m (header_bits f)) in
    Byte.eqb (header_bits f') (header_bits f) && Byte.eqb (xor_byte f' (and_byte m (header_bits f'))) f &&
    (val (and_byte (xor_byte f f') (u8 (255 - val (header_bits f)))) =? 0)%Z)) as Hall.
  assert (forallb (fun a => forallb (fun b =>
    let f' := xor_byte a (and_byte b (header_bits a)) in
    Byte.eqb (header_bits f') (header_bits a) && Byte.eqb (xor_byte f' (and_byte b (header_bits f'))) a &&
    (val (and_byte (xor_byte a f') (u8 (255 - val (header_bits a)))) =? 0)%Z) all_bytes) all_bytes = true)
    as Hc by (vm_compute; reflexivity).
  specialize (Hall Hc f m). cbv zeta in *. apply andb_prop in Hall as [Hall H3]. apply andb_prop in Hall as [H1 H2].
  exact (conj (Byte.byte_dec_bl _ _ H1) (conj (Byte.byte_dec_bl _ _ H2) (proj1 (Z.eqb_eq _ _) H3))).
Qed.

Lemma xor_pn_twice n pn m : xor_pn n (xor_pn n pn m) m = pn.
Proof.
  revert pn m. induction n as [|n IH]; intros [|d pn] [|x m]; cbn; try done. by rewrite xor_byte_twice, IH.
Qed.

Lemma xor_pn_length n pn m : length (xor_pn n pn m) = length pn.
Proof. revert pn m. induction n as [|n IH]; intros [|d pn] [|x m]; cbn; try done. by rewrite IH. Qed.

Lemma xor_pn_drop n pn m : drop n (xor_pn n pn m) = drop n pn.
Proof. revert pn m. induction n as [|n IH]; intros [|d pn] [|x m]; cbn; try done. Qed.

(** ** Properties *)

Section QuicProperties.
Context `{HeaderCiphersLaws} `{RustlsCipher} (chacha20poly1305 : AeadAlg) `{!AeadLaws (alg chacha20poly1305)}.

Definition needed_key_len (c : HeaderCipher) : nat := match c with HcAes128 => 16 | _ => 32 end.

Lemma le_counter c : length c = 4 -> (0 <= from_le c < 2 ^ 32)%Z.
Proof. intros Hc. unfold from_le. pose proof (from_be_range (reverse c)) as Hr. rewrite length_reverse, Hc in Hr. done. Qed.

Lemma mask_of_block block : length block = 16 ->
  exists mask, (m ← slice block 0 MASK_LEN; try_into MASK_LEN "invariant: AES block >= 5 bytes" m) = Ok mask /\
    length mask = 5.
Proof.
  intros Hb. rewrite slice_ok by (unfold MASK_LEN; lia). cbn [mbind R_bind].
  rewrite try_into_ok by (rewrite length_take, length_drop; unfold MASK_LEN; lia).
  eexists. split; [done|]. rewrite length_take, length_drop. unfold MASK_LEN. lia.
Qed.

(** The part of the key stream that the sample selects ends before the stream. *)
Definition mask_available (k : HeaderProtectionKey) (sample : bytes) : Prop :=
  hp_cipher k = HcChaCha20 -> (from_le (take 4 sample) * 64 + 5 <= keystream_end)%Z.

(** The ChaCha20 branch comes down to the seek and the key stream. *)
Lemma derive_mask_chacha k sample :
  hp_cipher k = HcChaCha20 -> length sample = 16 -> 32 <= length (hp_key k) ->
  derive_mask k sample =
    match try_seek (chacha20_new (take 32 (hp_key k)) (drop 4 sample)) (from_le (take 4 sample) * 64) with
    | Some stream => apply_keystream stream (replicate MASK_LEN Byte.x00)
    | None => Err (General "QUIC header protection: seek failed")
    end.
Proof.
  intros Hc Hs Hk. unfold derive_mask, SAMPLE_LEN. rewrite Hs, Hc. cbn [Nat.eqb negb].
  rewrite (proj2 (Nat.ltb_ge _ _)) by lia.
  rewrite (slice_ok sample 0 4), (slice_ok sample 4 16), (slice_ok (hp_key k) 0 32) by lia. cbn [mbind R_bind].
  rewrite (try_into_ok 4), (try_into_ok 12), (try_into_ok 32) by (rewrite length_take, length_drop; lia).
  cbn [mbind R_bind]. rewrite !drop_0. cbn [Nat.sub]. rewrite (take_ge (drop 4 sample)) by (rewrite length_drop; lia).
  pose proof (le_counter (take 4 sample)) as Hl. rewrite length_take in Hl. specialize (Hl ltac:(lia)).
  unfold checked_mul, U64_MAX. rewrite (proj2 (Z.leb_le _ _)) by lia. cbn [ok_or mbind R_bind].
  by destruct (try_seek _ _).
Qed.

Lemma derive_mask_ok k sample :
  length sample = 16 -> needed_key_len (hp_cipher k) <= length (hp_key k) -> mask_available k sample ->
  exists mask, derive_mask k sample = Ok mask /\ length mask = 5.
Proof.
  intros Hs Hk Hav. destruct (hp_cipher k) eqn:Hc; cbn [needed_key_len] in Hk.
  - unfold derive_mask, SAMPLE_LEN. rewrite Hs, Hc. cbn [Nat.eqb negb]. rewrite (proj2 (Nat.ltb_ge _ _)) by lia.
    rewrite (slice_ok (hp_key k)) by lia. cbn [mbind R_bind]. apply mask_of_block, aes128_block_length.
  - unfold derive_mask, SAMPLE_LEN. rewrite Hs, Hc. cbn [Nat.eqb negb]. rewrite (proj2 (Nat.ltb_ge _ _)) by lia.
    rewrite (slice_ok (hp_key k)) by lia. cbn [mbind R_bind]. apply mask_of_block, aes256_block_length.
  - rewrite derive_mask_chacha by done. pose proof (le_counter (take 4 sample)) as Hl.
    rewrite length_take in Hl. specialize (Hl ltac:(lia)).
    destruct (keystream_within (take 32 (hp_key k)) (drop 4 sample) (from_le (take 4 sample) * 64)
      (replicate MASK_LEN Byte.x00)) as (stream & out & -> & Ha & Hlen); [lia|exact (Hav Hc)|].
    exists out. unfold apply_keystream. by rewrite Ha.
Qed.

Lemma derive_mask_beyond k sample :
  length sample = 16 -> needed_key_len (hp_cipher k) <= length (hp_key k) -> ~ mask_available k sample ->
  derive_mask k sample =
    match try_seek (chacha20_new (take 32 (hp_key k)) (drop 4 sample)) (from_le (take 4 sample) * 64) with
    | Some _ => Panic
    | None => Err (General "QUIC header protection: seek failed")
    end.
Proof.
  intros Hs Hk Hno. unfold mask_available in Hno. destruct (hp_cipher k) eqn:Hc; [exfalso; by apply Hno..|].
  cbn in Hk. rewrite derive_mask_chacha by done. destruct (try_seek _ _) as [stream|] eqn:Hseek; [|done].
  unfold apply_keystream. erewrite keystream_beyond; [done| |exact Hseek].
  rewrite length_replicate. unfold MASK_LEN. lia.
Qed.

(** Any counter but the last is within the stream. *)
Lemma counter_available k sample :
  length sample = 16 -> take 4 sample <> replicate 4 Byte.xff -> mask_available k sample.
Proof.
  intros Hs Hne _. pose proof keystream_end_blocks.
  assert (from_le (take 4 sample) <> 2 ^ 32 - 1)%Z; [|pose proof (le_counter (take 4 sample)) as Hl;
    rewrite length_take in Hl; specialize (Hl ltac:(lia)); lia].
  intros Heq. apply Hne. assert (length (take 4 sample) = 4) as Hl by (rewrite length_take; lia).
  apply (f_equal (be_bytes 4)) in Heq. unfold from_le in Heq.
  rewrite <- (length_reverse (take 4 sample)) in Hl. rewrite <- Hl, be_bytes_from_be in Heq at 1.
  apply (f_equal reverse) in Heq. rewrite reverse_involutive in Heq. by rewrite Heq.
Qed.

(** C21: header protection on a 16-byte sample, a packet number of at most four
    bytes and a key long enough for the cipher.  Where the key stream reaches, which
    is everywhere but for ChaCha20 samples that start with [ff ff ff ff], it
    succeeds and removing it with the same sample gives back the header; it changes
    only the low four bits of a long header's first byte and the low five of a short
    one's, and no byte of the packet number beyond the length the first byte
    announces.  Where the key stream ends before the mask, both directions panic
    unless the cipher refuses the seek. *)
Theorem header_protection_roundtrip k sample first pn :
  length sample = 16 -> length pn <= 4 -> needed_key_len (hp_cipher k) <= length (hp_key k) ->
  (mask_available k sample ->
   exists first' pn', hp_encrypt_in_place k sample first pn = Ok (first', pn') /\
    hp_decrypt_in_place k sample first' pn' = Ok (first, pn) /\
    val (and_byte (xor_byte first first') (u8 (255 - val (header_bits first)))) = 0%Z /\
    length pn' = length pn /\ drop (pn_len_of first) pn' = drop (pn_len_of first) pn) /\
  (take 4 sample <> replicate 4 Byte.xff -> mask_available k sample) /\
  (~ mask_available k sample ->
   let r := match try_seek (chacha20_new (take 32 (hp_key k)) (drop 4 sample)) (from_le (take 4 sample) * 64) with
            | Some _ => Panic
            | None => Err (General "QUIC header protection: seek failed")
            end in
   hp_encrypt_in_place k sample first pn = r /\ hp_decrypt_in_place k sample first pn = r).
Proof.
  intros Hs Hp Hk. split_and!; [|by apply counter_available|].
  2:{ intros Hno. cbv zeta. unfold hp_encrypt_in_place, hp_decrypt_in_place. rewrite derive_mask_beyond by done.
      by destruct (try_seek _ _). }
  intros Hav. destruct (derive_mask_ok k sample Hs Hk Hav) as (mask & Hm & Hl).
  unfold hp_encrypt_in_place, hp_decrypt_in_place. rewrite Hm. cbn [mbind R_bind]. unfold xor_in_place, MAX_PN_LEN.
  rewrite (proj2 (Nat.ltb_ge _ _)) by lia. destruct mask as [|m pm]; [done|]. cbv zeta.
  change (if bool_decide (and_byte first Byte.x80 = Byte.x80) then Byte.x0f else Byte.x1f) with (header_bits first).
  destruct (mask_first first m) as (Hb & Hx & Hbits). cbv zeta in *.
  set (f' := xor_byte first (and_byte m (header_bits first))) in *.
  eexists f', _. split; [done|]. rewrite xor_pn_length, (proj2 (Nat.ltb_ge _ _)) by lia.
  change (if bool_decide (and_byte f' Byte.x80 = Byte.x80) then Byte.x0f else Byte.x1f) with (header_bits f').
  rewrite Hx, xor_pn_twice. split_and!; try done. apply xor_pn_drop.
Qed.

(** C40: the packet key never decrypts a packet: whatever the payload,
    [decrypt_in_place] does not return a plaintext, and on every packet the key
    itself encrypted it panics, since the plaintext it copies back is shorter
    than the buffer. *)
Theorem packet_decrypt_never_returns k n aad payload :
  (forall plain, packet_decrypt_in_place chacha20poly1305 k n aad payload <> Ok plain) /\
  (forall ct tag, packet_encrypt_in_place chacha20poly1305 k n aad payload = Ok (ct, tag) ->
     packet_decrypt_in_place chacha20poly1305 k n aad (ct ++ tag) = Panic).
Proof.
  assert (forall p plain, attached_decrypt (alg chacha20poly1305) (pk_crypto k) (nonce_new (pk_iv k) n) aad p = Some plain ->
    packet_decrypt_in_place chacha20poly1305 k n aad p = Panic) as Hpanic.
  { intros p plain Hd. unfold packet_decrypt_in_place. rewrite Hd. cbn [ok_or mbind R_bind].
    unfold attached_decrypt in Hd. destruct (Nat.ltb_spec (length p) 16); [done|].
    apply aead_pt_length in Hd. rewrite length_take in Hd. unfold copy_from_slice.
    by rewrite (proj2 (Nat.eqb_neq _ _)) by lia. }
  split.
  - intros plain. destruct (attached_decrypt (alg chacha20poly1305) (pk_crypto k) (nonce_new (pk_iv k) n) aad payload) eqn:Hd.
    + by rewrite (Hpanic _ _ Hd).
    + unfold packet_decrypt_in_place. by rewrite Hd.
  - intros ct tag Hok. apply ok_or_Ok in Hok.
    assert (attached_encrypt (alg chacha20poly1305) (pk_crypto k) (nonce_new (pk_iv k) n) aad payload = Some (ct ++ tag)) as Ha.
    { unfold attached_encrypt. by rewrite Hok. }
    destruct (attached_roundtrip _ _ _ _ _ _ Ha) as [Hd _]. by eapply Hpanic.
Qed.
End QuicProperties.

(** The AES builders still build a ChaCha20-Poly1305 packet key, so the 16-byte
    key of AES-128-GCM is refused by a panic. *)
Lemma aes128_packet_key_panics (a : AeadAlg) suite key iv :
  key_size a = 32 -> length key = 16 -> packet_key (E:=RustlsError) a (new_aes128 suite) key iv = Panic.
Proof. intros Ha Hk. unfold packet_key, packet_key_new, new_from_slice_unwrap. by rewrite Ha, Hk. Qed.

Module QuicWitness.
Import Toy.

(** A stream of [2 ^ 32 - 1] blocks, by its key and position. *)
#[local] Instance ciphers : HeaderCiphers := {
  aes128_encrypt_block k b := pad 16 (k ++ b);
  aes256_encrypt_block k b := pad 16 (k ++ b);
  ChaCha20Core := bytes * Z;
  chacha20_new k n := (k ++ n, 0%Z);
  try_seek s pos := Some (s.1, pos);
  try_apply_keystream s data :=
    if (s.2 + Z.of_nat (length data) <=? (2 ^ 32 - 1) * 64)%Z then Some (pad (length data) s.1) else None;
  keystream_end := (2 ^ 32 - 1) * 64;
}.
#[local] Instance ciphers_laws : HeaderCiphersLaws.
Proof.
  split; cbn -[Z.mul Z.sub Z.pow].
  - intros. apply length_pad.
  - intros. apply length_pad.
  - lia.
  - intros k n pos data _ Hle. exists (k ++ n, pos), (pad (length data) (k ++ n)).
    split; [done|]. cbn -[Z.mul Z.sub Z.pow]. rewrite (proj2 (Z.leb_le _ _)) by done. split; [done|]. apply length_pad.
  - intros k n pos data stream Hlt [= <-]. cbn -[Z.mul Z.sub Z.pow]. by rewrite (proj2 (Z.leb_gt _ _)).
Qed.

#[local] Instance rustls : RustlsCipher := {
  nonce_new := compute_nonce;
  make_tls12_aad _ t _ _ := [t];
  make_tls13_aad n := be_bytes 2 n;
  into_plain_message m := {| pm_typ := om_typ m; pm_version := om_version m; pm_payload := om_payload m |};
  into_tls13_unpadded_message m := inl DecryptError;
}.

Definition hp : HeaderProtectionKey := {| hp_key := replicate 16 Byte.xa5; hp_cipher := HcAes128 |}.

Definition chacha_hp : HeaderProtectionKey := {| hp_key := replicate 32 Byte.xa5; hp_cipher := HcChaCha20 |}.

(** A header that comes back, and a sample on which removing the protection panics. *)
Lemma header_protection_roundtrip_witness :
  (exists first' pn', hp_encrypt_in_place hp (replicate 16 Byte.x01) Byte.xc3 [Byte.x01; Byte.x02] = Ok (first', pn') /\
    hp_decrypt_in_place hp (replicate 16 Byte.x01) first' pn' = Ok (Byte.xc3, [Byte.x01; Byte.x02])) /\
  hp_decrypt_in_place chacha_hp (replicate 16 Byte.xff) Byte.x43 [Byte.x01] = Panic.
Proof.
  split.
  - destruct (header_protection_roundtrip hp (replicate 16 Byte.x01) Byte.xc3 [Byte.x01; Byte.x02])
      as ((f & pn & He & Hd & _) & _); [reflexivity|cbn; lia|cbn; lia|discriminate|eauto].
  - destruct (header_protection_roundtrip chacha_hp (replicate 16 Byte.xff) Byte.x43 [Byte.x01]) as (_ & _ & Hpanic);
      [reflexivity|cbn; lia|cbn; lia|].
    apply Hpanic. intros Hav. specialize (Hav eq_refl). vm_compute in Hav. by apply Hav.
Defined.

Definition suite0 : Tls13CipherSuite :=
  {| common13 := {| suite := 0x1303; hash_provider := SHA256; Provider.confidentiality_limit := U64_MAX |};
     hkdf_provider := SHA256; aead_alg13 := Chacha20Poly1305; quic := None |}.

Lemma packet_decrypt_never_returns_witness :
  packet_decrypt_in_place {| alg := Toy.aead; key_size := 32 |}
    {| pk_iv := replicate 12 Byte.x00; pk_suite := suite0; pk_crypto := replicate 32 Byte.x01 |} 0 []
    ([Byte.x09] ++ replicate 16 Byte.x01) = Panic.
Proof.
  apply (packet_decrypt_never_returns {| alg := Toy.aead; key_size := 32 |}
    {| pk_iv := replicate 12 Byte.x00; pk_suite := suite0; pk_crypto := replicate 32 Byte.x01 |} 0 [] [Byte.x09]).
  reflexivity.
Defined.
End QuicWitness.
