(* ===== verification/QuicVectors.v ===== *)
(** * QuicVectors: QUIC protection on the data of RFC 9001

    The tests of crates/oxitls-rustcrypto-provider/src/quic.rs, run with the
    algorithms of Standards. *)

From S2P Require Import Prelude Core Crypto Hpke Standards Records Provider Quic.

(** ** Real ciphers *)

(** The key stream of RFC 8439 as the [chacha20] crate gives it out: the block
    counter has 32 bits, and the stream ends before the last of its blocks. *)
Definition chacha20_end : Z := (2 ^ 32 - 1) * 64.

Definition chacha20_apply (key nonce : bytes) (offset : Z) (data : bytes) : option bytes :=
  if (offset + Z.of_nat (length data) <=? chacha20_end)%Z then
    let skip := Z.to_nat (offset mod 64) in
    let blocks := (fun i => ChaCha.block key nonce (offset / 64 + Z.of_nat i))
                    <$> seq 0 ((skip + length data + 63) / 64) in
    Some (zip_with xor_byte data (drop skip (mjoin blocks)))
  else None.

#[export] Instance real_header_ciphers : HeaderCiphers := {
  aes128_encrypt_block := Aes.block;
  aes256_encrypt_block := Aes.block256;
  ChaCha20Core := bytes * bytes * Z;
  chacha20_new key nonce := (key, nonce, 0%Z);
  try_seek stream pos := if (pos <? 2 ^ 38)%Z then Some (stream.1, pos) else None;
  try_apply_keystream stream data := chacha20_apply stream.1.1 stream.1.2 stream.2 data;
  keystream_end := chacha20_end;
}.

#[export] Instance real_header_ciphers_laws : HeaderCiphersLaws.
Proof.
  split; [apply Aes.length_aes_block|apply Aes.length_aes256_block|cbn; unfold chacha20_end; lia|..];
    intros k n pos data; cbn -[Z.pow Z.ltb]; unfold chacha20_apply.
  - intros Hpos Hle. rewrite (proj2 (Z.ltb_lt _ _)) by (unfold chacha20_end in *; lia).
    eexists _, _. split; [reflexivity|]. cbn [fst snd]. rewrite (proj2 (Z.leb_le _ _)) by done.
    split; [reflexivity|].
    rewrite length_zip_with, length_drop, (length_join_same 64).
    + rewrite length_fmap, length_seq. set (skip := Z.to_nat _). set (len := length data).
      pose proof (Nat.div_mod_eq (skip + len + 63) 64). pose proof (Nat.mod_upper_bound (skip + len + 63) 64). lia.
    + apply Forall_fmap, Forall_true. intros i. unfold compose. cbn beta. apply ChaCha.length_chacha_block.
  - intros stream Hlt Hs. case_match; [|done]. injection Hs as <-. cbn [fst snd]. by rewrite (proj2 (Z.leb_gt _ _)).
Qed.

(** The nonce of rustls; the record functions play no part in QUIC. *)
#[local] Instance quic_rustls : RustlsCipher := {
  nonce_new := compute_nonce;
  make_tls12_aad _ t _ _ := [t];
  make_tls13_aad n := be_bytes 2 n;
  into_plain_message m := {| pm_typ := om_typ m; pm_version := om_version m; pm_payload := om_payload m |};
  into_tls13_unpadded_message m := inl DecryptError;
}.

(** ** The tests *)

(** [key_from_hex]: padded to the 32 bytes of an [AeadKey]; [decode_hex] is [unhex]. *)
Definition key_from_hex (hex : string) : bytes :=
  let bs := unhex hex in
  let copy_len := Nat.min (length bs) 32 in
  take copy_len bs ++ replicate (32 - copy_len) Byte.x00.

Definition mask_from_hex (hex : string) : R Empty_set bytes := expect (try_into MASK_LEN "" (unhex hex)).

Definition test_aes128_mask_rfc9001_appendix_a2 : Test :=
  let hpk := hp_new (key_from_hex "9f50449e04a0e810283a1e9933adedd2") HcAes128 in
  let sample := unhex "d1b1c98dd7689fb8ec11d242b123dc9b" in
  mask ← expect (derive_mask hpk sample);
  expected ← mask_from_hex "437b9aec36";
  assert_eq mask expected.

Definition test_chacha20_mask_rfc9001_appendix_a5 : Test :=
  let hpk := hp_new (key_from_hex "25a282b9e82f06f21f488917a4fc8f1b73573685608597d0efcb076b0ab7a7a4") HcChaCha20 in
  let sample := unhex "5e5cd55c41f69080575d7999c25a5bfb" in
  mask ← expect (derive_mask hpk sample);
  expected ← mask_from_hex "aefefe7d03";
  assert_eq mask expected.

Definition roundtrip (cipher : HeaderCipher) (key_hex : string) : Test :=
  let hpk := hp_new (key_from_hex key_hex) cipher in
  let original_first := u8 0x43 in
  let original_pn := unhex "deadbeef" in
  let sample := unhex "d1b1c98dd7689fb8ec11d242b123dc9b" in
  '(first, pn) ← expect (hp_encrypt_in_place hpk sample original_first original_pn);
  _ ← assert (negb (bool_decide (first = original_first)) || negb (bool_decide (pn = original_pn)));
  '(first, pn) ← expect (hp_decrypt_in_place hpk sample first pn);
  _ ← assert_eq first original_first;
  assert_eq pn original_pn.

Definition roundtrip_aes128 : Test := roundtrip HcAes128 "9f50449e04a0e810283a1e9933adedd2".
Definition roundtrip_aes256 : Test :=
  roundtrip HcAes256 "9f50449e04a0e810283a1e9933adedd29f50449e04a0e810283a1e9933adedd2".
Definition roundtrip_chacha20 : Test :=
  roundtrip HcChaCha20 "25a282b9e82f06f21f488917a4fc8f1b73573685608597d0efcb076b0ab7a7a4".

Definition sample_len_is_16_for_all_ciphers : Test :=
  for_each (fun cipher =>
    let hpk := hp_new (key_from_hex "9f50449e04a0e810283a1e9933adedd29f50449e04a0e810283a1e9933adedd2") cipher in
    assert_eq (sample_len hpk) 16) [HcAes128; HcAes256; HcChaCha20].

Definition derive_mask_rejects_short_sample : Test :=
  let hpk := hp_new (key_from_hex "9f50449e04a0e810283a1e9933adedd2") HcAes128 in
  _ ← assert (is_err (derive_mask hpk (replicate 15 Byte.x00)));
  assert (is_err (derive_mask hpk (replicate 17 Byte.x00))).

Definition encrypt_rejects_long_packet_number : Test :=
  let hpk := hp_new (key_from_hex "9f50449e04a0e810283a1e9933adedd2") HcAes128 in
  let sample := unhex "d1b1c98dd7689fb8ec11d242b123dc9b" in
  assert (is_err (hp_encrypt_in_place hpk sample (u8 0x43) (replicate 5 Byte.x00))).

Definition long_header_uses_0x0f_mask_bits : Test :=
  let hpk := hp_new (key_from_hex "9f50449e04a0e810283a1e9933adedd2") HcAes128 in
  let sample := unhex "d1b1c98dd7689fb8ec11d242b123dc9b" in
  let original_first := u8 0xc0 in
  let original_pn := replicate 4 (u8 0xab) in
  '(first, pn) ← expect (hp_encrypt_in_place hpk sample original_first original_pn);
  '(first, pn) ← expect (hp_decrypt_in_place hpk sample first pn);
  _ ← assert_eq first original_first;
  assert_eq pn original_pn.

Definition quic_tests : list Test :=
  [test_aes128_mask_rfc9001_appendix_a2; test_chacha20_mask_rfc9001_appendix_a5; roundtrip_aes128; roundtrip_aes256;
   roundtrip_chacha20; sample_len_is_16_for_all_ciphers; derive_mask_rejects_short_sample;
   encrypt_rejects_long_packet_number; long_header_uses_0x0f_mask_bits].

Theorem quic_tests_pass : forallb is_ok quic_tests = true.
Proof. vm_compute. reflexivity. Qed.
