(* ===== verification/SessionPool.v ===== *)
(** * SessionPool: the PKCS#11 session pool

    [Pkcs11SessionPool] of crates/oxitls-adapter-pkcs11/src/pool.rs, and the error
    types of error.rs.  The pool is shared by threads: a semaphore with one permit
    per session, and a queue of sessions behind a mutex.  [acquire] and the [Drop]
    of a guard each touch the semaphore and the queue in two separate atomic
    steps, and threads interleave between them. *)

From stdpp Require Import pretty.
From S2P Require Import Prelude.

(** ** error.rs *)

Inductive PkcsSignError :=
  | SignInitError (msg : string)
  | SignSessionError (msg : string)
  | SignKeyNotFound (label : string)
  | SignSignError (msg : string)
  | InvalidSignatureLength (expected got : nat).

Inductive Pkcs11Error :=
  | InitError (msg : string)
  | SessionError (msg : string)
  | KeyNotFound (label : string)
  | SignError (msg : string)
  | SessionPoolExhausted
  | HsmError (code : Z) (msg : string)
  | Unsupported (msg : string)
  | LoadFailed (msg : string)
  | Pkcs11Tls (msg : string)
  | Pkcs11Other (msg : string).

Definition sign_error_display (e : PkcsSignError) : string :=
  match e with
  | SignInitError msg => "PKCS#11 init error: " +:+ msg
  | SignSessionError msg => "PKCS#11 session error: " +:+ msg
  | SignKeyNotFound label => "PKCS#11 key not found for label: " +:+ label
  | SignSignError msg => "PKCS#11 sign error: " +:+ msg
  | InvalidSignatureLength expected got =>
      "PKCS#11 invalid signature length: expected " +:+ pretty expected +:+ ", got " +:+ pretty got
  end.

(** [{:x}] of a [u32]. *)
Fixpoint hex_u32 (fuel : nat) (z : Z) : string :=
  match fuel with
  | O => ""
  | S fuel => (if (z <? 16)%Z then "" else hex_u32 fuel (z / 16)) +:+ hex_digit (z mod 16)
  end.

Definition pkcs11_error_display (e : Pkcs11Error) : string :=
  match e with
  | InitError msg => "PKCS#11 init error: " +:+ msg
  | SessionError msg => "PKCS#11 session error: " +:+ msg
  | KeyNotFound label => "PKCS#11 key not found for label: " +:+ label
  | SignError msg => "PKCS#11 sign error: " +:+ msg
  | SessionPoolExhausted => "PKCS#11 session pool exhausted: no available sessions"
  | HsmError code msg => "PKCS#11 HSM error (0x" +:+ hex_u32 8 code +:+ "): " +:+ msg
  | Unsupported msg => "PKCS#11 unsupported: " +:+ msg
  | LoadFailed msg => "PKCS#11 library load failed: " +:+ msg
  | Pkcs11Tls msg => "TLS error: " +:+ msg
  | Pkcs11Other msg => "PKCS#11 error: " +:+ msg
  end.

(** [From<PkcsSignError> for Pkcs11Error]. *)
Definition pkcs11_from_sign_error (e : PkcsSignError) : Pkcs11Error :=
  match e with
  | SignInitError msg => InitError msg
  | SignSessionError msg => SessionError msg
  | SignKeyNotFound msg => KeyNotFound msg
  | SignSignError msg => SignError msg
  | InvalidSignatureLength expected got =>
      SignError ("invalid ECDSA signature length: expected " +:+ pretty expected +:+ ", got " +:+ pretty got)
  end.

(** ** Construction

    A token opens sessions and logs users in; a session is its handle, and dropping
    it closes it, whatever the token answers. *)

Definition Session : Type := positive.
Definition Slot : Type := Z.

Class Token (T : Type) := {
  open_ro_session : T -> Slot -> T * (string + Session);
  login : T -> Session -> string -> T * (string + unit);
  close_session : T -> Session -> T;
}.

Definition close_all {T} `{Token T} (tok : T) (ss : list Session) : T := foldl close_session tok ss.

(** The queue and the semaphore, with the guards that threads hold.  A guard is
    created when its permit is taken and is gone when the permit is back:
    [Acquiring] has no session yet, [Holding] is the [PooledSession] of the
    caller, [Returned] has put its session back and still holds the permit. *)
Inductive Guard := Acquiring | Holding (s : Session) | Returned.

Record Pool := {
  sessions : list Session;
  permits : nat;
  guards : gmap nat Guard;
}.

(** The [for _ in 0..cap] loop; an early return drops the sessions opened so far. *)
Fixpoint open_sessions {T} `{Token T} (tok : T) (slot : Slot) (pin : string) (cap : nat) (acc : list Session)
  : T * R Pkcs11Error (list Session) :=
  match cap with
  | O => (tok, Ok acc)
  | S cap =>
      match open_ro_session tok slot with
      | (tok, inl e) => (close_all tok acc, Err (SessionError e))
      | (tok, inr session) =>
          match login tok session pin with
          | (tok, inl e) => (close_all (close_session tok session) acc, Err (SessionError ("login failed: " +:+ e)))
          | (tok, inr _) => open_sessions tok slot pin cap (acc ++ [session])
          end
      end
  end.

Definition pool_of (ss : list Session) (cap : nat) : Pool :=
  {| sessions := ss; permits := cap; guards := ∅ |}.

Definition pool_new {T} `{Token T} (tok : T) (slot : Slot) (pin : string) (cap : nat) : T * R Pkcs11Error Pool :=
  match open_sessions tok slot pin cap [] with
  | (tok, Ok ss) => (tok, Ok (pool_of ss cap))
  | (tok, Err e) => (tok, Err e)
  | (tok, Panic) => (tok, Panic)
  end.

(** ** Atomic steps

    [None] is a step the guard cannot take. *)

(** [try_acquire_owned]. *)
Definition try_acquire_permit (p : Pool) (g : nat) : option (R Pkcs11Error Pool) :=
  if decide (guards p !! g = None) then
    match permits p with
    | O => Some (Err SessionPoolExhausted)
    | S n => Some (Ok {| sessions := sessions p; permits := n; guards := <[g := Acquiring]> (guards p) |})
    end
  else None.

(** [guard.pop_front().ok_or(..)?] under the mutex; on the error path the permit
    is dropped. *)
Definition pop_session (p : Pool) (g : nat) : option (Pool * R Pkcs11Error Session) :=
  match guards p !! g with
  | Some Acquiring =>
      match sessions p with
      | s :: rest =>
          Some ({| sessions := rest; permits := permits p; guards := <[g := Holding s]> (guards p) |}, Ok s)
      | [] =>
          Some ({| sessions := []; permits := S (permits p); guards := delete g (guards p) |},
                Err SessionPoolExhausted)
      end
  | _ => None
  end.

(** [Drop::drop]: the session goes to the back of the queue. *)
Definition push_session (p : Pool) (g : nat) : option Pool :=
  match guards p !! g with
  | Some (Holding s) =>
      Some {| sessions := sessions p ++ [s]; permits := permits p; guards := <[g := Returned]> (guards p) |}
  | _ => None
  end.

(** The field [_permit] is dropped after [drop] has run. *)
Definition release_permit (p : Pool) (g : nat) : option Pool :=
  match guards p !! g with
  | Some Returned =>
      Some {| sessions := sessions p; permits := S (permits p); guards := delete g (guards p) |}
  | _ => None
  end.

(** What the threads of a process do, in any order. *)
Inductive pool_step : Pool -> Pool -> Prop :=
  | step_try p g p' : try_acquire_permit p g = Some (Ok p') -> pool_step p p'
  | step_exhausted p g e : try_acquire_permit p g = Some (Err e) -> pool_step p p
  | step_pop p g p' r : pop_session p g = Some (p', r) -> pool_step p p'
  | step_push p g p' : push_session p g = Some p' -> pool_step p p'
  | step_release p g p' : release_permit p g = Some p' -> pool_step p p'.

(** ** The calls, run without interruption *)

Definition acquire (p : Pool) (g : nat) : option (Pool * R Pkcs11Error Session) :=
  match try_acquire_permit p g with
  | None => None
  | Some (Ok p) => pop_session p g
  | Some (Err e) => Some (p, Err e)
  | Some Panic => Some (p, Panic)
  end.

Definition drop_guard (p : Pool) (g : nat) : option Pool :=
  p ← push_session p g; release_permit p g.

(** ** The invariant *)

Definition held_session (g : Guard) : option Session :=
  match g with Holding s => Some s | _ => None end.

(** The sessions in callers' hands. *)
Definition held (m : gmap nat Guard) : list Session := omap (fun kv => held_session kv.2) (map_to_list m).

(** Every session is in the queue or in one guard's hands, and every permit in
    the semaphore or with one guard. *)
Definition pool_inv (all : list Session) (p : Pool) : Prop :=
  held (guards p) ++ sessions p ≡ₚ all /\ permits p + size (guards p) = length all.

Lemma held_insert m g v : m !! g = None -> held (<[g := v]> m) ≡ₚ option_list (held_session v) ++ held m.
Proof.
  intros Hg. unfold held. rewrite map_to_list_insert by done. cbn. by destruct (held_session v).
Qed.

(** A guard that is present, taken apart from the others. *)
Lemma held_lookup m g v : m !! g = Some v -> held m ≡ₚ option_list (held_session v) ++ held (delete g m).
Proof.
  intros Hg. rewrite <- (insert_delete_id m g v) at 1 by done. apply held_insert, lookup_delete_eq.
Qed.

Lemma held_update m g v v' :
  m !! g = Some v -> held (<[g := v']> m) ≡ₚ option_list (held_session v') ++ held (delete g m).
Proof. intros Hg. rewrite <- insert_delete_eq. apply held_insert, lookup_delete_eq. Qed.

Lemma held_length m : length (held m) <= size m.
Proof.
  unfold held. rewrite <- length_map_to_list. induction (map_to_list m) as [|[g v] l IH]; cbn; [lia|].
  destruct (held_session v); cbn; lia.
Qed.

Lemma held_elem m g s : m !! g = Some (Holding s) -> s ∈ held m.
Proof. intros Hg. rewrite (held_lookup _ _ _ Hg). cbn. by left. Qed.

Lemma size_lookup (m : gmap nat Guard) g v : m !! g = Some v -> size m = S (size (delete g m)).
Proof.
  intros Hg. rewrite <- (insert_delete_id m g v) at 1 by done. apply map_size_insert_None, lookup_delete_eq.
Qed.

Lemma pool_inv_new ss : pool_inv ss (pool_of ss (length ss)).
Proof. split; cbn; [done|]. rewrite map_size_empty. lia. Qed.

(** The queue is never shorter than the semaphore says. *)
Lemma permits_le_sessions all p : pool_inv all p -> permits p <= length (sessions p).
Proof.
  intros [Hs Hp]. apply Permutation_length in Hs. rewrite length_app in Hs.
  pose proof (held_length (guards p)). lia.
Qed.

(** A guard that is acquiring finds a session. *)
Lemma acquiring_finds_session all p g :
  pool_inv all p -> guards p !! g = Some Acquiring -> sessions p <> [].
Proof.
  intros [Hs Hp] Hg He. apply Permutation_length in Hs. rewrite length_app, He in Hs. cbn in Hs.
  rewrite (held_lookup _ _ _ Hg) in Hs. cbn in Hs.
  pose proof (held_length (delete g (guards p))). pose proof (size_lookup _ _ _ Hg). lia.
Qed.

Lemma pool_inv_step all p p' : pool_inv all p -> pool_step p p' -> pool_inv all p'.
Proof.
  intros Hinv Hstep. destruct Hstep as [p g p' Ht|p g e _|p g p' r Hpop|p g p' Hpush|p g p' Hrel]; [|done|..].
  - unfold try_acquire_permit in Ht. case_decide as Hg; [|done]. destruct Hinv as [Hs Hp].
    destruct (permits p) as [|n]; [done|]. injection Ht as <-. split; cbn.
    + by rewrite held_insert by done.
    + rewrite map_size_insert_None by done. lia.
  - pose proof (acquiring_finds_session all p g Hinv) as Hne. destruct Hinv as [Hs Hp].
    unfold pop_session in Hpop. destruct (guards p !! g) as [[]|] eqn:Hg; try done.
    destruct (sessions p) as [|s rest]; [by destruct Hne|]. injection Hpop as <- <-. split; cbn.
    + rewrite (held_update _ _ _ _ Hg), <- Hs, (held_lookup _ _ _ Hg). cbn. by rewrite Permutation_middle.
    + by rewrite map_size_insert_Some by eauto.
  - destruct Hinv as [Hs Hp]. unfold push_session in Hpush.
    destruct (guards p !! g) as [[|s|]|] eqn:Hg; try done. injection Hpush as <-. split; cbn.
    + rewrite (held_update _ _ _ _ Hg), <- Hs, (held_lookup _ _ _ Hg). cbn.
      by rewrite app_assoc, <- Permutation_cons_append.
    + by rewrite map_size_insert_Some by eauto.
  - destruct Hinv as [Hs Hp]. unfold release_permit in Hrel.
    destruct (guards p !! g) as [[|s|]|] eqn:Hg; try done. injection Hrel as <-. split; cbn.
    + by rewrite <- Hs, (held_lookup _ _ _ Hg).
    + rewrite (size_lookup _ _ _ Hg) in Hp. lia.
Qed.

Lemma pool_reachable_inv ss p : rtc pool_step (pool_of ss (length ss)) p -> pool_inv ss p.
Proof.
  intros Hr. pose proof (pool_inv_new ss) as Hi. revert Hi. induction Hr as [|x y z Hxy _ IH]; [done|].
  intros Hi. apply IH. by eapply pool_inv_step.
Qed.

(** C33: in every state the threads can bring a pool of distinct sessions to, no
    two guards hold the same session and no held session is in the queue, and a
    guard that has got its permit finds a session: the second error exit of
    [acquire] is never taken. *)
Theorem pool_exclusive ss p :
  NoDup ss -> rtc pool_step (pool_of ss (length ss)) p ->
  (forall g g' s, guards p !! g = Some (Holding s) -> guards p !! g' = Some (Holding s) -> g = g') /\
  (forall g s, guards p !! g = Some (Holding s) -> s ∉ sessions p) /\
  (forall g, guards p !! g = Some Acquiring -> exists p' s, pop_session p g = Some (p', Ok s)).
Proof.
  intros Hnd Hr%pool_reachable_inv. pose proof Hr as [Hs _]. rewrite <- Hs in Hnd.
  apply NoDup_app in Hnd as (Hnd & Hdis & _). split_and!.
  - intros g g' s Hg Hg'. destruct (decide (g = g')) as [|Hne]; [done|]. rewrite (held_lookup _ _ _ Hg) in Hnd.
    cbn in Hnd. apply NoDup_cons in Hnd as [[] _]. apply (held_elem _ g'). by rewrite lookup_delete_ne.
  - intros g s Hg. apply Hdis. by apply (held_elem _ g).
  - intros g Hg. pose proof (acquiring_finds_session _ _ _ Hr Hg). unfold pop_session. rewrite Hg.
    destruct (sessions p); [done|eauto].
Qed.

(** The two calls in a reachable state: refused when as many guards are out as
    there are sessions, otherwise the session at the front, which goes to the back
    when the guard is dropped. *)
Lemma pool_calls ss p g :
  rtc pool_step (pool_of ss (length ss)) p -> guards p !! g = None ->
  (size (guards p) = length ss /\ acquire p g = Some (p, Err SessionPoolExhausted)) \/
  (size (guards p) < length ss /\ exists p' s rest, acquire p g = Some (p', Ok s) /\ sessions p = s :: rest /\
     drop_guard p' g = Some {| sessions := rest ++ [s]; permits := permits p; guards := guards p |}).
Proof.
  intros Hr%pool_reachable_inv Hg. pose proof (permits_le_sessions _ _ Hr) as Hle. destruct Hr as [_ Hp].
  unfold acquire, try_acquire_permit. rewrite decide_True by done.
  destruct (permits p) as [|n] eqn:Hn; [left; split; [lia|done]|right; split; [lia|]].
  destruct (sessions p) as [|s rest] eqn:He; [cbn in Hle; lia|].
  unfold pop_session. cbn. rewrite lookup_insert_eq. do 3 eexists. split_and!; [done|done|].
  unfold drop_guard, push_session. cbn. rewrite lookup_insert_eq. cbn. unfold release_permit. cbn.
  rewrite lookup_insert_eq. do 2 f_equal. rewrite !insert_insert_eq. by apply delete_insert_id.
Qed.

(** No session and no permit leaks.  In every reachable state [acquire] is
    refused exactly when as many guards are out as the pool has sessions, and
    otherwise gives a session; dropping the guard gives the pool back with that
    session at the back of the queue; and when no guard is out, all sessions
    are in the queue and all permits are free. *)
Theorem pool_no_leak ss p g :
  rtc pool_step (pool_of ss (length ss)) p -> guards p !! g = None ->
  (acquire p g = Some (p, Err SessionPoolExhausted) <-> size (guards p) = length ss) /\
  (size (guards p) < length ss -> exists p' s rest, acquire p g = Some (p', Ok s) /\
     sessions p = s :: rest /\
     drop_guard p' g = Some {| sessions := rest ++ [s]; permits := permits p; guards := guards p |}) /\
  (guards p = ∅ -> sessions p ≡ₚ ss /\ permits p = length ss).
Proof.
  intros Hr Hg. destruct (pool_reachable_inv _ _ Hr) as [Hs Hp].
  split; [|split; [intros Hlt|intros He; rewrite He in Hs, Hp; by rewrite map_size_empty, Nat.add_0_r in Hp]];
    destruct (pool_calls ss p g Hr Hg) as [[Hsz Ha]|(Hsz & Hcalls)]; try lia; try done.
  destruct Hcalls as (p' & s & rest & -> & _). split; [done|lia].
Qed.

(** A new pool holds the sessions that were opened and logged in, one per permit;
    an error in either step is reported and no pool is made. *)
Lemma open_sessions_ok {T} `{Token T} (tok tok' : T) slot pin cap acc ss :
  open_sessions tok slot pin cap acc = (tok', Ok ss) -> exists opened, ss = acc ++ opened /\ length opened = cap.
Proof.
  revert tok acc. induction cap as [|cap IH]; intros tok acc; cbn [open_sessions].
  { intros [= <- <-]. exists []. by rewrite app_nil_r. }
  destruct (open_ro_session tok slot) as [tok1 [|s]]; [done|]. destruct (login tok1 s pin) as [tok2 [|]]; [done|].
  intros (opened & -> & <-)%IH. exists (s :: opened). by rewrite <- app_assoc.
Qed.

Lemma pool_new_ok {T} `{Token T} (tok tok' : T) slot pin cap p :
  pool_new tok slot pin cap = (tok', Ok p) -> exists ss, p = pool_of ss (length ss) /\ length ss = cap.
Proof.
  unfold pool_new. destruct (open_sessions tok slot pin cap []) as [t [ss| |]] eqn:Ho; try done. intros [= _ <-].
  apply open_sessions_ok in Ho as (opened & -> & <-). by exists opened.
Qed.

(** ** Witnesses *)

Module SessionPoolWitness.

(** Two sessions; guards 7 and 8 take their permits, then 8 pops before 7. *)
Definition ss : list Session := [1%positive; 2%positive].
Definition p2 : Pool :=
  {| sessions := []; permits := 0; guards := {[ 7 := Holding 2%positive; 8 := Holding 1%positive ]} |}.

Lemma p2_reachable : rtc pool_step (pool_of ss (length ss)) p2.
Proof.
  eapply rtc_l; [apply (step_try _ 7); reflexivity|].
  eapply rtc_l; [apply (step_try _ 8); reflexivity|].
  eapply rtc_l; [eapply (step_pop _ 8); reflexivity|].
  eapply rtc_l; [eapply (step_pop _ 7); reflexivity|].
  apply eq_subrelation; [apply _|]. reflexivity.
Qed.

Lemma pool_exclusive_witness : 1%positive ∉ sessions p2.
Proof.
  destruct (pool_exclusive ss p2) as (_ & H & _);
    [repeat constructor; set_solver|apply p2_reachable|].
  apply (H 8). reflexivity.
Defined.

Lemma pool_no_leak_witness : acquire p2 9 = Some (p2, Err SessionPoolExhausted).
Proof. apply (pool_no_leak ss p2 9); [apply p2_reachable|reflexivity|reflexivity]. Defined.
End SessionPoolWitness.
