(* ===== verification/Signer.v ===== *)
(** * Signer: signing with a PKCS#11 token

    crates/oxitls-adapter-pkcs11/src/signer.rs and session.rs: choosing a
    signature scheme and a mechanism, finding the key, signing through a session
    of the pool, and turning the token's [r || s] into the DER form TLS wants.
    The token library is the class [SigningToken]. *)

From stdpp Require Import pretty.
From S2P Require Import Prelude Core SessionPool.

(** ** Schemes and mechanisms *)

(** [cryptoki::object::KeyType]; another type is its number and its [Debug] text. *)
Inductive KeyType := KtEC | KtRSA | KtOther (raw : Z) (debug : string).

Inductive HashMechanism := MtSHA256 | MtSHA384 | MtSHA512.

Record PkcsPssParams := { hash_alg : HashMechanism; mgf : HashMechanism; s_len : Z }.

Inductive Mechanism :=
  | EcdsaSha256 | EcdsaSha384 | Sha256RsaPkcs | Sha384RsaPkcs | Sha512RsaPkcs
  | RsaPkcsPss (params : PkcsPssParams).

Definition key_type_to_algorithm (kt : KeyType) : R PkcsSignError SignatureAlgorithm :=
  match kt with
  | KtEC => Ok ECDSA
  | KtRSA => Ok RSA
  | KtOther _ debug => Err (SignKeyNotFound ("unsupported PKCS#11 key type: " +:+ debug))
  end.

Definition preferred_schemes (algorithm : SignatureAlgorithm) : list SignatureScheme :=
  match algorithm with
  | ECDSA => [ECDSA_NISTP384_SHA384; ECDSA_NISTP256_SHA256]
  | RSA => [RSA_PSS_SHA512; RSA_PSS_SHA384; RSA_PSS_SHA256;
            RSA_PKCS1_SHA512; RSA_PKCS1_SHA384; RSA_PKCS1_SHA256]
  | _ => []
  end.

Definition scheme_to_mechanism (scheme : SignatureScheme) : R PkcsSignError Mechanism :=
  match scheme with
  | ECDSA_NISTP256_SHA256 => Ok EcdsaSha256
  | ECDSA_NISTP384_SHA384 => Ok EcdsaSha384
  | RSA_PKCS1_SHA256 => Ok Sha256RsaPkcs
  | RSA_PKCS1_SHA384 => Ok Sha384RsaPkcs
  | RSA_PKCS1_SHA512 => Ok Sha512RsaPkcs
  | RSA_PSS_SHA256 => Ok (RsaPkcsPss {| hash_alg := MtSHA256; mgf := MtSHA256; s_len := 32 |})
  | RSA_PSS_SHA384 => Ok (RsaPkcsPss {| hash_alg := MtSHA384; mgf := MtSHA384; s_len := 48 |})
  | RSA_PSS_SHA512 => Ok (RsaPkcsPss {| hash_alg := MtSHA512; mgf := MtSHA512; s_len := 64 |})
  | _ => Err (SignSignError ("unsupported signature scheme: " +:+ scheme_debug scheme))
  end.

(** [SigningKey::choose_scheme]: the [for &scheme in preferred] loop; the signer
    is the chosen scheme with the key's label and backend. *)
Fixpoint first_offered (preferred offered : list SignatureScheme) : option SignatureScheme :=
  match preferred with
  | [] => None
  | scheme :: preferred =>
      if bool_decide (scheme ∈ offered) then Some scheme else first_offered preferred offered
  end.

Definition choose_scheme (algorithm : SignatureAlgorithm) (offered : list SignatureScheme)
  : option SignatureScheme := first_offered (preferred_schemes algorithm) offered.

(** ** From [r || s] to DER *)

(** [bytes.iter().position(|&b| b != 0).map(|i| &bytes[i..]).unwrap_or(&[0])]. *)
Fixpoint trim_zeros (bs : bytes) : bytes :=
  match bs with
  | [] => [Byte.x00]
  | b :: rest => if bool_decide (b <> Byte.x00) then b :: rest else trim_zeros rest
  end.

(** The closure [encode_int]. *)
Definition encode_int (bs : bytes) : bytes :=
  let stripped := trim_zeros bs in
  let needs_pad := (0x80 <=? val (default Byte.x00 (head stripped)))%Z in
  let content_len := length stripped + (if needs_pad then 1 else 0) in
  [Byte.x02; u8 (Z.of_nat content_len)] ++ (if needs_pad then [Byte.x00] else []) ++ stripped.

Definition raw_ecdsa_to_der (raw : bytes) : R PkcsSignError bytes :=
  if negb (length raw mod 2 =? 0)
  then Err (InvalidSignatureLength (length raw / 2 * 2) (length raw))
  else
    let half := length raw / 2 in
    r ← slice raw 0 half;
    s ← slice raw half (length raw);
    let r_enc := encode_int r in
    let s_enc := encode_int s in
    let seq_len := length r_enc + length s_enc in
    Ok ([Byte.x30; u8 (Z.of_nat seq_len)] ++ r_enc ++ s_enc).

Definition finalize_signature (scheme : SignatureScheme) (raw_sig : bytes) : R PkcsSignError bytes :=
  match scheme with
  | ECDSA_NISTP256_SHA256 | ECDSA_NISTP384_SHA384 =>
      if bool_decide (head raw_sig = Some Byte.x30) then Ok raw_sig else raw_ecdsa_to_der raw_sig
  | _ => Ok raw_sig
  end.

(** ** The token *)

Definition ObjectHandle : Type := positive.

Inductive Attribute := AttrKeyType (kt : KeyType) | AttrOther.

(** [find_objects] for private keys with a label, [get_attributes] for the key
    type, and [sign]; an error is the library's message. *)
Class SigningToken := {
  find_private_keys : Session -> string -> string + list ObjectHandle;
  key_type_attributes : Session -> ObjectHandle -> string + list Attribute;
  token_sign : Session -> Mechanism -> ObjectHandle -> bytes -> string + bytes;
}.

Class SigningBackend (B : Type) := {
  sign_raw : B -> Mechanism -> bytes -> R PkcsSignError bytes;
}.

Section Signing.
Context `{SigningToken}.

Definition find_private_key_by_label (session : Session) (label : string) : R PkcsSignError ObjectHandle :=
  handles ← map_err (fun e => SignKeyNotFound ("find_objects failed: " +:+ e))
              (of_sum (find_private_keys session label));
  ok_or (SignKeyNotFound label) (head handles).

(** The [for attr in attrs] loop. *)
Fixpoint first_key_type (attrs : list Attribute) : R PkcsSignError KeyType :=
  match attrs with
  | [] => Err (SignSessionError "CKA_KEY_TYPE attribute not found on private key")
  | AttrKeyType kt :: _ => Ok kt
  | AttrOther :: attrs => first_key_type attrs
  end.

Definition probe_key_type (session : Session) (handle : ObjectHandle) : R PkcsSignError KeyType :=
  attrs ← map_err (fun e => SignSessionError ("get_attributes failed: " +:+ e))
            (of_sum (key_type_attributes session handle));
  first_key_type attrs.

(** The trait [SigningBackend] and its production instance: a session with the key
    it found. *)
Record CryptokiSigningBackend := { cb_session : Session; cb_key_handle : ObjectHandle }.

Definition backend_new (session : Session) (key_handle : ObjectHandle) : CryptokiSigningBackend :=
  {| cb_session := session; cb_key_handle := key_handle |}.

#[export] Instance cryptoki_backend : SigningBackend CryptokiSigningBackend := {
  sign_raw self mechanism message :=
    map_err SignSignError (of_sum (token_sign (cb_session self) mechanism (cb_key_handle self) message));
}.

Definition sign_internal {B} `{SigningBackend B} (backend : B) (mechanism : Mechanism)
  (message : bytes) (scheme : SignatureScheme) : R PkcsSignError bytes :=
  raw_sig ← sign_raw backend mechanism message;
  finalize_signature scheme raw_sig.

Definition sign_in_session (session : Session) (key_label : string) (scheme : SignatureScheme)
  (message : bytes) : R PkcsSignError bytes :=
  handle ← find_private_key_by_label session key_label;
  mechanism ← scheme_to_mechanism scheme;
  let backend := backend_new session handle in
  sign_internal backend mechanism message scheme.

(** session.rs: a fresh session, logged in. *)
Definition open_user_session {T} `{Token T} (tok : T) (slot : Slot) (pin : string) : T * R PkcsSignError Session :=
  match open_ro_session tok slot with
  | (tok, inl e) => (tok, Err (SignSessionError e))
  | (tok, inr session) =>
      match login tok session pin with
      | (tok, inl e) => (close_session tok session, Err (SignSessionError ("login failed: " +:+ e)))
      | (tok, inr _) => (tok, Ok session)
      end
  end.

(** [sign_via_pool]: the guard [g] is dropped on every way out. *)
Definition sign_via_pool (p : Pool) (g : nat) (key_label : string) (scheme : SignatureScheme)
  (message : bytes) : option (Pool * R PkcsSignError bytes) :=
  match acquire p g with
  | None => None
  | Some (p, Err e) => Some (p, Err (SignSessionError ("pool acquire failed: " +:+ pkcs11_error_display e)))
  | Some (p, Panic) => Some (p, Panic)
  | Some (p, Ok session) =>
      let r := sign_in_session session key_label scheme message in
      p ← drop_guard p g; Some (p, r)
  end.

(** [Pkcs11SigningKey::new]: the algorithm of the key, probed through the pool. *)
Definition signing_key_new (p : Pool) (g : nat) (key_label : string)
  : option (Pool * R Pkcs11Error SignatureAlgorithm) :=
  match acquire p g with
  | None => None
  | Some (p, Err e) => Some (p, Err e)
  | Some (p, Panic) => Some (p, Panic)
  | Some (p, Ok session) =>
      let r :=
        handle ← map_err pkcs11_from_sign_error (find_private_key_by_label session key_label);
        kt ← map_err pkcs11_from_sign_error (probe_key_type session handle);
        map_err (fun e => Pkcs11Other ("unsupported key type: " +:+ sign_error_display e))
          (key_type_to_algorithm kt) in
      p ← drop_guard p g; Some (p, r)
  end.
End Signing.

(** A fresh session for one signature: the key is looked up, and signs, on the token
    as it is after the login, of which [view] shows the signing calls. *)
Definition sign_with_pkcs11 {T} `{Token T} (view : T -> SigningToken) (tok : T) (slot : Slot) (pin key_label : string)
  (scheme : SignatureScheme) (message : bytes) : T * R PkcsSignError bytes :=
  match open_user_session tok slot pin with
  | (tok, Ok session) => (close_session tok session, @sign_in_session (view tok) session key_label scheme message)
  | (tok, Err e) => (tok, Err e)
  | (tok, Panic) => (tok, Panic)
  end.

(** ** Properties *)

(** *** DER *)

(** A reader of the DER form of an ECDSA signature (RFC 3279), short lengths and
    minimal non-negative integers only. *)
Definition minimal_nonneg (c : bytes) : bool :=
  match c with
  | [] => false
  | [b] => (val b <? 128)%Z
  | b0 :: b1 :: _ => if bool_decide (b0 = Byte.x00) then (128 <=? val b1)%Z else (val b0 <? 128)%Z
  end.

Definition read_int (bs : bytes) : option (Z * bytes) :=
  match bs with
  | Byte.x02 :: l :: rest =>
      let n := Z.to_nat (val l) in
      if (val l <? 128)%Z && (n <=? length rest) && minimal_nonneg (take n rest)
      then Some (from_be (take n rest), drop n rest) else None
  | _ => None
  end.

Definition read_ecdsa_sig (bs : bytes) : option (Z * Z) :=
  match bs with
  | Byte.x30 :: l :: rest =>
      if (val l <? 128)%Z && (Z.to_nat (val l) =? length rest) then
        '(r, rest) ← read_int rest;
        '(s, rest) ← read_int rest;
        match rest with [] => Some (r, s) | _ => None end
      else None
  | _ => None
  end.

Lemma trim_zeros_spec bs :
  from_be (trim_zeros bs) = from_be bs /\ length (trim_zeros bs) <= Nat.max 1 (length bs) /\
  (trim_zeros bs = [Byte.x00] \/ exists b rest, trim_zeros bs = b :: rest /\ b <> Byte.x00).
Proof.
  induction bs as [|b bs (IHv & IHl & IHh)]; cbn [trim_zeros length].
  - split_and!; [done|cbn; lia|by left].
  - case_bool_decide as Hb.
    + split_and!; [done|cbn; lia|right; eauto].
    + subst b. split_and!; [|lia|done].
      rewrite IHv, from_be_cons. change (val Byte.x00) with 0%Z. lia.
Qed.

(** The content of an encoded integer, a minimal non-negative number. *)
Lemma encode_int_content bs :
  exists c, encode_int bs = Byte.x02 :: u8 (Z.of_nat (length c)) :: c /\
    from_be c = from_be bs /\ minimal_nonneg c = true /\ length c <= S (Nat.max 1 (length bs)).
Proof.
  unfold encode_int. destruct (trim_zeros_spec bs) as (Hv & Hl & Hh).
  destruct (trim_zeros bs) as [|b rest] eqn:Ht; [naive_solver|]. cbn [head default from_option id].
  destruct (Z.leb_spec 0x80 (val b)) as [Hb|Hb].
  - exists (Byte.x00 :: b :: rest). split_and!.
    + cbn [length app]. do 3 f_equal. lia.
    + rewrite <- Hv, (from_be_cons Byte.x00). change (val Byte.x00) with 0%Z. lia.
    + cbn [minimal_nonneg]. rewrite bool_decide_eq_true_2 by done. by apply Z.leb_le.
    + cbn [length] in *. lia.
  - exists (b :: rest). split_and!; [|done| |lia].
    + cbn [length app]. do 3 f_equal. lia.
    + destruct rest as [|b1 rest]; cbn [minimal_nonneg]; [by apply Z.ltb_lt|].
      rewrite bool_decide_eq_false_2 by naive_solver. by apply Z.ltb_lt.
Qed.

Lemma val_u8_small z : (0 <= z < 256)%Z -> val (u8 z) = z.
Proof. intros. rewrite byte.unsigned_of_Z. unfold byte.wrap. by apply Z.mod_small. Qed.

Lemma read_encode_int bs rest :
  length bs <= 60 -> read_int (encode_int bs ++ rest) = Some (from_be bs, rest).
Proof.
  intros Hl. destruct (encode_int_content bs) as (c & -> & Hv & Hm & Hc). cbn [app read_int].
  rewrite val_u8_small by lia. rewrite Nat2Z.id, take_app_length, drop_app_length, Hm, Hv.
  rewrite (proj2 (Z.ltb_lt _ _)) by lia. rewrite (proj2 (Nat.leb_le _ _)) by (rewrite length_app; lia). done.
Qed.

Lemma length_encode_int bs : length (encode_int bs) <= 3 + Nat.max 1 (length bs).
Proof. destruct (encode_int_content bs) as (c & -> & _ & _ & Hc). cbn [length]. lia. Qed.

(** A raw signature of at most 120 bytes (both supported curves give 64 or
    96) of even length becomes the DER form of the same two numbers [r] and [s],
    which a strict reader decodes; one of odd length is an error. *)
Theorem raw_ecdsa_to_der_exact raw :
  length raw <= 120 ->
  if length raw mod 2 =? 0
  then exists der, raw_ecdsa_to_der raw = Ok der /\
         read_ecdsa_sig der = Some (from_be (take (length raw / 2) raw), from_be (drop (length raw / 2) raw))
  else raw_ecdsa_to_der raw = Err (InvalidSignatureLength (length raw - 1) (length raw)).
Proof.
  intros Hl. unfold raw_ecdsa_to_der. pose proof (Nat.div_mod_eq (length raw) 2) as Hd.
  pose proof (Nat.mod_upper_bound (length raw) 2) as Hm.
  destruct (Nat.eqb_spec (length raw mod 2) 0) as [He|He]; cbn [negb].
  - set (half := length raw / 2) in *. rewrite (slice_ok raw 0 half) by lia. cbn [mbind R_bind].
    rewrite (slice_full raw half _ eq_refl) by lia. cbn [mbind R_bind]. eexists. split; [done|].
    rewrite Nat.sub_0_r. change (drop 0 raw) with raw.
    pose proof (length_take_le raw half ltac:(lia)) as Hr. pose proof (length_drop raw half) as Hs.
    pose proof (length_encode_int (take half raw)). pose proof (length_encode_int (drop half raw)).
    cbn [app read_ecdsa_sig]. rewrite val_u8_small by lia.
    rewrite (proj2 (Z.ltb_lt _ _)), Nat2Z.id, length_app, Nat.eqb_refl by lia. cbn [andb].
    rewrite read_encode_int by lia. cbn [mbind option_bind].
    rewrite <- (app_nil_r (encode_int (drop half raw))), read_encode_int by lia. done.
  - do 2 f_equal. lia.
Qed.

Definition is_ecdsa (scheme : SignatureScheme) : bool :=
  match scheme with ECDSA_NISTP256_SHA256 | ECDSA_NISTP384_SHA384 => true | _ => false end.

(** C38: finishing a token's ECDSA signature.  A raw [r || s] is converted to DER
    unless its first byte is 0x30: then it is taken for DER and sent as it is,
    and unless its second byte happens to be the length of the rest the peer
    cannot read it.  Signatures of other schemes pass unchanged. *)
Theorem finalize_signature_cases scheme raw :
  length raw = 64 \/ length raw = 96 ->
  if is_ecdsa scheme then
    if bool_decide (head raw = Some Byte.x30)
    then finalize_signature scheme raw = Ok raw /\
         (forall l, raw !! 1 = Some l -> val l <> (Z.of_nat (length raw) - 2)%Z -> read_ecdsa_sig raw = None)
    else exists der, finalize_signature scheme raw = Ok der /\
         read_ecdsa_sig der = Some (from_be (take (length raw / 2) raw), from_be (drop (length raw / 2) raw))
  else finalize_signature scheme raw = Ok raw.
Proof.
  intros Hl. assert (length raw <= 120 /\ length raw mod 2 = 0) as [H120 Hm] by (destruct Hl as [-> | ->]; split; done || lia).
  pose proof (raw_ecdsa_to_der_exact raw H120) as Hder. rewrite Hm in Hder. cbn [Nat.eqb] in Hder.
  destruct (is_ecdsa scheme) eqn:He; [|by destruct scheme].
  assert (finalize_signature scheme raw
    = if bool_decide (head raw = Some Byte.x30) then Ok raw else raw_ecdsa_to_der raw) as -> by by destruct scheme.
  case_bool_decide as Hh; [|done]. split; [done|]. intros l Hr Hne.
  destruct raw as [|b [|l' rest]]; [done..|]. cbn in Hh, Hr. injection Hh as ->. injection Hr as ->.
  cbn [read_ecdsa_sig]. destruct (Nat.eqb_spec (Z.to_nat (val l)) (length rest)) as [E|E]; [|by rewrite andb_false_r].
  pose proof (byte.unsigned_range l). cbn [length] in Hne. lia.
Qed.

(** *** Schemes *)

Lemma first_offered_spec preferred offered :
  match first_offered preferred offered with
  | Some s => exists pre post, preferred = pre ++ s :: post /\ s ∈ offered /\ Forall (fun s => s ∉ offered) pre
  | None => Forall (fun s => s ∉ offered) preferred
  end.
Proof.
  induction preferred as [|s l IH]; cbn [first_offered]; [done|]. case_bool_decide as Hs.
  - by exists [], l.
  - destruct (first_offered l offered) as [s'|]; [|by constructor].
    destruct IH as (pre & post & -> & Hin & Hpre). exists (s :: pre), post. split_and!; [done|done|by constructor].
Qed.

(** The scheme a key chooses is one the peer offered, of the key's own
    algorithm, and no scheme the key prefers to it was offered; it is refused
    only if none of the key's schemes was offered.  A chosen scheme has a
    mechanism whose hash is the scheme's, so signing never fails for want of one. *)
Theorem choose_scheme_spec algorithm offered :
  match choose_scheme algorithm offered with
  | Some s =>
      s ∈ offered /\ (is_ecdsa s = true <-> algorithm = ECDSA) /\
      (exists pre post, preferred_schemes algorithm = pre ++ s :: post /\ Forall (fun s => s ∉ offered) pre) /\
      exists m, scheme_to_mechanism s = Ok m /\
        forall params, m = RsaPkcsPss params ->
          mgf params = hash_alg params /\
          s_len params = match hash_alg params with MtSHA256 => 32 | MtSHA384 => 48 | MtSHA512 => 64 end%Z
  | None => Forall (fun s => s ∉ offered) (preferred_schemes algorithm)
  end.
Proof.
  unfold choose_scheme. pose proof (first_offered_spec (preferred_schemes algorithm) offered) as Hf.
  destruct (first_offered _ offered) as [s|]; [|done]. destruct Hf as (pre & post & Hp & Hin & Hpre).
  assert (s ∈ preferred_schemes algorithm) as Hs by (rewrite Hp; set_solver).
  split_and!; [done| |by eauto|]; destruct algorithm; cbn in Hs; rewrite ?elem_of_cons, ?elem_of_nil in Hs;
    repeat destruct Hs as [->|Hs]; try done; eexists; (split; [done|]); by intros ? [= <-].
Qed.

(** *** The pool *)

Section SigningProperties.
Context `{SigningToken}.

(** What a call that borrows a session leaves behind. *)
Definition pool_restored (p p' : Pool) : Prop :=
  guards p' = guards p /\ permits p' = permits p /\ sessions p' ≡ₚ sessions p.

(** Signing through the pool, and probing a key through it, takes a session
    and gives it back on every way out, errors included; the only other outcome
    is the error for an exhausted pool, which leaves it untouched. *)
Theorem signing_restores_pool ss p g label scheme msg :
  rtc pool_step (pool_of ss (length ss)) p -> guards p !! g = None ->
  (exists p' r, sign_via_pool p g label scheme msg = Some (p', r) /\ pool_restored p p' /\
     (if decide (size (guards p) = length ss)
      then exists e, r = Err (SignSessionError e)
      else exists s, s ∈ sessions p /\ r = sign_in_session s label scheme msg)) /\
  (exists p' r, signing_key_new p g label = Some (p', r) /\ pool_restored p p').
Proof.
  intros Hr Hg. destruct (pool_calls ss p g Hr Hg) as [[Hsz Ha]|(Hsz & p' & s & rest & Ha & Hs & Hd)];
    unfold sign_via_pool, signing_key_new; rewrite Ha.
  - split; do 2 eexists; (split; [done|]); [|by split_and!].
    split; [by split_and!|]. rewrite decide_True by done. eauto.
  - rewrite Hd. cbn [mbind option_bind].
    assert (pool_restored p {| sessions := rest ++ [s]; permits := permits p; guards := guards p |}) as Hp.
    { split_and!; [done..|]. cbn. rewrite Hs. by rewrite <- Permutation_cons_append. }
    split; do 2 eexists; (split; [done|]); [|done]. split; [done|].
    rewrite decide_False by lia. exists s. split; [|done]. rewrite Hs. by left.
Qed.
End SigningProperties.

(** ** Witnesses *)

Module SignerWitness.
Import SessionPoolWitness.

(** A token with one key that signs with a fixed answer. *)
#[local] Instance token : SigningToken := {
  find_private_keys _ label := if String.eqb label "tls" then inr [5%positive] else inr [];
  key_type_attributes _ _ := inr [AttrOther; AttrKeyType KtEC];
  token_sign _ _ _ msg := inr (replicate 32 Byte.x80 ++ replicate 31 Byte.x00 ++ [Byte.x07]);
}.

Definition raw : bytes := replicate 32 Byte.x80 ++ replicate 31 Byte.x00 ++ [Byte.x07].

Lemma raw_ecdsa_to_der_exact_witness :
  exists der, raw_ecdsa_to_der raw = Ok der /\ exists r, read_ecdsa_sig der = Some (r, 7%Z).
Proof.
  destruct (raw_ecdsa_to_der_exact raw) as (der & Hd & Hr); [vm_compute; lia|].
  exists der. split; [exact Hd|]. eexists. rewrite Hr. do 2 f_equal.
Defined.

(** [r] starts with 0x30: the signature leaves the token unreadable. *)
Lemma finalize_signature_cases_witness :
  finalize_signature ECDSA_NISTP256_SHA256 (Byte.x30 :: replicate 63 Byte.x01)
    = Ok (Byte.x30 :: replicate 63 Byte.x01) /\
  read_ecdsa_sig (Byte.x30 :: replicate 63 Byte.x01) = None.
Proof.
  destruct (finalize_signature_cases ECDSA_NISTP256_SHA256 (Byte.x30 :: replicate 63 Byte.x01)) as [H1 H2];
    [left; reflexivity|]. split; [exact H1|]. apply (H2 Byte.x01); [reflexivity|vm_compute; discriminate].
Defined.

Lemma signing_restores_pool_witness :
  exists p' r, sign_via_pool (pool_of ss (length ss)) 3 "tls" ECDSA_NISTP256_SHA256 [] = Some (p', r) /\
    pool_restored (pool_of ss (length ss)) p' /\ is_ok r = true.
Proof.
  destruct (signing_restores_pool ss (pool_of ss (length ss)) 3 "tls" ECDSA_NISTP256_SHA256 [])
    as [(p' & r & H1 & H2 & H3) _]; [constructor|reflexivity|].
  exists p', r. split; [exact H1|]. split; [exact H2|]. destruct H3 as (s & _ & ->). vm_compute. reflexivity.
Defined.

(** A missing key is an error, and the session is back in the queue. *)
Example missing_key :
  sign_via_pool (pool_of ss 2) 3 "other" ECDSA_NISTP256_SHA256 []
  = Some ({| sessions := [2%positive; 1%positive]; permits := 2; guards := ∅ |}, Err (SignKeyNotFound "other")).
Proof. vm_compute. reflexivity. Qed.
End SignerWitness.
