(* ===== verification/SniResolver.v ===== *)
(** * SniResolver: choosing a certificate by server name

    [match_sni] and [Pkcs11ServerCertResolver] of
    crates/oxitls-adapter-pkcs11/src/resolver.rs.  A [str] is its UTF-8 bytes, and
    a [BTreeMap<String, V>] is the list of its entries in the order of iteration,
    without two entries under one key. *)

From S2P Require Import Prelude.

Definition DOT : byte := Byte.x2e.
Definition STAR : byte := Byte.x2a.

(** [str::strip_prefix], [strip_suffix], [ends_with], [contains] and
    [BTreeMap::get]. *)
Definition strip_prefix (prefix s : bytes) : option bytes :=
  if bool_decide (take (length prefix) s = prefix) then Some (drop (length prefix) s) else None.

Definition strip_suffix (s suffix : bytes) : option bytes :=
  let n := length s - length suffix in
  if bool_decide (length suffix <= length s) && bool_decide (drop n s = suffix) then Some (take n s) else None.

Definition ends_with (s : bytes) (c : byte) : bool := bool_decide (last s = Some c).
Definition contains (s : bytes) (c : byte) : bool := bool_decide (c ∈ s).

Fixpoint btree_get {V} (map : list (bytes * V)) (key : bytes) : option V :=
  match map with
  | [] => None
  | (k, v) :: map => if bool_decide (k = key) then Some v else btree_get map key
  end.

(** The conditions on one key of the map. *)
Definition wildcard_matches (key requested : bytes) : bool :=
  match strip_prefix [STAR; DOT] key with
  | None => false
  | Some suffix =>
      match strip_suffix requested suffix with
      | None => false
      | Some label_dot =>
          (1 <? length label_dot) && ends_with label_dot DOT
          && negb (contains (take (length label_dot - 1) label_dot) DOT)
      end
  end.

(** The [for (key, v) in map.iter()] loop. *)
Fixpoint wildcard_loop {V} (map : list (bytes * V)) (requested : bytes) : option V :=
  match map with
  | [] => None
  | (key, v) :: map => if wildcard_matches key requested then Some v else wildcard_loop map requested
  end.

Definition match_sni {V} (map : list (bytes * V)) (requested : bytes) (strict : bool) (default : option V)
  : option V :=
  match btree_get map requested with
  | Some v => Some v
  | None =>
      match wildcard_loop map requested with
      | Some v => Some v
      | None => if strict then None else default
      end
  end.

Section Resolver.
Context {SigningKey : Type}.

Record CertifiedKey := { cert : list bytes; key : SigningKey }.

Record Pkcs11ServerCertResolver := {
  sni_map : list (bytes * CertifiedKey);
  default_cert : option CertifiedKey;
  strict_sni : bool;
}.

Definition resolver_new (cert_chain : list bytes) (signing_key : SigningKey) : Pkcs11ServerCertResolver :=
  {| sni_map := []; default_cert := Some {| cert := cert_chain; key := signing_key |}; strict_sni := false |}.

Definition with_sni_map (map : list (bytes * (list bytes * SigningKey))) : Pkcs11ServerCertResolver :=
  {| sni_map := (fun '(hostname, (chain, k)) => (hostname, {| cert := chain; key := k |})) <$> map;
     default_cert := None; strict_sni := false |}.

Definition with_strict_sni (self : Pkcs11ServerCertResolver) (strict : bool) : Pkcs11ServerCertResolver :=
  {| sni_map := sni_map self; default_cert := default_cert self; strict_sni := strict |}.

(** [lookup], which [resolve] calls with the name of the [ClientHello]. *)
Definition sni_lookup (self : Pkcs11ServerCertResolver) (sni : option bytes) : option CertifiedKey :=
  match sni with
  | Some name => match_sni (sni_map self) name (strict_sni self) (default_cert self)
  | None => if strict_sni self then None else default_cert self
  end.

(** [ResolvesServerCert::resolve], of a [ClientHello] by its server name. *)
Definition resolve (self : Pkcs11ServerCertResolver) (server_name : option bytes) : option CertifiedKey :=
  sni_lookup self server_name.
End Resolver.
Arguments CertifiedKey : clear implicits.
Arguments Pkcs11ServerCertResolver : clear implicits.

(** ** Properties *)

(** The only wildcard entry that can cover a name (RFC 6125, section 6.4.3): [*.]
    and what follows the first dot, when something precedes it. *)
Definition wildcard_key (requested : bytes) : option bytes :=
  match list_find (fun b => b = DOT) requested with
  | Some (S i, _) => Some ([STAR; DOT] ++ drop (S (S i)) requested)
  | _ => None
  end.

Lemma strip_prefix_Some prefix s r : strip_prefix prefix s = Some r <-> s = prefix ++ r.
Proof.
  unfold strip_prefix. case_bool_decide as Hp; split.
  - intros [= <-]. rewrite <- Hp at 1. by rewrite take_drop.
  - intros ->. by rewrite drop_app_length.
  - done.
  - intros ->. by rewrite take_app_length in Hp.
Qed.

Lemma strip_suffix_Some s suffix r : strip_suffix s suffix = Some r <-> s = r ++ suffix.
Proof.
  unfold strip_suffix. split.
  - case_match eqn:Hc; [|done]. apply andb_prop in Hc as [Hl Hd]. apply bool_decide_eq_true in Hl, Hd.
    intros [= <-]. rewrite <- Hd at 2. by rewrite take_drop.
  - intros ->. rewrite length_app, Nat.add_sub, drop_app_length, take_app_length.
    by rewrite !bool_decide_eq_true_2 by (done || lia).
Qed.

(** A name that a wildcard covers is one label, a dot and the suffix. *)
Lemma wildcard_matches_spec key requested :
  wildcard_matches key requested = true <->
  exists label suffix, key = [STAR; DOT] ++ suffix /\ requested = label ++ DOT :: suffix /\
    label <> [] /\ DOT ∉ label.
Proof.
  unfold wildcard_matches. split.
  - destruct (strip_prefix _ key) as [suffix|] eqn:Hk; [|done].
    destruct (strip_suffix requested suffix) as [ld|] eqn:Hr; [|done].
    apply strip_prefix_Some in Hk. apply strip_suffix_Some in Hr. unfold ends_with, contains.
    rewrite !andb_true_iff, negb_true_iff, Nat.ltb_lt, bool_decide_eq_true, bool_decide_eq_false.
    intros [[Hl He] Hd]. apply last_Some in He as [label ->]. rewrite length_app in Hl, Hd. cbn in Hl, Hd.
    rewrite Nat.add_sub, take_app_length in Hd. exists label, suffix.
    split_and!; [done|by rewrite Hr, <- app_assoc|by destruct label; cbn in *; [lia|]|done].
  - intros (label & suffix & -> & -> & Hl & Hd).
    rewrite (proj2 (strip_prefix_Some _ _ suffix) eq_refl).
    rewrite (proj2 (strip_suffix_Some _ _ (label ++ [DOT]))) by by rewrite <- app_assoc.
    unfold ends_with, contains. rewrite last_snoc, length_app, Nat.add_sub, take_app_length.
    rewrite bool_decide_eq_true_2, bool_decide_eq_false_2 by done. rewrite !andb_true_iff. split_and!; try done.
    apply Nat.ltb_lt. destruct label; cbn; [done|lia].
Qed.

(** So there is at most one such key. *)
Lemma wildcard_matches_key key requested :
  wildcard_matches key requested = true <-> wildcard_key requested = Some key.
Proof.
  rewrite wildcard_matches_spec. unfold wildcard_key. split.
  - intros (label & suffix & -> & -> & Hl & Hd). rewrite list_find_app_r.
    2: { apply list_find_None, Forall_forall. intros x Hx ->. done. }
    destruct label as [|b label]; [done|]. cbn. rewrite decide_True by done. cbn. do 3 f_equal.
    rewrite (cons_middle _ label suffix), app_assoc. by rewrite drop_app_length' by (rewrite length_app; cbn; lia).
  - destruct (list_find _ requested) as [[[|i] b]|] eqn:Hf; try done. intros [= <-].
    apply list_find_Some in Hf as (Hi & -> & Hbefore). exists (take (S i) requested), (drop (S (S i)) requested).
    split_and!; [done|by rewrite <- drop_S by done; rewrite take_drop| |].
    + apply lookup_lt_Some in Hi. destruct requested; [cbn in Hi; lia|done].
    + intros (j & Hj)%list_elem_of_lookup. apply lookup_take_Some in Hj as [Hj Hlt]. by apply (Hbefore j DOT).
Qed.

Lemma btree_get_Some {V} (map : list (bytes * V)) k v : btree_get map k = Some v -> (k, v) ∈ map.
Proof.
  induction map as [|[k' v'] map IH]; cbn [btree_get]; [done|]. case_bool_decide as Hk.
  - intros [= <-]. subst. by left.
  - intros Hv%IH. by right.
Qed.

Lemma btree_get_absent {V} (map : list (bytes * V)) k : k ∉ map.*1 -> btree_get map k = None.
Proof.
  induction map as [|[k' v'] map IH]; cbn; [done|]. intros Hk. rewrite bool_decide_eq_false_2 by set_solver.
  apply IH. set_solver.
Qed.

(** The scan of the whole map is a lookup. *)
Lemma wildcard_loop_get {V} (map : list (bytes * V)) requested :
  wildcard_loop map requested = wildcard_key requested ≫= btree_get map.
Proof.
  induction map as [|[k v] map IH]; cbn [wildcard_loop]; [by destruct (wildcard_key requested)|].
  destruct (wildcard_matches k requested) eqn:Hm.
  - apply wildcard_matches_key in Hm as ->. cbn. by rewrite bool_decide_eq_true_2.
  - rewrite IH. destruct (wildcard_key requested) as [k'|] eqn:Hk; [|done]. cbn.
    rewrite bool_decide_eq_false_2; [done|]. intros ->. apply wildcard_matches_key in Hk. congruence.
Qed.

(** Name matching.  The result of the scan is that of at most two lookups:
    the name itself, then the one wildcard entry that can cover it, [*.] and the
    part after its first dot when its first label is not empty; then the
    default, unless matching is strict.  In particular the order of the entries
    does not matter, an exact entry wins over a wildcard, and a wildcard covers
    exactly one label. *)
Theorem match_sni_lookups {V} (map : list (bytes * V)) requested strict default :
  match_sni map requested strict default =
    match btree_get map requested with
    | Some v => Some v
    | None =>
        match wildcard_key requested ≫= btree_get map with
        | Some v => Some v
        | None => if strict then None else default
        end
    end /\
  (forall label suffix v, label <> [] -> DOT ∉ label -> btree_get map (label ++ DOT :: suffix) = None ->
     btree_get map ([STAR; DOT] ++ suffix) = Some v ->
     match_sni map (label ++ DOT :: suffix) strict default = Some v).
Proof.
  unfold match_sni. rewrite wildcard_loop_get. split; [done|].
  intros label suffix v Hl Hd He Hw. rewrite He, wildcard_loop_get.
  assert (wildcard_key (label ++ DOT :: suffix) = Some ([STAR; DOT] ++ suffix)) as ->; [|cbn [mbind option_bind]; by rewrite Hw].
  apply wildcard_matches_key, wildcard_matches_spec. by exists label, suffix.
Qed.

(** A resolver made from a name map has no fallback, strict or not: a client
    without a name gets nothing, a client with a name gets the certificate of an
    entry for exactly that name or of the wildcard entry that covers it, and an
    entry under the empty name answers only the empty name. *)
Theorem with_sni_map_no_fallback {K} (map : list (bytes * (list bytes * K))) strict name :
  let self := with_strict_sni (with_sni_map map) strict in
  sni_lookup self None = None /\
  (forall ck, sni_lookup self (Some name) = Some ck ->
     exists entry, (entry = name \/ wildcard_key name = Some entry) /\ (entry, (cert ck, key ck)) ∈ map) /\
  (name ∉ map.*1 -> wildcard_key name = None -> sni_lookup self (Some name) = None).
Proof.
  intros self. cbn [sni_lookup self with_strict_sni with_sni_map sni_map strict_sni default_cert].
  assert (forall k ck, btree_get (sni_map (with_sni_map map)) k = Some ck -> (k, (cert ck, key ck)) ∈ map) as Hget.
  { intros k ck Hk%btree_get_Some. cbn in Hk. apply list_elem_of_fmap in Hk as ([h [c s]] & [= -> ->] & Hin). done. }
  split_and!; [by destruct strict| |].
  - intros ck. unfold match_sni. fold (sni_map (with_sni_map map)). rewrite wildcard_loop_get.
    destruct (btree_get _ name) eqn:He; [intros [= ->]; eauto|].
    destruct (wildcard_key name) as [wk|] eqn:Hw; cbn [mbind option_bind]; [|by destruct strict].
    destruct (btree_get _ wk) eqn:Hg; [intros [= ->]; eauto|by destruct strict].
  - intros Hn Hw. unfold match_sni. rewrite wildcard_loop_get, Hw. cbn [mbind option_bind].
    rewrite btree_get_absent; [by destruct strict|]. rewrite <- list_fmap_compose.
    intros (x & -> & Hx)%list_elem_of_fmap. apply Hn. destruct x as [h [c s]]. cbn.
    change h with ((h, (c, s)).1). by apply list_elem_of_fmap_2.
Qed.

(** ** Witnesses *)

Module SniWitness.

Definition names : list (bytes * (list bytes * nat)) :=
  [([], ([], 0)); (bstr "*.example.com", ([], 1)); (bstr "foo.example.com", ([], 2))].

Lemma match_sni_lookups_witness :
  match_sni names (bstr "bar.example.com") true None = Some ([], 1).
Proof.
  destruct (match_sni_lookups names (bstr "bar.example.com") true None) as [_ H].
  apply (H (bstr "bar") (bstr "example.com")); vm_compute; try done. set_solver.
Defined.

(** The entry under the empty name is not a default. *)
Lemma with_sni_map_no_fallback_witness :
  sni_lookup (with_strict_sni (with_sni_map names) false) (Some (bstr "org")) = None.
Proof.
  apply (with_sni_map_no_fallback names false (bstr "org")); vm_compute; [|reflexivity]. set_solver.
Defined.

Example sni_runs :
  match_sni names (bstr "foo.example.com") true None = Some ([], 2) /\
  match_sni names (bstr "a.b.example.com") true None = None /\
  match_sni names (bstr "example.com") true None = None /\
  match_sni names (bstr ".example.com") true None = None.
Proof. vm_compute. done. Qed.
End SniWitness.
