(* ===== verification/Pkcs11Provider.v ===== *)
(** * Pkcs11Provider: the high-level PKCS#11 provider

    crates/oxitls-adapter-pkcs11/src/provider.rs, the key descriptions of lib.rs, the
    conversion of token errors of error.rs, and the signing keys and signers of
    signer.rs, on top of the session pool and the name resolver.  The token library
    (cryptoki) is the class [TokenObjects]; [TokenLaws] and [ObjectLaws] state what
    the PKCS#11 standard says of sessions, logins and objects. *)

From S2P Require Import Prelude Core SessionPool Signer SniResolver.

(** ** error.rs *)

(** [cryptoki::error::Error]: a return value (by its [Display]), a failure to load
    the library, an unsupported operation, or another error, by its message. *)
Inductive CryptokiError :=
  | CkPkcs11 (rv : string)
  | CkLibraryLoading (inner : string)
  | CkNotSupported
  | CkOther (display : string).

Definition rv_table : list (string * Z) := [
  ("CKR_CANCEL", 0x00000001); ("CKR_HOST_MEMORY", 0x00000002); ("CKR_SLOT_ID_INVALID", 0x00000003);
  ("CKR_GENERAL_ERROR", 0x00000005); ("CKR_FUNCTION_FAILED", 0x00000006); ("CKR_ARGUMENTS_BAD", 0x00000007);
  ("CKR_NO_EVENT", 0x00000008); ("CKR_NEED_TO_CREATE_THREADS", 0x00000009); ("CKR_CANT_LOCK", 0x0000000A);
  ("CKR_ATTRIBUTE_READ_ONLY", 0x00000010); ("CKR_ATTRIBUTE_SENSITIVE", 0x00000011);
  ("CKR_ATTRIBUTE_TYPE_INVALID", 0x00000012); ("CKR_ATTRIBUTE_VALUE_INVALID", 0x00000013);
  ("CKR_DATA_INVALID", 0x00000020); ("CKR_DATA_LEN_RANGE", 0x00000021);
  ("CKR_DEVICE_ERROR", 0x00000030); ("CKR_DEVICE_MEMORY", 0x00000031); ("CKR_DEVICE_REMOVED", 0x00000032);
  ("CKR_ENCRYPTED_DATA_INVALID", 0x00000040); ("CKR_ENCRYPTED_DATA_LEN_RANGE", 0x00000041);
  ("CKR_FUNCTION_CANCELED", 0x00000050); ("CKR_FUNCTION_NOT_PARALLEL", 0x00000051);
  ("CKR_FUNCTION_NOT_SUPPORTED", 0x00000054);
  ("CKR_KEY_HANDLE_INVALID", 0x00000060); ("CKR_KEY_SIZE_RANGE", 0x00000062);
  ("CKR_KEY_TYPE_INCONSISTENT", 0x00000063); ("CKR_KEY_NOT_NEEDED", 0x00000064); ("CKR_KEY_CHANGED", 0x00000065);
  ("CKR_KEY_NEEDED", 0x00000066); ("CKR_KEY_INDIGESTIBLE", 0x00000067);
  ("CKR_KEY_FUNCTION_NOT_PERMITTED", 0x00000068); ("CKR_KEY_NOT_WRAPPABLE", 0x00000069);
  ("CKR_KEY_UNEXTRACTABLE", 0x0000006A);
  ("CKR_MECHANISM_INVALID", 0x00000070); ("CKR_MECHANISM_PARAM_INVALID", 0x00000071);
  ("CKR_OBJECT_HANDLE_INVALID", 0x00000082);
  ("CKR_OPERATION_ACTIVE", 0x00000090); ("CKR_OPERATION_NOT_INITIALIZED", 0x00000091);
  ("CKR_PIN_INCORRECT", 0x000000A0); ("CKR_PIN_INVALID", 0x000000A1); ("CKR_PIN_LEN_RANGE", 0x000000A2);
  ("CKR_PIN_EXPIRED", 0x000000A3); ("CKR_PIN_LOCKED", 0x000000A4);
  ("CKR_SESSION_CLOSED", 0x000000B0); ("CKR_SESSION_COUNT", 0x000000B1);
  ("CKR_SESSION_HANDLE_INVALID", 0x000000B3); ("CKR_SESSION_PARALLEL_NOT_SUPPORTED", 0x000000B4);
  ("CKR_SESSION_READ_ONLY", 0x000000B5); ("CKR_SESSION_EXISTS", 0x000000B6);
  ("CKR_SESSION_READ_ONLY_EXISTS", 0x000000B7); ("CKR_SESSION_READ_WRITE_SO_EXISTS", 0x000000B8);
  ("CKR_SIGNATURE_INVALID", 0x000000C0); ("CKR_SIGNATURE_LEN_RANGE", 0x000000C1);
  ("CKR_TEMPLATE_INCOMPLETE", 0x000000D0); ("CKR_TEMPLATE_INCONSISTENT", 0x000000D1);
  ("CKR_TOKEN_NOT_PRESENT", 0x000000E0); ("CKR_TOKEN_NOT_RECOGNIZED", 0x000000E1);
  ("CKR_TOKEN_WRITE_PROTECTED", 0x000000E2);
  ("CKR_UNWRAPPING_KEY_HANDLE_INVALID", 0x000000F0); ("CKR_UNWRAPPING_KEY_SIZE_RANGE", 0x000000F1);
  ("CKR_UNWRAPPING_KEY_TYPE_INCONSISTENT", 0x000000F2);
  ("CKR_USER_ALREADY_LOGGED_IN", 0x00000100); ("CKR_USER_NOT_LOGGED_IN", 0x00000101);
  ("CKR_USER_PIN_NOT_INITIALIZED", 0x00000102); ("CKR_USER_TYPE_INVALID", 0x00000103);
  ("CKR_USER_ANOTHER_ALREADY_LOGGED_IN", 0x00000104); ("CKR_USER_TOO_MANY_TYPES", 0x00000105);
  ("CKR_WRAPPED_KEY_INVALID", 0x00000110); ("CKR_WRAPPED_KEY_LEN_RANGE", 0x00000112);
  ("CKR_WRAPPING_KEY_HANDLE_INVALID", 0x00000113); ("CKR_WRAPPING_KEY_SIZE_RANGE", 0x00000114);
  ("CKR_WRAPPING_KEY_TYPE_INCONSISTENT", 0x00000115);
  ("CKR_RANDOM_SEED_NOT_SUPPORTED", 0x00000120); ("CKR_RANDOM_NO_RNG", 0x00000121);
  ("CKR_DOMAIN_PARAMS_INVALID", 0x00000130); ("CKR_BUFFER_TOO_SMALL", 0x00000150);
  ("CKR_SAVED_STATE_INVALID", 0x00000160); ("CKR_INFORMATION_SENSITIVE", 0x00000170);
  ("CKR_STATE_UNSAVEABLE", 0x00000180);
  ("CKR_CRYPTOKI_NOT_INITIALIZED", 0x00000190); ("CKR_CRYPTOKI_ALREADY_INITIALIZED", 0x00000191);
  ("CKR_MUTEX_BAD", 0x000001A0); ("CKR_MUTEX_NOT_LOCKED", 0x000001A1);
  ("CKR_NEW_PIN_MODE", 0x000001B0); ("CKR_NEXT_OTP", 0x000001B1);
  ("CKR_EXCEEDED_MAX_ITERATIONS", 0x000001B5); ("CKR_FIPS_SELF_TEST_FAILED", 0x000001B6);
  ("CKR_LIBRARY_LOAD_FAILED", 0x000001B7); ("CKR_PIN_TOO_WEAK", 0x000001B8);
  ("CKR_PUBLIC_KEY_INVALID", 0x000001B9); ("CKR_FUNCTION_REJECTED", 0x00000200) ]%Z.

Definition RV_UNKNOWN : Z := 0xFFFFFFFF.

(** The [match] on the name: the first arm with it. *)
Fixpoint rv_lookup (table : list (string * Z)) (name : string) : Z :=
  match table with
  | [] => RV_UNKNOWN
  | (n, code) :: table => if String.eqb name n then code else rv_lookup table name
  end.

Definition rv_error_to_code (rv : string) : Z := rv_lookup rv_table rv.

Definition pkcs11_from_cryptoki (e : CryptokiError) : Pkcs11Error :=
  match e with
  | CkPkcs11 rv => let code := rv_error_to_code rv in HsmError code ("PKCS#11 rv=" +:+ rv)
  | CkLibraryLoading inner => LoadFailed inner
  | CkNotSupported => Unsupported "operation not supported by this token"
  | CkOther display => Pkcs11Other display
  end.

(** ** Objects on a token

    Attributes by the cases the code writes or reads. *)

Inductive ObjectClass := CERTIFICATE | PRIVATE_KEY | OtherClass.

Inductive ObjAttr :=
  | OClass (c : ObjectClass) | OLabel (v : bytes) | OValue (v : bytes) | OKeyType (kt : KeyType)
  | OId (v : bytes) | OSign (b : bool) | OCertificateTypeX509 | OToken (b : bool) | OSubject (v : bytes)
  | OOther (name : string).

Inductive AttributeType := TLabel | TKeyType | TId | TSign | TValue.

#[export] Instance KeyType_eq_dec : EqDecision KeyType.
Proof. solve_decision. Defined.
#[export] Instance ObjectClass_eq_dec : EqDecision ObjectClass.
Proof. solve_decision. Defined.
#[export] Instance ObjAttr_eq_dec : EqDecision ObjAttr.
Proof. solve_decision. Defined.

(** The library: its module at a path, [C_Initialize], slots, and the calls of a
    session.  Messages are the [Display] of its errors. *)
Class TokenObjects (T : Type) `{Token T} := {
  pkcs11_new : string -> string + T;
  initialize : T -> T * (string + unit);
  slot_try_from : Z -> string + Slot;
  find_objects : T -> Session -> list ObjAttr -> string + list ObjectHandle;
  get_attributes : T -> Session -> ObjectHandle -> list AttributeType -> string + list ObjAttr;
  object_sign : T -> Session -> Mechanism -> ObjectHandle -> bytes -> string + bytes;
  create_object : T -> Session -> list ObjAttr -> T * (CryptokiError + ObjectHandle);
}.

(** What signer.rs and session.rs see of the token. *)
Definition signing_token {T} `{TokenObjects T} (tok : T) : SigningToken := {|
  find_private_keys session label := find_objects tok session [OClass PRIVATE_KEY; OLabel (bstr label)];
  key_type_attributes session handle :=
    match get_attributes tok session handle [TKeyType] with
    | inl e => inl e
    | inr attrs => inr ((fun a => match a with OKeyType kt => AttrKeyType kt | _ => AttrOther end) <$> attrs)
    end;
  token_sign := object_sign tok;
|}.

(** ** [String::from_utf8_lossy] of the standard library

    The number of bytes of the first character, or of the invalid sequence that
    stands in its place and becomes U+FFFD. *)

Definition utf8_cont (b : byte) : bool := between 0x80 0xBF b.

Definition utf8_chunk (b0 : byte) (rest : bytes) : bool * nat :=
  if (val b0 <? 0x80)%Z then (true, 1) else
  if between 0xC2 0xDF b0 then
    match rest with b1 :: _ => if utf8_cont b1 then (true, 2) else (false, 1) | [] => (false, 1) end
  else if between 0xE0 0xEF b0 then
    match rest with
    | b1 :: rest =>
        if between (if (val b0 =? 0xE0)%Z then 0xA0 else 0x80) (if (val b0 =? 0xED)%Z then 0x9F else 0xBF) b1 then
          match rest with b2 :: _ => if utf8_cont b2 then (true, 3) else (false, 2) | [] => (false, 2) end
        else (false, 1)
    | [] => (false, 1)
    end
  else if between 0xF0 0xF4 b0 then
    match rest with
    | b1 :: rest =>
        if between (if (val b0 =? 0xF0)%Z then 0x90 else 0x80) (if (val b0 =? 0xF4)%Z then 0x8F else 0xBF) b1 then
          match rest with
          | b2 :: rest =>
              if utf8_cont b2 then
                match rest with b3 :: _ => if utf8_cont b3 then (true, 4) else (false, 3) | [] => (false, 3) end
              else (false, 2)
          | [] => (false, 2)
          end
        else (false, 1)
    | [] => (false, 1)
    end
  else (false, 1).

Definition REPLACEMENT : bytes := [Byte.xef; Byte.xbf; Byte.xbd].

Fixpoint utf8_lossy_loop (fuel : nat) (l : bytes) : bytes :=
  match fuel, l with
  | S fuel, b0 :: rest =>
      let '(valid, n) := utf8_chunk b0 rest in
      (if valid then take n l else REPLACEMENT) ++ utf8_lossy_loop fuel (drop n l)
  | _, _ => []
  end.

Definition from_utf8_lossy (l : bytes) : bytes := utf8_lossy_loop (length l) l.

(** ** Signing keys and signers: signer.rs *)

(** The pool or the module a key signs through; a pool is the state the calls
    thread, as is a module. *)
Inductive SigningKeyBackend := PoolBackend | DirectBackend (slot : Slot) (pin : string).

Record Pkcs11SigningKey := { sk_backend : SigningKeyBackend; sk_label : string; sk_algorithm : SignatureAlgorithm }.

Record Pkcs11PooledSigner := { ps_label : string; ps_scheme : SignatureScheme }.
Record Pkcs11Signer := { ds_slot : Slot; ds_pin : string; ds_label : string; ds_scheme : SignatureScheme }.

Inductive HsmSigner := Pooled (s : Pkcs11PooledSigner) | Direct (s : Pkcs11Signer).

Definition pooled_signer_new (key_label : string) (scheme : SignatureScheme) : Pkcs11PooledSigner :=
  {| ps_label := key_label; ps_scheme := scheme |}.

Definition signer_new (slot : Slot) (pin key_label : string) (scheme : SignatureScheme) : Pkcs11Signer :=
  {| ds_slot := slot; ds_pin := pin; ds_label := key_label; ds_scheme := scheme |}.

(** [SigningKey::choose_scheme] with the signer it makes, and [algorithm]. *)
Definition choose_signer (self : Pkcs11SigningKey) (offered : list SignatureScheme) : option HsmSigner :=
  scheme ← choose_scheme (sk_algorithm self) offered;
  match sk_backend self with
  | PoolBackend => Some (Pooled (pooled_signer_new (sk_label self) scheme))
  | DirectBackend slot pin => Some (Direct (signer_new slot pin (sk_label self) scheme))
  end.

Definition key_algorithm (self : Pkcs11SigningKey) : SignatureAlgorithm := sk_algorithm self.

Definition signer_scheme (s : HsmSigner) : SignatureScheme :=
  match s with Pooled s => ps_scheme s | Direct s => ds_scheme s end.

Section Keys.
Context {T : Type} `{TokenObjects T}.

(** [Signer::sign] of the two signers. *)
Definition pooled_sign (tok : T) (p : Pool) (g : nat) (self : Pkcs11PooledSigner) (message : bytes)
  : option (Pool * R RustlsError bytes) :=
  '(p, r) ← @sign_via_pool (signing_token tok) p g (ps_label self) (ps_scheme self) message;
  Some (p, map_err (fun e => General (sign_error_display e)) r).

Definition direct_sign (tok : T) (self : Pkcs11Signer) (message : bytes) : T * R RustlsError bytes :=
  let '(tok', r) := sign_with_pkcs11 signing_token tok (ds_slot self) (ds_pin self) (ds_label self) (ds_scheme self) message in
  (tok', map_err (fun e => General (sign_error_display e)) r).

(** [Pkcs11SigningKey::new] and [new_direct]; the session of the latter is closed at
    the end of its block. *)
Definition key_new (tok : T) (p : Pool) (g : nat) (key_label : string)
  : option (Pool * R Pkcs11Error Pkcs11SigningKey) :=
  '(p, r) ← @signing_key_new (signing_token tok) p g key_label;
  Some (p, algorithm ← r; Ok {| sk_backend := PoolBackend; sk_label := key_label; sk_algorithm := algorithm |}).

Definition new_direct (module_path : string) (slot : Slot) (pin key_label : string)
  : R PkcsSignError (T * Pkcs11SigningKey) :=
  tok ← map_err SignInitError (of_sum (pkcs11_new module_path));
  match initialize tok with
  | (_, inl e) => Err (SignInitError ("C_Initialize failed: " +:+ e))
  | (tok, inr _) =>
      match open_user_session tok slot pin with
      | (_, Err e) => Err e
      | (_, Panic) => Panic
      | (tok, Ok session) =>
          algorithm ← (handle ← @find_private_key_by_label (signing_token tok) session key_label;
                       kt ← @probe_key_type (signing_token tok) session handle;
                       key_type_to_algorithm kt);
          Ok (close_session tok session,
              {| sk_backend := DirectBackend slot pin; sk_label := key_label; sk_algorithm := algorithm |})
      end
  end.
End Keys.

(** ** lib.rs: descriptions of keys *)

Inductive Pkcs11KeyType := KeyRsa | KeyEcdsaP256 | KeyEcdsaP384 | KeyEd25519 | KeyOther (raw : Z).

Record Pkcs11KeyInfo := {
  ki_label : bytes;
  ki_key_type : Pkcs11KeyType;
  ki_id : bytes;
  ki_signing_capable : bool;
}.

(** ** provider.rs *)

(** The module and the slot; the pool is threaded beside it. *)
Record Pkcs11TlsProvider (T : Type) := { module : T; provider_slot : Slot }.
Arguments module {T} _.
Arguments provider_slot {T} _.

(** The configuration the provider builds: TLS 1.3, no client certificates. *)
Record HsmServerConfig (P : Type) := {
  hsm_provider : P;
  hsm_resolver : Pkcs11ServerCertResolver Pkcs11SigningKey;
}.
Arguments hsm_provider {P} _.
Arguments hsm_resolver {P} _.

(** CKK_EC_EDWARDS. *)
Definition EC_EDWARDS : Z := 0x40.

Section Provider.
Context {T : Type} `{TokenObjects T}.

Definition provider_new (module_path : string) (slot_index : Z) (pin : string)
  : R Pkcs11Error (Pkcs11TlsProvider T * Pool) :=
  tok ← map_err InitError (of_sum (pkcs11_new module_path));
  match initialize tok with
  | (_, inl e) => Err (InitError ("C_Initialize failed: " +:+ e))
  | (tok, inr _) =>
      slot ← map_err (fun e => InitError ("invalid slot index " +:+ pretty.pretty slot_index +:+ ": " +:+ e))
               (of_sum (slot_try_from slot_index));
      match pool_new tok slot pin 4 with
      | (tok, Ok pool) => Ok ({| module := tok; provider_slot := slot |}, pool)
      | (_, Err e) => Err e
      | (_, Panic) => Panic
      end
  end.

(** [let pooled = self.pool.acquire()?; ...], with the guard dropped on every way out. *)
Definition with_session {A} (p : Pool) (g : nat) (f : Session -> R Pkcs11Error A)
  : option (Pool * R Pkcs11Error A) :=
  match acquire p g with
  | None => None
  | Some (p, Err e) => Some (p, Err e)
  | Some (p, Panic) => Some (p, Panic)
  | Some (p, Ok session) => let r := f session in p ← drop_guard p g; Some (p, r)
  end.

Definition signing_key (self : Pkcs11TlsProvider T) (p : Pool) (g : nat) (label : string)
  : option (Pool * R Pkcs11Error Pkcs11SigningKey) :=
  key_new (module self) p g label.

(** [attrs.into_iter().find_map(..)] for [Attribute::Value]. *)
Definition find_value (attrs : list ObjAttr) : option bytes :=
  head (omap (fun a => match a with OValue v => Some v | _ => None end) attrs).

(** The [for handle in handles] loop of [cert_chain]. *)
Fixpoint cert_values (tok : T) (session : Session) (handles : list ObjectHandle) : R Pkcs11Error (list bytes) :=
  match handles with
  | [] => Ok []
  | handle :: handles =>
      attrs ← map_err (fun e => SessionError ("get_attributes failed: " +:+ e))
                (of_sum (get_attributes tok session handle [TValue]));
      der ← ok_or (SessionError "CKA_VALUE not found on certificate") (find_value attrs);
      certs ← cert_values tok session handles;
      Ok (der :: certs)
  end.

Definition cert_chain_in (tok : T) (label : string) (session : Session) : R Pkcs11Error (list bytes) :=
  let template := [OClass CERTIFICATE; OLabel (bstr label)] in
  handles ← map_err (fun e => KeyNotFound ("find_objects failed: " +:+ e)) (of_sum (find_objects tok session template));
  if bool_decide (handles = []) then Err (KeyNotFound ("no certificate found with label: " +:+ label))
  else cert_values tok session handles.

Definition cert_chain (self : Pkcs11TlsProvider T) (p : Pool) (g : nat) (label : string)
  : option (Pool * R Pkcs11Error (list bytes)) :=
  with_session p g (cert_chain_in (module self) label).

(** rustls accepts TLS 1.3 alone with a provider, or not. *)
Context {P : Type} (tls13_ok : P -> string + unit).

(** Two calls that each borrow a session, the second only if the first succeeded. *)
Definition chain_and_key (self : Pkcs11TlsProvider T) (p : Pool) (g : nat) (chain_label key_label : string)
  : option (Pool * R Pkcs11Error (list bytes * Pkcs11SigningKey)) :=
  '(p, r) ← cert_chain self p g chain_label;
  match r with
  | Ok chain =>
      '(p, r) ← signing_key self p g key_label;
      Some (p, key ← r; Ok (chain, key))
  | Err e => Some (p, Err e)
  | Panic => Some (p, Panic)
  end.

Definition hsm_config (provider : P) (resolver : Pkcs11ServerCertResolver Pkcs11SigningKey)
  : R Pkcs11Error (HsmServerConfig P) :=
  _ ← map_err Pkcs11Tls (of_sum (tls13_ok provider));
  Ok {| hsm_provider := provider; hsm_resolver := resolver |}.

Definition server_config (self : Pkcs11TlsProvider T) (p : Pool) (g : nat) (chain_label key_label : string)
  (provider : P) : option (Pool * R Pkcs11Error (HsmServerConfig P)) :=
  '(p, r) ← chain_and_key self p g chain_label key_label;
  Some (p, '(chain, key) ← r; let resolver := resolver_new chain key in hsm_config provider resolver).

(** The [for (hostname, (chain_label, key_label)) in sni_map] loop. *)
Fixpoint load_tenants (self : Pkcs11TlsProvider T) (p : Pool) (g : nat) (sni_map : list (bytes * (string * string)))
  : option (Pool * R Pkcs11Error (list (bytes * (list bytes * Pkcs11SigningKey)))) :=
  match sni_map with
  | [] => Some (p, Ok [])
  | (hostname, (chain_label, key_label)) :: sni_map =>
      '(p, r) ← chain_and_key self p g chain_label key_label;
      match r with
      | Ok chain_key =>
          '(p, r) ← load_tenants self p g sni_map;
          Some (p, rest ← r; Ok ((hostname, chain_key) :: rest))
      | Err e => Some (p, Err e)
      | Panic => Some (p, Panic)
      end
  end.

Definition server_config_sni (self : Pkcs11TlsProvider T) (p : Pool) (g : nat)
  (sni_map : list (bytes * (string * string))) (strict_sni : bool) (provider : P)
  : option (Pool * R Pkcs11Error (HsmServerConfig P)) :=
  '(p, r) ← load_tenants self p g sni_map;
  Some (p, resolver_map ← r;
           let resolver := SniResolver.with_strict_sni (with_sni_map resolver_map) strict_sni in
           hsm_config provider resolver).

(** The four variables the inner loop of [list_keys] assigns. *)
Record KeyAttrs := { ka_label : option bytes; ka_type : option KeyType; ka_id : bytes; ka_sign : bool }.

Definition key_attr_step (acc : KeyAttrs) (attr : ObjAttr) : KeyAttrs :=
  match attr with
  | OLabel v => {| ka_label := Some v; ka_type := ka_type acc; ka_id := ka_id acc; ka_sign := ka_sign acc |}
  | OKeyType kt => {| ka_label := ka_label acc; ka_type := Some kt; ka_id := ka_id acc; ka_sign := ka_sign acc |}
  | OId v => {| ka_label := ka_label acc; ka_type := ka_type acc; ka_id := v; ka_sign := ka_sign acc |}
  | OSign s => {| ka_label := ka_label acc; ka_type := ka_type acc; ka_id := ka_id acc; ka_sign := s |}
  | _ => acc
  end.

Definition key_info (attrs : list ObjAttr) : Pkcs11KeyInfo :=
  let a := foldl key_attr_step {| ka_label := None; ka_type := None; ka_id := []; ka_sign := false |} attrs in
  let label := default [] (from_utf8_lossy <$> ka_label a) in
  let key_type :=
    match ka_type a with
    | Some KtRSA => KeyRsa
    | Some KtEC => KeyEcdsaP256
    | Some (KtOther raw _) => if (raw =? EC_EDWARDS)%Z then KeyEd25519 else KeyOther raw
    | None => KeyOther 0xFFFFFFFF
    end in
  {| ki_label := label; ki_key_type := key_type; ki_id := ka_id a; ki_signing_capable := ka_sign a |}.

Fixpoint key_infos (tok : T) (session : Session) (handles : list ObjectHandle) : R Pkcs11Error (list Pkcs11KeyInfo) :=
  match handles with
  | [] => Ok []
  | handle :: handles =>
      attrs ← map_err (fun e => SessionError ("get_attributes failed: " +:+ e))
                (of_sum (get_attributes tok session handle [TLabel; TKeyType; TId; TSign]));
      keys ← key_infos tok session handles;
      Ok (key_info attrs :: keys)
  end.

Definition list_keys_in (tok : T) (label_filter : option string) (session : Session)
  : R Pkcs11Error (list Pkcs11KeyInfo) :=
  let template := [OClass PRIVATE_KEY] ++ match label_filter with Some label => [OLabel (bstr label)] | None => [] end in
  handles ← map_err (fun e => SessionError ("find_objects failed: " +:+ e)) (of_sum (find_objects tok session template));
  key_infos tok session handles.

Definition list_keys (self : Pkcs11TlsProvider T) (p : Pool) (g : nat) (label_filter : option string)
  : option (Pool * R Pkcs11Error (list Pkcs11KeyInfo)) :=
  with_session p g (list_keys_in (module self) label_filter).

Definition import_template (cert_der : bytes) (label : string) : list ObjAttr :=
  let id_bytes := take (Nat.min 20 (length cert_der)) cert_der in
  [OClass CERTIFICATE; OCertificateTypeX509; OToken true; OLabel (bstr label); OValue cert_der;
   OSubject id_bytes; OId id_bytes].

(** [import_cert] changes the token: its new state is part of the answer. *)
Definition import_cert (self : Pkcs11TlsProvider T) (p : Pool) (g : nat) (cert_der : bytes) (label : string)
  : option (Pool * R Pkcs11Error unit * T) :=
  match acquire p g with
  | None => None
  | Some (p, Err e) => Some (p, Err e, module self)
  | Some (p, Panic) => Some (p, Panic, module self)
  | Some (p, Ok session) =>
      let '(tok, r) := create_object (module self) session (import_template cert_der label) in
      p ← drop_guard p g;
      Some (p, match r with inl e => Err (pkcs11_from_cryptoki e) | inr _ => Ok tt end, tok)
  end.
End Provider.

(** ** What PKCS#11 says of sessions, logins and objects

    [token_view] is what an application has on a slot: its open sessions and whether
    its user is logged in.  The login belongs to the token, not to a session: a
    second one is refused while it lasts (CKR_USER_ALREADY_LOGGED_IN), and closing
    the last session ends it. *)
Class TokenLaws (T : Type) `{Token T} := {
  token_view : T -> Slot -> list Session * bool;
  open_view : forall tok slot,
    match open_ro_session tok slot with
    | (tok', inr s) => (s ∉ (token_view tok slot).1) /\
                       token_view tok' slot = (s :: (token_view tok slot).1, (token_view tok slot).2)
    | (tok', inl _) => token_view tok' slot = token_view tok slot
    end;
  login_view : forall tok slot s pin, (s ∈ (token_view tok slot).1) ->
    match login tok s pin with
    | (tok', inr _) => (token_view tok slot).2 = false /\ token_view tok' slot = ((token_view tok slot).1, true)
    | (tok', inl _) => token_view tok' slot = token_view tok slot
    end;
  close_view : forall tok slot s, s ∈ (token_view tok slot).1 ->
    let rest := filter (fun s' => s' <> s) (token_view tok slot).1 in
    token_view (close_session tok s) slot = (rest, bool_decide (rest <> []) && (token_view tok slot).2);
}.

Definition attr_type (a : ObjAttr) : option AttributeType :=
  match a with
  | OLabel _ => Some TLabel | OValue _ => Some TValue | OKeyType _ => Some TKeyType
  | OId _ => Some TId | OSign _ => Some TSign | _ => None
  end.

#[export] Instance AttributeType_eq_dec : EqDecision AttributeType.
Proof. solve_decision. Defined.

Definition attrs_of_types (types : list AttributeType) (attrs : list ObjAttr) : list ObjAttr :=
  filter (fun a => attr_type a ∈ Some <$> types) attrs.

(** The objects of a token, each with its attributes.  In a usable session a search
    finds those that have all attributes of the template, and a read returns the
    attributes asked for that the object has; a read-only session creates no token
    object (CKR_SESSION_READ_ONLY). *)
Class ObjectLaws (T : Type) `{TokenObjects T} := {
  objects : T -> list (ObjectHandle * list ObjAttr);
  usable : T -> Session -> Prop;
  read_only : T -> Session -> Prop;
  find_matching : forall tok s template, usable tok s ->
    find_objects tok s template = inr (fst <$> filter (fun o => Forall (fun a => a ∈ o.2) template) (objects tok));
  get_present : forall tok s h attrs types, usable tok s -> (h, attrs) ∈ objects tok ->
    get_attributes tok s h types = inr (attrs_of_types types attrs);
  create_read_only : forall tok s template, read_only tok s -> OToken true ∈ template ->
    exists rv, create_object tok s template = (tok, inl (CkPkcs11 rv));
}.

(** ** Properties *)

(** *** Logins *)

Lemma filter_not_elem (s : Session) (l : list Session) : s ∉ l -> filter (fun s' => s' <> s) l = l.
Proof.
  induction l as [|x l IH]; [done|]. intros [Hx Hl]%not_elem_of_cons. rewrite filter_cons_True by done.
  by rewrite IH.
Qed.

Section Logins.
Context {T : Type} `{TokenLaws T}.

Lemma open_sessions_login (tok tok' : T) slot pin cap acc ss :
  open_sessions tok slot pin (S cap) acc = (tok', Ok ss) ->
  (token_view tok slot).2 = false /\
  exists tok1 s, (token_view tok1 slot).2 = true /\ open_sessions tok1 slot pin cap (acc ++ [s]) = (tok', Ok ss).
Proof.
  cbn [open_sessions]. pose proof (open_view tok slot) as Ho.
  destruct (open_ro_session tok slot) as [tok1 [|s]]; [done|]. destruct Ho as [_ Ho].
  pose proof (login_view tok1 slot s pin) as Hl. rewrite Ho in Hl. cbn [fst snd] in Hl.
  destruct (login tok1 s pin) as [tok2 [|]]; [done|]. destruct Hl as [Hf Hv]; [by left|].
  intros Hok. split; [done|]. exists tok2, s. by rewrite Hv.
Qed.

(** A pool of two or more sessions is never made: the second session's login is
    refused, because the first has logged the application in. *)
Lemma pool_of_one (tok tok' : T) slot pin cap p : pool_new tok slot pin cap = (tok', Ok p) -> cap <= 1.
Proof.
  unfold pool_new. destruct (open_sessions tok slot pin cap []) as [t [ss| |]] eqn:Ho; try done. intros _.
  destruct cap as [|[|cap]]; [lia..|]. exfalso.
  apply open_sessions_login in Ho as (_ & tok1 & s & Ht & (Hf & _)%open_sessions_login). congruence.
Qed.

Lemma open_sessions_no_panic (tok : T) slot pin cap acc : (open_sessions tok slot pin cap acc).2 <> Panic.
Proof.
  revert tok acc. induction cap as [|cap IH]; intros tok acc; [done|]. cbn [open_sessions].
  destruct (open_ro_session tok slot) as [tok1 [|s]]; [done|]. destruct (login tok1 s pin) as [tok2 [|]]; [done|].
  apply IH.
Qed.

Lemma open_user_view (tok : T) slot pin :
  match open_user_session tok slot pin with
  | (tok', Ok s) => (s ∉ (token_view tok slot).1) /\ (token_view tok slot).2 = false /\
                    token_view tok' slot = (s :: (token_view tok slot).1, true)
  | (tok', Err e) => ((token_view tok slot).2 = false -> token_view tok' slot = token_view tok slot) /\
                     exists m, e = SignSessionError m
  | (_, Panic) => False
  end.
Proof.
  unfold open_user_session. pose proof (open_view tok slot) as Ho.
  destruct (open_ro_session tok slot) as [tok1 [|s]]; [rewrite Ho; eauto|]. destruct Ho as [Hs Ho].
  destruct (token_view tok slot) as [l b]. cbn [fst snd] in *.
  pose proof (login_view tok1 slot s pin) as Hl. rewrite Ho in Hl. cbn [fst snd] in Hl.
  destruct (login tok1 s pin) as [tok2 [|]]; [|by destruct Hl as [Hf Hv]; [left|]].
  specialize (Hl ltac:(by left)).
  pose proof (close_view tok2 slot s) as Hc. rewrite Hl in Hc. rewrite Hc by (by left). cbn [fst snd].
  split; [|eauto]. intros ->. rewrite filter_cons_False by naive_solver. rewrite andb_false_r. f_equal.
  by apply filter_not_elem.
Qed.

(** Signatures of direct signers, one after the other. *)
Definition direct_signs {O : TokenObjects T} (tok : T) (calls : list (Pkcs11Signer * bytes)) : T :=
  foldl (fun tok '(signer, msg) => (direct_sign tok signer msg).1) tok calls.

Lemma direct_sign_clean {O : TokenObjects T} (tok : T) signer msg :
  token_view tok (ds_slot signer) = ([], false) ->
  token_view (direct_sign tok signer msg).1 (ds_slot signer) = ([], false).
Proof.
  intros Hv. unfold direct_sign, sign_with_pkcs11.
  pose proof (open_user_view tok (ds_slot signer) (ds_pin signer)) as Ho. rewrite Hv in Ho.
  destruct (open_user_session tok _ _) as [tok1 [s|e|]]; [|cbn; by apply Ho|done].
  destruct Ho as (_ & _ & Ho). cbn [fst snd].
  pose proof (close_view tok1 (ds_slot signer) s) as Hc. rewrite Ho in Hc. cbn in Hc.
  rewrite Hc by (by left). rewrite decide_False by naive_solver. done.
Qed.

(** C31: Direct signers.  On a token the application has no session with, every
    signature, successful or not, closes what it opened and ends its login, so any
    number of signatures in turn find the token as the first did.  But while
    another session is logged in (a pool's, or a signature in progress on another
    thread), a direct signer is refused. *)
Theorem direct_signing {O : TokenObjects T} (tok : T) :
  (forall slot calls, Forall (fun c => ds_slot c.1 = slot) calls -> token_view tok slot = ([], false) ->
     token_view (direct_signs tok calls) slot = ([], false)) /\
  (forall signer msg, (token_view tok (ds_slot signer)).2 = true ->
     exists m, (direct_sign tok signer msg).2 = Err (General (sign_error_display (SignSessionError m)))).
Proof.
  split.
  - intros slot calls Hs. revert tok. induction Hs as [|[signer msg] calls Hs _ IH]; intros tok Hv; [done|].
    cbn in Hs. subst slot. apply IH. by apply direct_sign_clean.
  - intros signer msg Hv. unfold direct_sign, sign_with_pkcs11.
    pose proof (open_user_view tok (ds_slot signer) (ds_pin signer)) as Ho.
    destruct (open_user_session tok _ _) as [tok1 [s|e|]]; [|by destruct Ho as [_ [m ->]]; exists m|done].
    destruct Ho as (_ & Hf & _). congruence.
Qed.

(** C32: [Pkcs11TlsProvider::new] always fails on a token that keeps to the standard:
    it opens four sessions and logs in on each of them, and no login after the first
    can succeed. *)
Theorem provider_never_opens {O : TokenObjects T} module_path slot_index pin :
  exists e, provider_new (T:=T) module_path slot_index pin = Err e.
Proof.
  unfold provider_new. destruct (pkcs11_new module_path) as [e|tok]; cbn; [eauto|].
  destruct (initialize tok) as [tok1 [e|[]]]; [eauto|].
  destruct (slot_try_from slot_index) as [e|slot]; cbn; [eauto|].
  destruct (pool_new tok1 slot pin 4) as [tok2 [p|e|]] eqn:Hp; [|eauto|].
  - apply pool_of_one in Hp. lia.
  - unfold pool_new in Hp. destruct (open_sessions tok1 slot pin 4 []) as [t [ss| |]] eqn:Ho; try done.
    by destruct (open_sessions_no_panic tok1 slot pin 4 []); rewrite Ho.
Qed.
End Logins.

(** *** Sessions are returned *)

(** What an uninterrupted call leaves: a reachable pool, restored; either no session
    was free, or [P] holds of the answer with a session of the pool. *)
Definition borrowed {A} (ss : list Session) (p : Pool) (P : Session -> R Pkcs11Error A -> Prop)
  (out : option (Pool * R Pkcs11Error A)) : Prop :=
  exists p' r, out = Some (p', r) /\ rtc pool_step (pool_of ss (length ss)) p' /\ pool_restored p p' /\
    ((size (guards p) = length ss /\ r = Err SessionPoolExhausted) \/ exists s, s ∈ sessions p /\ P s r).

Lemma acquire_drop_reachable p g p1 s p2 :
  acquire p g = Some (p1, Ok s) -> drop_guard p1 g = Some p2 -> rtc pool_step p p2.
Proof.
  unfold acquire, drop_guard. destruct (try_acquire_permit p g) as [[p0| |]|] eqn:Ht; try done.
  intros Hp (p1' & Hpush & Hrel)%bind_Some.
  eapply rtc_l; [by eapply step_try|]. eapply rtc_l; [by eapply step_pop|].
  eapply rtc_l; [by eapply step_push|]. by apply rtc_once, (step_release _ g).
Qed.

Lemma with_session_borrowed {A} ss p g (f : Session -> R Pkcs11Error A) :
  rtc pool_step (pool_of ss (length ss)) p -> guards p !! g = None ->
  borrowed ss p (fun s r => r = f s) (with_session p g f).
Proof.
  intros Hr Hg. unfold with_session.
  destruct (pool_calls ss p g Hr Hg) as [[Hsz Ha]|(Hsz & p' & s & rest & Ha & Hs & Hd)]; rewrite Ha.
  - exists p, (Err SessionPoolExhausted). split_and!; try done. by left.
  - rewrite Hd. cbn [mbind option_bind]. eexists _, _. split; [done|]. split; [|split].
    + etrans; [exact Hr|]. by eapply acquire_drop_reachable.
    + split_and!; [done..|]. cbn. rewrite Hs. by rewrite <- Permutation_cons_append.
    + right. exists s. split; [rewrite Hs; by left|done].
Qed.

Lemma pool_restored_trans p1 p2 p3 : pool_restored p1 p2 -> pool_restored p2 p3 -> pool_restored p1 p3.
Proof.
  intros (Hg1 & Hp1 & Hs1) (Hg2 & Hp2 & Hs2). split_and!; [congruence..|]. by rewrite Hs2.
Qed.

Section Calls.
Context {T : Type} `{TokenObjects T}.

(** What [Pkcs11SigningKey::new] computes with its session. *)
Definition key_in (tok : T) (label : string) (session : Session) : R Pkcs11Error Pkcs11SigningKey :=
  algorithm ← (handle ← map_err pkcs11_from_sign_error (@find_private_key_by_label (signing_token tok) session label);
               kt ← map_err pkcs11_from_sign_error (@probe_key_type (signing_token tok) session handle);
               map_err (fun e => Pkcs11Other ("unsupported key type: " +:+ sign_error_display e)) (key_type_to_algorithm kt));
  Ok {| sk_backend := PoolBackend; sk_label := label; sk_algorithm := algorithm |}.

Lemma key_new_with_session (tok : T) p g label : key_new tok p g label = with_session p g (key_in tok label).
Proof.
  unfold key_new, signing_key_new, with_session, key_in.
  destruct (acquire p g) as [[p1 [s|e|]]|]; cbn; try done. by destruct (drop_guard p1 g).
Qed.

Context (self : Pkcs11TlsProvider T) (ss : list Session) (g : nat).
Abbreviation tok := (module self).

Lemma chain_and_key_calls p cl kl :
  rtc pool_step (pool_of ss (length ss)) p -> guards p !! g = None ->
  exists p' r, chain_and_key self p g cl kl = Some (p', r) /\
    rtc pool_step (pool_of ss (length ss)) p' /\ pool_restored p p' /\
    forall chain key, r = Ok (chain, key) -> exists s s', s ∈ sessions p /\ s' ∈ sessions p /\
      cert_chain_in tok cl s = Ok chain /\ key_in tok kl s' = Ok key.
Proof.
  intros Hr Hg. unfold chain_and_key, cert_chain, signing_key.
  destruct (with_session_borrowed ss p g (cert_chain_in tok cl) Hr Hg) as (p1 & r1 & -> & Hr1 & Hp1 & Hc).
  cbn [mbind option_bind]. destruct r1 as [chain|e|]; [|eexists _, _; split_and!; done..].
  destruct Hc as [[_ Hc]|(s & Hs & Hc)]; [done|]. rewrite key_new_with_session.
  assert (guards p1 !! g = None) as Hg1 by (destruct Hp1 as (-> & _); done).
  destruct (with_session_borrowed ss p1 g (key_in tok kl) Hr1 Hg1) as (p2 & r2 & -> & Hr2 & Hp2 & Hk).
  cbn [mbind option_bind]. eexists _, _. split; [done|]. split; [done|].
  split; [by eapply pool_restored_trans|]. intros chain' key (k & -> & [= <- <-])%bind_Ok.
  destruct Hk as [[_ Hk]|(s' & Hs' & Hk)]; [done|]. exists s, s'. split_and!; [done| |done|done].
  destruct Hp1 as (_ & _ & Hp1). by rewrite <- Hp1.
Qed.

Lemma load_tenants_calls p sni_map :
  rtc pool_step (pool_of ss (length ss)) p -> guards p !! g = None ->
  exists p' r, load_tenants self p g sni_map = Some (p', r) /\
    rtc pool_step (pool_of ss (length ss)) p' /\ pool_restored p p' /\
    forall l, r = Ok l -> Forall2 (fun '(h, (cl, kl)) '(h', (chain, key)) => h' = h /\
      exists s s', s ∈ sessions p /\ s' ∈ sessions p /\
        cert_chain_in tok cl s = Ok chain /\ key_in tok kl s' = Ok key) sni_map l.
Proof.
  revert p. induction sni_map as [|[h [cl kl]] sni_map IH]; intros p Hr Hg; cbn [load_tenants].
  { eexists _, _. split_and!; [done|done|done|]. intros l [= <-]. constructor. }
  destruct (chain_and_key_calls p cl kl Hr Hg) as (p1 & r1 & -> & Hr1 & Hp1 & Hck). cbn [mbind option_bind].
  destruct r1 as [[chain key]|e|]; [|eexists _, _; split_and!; done..].
  assert (guards p1 !! g = None) as Hg1 by (destruct Hp1 as (-> & _); done).
  destruct (IH p1 Hr1 Hg1) as (p2 & r2 & -> & Hr2 & Hp2 & Hrest). cbn [mbind option_bind].
  eexists _, _. split; [done|]. split; [done|]. split; [by eapply pool_restored_trans|].
  intros l (rest & -> & [= <-])%bind_Ok. constructor; [split; [done|]; by apply Hck|].
  eapply Forall2_impl; [by apply Hrest|]. intros [h' [cl' kl']] [h'' [chain' key']] [-> (s & s' & Hs & Hs' & Hc & Hk)].
  split; [done|]. exists s, s'. destruct Hp1 as (_ & _ & Hp1). by rewrite <- Hp1.
Qed.
End Calls.

(** *** What the calls return *)

Section Objects.
Context {T : Type} `{ObjectLaws T}.

(** The objects of a class with a label, in the order of the token. *)
Definition labelled (tok : T) (c : ObjectClass) (label : string) : list (ObjectHandle * list ObjAttr) :=
  filter (fun o => Forall (fun a => a ∈ o.2) [OClass c; OLabel (bstr label)]) (objects tok).

Definition key_type_of (attrs : list ObjAttr) : option KeyType :=
  head (omap (fun a => match a with OKeyType kt => Some kt | _ => None end) attrs).

Lemma find_value_present attrs : find_value (attrs_of_types [TValue] attrs) = find_value attrs.
Proof.
  unfold find_value, attrs_of_types. induction attrs as [|a attrs IH]; [done|].
  destruct a; cbn [attr_type] in *; rewrite ?filter_cons_True by (set_solver); rewrite ?filter_cons_False by (set_solver); done.
Qed.

Lemma objects_filter tok (P : ObjectHandle * list ObjAttr -> Prop) `{!forall o, Decision (P o)} o :
  o ∈ filter P (objects tok) -> (o.1, o.2) ∈ objects tok.
Proof. intros [_ Ho]%list_elem_of_filter. by destruct o. Qed.

Lemma cert_values_exact tok s (l : list (ObjectHandle * list ObjAttr)) chain :
  usable tok s -> (forall o, o ∈ l -> (o.1, o.2) ∈ objects tok) ->
  cert_values tok s (fst <$> l) = Ok chain <-> Forall2 (fun o der => find_value o.2 = Some der) l chain.
Proof.
  intros Hu. revert chain. induction l as [|o l IH]; intros chain Hl; cbn [fmap list_fmap cert_values].
  { split; [intros [= <-]; constructor|intros ->%Forall2_nil_inv_l; done]. }
  rewrite (get_present tok s o.1 o.2) by (try done; apply Hl; by left). cbn [of_sum map_err mbind R_bind].
  rewrite find_value_present. destruct (find_value o.2) as [der|] eqn:Hd; cbn [ok_or mbind R_bind]; split.
  - intros (certs & Hc & [= <-])%bind_Ok. constructor; [done|]. apply IH; [set_solver|done].
  - intros (der' & certs & Hd' & Hc & ->)%Forall2_cons_inv_l. rewrite Hd in Hd'. injection Hd' as <-.
    apply bind_Ok. exists certs. split; [|done]. apply IH; [set_solver|done].
  - done.
  - intros (der' & certs & Hd' & _)%Forall2_cons_inv_l. congruence.
Qed.

(** The chain under a label: the value of every certificate that has it, in the
    order of the token, and at least one. *)
Lemma cert_chain_exact tok s label chain :
  usable tok s ->
  cert_chain_in tok label s = Ok chain <->
  chain <> [] /\ Forall2 (fun o der => find_value o.2 = Some der) (labelled tok CERTIFICATE label) chain.
Proof.
  intros Hu. unfold cert_chain_in. rewrite find_matching by done. cbn [of_sum map_err mbind R_bind].
  fold (labelled tok CERTIFICATE label). case_bool_decide as He.
  - apply fmap_nil_inv in He. rewrite He. split; [done|]. by intros [Hn ->%Forall2_nil_inv_l].
  - rewrite cert_values_exact by (done || intros o; apply objects_filter). split; [|tauto].
    intros Hf. split; [|done]. intros ->. apply Forall2_nil_inv_r in Hf. by rewrite Hf in He.
Qed.

Lemma first_key_type_of attrs :
  first_key_type ((fun a => match a with OKeyType kt => AttrKeyType kt | _ => AttrOther end) <$> attrs_of_types [TKeyType] attrs)
  = ok_or (SignSessionError "CKA_KEY_TYPE attribute not found on private key") (key_type_of attrs).
Proof.
  unfold key_type_of, attrs_of_types. induction attrs as [|a attrs IH]; [done|].
  destruct a; cbn [attr_type] in *; rewrite ?filter_cons_True by (set_solver); rewrite ?filter_cons_False by (set_solver); done.
Qed.

(** The key under a label: the first private key that has it, if it is an EC or an
    RSA key. *)
Lemma key_in_exact tok s label key :
  usable tok s ->
  key_in tok label s = Ok key <->
  exists o rest kt, labelled tok PRIVATE_KEY label = o :: rest /\ key_type_of o.2 = Some kt /\
    key_type_to_algorithm kt = Ok (sk_algorithm key) /\ sk_label key = label /\ sk_backend key = PoolBackend.
Proof.
  intros Hu. unfold key_in, find_private_key_by_label, probe_key_type. cbn [find_private_keys key_type_attributes signing_token].
  rewrite find_matching by done. cbn [of_sum map_err mbind R_bind]. fold (labelled tok PRIVATE_KEY label).
  destruct (labelled tok PRIVATE_KEY label) as [|o rest] eqn:Hl.
  { cbn. split; [done|]. intros (? & ? & ? & ? & _). done. }
  cbn [fmap list_fmap head ok_or map_err mbind R_bind].
  rewrite (get_present tok s o.1 o.2) by (try done; eapply objects_filter; unfold labelled in Hl; rewrite Hl; by left).
  cbn [of_sum map_err mbind R_bind]. rewrite first_key_type_of.
  destruct (key_type_of o.2) as [kt|] eqn:Hk; cbn [ok_or map_err mbind R_bind].
  - split.
    + intros (alg & Ha%map_err_Ok & [= <-])%bind_Ok. by exists o, rest, kt.
    + intros (o' & rest' & kt' & [= <- <-] & Hk' & Ha & Hlab & Hb). rewrite Hk in Hk'. injection Hk' as <-.
      rewrite Ha. destruct key; cbn in *. by subst.
  - split; [done|]. intros (o' & rest' & kt' & [= <- <-] & Hk' & _). congruence.
Qed.

Lemma key_infos_exact tok s (l : list (ObjectHandle * list ObjAttr)) :
  usable tok s -> (forall o, o ∈ l -> (o.1, o.2) ∈ objects tok) ->
  key_infos tok s (fst <$> l) = Ok ((fun o => key_info (attrs_of_types [TLabel; TKeyType; TId; TSign] o.2)) <$> l).
Proof.
  intros Hu. induction l as [|o l IH]; intros Hl; [done|]. cbn [fmap list_fmap key_infos].
  rewrite (get_present tok s o.1 o.2) by (try done; apply Hl; by left). cbn [of_sum map_err mbind R_bind].
  rewrite IH by set_solver. done.
Qed.
End Objects.

Lemma btree_get_elem {V} (m : list (bytes * V)) k v : NoDup (fst <$> m) -> (k, v) ∈ m -> btree_get m k = Some v.
Proof.
  induction m as [|[k' v'] m IH]; cbn; [by intros _ ?%not_elem_of_nil|].
  intros [Hk Hn]%NoDup_cons. intros [[= -> ->]|Hin]%elem_of_cons; [by rewrite bool_decide_eq_true_2|].
  rewrite bool_decide_eq_false_2; [by apply IH|]. intros ->. apply Hk. by apply (list_elem_of_fmap_2 fst _ (k, v)).
Qed.

Lemma wildcard_loop_In {V} (m : list (bytes * V)) name v :
  wildcard_loop m name = Some v -> exists k, (k, v) ∈ m /\ wildcard_matches k name = true.
Proof.
  induction m as [|[k' v'] m IH]; cbn; [done|]. destruct (wildcard_matches k' name) eqn:Hw.
  - intros [= ->]. exists k'. split; [by left|done].
  - intros (k & Hk & Hm)%IH. exists k. split; [by right|done].
Qed.

Section Servers.
Context {T : Type} `{ObjectLaws T} {P : Type} (tls13_ok : P -> string + unit).
Context (self : Pkcs11TlsProvider T) (ss : list Session) (p : Pool) (g : nat).
Hypotheses (Hreach : rtc pool_step (pool_of ss (length ss)) p) (Hfree : guards p !! g = None).

Abbreviation tok := (module self).

(** What a tenant's labels denote on the token. *)
Definition tenant_credentials (cl kl : string) (ck : SniResolver.CertifiedKey Pkcs11SigningKey) : Prop :=
  SniResolver.cert ck <> [] /\
  Forall2 (fun o der => find_value o.2 = Some der) (labelled tok CERTIFICATE cl) (SniResolver.cert ck) /\
  sk_label (SniResolver.key ck) = kl /\ sk_backend (SniResolver.key ck) = PoolBackend /\
  exists o rest kt, labelled tok PRIVATE_KEY kl = o :: rest /\ key_type_of o.2 = Some kt /\
    key_type_to_algorithm kt = Ok (sk_algorithm (SniResolver.key ck)).

Lemma tenant_of_calls cl kl chain key :
  Forall (usable tok) (sessions p) ->
  (exists s s', s ∈ sessions p /\ s' ∈ sessions p /\ cert_chain_in tok cl s = Ok chain /\ key_in tok kl s' = Ok key) ->
  tenant_credentials cl kl {| SniResolver.cert := chain; SniResolver.key := key |}.
Proof.
  intros Hu (s & s' & Hs & Hs' & Hc & Hk). rewrite Forall_forall in Hu.
  apply cert_chain_exact in Hc as [Hne Hf]; [|by apply Hu].
  apply key_in_exact in Hk as (o & rest & kt & Ho & Hkt & Ha & Hl & Hb); [|by apply Hu].
  split_and!; try done. by exists o, rest, kt.
Qed.

(** C30: A server configured with tenants answers each configured name with the
    certificates its chain label denotes on the token and the key its key label
    denotes; a name that is not configured gets a certificate only through a
    configured wildcard that covers it; a client without a name gets none.  The
    sessions are back in the pool. *)
Theorem hsm_tenants_resolve sni_map strict provider p' cfg :
  Forall (usable tok) (sessions p) -> NoDup (fst <$> sni_map) ->
  server_config_sni tls13_ok self p g sni_map strict provider = Some (p', Ok cfg) ->
  pool_restored p p' /\
  (forall h cl kl, (h, (cl, kl)) ∈ sni_map ->
     exists ck, sni_lookup (hsm_resolver cfg) (Some h) = Some ck /\ tenant_credentials cl kl ck) /\
  (forall name ck, sni_lookup (hsm_resolver cfg) (Some name) = Some ck ->
     exists h cl kl, (h, (cl, kl)) ∈ sni_map /\ tenant_credentials cl kl ck /\
       (h = name \/ wildcard_matches h name = true)) /\
  sni_lookup (hsm_resolver cfg) None = None.
Proof.
  intros Hu Hn Hs. unfold server_config_sni in Hs.
  destruct (load_tenants_calls self ss g p sni_map Hreach Hfree) as (p1 & r & Hl & _ & Hp & Hrest).
  rewrite Hl in Hs. cbn [mbind option_bind] in Hs. injection Hs as -> Hcfg.
  apply bind_Ok in Hcfg as (l & -> & Hcfg). apply bind_Ok in Hcfg as (_ & _ & [= <-]).
  specialize (Hrest l eq_refl). cbn [hsm_resolver].
  set (entry := fun x : bytes * (list bytes * Pkcs11SigningKey) =>
    let '(h, (chain, key)) := x in (h, {| SniResolver.cert := chain; SniResolver.key := key |})).
  assert (fst <$> (entry <$> l) = fst <$> sni_map) as Hkeys.
  { clear -Hrest. induction Hrest as [|[h [cl kl]] [h' [chain key]] ? ? [-> _] _ IH]; [done|]. cbn in *. by f_equal. }
  assert (forall h ck, (h, ck) ∈ entry <$> l -> exists cl kl, (h, (cl, kl)) ∈ sni_map /\ tenant_credentials cl kl ck) as Hback.
  { intros h ck ([h' [chain key]] & [= -> ->] & Hin)%list_elem_of_fmap.
    destruct (proj1 (list_elem_of_lookup _ _) Hin) as [i Hi].
    destruct (Forall2_lookup_r _ _ _ _ _ Hrest Hi) as ([h2 [cl kl]] & Hi' & <- & Hck). exists cl, kl.
    split; [by eapply list_elem_of_lookup_2|by apply tenant_of_calls]. }
  split; [done|]. split; [|split; [|by destruct strict]].
  - intros h cl kl (i & Hi)%list_elem_of_lookup.
    destruct (Forall2_lookup_l _ _ _ _ _ Hrest Hi) as ([h2 [chain key]] & Hi' & -> & Hck).
    eexists. split; [|by apply tenant_of_calls].
    match goal with |- _ = ?rhs => change (match_sni (entry <$> l) h strict None = rhs) end. unfold match_sni.
    erewrite btree_get_elem; [done|by rewrite Hkeys|].
    apply list_elem_of_fmap. exists (h, (chain, key)). split; [done|by eapply list_elem_of_lookup_2].
  - intros name ck Hck. change (match_sni (entry <$> l) name strict None = Some ck) in Hck. revert Hck.
    unfold match_sni. destruct (btree_get (entry <$> l) name) as [v|] eqn:Hg.
    + intros [= ->]. apply btree_get_Some, Hback in Hg as (cl & kl & Hin & Ht). eauto 10.
    + destruct (wildcard_loop (entry <$> l) name) as [v|] eqn:Hw; [|by destruct strict].
      intros [= ->]. apply wildcard_loop_In in Hw as (h & Hin & Hm). apply Hback in Hin as (cl & kl & Hin & Ht). eauto 10.
Qed.
End Servers.

Section ProviderCalls.
Context {T : Type} `{ObjectLaws T} {P : Type} (tls13_ok : P -> string + unit).
Context (self : Pkcs11TlsProvider T) (ss : list Session) (p : Pool) (g : nat).
Hypotheses (Hreach : rtc pool_step (pool_of ss (length ss)) p) (Hfree : guards p !! g = None).

Abbreviation tok := (module self).

(** A call that returns, restores the pool and leaves it in a reachable state. *)
Definition restores {A} (out : option (Pool * A)) : Prop :=
  exists p' r, out = Some (p', r) /\ pool_restored p p' /\ rtc pool_step (pool_of ss (length ss)) p'.

Lemma borrowed_restores {A} Q (out : option (Pool * R Pkcs11Error A)) : borrowed ss p Q out -> restores out.
Proof. intros (p' & r & -> & Hr & Hp & _). by exists p', r. Qed.

(** Every call of the provider borrows its sessions one at a time and gives them
    back on every way out, also when it fails or finds no session free. *)
Lemma provider_calls_restore label key_label filter sni_map strict provider :
  restores (cert_chain self p g label) /\ restores (signing_key self p g key_label) /\
  restores (list_keys self p g filter) /\
  restores (server_config tls13_ok self p g label key_label provider) /\
  restores (server_config_sni tls13_ok self p g sni_map strict provider).
Proof.
  split_and!.
  - eapply borrowed_restores, with_session_borrowed; done.
  - unfold signing_key. rewrite key_new_with_session. eapply borrowed_restores, with_session_borrowed; done.
  - eapply borrowed_restores, with_session_borrowed; done.
  - unfold server_config.
    destruct (chain_and_key_calls self ss g p label key_label Hreach Hfree) as (p' & r & -> & Hr & Hp & _). cbn.
    eexists _, _. done.
  - unfold server_config_sni.
    destruct (load_tenants_calls self ss g p sni_map Hreach Hfree) as (p' & r & -> & Hr & Hp & _). cbn.
    eexists _, _. done.
Qed.

(** [import_cert] cannot succeed: the pool's sessions are read-only, and the object
    it creates is a token object.  The answer is the token's error, the token is
    unchanged, and the session is returned. *)
Theorem import_cert_refused cert_der label :
  Forall (read_only tok) (sessions p) -> size (guards p) < length ss ->
  exists p' code msg, import_cert self p g cert_der label = Some (p', Err (HsmError code msg), tok) /\ pool_restored p p'.
Proof.
  intros Hro Hlt. unfold import_cert.
  destruct (pool_calls ss p g Hreach Hfree) as [[Hsz _]|(_ & p' & s & rest & Ha & Hs & Hd)]; [lia|]. rewrite Ha.
  rewrite Hs in Hro. apply Forall_cons in Hro as [Hro _].
  destruct (create_read_only tok s (import_template cert_der label) Hro) as [rv ->]; [do 2 right; by left|].
  rewrite Hd. cbn. eexists _, _, _. split; [done|]. split_and!; [done..|]. cbn. rewrite Hs.
  by rewrite <- Permutation_cons_append.
Qed.

(** [list_keys] describes every private key with the label, or every one, in the
    order of the token.  A key of type EC is always reported as P-256. *)
Theorem list_keys_exact label_filter :
  Forall (usable tok) (sessions p) -> size (guards p) < length ss ->
  let wanted := [OClass PRIVATE_KEY] ++ match label_filter with Some label => [OLabel (bstr label)] | None => [] end in
  let found := filter (fun o => Forall (fun a => a ∈ o.2) wanted) (objects tok) in
  exists p', pool_restored p p' /\
    list_keys self p g label_filter
    = Some (p', Ok ((fun o => key_info (attrs_of_types [TLabel; TKeyType; TId; TSign] o.2)) <$> found)).
Proof.
  intros Hu Hlt. cbv zeta.
  destruct (with_session_borrowed ss p g (list_keys_in tok label_filter) Hreach Hfree) as (p' & r & Hl & _ & Hp & Hc).
  exists p'. split; [done|]. unfold list_keys. rewrite Hl. destruct Hc as [[Hsz _]|(s & Hs & ->)]; [lia|].
  rewrite Forall_forall in Hu. unfold list_keys_in. rewrite find_matching by auto. cbn [of_sum map_err mbind R_bind].
  rewrite key_infos_exact by (auto || intros o; apply objects_filter). done.
Qed.
End ProviderCalls.

(** *** Errors and labels *)

(** The table of return values: every listed name gives its own code, different
    names different codes, and any other name gives the reserved code, which no
    listed name has. *)
Lemma rv_codes :
  (forall name code, (name, code) ∈ rv_table -> rv_error_to_code name = code /\ (0 < code < RV_UNKNOWN)%Z) /\
  (forall name, name ∉ fst <$> rv_table -> rv_error_to_code name = RV_UNKNOWN) /\
  NoDup (snd <$> rv_table).
Proof.
  split_and!.
  - enough (Forall (fun x => rv_error_to_code x.1 = x.2 /\ (0 < x.2 < RV_UNKNOWN)%Z) rv_table) as Ht.
    { intros name code Hin. by apply (proj1 (Forall_forall _ _) Ht (name, code)). }
    unfold rv_table. repeat (apply Forall_cons; split; [vm_compute; by repeat split|]). constructor.
  - intros name. unfold rv_error_to_code. generalize rv_table. intros l. induction l as [|[n c] l IH]; [done|].
    cbn. intros [Hn Hl]%not_elem_of_cons. destruct (String.eqb_spec name n); [done|auto].
  - apply (bool_decide_unpack _). vm_compute. exact I.
Qed.

Lemma utf8_chunk_valid b0 rest :
  utf8_valid (b0 :: rest) = true ->
  exists n, utf8_chunk b0 rest = (true, S n) /\ n <= length rest /\ utf8_valid (drop n rest) = true.
Proof.
  cbn [utf8_valid]. unfold utf8_chunk, utf8_cont. destruct (val b0 <? 0x80)%Z eqn:H0.
  { intros Hv. exists 0. split_and!; [done|lia|done]. }
  destruct rest as [|b1 rest]; [done|]. destruct (between 0xC2 0xDF b0).
  { intros [Hb Hv]%andb_prop. exists 1. rewrite Hb. cbn. split_and!; [done|lia|done]. }
  destruct rest as [|b2 rest]; [done|]. destruct (between 0xE0 0xEF b0).
  { intros [[H1 H2]%andb_prop Hv]%andb_prop. exists 2. rewrite H1, H2. cbn. split_and!; [done|lia|done]. }
  destruct rest as [|b3 rest]; [done|].
  intros [[[[Hb H1]%andb_prop H2]%andb_prop H3]%andb_prop Hv]%andb_prop. rewrite Hb, H1, H2, H3.
  exists 3. cbn. split_and!; [done|lia|done].
Qed.

(** A label that is UTF-8 is reported as it is. *)
Lemma from_utf8_lossy_valid l : utf8_valid l = true -> from_utf8_lossy l = l.
Proof.
  unfold from_utf8_lossy. assert (forall n l, length l <= n -> utf8_valid l = true -> utf8_lossy_loop n l = l) as Hgen.
  { intros n. induction n as [|n IH]; intros [|b0 rest] Hlen Hv; try done; [cbn in Hlen; lia|].
    cbn [utf8_lossy_loop]. destruct (utf8_chunk_valid b0 rest Hv) as (k & -> & Hk & Hv'). cbn [drop take].
    rewrite IH; [|rewrite length_drop; cbn in Hlen; lia|done]. cbn. by rewrite take_drop. }
  by apply Hgen.
Qed.

(** ** Witnesses *)

Module Pkcs11ProviderWitness.

(** A token with one slot, the PIN 1234 and some objects. *)
Record Soft := { opened : list Session; logged : bool; objs : list (list ObjAttr) }.

Definition next_session (l : list Session) : Session := Pos.succ (foldr Pos.max 1%positive l).

Lemma next_session_fresh l : next_session l ∉ l.
Proof.
  assert (forall s, s ∈ l -> (s <= foldr Pos.max 1 l)%positive) as Hle.
  { induction l as [|x l IH]; [by intros s ?%not_elem_of_nil|]. cbn. intros s [->|Hs%IH]%elem_of_cons; lia. }
  unfold next_session. intros Hin%Hle. lia.
Qed.

#[local] Instance soft_token : Token Soft := {
  open_ro_session t _ :=
    let s := next_session (opened t) in ({| opened := s :: opened t; logged := logged t; objs := objs t |}, inr s);
  login t _ pin :=
    if logged t then (t, inl "CKR_USER_ALREADY_LOGGED_IN")
    else if String.eqb pin "1234" then ({| opened := opened t; logged := true; objs := objs t |}, inr tt)
    else (t, inl "CKR_PIN_INCORRECT");
  close_session t s :=
    let rest := filter (fun s' => s' <> s) (opened t) in
    {| opened := rest; logged := bool_decide (rest <> []) && logged t; objs := objs t |};
}.

#[local] Instance soft_laws : TokenLaws Soft.
Proof.
  apply (Build_TokenLaws _ soft_token (fun t _ => (opened t, logged t))).
  - intros t slot. cbn. split; [apply next_session_fresh|done].
  - intros [o [] l] slot s pin _; cbn; [done|]. by destruct (String.eqb pin "1234").
  - done.
Defined.

Definition handles_of (t : Soft) : list (ObjectHandle * list ObjAttr) :=
  imap (fun i a => (Pos.of_succ_nat i, a)) (objs t).

#[local] Instance soft_objects : TokenObjects Soft := {
  pkcs11_new path := inr {| opened := []; logged := false; objs := [] |};
  initialize t := (t, inr tt);
  slot_try_from i := inr i;
  find_objects t _ template := inr (fst <$> filter (fun o => Forall (fun a => a ∈ o.2) template) (handles_of t));
  get_attributes t _ h types :=
    match objs t !! Nat.pred (Pos.to_nat h) with Some attrs => inr (attrs_of_types types attrs) | None => inl "CKR_OBJECT_HANDLE_INVALID" end;
  object_sign _ _ _ _ _ := inr (replicate 64 Byte.x01);
  create_object t _ _ := (t, inl (CkPkcs11 "CKR_SESSION_READ_ONLY"));
}.

#[local] Instance soft_object_laws : ObjectLaws Soft.
Proof.
  apply (Build_ObjectLaws _ _ soft_objects handles_of (fun _ _ => True) (fun _ _ => True)).
  - done.
  - intros t s h attrs types _ (i & y & [= -> ->] & Hi)%elem_of_lookup_imap_1. cbn.
    rewrite SuccNat2Pos.id_succ. cbn [Nat.pred]. by rewrite Hi.
  - intros t s template _ _. by eexists.
Defined.

(** Two certificates and an EC key under the label [tls], an Ed25519 key beside. *)
Definition soft : Soft := {|
  opened := [1%positive]; logged := true;
  objs := [ [OClass CERTIFICATE; OLabel (bstr "tls"); OValue [Byte.x01]];
            [OClass PRIVATE_KEY; OLabel (bstr "tls"); OKeyType KtEC; OSign true; OId [Byte.x07]];
            [OClass CERTIFICATE; OLabel (bstr "tls"); OValue [Byte.x02]];
            [OClass PRIVATE_KEY; OLabel (bstr "ed"); OKeyType (KtOther EC_EDWARDS "EC_EDWARDS")] ] |}.

Definition provider : Pkcs11TlsProvider Soft := {| module := soft; provider_slot := 0%Z |}.
Definition pool : Pool := pool_of [1%positive] 1.
Definition tls13 (_ : unit) : string + unit := inr tt.

Lemma provider_never_opens_witness :
  exists e, provider_new (T:=Soft) "m" 0%Z "1234" = Err e /\ e = SessionError "login failed: CKR_USER_ALREADY_LOGGED_IN".
Proof.
  destruct (provider_never_opens (T:=Soft) "m" 0%Z "1234") as [e He]. exists e. split; [exact He|].
  vm_compute in He. by injection He as <-.
Defined.

Lemma direct_signing_witness :
  let t := {| opened := []; logged := false; objs := objs soft |} in
  let signer := signer_new 0%Z "1234" "tls" ECDSA_NISTP256_SHA256 in
  is_ok (direct_sign t signer []).2 = true /\ token_view (direct_signs t [(signer, []); (signer, [])]) 0%Z = ([], false) /\
  exists m, (direct_sign soft signer []).2 = Err (General (sign_error_display (SignSessionError m))).
Proof.
  cbv zeta. split; [vm_compute; reflexivity|]. split.
  - apply (proj1 (direct_signing _)); [repeat constructor|reflexivity].
  - apply (proj2 (direct_signing soft)). reflexivity.
Defined.

Definition tenants : list (bytes * (string * string)) := [(bstr "a.example", ("tls", "tls"))].

Lemma hsm_tenants_resolve_witness :
  exists p' cfg ck, server_config_sni tls13 provider pool 3 tenants true tt = Some (p', Ok cfg) /\
    sni_lookup (hsm_resolver cfg) (Some (bstr "a.example")) = Some ck /\
    SniResolver.cert ck = [[Byte.x01]; [Byte.x02]] /\ sk_algorithm (SniResolver.key ck) = ECDSA.
Proof.
  assert (match server_config_sni tls13 provider pool 3 tenants true tt with Some (_, Ok _) => true | _ => false end = true)
    as Hok by (vm_compute; reflexivity).
  destruct (server_config_sni tls13 provider pool 3 tenants true tt) as [[p' [cfg| |]]|] eqn:Hc; try discriminate Hok.
  destruct (hsm_tenants_resolve tls13 provider [1%positive] pool 3 ltac:(constructor) eq_refl tenants true tt p' cfg)
    as (_ & Hall & _); [repeat constructor|repeat constructor; set_solver|exact Hc|].
  destruct (Hall (bstr "a.example") "tls" "tls") as (ck & Hl & _ & Hcerts & _ & _ & o & rest & kt & Ho & Hkt & Ha); [by left|].
  exists p', cfg, ck. split_and!; [done|exact Hl| |].
  - revert Hcerts. generalize (SniResolver.cert ck). intros l Hcerts. vm_compute in Hcerts.
    apply Forall2_cons_inv_l in Hcerts as (a & l1 & [= <-] & Hcerts & ->).
    apply Forall2_cons_inv_l in Hcerts as (b & l2 & [= <-] & ->%Forall2_nil_inv_l & ->). reflexivity.
  - vm_compute in Ho. injection Ho as <- _. vm_compute in Hkt. injection Hkt as <-. by injection Ha as <-.
Defined.

Lemma import_cert_refused_witness :
  exists p' msg, import_cert provider pool 3 [Byte.x30] "new" = Some (p', Err (HsmError 0xB5 msg), soft).
Proof.
  destruct (import_cert_refused provider [1%positive] pool 3 ltac:(constructor) eq_refl [Byte.x30] "new")
    as (p' & code & msg & Hi & _); [repeat constructor|vm_compute; lia|].
  exists p', msg. rewrite Hi. vm_compute in Hi. injection Hi as _ <- _. reflexivity.
Defined.

Lemma list_keys_exact_witness :
  exists p' l, list_keys provider pool 3 None = Some (p', Ok l) /\
    (ki_key_type <$> l) = [KeyEcdsaP256; KeyEd25519] /\ (ki_signing_capable <$> l) = [true; false].
Proof.
  destruct (list_keys_exact provider [1%positive] pool 3 ltac:(constructor) eq_refl None)
    as (p' & _ & Hl); [repeat constructor|vm_compute; lia|].
  eexists p', _. split; [exact Hl|]. split; vm_compute; reflexivity.
Defined.
End Pkcs11ProviderWitness.
