(* ===== verification/UnitTests.v ===== *)
(** * UnitTests: the unit tests of the repository on the model

    The [mod tests] of oxitls-core (lib.rs, stream_info.rs), oxitls-h2 (lib.rs),
    oxitls-webpki-roots (lib.rs, expiring.rs, intermediate_cache.rs),
    oxitls-adapter-pkcs11 (resolver.rs, signer.rs) and of verifier/sct.rs, as
    definitions that run on the models of the code they test.  Where a test uses
    cryptography it is that of Standards: SHA-256, and ECDSA with the nonces of
    RFC 6979.  The tests of the root bundle pass for every bundle of a hundred
    anchors with distinct keys ([root_tests_pass]). *)

From S2P Require Import Prelude Core Crypto Hpke H2 Verifier Sct RootStore Standards SniResolver SessionPool Signer.

(** ** oxitls-core: lib.rs *)

Module CoreTests.
Definition tls_version_display_roundtrip : Test :=
  let v13 := Tls13 in
  let s := tls_version_display v13 in
  _ ← assert_eq s "TLS 1.3";
  parsed ← expect (tls_version_from_str s);
  _ ← assert_eq parsed v13;
  let v12 := Tls12 in
  let s := tls_version_display v12 in
  _ ← assert_eq s "TLS 1.2";
  parsed ← expect (tls_version_from_str s);
  assert_eq parsed v12.

Definition tls_version_parse_variants : Test :=
  _ ← assert_eq (ok (tls_version_from_str "tls1.3")) (Some Tls13);
  _ ← assert_eq (ok (tls_version_from_str "TLSv1.2")) (Some Tls12);
  _ ← assert_eq (ok (tls_version_from_str "1.3")) (Some Tls13);
  assert (is_err (tls_version_from_str "TLS 1.0")).

Definition cipher_suite_display_roundtrip : Test :=
  let suites := [Tls13Aes128GcmSha256; Tls13Aes256GcmSha384; Tls13Chacha20Poly1305Sha256;
    Tls12EcdheEcdsaAes128GcmSha256; Tls12EcdheEcdsaAes256GcmSha384; Tls12EcdheRsaAes128GcmSha256;
    Tls12EcdheRsaAes256GcmSha384; Tls12EcdheEcdsaChacha20Poly1305Sha256; Tls12EcdheRsaChacha20Poly1305Sha256] in
  for_each (fun suite =>
    let s := cipher_suite_display suite in
    parsed ← expect (cipher_suite_from_str s);
    assert_eq parsed suite) suites.

Definition cipher_suite_iana_roundtrip : Test :=
  let suites := [Tls13Aes128GcmSha256; Tls13Aes256GcmSha384; Tls13Chacha20Poly1305Sha256;
    Tls12EcdheEcdsaAes128GcmSha256; Tls12EcdheRsaChacha20Poly1305Sha256] in
  _ ← for_each (fun suite => assert_eq (from_iana (iana_value suite)) (Some suite)) suites;
  assert_eq (from_iana (Byte.xff, Byte.xff)) None.

Definition cipher_suite_version_classification : Test :=
  _ ← assert (is_tls13 Tls13Aes128GcmSha256);
  _ ← assert (negb (is_tls12 Tls13Aes128GcmSha256));
  _ ← assert (is_tls12 Tls12EcdheRsaAes128GcmSha256);
  assert (negb (is_tls13 Tls12EcdheRsaAes128GcmSha256)).

Definition connection_info_builder : Test :=
  let info := ConnectionInfoOps.with_sni "example.com"
    (ConnectionInfoOps.with_alpn_protocol (bstr "h2")
      (ConnectionInfoOps.with_cipher_suite Tls13Aes256GcmSha384
        (ConnectionInfoOps.with_version Tls13 ConnectionInfoOps.new))) in
  _ ← assert_eq (ci_version info) (Some Tls13);
  _ ← assert_eq (ci_cipher_suite info) (Some Tls13Aes256GcmSha384);
  _ ← assert_eq (ConnectionInfoOps.alpn_protocol_str info) (Some (bstr "h2"));
  _ ← assert_eq (ci_sni info) (Some "example.com");
  assert_eq (ci_peer_certificates info) [].

Definition connection_info_default : Test :=
  let info := ConnectionInfoOps.default in
  _ ← assert_eq (ci_version info) None;
  _ ← assert_eq (ci_cipher_suite info) None;
  _ ← assert_eq (ci_alpn_protocol info) None;
  _ ← assert_eq (ci_sni info) None;
  assert_eq (ci_peer_certificates info) [].

Definition tls_error_display_all_variants : Test :=
  let cases := [(Io BrokenPipe, "I/O error:"); (Handshake "test", "handshake error:"); (BadCert "test", "bad certificate:");
    (InvalidConfig "test", "invalid config:"); (CertRevoked "test", "certificate revoked:"); (Other "test", "TLS error:")] in
  for_each (fun '(err, prefix) => assert (String.prefix prefix (tls_error_display err))) cases.

Definition tls_error_predicates : Test :=
  _ ← assert (is_handshake (Handshake "x"));
  _ ← assert (negb (Core.is_io (Handshake "x")));
  _ ← assert (Core.is_io (Io OtherKind));
  _ ← assert (is_cert (BadCert "x"));
  _ ← assert (is_cert (CertRevoked "x"));
  _ ← assert (negb (is_cert (Other "x")));
  assert (is_config (InvalidConfig "x")).

Definition tls_error_from_io_error : Test :=
  let io_err := {| io_kind := ConnectionRefused; io_message := "refused" |} in
  let tls_err := tls_error_from_io io_err in
  assert (Core.is_io tls_err).

(** Reading the kind cannot fail. *)
Definition tls_error_into_io_error : Test :=
  let cases := [Io BrokenPipe; Handshake "hs"; BadCert "bc"; InvalidConfig "ic"; CertRevoked "cr"; Other "ot"] in
  for_each (fun tls_err => let io_err := io_error_from_tls tls_err in let _ := io_kind io_err in Ok tt) cases.

(** stream_info.rs *)
Definition tls_version_from_rustls_tls13 : Test := assert_eq (tls_version_from_rustls 0x0304) Tls13.
Definition tls_version_from_rustls_tls12 : Test := assert_eq (tls_version_from_rustls 0x0303) Tls12.
Definition tls_version_from_rustls_unknown_falls_back_to_tls12 : Test :=
  assert_eq (tls_version_from_rustls 0x0300) Tls12.
End CoreTests.

(** ** oxitls-h2: lib.rs *)

Module H2Tests.
Definition h2_settings_builder : Test :=
  let settings := with_initial_connection_window_size (with_header_table_size (with_max_header_list_size
    (with_max_concurrent_streams (with_max_frame_size (with_initial_window_size H2.new
      (Z.shiftl 1 20)) (Z.shiftl 1 14)) 100) 16384) 4096) (Z.shiftl 1 24) in
  _ ← assert_eq (initial_window_size settings) (Some (Z.shiftl 1 20));
  _ ← assert_eq (max_frame_size settings) (Some (Z.shiftl 1 14));
  _ ← assert_eq (max_concurrent_streams settings) (Some 100%Z);
  _ ← assert_eq (max_header_list_size settings) (Some 16384%Z);
  _ ← assert_eq (header_table_size settings) (Some 4096%Z);
  assert_eq (initial_connection_window_size settings) (Some (Z.shiftl 1 24)).

Definition h2_settings_default_all_none : Test :=
  let settings := H2.new in
  _ ← assert_eq (initial_window_size settings) None;
  _ ← assert_eq (max_frame_size settings) None;
  _ ← assert_eq (max_concurrent_streams settings) None;
  _ ← assert_eq (max_header_list_size settings) None;
  _ ← assert_eq (header_table_size settings) None;
  assert_eq (initial_connection_window_size settings) None.

Section Errors.
Context `{H2Types}.

Definition h2_error_predicates : Test :=
  let alpn_err := AlpnNotH2 "test" in
  _ ← assert (is_alpn_not_h2 alpn_err);
  _ ← assert (negb (is_h2 alpn_err));
  assert (negb (H2.is_io alpn_err)).

Definition h2_error_to_tls_error_conversion : Test :=
  let alpn_err := AlpnNotH2 "none" in
  let tls_err := tls_error_from_h2 alpn_err in
  _ ← assert (is_handshake tls_err);
  let io_err := IoErr {| io_kind := ConnectionReset; io_message := "reset" |} in
  let tls_err := tls_error_from_h2 io_err in
  assert (Core.is_io tls_err).

Definition h2_error_graceful_shutdown_timeout : Test :=
  let e := GracefulShutdownTimeout in
  _ ← assert (is_graceful_shutdown_timeout e);
  assert (negb (is_h2 e)).
End Errors.
End H2Tests.

(** ** oxitls-adapter-pkcs11: resolver.rs and signer.rs *)

Module Pkcs11Tests.
Definition sni_exact_match : Test :=
  let map := [(bstr "foo.example.com", 1%Z)] in
  assert_eq (match_sni map (bstr "foo.example.com") false None) (Some 1%Z).

(** In the order of the keys: the star comes before letters. *)
Definition sni_exact_takes_priority_over_wildcard : Test :=
  let map := [(bstr "*.example.com", 2%Z); (bstr "foo.example.com", 1%Z)] in
  assert_eq (match_sni map (bstr "foo.example.com") false None) (Some 1%Z).

Definition sni_wildcard_single_label : Test :=
  let map := [(bstr "*.example.com", 42%Z)] in
  assert_eq (match_sni map (bstr "bar.example.com") false None) (Some 42%Z).

Definition sni_wildcard_does_not_match_multilabel : Test :=
  let map := [(bstr "*.example.com", 42%Z)] in
  assert_eq (match_sni map (bstr "a.b.example.com") false None) None.

Definition sni_wildcard_does_not_match_apex : Test :=
  let map := [(bstr "*.example.com", 42%Z)] in
  assert_eq (match_sni map (bstr "example.com") false None) None.

Definition sni_strict_returns_none_on_no_match : Test :=
  let map : list (bytes * Z) := [] in
  assert_eq (match_sni map (bstr "other.example.com") true None) None.

Definition sni_non_strict_returns_default : Test :=
  let map : list (bytes * Z) := [] in
  let default := 99%Z in
  assert_eq (match_sni map (bstr "other.example.com") false (Some default)) (Some 99%Z).

Definition raw_ecdsa_to_der_is_valid_asn1 : Test :=
  let raw := replicate 32 Byte.x01 ++ replicate 32 Byte.x02 in
  der ← expect (raw_ecdsa_to_der raw);
  b ← index der 0;
  _ ← assert_eq b Byte.x30;
  assert (10 <? length der).

Definition raw_ecdsa_to_der_rejects_odd_length : Test :=
  let raw := replicate 63 Byte.x01 in
  match raw_ecdsa_to_der raw with
  | Err (InvalidSignatureLength _ _) => Ok tt
  | _ => Panic
  end.

(** [MockEcdsaBackend]: a software key with a fixed scalar. *)
Record MockEcdsaBackend := { mock_signing_key : Z }.

Definition mock_backend_new : R Empty_set MockEcdsaBackend :=
  let sk_bytes := replicate 32 Byte.x01 in
  match p256_secret_from_slice sk_bytes with
  | Some signing_key => Ok {| mock_signing_key := signing_key |}
  | None => Panic
  end.

Definition verifying_key (self : MockEcdsaBackend) : Z * Z := p256_public (mock_signing_key self).

#[export] Instance mock_backend : SigningBackend MockEcdsaBackend := {
  sign_raw self _ message :=
    let '(r, s) := Ecdsa.sign (mock_signing_key self) message in
    Ok (be_bytes 32 r ++ be_bytes 32 s);
}.

Definition mock_ecdsa_sign_internal_round_trip : Test :=
  mock ← mock_backend_new;
  let vk := verifying_key mock in
  let message := bstr "oxitls PKCS11-signer mock test message" in
  let mechanism := EcdsaSha256 in
  der ← expect (sign_internal mock mechanism message ECDSA_NISTP256_SHA256);
  b ← index der 0;
  _ ← assert_eq b Byte.x30;
  sig ← expect_some (read_ecdsa_sig der);
  assert (Ecdsa.verify vk message sig).

Definition mock_ecdsa_sign_internal_produces_der : Test :=
  mock ← mock_backend_new;
  let mechanism := EcdsaSha256 in
  der ← expect (sign_internal mock mechanism (bstr "test") ECDSA_NISTP256_SHA256);
  b ← index der 0;
  _ ← assert_eq b Byte.x30;
  assert (8 <? length der).
End Pkcs11Tests.

(** ** verifier/sct.rs *)

Module SctTests.
Definition minimal_sct_list_wire : R Empty_set bytes :=
  let entry := [] in
  let entry := entry ++ [Byte.x00] in
  let entry := entry ++ replicate 32 Byte.xab in
  let entry := entry ++ be_bytes 8 0x0102030405060708 in
  let entry := entry ++ be_bytes 2 0 in
  let entry := entry ++ [Byte.x04] in
  let entry := entry ++ [Byte.x03] in
  let entry := entry ++ be_bytes 2 0 in
  _ ← assert_eq (length entry) 47;
  let entry_len := Z.of_nat (length entry) in
  let body_len := Z.of_nat (2 + length entry) in
  let wire := [] in
  let wire := wire ++ be_bytes 2 body_len in
  let wire := wire ++ be_bytes 2 entry_len in
  Ok (wire ++ entry).

Definition der_octet_string (content : bytes) : R Empty_set bytes :=
  len ← (if length content <? 256 then Ok (Z.of_nat (length content)) else Panic);
  let v := [Byte.x04; u8 len] in
  Ok (v ++ content).

Definition strip_octet_string_unwraps_wrapped_sct_list : Test :=
  wire ← minimal_sct_list_wire;
  wrapped ← der_octet_string wire;
  stripped ← expect (strip_sct_octet_string wrapped);
  _ ← assert_eq stripped wire;
  scts ← expect (parse_sct_list stripped);
  _ ← assert_eq (length scts) 1;
  assert (is_err (parse_sct_list wrapped)).

Definition strip_octet_string_supports_long_form_length : Test :=
  let content := replicate 200 Byte.xee in
  let wrapped := [Byte.x04; Byte.x81; u8 200] in
  let wrapped := wrapped ++ content in
  stripped ← expect (strip_sct_octet_string wrapped);
  assert_eq stripped content.

Definition strip_octet_string_rejects_malformed : Test :=
  _ ← assert (is_err (strip_sct_octet_string []));
  _ ← assert (is_err (strip_sct_octet_string [Byte.x30; Byte.x00]));
  assert (is_err (strip_sct_octet_string [Byte.x04; Byte.x05; Byte.x00])).

(** rcgen issues a certificate with a custom extension, by its OID and content. *)
Definition extract_sct_extension_strips_nested_octet_string `{X509}
  (self_signed : list (list Z * bytes) -> R Empty_set bytes) : Test :=
  wire ← minimal_sct_list_wire;
  wrapped ← der_octet_string wire;
  let sct_oid := [1; 3; 6; 1; 4; 1; 11129; 2; 4; 2]%Z in
  cert_der ← self_signed [(sct_oid, wrapped)];
  extracted ← expect (extract_sct_extension cert_der);
  _ ← assert_eq extracted wire;
  scts ← expect (parse_sct_list extracted);
  assert_eq (length scts) 1.
End SctTests.

(** ** oxitls-webpki-roots *)

Module RootTests.
Section RootTests.
Context `{Sha256} `{X509} `{RootSources}.

(** lib.rs; the tests run in any order, [cell] is the [OnceLock] when one starts. *)
Definition root_store_non_empty (cell : option RootCertStore) : Test :=
  let '(_, store) := webpki_root_certs cell in assert (negb (length store =? 0)).

Definition root_cert_count_positive : Test :=
  let count := root_cert_count in assert (100 <? count).

Definition cached_store_returns_same_content (cell : option RootCertStore) : Test :=
  let '(cell, a) := webpki_root_certs cell in
  let '(cell, b) := webpki_root_certs cell in
  assert_eq (length a) (length b).

Definition filtered_always_true_equals_full (cell : option RootCertStore) : Test :=
  let '(_, full) := webpki_root_certs cell in
  let filtered := webpki_root_certs_filtered (fun _ => true) in
  assert_eq (length full) (length filtered).

Definition filtered_always_false_is_empty : Test :=
  let filtered := webpki_root_certs_filtered (fun _ => false) in
  assert (length filtered =? 0).

Definition list_trust_anchors_non_empty : Test :=
  anchors ← list_trust_anchors;
  _ ← assert (negb (length anchors =? 0));
  for_each (fun info =>
    _ ← assert (negb (length (subject_der info) =? 0));
    assert (negb (bool_decide (spki_sha256 info = replicate 32 Byte.x00)))) anchors.

Definition trust_anchor_info_display : Test :=
  anchors ← list_trust_anchors;
  first ← expect_some (anchors !! 0);
  let display := info_display first in
  assert (str_contains "SPKI-SHA256:" display).

Definition root_store_builder_empty : Test :=
  let store := build builder_new in assert (length store =? 0).

Definition root_store_builder_with_webpki (cell : option RootCertStore) : Test :=
  let store := build (with_webpki_roots builder_new) in
  _ ← assert (negb (length store =? 0));
  let '(_, full) := webpki_root_certs cell in
  assert_eq (length store) (length full).

Definition root_store_builder_exclude (cell : option RootCertStore) : Test :=
  anchors ← list_trust_anchors;
  first ← expect_some (anchors !! 0);
  let first_fp := spki_sha256 first in
  let store := build (exclude_fingerprint (with_webpki_roots builder_new) first_fp) in
  let '(_, full) := webpki_root_certs cell in
  assert_eq (length store) (length full - 1).

Definition merge_stores (cell : option RootCertStore) : Test :=
  let '(_, a) := webpki_root_certs cell in
  let b := [] in
  let merged := merge_root_stores [a; b] in
  assert_eq (length merged) (length a).

(** expiring.rs, at time [now]. *)
Definition public_helper_returns_empty_for_bundled_roots : Test :=
  let v := expiring_roots 365000 in assert (length v =? 0).

Definition from_ders_empty_input_returns_empty (now : Z) : Test :=
  v ← expiring_roots_from_ders now [] 30; assert (length v =? 0).

Definition from_ders_invalid_der_skipped_not_panicked (now : Z) : Test :=
  let bogus := [Byte.x00; Byte.x01; Byte.x02; Byte.x03] in
  v ← expiring_roots_from_ders now [bogus] 30; assert (length v =? 0).
End RootTests.

(** intermediate_cache.rs *)
Section CacheTests.
Context `{Sha256} `{Lru}.

(** [NonZeroUsize::new(n).expect(..)] *)
Definition cap (n : nat) : R Empty_set nat := if n =? 0 then Panic else Ok n.

Definition make_cert (seed : Z) : bytes := (fun i => u8 (Z.of_nat i + seed)) <$> seq 0 64.

Definition new_cache_is_empty : Test :=
  n ← cap 8;
  let cache := cache_new n in
  len ← expect (cache_len cache);
  _ ← assert_eq len 0;
  empty ← expect (cache_is_empty cache);
  assert empty.

Definition insert_then_get_roundtrip : Test :=
  n ← cap 4;
  let cache := cache_new n in
  let cert := make_cert 1 in
  let '(cache, r) := cache_insert cache cert in
  fp ← expect r;
  got ← expect (cache_get cache fp);
  _ ← assert_eq got (Some cert);
  len ← expect (cache_len cache);
  _ ← assert_eq len 1;
  empty ← expect (cache_is_empty cache);
  _ ← assert (negb empty);
  has ← expect (cache_contains cache fp);
  assert has.

Definition miss_returns_none : Test :=
  n ← cap 4;
  let cache := cache_new n in
  let missing := replicate 32 Byte.x00 in
  got ← expect (cache_get cache missing);
  _ ← assert_eq got None;
  has ← expect (cache_contains cache missing);
  assert (negb has).

Definition capacity_eviction : Test :=
  n ← cap 2;
  let cache := cache_new n in
  let a := make_cert 0 in
  let b := make_cert 1 in
  let c := make_cert 2 in
  let '(cache, fp_a) := cache_insert cache a in
  fp_a ← expect fp_a;
  let '(cache, fp_b) := cache_insert cache b in
  fp_b ← expect fp_b;
  let '(cache, fp_c) := cache_insert cache c in
  fp_c ← expect fp_c;
  len ← expect (cache_len cache);
  _ ← assert_eq len 2;
  got ← expect (cache_get cache fp_a);
  _ ← assert_eq got None;
  got ← expect (cache_get cache fp_b);
  _ ← assert_eq got (Some b);
  got ← expect (cache_get cache fp_c);
  assert_eq got (Some c).

Definition touch_promotes_entry : Test :=
  n ← cap 2;
  let cache := cache_new n in
  let a := make_cert 0 in
  let b := make_cert 1 in
  let c := make_cert 2 in
  let '(cache, fp_a) := cache_insert cache a in
  fp_a ← expect fp_a;
  let '(cache, fp_b) := cache_insert cache b in
  _ ← expect fp_b;
  let '(cache, touched) := cache_touch cache fp_a in
  touched ← expect touched;
  _ ← assert_eq touched (Some a);
  let '(cache, fp_c) := cache_insert cache c in
  _ ← expect fp_c;
  got ← expect (cache_get cache fp_a);
  assert_eq got (Some a).

Definition clear_drops_all_entries : Test :=
  n ← cap 4;
  let cache := cache_new n in
  let '(cache, r) := cache_insert cache (make_cert 0) in
  _ ← expect r;
  let '(cache, r) := cache_insert cache (make_cert 1) in
  _ ← expect r;
  len ← expect (cache_len cache);
  _ ← assert_eq len 2;
  let '(cache, r) := cache_clear cache in
  _ ← expect r;
  len ← expect (cache_len cache);
  _ ← assert_eq len 0;
  empty ← expect (cache_is_empty cache);
  assert empty.

Definition capacity_reports_configured_value : Test :=
  n ← cap 7;
  let cache := cache_new n in
  c ← expect (cache_capacity cache);
  assert_eq c 7.

Definition fingerprint_is_deterministic_sha256 : Test :=
  a ← expect (fingerprint_sha256 (bstr "hello"));
  b ← expect (fingerprint_sha256 (bstr "hello"));
  c ← expect (fingerprint_sha256 (bstr "world"));
  _ ← assert_eq a b;
  assert (negb (bool_decide (a = c))).
End CacheTests.
End RootTests.

(** ** They pass *)

Definition passes (t : Test) : bool := is_ok t.

Definition closed_tests `{H2Types} : list Test := let lru := RootStoreWitness.list_lru in
  [CoreTests.tls_version_display_roundtrip; CoreTests.tls_version_parse_variants;
   CoreTests.cipher_suite_display_roundtrip; CoreTests.cipher_suite_iana_roundtrip;
   CoreTests.cipher_suite_version_classification; CoreTests.connection_info_builder;
   CoreTests.connection_info_default; CoreTests.tls_error_display_all_variants; CoreTests.tls_error_predicates;
   CoreTests.tls_error_from_io_error; CoreTests.tls_error_into_io_error; CoreTests.tls_version_from_rustls_tls13;
   CoreTests.tls_version_from_rustls_tls12; CoreTests.tls_version_from_rustls_unknown_falls_back_to_tls12;
   H2Tests.h2_settings_builder; H2Tests.h2_settings_default_all_none; H2Tests.h2_error_predicates;
   H2Tests.h2_error_to_tls_error_conversion; H2Tests.h2_error_graceful_shutdown_timeout;
   Pkcs11Tests.sni_exact_match; Pkcs11Tests.sni_exact_takes_priority_over_wildcard;
   Pkcs11Tests.sni_wildcard_single_label; Pkcs11Tests.sni_wildcard_does_not_match_multilabel;
   Pkcs11Tests.sni_wildcard_does_not_match_apex; Pkcs11Tests.sni_strict_returns_none_on_no_match;
   Pkcs11Tests.sni_non_strict_returns_default; Pkcs11Tests.raw_ecdsa_to_der_is_valid_asn1;
   Pkcs11Tests.raw_ecdsa_to_der_rejects_odd_length; Pkcs11Tests.mock_ecdsa_sign_internal_round_trip;
   Pkcs11Tests.mock_ecdsa_sign_internal_produces_der;
   SctTests.strip_octet_string_unwraps_wrapped_sct_list; SctTests.strip_octet_string_supports_long_form_length;
   SctTests.strip_octet_string_rejects_malformed;
   RootTests.new_cache_is_empty; RootTests.insert_then_get_roundtrip; RootTests.miss_returns_none;
   RootTests.capacity_eviction; RootTests.touch_promotes_entry; RootTests.clear_drops_all_entries;
   RootTests.capacity_reports_configured_value; RootTests.fingerprint_is_deterministic_sha256].

(** The tests that need no outside data pass, with the LRU list of recent use as
    the cache and the standard algorithms. *)
Theorem closed_tests_pass `{H2Types} : forallb passes closed_tests = true.
Proof. vm_compute. reflexivity. Qed.

Section Roots.
Context `{Sha256Laws} `{X509} `{RootSources}.

(** The [OnceLock] holds nothing or the bundle. *)
Definition cell_ok (cell : option RootCertStore) : Prop := cell = None \/ cell = Some TLS_SERVER_ROOTS.

Lemma webpki_root_certs_full cell : cell_ok cell -> webpki_root_certs cell = (Some TLS_SERVER_ROOTS, TLS_SERVER_ROOTS).
Proof. by intros [->| ->]. Qed.

Lemma for_each_Forall {A} (f : A -> Test) xs : Forall (fun x => f x = Ok tt) xs -> for_each f xs = Ok tt.
Proof. induction 1 as [|x xs Hx _ IH]; [done|]. cbn. by rewrite Hx. Qed.

Lemma assert_eq_same {E A} `{EqDecision A} (x y : A) : x = y -> assert_eq (E:=E) x y = Ok tt.
Proof. intros ->. unfold assert_eq. by rewrite decide_True. Qed.

(** One anchor has the first one's key hash: itself. *)
Lemma exclude_first ta l :
  NoDup (sha256 (ta_spki ta) :: ((fun ta => sha256 (ta_spki ta)) <$> l)) ->
  filter (fun t => sha256 (ta_spki t) ∉ [] ++ [sha256 (ta_spki ta)]) (ta :: l) = l.
Proof.
  intros [Hni _]%NoDup_cons. rewrite filter_cons, decide_False by (cbn; set_solver).
  assert (forall l' : list TrustAnchor, (forall t, t ∈ l' -> sha256 (ta_spki t) <> sha256 (ta_spki ta)) ->
    filter (fun t => sha256 (ta_spki t) ∉ [] ++ [sha256 (ta_spki ta)]) l' = l') as Hf.
  { induction l' as [|t l' IH]; [done|]. intros Ht. rewrite filter_cons, decide_True.
    - f_equal. apply IH. intros. apply Ht. by right.
    - rewrite app_nil_l, list_elem_of_singleton. apply Ht. by left. }
  apply Hf. intros t Ht He. apply Hni. apply list_elem_of_fmap. by exists t.
Qed.

Lemma filter_all {A} (l : list A) : filter (fun _ => Is_true true) l = l.
Proof. induction l as [|x l IH]; [done|]. rewrite filter_cons, decide_True by done. by rewrite IH. Qed.

Lemma filter_nothing {A} (l : list A) : filter (fun _ => Is_true false) l = [].
Proof. induction l as [|x l IH]; [done|]. rewrite filter_cons, decide_False by (intros []). done. Qed.

Lemma filter_no_exclusion (l : list TrustAnchor) : filter (fun ta => sha256 (ta_spki ta) ∉ []) l = l.
Proof.
  induction l as [|x l IH]; [done|]. rewrite filter_cons, decide_True by apply not_elem_of_nil. by rewrite IH.
Qed.

(** The tests of lib.rs and expiring.rs pass for every bundle of more than a
    hundred anchors with names, whose keys have distinct hashes other than zero,
    whenever the four bytes of the last test are no certificate; whatever ran
    before. *)
Theorem root_tests_pass cell now e :
  cell_ok cell -> 100 < length TLS_SERVER_ROOTS ->
  Forall (fun ta => ta_subject ta <> [] /\ sha256 (ta_spki ta) <> replicate 32 Byte.x00) TLS_SERVER_ROOTS ->
  NoDup ((fun ta => sha256 (ta_spki ta)) <$> TLS_SERVER_ROOTS) ->
  xp_from_der [Byte.x00; Byte.x01; Byte.x02; Byte.x03] = inl e ->
  Forall (fun t => t = Ok tt)
    [RootTests.root_store_non_empty cell; RootTests.root_cert_count_positive;
     RootTests.cached_store_returns_same_content cell; RootTests.filtered_always_true_equals_full cell;
     RootTests.filtered_always_false_is_empty; RootTests.list_trust_anchors_non_empty;
     RootTests.trust_anchor_info_display; RootTests.root_store_builder_empty;
     RootTests.root_store_builder_with_webpki cell; RootTests.root_store_builder_exclude cell;
     RootTests.merge_stores cell; RootTests.public_helper_returns_empty_for_bundled_roots;
     RootTests.from_ders_empty_input_returns_empty now; RootTests.from_ders_invalid_der_skipped_not_panicked now].
Proof.
  intros Hcell Hlen Hall Hnd Hbogus.
  unfold RootTests.root_store_non_empty, RootTests.cached_store_returns_same_content,
    RootTests.filtered_always_true_equals_full, RootTests.list_trust_anchors_non_empty,
    RootTests.trust_anchor_info_display, RootTests.root_store_builder_with_webpki,
    RootTests.root_store_builder_exclude, RootTests.merge_stores, RootTests.root_cert_count_positive, root_cert_count,
    RootTests.filtered_always_false_is_empty, webpki_root_certs_filtered, RootTests.root_store_builder_empty.
  rewrite !(webpki_root_certs_full cell Hcell), list_trust_anchors_eq, !build_eq. cbn [mbind R_bind].
  destruct TLS_SERVER_ROOTS as [|ta l] eqn:Hr; [cbn in Hlen; lia|].
  rewrite filter_all, filter_nothing. cbn [include_webpki with_webpki_roots exclude_fingerprint builder_new
    excluded_spki_sha256 additional_der additional_pem fmap list_fmap concat app].
  repeat apply Forall_cons_2; try apply Forall_nil_2; try done; try (by apply assert_eq_same).
  all: try (rewrite (proj2 (Nat.ltb_lt _ _) Hlen); done).
  - cbn [length Nat.eqb negb assert mbind R_bind]. apply for_each_Forall.
    assert (forall t, ta_subject t <> [] /\ sha256 (ta_spki t) <> replicate 32 Byte.x00 ->
      (_ ← assert (negb (length (ta_subject t) =? 0));
       assert (negb (bool_decide (sha256 (ta_spki t) = replicate 32 Byte.x00)))) = Ok (E:=Empty_set) tt) as Hone.
    { intros t [Hs Hz]. rewrite bool_decide_false by done. by destruct (ta_subject t). }
    apply Forall_cons in Hall as [H1st Hrest]. apply Forall_cons. split; [by apply Hone|].
    apply Forall_fmap. eapply Forall_impl; [exact Hrest|]. intros t Ht. by apply Hone.
  - cbn [lookup list_lookup expect_some mbind R_bind]. unfold info_display. by rewrite str_contains_app.
  - rewrite filter_no_exclusion, app_nil_r. cbn [length Nat.eqb negb assert mbind R_bind]. by apply assert_eq_same.
  - cbn [lookup list_lookup expect_some mbind R_bind]. apply assert_eq_same.
    rewrite build_eq. cbn [include_webpki with_webpki_roots exclude_fingerprint builder_new
      excluded_spki_sha256 additional_der additional_pem fmap list_fmap concat spki_sha256].
    rewrite Hr, exclude_first by done. rewrite app_nil_r. cbn. lia.
  - apply assert_eq_same. unfold merge_root_stores. cbn [foldl app]. by rewrite app_nil_r.
  - unfold RootTests.from_ders_invalid_der_skipped_not_panicked, expiring_roots_from_ders. cbn [expiring_loop].
    unfold info_if_expiring_within. by rewrite Hbogus.
Qed.
End Roots.

(** An OID as text. *)
Definition dotted (oid : list Z) : string := String.concat "." (pretty.pretty <$> oid).

(** What the test of [extract_sct_extension] relies on: the certificate has the
    custom extensions it was asked for, after others that are no SCT lists. *)
Definition issues_custom_extensions `{X509} (self_signed : list (list Z * bytes) -> R Empty_set bytes) : Prop :=
  forall exts, exists der cert others, self_signed exts = Ok der /\ xp_from_der der = inr cert /\
    Forall (fun e => String.eqb (xp_oid e) SCT_LIST_OID = false) others /\
    (fun e => (xp_oid e, xp_value e)) <$> xp_extensions cert =
    ((fun e => (xp_oid e, xp_value e)) <$> others) ++ ((fun e => (dotted e.1, e.2)) <$> exts).

Lemma find_after_others others (exts : list XpExtension) v :
  Forall (fun e => String.eqb (xp_oid e) SCT_LIST_OID = false) others ->
  (fun e => (xp_oid e, xp_value e)) <$> exts =
    ((fun e => (xp_oid e, xp_value e)) <$> others) ++ [(SCT_LIST_OID, v)] ->
  exists e, List.find (fun e => String.eqb (xp_oid e) SCT_LIST_OID) exts = Some e /\ xp_value e = v.
Proof.
  intros Ho. revert exts. induction Ho as [|o others Hno _ IH]; intros [|e exts] He; try done;
    injection He as Hoid Hval Hrest; cbn.
  - exists e. by rewrite Hoid, String.eqb_refl.
  - rewrite Hoid, Hno. by apply IH.
Qed.

Theorem sct_extension_test_passes `{X509} self_signed :
  issues_custom_extensions self_signed ->
  SctTests.extract_sct_extension_strips_nested_octet_string self_signed = Ok tt.
Proof.
  intros Hss. unfold SctTests.extract_sct_extension_strips_nested_octet_string.
  destruct SctTests.minimal_sct_list_wire as [wire| |] eqn:Hw; [|done..]. cbn [mbind R_bind].
  destruct (SctTests.der_octet_string wire) as [wrapped| |] eqn:Hd; [|vm_compute in Hw; injection Hw as <-; vm_compute in Hd; done..].
  cbn [mbind R_bind]. destruct (Hss [([1; 3; 6; 1; 4; 1; 11129; 2; 4; 2]%Z, wrapped)]) as (der & cert & others & -> & Hx & Ho & He).
  cbn [mbind R_bind]. unfold extract_sct_extension. rewrite Hx. cbn [of_sum map_err mbind R_bind].
  destruct (find_after_others _ _ _ Ho He) as (e & -> & Hv). cbn [ok_or mbind R_bind]. rewrite Hv.
  vm_compute in Hw. injection Hw as <-. vm_compute in Hd. injection Hd as <-. vm_compute. reflexivity.
Qed.
